(* ===== verification/_CoqProject ===== *)
-Q . S2P
Prelude.v
GoStrings.v
Slice.v
Kube.v
MemApi.v
ApiTypes.v
GatewayApi.v
Target.v
Placer.v
Zones.v
EndpointHealth.v
Endpoints.v
EndpointProps.v
DnsHelper.v
HealthChecks.v
GoNet.v
GoUrl.v
Google.v
Aws.v
Health.v
ProbeController.v
Providers.v
ProviderHealth.v
RecordController.v
ZoneController.v
Metadata.v
GracePeriod.v
Placement.v
PolicyController.v
GatewayParams.v
GatewayController.v
ClusterClient.v
Events.v
TlsPolicy.v
TlsController.v
Instrumented.v
ProbeWorker.v
HealthFlow.v
DnsFlow.v
PlacementFlow.v
Startup.v
Wiring.v
DeepCopy.v
