(* ===== verification/Prelude.v ===== *)
(** * The multicluster-gateway-controller

    The program keeps Gateway API gateways of a hub cluster in step with many
    workload clusters: a Gateway is translated and placed on clusters (Gateway
    controller, Open Cluster Management placement), a DNSPolicy attached to it
    turns the placed gateways into DNS records with weights and geographies and
    into health checks (DNSPolicy controller), the records are published to
    Route 53 or Google Cloud DNS (DNSRecord and ManagedZone controllers, DNS
    providers), probes report which addresses are alive (DNSHealthCheckProbe
    controller, health monitor), and a TLSPolicy asks cert-manager for the
    listeners' certificates (TLSPolicy controller).

    The parts interact through the objects of the API server only: the Gateway
    controller writes the addresses of the clusters into a gateway's status as
    cluster/address, the DNSPolicy controller reads them back to create probes;
    the probe controller writes results into the probes' status, the DNSPolicy
    controller reads them to leave unhealthy endpoints out of a DNSRecord; the
    DNSRecord controller publishes it to the zone the ManagedZone controller
    keeps.  Two calls cross components directly: the GatewayPlacer interface
    and the DNS Provider interface.

    ** How the code is modelled

    A Go function is a Rocq function of the same name.  A pure one that can
    fail or panic returns [res] (a value, an error, a panic); one that talks to
    a server is a computation [M W A] over a world [W], which threads the world
    and keeps the effects made before an error.  Objects are records with the
    fields of the Go types.  Code that mutates through pointers (the endpoints
    of a record, the monitor's probes) works on an explicit heap.  Goroutines
    are the rules of a step relation.  Integers are [Z] with the wrap-around
    written out where the code adds to them.  Go's unspecified orders are
    arguments with their laws: [MapRange] (range over a map), [SetRange]
    (UnsortedList), [SortSlice] (sort.Slice, not stable).

    What is not in the repository is a class: its operations are arguments of
    the definitions, and what a theorem needs of them is a class of laws or a
    named hypothesis stating documented behaviour.  [MemApi] is an in-memory
    server that satisfies the laws of the API client; the witnesses run the
    controllers on it.

    ** Files and sources (below src/pkg unless said otherwise)

    - Prelude: results, the computation monad and its notation, Go's orders,
      lemmas on lists; GoStrings, GoNet, GoUrl: strings, strconv, net.ParseIP
      and the host:port functions of net, url.Parse; Slice: _internal/slice.
    - Kube: object metadata, conditions, finalizers, the API client and its
      laws (an update that takes the last finalizer off an object being
      deleted removes it), and [frames], what a computation leaves unchanged,
      with its tactic; MemApi: the in-memory server.
    - ApiTypes: apis/v1alpha1; DeepCopy: its zz_generated.deepcopy.go, with the
      types as they lie in memory; GatewayApi: traffic/gateway.go and the Gateway
      API types; Metadata: _internal/metadata.
    - Target: dns/target.go; Zones, Endpoints, EndpointHealth: findMatching-
      ManagedZone and the two halves of setEndpoints in controllers/dnspolicy/
      dns_helper.go; EndpointProps: their properties; DnsHelper: the rest of
      that file and dnspolicy_dnsrecords.go; HealthChecks:
      dnspolicy_healthchecks.go; PolicyController: dnspolicy_controller.go and
      _internal/conditions.
    - Google: dns/google; Aws: dns/aws, dns/health.go, dns/iso3166.go;
      Instrumented: dns/aws/client.go and metrics.go, the client in between;
      Providers: dns/dns.go, dns/dnsprovider; ProviderHealth: the health check
      reconciler of each provider; RecordController, ZoneController:
      controllers/dnsrecord, controllers/managedzone.
    - Health: health/; ProbeController: controllers/dnshealthcheckprobe;
      ProbeWorker: health/metrics.go and, of queuedProbeWorker.go, the
      transport and what happens to a request off the queue.
    - GracePeriod: _internal/gracePeriod; Placer: the GatewayPlacer interface;
      Placement: placement/ocm.go, which implements it; GatewayParams:
      controllers/gateway/params.go and gatewayclass_controller.go;
      GatewayController: gateway_controller.go, cluster_eventhandler.go and
      _internal/clusterSecret/util.go; ClusterClient: its client.go; Events: controllers/events and
      _internal/policy.
    - TlsPolicy: apis/v1alpha1/tlspolicy_types.go and the certificates of
      controllers/tlspolicy; TlsController: tlspolicy_controller.go.
    - Startup: cmd/controller/main.go, the SetupWithManager functions of the
      controllers, _internal/env, _internal/controller, and of the OCM addon
      (cmd/ocm, ocm/hub) the default values and the health check; Wiring: the
      registration of the API kinds and the addon's prober and main.
    - HealthFlow, DnsFlow, PlacementFlow: no code of their own; theorems about
      components together, from probe results to the stored record, from the
      clusters to what Route 53 serves, from a gateway's status to the works on
      the clusters.

    ** What the theorems show

    - Zones (C1, C3): the zone of a host is that of its nearest parent domain,
      it is found when reachable, and the search always ends.
    - Endpoints (C8-C10, C12): the pointer-updating loops refine a list of requested
      endpoints; when the default geo is served and the ids asked for are
      distinct, the result does not depend on the map order or the sort, and a
      second reconciliation of a record with the same probes makes no write,
      whatever orders it meets; every endpoint is well typed.
    - Publication (C5, C6): the loops that take unhealthy endpoints out end,
      publish only endpoints that are healthy and resolve, remove nothing
      healthy that still resolves, and fall back to the full set when nothing
      is left.
    - From end to end (C2, C7, C11, C14, C34): an address whose last probe
      results, as many as the threshold, were failures is withdrawn from the
      record; Route 53 serves a chain from the listener host to every address of
      every cluster with its weight; over any sequence of runs of [Ensure],
      failed ones included, of a record that is never empty the hosted zone holds
      exactly what was published last; a TLS policy that reconciled is Ready and
      has a certificate for every host of its TLS listeners, but for those whose
      creation was answered with AlreadyExists; at the end of a reconciliation
      that made it Programmed, a gateway is applied on exactly the clusters of
      the placement decision.
    - Records, probes and certificates of a policy (C13, C15, C16, C23, C25):
      after a successful reconciliation the server holds the expected objects,
      and the others that carry the labels of the gateway and policy are gone or
      being deleted.
    - Providers (C17-C22): Google batches are within the limit and lose nothing
      that fits, record sets and changes say what spec and status say; one
      batch tells Route 53 of a record, each change with the fields of its
      endpoint, weights and geo codes arrive as what they are (the country
      table compared with the list of assigned codes); and the provider does
      the same with the metrics as without them.
    - Monitor and probes (C24, C26, C27, C32): an invariant of every reachable
      state of the goroutines, the shutdown of the monitor included, the failure threshold as a property of the
      history of results, the controller keeping the monitor in step with the
      objects, and a probe connecting to the address of its cluster.
    - Controllers (C28-C31, C36, C37, C40): a stored Ready condition is true of
      what the steps of the reconciliation reported, errors are returned or
      reported, a Ready zone has in its parent the NS endpoint with its own name
      servers, and a finalizer goes, or the object with it, only after what it
      guards: the provider was told to delete the record, the records and probes
      of the policy are gone or going.
    - Placement (C4, C33, C35, C39): graceful deletion respects its deadline and
      completes after it, a deleted gateway is taken off its clusters, and the
      addresses written into a gateway's status are exactly those the expected
      probes check.
    - Deep copies (C38): a copied API object looks like the original and shares
      no memory with it, so that changing one is never seen in the other.

    The theorems without a number support these or cover the rest: [Startup]
    shows that the manager is started only with everything registered and that
    the events of probes, works and placement decisions lead back to the
    policies and gateways they concern; [Aws] that the health check diff
    converges; [ProviderHealth] that a health check is created once; [Placement]
    that placing converges; [ZoneController] that a zone's finalizer outlives
    the zone at the provider; [ClusterClient] which host and credentials a
    client gets; [Wiring] that every watched kind is in the scheme.

    Examples that end in a surprising result (a name such as
    [healthy_load_balancer_host_dropped], [finalizer_lost_without_decision],
    [shared_host_same_id], [already_exists_tolerated],
    [ns_record_without_servers], [other_type_deleted] or
    [states_are_continents]) document what the code does on a concrete input,
    not what it should do.

    ** Fuel and bounds

    [find_fuel] recurses once per label of a host and is run with the length of
    the host plus one ([find_fuel_enough], [zone_search_total]: it never runs
    out).  [cleanup] runs a pass for each endpoint removed so far; its fuel is
    the number of removed and remaining endpoints, which drops in each round
    ([cleanup_total]).  [sanitizeFuel]
    takes at least one character per step and is run with one more than the
    length of the text; [ipv6Groups] is run with 8, the number of groups of an
    address, at which the Go loop ends too.  All other recursions are structural.

    ** Not modelled

    The controllers work on immutable values; that this is faithful to code
    that mutates deep copies is what [DeepCopy] is about.  Registering the
    metrics with Prometheus and the buckets of the histogram; parsing the
    command line; log output and the printed forms used only in it; test
    doubles and test utilities (placement/fake, dns/fake, test/), which are
    built for the tests only.  Time passes only where a clock is read; the
    requeue intervals are results, not waits. *)

From stdpp Require Export base tactics option list list_numbers numbers strings gmap sets sorting relations.
From Stdlib Require Import ZArith Lia.
From Stdlib Require Export Ascii.

(** ** Go results: a value, an error, or a run-time panic *)

Inductive StatusReason :=
| ReasonNotFound
| ReasonAlreadyExists
| ReasonConflict
| ReasonOther.

#[export] Instance StatusReason_eq_dec : EqDecision StatusReason.
Proof. solve_decision. Defined.

(** A Go [error].  [ErrSentinel] is a package-level error variable, compared
    by [errors.Is]; [ErrApi] an API-server status error; [ErrWrap] is what
    [fmt.Errorf] builds from a [%w] verb; [ErrJoin] is [errors.Join] of two
    non-nil errors; [ErrInvalidParams] is the typed error of
    pkg/controllers/gateway/params.go. *)
Inductive goerror :=
| ErrSentinel (name : string)
| ErrApi (r : StatusReason) (msg : string)
| ErrText (msg : string)
| ErrWrap (msg : string) (inner : goerror)
| ErrJoin (e1 e2 : goerror)
| ErrInvalidParams (msg : string).

#[export] Instance goerror_eq_dec : EqDecision goerror.
Proof. solve_decision. Defined.

Inductive res (A : Type) :=
| Ok (a : A)
| Err (e : goerror)
| Panic.
Arguments Ok {A} a.
Arguments Err {A} e.
Arguments Panic {A}.

#[export] Instance res_eq_dec {A} `{EqDecision A} : EqDecision (res A).
Proof. solve_decision. Defined.

(** [k8serrors.ReasonForError]: the status reason, looked up through wrapped
    and joined errors. *)
Fixpoint ReasonForError (e : goerror) : option StatusReason :=
  match e with
  | ErrApi r _ => Some r
  | ErrWrap _ i => ReasonForError i
  | ErrJoin e1 e2 =>
      match ReasonForError e1 with
      | Some r => Some r
      | None => ReasonForError e2
      end
  | ErrSentinel _ | ErrText _ | ErrInvalidParams _ => None
  end.

Definition IsNotFound (e : goerror) : bool :=
  bool_decide (ReasonForError e = Some ReasonNotFound).
Definition IsAlreadyExists (e : goerror) : bool :=
  bool_decide (ReasonForError e = Some ReasonAlreadyExists).
Definition IsConflict (e : goerror) : bool :=
  bool_decide (ReasonForError e = Some ReasonConflict).

(** [errors.Is(e, sentinel)] for a package-level error variable. *)
Fixpoint errors_Is (e : goerror) (name : string) : bool :=
  match e with
  | ErrSentinel n => bool_decide (n = name)
  | ErrWrap _ i => errors_Is i name
  | ErrJoin e1 e2 => errors_Is e1 name || errors_Is e2 name
  | ErrApi _ _ | ErrText _ | ErrInvalidParams _ => false
  end.

(** [errors.Join(e, err)], the second error possibly nil. *)
Definition errors_Join (e : goerror) (oe : option goerror) : goerror :=
  match oe with
  | Some e' => ErrJoin e e'
  | None => e
  end.

(** [e.Error()]: the text of an error. *)
Fixpoint error_text (e : goerror) : string :=
  match e with
  | ErrSentinel m | ErrApi _ m | ErrText m | ErrInvalidParams m => m
  | ErrWrap m i => m +:+ error_text i
  | ErrJoin e1 e2 => error_text e1 +:+ String (Ascii.ascii_of_nat 10) (error_text e2)
  end.

(** ** The error monad and the state-and-error monad

    A call of a method that may touch the outside world (the API server, a DNS
    provider, the clock) is a function of the world [W]; a Go function that
    returns [(A, error)] is [M W A].  A panic aborts the rest. *)

Declare Scope go_scope.
Delimit Scope go_scope with go.

Definition rbind {A B} (m : res A) (f : A → res B) : res B :=
  match m with
  | Ok a => f a
  | Err e => Err e
  | Panic => Panic
  end.

Definition M (W A : Type) : Type := W → res A * W.

Definition ret {W A} (a : A) : M W A := λ w, (Ok a, w).
Definition fail {W A} (e : goerror) : M W A := λ w, (Err e, w).
Definition panic {W A} : M W A := λ w, (Panic, w).
Definition lift {W A} (r : res A) : M W A := λ w, (r, w).

Definition bind {W A B} (m : M W A) (f : A → M W B) : M W B := λ w,
  match m w with
  | (Ok a, w') => f a w'
  | (Err e, w') => (Err e, w')
  | (Panic, w') => (Panic, w')
  end.

(** [v, err := m; ...]: the error is a value the code goes on with. *)
Definition try {W A} (m : M W A) : M W (A + goerror) := λ w,
  match m w with
  | (Ok a, w') => (Ok (inl a), w')
  | (Err e, w') => (Ok (inr e), w')
  | (Panic, w') => (Panic, w')
  end.

Notation "'let!' x := m 'in' k" := (bind m (λ x, k))
  (at level 10, x pattern, m at level 100, k at level 200) : go_scope.
Notation "'do!' m 'in' k" := (bind m (λ _, k))
  (at level 10, m at level 100, k at level 200) : go_scope.
Notation "'let?' x := m 'in' k" := (rbind m (λ x, k))
  (at level 10, x pattern, m at level 100, k at level 200) : go_scope.

(** [for _, x := range l { if err := f(x); err != nil { return err } }] *)
Fixpoint forEach {W A} (l : list A) (f : A → M W unit) : M W unit :=
  match l with
  | [] => ret tt
  | x :: l' => bind (f x) (λ _, forEach l' f)
  end.

(** The same loop with an accumulator. *)
Fixpoint foldM {W A B} (f : B → A → M W B) (b : B) (l : list A) : M W B :=
  match l with
  | [] => ret b
  | x :: l' => bind (f b x) (λ b', foldM f b' l')
  end.

Fixpoint rfold {A B} (f : B → A → res B) (b : B) (l : list A) : res B :=
  match l with
  | [] => Ok b
  | x :: l' => rbind (f b x) (λ b', rfold f b' l')
  end.

(** ** Iteration over Go maps

    [for k, v := range m] visits the entries in an unspecified order. A
    [MapRange] is one choice of orders; a theorem about code that ranges over a
    map is stated for every such choice. *)
Class MapRange := {
  range_map {V : Type} : gmap string V → list (string * V);
  range_map_perm {V : Type} (m : gmap string V) : range_map m ≡ₚ map_to_list m
}.

(** The order of [map_to_list], used to evaluate examples. *)
Definition range_in_key_order : MapRange :=
  {| range_map := λ V m, map_to_list m; range_map_perm := λ V m, Permutation_refl _ |}.

(** [sets.Set.UnsortedList], likewise. *)
Class SetRange := {
  UnsortedList : gset string → list string;
  UnsortedList_perm (s : gset string) : UnsortedList s ≡ₚ elements s
}.

Definition list_in_key_order : SetRange :=
  {| UnsortedList := elements; UnsortedList_perm := λ s, Permutation_refl _ |}.

(** ** [sort.Slice] by a string key: sorted, a permutation, not stable *)
Class SortSlice := {
  sort_slice {A : Type} (key : A → string) : list A → list A;
  sort_slice_perm {A} (key : A → string) l : sort_slice key l ≡ₚ l;
  sort_slice_sorted {A} (key : A → string) l :
    Sorted (λ a b, String.le (key a) (key b)) (sort_slice key l)
}.

#[export] Instance key_le_dec {A} (key : A → string) :
  RelDecision (λ a b, String.le (key a) (key b)).
Proof. intros a b. apply _. Defined.

#[export] Instance key_le_total {A} (key : A → string) :
  Total (λ a b, String.le (key a) (key b)).
Proof. intros a b. apply String.le_total. Qed.

#[export] Instance key_le_trans {A} (key : A → string) :
  Transitive (λ a b, String.le (key a) (key b)).
Proof. intros a b c Hab Hbc. by transitivity (key b). Qed.

Definition sort_by_merging : SortSlice :=
  {| sort_slice := λ A key, merge_sort (λ a b, String.le (key a) (key b));
     sort_slice_perm := λ A key l, merge_sort_Permutation _ l;
     sort_slice_sorted := λ A key l, Sorted_merge_sort _ l |}.

(** ** Tactics and hints shared by the components *)

Create HintDb mgc.
Create Rewrite HintDb mgc.
#[export] Hint Resolve sort_slice_perm range_map_perm : mgc.

(** Run a monadic program one call further on a known outcome. *)
Ltac step H := unfold bind, try, ret, fail, lift in H |- *; rewrite ?H; cbn in H |- *.

(** Case on every boolean test and [match] scrutinee of the goal. *)
Ltac cases :=
  repeat (case_match || case_decide || case_bool_decide); simplify_eq/=.

(** ** Generic lemmas on lists, options and maps *)

Section lists.

Context {A : Type}.
Implicit Types l k : list A.

Lemma sublist_Forall (P : A → Prop) l k : sublist l k → Forall P k → Forall P l.
Proof.
  induction 1 as [|x l k Hs IH|x l k Hs IH]; [done|..]; intros [??]%Forall_cons; auto.
Qed.

Lemma sublist_delete_at l1 x l2 : sublist (l1 ++ l2) (l1 ++ x :: l2).
Proof. apply sublist_app; [done|]. by constructor. Qed.

(** Two sorts of one list by a key that tells its elements apart agree. *)
Lemma sorted_perm_unique (key : A → string) l k :
  NoDup (key <$> l) → l ≡ₚ k →
  Sorted (λ a b, String.le (key a) (key b)) l →
  Sorted (λ a b, String.le (key a) (key b)) k → l = k.
Proof.
  intros Hnd Hp Hl Hk. apply (Sorted_unique_strong (λ a b, String.le (key a) (key b))); [|done..].
  intros x y Hx Hy Hxy Hyx. assert (key x = key y) as Heq by (by apply (anti_symm String.le)).
  rewrite <- Hp in Hy. apply list_elem_of_lookup in Hx as [i Hi].
  apply list_elem_of_lookup in Hy as [j Hj].
  assert (i = j) as ->; [|by simplify_eq].
  eapply (NoDup_lookup (key <$> l)); [done|..]; rewrite list_lookup_fmap.
  - by rewrite Hi.
  - by rewrite Hj; simpl; rewrite Heq.
Qed.

Lemma filter_all (P : A → Prop) `{∀ x, Decision (P x)} l : Forall P l → filter P l = l.
Proof. induction 1; [done|]. rewrite filter_cons_True by done. by f_equal. Qed.

Lemma filter_none (P : A → Prop) `{∀ x, Decision (P x)} l :
  Forall (λ x, ¬ P x) l → filter P l = [].
Proof. induction 1; [done|]. by rewrite filter_cons_False by done. Qed.

Lemma rfold_Ok_app {B} (f : B → A → res B) b l k :
  rfold f b (l ++ k) = rbind (rfold f b l) (λ b', rfold f b' k).
Proof.
  revert b. induction l as [|x l IH]; intros b; simpl; [done|].
  destruct (f b x); simpl; [apply IH|done|done].
Qed.

Lemma filter_fmap {B} (f : B → A) (P : A → Prop) `{∀ x, Decision (P x)} (k : list B) :
  filter P (f <$> k) = f <$> filter (λ y, P (f y)) k.
Proof.
  induction k as [|y k IH]; [done|]. rewrite fmap_cons, !filter_cons, IH.
  by destruct (decide (P (f y))).
Qed.

Lemma bind_ext_in {B} (f g : A → list B) l : (∀ x, x ∈ l → f x = g x) → l ≫= f = l ≫= g.
Proof.
  induction l as [|x l IH]; intros Hfg; [done|]. rewrite !bind_cons, IH, (Hfg x); [done|..].
  - apply list_elem_of_here.
  - intros y Hy. apply Hfg. by right.
Qed.

Lemma filter_filter_sub (P Q : A → Prop) `{∀ x, Decision (P x)} `{∀ x, Decision (Q x)} l :
  (∀ x, x ∈ l → P x → Q x) → filter P (filter Q l) = filter P l.
Proof.
  induction l as [|x l IH]; intros Hpq; [done|]. rewrite !filter_cons.
  assert (filter P (filter Q l) = filter P l) as IH' by (apply IH; intros y Hy; apply Hpq; by right).
  pose proof (Hpq x (list_elem_of_here _ _)) as Hx. destruct (decide (Q x)).
  - by rewrite filter_cons, IH'.
  - rewrite IH', decide_False; naive_solver.
Qed.

(** Grouping by a key loses and duplicates nothing. *)
Lemma group_perm {B} `{EqDecision B} (key : A → B) (ns : list B) l :
  NoDup ns → (∀ x, x ∈ l → key x ∈ ns) →
  (n ← ns; filter (λ x, key x = n) l) ≡ₚ l.
Proof.
  intros Hnd. induction l as [|x l IH]; intros Hin.
  { clear. induction ns; [done|]. by rewrite bind_cons. }
  destruct (list_elem_of_split ns (key x)) as (n1 & n2 & ->); [apply Hin, list_elem_of_here|].
  transitivity (x :: (n ← n1 ++ key x :: n2; filter (λ x, key x = n) l)).
  2: { apply perm_skip, IH. intros y Hy. apply Hin. by right. }
  apply NoDup_app in Hnd as (_ & Hd1 & [Hd2 _]%NoDup_cons).
  assert (∀ ns', key x ∉ ns' →
    (n ← ns'; filter (λ y, key y = n) (x :: l)) = (n ← ns'; filter (λ y, key y = n) l)) as Hskip.
  { clear. induction ns' as [|n ns' IH]; [done|]. rewrite not_elem_of_cons. intros [Hne Hn].
    rewrite !bind_cons, filter_cons, IH by done. by rewrite decide_False by done. }
  rewrite !bind_app, !bind_cons, !Hskip; [|done|].
  2: { intros Hx. apply (Hd1 _ Hx), list_elem_of_here. }
  rewrite filter_cons, decide_True by done. simpl. symmetry. apply Permutation_middle.
Qed.

End lists.
