(* ===== verification/GoStrings.v ===== *)
(** * Go's [strings] and [strconv], as far as the controller uses them

    A Go string is a sequence of bytes, here [string] (bytes are [ascii]).
    Case mapping and white space are the ASCII ones: the strings the
    controller maps are DNS names, listener names and record values. *)

From S2P Require Import Prelude.
From Stdlib Require Import Ascii DecimalString Decimal DecimalZ ZArith Lia.
From Stdlib Require String.

(** ** strings *)

Module strings.

Definition lower_ascii (c : ascii) : ascii :=
  let n := N_of_ascii c in
  if (65 <=? n)%N && (n <=? 90)%N then ascii_of_N (n + 32) else c.

Definition upper_ascii (c : ascii) : ascii :=
  let n := N_of_ascii c in
  if (97 <=? n)%N && (n <=? 122)%N then ascii_of_N (n - 32) else c.

Fixpoint smap (f : ascii → ascii) (s : string) : string :=
  match s with
  | "" => ""
  | String c s' => String (f c) (smap f s')
  end.

Definition ToLower : string → string := smap lower_ascii.
Definition ToUpper : string → string := smap upper_ascii.

Definition HasPrefix (s prefix : string) : bool := String.prefix prefix s.

Fixpoint Contains (s substr : string) : bool :=
  String.prefix substr s ||
  match s with
  | "" => false
  | String _ s' => Contains s' substr
  end.

(** The string around the first [c]; [None] when [c] does not occur. *)
Fixpoint cut (c : ascii) (s : string) : option (string * string) :=
  match s with
  | "" => None
  | String a s' =>
      if decide (a = c) then Some ("", s')
      else match cut c s' with
           | Some (l, r) => Some (String a l, r)
           | None => None
           end
  end.

(** [strings.SplitN(s, c, 2)] *)
Definition SplitN2 (s : string) (c : ascii) : list string :=
  match cut c s with
  | Some (l, r) => [l; r]
  | None => [s]
  end.

(** [strings.Split(s, c)] for a one-byte separator. *)
Fixpoint Split (s : string) (c : ascii) : list string :=
  match s with
  | "" => [""]
  | String a s' =>
      if decide (a = c) then "" :: Split s' c
      else match Split s' c with
           | w :: ws => String a w :: ws
           | [] => [String a ""]
           end
  end.

Fixpoint drop (n : nat) (s : string) : string :=
  match n, s with
  | S n', String _ s' => drop n' s'
  | _, _ => s
  end.

Fixpoint take (n : nat) (s : string) : string :=
  match n, s with
  | S n', String a s' => String a (take n' s')
  | _, _ => ""
  end.

(** [strings.Replace(s, old, new, 1)] *)
Fixpoint Replace1 (s old new : string) : string :=
  if String.prefix old s then new +:+ drop (String.length old) s
  else match s with
       | "" => ""
       | String a s' => String a (Replace1 s' old new)
       end.

(** [strings.Replace(s, old, new, -1)] for a non-empty [old]; [skip] bytes of
    the match being replaced are still to be dropped. *)
Fixpoint replace_all_go (skip : nat) (s old new : string) : string :=
  match s with
  | "" => ""
  | String a s' =>
      match skip with
      | S skip' => replace_all_go skip' s' old new
      | O => if String.prefix old s
             then new +:+ replace_all_go (String.length old - 1) s' old new
             else String a (replace_all_go 0 s' old new)
      end
  end.
Definition ReplaceAll : string → string → string → string := replace_all_go 0.

Fixpoint TrimSuffix (s suffix : string) : string :=
  if decide (s = suffix) then ""
  else match s with
       | "" => ""
       | String a s' => String a (TrimSuffix s' suffix)
       end.

Fixpoint trim_left (s : string) : string :=
  match s with
  | String a s' => if Ascii.is_space a then trim_left s' else s
  | "" => ""
  end.
Definition TrimSpace (s : string) : string :=
  String.rev (trim_left (String.rev (trim_left s))).

(** [strings.ContainsAny(s, chars)] *)
Fixpoint ContainsAny (s : string) (chars : list ascii) : bool :=
  match s with
  | "" => false
  | String a s' => bool_decide (a ∈ chars) || ContainsAny s' chars
  end.

(** Go's [<] on strings: byte-wise lexicographic. *)
Definition lt (s1 s2 : string) : bool := String.ltb s1 s2.

End strings.

(** ** strconv *)

Module strconv.

Definition min_int64 : Z := - 2 ^ 63.
Definition max_int64 : Z := 2 ^ 63 - 1.

(** The value of an [int] (64 bits) after overflow. *)
Definition wrap_int64 (z : Z) : Z := ((z + 2 ^ 63) mod 2 ^ 64 - 2 ^ 63)%Z.

Definition Itoa (z : Z) : string := NilZero.string_of_int (Z.to_int z).
Definition FormatInt (z : Z) : string := Itoa z.

(** [strconv.ParseInt(s, 10, 64)] and, on a 64-bit platform, [strconv.Atoi]:
    an optional sign, then decimal digits, the value within [int64]. *)
Definition ParseInt (s : string) : option Z :=
  let unsigned s' := Z.of_uint <$> NilZero.uint_of_string s' in
  let in_range z := (min_int64 <=? z)%Z && (z <=? max_int64)%Z in
  let z :=
    match s with
    | String "-" s' => Z.opp <$> unsigned s'
    | String "+" s' => unsigned s'
    | _ => unsigned s
    end in
  match z with
  | Some v => if in_range v then Some v else None
  | None => None
  end.
Definition Atoi : string → option Z := ParseInt.

End strconv.

(** ** Lemmas on strings *)

Section append.

Implicit Types s t u : string.

Lemma sapp_cons c s t : String c s +:+ t = String c (s +:+ t).
Proof. done. Qed.

Lemma sapp_nil_l s : "" +:+ s = s.
Proof. done. Qed.

Lemma sapp_nil_r s : s +:+ "" = s.
Proof. induction s as [|c s IH]; [done|]. by rewrite sapp_cons, IH. Qed.

Lemma sapp_assoc s t u : s +:+ t +:+ u = (s +:+ t) +:+ u.
Proof. induction s as [|c s IH]; [done|]. by rewrite !sapp_cons, IH. Qed.

Lemma slength_app s t : String.length (s +:+ t) = String.length s + String.length t.
Proof. induction s as [|c s IH]; [done|]. rewrite sapp_cons; simpl; lia. Qed.

Lemma sapp_inj_r s t u : s +:+ u = t +:+ u → s = t.
Proof.
  revert t. induction s as [|c s IH]; intros [|d t] H; [done|..].
  1, 2: apply (f_equal String.length) in H; rewrite !slength_app in H; simpl in H; lia.
  rewrite !sapp_cons in H. simplify_eq. f_equal. eauto.
Qed.

Lemma sapp_inj_length s1 s2 t1 t2 :
  String.length s1 = String.length s2 → s1 +:+ t1 = s2 +:+ t2 → s1 = s2 ∧ t1 = t2.
Proof.
  revert s2. induction s1 as [|c s1 IH]; intros [|d s2] Hl; [done..|].
  rewrite !sapp_cons. injection Hl as Hl. injection 1 as -> Heq.
  by destruct (IH s2 Hl Heq) as [-> ->].
Qed.

Lemma prefix_spec s t : String.prefix s t = true ↔ ∃ u, t = s +:+ u.
Proof.
  revert t. induction s as [|c s IH]; intros [|d t]; simpl.
  - split; [by exists ""|done].
  - split; [by exists (String d t)|done].
  - split; [done|]. intros [u Hu]. by rewrite sapp_cons in Hu.
  - destruct (Ascii.ascii_dec c d) as [->|Hne].
    + rewrite IH. split; intros [u Hu]; exists u.
      * by rewrite sapp_cons, Hu.
      * rewrite sapp_cons in Hu. by simplify_eq.
    + split; [done|]. intros [u Hu]. rewrite sapp_cons in Hu. by simplify_eq.
Qed.

Lemma drop_app s t : strings.drop (String.length s) (s +:+ t) = t.
Proof. induction s as [|c s IH]; [by destruct t|done]. Qed.

End append.

Create Rewrite HintDb gostr.
#[export] Hint Rewrite sapp_nil_l sapp_nil_r sapp_cons slength_app : gostr.

Section case_mapping.

Implicit Types s t : string.

Lemma lower_ascii_idemp c : strings.lower_ascii (strings.lower_ascii c) = strings.lower_ascii c.
Proof. by destruct c as [[] [] [] [] [] [] [] []]. Qed.

Lemma smap_app f s t : strings.smap f (s +:+ t) = strings.smap f s +:+ strings.smap f t.
Proof. induction s as [|c s IH]; [done|]. rewrite sapp_cons. simpl. by rewrite IH. Qed.

Lemma ToLower_idemp s : strings.ToLower (strings.ToLower s) = strings.ToLower s.
Proof.
  unfold strings.ToLower. induction s as [|c s IH]; [done|]. simpl.
  by rewrite lower_ascii_idemp, IH.
Qed.

Lemma ToLower_app s t : strings.ToLower (s +:+ t) = strings.ToLower s +:+ strings.ToLower t.
Proof. apply smap_app. Qed.

Lemma ToLower_length s : String.length (strings.ToLower s) = String.length s.
Proof. unfold strings.ToLower. induction s as [|c s IH]; simpl; [done|]. by rewrite IH. Qed.

End case_mapping.

(** [cut c s] splits at the first [c] and only there. *)
Section cut.

Context (c : ascii).
Implicit Types s t l r : string.

Fixpoint occurs (s : string) : bool :=
  match s with
  | "" => false
  | String a s' => bool_decide (a = c) || occurs s'
  end.

Lemma occurs_app s t : occurs (s +:+ t) = occurs s || occurs t.
Proof.
  induction s as [|a s IH]; [done|]. rewrite sapp_cons. cbn. by rewrite IH, orb_assoc.
Qed.

Lemma cut_Some s l r :
  strings.cut c s = Some (l, r) → s = l +:+ String c r ∧ occurs l = false.
Proof.
  revert l r. induction s as [|a s IH]; simpl; intros l r H; [done|].
  case_decide; [by simplify_eq|].
  destruct (strings.cut c s) as [[l' r']|]; simplify_eq/=.
  destruct (IH _ _ eq_refl) as [-> Hl].
  split; [done|]. by rewrite bool_decide_eq_false_2, Hl.
Qed.

Lemma cut_None s : strings.cut c s = None → occurs s = false.
Proof.
  induction s as [|a s IH]; simpl; intros H; [done|].
  case_decide; [done|]. destruct (strings.cut c s) as [[l r]|]; [done|].
  by rewrite bool_decide_eq_false_2, IH.
Qed.

Lemma cut_app l r : occurs l = false → strings.cut c (l +:+ String c r) = Some (l, r).
Proof.
  induction l as [|a l IH]; simpl; intros H.
  - cbn. by rewrite decide_True.
  - apply orb_false_iff in H as [Ha Hl]. apply bool_decide_eq_false in Ha.
    cbn. by rewrite decide_False, IH.
Qed.

Lemma cut_length s l r :
  strings.cut c s = Some (l, r) → String.length r < String.length s.
Proof.
  intros [-> _]%cut_Some. rewrite slength_app. simpl. lia.
Qed.

Lemma Split_nonempty s : strings.Split s c ≠ [].
Proof. destruct s; simpl; [done|]. case_decide; [done|]. by case_match. Qed.

(** [strings.Split(l + c + r, c)] for [l], [r] without [c]. *)
Lemma Split_no s : occurs s = false → strings.Split s c = [s].
Proof.
  induction s as [|a s IH]; simpl; intros H; [done|].
  apply orb_false_iff in H as [Ha Hs]. apply bool_decide_eq_false in Ha.
  by rewrite decide_False, IH.
Qed.

Lemma Split_app l r :
  occurs l = false → strings.Split (l +:+ String c r) c = l :: strings.Split r c.
Proof.
  induction l as [|a l IH]; simpl; intros H.
  - cbn. by rewrite decide_True.
  - apply orb_false_iff in H as [Ha Hs]. apply bool_decide_eq_false in Ha.
    cbn. by rewrite decide_False, IH.
Qed.

End cut.

(** ** strconv round trip *)

Lemma uint_of_string_sign d s' c :
  NilZero.string_of_uint d = String c s' → c ≠ "-"%char ∧ c ≠ "+"%char.
Proof. destruct d; cbn; intros; simplify_eq; split; done. Qed.

Lemma ParseInt_in_range z s :
  (strconv.min_int64 ≤ z ≤ strconv.max_int64)%Z →
  (if (strconv.min_int64 <=? z)%Z && (z <=? strconv.max_int64)%Z then s else None) = s :> option Z.
Proof. intros [??]. by rewrite (proj2 (Z.leb_le _ _)), (proj2 (Z.leb_le _ _)) by done. Qed.

Lemma Itoa_nonneg d z :
  d ≠ Nil → Z.of_uint d = z →
  (strconv.min_int64 ≤ z ≤ strconv.max_int64)%Z →
  strconv.ParseInt (NilZero.string_of_uint d) = Some z.
Proof.
  intros Hd <- Hz. unfold strconv.ParseInt.
  destruct (NilZero.string_of_uint d) as [|c s'] eqn:E.
  { by destruct d. }
  destruct (uint_of_string_sign d s' c E) as [Hm Hp].
  assert (NilZero.uint_of_string (String c s') = Some d) as Hu.
  { by rewrite <- E, NilZero.usu. }
  assert (∀ A (a b x : A), match c with "-"%char => a | "+"%char => b | _ => x end = x) as Hc.
  { intros A a b x. by destruct c as [[] [] [] [] [] [] [] []]. }
  rewrite Hc, Hu. simpl. by apply ParseInt_in_range.
Qed.

(** Formatting an [int64] and parsing it back is the identity. *)
Lemma Itoa_ParseInt z :
  (strconv.min_int64 ≤ z ≤ strconv.max_int64)%Z →
  strconv.ParseInt (strconv.Itoa z) = Some z.
Proof.
  intros Hz. pose proof (DecimalZ.of_to z) as Hto.
  destruct z as [|p|p]; [done|..]; unfold strconv.Itoa; simpl in Hto |- *.
  - apply Itoa_nonneg; [apply DecimalPos.Unsigned.to_uint_nonnil|done|done].
  - unfold strconv.ParseInt.
    rewrite NilZero.usu by apply DecimalPos.Unsigned.to_uint_nonnil.
    simpl. rewrite Hto. by apply ParseInt_in_range.
Qed.
