(* ===== verification/Slice.v ===== *)
(** * pkg/_internal/slice/slice.go

    The generic slice helpers.  A nil slice and an empty one are both [[]]. *)

From S2P Require Import Prelude.
Local Open Scope go_scope.

Module slice.

Fixpoint RemoveString (slice : list string) (s : string) : list string :=
  match slice with
  | [] => []
  | item :: rest =>
      if decide (item = s) then RemoveString rest s
      else item :: RemoveString rest s
  end.

Fixpoint ContainsString (slice : list string) (s : string) : bool :=
  match slice with
  | [] => false
  | item :: rest => if decide (item = s) then true else ContainsString rest s
  end.

(** [Find] returns the element and [ok]; here [None] is [ok = false]. *)
Fixpoint Find {T} (slice : list T) (predicate : T → bool) : option T :=
  match slice with
  | [] => None
  | elem :: rest => if predicate elem then Some elem else Find rest predicate
  end.

Definition Contains {T} (slice : list T) (predicate : T → bool) : bool :=
  match Find slice predicate with
  | Some _ => true
  | None => false
  end.

Fixpoint Filter {T} (slice : list T) (predicate : T → bool) : list T :=
  match slice with
  | [] => []
  | elem :: rest =>
      if predicate elem then elem :: Filter rest predicate else Filter rest predicate
  end.

Fixpoint MapErr {T R} (slice : list T) (f : T → res R) : res (list R) :=
  match slice with
  | [] => Ok []
  | elem :: rest =>
      let? mapped := f elem in
      let? result := MapErr rest f in
      Ok (mapped :: result)
  end.

End slice.

(** ** Lemmas *)

Section slice_lemmas.

Context {T : Type}.
Implicit Types (l : list T) (p : T → bool).

Lemma Find_Some l p x :
  slice.Find l p = Some x →
  ∃ l1 l2, l = l1 ++ x :: l2 ∧ p x = true ∧ Forall (λ y, p y = false) l1.
Proof.
  induction l as [|y l IH]; simpl; intros H; [done|]. destruct (p y) eqn:Hy; simplify_eq.
  - by exists [], l.
  - destruct IH as (l1 & l2 & -> & Hx & Hl); [done|]. exists (y :: l1), l2. auto.
Qed.

Lemma Find_None l p : slice.Find l p = None ↔ Forall (λ y, p y = false) l.
Proof.
  induction l as [|y l IH]; simpl; [done|]. rewrite Forall_cons.
  destruct (p y); [naive_solver|]. rewrite IH. naive_solver.
Qed.

Lemma Contains_true l p : slice.Contains l p = true ↔ ∃ x, x ∈ l ∧ p x = true.
Proof.
  unfold slice.Contains. destruct (slice.Find l p) as [x|] eqn:E.
  - apply Find_Some in E as (l1 & l2 & -> & Hx & _). split; [|done]. intros _.
    exists x. split; [set_solver|done].
  - apply Find_None in E. rewrite Forall_forall in E. split; [done|].
    intros (x & Hx & Hp). by rewrite E in Hp.
Qed.

Lemma Filter_spec l p x : x ∈ slice.Filter l p ↔ x ∈ l ∧ p x = true.
Proof.
  induction l as [|y l IH]; simpl; [set_solver|].
  destruct (p y) eqn:Hy; rewrite ?elem_of_cons, IH; naive_solver congruence.
Qed.

Lemma ContainsString_spec (l : list string) s : slice.ContainsString l s = true ↔ s ∈ l.
Proof.
  induction l as [|y l IH]; simpl; [set_solver|].
  case_decide; rewrite elem_of_cons, ?IH; naive_solver.
Qed.

End slice_lemmas.

#[export] Hint Rewrite ContainsString_spec : mgc.
