(* ===== verification/Kube.v ===== *)
(** * Kubernetes objects and the API client

    The data of [metav1] the controllers read and write, and the interfaces of
    the code that is not in the repository: the API client
    (controller-runtime's [client.Client]), the status-condition helpers of
    apimachinery's [meta] package and the finalizer helpers of
    [controllerutil].  Each interface is a class with the operations the
    source calls; what the theorems rely on is a separate class of laws that
    states the documented behaviour. *)

From S2P Require Import Prelude GoStrings.
Local Open Scope go_scope.

(** ** Object metadata *)

(** [client.ObjectKey]: namespace, name. *)
Definition ObjectKey : Type := (string * string)%type.

Abbreviation StringMap := (gmap string string).

(** Times are Unix seconds; the zero [time.Time] is year 1. *)
Definition zeroTime : Z := -62135596800.

Record ObjectMeta := mkObjectMeta {
  Name : string;
  Namespace : string;
  Labels : StringMap;
  Annotations : StringMap;
  Finalizers : list string;
  Generation : Z;
  DeletionTimestamp : option Z;
  (** name of the object that controls this one (SetControllerReference) *)
  ControllerRef : option string
}.

#[export] Instance ObjectMeta_eq_dec : EqDecision ObjectMeta.
Proof. solve_decision. Defined.

Definition newObjectMeta (name ns : string) : ObjectMeta :=
  mkObjectMeta name ns ∅ ∅ [] 0 None None.

Definition objectKey (m : ObjectMeta) : ObjectKey := (Namespace m, Name m).

Definition set_Labels (l : StringMap) (m : ObjectMeta) : ObjectMeta :=
  mkObjectMeta (Name m) (Namespace m) l (Annotations m) (Finalizers m)
    (Generation m) (DeletionTimestamp m) (ControllerRef m).
Definition set_Annotations (a : StringMap) (m : ObjectMeta) : ObjectMeta :=
  mkObjectMeta (Name m) (Namespace m) (Labels m) a (Finalizers m)
    (Generation m) (DeletionTimestamp m) (ControllerRef m).
Definition set_Finalizers (f : list string) (m : ObjectMeta) : ObjectMeta :=
  mkObjectMeta (Name m) (Namespace m) (Labels m) (Annotations m) f
    (Generation m) (DeletionTimestamp m) (ControllerRef m).
Definition set_ControllerRef (c : option string) (m : ObjectMeta) : ObjectMeta :=
  mkObjectMeta (Name m) (Namespace m) (Labels m) (Annotations m) (Finalizers m)
    (Generation m) (DeletionTimestamp m) c.

(** [DeletionTimestamp != nil && !DeletionTimestamp.IsZero()] *)
Definition isDeleting (m : ObjectMeta) : bool :=
  match DeletionTimestamp m with
  | Some t => bool_decide (t ≠ zeroTime)
  | None => false
  end.

(** ** Status conditions *)

(** The last one is the empty string of a condition without a status. *)
Inductive ConditionStatus := ConditionTrue | ConditionFalse | ConditionUnknown | ConditionNoStatus.

#[export] Instance ConditionStatus_eq_dec : EqDecision ConditionStatus.
Proof. solve_decision. Defined.

Record Condition := mkCondition {
  cType : string;
  cStatus : ConditionStatus;
  cReason : string;
  cMessage : string;
  cObservedGeneration : Z
}.

#[export] Instance Condition_eq_dec : EqDecision Condition.
Proof. solve_decision. Defined.

(** [meta.SetStatusCondition] and friends (apimachinery). *)
Class ConditionOps := {
  SetStatusCondition : list Condition → Condition → list Condition;
  FindStatusCondition : list Condition → string → option Condition;
  RemoveStatusCondition : list Condition → string → list Condition
}.

Definition IsStatusConditionTrue `{ConditionOps} (cs : list Condition) (t : string) : bool :=
  match FindStatusCondition cs t with
  | Some c => bool_decide (cStatus c = ConditionTrue)
  | None => false
  end.

(** pkg/_internal/conditions *)
Definition ConditionTypeReady : string := "Ready".

(** "SetStatusCondition sets the corresponding condition in conditions to
    newCondition"; the others stay; "RemoveStatusCondition removes the
    corresponding conditionType". *)
Class ConditionLaws `{ConditionOps} : Prop := {
  find_set_eq cs c : FindStatusCondition (SetStatusCondition cs c) (cType c) = Some c;
  find_set_ne cs c t : t ≠ cType c →
    FindStatusCondition (SetStatusCondition cs c) t = FindStatusCondition cs t;
  find_remove_eq cs t : FindStatusCondition (RemoveStatusCondition cs t) t = None;
  find_remove_ne cs t t' : t ≠ t' →
    FindStatusCondition (RemoveStatusCondition cs t) t' = FindStatusCondition cs t'
}.

(** ** Finalizers ([controllerutil]) *)

Class FinalizerOps := {
  ContainsFinalizer : ObjectMeta → string → bool;
  AddFinalizer : ObjectMeta → string → ObjectMeta;
  RemoveFinalizer : ObjectMeta → string → ObjectMeta
}.

(** "AddFinalizer adds the provided finalizer if not present",
    "RemoveFinalizer removes the provided finalizer if present",
    "ContainsFinalizer checks that the provided finalizer is present"; they
    touch the object's finalizer list and nothing else. *)
Class FinalizerLaws `{FinalizerOps} : Prop := {
  contains_spec m f : ContainsFinalizer m f = true ↔ f ∈ Finalizers m;
  contains_add m f : ContainsFinalizer (AddFinalizer m f) f = true;
  contains_remove m f : ContainsFinalizer (RemoveFinalizer m f) f = false;
  add_only_finalizers m f : set_Finalizers (Finalizers m) (AddFinalizer m f) = m;
  remove_only_finalizers m f : set_Finalizers (Finalizers m) (RemoveFinalizer m f) = m
}.

(** [controllerutil.SetControllerReference(owner, object)]: the object's metadata with the owner set, or
    an error when another controller owns it. *)
Class OwnerOps := {
  SetControllerReference : ObjectMeta → ObjectMeta → res ObjectMeta
}.

(** ** The API client *)

Record ListOptions := mkListOptions {
  (** empty: every namespace *)
  lo_namespace : string;
  (** label equalities that must hold *)
  lo_labels : StringMap
}.

Definition matches (o : ListOptions) (m : ObjectMeta) : bool :=
  bool_decide (lo_namespace o = "" ∨ lo_namespace o = Namespace m)
  && bool_decide (lo_labels o ⊆ Labels m).

(** The calls of [client.Client] for objects of one kind [O], on a world [W]
    that holds the API server.  [clUpdate], [clStatusUpdate] and [clCreate]
    return the object as the server stored it, which is what the Go calls
    write back into their argument. *)
Class Client (W O : Type) := {
  clGet : ObjectKey → M W O;
  clList : ListOptions → M W (list O);
  clCreate : O → M W O;
  clUpdate : O → M W O;
  clStatusUpdate : O → M W O;
  clDelete : O → M W unit
}.

(** [client.IgnoreNotFound(err)] on a call's outcome. *)
Definition IgnoreNotFound {W A} (m : M W A) : M W (option A) := λ w,
  match m w with
  | (Ok a, w') => (Ok (Some a), w')
  | (Err e, w') => if IsNotFound e then (Ok None, w') else (Err e, w')
  | (Panic, w') => (Panic, w')
  end.

(** [ctrl.Result] *)
Record ReconcileResult := mkResult { Requeue : bool; RequeueAfter : Z }.

#[export] Instance ReconcileResult_eq_dec : EqDecision ReconcileResult.
Proof. solve_decision. Defined.

Definition noRequeue : ReconcileResult := mkResult false 0.

(** [v1.Secret] *)
Record Secret := mkSecret {
  secMeta : ObjectMeta;
  secType : string;
  secData : StringMap
}.

(** [cache.MetaNamespaceKeyFunc] and [cache.SplitMetaNamespaceKey] (client-go). *)
Class KeyFunc := {
  MetaNamespaceKeyFunc : ObjectMeta → res string;
  SplitMetaNamespaceKey : string → res (string * string)
}.

(** "MetaNamespaceKeyFunc ... uses the format <namespace>/<name> unless
    <namespace> is empty, then it's just <name>"; "SplitMetaNamespaceKey
    returns the namespace and name that MetaNamespaceKeyFunc encoded into
    key".  Names and namespaces of objects hold no slash. *)
Class KeyFuncLaws `{KeyFunc} : Prop := {
  key_split m key : occurs "/"%char (Name m) = false → occurs "/"%char (Namespace m) = false →
    MetaNamespaceKeyFunc m = Ok key → SplitMetaNamespaceKey key = Ok (Namespace m, Name m)
}.

(** The clock. *)
Class Clock (W : Type) := { Now : M W Z }.

(** ** What the theorems rely on of the API server

    [objs] is what the server stores of one kind.  A successful read returns
    what is stored, a not-found error means it is not, an error leaves the
    store alone; a write stores the object it returns, which [keeps] what was
    asked for (the server sets its own metadata fields); deleting an object
    removes it or, while it has finalizers, marks it.  "When the
    metadata.finalizers field is empty, the API server considers the deletion
    complete": an update that takes the last finalizer of an object marked for
    deletion removes the object, and no such object is stored.  An update
    cannot change the deletion timestamp. *)

Class ApiStore (W O : Type) := {
  objs : W → gmap ObjectKey O;
  metaOf : O → ObjectMeta;
  keeps : O → O → Prop
}.

Section api_laws.

Context {W O : Type} `{Client W O} `{ApiStore W O}.

Definition oKey (o : O) : ObjectKey := objectKey (metaOf o).

(** [k] is gone, or on its way out. *)
Definition goneOrDeleting (m : gmap ObjectKey O) (k : ObjectKey) : Prop :=
  match m !! k with
  | None => True
  | Some o => isDeleting (metaOf o) = true
  end.

(** Marked for deletion and held by no finalizer. *)
Definition released (m : ObjectMeta) : bool := isDeleting m && bool_decide (Finalizers m = []).

Definition stored (w : W) (opts : ListOptions) : list O :=
  filter (λ o, matches opts (metaOf o) = true) ((map_to_list (objs w)).*2).

Class ApiLaws : Prop := {
  api_key w k o : objs w !! k = Some o → oKey o = k;
  api_live w k o : objs w !! k = Some o → released (metaOf o) = false;
  api_get k w r w' : clGet k w = (r, w') →
    objs w' = objs w ∧
    match r with
    | Ok o => objs w !! k = Some o
    | Err e => IsNotFound e = true → objs w !! k = None
    | Panic => False
    end;
  api_list opts w r w' : clList opts w = (r, w') →
    objs w' = objs w ∧
    match r with
    | Ok l => l ≡ₚ stored w opts
    | Err e => True
    | Panic => False
    end;
  api_create o w r w' : clCreate o w = (r, w') →
    match r with
    | Ok o' => objs w !! oKey o = None ∧ objs w' = <[oKey o := o']> (objs w) ∧ keeps o o'
    | Err e => objs w' = objs w
    | Panic => False
    end;
  api_update o w r w' : clUpdate o w = (r, w') →
    match r with
    | Ok o' =>
        (∃ old, objs w !! oKey o = Some old ∧
          DeletionTimestamp (metaOf o') = DeletionTimestamp (metaOf old) ∧
          Finalizers (metaOf o') = Finalizers (metaOf o)) ∧
        objs w' = (if released (metaOf o') then delete (oKey o) (objs w) else <[oKey o := o']> (objs w)) ∧
        keeps o o'
    | Err e => objs w' = objs w
    | Panic => False
    end;
  api_delete o w r w' : clDelete o w = (r, w') →
    (∀ k, k ≠ oKey o → objs w' !! k = objs w !! k) ∧
    match r with
    | Ok _ => goneOrDeleting (objs w') (oKey o)
    | Err e => objs w' = objs w ∧ (IsNotFound e = true → objs w !! oKey o = None)
    | Panic => False
    end
}.

(** A status update stores the status it is given under the same key;
    an error stores nothing. *)
Definition StatusUpdates {S : Type} (statusOf : O → S) : Prop := ∀ o w r w', clStatusUpdate o w = (r, w') →
  match r with
  | Ok o' => objs w' = <[oKey o := o']> (objs w) ∧ statusOf o' = statusOf o
  | Err _ => objs w' = objs w
  | Panic => False
  end.

(** An update that leaves the finalizers as they are stored stores the object. *)
Lemma api_update_stored `{!ApiLaws} o o' old w w' :
  clUpdate o w = (Ok o', w') → objs w !! oKey o = Some old →
  Finalizers (metaOf o) = Finalizers (metaOf old) →
  objs w' = <[oKey o := o']> (objs w) ∧ keeps o o'.
Proof.
  intros ((old1 & Hold1 & Hts & Hfin) & Hw' & Hk)%api_update Hold Heq. rewrite Hold in Hold1. injection Hold1 as <-.
  split; [|done]. rewrite Hw'. unfold released, isDeleting. rewrite Hts, Hfin, Heq.
  pose proof (api_live _ _ _ Hold) as Hlive. unfold released, isDeleting in Hlive. by rewrite Hlive.
Qed.

(** An update that leaves a finalizer stores the object too. *)
Lemma api_update_held `{!ApiLaws} o o' w w' :
  clUpdate o w = (Ok o', w') → Finalizers (metaOf o) ≠ [] →
  objs w' = <[oKey o := o']> (objs w) ∧ keeps o o'.
Proof.
  intros ((old & _ & _ & Hfin) & Hw' & Hk)%api_update Hne. split; [|done].
  rewrite Hw'. unfold released. rewrite Hfin, (bool_decide_eq_false_2 _ Hne). by rewrite andb_false_r.
Qed.

(** In any case the object is what was returned, or it is gone. *)
Lemma api_update_at `{!ApiLaws} o o' w w' :
  clUpdate o w = (Ok o', w') →
  (objs w' !! oKey o = Some o' ∨ objs w' !! oKey o = None) ∧
  (∀ k, k ≠ oKey o → objs w' !! k = objs w !! k) ∧ is_Some (objs w !! oKey o) ∧ keeps o o'.
Proof.
  intros ((old & Hold & _) & -> & Hk)%api_update. split_and!; [| |by eexists|done].
  - case_match; rewrite ?lookup_insert_eq, ?lookup_delete_eq; auto.
  - intros k Hne. case_match; by rewrite ?lookup_insert_ne, ?lookup_delete_ne.
Qed.

Lemma elem_of_stored w opts o :
  o ∈ stored w opts ↔ (∃ k, objs w !! k = Some o) ∧ matches opts (metaOf o) = true.
Proof.
  unfold stored. rewrite list_elem_of_filter, list_elem_of_fmap. split.
  - intros [Hm ([k o'] & -> & Hin)]. rewrite elem_of_map_to_list in Hin. by eauto.
  - intros [(k & Hk) Hm]. split; [done|]. exists (k, o). by rewrite elem_of_map_to_list.
Qed.

(** The loop that deletes the listed objects that are not wanted, tolerating
    those already gone ([tolerant], the [client.IgnoreNotFound] variant) or
    not. *)
Definition deleteIf (tolerant : bool) (unwanted : O → bool) (o : O) : M W unit :=
  if unwanted o then
    if tolerant then bind (IgnoreNotFound (clDelete o)) (λ _, ret tt) else clDelete o
  else ret tt.

Lemma deleteIf_spec `{!ApiLaws} tolerant unwanted o w w' :
  deleteIf tolerant unwanted o w = (Ok tt, w') →
  (∀ k, k ≠ oKey o → objs w' !! k = objs w !! k) ∧
  (unwanted o = false → objs w' = objs w) ∧
  (unwanted o = true → goneOrDeleting (objs w') (oKey o)).
Proof.
  unfold deleteIf, bind, IgnoreNotFound, ret. destruct (unwanted o).
  2: { intros; by simplify_eq. }
  destruct tolerant, (clDelete o w) as [r w1] eqn:E; apply api_delete in E as [Hother Hr];
    destruct r as [[]|e|]; try done.
  - intros ?. simplify_eq. by split_and!.
  - destruct (IsNotFound e); intros ?; simplify_eq. destruct Hr as [Heq Hn].
    split_and!; [done|done|]. intros _. unfold goneOrDeleting. by rewrite Heq, Hn.
  - intros ?. simplify_eq. by split_and!.
Qed.

(** After the loop every unwanted object of the list is gone or going, and
    nothing else has changed. *)
Lemma deleteLoop_spec `{!ApiLaws} tolerant unwanted l w w' :
  forEach l (deleteIf tolerant unwanted) w = (Ok tt, w') →
  (∀ k, (∀ o, o ∈ l → unwanted o = true → oKey o ≠ k) → objs w' !! k = objs w !! k) ∧
  (∀ o, o ∈ l → unwanted o = true → goneOrDeleting (objs w') (oKey o)).
Proof.
  revert w. induction l as [|o l IH]; intros w; cbn [forEach].
  { unfold ret. intros ?. simplify_eq. split; [done|]. intros o Ho. by apply not_elem_of_nil in Ho. }
  unfold bind. destruct (deleteIf tolerant unwanted o w) as [[[]| |] w1] eqn:E; try done.
  apply deleteIf_spec in E as (Hother & Hkeep & Hgone). intros [Hrest Hl]%IH.
  split.
  - intros k Hk. rewrite Hrest by (intros x Hx; apply Hk; by right).
    destruct (unwanted o) eqn:Hu; [|by rewrite Hkeep].
    apply Hother. intros ->. by apply (Hk o (list_elem_of_here _ _) Hu).
  - intros x Hx Hu. apply elem_of_cons in Hx as [Hx|Hx]; [|by apply Hl]. subst o.
    destruct (decide (Exists (λ y, unwanted y = true ∧ oKey y = oKey x) l)) as [Hex|Hno].
    + apply Exists_exists in Hex as (y & Hy & Huy & Hkey). rewrite <- Hkey. by apply Hl.
    + unfold goneOrDeleting. rewrite Hrest; [by apply Hgone|].
      intros y Hy Huy Hkey. apply Hno, Exists_exists. by exists y.
Qed.

(** Objects are as they were, or gone or going. *)
Definition onlyDeleted (m m' : gmap ObjectKey O) : Prop := ∀ k, m' !! k = m !! k ∨ goneOrDeleting m' k.

Lemma onlyDeleted_refl m : onlyDeleted m m.
Proof. by left. Qed.

Lemma onlyDeleted_gone m m' k : onlyDeleted m m' → goneOrDeleting m k → goneOrDeleting m' k.
Proof. unfold goneOrDeleting. intros Hd Hk. destruct (Hd k) as [-> |?]; done. Qed.

Lemma onlyDeleted_trans m1 m2 m3 : onlyDeleted m1 m2 → onlyDeleted m2 m3 → onlyDeleted m1 m3.
Proof.
  intros H12 H23 k. destruct (H23 k) as [Heq|?]; [|by right]. destruct (H12 k) as [Heq'|?]; [left; congruence|right].
  by eapply onlyDeleted_gone.
Qed.

Lemma deleteLoop_only `{!ApiLaws} tolerant unwanted l w w' :
  forEach l (deleteIf tolerant unwanted) w = (Ok tt, w') → onlyDeleted (objs w) (objs w').
Proof.
  intros [Hother Hgone]%deleteLoop_spec k.
  destruct (decide (Exists (λ o, unwanted o = true ∧ oKey o = k) l)) as [Hex|Hno].
  - right. apply Exists_exists in Hex as (o & Ho & Hu & <-). by apply Hgone.
  - left. apply Hother. intros o Ho Hu Hk. apply Hno, Exists_exists. by exists o.
Qed.

(** A loop whose rounds only delete, each what it should, deletes it all. *)
Lemma deleteAll_loop {A} (l : list A) (f : A → M W unit) (target : A → O → Prop) w w' :
  (∀ a w w', a ∈ l → f a w = (Ok tt, w') →
    onlyDeleted (objs w) (objs w') ∧ ∀ k o, objs w !! k = Some o → target a o → goneOrDeleting (objs w') k) →
  forEach l f w = (Ok tt, w') →
  onlyDeleted (objs w) (objs w') ∧
  ∀ a k o, a ∈ l → objs w !! k = Some o → target a o → goneOrDeleting (objs w') k.
Proof.
  revert w. induction l as [|a l IH]; intros w Hf; cbn [forEach].
  { intros [= <-]. split; [apply onlyDeleted_refl|]. by intros a k o Ha%not_elem_of_nil. }
  unfold bind. destruct (f a w) as [[[]| |] w1] eqn:E; try done. apply Hf in E as [Honly Hgone]; [|by left].
  intros [Honly' Hgone']%IH; [|intros b w2 w3 Hb; apply Hf; by right]. split; [by eapply onlyDeleted_trans|].
  intros b k o Hb Ho Ht. apply elem_of_cons in Hb as [->|Hb]; [by eapply onlyDeleted_gone, Hgone|].
  destruct (Honly k) as [Heq|?]; [|by eapply onlyDeleted_gone]. eapply Hgone'; [done| |done]. by rewrite Heq.
Qed.

Lemma forEach_ext {A} (l : list A) (f g : A → M W unit) w :
  (∀ x w, f x w = g x w) → forEach l f w = forEach l g w.
Proof.
  intros Hfg. revert w. induction l as [|x l IH]; intros w; [done|]. cbn [forEach]. unfold bind. rewrite Hfg.
  destruct (g x w) as [[[]| |] ?]; [apply IH|done|done].
Qed.

End api_laws.
Arguments ApiLaws W O {_ _}.

(** ** Frames

    [frames f m]: the call [m] leaves the part [f] of the world alone, however
    it ends. *)
Section frames.

Context {W S : Type} (f : W → S).

Definition frames {A} (m : M W A) : Prop := ∀ w, f (m w).2 = f w.

Lemma frames_ret {A} (a : A) : frames (ret a).
Proof. done. Qed.
Lemma frames_fail {A} e : frames (fail (A := A) e).
Proof. done. Qed.
Lemma frames_panic {A} : frames (panic (A := A)).
Proof. done. Qed.
Lemma frames_lift {A} (r : res A) : frames (lift r).
Proof. done. Qed.

Lemma frames_bind {A B} (m : M W A) (k : A → M W B) : frames m → (∀ a, frames (k a)) → frames (bind m k).
Proof.
  intros Hm Hk w. unfold bind. specialize (Hm w). destruct (m w) as [[a|e|] w']; simpl in Hm; [|done|done].
  by rewrite Hk.
Qed.

(** The same, knowing what the first call returned. *)
Lemma frames_bind_ok {A B} (m : M W A) (k : A → M W B) :
  frames m → (∀ w a w', m w = (Ok a, w') → f (k a w').2 = f w') → frames (bind m k).
Proof.
  intros Hm Hk w. unfold bind. pose proof (Hm w) as Hw. destruct (m w) as [[a|e|] w'] eqn:E; simpl in Hw; [|done|done].
  by rewrite (Hk _ _ _ E).
Qed.

Lemma frames_try {A} (m : M W A) : frames m → frames (try m).
Proof. intros Hm w. unfold try. specialize (Hm w). by destruct (m w) as [[| |] ?]. Qed.

Lemma frames_IgnoreNotFound {A} (m : M W A) : frames m → frames (IgnoreNotFound m).
Proof.
  intros Hm w. unfold IgnoreNotFound. specialize (Hm w). destruct (m w) as [[|e|] ?]; [done| |done].
  by destruct (IsNotFound e).
Qed.

Lemma frames_forEach {A} (l : list A) (k : A → M W unit) : (∀ a, frames (k a)) → frames (forEach l k).
Proof. intros Hk. induction l; cbn [forEach]; [apply frames_ret|by apply frames_bind]. Qed.

End frames.

(** Every call on one kind of objects leaves [f] alone. *)
Record clientFrames {W O S : Type} `{Client W O} (f : W → S) : Prop := {
  cf_get key : frames f (clGet (O := O) key);
  cf_list opts : frames f (clList (O := O) opts);
  cf_create (o : O) : frames f (clCreate o);
  cf_update (o : O) : frames f (clUpdate o);
  cf_status (o : O) : frames f (clStatusUpdate o);
  cf_delete (o : O) : frames f (clDelete o)
}.
Arguments clientFrames {W} O {S _} f.

Create HintDb frames.
#[export] Hint Resolve cf_get cf_list cf_create cf_update cf_status cf_delete : frames.
#[export] Hint Resolve frames_ret frames_fail frames_panic frames_lift frames_bind frames_try
  frames_IgnoreNotFound frames_forEach : frames.

(** Goals [frames f m]: take [m] apart down to calls whose frames are known. *)
Ltac solve_frames :=
  repeat (intros; solve [eauto 3 with frames] || case_match || apply frames_bind || apply frames_try
          || apply frames_IgnoreNotFound || apply frames_forEach).

(** What a call to the API server does not touch: reads leave every object
    alone, writes every object under another key. *)
Section api_frames.

Context {W O : Type} `{Client W O} `{!ApiStore W O} `{!ApiLaws W O}.

Lemma api_get_frames key : frames (objs (O := O)) (clGet key).
Proof. intros w. destruct (clGet key w) eqn:E. by apply api_get in E as [? _]. Qed.

Lemma api_list_frames opts : frames (objs (O := O)) (clList opts).
Proof. intros w. destruct (clList opts w) eqn:E. by apply api_list in E as [? _]. Qed.

Lemma frames_at {A} (m : M W A) k : frames (objs (O := O)) m → frames (λ w, objs (O := O) w !! k) m.
Proof. intros Hm w. by rewrite Hm. Qed.

Lemma api_create_frames (o : O) k : k ≠ oKey o → frames (λ w, objs w !! k) (clCreate o).
Proof.
  intros Hk w. destruct (clCreate o w) as [[o'|e|] w'] eqn:E; apply api_create in E; simpl; [|by rewrite E|done].
  destruct E as (_ & -> & _). by rewrite lookup_insert_ne.
Qed.

Lemma api_update_frames (o : O) k : k ≠ oKey o → frames (λ w, objs w !! k) (clUpdate o).
Proof.
  intros Hk w. destruct (clUpdate o w) as [[o'|e|] w'] eqn:E; simpl.
  - apply api_update_at in E as (_ & Ho & _). by apply Ho.
  - apply api_update in E. by rewrite E.
  - by apply api_update in E.
Qed.

Lemma api_delete_frames (o : O) k : k ≠ oKey o → frames (λ w, objs w !! k) (clDelete o).
Proof. intros Hk w. destruct (clDelete o w) as [r w'] eqn:E. apply api_delete in E as [Ho _]. by apply Ho. Qed.

End api_frames.

#[export] Hint Resolve api_get_frames api_list_frames frames_at api_create_frames api_update_frames
  api_delete_frames : frames.
