(* ===== verification/MemApi.v ===== *)
(** * An in-memory API server

    A server that keeps the objects of a kind in a map and never fails: it
    satisfies the laws of [Kube], which shows they can hold, and runs the
    controllers in examples.  [view] and [upd] are where a world keeps the
    objects of the kind; an object filed under a key that is not its own, or
    marked for deletion without a finalizer, is not served. *)

From S2P Require Import Prelude GoStrings Kube.
Local Open Scope go_scope.

Definition notFound : goerror := ErrApi ReasonNotFound "not found".
Definition alreadyExists : goerror := ErrApi ReasonAlreadyExists "already exists".
Definition invalid : goerror := ErrText "field is immutable".

Section mem.

Context {W O : Type} (view : W → gmap ObjectKey O) (upd : gmap ObjectKey O → W → W) (meta : O → ObjectMeta).
Context (same : O → O → Prop).

Definition served (w : W) : gmap ObjectKey O :=
  filter (λ ko, objectKey (meta ko.2) = ko.1 ∧ released (meta ko.2) = false) (view w).

Definition mem_get (k : ObjectKey) : M W O := λ w,
  match served w !! k with
  | Some o => (Ok o, w)
  | None => (Err notFound, w)
  end.

Definition mem_list (opts : ListOptions) : M W (list O) := λ w,
  (Ok (filter (λ o, matches opts (meta o) = true) ((map_to_list (served w)).*2)), w).

Definition mem_create (o : O) : M W O := λ w,
  match served w !! objectKey (meta o) with
  | Some _ => (Err alreadyExists, w)
  | None => if released (meta o) then (Err invalid, w) else (Ok o, upd (<[objectKey (meta o) := o]> (served w)) w)
  end.

Definition mem_update (o : O) : M W O := λ w,
  match served w !! objectKey (meta o) with
  | Some old =>
      if bool_decide (DeletionTimestamp (meta o) = DeletionTimestamp (meta old)) then
        if released (meta o) then (Ok o, upd (delete (objectKey (meta o)) (served w)) w)
        else (Ok o, upd (<[objectKey (meta o) := o]> (served w)) w)
      else (Err invalid, w)
  | None => (Err notFound, w)
  end.

Definition mem_status_update (o : O) : M W O := λ w,
  match served w !! objectKey (meta o) with
  | Some _ => if released (meta o) then (Err invalid, w) else (Ok o, upd (<[objectKey (meta o) := o]> (served w)) w)
  | None => (Err notFound, w)
  end.

Definition mem_delete (o : O) : M W unit := λ w,
  match served w !! objectKey (meta o) with
  | Some _ => (Ok tt, upd (delete (objectKey (meta o)) (served w)) w)
  | None => (Err notFound, w)
  end.

Definition mem_client : Client W O :=
  {| clGet := mem_get; clList := mem_list; clCreate := mem_create; clUpdate := mem_update;
     clStatusUpdate := mem_status_update; clDelete := mem_delete |}.

Definition mem_store : ApiStore W O := {| objs := served; metaOf := meta; keeps := same |}.

Context (view_upd : ∀ m w, view (upd m w) = m) (same_refl : ∀ o, same o o).

Lemma served_upd_insert o w : released (meta o) = false →
  served (upd (<[objectKey (meta o) := o]> (served w)) w) = <[objectKey (meta o) := o]> (served w).
Proof.
  intros Hr. unfold served at 1. rewrite view_upd. apply map_filter_id.
  intros k x [[<- <-]|[_ [_ ?]%map_lookup_filter_Some]]%lookup_insert_Some; done.
Qed.

Lemma served_upd_delete k w : served (upd (delete k (served w)) w) = delete k (served w).
Proof.
  unfold served at 1. rewrite view_upd. apply map_filter_id.
  by intros j x [_ [_ ?]%map_lookup_filter_Some]%lookup_delete_Some.
Qed.

Lemma mem_laws : @ApiLaws W O mem_client mem_store.
Proof.
  split; simpl.
  - by intros w k o [_ [? _]]%map_lookup_filter_Some.
  - by intros w k o [_ [_ ?]]%map_lookup_filter_Some.
  - intros k w r w'. unfold mem_get. destruct (served w !! k) eqn:E; intros; by simplify_eq.
  - intros opts w r w'. unfold mem_list. intros. by simplify_eq.
  - intros o w r w'. unfold mem_create. destruct (served w !! _) eqn:E; [by intros; simplify_eq|].
    destruct (released _) eqn:Er; intros; simplify_eq; [done|]. by rewrite served_upd_insert.
  - intros o w r w'. unfold mem_update, oKey. simpl. destruct (served w !! _) as [old|] eqn:E; [|by intros; simplify_eq].
    case_bool_decide; [|by intros; simplify_eq].
    destruct (released _) eqn:Er; intros; simplify_eq; rewrite ?Er, ?served_upd_insert, ?served_upd_delete by done;
      naive_solver.
  - intros o w r w'. unfold mem_delete, goneOrDeleting, oKey. simpl.
    destruct (served w !! _) eqn:E; intros; simplify_eq; [|done].
    rewrite served_upd_delete, lookup_delete_eq. split; [|done]. intros k Hk. by rewrite lookup_delete_ne.
Qed.

(** Status updates store the object. *)
Lemma mem_status {S : Type} (statusOf : O → S) : @StatusUpdates W O mem_client mem_store S statusOf.
Proof.
  intros o w r w'. simpl. unfold mem_status_update. destruct (served w !! _) eqn:E; [|by intros; simplify_eq].
  destruct (released _) eqn:Er; intros; simplify_eq; [done|]. by rewrite served_upd_insert.
Qed.

(** Another part of the world is left alone. *)
Lemma mem_clientFrames {S : Type} (g : W → S) :
  (∀ m w, g (upd m w) = g w) → @clientFrames W O S mem_client g.
Proof.
  intros Hg. split; intros x w; simpl; unfold mem_get, mem_create, mem_update, mem_status_update, mem_delete;
    repeat case_match; simpl; by rewrite ?Hg.
Qed.

End mem.

(** ** Finalizers and conditions as lists, for the examples *)

Definition listFinalizers : FinalizerOps :=
  {| ContainsFinalizer := λ m f, bool_decide (f ∈ Finalizers m);
     AddFinalizer := λ m f, if decide (f ∈ Finalizers m) then m else set_Finalizers (Finalizers m ++ [f]) m;
     RemoveFinalizer := λ m f, set_Finalizers (filter (λ x, x ≠ f) (Finalizers m)) m |}.

Lemma listFinalizers_laws : @FinalizerLaws listFinalizers.
Proof.
  split; simpl.
  - intros m f. apply bool_decide_eq_true.
  - intros m f. apply bool_decide_eq_true. case_decide; [done|]. set_solver.
  - intros m f. apply bool_decide_eq_false. simpl. rewrite list_elem_of_filter. naive_solver.
  - intros m f. case_decide; by destruct m.
  - intros m f. by destruct m.
Qed.

Fixpoint setCondition (cs : list Condition) (c : Condition) : list Condition :=
  match cs with
  | [] => [c]
  | x :: rest => if decide (cType x = cType c) then c :: rest else x :: setCondition rest c
  end.

Definition findCondition (cs : list Condition) (t : string) : option Condition :=
  head (filter (λ c, cType c = t) cs).

Definition listConditions : ConditionOps :=
  {| SetStatusCondition := setCondition; FindStatusCondition := findCondition;
     RemoveStatusCondition := λ cs t, filter (λ c, cType c ≠ t) cs |}.

Lemma listConditions_laws : @ConditionLaws listConditions.
Proof.
  split; simpl; unfold findCondition.
  - intros cs c. induction cs as [|x cs IH]; simpl; [by rewrite filter_cons_True|].
    case_decide; rewrite filter_cons; [by rewrite decide_True|by rewrite decide_False].
  - intros cs c t Ht. induction cs as [|x cs IH]; simpl; [by rewrite filter_cons_False by done|].
    case_decide as Hx; rewrite !filter_cons; [rewrite !decide_False by congruence; done|].
    by case_decide.
  - intros cs t. rewrite filter_none; [done|]. apply Forall_forall. intros c [? _]%list_elem_of_filter. done.
  - intros cs t t' Hne. rewrite filter_filter_sub; [done|]. by intros c _ ->.
Qed.

(** Keys as client-go builds them. *)
Definition slashKeys : KeyFunc := {|
  MetaNamespaceKeyFunc := λ m, Ok (if bool_decide (Namespace m = "") then Name m else Namespace m +:+ "/" +:+ Name m);
  SplitMetaNamespaceKey := λ key,
    match strings.Split key "/"%char with
    | [name] => Ok ("", name)
    | [ns; name] => Ok (ns, name)
    | _ => Err (ErrText ("unexpected key format: " +:+ key))
    end |}.

Lemma slashKeys_laws : @KeyFuncLaws slashKeys.
Proof.
  split. intros m key Hn Hns [= <-]. simpl.
  case_bool_decide as He; [by rewrite Split_no, He|].
  change (Namespace m +:+ "/" +:+ Name m) with (Namespace m +:+ String "/"%char (Name m)).
  by rewrite Split_app, !Split_no by done.
Qed.
