(* ===== verification/ApiTypes.v ===== *)
(** * pkg/apis/v1alpha1: the custom resources and their methods

    Endpoint and DNSRecord (dnsrecord_types.go), ManagedZone
    (managedzone_types.go), DNSPolicy (dnspolicy_types.go), TLSPolicy's target
    (tlspolicy_types.go), DNSHealthCheckProbe (dnshealthcheckprobe_types.go) and
    HealthProtocol (health_types.go).  Integers are [Z]; the fields are [int] or
    [int64] and the code only adds to them where a wrap-around is written out.
    A nil slice or map and an empty one are the same value, unless the code
    tells them apart. *)

From S2P Require Import Prelude GoStrings Kube.
Local Open Scope go_scope.

(** ** DNSRecord *)

Record ProviderSpecificProperty := mkProperty {
  PropName : string;
  PropValue : string
}.

#[export] Instance ProviderSpecificProperty_eq_dec : EqDecision ProviderSpecificProperty.
Proof. solve_decision. Defined.

Record Endpoint := mkEndpoint {
  DNSName : string;
  Targets : list string;
  RecordType : string;
  SetIdentifier : string;
  RecordTTL : Z;
  EndpointLabels : StringMap;
  ProviderSpecific : list ProviderSpecificProperty
}.

#[export] Instance Endpoint_eq_dec : EqDecision Endpoint.
Proof. solve_decision. Defined.

(** [&v1alpha1.Endpoint{}] *)
Definition zeroEndpoint : Endpoint := mkEndpoint "" [] "" "" 0 ∅ [].

(** [SetID] returns an id that should be unique across a set of endpoints. *)
Definition SetID (e : Endpoint) : string := DNSName e +:+ SetIdentifier e.

Definition set_ProviderSpecific (ps : list ProviderSpecificProperty) (e : Endpoint) : Endpoint :=
  mkEndpoint (DNSName e) (Targets e) (RecordType e) (SetIdentifier e) (RecordTTL e)
    (EndpointLabels e) ps.

Definition WithSetIdentifier (e : Endpoint) (setIdentifier : string) : Endpoint :=
  mkEndpoint (DNSName e) (Targets e) (RecordType e) setIdentifier (RecordTTL e)
    (EndpointLabels e) (ProviderSpecific e).

Definition WithProviderSpecific (e : Endpoint) (key value : string) : Endpoint :=
  set_ProviderSpecific (ProviderSpecific e ++ [mkProperty key value]) e.

Fixpoint find_property (ps : list ProviderSpecificProperty) (key : string)
  : option ProviderSpecificProperty :=
  match ps with
  | [] => None
  | p :: rest => if decide (PropName p = key) then Some p else find_property rest key
  end.

Definition GetProviderSpecificProperty (e : Endpoint) (key : string)
  : option ProviderSpecificProperty :=
  find_property (ProviderSpecific e) key.

Definition GetProviderSpecific (e : Endpoint) (name : string) : option string :=
  PropValue <$> find_property (ProviderSpecific e) name.

Fixpoint set_property (ps : list ProviderSpecificProperty) (name value : string)
  : list ProviderSpecificProperty :=
  match ps with
  | [] => [mkProperty name value]
  | p :: rest =>
      if decide (PropName p = name) then mkProperty (PropName p) value :: rest
      else p :: set_property rest name value
  end.

Definition SetProviderSpecific (name value : string) (e : Endpoint) : Endpoint :=
  set_ProviderSpecific (set_property (ProviderSpecific e) name value) e.

Fixpoint delete_property (ps : list ProviderSpecificProperty) (name : string)
  : bool * list ProviderSpecificProperty :=
  match ps with
  | [] => (false, [])
  | p :: rest =>
      let '(deleted, kept) := delete_property rest name in
      if decide (PropName p = name) then (true, kept) else (deleted, p :: kept)
  end.

Definition DeleteProviderSpecific (name : string) (e : Endpoint) : bool * Endpoint :=
  let '(deleted, ps) := delete_property (ProviderSpecific e) name in
  (deleted, set_ProviderSpecific ps e).

Definition GetAddress (e : Endpoint) : option string :=
  if decide (SetIdentifier e = "") then None
  else head (Targets e).

Definition CNAMERecordType : string := "CNAME".
Definition ARecordType : string := "A".
Definition NSRecordType : string := "NS".

Record DNSRecordSpec := mkDNSRecordSpec {
  ManagedZoneRef : option string;
  Endpoints : list Endpoint
}.

Record DNSRecordStatus := mkDNSRecordStatus {
  recConditions : list Condition;
  recObservedGeneration : Z;
  recEndpoints : list Endpoint
}.

Record DNSRecord := mkDNSRecord {
  recMeta : ObjectMeta;
  recSpec : DNSRecordSpec;
  recStatus : DNSRecordStatus
}.

#[export] Instance DNSRecordSpec_eq_dec : EqDecision DNSRecordSpec.
Proof. solve_decision. Defined.
#[export] Instance DNSRecordStatus_eq_dec : EqDecision DNSRecordStatus.
Proof. solve_decision. Defined.
#[export] Instance DNSRecord_eq_dec : EqDecision DNSRecord.
Proof. solve_decision. Defined.

Definition emptyDNSRecordStatus : DNSRecordStatus := mkDNSRecordStatus [] 0 [].

(** ** ManagedZone *)

Record ManagedZoneSpec := mkManagedZoneSpec {
  zsID : string;
  DomainName : string;
  Description : string;
  ParentManagedZone : option string;
  (** namespace and name of the provider secret *)
  SecretRef : ObjectKey
}.

Record ManagedZoneStatus := mkManagedZoneStatus {
  zConditions : list Condition;
  zObservedGeneration : Z;
  zID : string;
  zRecordCount : Z;
  zNameServers : list string
}.

Record ManagedZone := mkManagedZone {
  zMeta : ObjectMeta;
  zSpec : ManagedZoneSpec;
  zStatus : ManagedZoneStatus
}.

#[export] Instance ManagedZoneSpec_eq_dec : EqDecision ManagedZoneSpec.
Proof. solve_decision. Defined.
#[export] Instance ManagedZoneStatus_eq_dec : EqDecision ManagedZoneStatus.
Proof. solve_decision. Defined.
#[export] Instance ManagedZone_eq_dec : EqDecision ManagedZone.
Proof. solve_decision. Defined.

(** ** HealthProtocol *)

Definition HttpProtocol : string := "HTTP".
Definition HttpsProtocol : string := "HTTPS".

Definition NewHealthProtocol (p : string) : string :=
  if decide (strings.ToUpper p = "HTTPS") then HttpsProtocol
  else if decide (strings.ToUpper p = "HTTP") then HttpProtocol
  else HttpProtocol.

Definition ToScheme (p : string) : string :=
  if decide (p = HttpProtocol) then "http"
  else if decide (p = HttpsProtocol) then "https"
  else "http".

Definition IsHttp (p : string) : bool := bool_decide (p = HttpProtocol).
Definition IsHttps (p : string) : bool := bool_decide (p = HttpsProtocol).

(** ** DNSPolicy *)

(** gatewayapiv1alpha2.PolicyTargetReference *)
Record PolicyTargetReference := mkTargetRef {
  trGroup : string;
  trKind : string;
  trName : string;
  trNamespace : option string
}.

(** A duration in nanoseconds. *)
Definition second : Z := 1000000000.

Record HealthCheckSpec := mkHealthCheckSpec {
  hcEndpoint : string;
  hcPort : option Z;
  hcProtocol : option string;
  hcFailureThreshold : option Z;
  hcAdditionalHeadersRef : option string;
  (** nil is not the same as empty here: see performRequest *)
  hcExpectedResponses : option (list Z);
  hcAllowInsecureCertificates : bool;
  hcInterval : option Z
}.

(** metav1.LabelSelector is opaque: only [LabelSelectorAsSelector] looks into
    it.  It is kept as text, its YAML form. *)
Definition LabelSelector : Type := string.

Record CustomWeight := mkCustomWeight {
  cwSelector : LabelSelector;
  cwWeight : Z
}.

Record LoadBalancingWeighted := mkWeighted {
  lbDefaultWeight : Z;
  lbCustom : list CustomWeight
}.

Record LoadBalancingSpec := mkLoadBalancing {
  Weighted : option LoadBalancingWeighted;
  (** [LoadBalancingGeo.DefaultGeo] *)
  Geo : option string
}.

Record DNSPolicySpec := mkDNSPolicySpec {
  TargetRef : PolicyTargetReference;
  HealthCheck : option HealthCheckSpec;
  LoadBalancing : option LoadBalancingSpec
}.

Record DNSPolicyStatus := mkDNSPolicyStatus {
  polConditions : list Condition;
  polObservedGeneration : Z
}.

Record DNSPolicy := mkDNSPolicy {
  polMeta : ObjectMeta;
  polSpec : DNSPolicySpec;
  polStatus : DNSPolicyStatus
}.

Definition DefaultWeight : Z := 120.

Definition validateTargetRef (ref : PolicyTargetReference) (ns : string) : res unit :=
  if negb (bool_decide (trGroup ref = "gateway.networking.k8s.io")) then
    Err (ErrText ("invalid targetRef.Group " +:+ trGroup ref +:+
                  ". The only supported group is gateway.networking.k8s.io"))
  else if negb (bool_decide (trKind ref = "Gateway")) then
    Err (ErrText ("invalid targetRef.Kind " +:+ trKind ref +:+
                  ". The only supported kind is Gateway"))
  else match trNamespace ref with
       | Some n =>
           if negb (bool_decide (n = ns)) then
             Err (ErrText ("invalid targetRef.Namespace " +:+ n +:+
                  ". Currently only supporting references to the same namespace"))
           else Ok tt
       | None => Ok tt
       end.

Definition HealthCheckSpec_Validate (s : HealthCheckSpec) : res unit :=
  match hcInterval s with
  | Some i =>
      if bool_decide (i < second * 5)%Z then
        (* the duration's printed form is left out of the text *)
        Err (ErrText "invalid value for spec.healthCheckSpec.interval, it cannot be shorter than 5s")
      else Ok tt
  | None => Ok tt
  end.

Definition HealthCheckSpec_Default (s : HealthCheckSpec) : HealthCheckSpec :=
  mkHealthCheckSpec (hcEndpoint s) (hcPort s)
    (match hcProtocol s with None => Some HttpsProtocol | p => p end)
    (hcFailureThreshold s) (hcAdditionalHeadersRef s) (hcExpectedResponses s)
    (hcAllowInsecureCertificates s)
    (match hcInterval s with None => Some (second * 30)%Z | i => i end).

Definition DNSPolicy_Validate (p : DNSPolicy) : res unit :=
  let? _ := validateTargetRef (TargetRef (polSpec p)) (Namespace (polMeta p)) in
  match HealthCheck (polSpec p) with
  | Some hc => HealthCheckSpec_Validate hc
  | None => Ok tt
  end.

Definition DNSPolicy_Default (p : DNSPolicy) : DNSPolicy :=
  mkDNSPolicy (polMeta p)
    (mkDNSPolicySpec (TargetRef (polSpec p))
       (HealthCheckSpec_Default <$> HealthCheck (polSpec p)) (LoadBalancing (polSpec p)))
    (polStatus p).

(** What kuadrant-operator asks of a policy; [GetRulesHostnames] is not
    implemented and panics. *)
Definition DNSPolicy_GetWrappedNamespace (p : DNSPolicy) : string := Namespace (polMeta p).
Definition DNSPolicy_GetRulesHostnames (_ : DNSPolicy) : res (list string) := Panic.
Definition DNSPolicy_GetTargetRef (p : DNSPolicy) : PolicyTargetReference := TargetRef (polSpec p).

(** ** DNSHealthCheckProbe *)

Record DNSHealthCheckProbeSpec := mkProbeSpec {
  psPort : Z;
  psHost : string;
  psAddress : string;
  psPath : string;
  psProtocol : string;
  psInterval : Z;
  psAdditionalHeadersRef : option string;
  psFailureThreshold : option Z;
  psExpectedResponses : option (list Z);
  psAllowInsecureCertificate : bool
}.

Record DNSHealthCheckProbeStatus := mkProbeStatus {
  LastCheckedAt : Z;
  ConsecutiveFailures : Z;
  psReason : string;
  psStatus : Z;
  Healthy : option bool
}.

Record DNSHealthCheckProbe := mkProbe {
  probeMeta : ObjectMeta;
  probeSpec : DNSHealthCheckProbeSpec;
  probeStatus : DNSHealthCheckProbeStatus
}.

Definition DNSHealthCheckProbeSpec_Default (sp : DNSHealthCheckProbeSpec) : DNSHealthCheckProbeSpec :=
  if bool_decide (psProtocol sp = "") then
    mkProbeSpec (psPort sp) (psHost sp) (psAddress sp) (psPath sp) HttpProtocol (psInterval sp) (psAdditionalHeadersRef sp)
      (psFailureThreshold sp) (psExpectedResponses sp) (psAllowInsecureCertificate sp)
  else sp.

Definition DNSHealthCheckProbe_Default (p : DNSHealthCheckProbe) : DNSHealthCheckProbe :=
  mkProbe (probeMeta p) (DNSHealthCheckProbeSpec_Default (probeSpec p)) (probeStatus p).

Definition emptyProbeStatus : DNSHealthCheckProbeStatus :=
  mkProbeStatus zeroTime 0 "" 0 None.

#[export] Instance DNSHealthCheckProbeSpec_eq_dec : EqDecision DNSHealthCheckProbeSpec.
Proof. solve_decision. Defined.
#[export] Instance DNSHealthCheckProbeStatus_eq_dec : EqDecision DNSHealthCheckProbeStatus.
Proof. solve_decision. Defined.
#[export] Instance DNSHealthCheckProbe_eq_dec : EqDecision DNSHealthCheckProbe.
Proof. solve_decision. Defined.

(** A name-value pair of an HTTP header. *)
Record AdditionalHeader := mkHeader { hName : string; hValue : string }.

(** ** The provider-specific properties are a finite map

    Every method of the property list agrees with the map operation it stands
    for; the map of a list is read off first occurrences, as the getters do. *)

Definition properties_map (ps : list ProviderSpecificProperty) : StringMap :=
  list_to_map ((λ p, (PropName p, PropValue p)) <$> ps).

Lemma properties_map_cons p ps :
  properties_map (p :: ps) = <[PropName p := PropValue p]> (properties_map ps).
Proof. done. Qed.

Lemma find_property_map ps key :
  PropValue <$> find_property ps key = properties_map ps !! key.
Proof.
  induction ps as [|p ps IH]; [done|]. rewrite properties_map_cons, lookup_insert. simpl.
  by case_decide.
Qed.

Lemma set_property_map ps name value :
  properties_map (set_property ps name value) = <[name := value]> (properties_map ps).
Proof.
  induction ps as [|p ps IH]; [done|]. simpl. case_decide as Hn.
  - rewrite !properties_map_cons. simpl. by rewrite Hn, insert_insert_eq.
  - rewrite !properties_map_cons, IH. by rewrite insert_insert_ne.
Qed.

Lemma delete_property_map ps name :
  properties_map (snd (delete_property ps name)) = delete name (properties_map ps).
Proof.
  induction ps as [|p ps IH]; [symmetry; apply delete_empty|]. simpl.
  destruct (delete_property ps name) as [d kept]; simpl in IH.
  case_decide as Hn; simpl; rewrite !properties_map_cons, IH.
  - by rewrite Hn, delete_insert_eq.
  - by rewrite delete_insert_ne.
Qed.

Lemma delete_property_found ps name :
  fst (delete_property ps name) = bool_decide (is_Some (properties_map ps !! name)).
Proof.
  induction ps as [|p ps IH]; simpl.
  - symmetry. apply bool_decide_eq_false_2. by intros [??].
  - destruct (delete_property ps name) as [d kept]; simpl in IH.
    rewrite properties_map_cons, lookup_insert.
    by case_decide.
Qed.

(** Setting a property keeps the names of the others, in order. *)
Lemma set_property_names_old ps name value :
  name ∈ (PropName <$> ps) → PropName <$> set_property ps name value = PropName <$> ps.
Proof.
  induction ps as [|p ps IH]; [set_solver|]. simpl. rewrite elem_of_cons. intros Hin.
  case_decide; simpl; [done|]. f_equal. apply IH. naive_solver.
Qed.

Lemma set_property_names_new ps name value :
  name ∉ (PropName <$> ps) → PropName <$> set_property ps name value = (PropName <$> ps) ++ [name].
Proof.
  induction ps as [|p ps IH]; [done|]. simpl. rewrite not_elem_of_cons. intros [Hne Hin].
  rewrite decide_False by done. simpl. f_equal. by apply IH.
Qed.

#[export] Hint Rewrite find_property_map set_property_map delete_property_map : mgc.
