(* ===== verification/GatewayApi.v ===== *)
(** * Gateway API data and pkg/traffic

    The part of the Gateway API's [v1beta1] types that the controllers read,
    and the [traffic.Gateway] wrapper of pkg/traffic/gateway.go. *)

From S2P Require Import Prelude GoStrings Slice Kube ApiTypes.
Local Open Scope go_scope.

(** ** Gateway API types *)

Record SecretObjectReference := mkSecretRef {
  srGroup : option string;
  srKind : option string;
  srName : string;
  srNamespace : option string
}.

Record GatewayTLSConfig := mkTLS {
  tlsMode : option string;
  CertificateRefs : list SecretObjectReference
}.

Record Listener := mkListener {
  lName : string;
  Hostname : option string;
  lPort : Z;
  lProtocol : string;
  TLS : option GatewayTLSConfig
}.

#[export] Instance SecretObjectReference_eq_dec : EqDecision SecretObjectReference.
Proof. solve_decision. Defined.
#[export] Instance GatewayTLSConfig_eq_dec : EqDecision GatewayTLSConfig.
Proof. solve_decision. Defined.
#[export] Instance Listener_eq_dec : EqDecision Listener.
Proof. solve_decision. Defined.

Definition IPAddressType : string := "IPAddress".
Definition HostnameAddressType : string := "Hostname".
Definition TLSModeTerminate : string := "Terminate".

Record GatewayAddress := mkAddress {
  (** [Type *AddressType] *)
  aType : option string;
  aValue : string
}.

#[export] Instance GatewayAddress_eq_dec : EqDecision GatewayAddress.
Proof. solve_decision. Defined.

Record ListenerStatus := mkListenerStatus {
  lsName : string;
  lsAttachedRoutes : Z
}.

#[export] Instance ListenerStatus_eq_dec : EqDecision ListenerStatus.
Proof. solve_decision. Defined.

Record GatewayStatus := mkGatewayStatus {
  gwAddresses : list GatewayAddress;
  gwConditions : list Condition;
  gwListenerStatuses : list ListenerStatus
}.

#[export] Instance GatewayStatus_eq_dec : EqDecision GatewayStatus.
Proof. solve_decision. Defined.

Definition emptyGatewayStatus : GatewayStatus := mkGatewayStatus [] [] [].

Record Gateway := mkGateway {
  gwMeta : ObjectMeta;
  GatewayClassName : string;
  Listeners : list Listener;
  gwStatus : GatewayStatus
}.

#[export] Instance Gateway_eq_dec : EqDecision Gateway.
Proof. solve_decision. Defined.

Definition set_Listeners (ls : list Listener) (g : Gateway) : Gateway :=
  mkGateway (gwMeta g) (GatewayClassName g) ls (gwStatus g).

(** The gateway with other status conditions. *)
Definition set_gwConditions (cs : list Condition) (g : Gateway) : Gateway :=
  mkGateway (gwMeta g) (GatewayClassName g) (Listeners g)
    (mkGatewayStatus (gwAddresses (gwStatus g)) cs (gwListenerStatuses (gwStatus g))).

Definition set_TLS (t : option GatewayTLSConfig) (l : Listener) : Listener :=
  mkListener (lName l) (Hostname l) (lPort l) (lProtocol l) t.

(** ** pkg/traffic/gateway.go *)

Module traffic.

(** [for _, listener := range listeners { ... }] of [GetHosts], with the hosts
    found so far. *)
Fixpoint getHosts_loop (hosts : list string) (ls : list Listener) : list string :=
  match ls with
  | [] => hosts
  | listener :: rest =>
      match Hostname listener with
      | None => getHosts_loop hosts rest
      | Some host =>
          if slice.ContainsString hosts host then getHosts_loop hosts rest
          else getHosts_loop (hosts ++ [host]) rest
      end
  end.

Definition GetHosts (a : Gateway) : list string := getHosts_loop [] (Listeners a).

Fixpoint hasTLS_loop (ls : list Listener) : bool :=
  match ls with
  | [] => false
  | listener :: rest =>
      match TLS listener with
      | Some _ => true
      | None => hasTLS_loop rest
      end
  end.

Definition HasTLS (a : Gateway) : bool := hasTLS_loop (Listeners a).

(** [AddTLS] dereferences every listener's hostname: a nil one panics. *)
Definition AddTLS (a : Gateway) (host secretName secretKind : string) : res Gateway :=
  let tls := mkTLS (Some TLSModeTerminate)
    [mkSecretRef (Some "") (Some secretKind) secretName (Some (Namespace (gwMeta a)))] in
  let? listeners :=
    slice.MapErr (Listeners a) (λ listener,
      match Hostname listener with
      | None => Panic
      | Some h => Ok (if decide (h = host) then set_TLS (Some tls) listener else listener)
      end) in
  Ok (set_Listeners listeners a).

(** [RemoveTLS] assigns to the loop variable, a copy of the listener, which is
    then discarded; [fmt.Sprint(listener.Hostname)] is the text of a pointer,
    given here by [sprint]. *)
Fixpoint removeTLS_loop (sprint : option string → string) (hosts : list string)
  (ls : list Listener) : list Listener :=
  match ls with
  | [] => []
  | listener :: rest =>
      let _copy :=
        if slice.ContainsString hosts (sprint (Hostname listener))
        then set_TLS None listener else listener in
      listener :: removeTLS_loop sprint hosts rest
  end.

Definition RemoveTLS (sprint : option string → string) (hosts : list string) (a : Gateway) : Gateway :=
  set_Listeners (removeTLS_loop sprint hosts (Listeners a)) a.

Fixpoint getListenerByHost_loop (host : string) (ls : list Listener) : res (option Listener) :=
  match ls with
  | [] => Ok None
  | listener :: rest =>
      match Hostname listener with
      | None => Panic
      | Some h => if decide (h = host) then Ok (Some listener) else getListenerByHost_loop host rest
      end
  end.

Definition GetListenerByHost (host : string) (a : Gateway) : res (option Listener) :=
  getListenerByHost_loop host (Listeners a).

Definition GetKind (a : Gateway) : string := "Gateway".

Definition GetNamespaceName (a : Gateway) : ObjectKey := (Namespace (gwMeta a), Name (gwMeta a)).

(** The error of the key function is dropped; the key is then empty. *)
Definition GetCacheKey `{KeyFunc} (a : Gateway) : res string :=
  match MetaNamespaceKeyFunc (gwMeta a) with
  | Err _ => Ok ""
  | key => key
  end.

(** [types.NamespacedName] prints as namespace/name. *)
Definition String (a : Gateway) : string :=
  "kind: " +:+ GetKind a +:+ ", namespace/name: " +:+ (GetNamespaceName a).1 +:+ "/" +:+ (GetNamespaceName a).2.

Definition ExposesOwnController (a : Gateway) : bool := false.

End traffic.

(** pkg/apis/v1alpha1/dnspolicy_types.go: the policy of a gateway that has
    none, with the weight of [LoadBalancingWeighted]. *)
Definition NewDefaultDNSPolicy (gateway : Gateway) : DNSPolicy :=
  mkDNSPolicy (newObjectMeta (Name (gwMeta gateway)) (Namespace (gwMeta gateway)))
    (mkDNSPolicySpec
       (mkTargetRef "gateway.networking.k8s.io" "Gateway" (Name (gwMeta gateway)) (Some (Namespace (gwMeta gateway))))
       None (Some (mkLoadBalancing (Some (mkWeighted DefaultWeight [])) None)))
    (mkDNSPolicyStatus [] 0).

(** ** Lemmas *)

Lemma getHosts_loop_spec hosts ls :
  NoDup hosts →
  NoDup (traffic.getHosts_loop hosts ls) ∧
  ∀ h, h ∈ traffic.getHosts_loop hosts ls ↔ h ∈ hosts ∨ Some h ∈ (Hostname <$> ls).
Proof.
  revert hosts. induction ls as [|l ls IH]; intros hosts Hnd.
  { split; [done|]. simpl. set_solver. }
  cbn [traffic.getHosts_loop]. rewrite fmap_cons. destruct (Hostname l) as [host|].
  - destruct (slice.ContainsString hosts host) eqn:Hc.
    + apply ContainsString_spec in Hc. destruct (IH hosts Hnd) as [? Hin].
      split; [done|]. intros h. rewrite Hin, elem_of_cons. naive_solver.
    + assert (host ∉ hosts) as Hn by (rewrite <- ContainsString_spec; congruence).
      destruct (IH (hosts ++ [host])) as [? Hin].
      { apply NoDup_app. split; [done|]. split; [set_solver|apply NoDup_singleton]. }
      split; [done|]. intros h. rewrite Hin, elem_of_cons, elem_of_app, list_elem_of_singleton.
      naive_solver.
  - destruct (IH hosts Hnd) as [? Hin]. split; [done|].
    intros h. rewrite Hin, elem_of_cons. naive_solver.
Qed.

Lemma removeTLS_loop_id sprint hosts ls : traffic.removeTLS_loop sprint hosts ls = ls.
Proof. induction ls as [|l ls IH]; simpl; [done|]. by rewrite IH. Qed.

(** The default policy of a gateway is valid, already has its defaults, and
    targets the gateway. *)
Lemma NewDefaultDNSPolicy_valid gateway :
  let p := NewDefaultDNSPolicy gateway in
  DNSPolicy_Validate p = Ok tt ∧ DNSPolicy_Default p = p ∧
  (default (Namespace (polMeta p)) (trNamespace (TargetRef (polSpec p))), trName (TargetRef (polSpec p))) =
    traffic.GetNamespaceName gateway.
Proof.
  split_and!; [|done|done]. unfold DNSPolicy_Validate, validateTargetRef. simpl.
  by rewrite !bool_decide_eq_true_2.
Qed.
