(* ===== verification/Target.v ===== *)
(** * pkg/dns/target.go: gateways placed on clusters, with geo and weight

    [LabelSelectorAsSelector] (apimachinery) and the base-36 text of a SHA-224
    sum are code outside the repository: they are arguments. *)

From S2P Require Import Prelude GoStrings Kube ApiTypes GatewayApi.
Local Open Scope go_scope.

(** ** Data *)

Definition DefaultGeo : string := "default".
Definition WildcardGeo : string := "*".
Definition LabelLBAttributeGeoCode : string := "kuadrant.io/lb-attribute-geo-code".

Definition IsDefaultCode (gc : string) : bool := bool_decide (gc = DefaultGeo).
Definition IsWildcard (gc : string) : bool := bool_decide (gc = WildcardGeo).

Record ClusterGateway := mkClusterGateway {
  Cluster : ObjectMeta;
  GatewayAddresses : list GatewayAddress
}.

Definition NewClusterGateway (cluster : ObjectMeta) (gatewayAddresses : list GatewayAddress) : ClusterGateway :=
  mkClusterGateway cluster gatewayAddresses.

(** [Geo] and [Weight] are pointers that [NewClusterGatewayTarget], the only
    constructor, always sets. *)
Record ClusterGatewayTarget := mkCGT {
  cgtGateway : ClusterGateway;
  cgtGeo : string;
  cgtWeight : Z
}.

Record MultiClusterGatewayTarget := mkMCGT {
  mcgGateway : Gateway;
  ClusterGatewayTargets : list ClusterGatewayTarget;
  mcgLoadBalancing : option LoadBalancingSpec
}.

(** The code outside the repository that target.go calls. *)
Class TargetEnv := {
  (** metav1.LabelSelectorAsSelector, with the [Matches] of its result *)
  LabelSelectorAsSelector : LabelSelector → res (StringMap → bool);
  (** base36.EncodeBytes(sha256.Sum224(s)) *)
  base36sum224 : string → string
}.

Section target.

Context `{TargetEnv}.

(** ** Operations *)

(** [base36hash[:6]] panics on a shorter text. *)
Definition ToBase36hash (s : string) : res string :=
  let base36hash := strings.ToLower (base36sum224 s) in
  if String.length base36hash <? 6 then Panic
  else Ok (strings.take 6 base36hash).

Definition cgt_GetGeo (t : ClusterGatewayTarget) : string := cgtGeo t.
Definition cgt_GetWeight (t : ClusterGatewayTarget) : Z := cgtWeight t.
Definition cgt_GetName (t : ClusterGatewayTarget) : string := Name (Cluster (cgtGateway t)).
Definition cgt_GetShortCode (t : ClusterGatewayTarget) : res string :=
  ToBase36hash (cgt_GetName t).

Definition setGeo (cluster : ObjectMeta) (defaultGeo : string) : string :=
  if decide (defaultGeo = DefaultGeo) then defaultGeo
  else match Labels cluster !! LabelLBAttributeGeoCode with
       | Some gc => gc
       | None => defaultGeo
       end.

Fixpoint setWeight (cluster : ObjectMeta) (defaultWeight : Z)
  (customWeights : list CustomWeight) : res Z :=
  match customWeights with
  | [] => Ok defaultWeight
  | cw :: rest =>
      let? selector := LabelSelectorAsSelector (cwSelector cw) in
      if selector (Labels cluster) then Ok (cwWeight cw)
      else setWeight cluster defaultWeight rest
  end.

Definition NewClusterGatewayTarget (cg : ClusterGateway) (defaultGeoCode : string)
  (defaultWeight : Z) (customWeights : list CustomWeight) : res ClusterGatewayTarget :=
  let geo := setGeo (Cluster cg) defaultGeoCode in
  let? weight := setWeight (Cluster cg) defaultWeight customWeights in
  Ok (mkCGT cg geo weight).

Definition mcg_GetName (t : MultiClusterGatewayTarget) : string :=
  Name (gwMeta (mcgGateway t)) +:+ "-" +:+ Namespace (gwMeta (mcgGateway t)).

Definition mcg_GetShortCode (t : MultiClusterGatewayTarget) : res string :=
  ToBase36hash (mcg_GetName t).

Definition lb_DefaultGeo (lb : option LoadBalancingSpec) : string :=
  match lb with
  | Some s => match Geo s with Some g => g | None => DefaultGeo end
  | None => DefaultGeo
  end.

Definition lb_DefaultWeight (lb : option LoadBalancingSpec) : Z :=
  match lb with
  | Some s => match Weighted s with Some w => lbDefaultWeight w | None => DefaultWeight end
  | None => DefaultWeight
  end.

Definition GetDefaultGeo (t : MultiClusterGatewayTarget) : string :=
  lb_DefaultGeo (mcgLoadBalancing t).
Definition GetDefaultWeight (t : MultiClusterGatewayTarget) : Z :=
  lb_DefaultWeight (mcgLoadBalancing t).

Definition lb_customWeights (lb : option LoadBalancingSpec) : list CustomWeight :=
  match lb with
  | Some s => match Weighted s with Some w => lbCustom w | None => [] end
  | None => []
  end.

Fixpoint setClusterGatewayTargets (lb : option LoadBalancingSpec)
  (clusterGateways : list ClusterGateway) : res (list ClusterGatewayTarget) :=
  match clusterGateways with
  | [] => Ok []
  | cg :: rest =>
      let? cgt := NewClusterGatewayTarget cg (lb_DefaultGeo lb) (lb_DefaultWeight lb)
                    (lb_customWeights lb) in
      let? cgTargets := setClusterGatewayTargets lb rest in
      Ok (cgt :: cgTargets)
  end.

Definition NewMultiClusterGatewayTarget (gateway : Gateway) (clusterGateways : list ClusterGateway)
  (loadBalancing : option LoadBalancingSpec) : res MultiClusterGatewayTarget :=
  let? targets := setClusterGatewayTargets loadBalancing clusterGateways in
  Ok (mkMCGT gateway targets loadBalancing).

(** [geoTargets[g] = append(geoTargets[g], target)] for each target in turn. *)
Definition add_to_group (m : gmap string (list ClusterGatewayTarget)) (t : ClusterGatewayTarget)
  : gmap string (list ClusterGatewayTarget) :=
  <[cgtGeo t := default [] (m !! cgtGeo t) ++ [t]]> m.

Definition group_by_geo (ts : list ClusterGatewayTarget) : gmap string (list ClusterGatewayTarget) :=
  foldl add_to_group ∅ ts.

Definition GroupTargetsByGeo (t : MultiClusterGatewayTarget)
  : gmap string (list ClusterGatewayTarget) :=
  group_by_geo (ClusterGatewayTargets t).

(** ** Lemmas *)

(** A group holds the targets of its geo code, in the order of the clusters. *)
Lemma group_by_geo_lookup ts g :
  group_by_geo ts !! g =
  match filter (λ t, cgtGeo t = g) ts with [] => None | l => Some l end.
Proof.
  unfold group_by_geo. induction ts as [|t ts IH] using rev_ind; [done|].
  rewrite foldl_app, filter_app. simpl. unfold add_to_group at 1.
  rewrite lookup_insert, filter_cons, filter_nil.
  case_decide as Hg; subst.
  - rewrite IH. by destruct (filter _ ts).
  - by rewrite IH, app_nil_r.
Qed.

Lemma group_by_geo_nonempty ts g l : group_by_geo ts !! g = Some l → l ≠ [].
Proof. rewrite group_by_geo_lookup. by case_match; intros; simplify_eq. Qed.

Lemma group_by_geo_Some ts g l :
  group_by_geo ts !! g = Some l → l = filter (λ t, cgtGeo t = g) ts.
Proof. rewrite group_by_geo_lookup. case_match; intros; by simplify_eq. Qed.

Lemma setWeight_first_match cluster dw pre cw post sel :
  Forall (λ c, ∃ s, LabelSelectorAsSelector (cwSelector c) = Ok s ∧ s (Labels cluster) = false) pre →
  LabelSelectorAsSelector (cwSelector cw) = Ok sel → sel (Labels cluster) = true →
  setWeight cluster dw (pre ++ cw :: post) = Ok (cwWeight cw).
Proof.
  intros Hpre Hsel Hm. induction Hpre as [|c pre (s & Hs & Hf) _ IH]; simpl.
  - by rewrite Hsel; simpl; rewrite Hm.
  - by rewrite Hs; simpl; rewrite Hf.
Qed.

Lemma setWeight_no_match cluster dw cws :
  Forall (λ c, ∃ s, LabelSelectorAsSelector (cwSelector c) = Ok s ∧ s (Labels cluster) = false) cws →
  setWeight cluster dw cws = Ok dw.
Proof. induction 1 as [|c pre (s & Hs & Hf) _ IH]; simpl; [done|]. by rewrite Hs; simpl; rewrite Hf. Qed.

Lemma setClusterGatewayTargets_gateways lb cgs ts :
  setClusterGatewayTargets lb cgs = Ok ts → cgtGateway <$> ts = cgs.
Proof.
  revert ts. induction cgs as [|cg cgs IH]; simpl; intros ts Hts; [by simplify_eq|].
  unfold NewClusterGatewayTarget in Hts.
  destruct (setWeight _ _ _); simpl in Hts; [|done..].
  destruct (setClusterGatewayTargets lb cgs) as [ts'| |]; simpl in Hts; [|done..].
  simplify_eq/=. by rewrite <- (IH ts').
Qed.

End target.
