(* ===== verification/Placer.v ===== *)
(** * The placement interface (pkg/controllers/gateway, [GatewayPlacer])

    What the gateway and DNS policy controllers need of the placement of
    gateways on clusters; [Placement] implements it. *)

From S2P Require Import Prelude Kube GatewayApi Target.

Class GatewayPlacer (W : Type) := {
  (** upstream gateway, downstream gateway, and the secrets that go with it *)
  Place : Gateway → Gateway → list Secret → M W (gset string);
  GetPlacedClusters : Gateway → M W (gset string);
  GetClusters : Gateway → M W (gset string);
  (** gateway, listener name, cluster *)
  ListenerTotalAttachedRoutes : Gateway → string → string → M W Z;
  GetAddresses : Gateway → string → M W (list GatewayAddress);
  GetClusterGateway : Gateway → string → M W ClusterGateway
}.
