(* ===== verification/Zones.v ===== *)
(** * findMatchingManagedZone (pkg/controllers/dnspolicy/dns_helper.go)

    The managed zone a listener's host belongs to: the search climbs the host's
    parent domains and takes the first one a zone is named after.  The public
    suffix list (golang.org/x/net/publicsuffix) is an argument. *)

From S2P Require Import Prelude GoStrings Slice Kube ApiTypes.
Local Open Scope go_scope.

Class PublicSuffixList := {
  PublicSuffix : string → string
}.

Definition ErrNoManagedZoneForHost : goerror := ErrSentinel "no managed zone for host".

Section zones.

Context `{PublicSuffixList}.

Definition zoneDomain (z : ManagedZone) : string := strings.ToLower (DomainName (zSpec z)).

(** ** The search

    The recursion is on the parent domain, a shorter string each time: fuel
    above the length of [host] is never used up ([find_unfold] below). *)
Fixpoint find_fuel (fuel : nat) (originalHost host : string) (zones : list ManagedZone)
  : res (ManagedZone * string) :=
  match fuel with
  | O => Panic
  | S fuel =>
      if decide (zones = []) then
        Err (ErrWrap (" : " +:+ host) ErrNoManagedZoneForHost)
      else
        let host := strings.ToLower host in
        let tld := PublicSuffix host in
        if decide (host = tld) then
          Err (ErrText ("no valid zone found for host: " +:+ originalHost))
        else
          match strings.SplitN2 host "."%char with
          | [_; parentDomain] =>
              if decide (host = originalHost) then
                find_fuel fuel originalHost parentDomain zones
              else
                match slice.Find zones (λ zone, bool_decide (zoneDomain zone = host)) with
                | Some zone =>
                    let subdomain :=
                      strings.Replace1 (strings.ToLower originalHost) ("." +:+ zoneDomain zone) "" in
                    Ok (zone, subdomain)
                | None => find_fuel fuel originalHost parentDomain zones
                end
          | _ => Err (ErrText ("no valid zone found for host: " +:+ originalHost))
          end
  end.

Definition findMatchingManagedZone (originalHost host : string) (zones : list ManagedZone)
  : res (ManagedZone * string) :=
  find_fuel (S (String.length host)) originalHost host zones.

(** ** Domains above a host, nearest first *)
Fixpoint ancestors (host : string) : list string :=
  match host with
  | "" => []
  | String c rest =>
      if decide (c = "."%char) then rest :: ancestors rest else ancestors rest
  end.

(** A domain the search may take: two labels at least, and no public suffix. *)
Definition searchable (d : string) : Prop :=
  PublicSuffix d ≠ d ∧ occurs "."%char d = true.

Definition named (d : string) (z : ManagedZone) : bool := bool_decide (zoneDomain z = d).

(** ** Lemmas *)

Lemma ancestors_cut s :
  ancestors s = match strings.cut "."%char s with Some (_, r) => r :: ancestors r | None => [] end.
Proof.
  induction s as [|c s IH]; [done|]. simpl. case_decide; [done|].
  rewrite IH. by destruct (strings.cut "."%char s) as [[]|].
Qed.

Lemma cut_lower c s l r :
  strings.cut c s = Some (l, r) → strings.ToLower s = s → strings.ToLower r = r.
Proof.
  intros [-> _]%cut_Some Heq. rewrite ToLower_app in Heq.
  apply sapp_inj_length in Heq as [_ Heq]; [|by rewrite ToLower_length].
  cbn in Heq. by injection Heq.
Qed.

(** More fuel than the host's length changes nothing. *)
Lemma find_fuel_enough n m orig host zones :
  String.length host < n → String.length host < m →
  find_fuel n orig host zones = find_fuel m orig host zones.
Proof.
  revert m host. induction n as [|n IH]; intros [|m] host Hn Hm; [lia..|].
  cbn [find_fuel]. case_decide; [done|]. case_decide; [done|].
  unfold strings.SplitN2. destruct (strings.cut _ _) as [[l r]|] eqn:Hc; [|done].
  apply cut_length in Hc. rewrite ToLower_length in Hc.
  rewrite (IH m r) by lia. done.
Qed.

(** The fuel is enough: the function satisfies the recursion of the source. *)
Lemma find_unfold orig host zones :
  findMatchingManagedZone orig host zones =
  if decide (zones = []) then Err (ErrWrap (" : " +:+ host) ErrNoManagedZoneForHost)
  else
    let host := strings.ToLower host in
    if decide (host = PublicSuffix host) then
      Err (ErrText ("no valid zone found for host: " +:+ orig))
    else match strings.cut "."%char host with
         | Some (_, parent) =>
             if decide (host = orig) then findMatchingManagedZone orig parent zones
             else match slice.Find zones (named host) with
                  | Some z => Ok (z, strings.Replace1 (strings.ToLower orig) ("." +:+ zoneDomain z) "")
                  | None => findMatchingManagedZone orig parent zones
                  end
         | None => Err (ErrText ("no valid zone found for host: " +:+ orig))
         end.
Proof.
  unfold findMatchingManagedZone at 1. cbn [find_fuel]. case_decide; [done|].
  case_decide; [done|]. unfold strings.SplitN2.
  destruct (strings.cut _ _) as [[l r]|] eqn:Hc; [|done].
  apply cut_length in Hc. rewrite ToLower_length in Hc.
  unfold findMatchingManagedZone. by rewrite (find_fuel_enough (String.length host) (S (String.length r))) by lia.
Qed.

(** The search below a host it has already passed: it finds the zone of the
    nearest ancestor-or-self that one is named after. *)
Lemma find_climb orig host zones z sub :
  strings.ToLower host = host → String.length host < String.length orig →
  findMatchingManagedZone orig host zones = Ok (z, sub) →
  ∃ pre post,
    host :: ancestors host = pre ++ zoneDomain z :: post ∧
    Forall (λ a, searchable a ∧ Forall (λ z', named a z' = false) zones) pre ∧
    searchable (zoneDomain z) ∧ z ∈ zones ∧
    sub = strings.Replace1 (strings.ToLower orig) ("." +:+ zoneDomain z) "".
Proof.
  remember (String.length host) as n eqn:Hn. revert host Hn.
  induction (lt_wf n) as [n _ IH]; intros host -> Hlow Hlen Hf.
  rewrite find_unfold in Hf. case_decide; [done|]. cbv zeta in Hf. rewrite Hlow in Hf.
  case_decide as Htld; [done|].
  destruct (strings.cut "."%char host) as [[l r]|] eqn:Hc; [|done].
  assert (searchable host) as Hs.
  { split; [congruence|]. destruct (occurs "."%char host) eqn:Ho; [done|].
    apply cut_Some in Hc as [-> _]. rewrite occurs_app in Ho. cbn in Ho.
    by rewrite orb_true_r in Ho. }
  rewrite decide_False in Hf by (intros ->; lia).
  destruct (slice.Find zones (named host)) as [z'|] eqn:Hz.
  - simplify_eq. apply Find_Some in Hz as (l1 & l2 & -> & Hz & _).
    apply bool_decide_eq_true in Hz. exists [], (ancestors host). rewrite Hz.
    split_and!; [done|constructor|done|set_solver|done].
  - pose proof (cut_length _ _ _ _ Hc). pose proof (cut_lower _ _ _ _ Hc Hlow).
    destruct (IH (String.length r)) with (host := r) as (pre & post & Ha & Hpre & ?); [lia|done..| |done|].
    { lia. }
    exists (host :: pre), post. rewrite ancestors_cut, Hc, Ha.
    split; [done|]. split; [|done]. constructor; [|done]. split; [done|].
    by apply Find_None.
Qed.

Lemma find_climb_complete orig host zones pre d post z :
  strings.ToLower host = host → String.length host < String.length orig →
  host :: ancestors host = pre ++ d :: post →
  Forall searchable pre → searchable d → z ∈ zones → zoneDomain z = d →
  ∃ z' sub, findMatchingManagedZone orig host zones = Ok (z', sub) ∧
            zoneDomain z' ∈ pre ++ [d].
Proof.
  remember (String.length host) as n eqn:Hn. revert host pre Hn.
  induction (lt_wf n) as [n _ IH]; intros host pre -> Hlow Hlen Ha Hpre Hd Hz Hzd.
  assert (searchable host) as [Hps Hdot].
  { destruct pre as [|a pre]; simplify_eq/=; [done|]. by apply Forall_cons in Hpre as [? _]. }
  rewrite find_unfold. rewrite decide_False by (intros ->; set_solver). cbv zeta.
  rewrite Hlow, decide_False by congruence.
  destruct (strings.cut "."%char host) as [[l r]|] eqn:Hc; [|by apply cut_None in Hc; congruence].
  rewrite decide_False by (intros ->; lia).
  destruct (slice.Find zones (named host)) as [z'|] eqn:Hf.
  - apply Find_Some in Hf as (l1 & l2 & -> & Hz' & _). apply bool_decide_eq_true in Hz'.
    eexists _, _. split; [done|]. rewrite Hz'. destruct pre; simplify_eq/=; set_solver.
  - pose proof (cut_length _ _ _ _ Hc). pose proof (cut_lower _ _ _ _ Hc Hlow).
    apply Find_None in Hf. rewrite Forall_forall in Hf.
    destruct pre as [|a pre]; simplify_eq/=.
    { specialize (Hf z Hz). unfold named in Hf. by rewrite bool_decide_eq_true_2 in Hf. }
    apply Forall_cons in Hpre as [_ Hpre]. rewrite ancestors_cut, Hc in *.
    destruct (IH (String.length r)) with (host := r) (pre := pre) as (z' & sub & -> & Hin); try done; [lia|].
    exists z', sub. split; [done|]. set_solver.
Qed.

Lemma find_not_panic orig host zones : findMatchingManagedZone orig host zones ≠ Panic.
Proof.
  remember (String.length host) as n eqn:Hn. revert host Hn.
  induction (lt_wf n) as [n _ IH]; intros host ->. rewrite find_unfold.
  case_decide; [done|]. cbv zeta. case_decide; [done|].
  destruct (strings.cut _ _) as [[l r]|] eqn:Hc; [|done].
  apply cut_length in Hc. rewrite ToLower_length in Hc.
  assert (findMatchingManagedZone orig r zones ≠ Panic) by eauto.
  case_decide; [done|]. by destruct (slice.Find _ _).
Qed.

(** The first step, at the listener's own host, is never a match. *)
Lemma find_start h zones z sub :
  strings.ToLower h = h → findMatchingManagedZone h h zones = Ok (z, sub) →
  PublicSuffix h ≠ h ∧ zones ≠ [] ∧
  ∃ l r, strings.cut "."%char h = Some (l, r) ∧ findMatchingManagedZone h r zones = Ok (z, sub).
Proof.
  intros Hlow Hf. rewrite find_unfold in Hf. case_decide; [done|]. cbv zeta in Hf.
  rewrite Hlow in Hf. case_decide; [done|].
  destruct (strings.cut _ _) as [[l r]|]; [|done]. rewrite decide_True in Hf by done.
  split_and!; [congruence|done|]. by exists l, r.
Qed.

Lemma Replace1_prefix s old new :
  String.prefix old s = true →
  strings.Replace1 s old new = new +:+ strings.drop (String.length old) s.
Proof. intros Hp. destruct s; cbn [strings.Replace1]; by rewrite Hp. Qed.

Lemma Replace1_first pre pat suf :
  (∀ p q, pre +:+ pat +:+ suf = p +:+ pat +:+ q → String.length pre ≤ String.length p) →
  strings.Replace1 (pre +:+ pat +:+ suf) pat "" = pre +:+ suf.
Proof.
  induction pre as [|c pre IH]; intros Hfirst.
  - rewrite !sapp_nil_l, Replace1_prefix, drop_app; [done|].
    apply prefix_spec. by exists suf.
  - rewrite sapp_cons. cbn [strings.Replace1].
    destruct (String.prefix pat (String c (pre +:+ pat +:+ suf))) eqn:Hp.
    + apply prefix_spec in Hp as [u Hu]. specialize (Hfirst "" u).
      rewrite sapp_cons in Hfirst. specialize (Hfirst Hu). simpl in Hfirst. lia.
    + rewrite sapp_cons. f_equal. apply IH. intros p q Heq.
      specialize (Hfirst (String c p) q). rewrite !sapp_cons, Heq in Hfirst.
      specialize (Hfirst eq_refl). simpl in Hfirst. lia.
Qed.

(** ** Properties *)

(** The zone found for a lower-case listener host is a zone of the list
    whose domain is a proper parent domain of the host, neither the host
    itself nor a public suffix, and it is the most specific one: no zone is
    named after any parent domain nearer to the host, and none of those is a
    public suffix. *)
Lemma zone_is_nearest_parent h zones z sub :
  strings.ToLower h = h →
  findMatchingManagedZone h h zones = Ok (z, sub) →
  z ∈ zones ∧ searchable (zoneDomain z) ∧ PublicSuffix h ≠ h ∧
  ∃ nearer further,
    ancestors h = nearer ++ zoneDomain z :: further ∧
    Forall (λ a, searchable a ∧ Forall (λ z', zoneDomain z' ≠ a) zones) nearer.
Proof.
  intros Hlow Hf. destruct (find_start _ _ _ _ Hlow Hf) as (? & _ & l & r & Hc & Hr).
  destruct (find_climb h r zones z sub) as (pre & post & Ha & Hpre & ? & ? & _); [..|done|].
  { by eapply cut_lower. }
  { by eapply cut_length. }
  split_and!; [done..|]. exists pre, post. rewrite ancestors_cut, Hc. split; [done|].
  eapply Forall_impl; [done|]. intros a [Hs Hz]. split; [done|].
  eapply Forall_impl; [done|]. intros z' Hz'. by apply bool_decide_eq_false in Hz'.
Qed.

(** A zone is found whenever one is named after a parent domain of the
    host that the climb reaches, i.e. the host and the domains up to that one
    are no public suffixes; the zone returned then belongs to that domain or
    to a nearer one. *)
Lemma zone_found_when_reachable h zones z nearer further :
  strings.ToLower h = h → PublicSuffix h ≠ h →
  ancestors h = nearer ++ zoneDomain z :: further → z ∈ zones →
  Forall searchable nearer → searchable (zoneDomain z) →
  ∃ z' sub, findMatchingManagedZone h h zones = Ok (z', sub) ∧
            zoneDomain z' ∈ nearer ++ [zoneDomain z].
Proof.
  intros Hlow Hps Ha Hz Hn Hd. rewrite ancestors_cut in Ha.
  destruct (strings.cut _ h) as [[l r]|] eqn:Hc; [|by destruct nearer].
  rewrite find_unfold, decide_False by (intros ->; set_solver). cbv zeta.
  rewrite Hlow, decide_False, Hc, decide_True by congruence.
  apply (find_climb_complete h r zones nearer (zoneDomain z) further z); try done.
  - by eapply cut_lower.
  - by eapply cut_length.
Qed.

(** C1: the zone of a lower-case listener host.  The zone found is a zone of
    the list whose domain is a proper parent domain of the host and no public
    suffix, and the most specific one: no zone is named after a parent domain
    nearer to the host, and none of those is a public suffix.  Conversely, when
    a zone is named after a parent domain and no public suffix lies on the way
    to it (the host included), the search finds a zone, of that domain or of a
    nearer one. *)
Theorem zone_search_correct h zones :
  strings.ToLower h = h →
  (∀ z sub, findMatchingManagedZone h h zones = Ok (z, sub) →
     z ∈ zones ∧ searchable (zoneDomain z) ∧ PublicSuffix h ≠ h ∧
     ∃ nearer further,
       ancestors h = nearer ++ zoneDomain z :: further ∧
       Forall (λ a, searchable a ∧ Forall (λ z', zoneDomain z' ≠ a) zones) nearer) ∧
  (∀ z nearer further,
     PublicSuffix h ≠ h → ancestors h = nearer ++ zoneDomain z :: further → z ∈ zones →
     Forall searchable nearer → searchable (zoneDomain z) →
     ∃ z' sub, findMatchingManagedZone h h zones = Ok (z', sub) ∧
               zoneDomain z' ∈ nearer ++ [zoneDomain z]).
Proof.
  intros Hlow. split.
  - intros z sub. by apply zone_is_nearest_parent.
  - intros z nearer further ?????. by eapply zone_found_when_reachable.
Qed.

(** C3: the search terminates without running out of fuel on every input: it
    returns a zone or an error. *)
Theorem zone_search_total originalHost host zones :
  ∃ r, findMatchingManagedZone originalHost host zones = r ∧
       match r with Ok (z, _) => z ∈ zones | Err _ => True | Panic => False end.
Proof.
  eexists. split; [done|]. pose proof (find_not_panic originalHost host zones) as Hp.
  remember (String.length host) as n eqn:Hn. revert host Hn Hp.
  induction (lt_wf n) as [n _ IH]; intros host ->. rewrite find_unfold.
  case_decide; [done|]. cbv zeta. case_decide; [done|].
  destruct (strings.cut _ _) as [[l r]|] eqn:Hc; [|done].
  apply cut_length in Hc. rewrite ToLower_length in Hc.
  case_decide; [by apply (IH _ Hc r eq_refl)|].
  destruct (slice.Find _ _) as [z|] eqn:Hf; [|by apply (IH _ Hc r eq_refl)].
  intros _. apply Find_Some in Hf as (l1 & l2 & -> & _). set_solver.
Qed.

(** The subdomain returned with the zone is what stands before the zone's
    domain in the host, provided the dotted domain does not also occur further
    left in the host. *)
Theorem zone_subdomain h zones z sub label :
  strings.ToLower h = h →
  findMatchingManagedZone h h zones = Ok (z, sub) →
  h = label +:+ "." +:+ zoneDomain z →
  (∀ p q, h = p +:+ ("." +:+ zoneDomain z) +:+ q → String.length label ≤ String.length p) →
  sub = label.
Proof.
  intros Hlow Hf Hh Hfirst. destruct (find_start _ _ _ _ Hlow Hf) as (_ & _ & l & r & Hc & Hr).
  destruct (find_climb h r zones z sub) as (_ & _ & _ & _ & _ & _ & ->); [..|done|].
  { by eapply cut_lower. }
  { by eapply cut_length. }
  rewrite Hlow. assert (h = label +:+ ("." +:+ zoneDomain z) +:+ "") as Hh'.
  { by rewrite sapp_nil_r. }
  rewrite Hh' at 1. rewrite Replace1_first, sapp_nil_r; [done|]. by rewrite <- Hh'.
Qed.

End zones.

(** ** Witnesses: a public suffix list with the default rule only *)

(** The prevailing rule when no rule of the list matches: the last label. *)
Fixpoint last_label (s : string) : string :=
  match strings.cut "."%char s with
  | None => s
  | Some _ => match s with "" => "" | String _ s' => last_label s' end
  end.

Definition defaultRule : PublicSuffixList := {| PublicSuffix := last_label |}.

Definition exampleZone (name domain : string) : ManagedZone :=
  mkManagedZone (newObjectMeta name "multi-cluster-gateways")
    (mkManagedZoneSpec "" domain "" None ("multi-cluster-gateways", "aws-credentials"))
    (mkManagedZoneStatus [] 0 "" 0 []).

Definition exampleZones : list ManagedZone :=
  [exampleZone "com" "Example.com"; exampleZone "dev" "dev.example.com"].

(** A host below two zones goes to the nearer one, and one below a domain
    without a zone to the zone further up. *)
Lemma zone_search_correct_witness :
  let _ := defaultRule in
  (∃ nearer further,
     ancestors "api.dev.example.com" = nearer ++ "dev.example.com" :: further ∧
     Forall (λ a, searchable a ∧ Forall (λ z', zoneDomain z' ≠ a) exampleZones) nearer) ∧
  (∃ z' sub, findMatchingManagedZone "shop.eu.example.com" "shop.eu.example.com" exampleZones = Ok (z', sub) ∧
             zoneDomain z' ∈ ["eu.example.com"; "example.com"]).
Proof.
  split.
  - apply (proj1 (@zone_search_correct defaultRule "api.dev.example.com" exampleZones eq_refl)
             (exampleZone "dev" "dev.example.com") "api"); vm_compute; reflexivity.
  - apply (proj2 (@zone_search_correct defaultRule "shop.eu.example.com" exampleZones eq_refl)
             (exampleZone "com" "Example.com") ["eu.example.com"] ["com"]).
    + vm_compute; discriminate.
    + vm_compute; reflexivity.
    + apply list_elem_of_here.
    + repeat constructor; vm_compute; congruence.
    + split; vm_compute; congruence.
Defined.

Lemma zone_subdomain_witness :
  let _ := defaultRule in
  findMatchingManagedZone "shop.example.com" "shop.example.com" exampleZones =
    Ok (exampleZone "com" "Example.com", "shop") ∧ "shop" = "shop".
Proof.
  split; [vm_compute; reflexivity|].
  apply (@zone_subdomain defaultRule "shop.example.com" exampleZones
           (exampleZone "com" "Example.com") "shop" "shop"); [vm_compute; reflexivity..|].
  intros p q Heq.
  do 4 (destruct p as [|? p]; [vm_compute in Heq; discriminate|]). simpl. lia.
Defined.

(** ** Two corners of the search *)

(** When the zone's domain also occurs inside the host, the first occurrence
    is cut out instead of the last one. *)
Example subdomain_of_repeated_domain :
  let _ := defaultRule in
  findMatchingManagedZone "a.example.com.b.example.com" "a.example.com.b.example.com" exampleZones =
  Ok (exampleZone "com" "Example.com", "a.b.example.com").
Proof. vm_compute. reflexivity. Qed.

(** The test that keeps a host from matching its own (apex) zone compares the
    lower-cased host with the original one: a host with capitals passes it. *)
Example apex_match_with_capitals :
  let _ := defaultRule in
  findMatchingManagedZone "EXAMPLE.com" "EXAMPLE.com" exampleZones =
  Ok (exampleZone "com" "Example.com", "example.com").
Proof. vm_compute. reflexivity. Qed.
