(* ===== verification/EndpointHealth.v ===== *)
(** * Which endpoints are published (the second half of setEndpoints)

    pkg/controllers/dnspolicy/dns_helper.go, lines 264-324: endpoints with a
    failing health-check probe are taken out, then parents left without
    children are cleaned up until a pass removes nothing; if nothing is left
    the full set is published. *)

From S2P Require Import Prelude GoStrings Slice Kube ApiTypes.

(** ** Names *)

Definition dnsRecordName (gatewayName listenerName : string) : string :=
  gatewayName +:+ "-" +:+ listenerName.

Definition dnsHealthCheckProbeName (address gatewayName listenerName : string) : string :=
  address +:+ "-" +:+ dnsRecordName gatewayName listenerName.

(** ** The address pattern

    A match of [\b(?:\d{1,3}\.){3}\d{1,3}\b] anywhere in the text.  Three
    digits at most stand between separators, so each group is a whole run of
    digits and there is nothing to backtrack over. *)

Definition isDigit (c : ascii) : bool :=
  let n := N_of_ascii c in (48 <=? n)%N && (n <=? 57)%N.

Definition isWord (c : ascii) : bool :=
  let n := N_of_ascii c in
  isDigit c || ((65 <=? n)%N && (n <=? 90)%N) || ((97 <=? n)%N && (n <=? 122)%N) || (n =? 95)%N.

Fixpoint span_digits (s : string) : nat * string :=
  match s with
  | String c s' =>
      if isDigit c then let '(n, r) := span_digits s' in (S n, r) else (0, s)
  | "" => (0, "")
  end.

Definition one_to_three (n : nat) : bool := (1 <=? n) && (n <=? 3).

(** [\d{1,3}\.] *)
Definition match_group (s : string) : option string :=
  let '(n, r) := span_digits s in
  if one_to_three n then
    match r with
    | String c r' => if decide (c = "."%char) then Some r' else None
    | "" => None
    end
  else None.

(** [\d{1,3}\b] *)
Definition match_last (s : string) : bool :=
  let '(n, r) := span_digits s in
  one_to_three n && match r with "" => true | String c _ => negb (isWord c) end.

Definition match_ip_here (s : string) : bool :=
  match match_group s with
  | Some s1 =>
      match match_group s1 with
      | Some s2 => match match_group s2 with Some s3 => match_last s3 | None => false end
      | None => false
      end
  | None => false
  end.

(** [prev]: the byte before [s] is a word byte, so no [\b] is here. *)
Fixpoint find_ip (prev : bool) (s : string) : bool :=
  match s with
  | "" => false
  | String c s' => (negb prev && match_ip_here s) || find_ip (isWord c) s'
  end.

(** [len(re.FindAllString(target, -1)) > 0] *)
Definition matches_ip (target : string) : bool := find_ip false target.

(** ** Probes of an endpoint *)

Definition getProbesForEndpoint (endpoint : Endpoint) (probes : list DNSHealthCheckProbe)
  (gatewayName listenerName : string) : list DNSHealthCheckProbe :=
  probe ← probes;
  target ← Targets endpoint;
  if decide (dnsHealthCheckProbeName target gatewayName listenerName = Name (probeMeta probe))
  then [probe] else [].

(** [!probeHealthy && FailureThreshold != nil && ConsecutiveFailures >= *FailureThreshold] *)
Definition probeFailing (probe : DNSHealthCheckProbe) : bool :=
  let probeHealthy := match Healthy (probeStatus probe) with Some h => h | None => true end in
  negb probeHealthy &&
  match psFailureThreshold (probeSpec probe) with
  | Some threshold => bool_decide (threshold ≤ ConsecutiveFailures (probeStatus probe))%Z
  | None => false
  end.

Definition endpointFailing (probes : list DNSHealthCheckProbe) (gatewayName listenerName : string)
  (e : Endpoint) : bool :=
  existsb probeFailing (getProbesForEndpoint e probes gatewayName listenerName).

(** The index loop over [newEndpoints], [checked] the part before the index:
    removing an entry steps the index back. *)
Fixpoint remove_failing (failing : Endpoint → bool) (checked rest : list Endpoint) (removed : nat)
  : list Endpoint * nat :=
  match rest with
  | [] => (checked, removed)
  | e :: rest' =>
      if failing e then remove_failing failing checked rest' (S removed)
      else remove_failing failing (checked ++ [e]) rest' removed
  end.

(** ** Cleaning up parents without children *)

Definition findChildren (endpoints : list Endpoint) (parent : Endpoint) : list Endpoint :=
  endpoint ← endpoints;
  target ← Targets parent;
  if decide (target = DNSName endpoint) then [endpoint] else [].

Definition getNumChildrenOfParent (endpoints : list Endpoint) (parent : Endpoint) : nat :=
  length (findChildren endpoints parent).

Definition hasIPTarget (e : Endpoint) : bool := existsb matches_ip (Targets e).

(** One pass of [endpointsLoop].  Removing an entry does not step the index
    back: the entry that moves into its place is skipped in this pass. *)
Fixpoint cleanup_pass (checked rest : list Endpoint) (removed : nat) : list Endpoint * nat :=
  match rest with
  | [] => (checked, removed)
  | e :: rest' =>
      if hasIPTarget e then cleanup_pass (checked ++ [e]) rest' removed
      else if getNumChildrenOfParent (checked ++ e :: rest') e =? 0 then
        match rest' with
        | [] => (checked, S removed)
        | skipped :: rest'' => cleanup_pass (checked ++ [skipped]) rest'' (S removed)
        end
      else cleanup_pass (checked ++ [e]) rest' removed
  end.

(** [for removedEndpoints > 0 { ...; removedEndpoints-- }]; [None] is out of
    fuel. *)
Fixpoint cleanup (fuel removedEndpoints : nat) (eps : list Endpoint) : option (list Endpoint) :=
  match removedEndpoints with
  | O => Some eps
  | S r =>
      match fuel with
      | O => None
      | S fuel =>
          let '(eps', k) := cleanup_pass [] eps 0 in
          cleanup fuel (r + k) eps'
      end
  end.

(** Lines 264-324: the endpoints to publish, from the new endpoints and the
    probes. [r + k + length eps'] drops by one in each round of [cleanup], so
    this fuel is enough ([cleanup_total]). *)
Definition publishedEndpoints (probes : list DNSHealthCheckProbe) (gatewayName listenerName : string)
  (newEndpoints : list Endpoint) : option (list Endpoint) :=
  let '(healthy, removed) :=
    remove_failing (endpointFailing probes gatewayName listenerName) [] newEndpoints 0 in
  match cleanup (removed + length healthy) removed healthy with
  | Some [] => Some newEndpoints
  | Some cleaned => Some cleaned
  | None => None
  end.

(** ** What the clean-up is for *)

(** An endpoint that resolves within [eps]: to an address, or to another one. *)
Definition resolves (eps : list Endpoint) (e : Endpoint) : Prop :=
  hasIPTarget e = true ∨ ∃ child, child ∈ eps ∧ DNSName child ∈ Targets e.

(** Every endpoint of [eps] does. *)
Definition closed (eps : list Endpoint) : Prop := Forall (resolves eps) eps.

(** ** Lemmas *)

Lemma remove_failing_eq failing checked rest removed :
  remove_failing failing checked rest removed =
  (checked ++ filter (λ e, failing e = false) rest,
   removed + length (filter (λ e, failing e = true) rest)).
Proof.
  revert checked removed. induction rest as [|e rest IH]; intros checked removed.
  { cbn. by rewrite app_nil_r, Nat.add_0_r. }
  cbn [remove_failing]. rewrite !filter_cons. destruct (failing e); rewrite IH.
  - rewrite decide_False, decide_True by done. simpl. f_equal. lia.
  - rewrite decide_True, decide_False by done. by rewrite <- (assoc_L (++)).
Qed.

Lemma elem_of_findChildren eps e child :
  child ∈ findChildren eps e ↔ child ∈ eps ∧ DNSName child ∈ Targets e.
Proof.
  unfold findChildren. rewrite list_elem_of_bind. split.
  - intros (x & Hin & Hx). apply list_elem_of_bind in Hin as (t & Hin & Ht).
    case_decide; [|set_solver]. apply list_elem_of_singleton in Hin. by subst.
  - intros [Hc Ht]. exists child. split; [|done].
    apply list_elem_of_bind. exists (DNSName child). rewrite decide_True by done. set_solver.
Qed.

Lemma no_children eps e :
  getNumChildrenOfParent eps e = 0 → ¬ ∃ child, child ∈ eps ∧ DNSName child ∈ Targets e.
Proof.
  unfold getNumChildrenOfParent. rewrite length_zero_iff_nil.
  intros Hnil (child & Hc%elem_of_findChildren). by rewrite Hnil in Hc; apply not_elem_of_nil in Hc.
Qed.

Lemma some_children eps e :
  getNumChildrenOfParent eps e ≠ 0 → ∃ child, child ∈ eps ∧ DNSName child ∈ Targets e.
Proof.
  unfold getNumChildrenOfParent. destruct (findChildren eps e) as [|c cs] eqn:E; [done|].
  intros _. exists c. apply elem_of_findChildren. rewrite E. apply list_elem_of_here.
Qed.

(** What one pass does, by the cases of its loop body. *)
Section pass.

Context (P : list Endpoint → nat → list Endpoint → nat → Prop).

(** Induction over a pass: [P checked+rest removed out removed'] holds if it
    holds when the pass ends and is kept by keeping and by removing an entry. *)
Lemma cleanup_pass_ind
  (Hdone : ∀ l n, P l n l n)
  (Hremove : ∀ l1 e l2 n out n',
     ¬ resolves (l1 ++ e :: l2) e → P (l1 ++ l2) (S n) out n' → P (l1 ++ e :: l2) n out n') :
  ∀ rest checked n, P (checked ++ rest) n (cleanup_pass checked rest n).1 (cleanup_pass checked rest n).2.
Proof.
  intros rest. remember (length rest) as k eqn:Hk. revert rest Hk.
  induction (lt_wf k) as [k _ IH]; intros [|e rest] -> checked n; cbn [cleanup_pass].
  { rewrite app_nil_r. apply Hdone. }
  simpl in IH. destruct (hasIPTarget e) eqn:Hip.
  { rewrite (cons_middle e checked rest), (assoc_L (++)). eapply IH; [|done]. lia. }
  destruct (Nat.eqb_spec (getNumChildrenOfParent (checked ++ e :: rest) e) 0) as [Hz|Hz].
  - assert (¬ resolves (checked ++ e :: rest) e) as Hr.
    { intros [?|?]; [congruence|]. by apply no_children in Hz. }
    destruct rest as [|skipped rest]; (eapply Hremove; [done|]).
    + rewrite app_nil_r. apply Hdone.
    + rewrite (cons_middle skipped checked rest), (assoc_L (++)). eapply IH; [|done]. simpl; lia.
  - rewrite (cons_middle e checked rest), (assoc_L (++)). eapply IH; [|done]. lia.
Qed.

End pass.

(** A pass removes entries, counts them, and keeps every closed part. *)
Lemma cleanup_pass_spec eps out k :
  cleanup_pass [] eps 0 = (out, k) →
  sublist out eps ∧ length out + k = length eps ∧
  ∀ part, closed part → part ⊆ eps → part ⊆ out.
Proof.
  intros Hp.
  enough (∀ rest checked n,
    let '(out, n') := cleanup_pass checked rest n in
    sublist out (checked ++ rest) ∧ length out + n' = length (checked ++ rest) + n ∧
    ∀ part, closed part → part ⊆ checked ++ rest → part ⊆ out) as Hgen.
  { specialize (Hgen eps [] 0). rewrite Hp in Hgen. simpl in Hgen. by rewrite Nat.add_0_r in Hgen. }
  intros rest checked n. rewrite (surjective_pairing (cleanup_pass checked rest n)).
  revert rest checked n. apply (cleanup_pass_ind (λ l n out n',
    sublist out l ∧ length out + n' = length l + n ∧
    ∀ part, closed part → part ⊆ l → part ⊆ out)); [done|].
  clear. intros l1 e l2 n out n' Hr (Hs & Hl & Hc). split_and!.
  - etrans; [done|]. apply sublist_delete_at.
  - rewrite length_app in *. simpl. lia.
  - intros part Hpart Hsub. apply Hc; [done|]. intros x Hx.
    assert (x ≠ e); [|set_solver]. intros ->. apply Hr.
    unfold closed in Hpart. rewrite Forall_forall in Hpart.
    destruct (Hpart e Hx) as [|(child & ? & ?)]; [by left|]. right. set_solver.
Qed.

(** A pass that removes nothing has found every endpoint to resolve. *)
Lemma cleanup_pass_closed eps out : cleanup_pass [] eps 0 = (out, 0) → out = eps ∧ closed eps.
Proof.
  enough (∀ rest checked n, (cleanup_pass checked rest n).2 = n →
    (cleanup_pass checked rest n).1 = checked ++ rest ∧ Forall (resolves (checked ++ rest)) rest) as Hgen.
  { intros Hp. specialize (Hgen eps [] 0). rewrite Hp in Hgen. simpl in Hgen. naive_solver. }
  assert (∀ rest checked n, n ≤ (cleanup_pass checked rest n).2) as Hmono.
  { intros rest checked n.
    apply (cleanup_pass_ind (λ _ n _ n', n ≤ n')); [done|]. intros. lia. }
  intros rest. induction rest as [|e rest IH]; intros checked n; cbn [cleanup_pass].
  { by rewrite app_nil_r. }
  destruct (hasIPTarget e) eqn:Hip.
  - intros [-> ?]%IH. rewrite <- (assoc_L (++)) in *. split; [done|].
    constructor; [by left|done].
  - destruct (Nat.eqb_spec (getNumChildrenOfParent (checked ++ e :: rest) e) 0) as [Hz|Hz].
    + intros Hn. exfalso. destruct rest as [|s rest]; simpl in Hn; [lia|].
      specialize (Hmono rest (checked ++ [s]) (S n)). lia.
    + intros [-> Hf]%IH. rewrite <- (assoc_L (++)) in *. split; [done|].
      constructor; [|done]. right. by apply some_children.
Qed.

(** The loop runs out of work before it runs out of fuel; what it leaves
    resolves, and nothing that could resolve was removed. *)
Lemma cleanup_total fuel removed eps :
  removed + length eps ≤ fuel →
  ∃ out, cleanup fuel removed eps = Some out ∧ sublist out eps ∧
         (removed ≠ 0 → closed out) ∧
         ∀ part, closed part → part ⊆ eps → part ⊆ out.
Proof.
  revert removed eps. induction fuel as [|fuel IH]; intros [|r] eps Hf; cbn [cleanup].
  1, 3: by exists eps.
  { lia. }
  destruct (cleanup_pass [] eps 0) as [eps' k] eqn:Hp.
  destruct (cleanup_pass_spec _ _ _ Hp) as (Hs & Hl & Hc).
  destruct (IH (r + k) eps') as (out & Hout & Hs' & Hcl & Hc'); [lia|].
  exists out. split_and!; [done|by etrans| |].
  - intros _. destruct (decide (r + k = 0)) as [Hz|]; [|by apply Hcl].
    assert (r = 0 ∧ k = 0) as [-> ->] by lia.
    destruct (cleanup_pass_closed _ _ Hp) as [-> ?]. destruct fuel; cbn in Hout; by simplify_eq.
  - intros part Hpart Hsub. apply Hc'; [done|]. by apply Hc.
Qed.

(** The clean-up as it is called: on the healthy endpoints, with the number of
    failing ones. *)
Lemma published_cleanup probes gw l new :
  let failing := endpointFailing probes gw l in
  ∃ cleaned,
    publishedEndpoints probes gw l new = Some (match cleaned with [] => new | _ => cleaned end) ∧
    sublist cleaned (filter (λ e, failing e = false) new) ∧
    (Exists (λ e, failing e = true) new → closed cleaned) ∧
    (Forall (λ e, failing e = false) new → cleaned = new) ∧
    ∀ part, closed part → part ⊆ filter (λ e, failing e = false) new → part ⊆ cleaned.
Proof.
  intros failing. unfold publishedEndpoints. fold failing. rewrite remove_failing_eq. simpl.
  set (healthy := filter (λ e, failing e = false) new).
  set (removed := length (filter (λ e, failing e = true) new)).
  destruct (cleanup_total (removed + length healthy) removed healthy) as (out & Hout & Hs & Hcl & Hmax); [done|].
  exists out. split_and!; [by rewrite Hout; destruct out|done| | |done].
  - intros Hex. apply Hcl. unfold removed. rewrite length_zero_iff_nil. intros Hnil.
    apply Exists_exists in Hex as (e & He & Hf).
    assert (e ∈ filter (λ e, failing e = true) new) as Hin by (by apply list_elem_of_filter).
    rewrite Hnil in Hin. by apply not_elem_of_nil in Hin.
  - intros Hall. assert (removed = 0) as Hr.
    { unfold removed. rewrite length_zero_iff_nil. apply filter_none.
      eapply Forall_impl; [done|]. intros e He. simpl. congruence. }
    rewrite Hr in Hout. destruct (length healthy); cbn in Hout; simplify_eq;
      by apply filter_all.
Qed.

Lemma published_sublist probes gw l new out :
  publishedEndpoints probes gw l new = Some out → sublist out new.
Proof.
  intros Hout. destruct (published_cleanup probes gw l new) as (cleaned & Hp & Hs & _). rewrite Hout in Hp.
  simplify_eq. destruct cleaned; [done|]. etrans; [done|]. apply sublist_filter.
Qed.

(** The order in which the probes are listed does not matter. *)
Lemma endpointFailing_perm probes probes' gw l e :
  probes ≡ₚ probes' → endpointFailing probes gw l e = endpointFailing probes' gw l e.
Proof.
  intros Hp. apply eq_bool_prop_intro. rewrite !Is_true_true. unfold endpointFailing, getProbesForEndpoint.
  rewrite !existsb_exists. setoid_rewrite <- list_elem_of_In. setoid_rewrite list_elem_of_bind. by setoid_rewrite Hp.
Qed.

Lemma published_perm probes probes' gw l new :
  probes ≡ₚ probes' → publishedEndpoints probes gw l new = publishedEndpoints probes' gw l new.
Proof.
  intros Hp. unfold publishedEndpoints. rewrite !remove_failing_eq.
  assert (∀ b, filter (λ e, endpointFailing probes gw l e = b) new = filter (λ e, endpointFailing probes' gw l e = b) new) as Hf.
  { intros b. apply list_filter_iff. intros e. by rewrite (endpointFailing_perm _ _ _ _ _ Hp). }
  by rewrite !Hf.
Qed.

(** What is published depends only on the names and targets of the endpoints:
    on lists that agree in these, the loops take out the same positions. *)
Section related.

Context (R : Endpoint → Endpoint → Prop).
Context (HR : ∀ e e', R e e' → DNSName e = DNSName e' ∧ Targets e = Targets e').

Lemma related_failing probes gw l e e' : R e e' → endpointFailing probes gw l e = endpointFailing probes gw l e'.
Proof. intros [_ Ht]%HR. unfold endpointFailing, getProbesForEndpoint. by rewrite Ht. Qed.

Lemma related_children eps eps' p p' :
  Forall2 R eps eps' → R p p' → getNumChildrenOfParent eps p = getNumChildrenOfParent eps' p'.
Proof.
  intros Hl [_ Ht]%HR. unfold getNumChildrenOfParent, findChildren. rewrite Ht.
  induction Hl as [|e e' eps eps' [Hn _]%HR _ IH]; [done|]. rewrite !bind_cons, !length_app, IH. f_equal.
  clear Ht IH. induction (Targets p') as [|t ts IHt]; [done|]. rewrite !bind_cons, !length_app, IHt, Hn. by case_decide.
Qed.

Lemma related_remove_failing probes gw l checked checked' rest rest' n :
  Forall2 R checked checked' → Forall2 R rest rest' →
  Forall2 R (remove_failing (endpointFailing probes gw l) checked rest n).1
            (remove_failing (endpointFailing probes gw l) checked' rest' n).1 ∧
  (remove_failing (endpointFailing probes gw l) checked rest n).2 =
  (remove_failing (endpointFailing probes gw l) checked' rest' n).2.
Proof.
  intros Hc Hr. revert checked checked' n Hc. induction Hr as [|e e' rest rest' He Hr IH]; intros c c' n Hc; [done|].
  cbn [remove_failing]. rewrite (related_failing _ _ _ _ _ He).
  destruct (endpointFailing probes gw l e'); apply IH; [done|]. apply Forall2_app; [done|]. by constructor.
Qed.

Lemma related_cleanup_pass checked checked' rest rest' n :
  Forall2 R checked checked' → Forall2 R rest rest' →
  Forall2 R (cleanup_pass checked rest n).1 (cleanup_pass checked' rest' n).1 ∧
  (cleanup_pass checked rest n).2 = (cleanup_pass checked' rest' n).2.
Proof.
  remember (length rest) as k eqn:Hk. revert checked checked' rest rest' n Hk.
  induction (lt_wf k) as [k _ IH]; intros c c' rest rest' n -> Hc Hr.
  destruct Hr as [|e e' rest rest' He Hr]; [done|]. cbn [cleanup_pass].
  assert (hasIPTarget e = hasIPTarget e') as -> by (unfold hasIPTarget; by destruct (HR _ _ He) as [_ ->]).
  assert (Forall2 R (c ++ [e]) (c' ++ [e'])) as Hkeep by (apply Forall2_app; [done|by constructor]).
  destruct (hasIPTarget e'); [eapply IH; [|done..]; simpl; lia|].
  assert (Forall2 R (c ++ e :: rest) (c' ++ e' :: rest')) as Hall by (apply Forall2_app; [done|by constructor]).
  rewrite (related_children _ _ _ _ Hall He).
  destruct (_ =? 0); [|eapply IH; [|done..]; simpl; lia].
  destruct Hr as [|s s' rest rest' Hs Hr]; [done|]. eapply IH; [|done| |done]; [simpl; lia|].
  apply Forall2_app; [done|by constructor].
Qed.

Lemma related_cleanup fuel removed eps eps' :
  Forall2 R eps eps' → option_Forall2 (Forall2 R) (cleanup fuel removed eps) (cleanup fuel removed eps').
Proof.
  revert removed eps eps'. induction fuel as [|fuel IH]; intros [|r] eps eps' He; cbn [cleanup]; try by constructor.
  destruct (related_cleanup_pass [] [] eps eps' 0) as [Hout Hn]; [done..|].
  destruct (cleanup_pass [] eps 0) as [out k], (cleanup_pass [] eps' 0) as [out' k']. simpl in *. subst. by apply IH.
Qed.

Lemma related_published probes gw l new new' :
  Forall2 R new new' →
  option_Forall2 (Forall2 R) (publishedEndpoints probes gw l new) (publishedEndpoints probes gw l new').
Proof.
  intros Hnew. unfold publishedEndpoints.
  destruct (related_remove_failing probes gw l [] [] new new' 0) as [Hh Hn]; [done..|].
  destruct (remove_failing _ [] new 0) as [healthy removed], (remove_failing _ [] new' 0) as [healthy' removed'].
  simpl in *. subst. rewrite (Forall2_length _ _ _ Hh).
  destruct (related_cleanup (removed' + length healthy') removed' healthy healthy' Hh) as [c c' Hc|]; [|constructor].
  destruct Hc; constructor; [done|by constructor].
Qed.

End related.

(** ** Properties *)

(** C5: for every list of new endpoints and every probe list, the loops end and
    publish a sublist of the new endpoints, not empty unless there are none;
    either that is the full list, or every published endpoint is free of
    failing probes and resolves to an address or to another published
    endpoint. *)
Theorem published_resolves probes gatewayName listenerName newEndpoints :
  ∃ out,
    publishedEndpoints probes gatewayName listenerName newEndpoints = Some out ∧
    sublist out newEndpoints ∧ (newEndpoints ≠ [] → out ≠ []) ∧
    (out = newEndpoints ∨
     Forall (λ e, endpointFailing probes gatewayName listenerName e = false) out ∧ closed out).
Proof.
  destruct (published_cleanup probes gatewayName listenerName newEndpoints)
    as (cleaned & -> & Hs & Hcl & Hall & _).
  eexists. split; [done|]. destruct cleaned as [|e cleaned]; [by auto|]. split_and!; [|done|].
  - etrans; [done|]. apply sublist_filter.
  - destruct (decide (Exists (λ e, endpointFailing probes gatewayName listenerName e = true) newEndpoints))
      as [Hex|Hex].
    + right. split; [|by apply Hcl]. eapply sublist_Forall; [done|]. apply Forall_forall.
      intros x. by intros [??]%list_elem_of_filter.
    + left. apply Hall. apply not_Exists_Forall in Hex; [|apply _].
      eapply Forall_impl; [done|]. intros x Hx. simpl in Hx. by apply not_true_iff_false.
Qed.

(** C6: nothing is removed without need: any set of new endpoints that has no
    failing probe and resolves within itself is published. *)
Theorem published_keeps_healthy_parts probes gatewayName listenerName newEndpoints part out :
  publishedEndpoints probes gatewayName listenerName newEndpoints = Some out →
  closed part → part ⊆ newEndpoints →
  Forall (λ e, endpointFailing probes gatewayName listenerName e = false) part →
  part ⊆ out.
Proof.
  intros Hout Hcl Hsub Hh.
  destruct (published_cleanup probes gatewayName listenerName newEndpoints)
    as (cleaned & Hp & _ & _ & _ & Hmax). rewrite Hout in Hp. simplify_eq.
  destruct cleaned as [|e cleaned]; [done|]. apply Hmax; [done|].
  intros x Hx. apply list_elem_of_filter. split; [|by apply Hsub].
  rewrite Forall_forall in Hh. by apply Hh.
Qed.

(** An endpoint with a failing probe is published only when the whole set
    is, and only when no healthy part of the set could have been published in
    its place. *)
Theorem failing_published_only_as_fallback probes gatewayName listenerName newEndpoints out e :
  publishedEndpoints probes gatewayName listenerName newEndpoints = Some out →
  e ∈ out → endpointFailing probes gatewayName listenerName e = true →
  out = newEndpoints ∧
  ∀ part, closed part → part ⊆ newEndpoints →
    Forall (λ e, endpointFailing probes gatewayName listenerName e = false) part → part = [].
Proof.
  intros Hout He Hf.
  destruct (published_cleanup probes gatewayName listenerName newEndpoints)
    as (cleaned & Hp & Hs & _ & _ & Hmax). rewrite Hout in Hp. simplify_eq.
  destruct cleaned as [|c cleaned].
  - split; [done|]. intros part Hcl Hsub Hh. assert (part ⊆ []) as Hnil.
    { apply Hmax; [done|]. intros x Hx. apply list_elem_of_filter. split; [|by apply Hsub].
      rewrite Forall_forall in Hh. by apply Hh. }
    destruct part as [|x part]; [done|]. by destruct (not_elem_of_nil x); apply Hnil, list_elem_of_here.
  - exfalso. assert (e ∈ filter (λ e, endpointFailing probes gatewayName listenerName e = false) newEndpoints) as Hin.
    { by eapply sublist_subseteq. }
    apply list_elem_of_filter in Hin as [? _]. congruence.
Qed.

(** ** Examples and witnesses *)

Definition exampleEndpoint (name : string) (targets : list string) (recordType id : string) : Endpoint :=
  mkEndpoint name targets recordType id 60 ∅ [].

Definition exampleProbe (address : string) (healthy : bool) (failures : Z) : DNSHealthCheckProbe :=
  mkProbe (newObjectMeta (dnsHealthCheckProbeName address "gw" "api") "default")
    (mkProbeSpec 443 "shop.example.com" address "/healthz" "HTTPS" 60 None (Some 3%Z) None false)
    (mkProbeStatus 0 failures "" 0 (Some healthy)).

(** Two clusters with an address each, in two geos. *)
Definition twoClusters : list Endpoint :=
  [ exampleEndpoint "c1.lb.shop.example.com" ["10.0.0.1"] "A" "";
    exampleEndpoint "c2.lb.shop.example.com" ["10.0.0.2"] "A" "";
    exampleEndpoint "ie.lb.shop.example.com" ["c1.lb.shop.example.com"] "CNAME" "c1.lb.shop.example.com";
    exampleEndpoint "lb.shop.example.com" ["ie.lb.shop.example.com"] "CNAME" "IE";
    exampleEndpoint "lb.shop.example.com" ["us.lb.shop.example.com"] "CNAME" "default";
    exampleEndpoint "shop.example.com" ["lb.shop.example.com"] "CNAME" "";
    exampleEndpoint "us.lb.shop.example.com" ["c2.lb.shop.example.com"] "CNAME" "c2.lb.shop.example.com" ].

(** With the first cluster down, the chain below its geo is gone. *)
Example cleanup_removes_dead_geo :
  publishedEndpoints [exampleProbe "10.0.0.1" false 3; exampleProbe "10.0.0.2" true 0] "gw" "api" twoClusters =
  Some [ exampleEndpoint "c2.lb.shop.example.com" ["10.0.0.2"] "A" "";
         exampleEndpoint "lb.shop.example.com" ["us.lb.shop.example.com"] "CNAME" "default";
         exampleEndpoint "shop.example.com" ["lb.shop.example.com"] "CNAME" "";
         exampleEndpoint "us.lb.shop.example.com" ["c2.lb.shop.example.com"] "CNAME" "c2.lb.shop.example.com" ].
Proof. vm_compute. reflexivity. Qed.

Lemma published_keeps_healthy_parts_witness :
  [exampleEndpoint "c2.lb.shop.example.com" ["10.0.0.2"] "A" ""] ⊆
  [exampleEndpoint "c2.lb.shop.example.com" ["10.0.0.2"] "A" "";
   exampleEndpoint "lb.shop.example.com" ["us.lb.shop.example.com"] "CNAME" "default";
   exampleEndpoint "shop.example.com" ["lb.shop.example.com"] "CNAME" "";
   exampleEndpoint "us.lb.shop.example.com" ["c2.lb.shop.example.com"] "CNAME" "c2.lb.shop.example.com"].
Proof.
  apply (published_keeps_healthy_parts
    [exampleProbe "10.0.0.1" false 3; exampleProbe "10.0.0.2" true 0] "gw" "api" twoClusters).
  - vm_compute. reflexivity.
  - constructor; [|constructor]. left. vm_compute. reflexivity.
  - intros x ->%list_elem_of_singleton. apply list_elem_of_further, list_elem_of_here.
  - constructor; [|constructor]. vm_compute. reflexivity.
Defined.

(** With both clusters down everything is published. *)
Lemma failing_published_only_as_fallback_witness :
  let probes := [exampleProbe "10.0.0.1" false 3; exampleProbe "10.0.0.2" false 7] in
  twoClusters = twoClusters ∧
  ∀ part, closed part → part ⊆ twoClusters →
    Forall (λ e, endpointFailing probes "gw" "api" e = false) part → part = [].
Proof.
  apply (failing_published_only_as_fallback
    [exampleProbe "10.0.0.1" false 3; exampleProbe "10.0.0.2" false 7] "gw" "api" twoClusters twoClusters
    (exampleEndpoint "c1.lb.shop.example.com" ["10.0.0.1"] "A" "")).
  - vm_compute. reflexivity.
  - apply list_elem_of_here.
  - vm_compute. reflexivity.
Defined.

(** A cluster reached by host name, e.g. behind a cloud load balancer, has no
    child among the endpoints: as soon as any other endpoint fails, its healthy
    record is cleaned up too. *)
Definition withLoadBalancerHost : list Endpoint :=
  [ exampleEndpoint "c1.lb.shop.example.com" ["10.0.0.1"] "A" "";
    exampleEndpoint "c2.lb.shop.example.com" ["10.0.0.2"] "A" "";
    exampleEndpoint "default.lb.shop.example.com" ["c1.lb.shop.example.com"] "CNAME" "c1.lb.shop.example.com";
    exampleEndpoint "default.lb.shop.example.com" ["c2.lb.shop.example.com"] "CNAME" "c2.lb.shop.example.com";
    exampleEndpoint "default.lb.shop.example.com" ["my-elb.amazonaws.com"] "CNAME" "my-elb.amazonaws.com";
    exampleEndpoint "lb.shop.example.com" ["default.lb.shop.example.com"] "CNAME" "default";
    exampleEndpoint "shop.example.com" ["lb.shop.example.com"] "CNAME" "" ].

Example healthy_load_balancer_host_dropped :
  publishedEndpoints [exampleProbe "10.0.0.1" false 3; exampleProbe "10.0.0.2" true 0;
                      exampleProbe "my-elb.amazonaws.com" true 0] "gw" "api" withLoadBalancerHost =
  Some [ exampleEndpoint "c2.lb.shop.example.com" ["10.0.0.2"] "A" "";
         exampleEndpoint "default.lb.shop.example.com" ["c2.lb.shop.example.com"] "CNAME" "c2.lb.shop.example.com";
         exampleEndpoint "lb.shop.example.com" ["default.lb.shop.example.com"] "CNAME" "default";
         exampleEndpoint "shop.example.com" ["lb.shop.example.com"] "CNAME" "" ].
Proof. vm_compute. reflexivity. Qed.
