(* ===== verification/Endpoints.v ===== *)
(** * The endpoints of a gateway listener (the first half of setEndpoints)

    pkg/controllers/dnspolicy/dns_helper.go, lines 174-257.  The endpoints a
    record already has are kept, by their [SetID], and updated in place, so
    that what a provider stored in them is not lost: the code works on
    pointers, the model on a heap of endpoints (a list, a location is an index)
    and a map from [SetID] to locations.  The specification is a list of
    requested endpoints, read off the clusters without any heap. *)

From S2P Require Import Prelude GoStrings Slice Kube ApiTypes GatewayApi Target.
Local Open Scope go_scope.

(** pkg/dns/dns.go, constants *)
Definition DefaultTTL : Z := 60.
Definition DefaultCnameTTL : Z := 300.
Definition ProviderSpecificWeight : string := "weight".
Definition ProviderSpecificGeoCode : string := "geo-code".

(** ** Endpoints in memory *)

Abbreviation loc := nat (only parsing).
Abbreviation EndpointHeap := (list Endpoint).

(** [currentEndpoints[endpoint.SetID()] = endpoint] for each endpoint in turn. *)
Fixpoint indexEndpoints (cur : gmap string loc) (next : loc) (eps : list Endpoint) : gmap string loc :=
  match eps with
  | [] => cur
  | e :: rest => indexEndpoints (<[SetID e := next]> cur) (S next) rest
  end.

(** The four fields [createOrUpdateEndpoint] always writes. *)
Definition updateEndpoint (dnsName : string) (targets : list string) (recordType : string)
  (recordTTL : Z) (e : Endpoint) : Endpoint :=
  mkEndpoint dnsName targets recordType (SetIdentifier e) recordTTL (EndpointLabels e)
    (ProviderSpecific e).

(** [&v1alpha1.Endpoint{}], with the set identifier *)
Definition newEndpoint (setIdentifier : string) : Endpoint :=
  if decide (setIdentifier = "") then zeroEndpoint
  else WithSetIdentifier zeroEndpoint setIdentifier.

Definition createOrUpdateEndpoint (dnsName : string) (targets : list string) (recordType : string)
  (setIdentifier : string) (recordTTL : Z) (currentEndpoints : gmap string loc) (h : EndpointHeap)
  : loc * EndpointHeap :=
  let endpointID := dnsName +:+ setIdentifier in
  match currentEndpoints !! endpointID with
  | Some l => (l, alter (updateEndpoint dnsName targets recordType recordTTL) l h)
  | None =>
      (length h, h ++ [updateEndpoint dnsName targets recordType recordTTL (newEndpoint setIdentifier)])
  end.

(** [endpoint.SetProviderSpecific(name, value)] through a pointer *)
Definition heap_SetProviderSpecific (l : loc) (name value : string) (h : EndpointHeap) : EndpointHeap :=
  alter (SetProviderSpecific name value) l h.

(** ** Building the endpoints *)

Section endpoints.

Context `{TargetEnv} `{MapRange}.

(** [isWildCardListener]; a nil host name panics. *)
Definition isWildCardListener (l : Listener) : res bool :=
  match Hostname l with
  | Some h => Ok (strings.HasPrefix h "*")
  | None => Panic
  end.

(** The addresses of a cluster: IP values and host values; a nil address type
    panics. *)
Fixpoint splitAddresses (gwas : list GatewayAddress) (ipValues hostValues : list string)
  : res (list string * list string) :=
  match gwas with
  | [] => Ok (ipValues, hostValues)
  | gwa :: rest =>
      match aType gwa with
      | None => Panic
      | Some t =>
          if decide (t = IPAddressType)
          then splitAddresses rest (ipValues ++ [aValue gwa]) hostValues
          else splitAddresses rest ipValues (hostValues ++ [aValue gwa])
      end
  end.

(** The loop over [hostValues] (lines 217-221). *)
Fixpoint hostEndpoints (cur : gmap string loc) (geoLbName : string) (weight : Z)
  (hostValues : list string) (h : EndpointHeap) (clusterEndpoints : list loc)
  : EndpointHeap * list loc :=
  match hostValues with
  | [] => (h, clusterEndpoints)
  | hostValue :: rest =>
      let '(endpoint, h) :=
        createOrUpdateEndpoint geoLbName [hostValue] CNAMERecordType hostValue DefaultTTL cur h in
      let h := heap_SetProviderSpecific endpoint ProviderSpecificWeight (strconv.Itoa weight) h in
      hostEndpoints cur geoLbName weight rest h (clusterEndpoints ++ [endpoint])
  end.

(** One cluster (lines 200-221). *)
Definition clusterEndpoints (cur : gmap string loc) (lbName geoLbName : string)
  (cgwTarget : ClusterGatewayTarget) (h : EndpointHeap) (eps : list loc)
  : res (EndpointHeap * list loc) :=
  let? (ipValues, hostValues) := splitAddresses (GatewayAddresses (cgtGateway cgwTarget)) [] [] in
  match ipValues with
  | [] => Ok (hostEndpoints cur geoLbName (cgtWeight cgwTarget) hostValues h eps)
  | _ =>
      let? code := cgt_GetShortCode cgwTarget in
      let clusterLbName := strings.ToLower (code +:+ "." +:+ lbName) in
      let '(endpoint, h) :=
        createOrUpdateEndpoint clusterLbName ipValues ARecordType "" DefaultTTL cur h in
      Ok (hostEndpoints cur geoLbName (cgtWeight cgwTarget) (hostValues ++ [clusterLbName]) h
            (eps ++ [endpoint]))
  end.

(** The clusters of one geo (lines 198-222). *)
Fixpoint geoClusterEndpoints (cur : gmap string loc) (lbName geoLbName : string)
  (cgwTargets : list ClusterGatewayTarget) (h : EndpointHeap) (eps : list loc)
  : res (EndpointHeap * list loc) :=
  match cgwTargets with
  | [] => Ok (h, eps)
  | t :: rest =>
      let? (h, eps) := clusterEndpoints cur lbName geoLbName t h eps in
      geoClusterEndpoints cur lbName geoLbName rest h eps
  end.

(** What the loop over the geos carries: the heap, [newEndpoints] and
    [defaultEndpoint]. *)
Record GeoLoop := mkGeoLoop {
  glHeap : EndpointHeap;
  glNew : list loc;
  glDefault : option loc
}.

(** The body of the loop over the geos (lines 197-243). *)
Definition geoStep (cur : gmap string loc) (lbName defaultGeo : string)
  (s : GeoLoop) (geo : string * list ClusterGatewayTarget) : res GeoLoop :=
  let '(geoCode, cgwTargets) := geo in
  let geoLbName := strings.ToLower (geoCode +:+ "." +:+ lbName) in
  let? (h, eps) := geoClusterEndpoints cur lbName geoLbName cgwTargets (glHeap s) [] in
  match eps with
  | [] => Ok (mkGeoLoop h (glNew s) (glDefault s))
  | _ =>
      let newEndpoints := glNew s ++ eps in
      let '(endpoint, h) :=
        createOrUpdateEndpoint lbName [geoLbName] CNAMERecordType geoCode DefaultCnameTTL cur h in
      if IsDefaultCode geoCode then Ok (mkGeoLoop h newEndpoints (Some endpoint))
      else
        let '(defaultEndpoint, h) :=
          if bool_decide (geoCode = defaultGeo) || bool_decide (glDefault s = None) then
            let '(d, h) := createOrUpdateEndpoint lbName [geoLbName] CNAMERecordType "default"
                             DefaultCnameTTL cur h in
            (Some d, h)
          else (glDefault s, h) in
        let h := heap_SetProviderSpecific endpoint ProviderSpecificGeoCode geoCode h in
        Ok (mkGeoLoop h (newEndpoints ++ [endpoint]) defaultEndpoint)
  end.

(** Lines 246-253. *)
Definition finishEndpoints (cur : gmap string loc) (lbName gwListenerHost : string) (s : GeoLoop)
  : res (EndpointHeap * list loc) :=
  match glNew s with
  | [] => Ok (glHeap s, [])
  | newEndpoints =>
      match glDefault s with
      | None => Panic
      | Some defaultEndpoint =>
          let h := heap_SetProviderSpecific defaultEndpoint ProviderSpecificGeoCode WildcardGeo (glHeap s) in
          let '(endpoint, h) :=
            createOrUpdateEndpoint gwListenerHost [lbName] CNAMERecordType "" DefaultCnameTTL cur h in
          Ok (h, newEndpoints ++ [defaultEndpoint; endpoint])
      end
  end.

Definition cnameHost (listener : Listener) (gwListenerHost : string) : res string :=
  let? wildcard := isWildCardListener listener in
  Ok (if wildcard then strings.ReplaceAll gwListenerHost "*." "" else gwListenerHost).

Definition lbNameOf (mcgTarget : MultiClusterGatewayTarget) (host : string) : res string :=
  let? code := mcg_GetShortCode mcgTarget in
  Ok (strings.ToLower ("lb-" +:+ code +:+ "." +:+ host)).

(** Lines 177-253: the heap and the locations of the new endpoints, before
    they are sorted. *)
Definition buildEndpoints (mcgTarget : MultiClusterGatewayTarget) (existing : list Endpoint)
  (listener : Listener) : res (EndpointHeap * list loc) :=
  match Hostname listener with
  | None => Panic
  | Some gwListenerHost =>
      let? host := cnameHost listener gwListenerHost in
      let cur := indexEndpoints ∅ 0 existing in
      let? lbName := lbNameOf mcgTarget host in
      let? s := rfold (geoStep cur lbName (GetDefaultGeo mcgTarget)) (mkGeoLoop existing [] None)
                  (range_map (GroupTargetsByGeo mcgTarget)) in
      finishEndpoints cur lbName gwListenerHost s
  end.

(** Reading the endpoints back from their locations. *)
Definition deref (h : EndpointHeap) (ls : list loc) : list Endpoint :=
  (λ l, default zeroEndpoint (h !! l)) <$> ls.

(** Lines 177-257: built and sorted by [SetID]. *)
Definition newEndpoints `{SortSlice} (mcgTarget : MultiClusterGatewayTarget) (existing : list Endpoint)
  (listener : Listener) : res (list Endpoint) :=
  let? (h, ls) := buildEndpoints mcgTarget existing listener in
  Ok (sort_slice SetID (deref h ls)).

(** ** Specification: the endpoints that are asked for *)

Record Requested := mkRequested {
  rqName : string;
  rqTargets : list string;
  rqType : string;
  rqSetIdentifier : string;
  rqTTL : Z;
  rqProperty : option (string * string)
}.

Definition reqID (r : Requested) : string := rqName r +:+ rqSetIdentifier r.

(** The endpoint of that id in the record; the last one if there are more. *)
Definition findEndpoint (existing : list Endpoint) (id : string) : option Endpoint :=
  last (filter (λ e, SetID e = id) existing).

Definition requestedBase (existing : list Endpoint) (r : Requested) : Endpoint :=
  updateEndpoint (rqName r) (rqTargets r) (rqType r) (rqTTL r)
    (default (newEndpoint (rqSetIdentifier r)) (findEndpoint existing (reqID r))).

Definition withProperty (p : option (string * string)) (e : Endpoint) : Endpoint :=
  match p with
  | Some (k, v) => SetProviderSpecific k v e
  | None => e
  end.

Definition requestedEndpoint (existing : list Endpoint) (r : Requested) : Endpoint :=
  withProperty (rqProperty r) (requestedBase existing r).

Definition isIP (a : GatewayAddress) : Prop := aType a = Some IPAddressType.
#[global] Instance isIP_dec a : Decision (isIP a).
Proof. unfold isIP. apply _. Defined.

Definition ipValuesOf (t : ClusterGatewayTarget) : list string :=
  aValue <$> filter isIP (GatewayAddresses (cgtGateway t)).
Definition hostValuesOf (t : ClusterGatewayTarget) : list string :=
  aValue <$> filter (λ a, ¬ isIP a) (GatewayAddresses (cgtGateway t)).

Definition shortCode (s : string) : string := strings.take 6 (strings.ToLower (base36sum224 s)).

Definition clusterLbNameOf (lbName : string) (t : ClusterGatewayTarget) : string :=
  strings.ToLower (shortCode (cgt_GetName t) +:+ "." +:+ lbName).
Definition geoLbNameOf (lbName geo : string) : string := strings.ToLower (geo +:+ "." +:+ lbName).

(** The hosts a geo name points to for a cluster, the cluster's own name last. *)
Definition clusterHosts (lbName : string) (t : ClusterGatewayTarget) : list string :=
  hostValuesOf t ++ match ipValuesOf t with [] => [] | _ => [clusterLbNameOf lbName t] end.

Definition addressRequest (lbName : string) (t : ClusterGatewayTarget) : list Requested :=
  match ipValuesOf t with
  | [] => []
  | ips => [mkRequested (clusterLbNameOf lbName t) ips ARecordType "" DefaultTTL None]
  end.

Definition weightedRequest (geoLbName : string) (weight : Z) (host : string) : Requested :=
  mkRequested geoLbName [host] CNAMERecordType host DefaultTTL
    (Some (ProviderSpecificWeight, strconv.Itoa weight)).

Definition clusterRequests (lbName geo : string) (t : ClusterGatewayTarget) : list Requested :=
  addressRequest lbName t ++
  (weightedRequest (geoLbNameOf lbName geo) (cgtWeight t) <$> clusterHosts lbName t).

Definition geoLbRequest (lbName geo : string) : Requested :=
  mkRequested lbName [geoLbNameOf lbName geo] CNAMERecordType geo DefaultCnameTTL
    (Some (ProviderSpecificGeoCode, geo)).

Definition defaultRequest (lbName geo : string) : Requested :=
  mkRequested lbName [geoLbNameOf lbName geo] CNAMERecordType "default" DefaultCnameTTL
    (Some (ProviderSpecificGeoCode, WildcardGeo)).

Definition hostRequest (lbName gwListenerHost : string) : Requested :=
  mkRequested gwListenerHost [lbName] CNAMERecordType "" DefaultCnameTTL None.

(** One geo: its clusters, and the geo entry of the load balancer name unless
    there are none or the geo is the internal one. *)
Definition geoRequests (lbName : string) (geo : string * list ClusterGatewayTarget) : list Requested :=
  match geo.2 ≫= clusterRequests lbName geo.1 with
  | [] => []
  | rs => rs ++ (if decide (geo.1 = DefaultGeo) then [] else [geoLbRequest lbName geo.1])
  end.

(** The geo that stands for the rest of the world, after one more geo. *)
Definition chooseDefault (lbName defaultGeo : string) (chosen : option string)
  (geo : string * list ClusterGatewayTarget) : option string :=
  match geo.2 ≫= clusterRequests lbName geo.1 with
  | [] => chosen
  | _ =>
      if decide (geo.1 = DefaultGeo ∨ geo.1 = defaultGeo ∨ chosen = None) then Some geo.1
      else chosen
  end.

Definition finalRequests (lbName gwListenerHost : string) (chosen : option string) : list Requested :=
  match chosen with
  | None => []
  | Some geo => [defaultRequest lbName geo; hostRequest lbName gwListenerHost]
  end.

Definition requests (lbName defaultGeo gwListenerHost : string)
  (geos : list (string * list ClusterGatewayTarget)) : list Requested :=
  (geos ≫= geoRequests lbName) ++
  finalRequests lbName gwListenerHost (foldl (chooseDefault lbName defaultGeo) None geos).

End endpoints.

(** ** The index of the existing endpoints *)

Lemma indexEndpoints_lookup cur n eps i :
  indexEndpoints cur n eps !! i =
  match last (filter (λ p, SetID p.2 = i) (imap (λ k e, (n + k, e)) eps)) with
  | Some (l, _) => Some l
  | None => cur !! i
  end.
Proof.
  revert cur n. induction eps as [|e eps IH]; intros cur n; [done|]. cbn [indexEndpoints imap].
  rewrite IH. replace (imap ((λ k e, (n + k, e)) ∘ S) eps) with (imap (λ k e, (S n + k, e)) eps).
  2: { apply imap_ext. intros k x _. simpl. f_equal. lia. }
  rewrite filter_cons. simpl. rewrite Nat.add_0_r.
  destruct (last (filter _ (imap _ eps))) as [[l x]|] eqn:Hl; case_decide as Hi; rewrite ?last_cons, ?Hl.
  - done.
  - done.
  - by rewrite Hi, lookup_insert_eq.
  - by rewrite lookup_insert_ne.
Qed.

Lemma filter_imap_snd n (P : Endpoint → Prop) `{∀ x, Decision (P x)} eps :
  (filter (λ p, P p.2) (imap (λ k e, (n + k, e)) eps)).*2 = filter P eps.
Proof.
  revert n. induction eps as [|e eps IH]; intros n; [done|]. cbn [imap].
  replace (imap ((λ k e, (n + k, e)) ∘ S) eps) with (imap (λ k e, (S n + k, e)) eps).
  2: { apply imap_ext. intros k x _. simpl. f_equal. lia. }
  rewrite !filter_cons. cbn [snd]. case_decide; [rewrite fmap_cons; f_equal|]; apply IH.
Qed.

(** The index finds the location of what [findEndpoint] finds. *)
Lemma index_Some eps i l :
  indexEndpoints ∅ 0 eps !! i = Some l →
  ∃ e, eps !! l = Some e ∧ SetID e = i ∧ findEndpoint eps i = Some e.
Proof.
  rewrite indexEndpoints_lookup. set (k := imap _ eps). unfold findEndpoint.
  rewrite <- (filter_imap_snd 0). fold k. rewrite fmap_last.
  destruct (last _) as [[l' e]|] eqn:Hl; [|done]. intros ?; simplify_eq.
  apply last_Some_elem_of, list_elem_of_filter in Hl as [Hid Hin].
  unfold k in Hin. apply elem_of_lookup_imap in Hin as (j & x & Heq & Hx).
  simpl in *. simplify_eq. by exists x.
Qed.

Lemma index_None eps i : indexEndpoints ∅ 0 eps !! i = None → findEndpoint eps i = None.
Proof.
  rewrite indexEndpoints_lookup. unfold findEndpoint. rewrite <- (filter_imap_snd 0), fmap_last.
  by destruct (last _) as [[? ?]|].
Qed.

(** ** Ownership of the heap

    A ghost map records, for every id asked for so far, where its endpoint is
    and what it holds.  Locations of different ids are different; what was not
    asked for is as it was in the record. *)

Abbreviation Ghost := (gmap string (loc * Endpoint)).

Section ownership.

Context (existing : list Endpoint).
Let cur := indexEndpoints ∅ 0 existing.

(** [l] is where an endpoint with id [i] lives: the indexed one, else a fresh
    one. *)
Definition owns (l : loc) (i : string) : Prop :=
  match cur !! i with
  | Some l' => l = l'
  | None => length existing ≤ l
  end.

Record HeapInv (h : EndpointHeap) (T : Ghost) : Prop := {
  inv_size : length existing ≤ length h;
  inv_value i l e : T !! i = Some (l, e) → h !! l = Some e ∧ owns l i;
  inv_inj i j l e e' : T !! i = Some (l, e) → T !! j = Some (l, e') → i = j;
  inv_untouched i l : cur !! i = Some l → T !! i = None → h !! l = existing !! l
}.

Lemma HeapInv_init : HeapInv existing ∅.
Proof. split; try done; intros; simplify_map_eq. Qed.

Lemma cur_inj i j l : cur !! i = Some l → cur !! j = Some l → i = j.
Proof.
  intros (e & He & <- & _)%index_Some (e' & He' & <- & _)%index_Some. by simplify_eq.
Qed.

Lemma cur_lt i l : cur !! i = Some l → l < length existing.
Proof. intros (e & He & _)%index_Some. by eapply lookup_lt_Some. Qed.

(** An indexed location is not the location of another id. *)
Lemma owns_inj i j l : owns l j → cur !! i = Some l → i = j.
Proof.
  unfold owns. intros Hj Hi. destruct (cur !! j) as [l'|] eqn:E.
  - subst. by eapply cur_inj.
  - apply cur_lt in Hi. lia.
Qed.

(** What an id's endpoint holds before it is asked for (again). *)
Definition before (T : Ghost) (r : Requested) : Endpoint :=
  match cur !! reqID r, T !! reqID r with
  | Some _, Some (_, e) => e
  | _, _ => default (newEndpoint (rqSetIdentifier r)) (findEndpoint existing (reqID r))
  end.

Definition applyRequest (r : Requested) : Endpoint → Endpoint :=
  updateEndpoint (rqName r) (rqTargets r) (rqType r) (rqTTL r).

Lemma create_inv h T r :
  HeapInv h T →
  let '(l, h') := createOrUpdateEndpoint (rqName r) (rqTargets r) (rqType r) (rqSetIdentifier r)
                    (rqTTL r) cur h in
  HeapInv h' (<[reqID r := (l, applyRequest r (before T r))]> T).
Proof.
  intros Hinv. unfold createOrUpdateEndpoint, before, reqID. set (i := rqName r +:+ rqSetIdentifier r).
  destruct (cur !! i) as [l|] eqn:Hi.
  - destruct (index_Some _ _ _ Hi) as (e0 & He0 & Hid & Hfind).
    assert (∃ e, h !! l = Some e ∧
      e = match T !! i with
          | Some (_, e) => e
          | None => default (newEndpoint (rqSetIdentifier r)) (findEndpoint existing i)
          end) as (e & He & ->).
    { destruct (T !! i) as [[l' e]|] eqn:HT.
      - destruct (inv_value _ _ Hinv _ _ _ HT) as [He Ho]. unfold owns in Ho. rewrite Hi in Ho.
        subst. by exists e.
      - exists e0. rewrite (inv_untouched _ _ Hinv _ _ Hi HT). by rewrite Hfind. }
    split.
    + rewrite length_alter. apply Hinv.
    + intros j l' e' HT. apply lookup_insert_Some in HT as [[<- ?]|[Hne HT]]; simplify_eq.
      * rewrite list_lookup_alter_eq, He. split; [done|]. unfold owns. by rewrite Hi.
      * destruct (inv_value _ _ Hinv _ _ _ HT) as [He' Ho]. split; [|done].
        rewrite list_lookup_alter_ne; [done|]. intros ->. by destruct Hne; eapply owns_inj.
    + intros j k l' e' e''. rewrite !lookup_insert_Some.
      intros [[<- ?]|[Hj HTj]] [[<- ?]|[Hk HTk]]; simplify_eq; [done|..].
      * eapply owns_inj; [|done]. by eapply (inv_value _ _ Hinv).
      * symmetry. eapply owns_inj; [|done]. by eapply (inv_value _ _ Hinv).
      * by eapply (inv_inj _ _ Hinv).
    + intros j l' Hj [HT Hne]%lookup_insert_None.
      rewrite list_lookup_alter_ne; [by apply (inv_untouched _ _ Hinv _ _ Hj)|].
      intros ->. by destruct Hne; eapply cur_inj.
  - split.
    + rewrite length_app. pose proof (inv_size _ _ Hinv). lia.
    + intros j l' e' HT. apply lookup_insert_Some in HT as [[<- ?]|[Hne HT]]; simplify_eq.
      * rewrite (index_None _ _ Hi), lookup_app_r, Nat.sub_diag by done. split; [done|].
        unfold owns. rewrite Hi. apply Hinv.
      * destruct (inv_value _ _ Hinv _ _ _ HT) as [He' Ho]. split; [|done]. by apply lookup_app_l_Some.
    + assert (∀ j e, T !! j = Some (length h, e) → False) as Hfresh.
      { intros j e [He _]%(inv_value _ _ Hinv). apply lookup_lt_Some in He. lia. }
      intros j k l' e' e''. rewrite !lookup_insert_Some.
      intros [[<- ?]|[Hj HTj]] [[<- ?]|[Hk HTk]]; simplify_eq; [done|naive_solver..|].
      by eapply (inv_inj _ _ Hinv).
    + intros j l' Hj [HT Hne]%lookup_insert_None.
      rewrite lookup_app_l; [by apply (inv_untouched _ _ Hinv _ _ Hj)|].
      apply cur_lt in Hj. pose proof (inv_size _ _ Hinv). lia.
Qed.

Lemma set_inv h T i l e k v :
  HeapInv h T → T !! i = Some (l, e) →
  HeapInv (heap_SetProviderSpecific l k v h) (<[i := (l, SetProviderSpecific k v e)]> T).
Proof.
  intros Hinv HT. destruct (inv_value _ _ Hinv _ _ _ HT) as [He Ho]. unfold heap_SetProviderSpecific.
  split.
  - rewrite length_alter. apply Hinv.
  - intros j l' e' [[<- ?]|[Hne HTj]]%lookup_insert_Some; simplify_eq.
    + by rewrite list_lookup_alter_eq, He.
    + destruct (inv_value _ _ Hinv _ _ _ HTj) as [He' Ho']. split; [|done].
      rewrite list_lookup_alter_ne; [done|]. intros ->. destruct Hne. by eapply (inv_inj _ _ Hinv).
  - intros j j' l' e' e''. rewrite !lookup_insert_Some.
    intros [[<- ?]|[Hj HTj]] [[<- ?]|[Hk HTk]]; simplify_eq; [done|..]; by eapply (inv_inj _ _ Hinv).
  - intros j l' Hj [HTj Hne]%lookup_insert_None.
    rewrite list_lookup_alter_ne; [by apply (inv_untouched _ _ Hinv _ _ Hj)|].
    intros ->. apply Hne. symmetry. by eapply owns_inj.
Qed.

(** The locations [ls] hold the endpoints requested by [rs]. *)
Definition holds (T : Ghost) : list loc → list Requested → Prop :=
  Forall2 (λ l r, T !! reqID r = Some (l, requestedEndpoint existing r)).

Lemma holds_frame T T' ls rs :
  holds T ls rs → (∀ i, i ∈ (reqID <$> rs) → T' !! i = T !! i) → holds T' ls rs.
Proof.
  induction 1 as [|l r ls rs Hr _ IH]; [constructor|]. rewrite fmap_cons. intros Hi.
  constructor; [rewrite Hi by apply list_elem_of_here; done|]. apply IH. set_solver.
Qed.

Lemma before_new T r : T !! reqID r = None → applyRequest r (before T r) = requestedBase existing r.
Proof. unfold before. intros ->. by destruct (cur !! reqID r). Qed.

(** Asking for a new id: the endpoint, then its property. *)
Lemma request_step h T r l h' :
  HeapInv h T → T !! reqID r = None →
  createOrUpdateEndpoint (rqName r) (rqTargets r) (rqType r) (rqSetIdentifier r) (rqTTL r) cur h = (l, h') →
  HeapInv (match rqProperty r with Some (k, v) => heap_SetProviderSpecific l k v h' | None => h' end)
    (<[reqID r := (l, requestedEndpoint existing r)]> T).
Proof.
  intros Hinv HT Hc. pose proof (create_inv h T r Hinv) as Hinv'. rewrite Hc, before_new in Hinv' by done.
  unfold requestedEndpoint, withProperty. destruct (rqProperty r) as [[k v]|]; [|done].
  pose proof (set_inv _ _ (reqID r) l _ k v Hinv' (lookup_insert_eq _ _ _)) as Hinv2.
  by rewrite insert_insert_eq in Hinv2.
Qed.

End ownership.

(** ** The loops implement the requests *)

Section refinement.

Context `{TargetEnv} (existing : list Endpoint).
Let cur := indexEndpoints ∅ 0 existing.

(** From [T], the heap [h'] with [T'] answers the requests [rs] at [ls] and
    leaves the other ids alone. *)
Record Answers (T : Ghost) (h' : EndpointHeap) (T' : Ghost) (ls : list loc) (rs : list Requested) : Prop := {
  ans_inv : HeapInv existing h' T';
  ans_holds : holds existing T' ls rs;
  ans_frame i : i ∉ (reqID <$> rs) → T' !! i = T !! i
}.

(** The ids of [rs] are new to [T] and different. *)
Definition fresh (T : Ghost) (rs : list Requested) : Prop :=
  NoDup (reqID <$> rs) ∧ ∀ i, i ∈ (reqID <$> rs) → T !! i = None.

Lemma Answers_nil h T : HeapInv existing h T → Answers T h T [] [].
Proof. intros. split; [done|constructor|done]. Qed.

Lemma fresh_app T rs1 rs2 :
  fresh T (rs1 ++ rs2) → fresh T rs1 ∧
  ∀ T', (∀ i, i ∉ (reqID <$> rs1) → T' !! i = T !! i) → fresh T' rs2.
Proof.
  unfold fresh. rewrite fmap_app, NoDup_app. intros [(H1 & Hd & H2) Hn]. split_and!; [done|set_solver|].
  intros T' HT'. split; [done|]. intros i Hi. rewrite HT' by set_solver. set_solver.
Qed.

Lemma Answers_app T h1 T1 h2 T2 ls1 rs1 ls2 rs2 :
  fresh T (rs1 ++ rs2) →
  Answers T h1 T1 ls1 rs1 → Answers T1 h2 T2 ls2 rs2 → Answers T h2 T2 (ls1 ++ ls2) (rs1 ++ rs2).
Proof.
  intros [Hnd _] [Hi1 Hh1 Hf1] [Hi2 Hh2 Hf2]. rewrite fmap_app, NoDup_app in Hnd.
  destruct Hnd as (_ & Hd & _). split; [done|..].
  - apply Forall2_app; [|done]. eapply holds_frame; [done|]. intros i Hi. apply Hf2. by apply Hd.
  - intros i. rewrite fmap_app, not_elem_of_app. intros [??]. by rewrite Hf2, Hf1.
Qed.

(** One request that is answered right away. *)
Lemma Answers_one h T r l h' :
  HeapInv existing h T → fresh T [r] →
  createOrUpdateEndpoint (rqName r) (rqTargets r) (rqType r) (rqSetIdentifier r) (rqTTL r) cur h = (l, h') →
  Answers T (match rqProperty r with Some (k, v) => heap_SetProviderSpecific l k v h' | None => h' end)
    (<[reqID r := (l, requestedEndpoint existing r)]> T) [l] [r].
Proof.
  intros Hinv [_ Hn] Hc. split.
  - apply request_step with (h := h); [done| |done]. apply Hn. set_solver.
  - constructor; [|constructor]. by rewrite lookup_insert_eq.
  - intros i Hi. rewrite lookup_insert_ne; [done|]. set_solver.
Qed.

Lemma hostEndpoints_answers geoLbName w hosts h T eps :
  HeapInv existing h T → fresh T (weightedRequest geoLbName w <$> hosts) →
  ∃ h' T' ls, hostEndpoints cur geoLbName w hosts h eps = (h', eps ++ ls) ∧
    Answers T h' T' ls (weightedRequest geoLbName w <$> hosts).
Proof.
  revert h T eps. induction hosts as [|host hosts IH]; intros h T eps Hinv Hf; cbn [hostEndpoints].
  { exists h, T, []. rewrite app_nil_r. split; [done|]. by apply Answers_nil. }
  set (r := weightedRequest geoLbName w host). set (rs := weightedRequest geoLbName w <$> hosts).
  change (weightedRequest geoLbName w <$> host :: hosts) with ([r] ++ rs) in *.
  destruct (createOrUpdateEndpoint _ _ _ _ _ _ _) as [l h1] eqn:Hc.
  apply fresh_app in Hf as Hf'. destruct Hf' as [Hf1 Hf2].
  pose proof (Answers_one h T r l h1 Hinv Hf1 Hc) as Ha.
  destruct (IH _ _ (eps ++ [l]) (ans_inv _ _ _ _ _ Ha) (Hf2 _ (ans_frame _ _ _ _ _ Ha)))
    as (h' & T' & ls & Hrun & Ha').
  exists h', T', ([l] ++ ls). split; [by rewrite (assoc_L (++))|]. by eapply Answers_app.
Qed.

(** Every address has a type, as the Gateway API's defaulting leaves it. *)
Definition typed (t : ClusterGatewayTarget) : Prop :=
  Forall (λ a, is_Some (aType a)) (GatewayAddresses (cgtGateway t)).

Lemma splitAddresses_eq gwas ips hosts :
  Forall (λ a, is_Some (aType a)) gwas →
  splitAddresses gwas ips hosts =
  Ok (ips ++ (aValue <$> filter isIP gwas), hosts ++ (aValue <$> filter (λ a, ¬ isIP a) gwas)).
Proof.
  intros Ht. revert ips hosts. induction Ht as [|a gwas [t Ha] _ IH]; intros ips hosts; cbn [splitAddresses].
  { by rewrite !app_nil_r. }
  rewrite Ha, !filter_cons. case_decide as Hip.
  - assert (isIP a) by (unfold isIP; congruence). rewrite decide_True, decide_False by auto.
    by rewrite IH, fmap_cons, <- (assoc_L (++)).
  - assert (¬ isIP a) by (unfold isIP; congruence). rewrite decide_False, decide_True by done.
    by rewrite IH, fmap_cons, <- (assoc_L (++)).
Qed.

Context (Hhash : ∀ s, 6 ≤ String.length (base36sum224 s)).

Lemma ToBase36hash_eq s : ToBase36hash s = Ok (shortCode s).
Proof.
  unfold ToBase36hash. rewrite (proj2 (Nat.ltb_ge _ _)); [done|]. by rewrite ToLower_length.
Qed.

Lemma clusterEndpoints_answers lbName geo t h T eps :
  typed t → HeapInv existing h T → fresh T (clusterRequests lbName geo t) →
  ∃ h' T' ls, clusterEndpoints cur lbName (geoLbNameOf lbName geo) t h eps = Ok (h', eps ++ ls) ∧
    Answers T h' T' ls (clusterRequests lbName geo t).
Proof.
  intros Ht Hinv Hf. unfold clusterEndpoints. rewrite splitAddresses_eq by done. cbn [rbind app].
  fold (ipValuesOf t) (hostValuesOf t). unfold clusterRequests, addressRequest, clusterHosts in *.
  destruct (ipValuesOf t) as [|ip ips].
  - rewrite !app_nil_r in *. rewrite app_nil_l in Hf.
    destruct (hostEndpoints_answers _ _ _ h T eps Hinv Hf) as (h' & T' & ls & Hrun & Ha).
    exists h', T', ls. by rewrite Hrun.
  - unfold cgt_GetShortCode. rewrite ToBase36hash_eq. cbn [rbind]. fold (clusterLbNameOf lbName t).
    destruct (createOrUpdateEndpoint _ _ _ _ _ _ _) as [l h1] eqn:Hc.
    apply fresh_app in Hf as Hf'. destruct Hf' as [Hf1 Hf2].
    pose proof (Answers_one h T (mkRequested _ _ _ _ _ _) l h1 Hinv Hf1 Hc) as Ha. cbn [rqProperty] in Ha.
    edestruct (hostEndpoints_answers _ _ _ h1 _ (eps ++ [l]) (ans_inv _ _ _ _ _ Ha)
      (Hf2 _ (ans_frame _ _ _ _ _ Ha))) as (h' & T' & ls & Hrun & Ha').
    exists h', T', ([l] ++ ls). rewrite Hrun, (assoc_L (++)). split; [done|]. by eapply Answers_app.
Qed.

Lemma geoClusterEndpoints_answers lbName geo ts h T eps :
  Forall typed ts → HeapInv existing h T → fresh T (ts ≫= clusterRequests lbName geo) →
  ∃ h' T' ls, geoClusterEndpoints cur lbName (geoLbNameOf lbName geo) ts h eps = Ok (h', eps ++ ls) ∧
    Answers T h' T' ls (ts ≫= clusterRequests lbName geo).
Proof.
  intros Ht. revert h T eps. induction Ht as [|t ts Ht _ IH]; intros h T eps Hinv Hf; cbn [geoClusterEndpoints].
  { exists h, T, []. rewrite app_nil_r. split; [done|]. by apply Answers_nil. }
  rewrite bind_cons in *. apply fresh_app in Hf as Hf'. destruct Hf' as [Hf1 Hf2].
  destruct (clusterEndpoints_answers lbName geo t h T eps Ht Hinv Hf1) as (h1 & T1 & ls1 & -> & Ha1).
  cbn [rbind].
  destruct (IH h1 T1 (eps ++ ls1) (ans_inv _ _ _ _ _ Ha1) (Hf2 _ (ans_frame _ _ _ _ _ Ha1)))
    as (h' & T' & ls & -> & Ha').
  exists h', T', (ls1 ++ ls). rewrite (assoc_L (++)). split; [done|]. by eapply Answers_app.
Qed.

(** The endpoint for the rest of the world: not finished before the end of the
    loop, so without its property. *)
Definition DefaultAt (lbName : string) (T : Ghost) (d : option loc) (chosen : option string) : Prop :=
  match chosen with
  | None => d = None
  | Some geo =>
      ∃ l, d = Some l ∧
        T !! (lbName +:+ "default") = Some (l, requestedBase existing (defaultRequest lbName geo))
  end.

(** The state of the loop over the geos after the geos that made the requests
    [rs] and the choice [chosen]. *)
Definition LoopInv (lbName : string) (s : GeoLoop) (rs : list Requested) (chosen : option string) : Prop :=
  ∃ T, HeapInv existing (glHeap s) T ∧ holds existing T (glNew s) rs ∧
    DefaultAt lbName T (glDefault s) chosen ∧
    ∀ i, is_Some (T !! i) → i ∈ (reqID <$> rs) ∨ (is_Some chosen ∧ i = lbName +:+ "default").

(** Asking (again) for the default endpoint. *)
Lemma default_step lbName T h geo d chosen l h' :
  HeapInv existing h T → DefaultAt lbName T d chosen →
  (chosen = None → T !! (lbName +:+ "default") = None) →
  createOrUpdateEndpoint lbName [geoLbNameOf lbName geo] CNAMERecordType "default" DefaultCnameTTL cur h
    = (l, h') →
  HeapInv existing h'
    (<[lbName +:+ "default" := (l, requestedBase existing (defaultRequest lbName geo))]> T).
Proof.
  intros Hinv Hd Hn Hc. pose proof (create_inv existing h T (defaultRequest lbName geo) Hinv) as Hinv'.
  cbn in Hinv'. fold cur in Hinv'. rewrite Hc in Hinv'.
  replace (requestedBase existing (defaultRequest lbName geo))
    with (applyRequest (defaultRequest lbName geo) (before existing T (defaultRequest lbName geo))); [done|].
  unfold before, requestedBase, applyRequest. fold cur. change (reqID _) with (lbName +:+ "default").
  destruct chosen as [g|]; cbn in Hd.
  - destruct Hd as (l' & -> & ->). by destruct (cur !! _).
  - rewrite Hn by done. by destruct (cur !! _).
Qed.

Lemma DefaultAt_frame lbName T T' d chosen :
  DefaultAt lbName T d chosen →
  T' !! (lbName +:+ "default") = T !! (lbName +:+ "default") → DefaultAt lbName T' d chosen.
Proof. unfold DefaultAt. destruct chosen; [by intros Hd ->|done]. Qed.

(** The clusters of a geo, added to the loop state. *)
Lemma LoopInv_clusters lbName s rs chosen h' ls crs :
  LoopInv lbName s rs chosen →
  NoDup (reqID <$> rs ++ crs) → lbName +:+ "default" ∉ (reqID <$> rs ++ crs) →
  (∀ T, HeapInv existing (glHeap s) T → fresh T crs → ∃ T', Answers T h' T' ls crs) →
  LoopInv lbName (mkGeoLoop h' (glNew s ++ ls) (glDefault s)) (rs ++ crs) chosen.
Proof.
  intros (T & Hinv & Hh & Hd & Hdom) Hnd Hdef Hrun. rewrite fmap_app, NoDup_app in Hnd.
  destruct Hnd as (_ & Hdisj & Hnd). rewrite fmap_app, not_elem_of_app in Hdef.
  destruct Hdef as [Hdef1 Hdef2]. destruct (Hrun T Hinv) as [T' Ha].
  { split; [done|]. intros i Hi. destruct (T !! i) eqn:E; [|done]. exfalso.
    destruct (Hdom i) as [?|[_ ->]]; [by rewrite E|set_solver|done]. }
  exists T'. destruct Ha as [Hinv' Hh' Hf]. split_and!; [done|..].
  - apply Forall2_app; [|done]. eapply holds_frame; [done|]. intros i Hi. apply Hf. set_solver.
  - eapply DefaultAt_frame; [done|]. by apply Hf.
  - intros i Hi. rewrite fmap_app, elem_of_app. destruct (decide (i ∈ (reqID <$> crs))); [by auto|].
    rewrite Hf in Hi by done. destruct (Hdom i Hi); auto.
Qed.

(** The choice of a new default. *)
Lemma LoopInv_default lbName s rs chosen geo l h' :
  LoopInv lbName s rs chosen → lbName +:+ "default" ∉ (reqID <$> rs) →
  createOrUpdateEndpoint lbName [geoLbNameOf lbName geo] CNAMERecordType "default" DefaultCnameTTL cur
    (glHeap s) = (l, h') →
  LoopInv lbName (mkGeoLoop h' (glNew s) (Some l)) rs (Some geo).
Proof.
  intros (T & Hinv & Hh & Hd & Hdom) Hdef Hc.
  eexists (<[lbName +:+ "default" := _]> T). split_and!.
  - eapply default_step; [done|done| |done]. intros ->.
    destruct (T !! (lbName +:+ "default")) eqn:E; [|done]. destruct (Hdom (lbName +:+ "default")) as [?|[[??] _]]; [|done..].
    by rewrite E.
  - cbn. eapply holds_frame; [done|]. intros i Hi. rewrite lookup_insert_ne; [done|]. by intros <-.
  - exists l. by rewrite lookup_insert_eq.
  - intros i [x [[<- ?]|[? Hi]]%lookup_insert_Some]; [right; by split|]. destruct (Hdom i) as [?|[??]]; eauto.
Qed.

(** A request whose property is set later. *)
Definition bare (r : Requested) : Requested :=
  mkRequested (rqName r) (rqTargets r) (rqType r) (rqSetIdentifier r) (rqTTL r) None.

Lemma LoopInv_property lbName h ls l d rs r k v chosen :
  LoopInv lbName (mkGeoLoop h (ls ++ [l]) d) (rs ++ [bare r]) chosen →
  rqProperty r = Some (k, v) → NoDup (reqID <$> rs ++ [r]) → lbName +:+ "default" ≠ reqID r →
  LoopInv lbName (mkGeoLoop (heap_SetProviderSpecific l k v h) (ls ++ [l]) d) (rs ++ [r]) chosen.
Proof.
  intros (T & Hinv & Hh & Hd & Hdom) Hp Hnd Hdef. cbn in *.
  rewrite fmap_app, NoDup_app in Hnd. destruct Hnd as (_ & Hdisj & _).
  apply Forall2_app_inv in Hh as [Hh Hl]; [|by apply Forall2_length in Hh; rewrite !length_app in Hh; simpl in Hh; lia].
  inversion_clear Hl as [|? ? ? ? Hl' _]. change (reqID (bare r)) with (reqID r) in *.
  exists (<[reqID r := (l, requestedEndpoint existing r)]> T). cbn. split_and!.
  - pose proof (set_inv existing h T (reqID r) l _ k v Hinv Hl') as Hs.
    unfold requestedEndpoint at 1. by rewrite Hp.
  - apply Forall2_app; [|constructor; [by rewrite lookup_insert_eq|constructor]].
    eapply holds_frame; [done|]. intros i Hi. rewrite lookup_insert_ne; [done|]. set_solver.
  - eapply DefaultAt_frame; [done|]. by rewrite lookup_insert_ne.
  - intros i [x [[<- ?]|[? Hi]]%lookup_insert_Some]; [left; set_solver|].
    destruct (Hdom i) as [Hin|[??]]; [by eauto| |by eauto]. left. by rewrite fmap_app in *.
Qed.

(** The clusters of the geo are answered from the state [s]. *)
Lemma geoClusters_run lbName geo ts s rs chosen :
  LoopInv lbName s rs chosen → Forall typed ts →
  let crs := ts ≫= clusterRequests lbName geo in
  NoDup (reqID <$> rs ++ crs) → lbName +:+ "default" ∉ (reqID <$> rs ++ crs) →
  ∃ h' ls, geoClusterEndpoints cur lbName (geoLbNameOf lbName geo) ts (glHeap s) [] = Ok (h', ls) ∧
    length ls = length crs ∧
    LoopInv lbName (mkGeoLoop h' (glNew s ++ ls) (glDefault s)) (rs ++ crs) chosen.
Proof.
  intros Hl Ht crs Hnd Hdef. pose proof Hl as (T & Hinv & _ & _ & Hdom).
  assert (fresh T crs) as Hf.
  { rewrite fmap_app, NoDup_app in Hnd. rewrite fmap_app, not_elem_of_app in Hdef.
    destruct Hnd as (_ & Hdisj & ?), Hdef as [Hd1 Hd2]. split; [done|]. intros i Hi. destruct (T !! i) eqn:E; [|done]. exfalso.
    destruct (Hdom i) as [?|[_ ->]]; [by rewrite E|by eapply Hdisj|done]. }
  destruct (geoClusterEndpoints_answers lbName geo ts (glHeap s) T [] Ht Hinv Hf) as (h' & T' & ls & Hrun & Ha).
  exists h', ls. split_and!; [done|by eapply Forall2_length, Ha|].
  apply LoopInv_clusters; try done. intros T0 Hinv0 Hf0.
  destruct (geoClusterEndpoints_answers lbName geo ts (glHeap s) T0 [] Ht Hinv0 Hf0) as (h0 & T0' & ls0 & Hrun0 & Ha0).
  rewrite Hrun in Hrun0. simpl in Hrun0. simplify_eq. by exists T0'.
Qed.

(** The geo entry of the load balancer name, before its property is set. *)
Lemma geoLb_run lbName geo s rs chosen l h' :
  LoopInv lbName s rs chosen →
  NoDup (reqID <$> rs ++ [geoLbRequest lbName geo]) →
  lbName +:+ "default" ∉ (reqID <$> rs ++ [geoLbRequest lbName geo]) →
  createOrUpdateEndpoint lbName [geoLbNameOf lbName geo] CNAMERecordType geo DefaultCnameTTL cur (glHeap s)
    = (l, h') →
  LoopInv lbName (mkGeoLoop h' (glNew s ++ [l]) (glDefault s)) (rs ++ [bare (geoLbRequest lbName geo)]) chosen.
Proof.
  intros Hl Hnd Hdef Hc. rewrite !fmap_app in *.
  apply LoopInv_clusters; [done|by rewrite fmap_app..|]. intros T Hinv Hf.
  eexists. exact (Answers_one (glHeap s) T (bare (geoLbRequest lbName geo)) l h' Hinv Hf Hc).
Qed.

Lemma geoStep_inv lbName defaultGeo s rs chosen geo :
  LoopInv lbName s rs chosen → Forall typed geo.2 →
  NoDup (reqID <$> rs ++ geoRequests lbName geo) →
  lbName +:+ "default" ∉ (reqID <$> rs ++ geoRequests lbName geo) →
  ∃ s', geoStep cur lbName defaultGeo s geo = Ok s' ∧
    LoopInv lbName s' (rs ++ geoRequests lbName geo) (chooseDefault lbName defaultGeo chosen geo).
Proof.
  destruct geo as [geo ts]. unfold geoRequests, chooseDefault, geoStep. cbn [fst snd].
  fold (geoLbNameOf lbName geo). intros Hl Ht Hnd Hdef.
  set (crs := ts ≫= clusterRequests lbName geo) in *.
  assert (NoDup (reqID <$> rs ++ crs) ∧ lbName +:+ "default" ∉ (reqID <$> rs ++ crs)) as [Hnd1 Hdef1].
  { destruct crs as [|r crs]; [done|]. rewrite (assoc_L (++)), (fmap_app _ (rs ++ _)) in Hnd, Hdef.
    apply NoDup_app in Hnd as (? & _ & _). apply not_elem_of_app in Hdef as [? _]. done. }
  destruct (geoClusters_run lbName geo ts s rs chosen Hl Ht Hnd1 Hdef1) as (h1 & ls & -> & Hlen & Hl1).
  fold crs in Hlen, Hl1. cbn [rbind]. destruct ls as [|l0 ls], crs as [|r0 crs]; try done.
  { eexists. split; [done|]. rewrite !app_nil_r in *. done. }
  destruct (createOrUpdateEndpoint lbName _ _ geo _ _ _) as [l h2] eqn:Hc. unfold IsDefaultCode.
  destruct (decide (geo = DefaultGeo)) as [->|Hgeo].
  { rewrite bool_decide_eq_true_2, decide_True by auto. eexists. split; [done|].
    rewrite app_nil_r. by eapply LoopInv_default in Hl1. }
  rewrite bool_decide_eq_false_2 by done. rewrite (assoc_L (++)) in Hnd, Hdef.
  eapply geoLb_run in Hl1 as Hl2; [|done..]. cbn [glHeap glNew glDefault] in Hl2.
  assert (lbName +:+ "default" ∉ (reqID <$> (rs ++ r0 :: crs) ++ [bare (geoLbRequest lbName geo)])) as Hdef2.
  { by rewrite fmap_app in *. }
  rewrite !(assoc_L (++)). set (rs1 := rs ++ r0 :: crs) in *.
  assert (lbName +:+ "default" ≠ reqID (geoLbRequest lbName geo)) as Hne.
  { rewrite fmap_app, not_elem_of_app in Hdef. set_solver. }
  destruct (decide (geo = defaultGeo ∨ glDefault s = None)) as [Hnew|Hkeep].
  - assert (bool_decide (geo = defaultGeo) || bool_decide (glDefault s = None) = true) as ->.
    { apply orb_true_iff. rewrite !bool_decide_eq_true. done. }
    destruct (createOrUpdateEndpoint lbName _ _ "default" _ _ _) as [d h3] eqn:Hd.
    eexists. split; [done|]. rewrite decide_True.
    2: { destruct Hnew as [->|Hn]; [by auto|]. right; right. destruct Hl as (T & _ & _ & HD & _).
         destruct chosen; [|done]. destruct HD as (? & HD & _). congruence. }
    eapply LoopInv_default in Hl2; [|done|exact Hd]. by eapply LoopInv_property.
  - assert (bool_decide (geo = defaultGeo) || bool_decide (glDefault s = None) = false) as ->.
    { apply orb_false_iff. rewrite !bool_decide_eq_false. tauto. }
    eexists. split; [done|]. rewrite decide_False; [by eapply LoopInv_property|].
    intros [?|[?| ->]]; [done|tauto|]. destruct Hl as (T & _ & _ & HD & _). tauto.
Qed.

Lemma geoLoop_inv lbName defaultGeo geos s rs chosen :
  LoopInv lbName s rs chosen → Forall (λ geo, Forall typed geo.2) geos →
  NoDup (reqID <$> rs ++ (geos ≫= geoRequests lbName)) →
  lbName +:+ "default" ∉ (reqID <$> rs ++ (geos ≫= geoRequests lbName)) →
  ∃ s', rfold (geoStep cur lbName defaultGeo) s geos = Ok s' ∧
    LoopInv lbName s' (rs ++ (geos ≫= geoRequests lbName))
      (foldl (chooseDefault lbName defaultGeo) chosen geos).
Proof.
  intros Hl Ht. revert s rs chosen Hl. induction Ht as [|geo geos Ht _ IH]; intros s rs chosen Hl Hnd Hdef.
  { exists s. rewrite app_nil_r. done. }
  rewrite bind_cons, (assoc_L (++)) in *.
  destruct (geoStep_inv lbName defaultGeo s rs chosen geo Hl Ht) as (s1 & Hs1 & Hl1).
  { rewrite (fmap_app _ (rs ++ _)) in Hnd. by apply NoDup_app in Hnd as (? & _ & _). }
  { rewrite (fmap_app _ (rs ++ _)) in Hdef. by apply not_elem_of_app in Hdef as [? _]. }
  destruct (IH s1 _ _ Hl1 Hnd Hdef) as (s' & Hs' & Hl').
  exists s'. simpl. by rewrite Hs1.
Qed.

(** Every geo that was chosen made requests, and some geo is chosen once any
    did. *)
Lemma chosen_requests lbName defaultGeo geos chosen :
  foldl (chooseDefault lbName defaultGeo) chosen geos = None ↔
  chosen = None ∧ (geos ≫= geoRequests lbName) = [].
Proof.
  revert chosen. induction geos as [|geo geos IH]; intros chosen; [naive_solver|].
  rewrite bind_cons. simpl. rewrite IH, app_nil. unfold chooseDefault, geoRequests.
  destruct (geo.2 ≫= clusterRequests lbName geo.1) as [|r rs]; [naive_solver|].
  destruct chosen; [case_decide; naive_solver|]. rewrite decide_True by auto. naive_solver.
Qed.

Lemma holds_deref h T ls rs :
  HeapInv existing h T → holds existing T ls rs → deref h ls = requestedEndpoint existing <$> rs.
Proof.
  intros Hinv. unfold deref. induction 1 as [|l r ls rs Hr _ IH]; [done|]. rewrite !fmap_cons, IH. f_equal.
  by destruct (inv_value _ _ _ Hinv _ _ _ Hr) as [-> _].
Qed.

Lemma finish_run lbName gwListenerHost s rs chosen :
  LoopInv lbName s rs chosen → (chosen = None ↔ rs = []) →
  NoDup (reqID <$> rs ++ finalRequests lbName gwListenerHost chosen) →
  ∃ h ls, finishEndpoints cur lbName gwListenerHost s = Ok (h, ls) ∧
    deref h ls = requestedEndpoint existing <$> rs ++ finalRequests lbName gwListenerHost chosen.
Proof.
  intros Hl Hrs Hnd. assert (length (glNew s) = length rs) as Hlen.
  { destruct Hl as (T & _ & Hh & _). by eapply Forall2_length. }
  unfold finishEndpoints. destruct chosen as [geo|].
  2: { rewrite (proj1 Hrs eq_refl) in *. apply length_zero_iff_nil in Hlen. rewrite Hlen.
       by exists (glHeap s), []. }
  destruct (glNew s) as [|l0 ls0] eqn:Hnew; [destruct rs; [|done]; naive_solver|]. rewrite <- Hnew. clear Hlen.
  destruct Hl as (T & Hinv & Hh & (d & -> & Hd) & Hdom). cbn [finalRequests] in *.
  set (rd := defaultRequest lbName geo) in *. set (rh := hostRequest lbName gwListenerHost) in *.
  change [rd; rh] with ([rd] ++ [rh]) in *. rewrite (assoc_L (++)) in *.
  pose proof (set_inv existing _ T _ d _ ProviderSpecificGeoCode WildcardGeo Hinv Hd) as Hinv1.
  change (SetProviderSpecific _ _ _) with (requestedEndpoint existing rd) in Hinv1.
  change (lbName +:+ "default") with (reqID rd) in *. set (T1 := <[reqID rd := _]> T) in *.
  rewrite !fmap_app, !NoDup_app in Hnd. destruct Hnd as ((_ & Hrd & _) & Hrh & _).
  assert (holds existing T1 (glNew s ++ [d]) (rs ++ [rd])) as Hh1.
  { apply Forall2_app; [|constructor; [apply lookup_insert_eq|constructor]].
    eapply holds_frame; [done|]. intros i Hi. unfold T1. rewrite lookup_insert_ne; [done|]. set_solver. }
  destruct (createOrUpdateEndpoint gwListenerHost _ _ _ _ _ _) as [l h'] eqn:Hc.
  assert (reqID rh ∉ (reqID <$> rs ++ [rd])) as Hnew2.
  { rewrite fmap_app. intros Hin. by eapply Hrh; [|apply list_elem_of_here]. }
  assert (Answers T1 h' (<[reqID rh := (l, requestedEndpoint existing rh)]> T1) [l] [rh]) as Ha.
  { refine (Answers_one _ T1 rh l h' Hinv1 _ Hc). split; [apply NoDup_singleton|]. intros i Hi.
    apply list_elem_of_singleton in Hi as ->. unfold T1. rewrite fmap_app in Hnew2.
    rewrite lookup_insert_ne by set_solver. destruct (T !! reqID rh) eqn:E; [|done].
    destruct (Hdom (reqID rh)) as [?|[_ ?]]; [by rewrite E|set_solver..]. }
  eexists h', _. split; [done|]. change [d; l] with ([d] ++ [l]). rewrite (assoc_L (++)).
  eapply holds_deref; [apply Ha|].
  apply Forall2_app; [|apply Ha]. eapply holds_frame; [done|]. intros i Hi. apply Ha. set_solver.
Qed.

End refinement.

(** ** What setEndpoints builds *)

Section contract.

Context `{TargetEnv}.
Implicit Types (mcgTarget : MultiClusterGatewayTarget) (existing : list Endpoint) (listener : Listener).

(** The name of the load balancer: lb-<code>.<host without the wildcard>. *)
Definition lbNameSpec mcgTarget (gwListenerHost : string) : string :=
  strings.ToLower ("lb-" +:+ shortCode (mcg_GetName mcgTarget) +:+ "." +:+
    (if strings.HasPrefix gwListenerHost "*" then strings.ReplaceAll gwListenerHost "*." "" else gwListenerHost)).

Definition endpointRequests `{MapRange} mcgTarget (gwListenerHost : string) : list Requested :=
  requests (lbNameSpec mcgTarget gwListenerHost) (GetDefaultGeo mcgTarget) gwListenerHost
    (range_map (GroupTargetsByGeo mcgTarget)).

(** What the code relies on: the listener has a host name (the policy's
    controller checks it), the text of a SHA-224 sum in base 36 has six digits
    or more, addresses are typed, and no two endpoints are asked for under one
    id. *)
Record EndpointsPre `{MapRange} mcgTarget listener (gwListenerHost : string) : Prop := {
  pre_host : Hostname listener = Some gwListenerHost;
  pre_hash s : 6 ≤ String.length (base36sum224 s);
  pre_typed : Forall typed (ClusterGatewayTargets mcgTarget);
  pre_ids : NoDup (reqID <$> endpointRequests mcgTarget gwListenerHost)
}.

Lemma group_typed `{MapRange} mcgTarget :
  Forall typed (ClusterGatewayTargets mcgTarget) →
  Forall (λ geo, Forall typed geo.2) (range_map (GroupTargetsByGeo mcgTarget)).
Proof.
  intros Ht. apply Forall_forall. intros [g ts] Hin. rewrite range_map_perm, elem_of_map_to_list in Hin.
  apply group_by_geo_Some in Hin as ->. simpl. by eapply sublist_Forall, Ht; apply sublist_filter.
Qed.

Lemma buildEndpoints_requests `{MapRange} mcgTarget existing listener host :
  EndpointsPre mcgTarget listener host →
  ∃ h ls, buildEndpoints mcgTarget existing listener = Ok (h, ls) ∧
    deref h ls = requestedEndpoint existing <$> endpointRequests mcgTarget host.
Proof.
  intros [Hhost Hhash Htyped Hnd]. unfold buildEndpoints, cnameHost, isWildCardListener, lbNameOf, mcg_GetShortCode.
  rewrite Hhost. cbn [rbind]. rewrite ToBase36hash_eq by done. cbn [rbind]. fold (lbNameSpec mcgTarget host).
  unfold endpointRequests, requests in *. set (lb := lbNameSpec mcgTarget host) in *.
  set (geos := range_map (GroupTargetsByGeo mcgTarget)) in *.
  set (chosen := foldl (chooseDefault lb (GetDefaultGeo mcgTarget)) None geos) in *.
  assert (chosen = None ↔ (geos ≫= geoRequests lb) = []) as Hchosen.
  { unfold chosen. rewrite chosen_requests. naive_solver. }
  rewrite fmap_app in Hnd. apply NoDup_app in Hnd as Hnd'. destruct Hnd' as (Hnd1 & Hdisj & _).
  destruct (geoLoop_inv existing Hhash lb (GetDefaultGeo mcgTarget) geos (mkGeoLoop existing [] None) [] None)
    as (s & -> & Hl).
  - exists ∅. split_and!; [apply HeapInv_init|apply Forall2_nil_2|done|by intros i [? ?]].
  - by apply group_typed.
  - done.
  - rewrite app_nil_l. intros Hin. destruct chosen as [geo|] eqn:E.
    + apply (Hdisj _ Hin). simpl. apply list_elem_of_here.
    + rewrite (proj1 Hchosen eq_refl) in Hin. by apply not_elem_of_nil in Hin.
  - rewrite app_nil_l in Hl. cbn [rbind]. apply finish_run; [done..|]. by rewrite fmap_app.
Qed.

(** The built endpoints are the requested ones, sorted by id. *)
Lemma newEndpoints_perm `{MapRange} `{SortSlice} mcgTarget existing listener host :
  EndpointsPre mcgTarget listener host →
  ∃ eps, newEndpoints mcgTarget existing listener = Ok eps ∧
    eps ≡ₚ requestedEndpoint existing <$> endpointRequests mcgTarget host ∧
    Sorted (λ a b, String.le (SetID a) (SetID b)) eps.
Proof.
  intros Hpre. unfold newEndpoints.
  destruct (buildEndpoints_requests mcgTarget existing listener host Hpre) as (h & ls & -> & <-).
  cbn [rbind]. eexists. split_and!; [done|apply sort_slice_perm|apply sort_slice_sorted].
Qed.

End contract.
