(* ===== verification/EndpointProps.v ===== *)
(** * Properties of the endpoints of a listener

    The endpoints built by setEndpoints do not depend on the order in which Go
    ranges over the geos, a second run over its own result changes nothing,
    every name it points to resolves, and every address of every cluster is
    reached from the listener's host. *)

From S2P Require Import Prelude GoStrings Slice Kube ApiTypes GatewayApi Target EndpointHealth Endpoints.
Local Open Scope go_scope.

Section props.

Context `{TargetEnv}.
Implicit Types (mcgTarget : MultiClusterGatewayTarget) (existing : list Endpoint) (listener : Listener).

(** ** Ids *)

(** The record's endpoints were made by the same naming scheme: one found
    under a requested id has the requested set identifier. *)
Definition keepsIds existing (rs : list Requested) : Prop :=
  ∀ r e, r ∈ rs → findEndpoint existing (reqID r) = Some e → SetIdentifier e = rqSetIdentifier r.

(** A check of [keepsIds] that evaluates. *)
Lemma keepsIds_check existing rs :
  forallb (λ r, match findEndpoint existing (reqID r) with
                | Some e => bool_decide (SetIdentifier e = rqSetIdentifier r)
                | None => true
                end) rs = true → keepsIds existing rs.
Proof.
  rewrite forallb_forall. intros Hall r e Hr Hf. specialize (Hall r).
  rewrite Hf in Hall. by apply list_elem_of_In, Hall, bool_decide_eq_true in Hr.
Qed.

Lemma newEndpoint_id sid : SetIdentifier (newEndpoint sid) = sid.
Proof. unfold newEndpoint. by case_decide. Qed.

Lemma withProperty_fields p e :
  DNSName (withProperty p e) = DNSName e ∧ Targets (withProperty p e) = Targets e ∧
  RecordType (withProperty p e) = RecordType e ∧ SetIdentifier (withProperty p e) = SetIdentifier e ∧
  RecordTTL (withProperty p e) = RecordTTL e ∧ EndpointLabels (withProperty p e) = EndpointLabels e.
Proof. by destruct p as [[??]|]. Qed.

Lemma requested_SetID existing rs r :
  keepsIds existing rs → r ∈ rs → SetID (requestedEndpoint existing r) = reqID r.
Proof.
  intros Hk Hr. unfold SetID, requestedEndpoint.
  destruct (withProperty_fields (rqProperty r) (requestedBase existing r)) as (-> & _ & _ & -> & _).
  unfold reqID. simpl. f_equal. destruct (findEndpoint existing (reqID r)) as [e|] eqn:E; simpl.
  - by apply (Hk r).
  - apply newEndpoint_id.
Qed.

Lemma requested_SetIDs existing rs :
  keepsIds existing rs → SetID <$> (requestedEndpoint existing <$> rs) = reqID <$> rs.
Proof.
  intros Hk. rewrite <- list_fmap_compose. apply list_fmap_ext. intros i r Hr.
  eapply requested_SetID; [done|]. by eapply list_elem_of_lookup_2.
Qed.

(** ** What is kept of the record *)

Lemma withProperty_other p e k :
  (∀ v, p ≠ Some (k, v)) → GetProviderSpecific (withProperty p e) k = GetProviderSpecific e k.
Proof.
  intros Hp. destruct p as [[k' v]|]; [|done]. unfold GetProviderSpecific. simpl.
  rewrite !find_property_map, set_property_map, lookup_insert_ne; [done|]. naive_solver.
Qed.

(** The endpoint answers the request: it has the requested name, targets, type,
    TTL and property, and what a provider stored under the same id (its labels,
    its properties other than the requested one) is still there. *)
Definition answersRequest existing (r : Requested) (e : Endpoint) : Prop :=
  DNSName e = rqName r ∧ Targets e = rqTargets r ∧ RecordType e = rqType r ∧ RecordTTL e = rqTTL r ∧
  (∀ k v, rqProperty r = Some (k, v) → GetProviderSpecific e k = Some v) ∧
  ∀ old, findEndpoint existing (reqID r) = Some old →
    EndpointLabels e = EndpointLabels old ∧
    ∀ k, (∀ v, rqProperty r ≠ Some (k, v)) → GetProviderSpecific e k = GetProviderSpecific old k.

Lemma requested_answers existing r : answersRequest existing r (requestedEndpoint existing r).
Proof.
  unfold answersRequest, requestedEndpoint.
  destruct (withProperty_fields (rqProperty r) (requestedBase existing r)) as (-> & -> & -> & _ & -> & ->).
  split_and!; [done..| |].
  - intros k v ->. unfold GetProviderSpecific. simpl.
    by rewrite find_property_map, set_property_map, lookup_insert_eq.
  - intros old Hold. unfold requestedBase. rewrite Hold. split; [done|]. intros k Hk.
    by rewrite withProperty_other.
Qed.

(** C8: the loops over geos and clusters do not panic, and what they build on
    the shared endpoints of the record is one endpoint for each request, in the
    order of the ids, with the requested name, targets, type and TTL; what a
    provider stored under the same id (its labels, its properties other than
    the weight or geo code) is still there. *)
Theorem endpoints_refine_requests `{MapRange} `{SortSlice} mcgTarget existing listener host :
  EndpointsPre mcgTarget listener host →
  ∃ eps, newEndpoints mcgTarget existing listener = Ok eps ∧
    Sorted (λ a b, String.le (SetID a) (SetID b)) eps ∧
    eps ≡ₚ requestedEndpoint existing <$> endpointRequests mcgTarget host ∧
    ∀ r, r ∈ endpointRequests mcgTarget host → ∃ e, e ∈ eps ∧ answersRequest existing r e.
Proof.
  intros Hpre. destruct (newEndpoints_perm _ existing _ _ Hpre) as (eps & -> & Hp & Hs).
  exists eps. split_and!; [done..|]. intros r Hr. exists (requestedEndpoint existing r).
  split; [|apply requested_answers].
  rewrite Hp. by apply (list_elem_of_fmap_2 (requestedEndpoint existing)).
Qed.

(** ** The default geo *)

(** The geo has an endpoint: some cluster in it has an address. *)
Definition active (lbName : string) (geo : string * list ClusterGatewayTarget) : Prop :=
  geo.2 ≫= clusterRequests lbName geo.1 ≠ [].

Lemma choose_keeps lbName defaultGeo geos :
  Forall (λ geo, geo.1 = DefaultGeo → geo.1 = defaultGeo) geos →
  foldl (chooseDefault lbName defaultGeo) (Some defaultGeo) geos = Some defaultGeo.
Proof.
  induction 1 as [|geo geos Hgeo _ IH]; [done|]. simpl.
  replace (chooseDefault _ _ _ _) with (Some defaultGeo); [done|].
  unfold chooseDefault. case_match; [done|]. case_decide; [|done]. f_equal. naive_solver.
Qed.

Lemma choose_default_geo lbName defaultGeo geos ts chosen :
  Forall (λ geo, geo.1 = DefaultGeo → geo.1 = defaultGeo) geos →
  (defaultGeo, ts) ∈ geos → active lbName (defaultGeo, ts) →
  foldl (chooseDefault lbName defaultGeo) chosen geos = Some defaultGeo.
Proof.
  intros Hall Hin Hact. revert chosen. induction Hall as [|geo geos Hgeo Hall IH]; intros chosen.
  { by apply not_elem_of_nil in Hin. }
  apply elem_of_cons in Hin as [<-|Hin]; simpl; [|by apply IH].
  unfold chooseDefault at 2. unfold active in Hact. simpl in *. case_match; [done|].
  rewrite decide_True by auto. by apply choose_keeps.
Qed.

(** The policy's default geo has an endpoint, and no cluster is labelled with
    the internal geo unless that is the default. *)
Definition defaultServed mcgTarget (host : string) : Prop :=
  (∃ ts, GroupTargetsByGeo mcgTarget !! GetDefaultGeo mcgTarget = Some ts ∧
     active (lbNameSpec mcgTarget host) (GetDefaultGeo mcgTarget, ts)) ∧
  Forall (λ t, cgtGeo t = DefaultGeo → cgtGeo t = GetDefaultGeo mcgTarget) (ClusterGatewayTargets mcgTarget).

Lemma chosen_served `{MapRange} mcgTarget host :
  defaultServed mcgTarget host →
  foldl (chooseDefault (lbNameSpec mcgTarget host) (GetDefaultGeo mcgTarget)) None
    (range_map (GroupTargetsByGeo mcgTarget)) = Some (GetDefaultGeo mcgTarget).
Proof.
  intros [(ts & Hts & Hact) Hall]. apply choose_default_geo with ts; [| |done].
  - apply Forall_forall. intros [g ts'] Hin. rewrite range_map_perm, elem_of_map_to_list in Hin. simpl.
    apply group_by_geo_nonempty in Hin as Hne. apply group_by_geo_Some in Hin as ->.
    destruct (filter _ _) as [|t l] eqn:E; [done|]. intros ->.
    assert (t ∈ filter (λ t, cgtGeo t = DefaultGeo) (ClusterGatewayTargets mcgTarget)) as [Hg Hin]%list_elem_of_filter.
    { rewrite E. apply list_elem_of_here. }
    rewrite Forall_forall in Hall. specialize (Hall t Hin). by rewrite Hg in Hall; apply Hall.
  - by rewrite range_map_perm, elem_of_map_to_list.
Qed.

(** ** The order of the geos *)

Lemma requests_perm (R1 R2 : MapRange) mcgTarget host :
  defaultServed mcgTarget host →
  @endpointRequests _ R1 mcgTarget host ≡ₚ @endpointRequests _ R2 mcgTarget host.
Proof.
  intros Hs. unfold endpointRequests, requests. rewrite !chosen_served by done.
  apply Permutation_app; [|done]. apply bind_Permutation. by rewrite !range_map_perm.
Qed.

Lemma EndpointsPre_range (R1 R2 : MapRange) mcgTarget listener host :
  defaultServed mcgTarget host →
  @EndpointsPre _ R1 mcgTarget listener host → @EndpointsPre _ R2 mcgTarget listener host.
Proof.
  intros Hs [? ? ? Hnd]. split; [done..|]. by rewrite (requests_perm R2 R1).
Qed.

Lemma newEndpoints_order (R1 R2 : MapRange) (S1 S2 : SortSlice) mcgTarget existing listener host :
  @EndpointsPre _ R1 mcgTarget listener host →
  defaultServed mcgTarget host →
  keepsIds existing (@endpointRequests _ R1 mcgTarget host) →
  @newEndpoints _ R1 S1 mcgTarget existing listener = @newEndpoints _ R2 S2 mcgTarget existing listener.
Proof.
  intros Hpre Hs Hk.
  destruct (@newEndpoints_perm _ R1 S1 _ existing _ _ Hpre) as (eps1 & -> & Hp1 & Hs1).
  apply (EndpointsPre_range R1 R2) in Hpre as Hpre2; [|done].
  destruct (@newEndpoints_perm _ R2 S2 _ existing _ _ Hpre2) as (eps2 & -> & Hp2 & Hs2).
  f_equal. apply (sorted_perm_unique SetID); [| |done..].
  - rewrite Hp1, requested_SetIDs by done. apply Hpre.
  - rewrite Hp1, Hp2. by rewrite (requests_perm R1 R2).
Qed.

(** C9: when the policy's default geo is served and no two endpoints are asked
    for under one id ([EndpointsPre]; two clusters of a geo with the same host
    address are, see [shared_host_same_id]), the endpoints are the same whatever
    the order in which the geos are visited and whatever algorithm sorts them. *)
Theorem endpoints_order_independent (R1 R2 : MapRange) (S1 S2 : SortSlice)
    mcgTarget existing listener host :
  @EndpointsPre _ R1 mcgTarget listener host →
  defaultServed mcgTarget host →
  keepsIds existing (@endpointRequests _ R1 mcgTarget host) →
  @newEndpoints _ R1 S1 mcgTarget existing listener = @newEndpoints _ R2 S2 mcgTarget existing listener.
Proof. apply newEndpoints_order. Qed.

(** ** A second run *)

Lemma find_unique existing i e :
  NoDup (SetID <$> existing) → e ∈ existing → SetID e = i → findEndpoint existing i = Some e.
Proof.
  intros Hnd Hin <-. unfold findEndpoint. induction existing as [|x l IH]; [by apply not_elem_of_nil in Hin|].
  rewrite fmap_cons, NoDup_cons in Hnd. destruct Hnd as [Hx Hnd]. rewrite filter_cons.
  apply elem_of_cons in Hin as [<-|Hin].
  - rewrite decide_True by done. rewrite filter_none; [done|]. apply Forall_forall. intros y Hy Heq.
    apply Hx. rewrite <- Heq. by apply list_elem_of_fmap_2.
  - rewrite decide_False; [by apply IH|]. intros Heq. apply Hx. rewrite Heq. by apply list_elem_of_fmap_2.
Qed.

Lemma set_property_idemp ps k v : set_property (set_property ps k v) k v = set_property ps k v.
Proof.
  induction ps as [|p ps IH]; simpl; [by rewrite decide_True|].
  case_decide; simpl; [by rewrite decide_True|]. rewrite decide_False by done. by rewrite IH.
Qed.

Lemma requested_again existing existing' r :
  findEndpoint existing' (reqID r) = Some (requestedEndpoint existing r) →
  requestedEndpoint existing' r = requestedEndpoint existing r.
Proof.
  intros Hf. unfold requestedEndpoint at 1, requestedBase. rewrite Hf. simpl.
  unfold requestedEndpoint, withProperty. destruct (rqProperty r) as [[k v]|]; [|done].
  unfold SetProviderSpecific, set_ProviderSpecific. simpl. by rewrite set_property_idemp.
Qed.

(** Running again over the endpoints it just built, the function builds
    the same list: nothing is left to update. *)
Theorem endpoints_stable `{MapRange} `{SortSlice} mcgTarget existing listener host eps :
  EndpointsPre mcgTarget listener host →
  keepsIds existing (endpointRequests mcgTarget host) →
  newEndpoints mcgTarget existing listener = Ok eps →
  newEndpoints mcgTarget eps listener = Ok eps.
Proof.
  intros Hpre Hk He. destruct (newEndpoints_perm _ existing _ _ Hpre) as (eps' & He' & Hp & Hs).
  rewrite He in He'. simplify_eq. rename eps' into eps.
  destruct (newEndpoints_perm _ eps _ _ Hpre) as (eps2 & -> & Hp2 & Hs2). f_equal.
  assert (NoDup (SetID <$> eps)) as Hnd.
  { rewrite Hp, requested_SetIDs by done. apply Hpre. }
  assert (requestedEndpoint eps <$> endpointRequests mcgTarget host =
          requestedEndpoint existing <$> endpointRequests mcgTarget host) as Heq.
  { apply list_fmap_ext. intros i r Hr%list_elem_of_lookup_2. apply requested_again, find_unique; [done| |].
    - rewrite Hp. by apply list_elem_of_fmap_2.
    - by eapply requested_SetID. }
  symmetry. apply (sorted_perm_unique SetID); [done| |done..]. by rewrite Hp, Hp2, Heq.
Qed.

(** *** A second run over what was published *)

Lemma sorted_keys {A B} (key : A → string) (key' : B → string) l k :
  key <$> l = key' <$> k →
  Sorted (λ a b, String.le (key a) (key b)) l → Sorted (λ a b, String.le (key' a) (key' b)) k.
Proof.
  intros Heq Hs. revert k Heq. induction Hs as [|a l Hs IH Hh]; intros [|b k] Heq; try done.
  rewrite !fmap_cons in Heq. injection Heq as Hab Hlk. constructor; [by apply IH|].
  destruct Hh as [|a' l Ha], k as [|b' k]; try done. rewrite !fmap_cons in Hlk. injection Hlk as Hab' _.
  constructor. by rewrite <- Hab, <- Hab'.
Qed.

(** The names and targets of a requested endpoint do not depend on the record. *)
Lemma requested_name_targets existing existing' r :
  DNSName (requestedEndpoint existing r) = DNSName (requestedEndpoint existing' r) ∧
  Targets (requestedEndpoint existing r) = Targets (requestedEndpoint existing' r).
Proof.
  unfold requestedEndpoint.
  destruct (withProperty_fields (rqProperty r) (requestedBase existing r)) as (-> & -> & _).
  by destruct (withProperty_fields (rqProperty r) (requestedBase existing' r)) as (-> & -> & _).
Qed.

(** The endpoints built from two records are the same requests, in one order. *)
Lemma newEndpoints_aligned `{MapRange} `{SortSlice} mcgTarget existing existing' listener host eps :
  EndpointsPre mcgTarget listener host →
  keepsIds existing (endpointRequests mcgTarget host) → keepsIds existing' (endpointRequests mcgTarget host) →
  newEndpoints mcgTarget existing listener = Ok eps →
  ∃ rs, rs ≡ₚ endpointRequests mcgTarget host ∧ eps = requestedEndpoint existing <$> rs ∧
        newEndpoints mcgTarget existing' listener = Ok (requestedEndpoint existing' <$> rs).
Proof.
  intros Hpre Hk Hk' He. destruct (newEndpoints_perm _ existing _ _ Hpre) as (eps0 & He0 & Hp & Hs).
  rewrite He in He0. injection He0 as <-.
  destruct (Permutation_map_inv _ _ Hp) as (rs & Heps & Hrs). change (eps = requestedEndpoint existing <$> rs) in Heps.
  destruct (newEndpoints_perm _ existing' _ _ Hpre) as (eps2 & -> & Hp2 & Hs2).
  exists rs. split_and!; [done..|]. f_equal.
  assert (∀ ex, keepsIds ex (endpointRequests mcgTarget host) → SetID <$> (requestedEndpoint ex <$> rs) = reqID <$> rs) as Hids.
  { intros ex Hex. apply requested_SetIDs. intros r e Hr. rewrite <- Hrs in Hr. by apply Hex. }
  apply (sorted_perm_unique SetID); [|by rewrite Hp2, Hrs|done|].
  - rewrite Hp2, requested_SetIDs by done. apply Hpre.
  - subst eps. eapply (sorted_keys SetID SetID); [|exact Hs]. by rewrite !Hids.
Qed.

(** One request per id. *)
Lemma request_unique (rs : list Requested) r r' :
  NoDup (reqID <$> rs) → r ∈ rs → r' ∈ rs → reqID r = reqID r' → r = r'.
Proof.
  induction rs as [|x rs IH]; [set_solver|]. rewrite fmap_cons, NoDup_cons. intros [Hx Hnd] Hr Hr' Heq.
  apply elem_of_cons in Hr as [->|Hr], Hr' as [->|Hr']; [done|..|by apply IH].
  - destruct Hx. rewrite Heq. by apply list_elem_of_fmap_2.
  - destruct Hx. rewrite <- Heq. by apply list_elem_of_fmap_2.
Qed.

(** A part of the endpoints built keeps the naming scheme. *)
Lemma kept_ids_out existing (rs : list Requested) eps out :
  keepsIds existing rs → NoDup (reqID <$> rs) → out ⊆ eps → eps ≡ₚ requestedEndpoint existing <$> rs →
  keepsIds out rs.
Proof.
  intros Hk Hnd Hsub Hp r e Hr Hf. unfold findEndpoint in Hf.
  apply last_Some_elem_of, list_elem_of_filter in Hf as [Hid Hin%Hsub]. rewrite Hp in Hin.
  apply list_elem_of_fmap in Hin as (r' & -> & Hr'). rewrite (requested_SetID existing rs) in Hid by done.
  assert (r' = r) as -> by (by apply (request_unique rs)).
  unfold requestedEndpoint. destruct (withProperty_fields (rqProperty r) (requestedBase existing r)) as (_ & _ & _ & -> & _).
  simpl. destruct (findEndpoint existing (reqID r)) as [e|] eqn:E; simpl; [by apply (Hk r)|apply newEndpoint_id].
Qed.

Lemma Forall2_same_elements {A} (R : A → A → Prop) l k :
  Forall2 R l k → (∀ x y, x ∈ l → R x y → x = y) → l = k.
Proof. induction 1 as [|x y l k Hxy _ IH]; intros Heq; [done|]. f_equal; [apply Heq; set_solver|apply IH; set_solver]. Qed.

(** Publishing is stable too: running again over the endpoints that were
    published, with the same probes, publishes the same endpoints, also when
    unhealthy ones were left out and are built anew. *)
Lemma published_stable `{MapRange} `{SortSlice} mcgTarget existing listener host probes gw l eps out :
  EndpointsPre mcgTarget listener host →
  keepsIds existing (endpointRequests mcgTarget host) →
  newEndpoints mcgTarget existing listener = Ok eps →
  publishedEndpoints probes gw l eps = Some out →
  keepsIds out (endpointRequests mcgTarget host) ∧
  ∃ eps', newEndpoints mcgTarget out listener = Ok eps' ∧ publishedEndpoints probes gw l eps' = Some out.
Proof.
  intros Hpre Hk He Hout. pose proof (published_sublist _ _ _ _ _ Hout) as Hsub.
  destruct (newEndpoints_perm _ existing _ _ Hpre) as (eps0 & He0 & Hp & _). rewrite He in He0. injection He0 as <-.
  assert (NoDup (SetID <$> out)) as Hnd.
  { eapply sublist_NoDup; [|by apply fmap_sublist]. rewrite Hp, requested_SetIDs by done. apply Hpre. }
  pose proof (kept_ids_out _ _ _ _ Hk (pre_ids _ _ _ Hpre) (sublist_subseteq _ _ Hsub) Hp) as Hk'.
  destruct (newEndpoints_aligned _ existing out _ _ _ Hpre Hk Hk' He) as (rs & Hrs & -> & Hnew).
  split; [done|]. eexists. split; [exact Hnew|].
  pose (R e e' := ∃ r, r ∈ rs ∧ e = requestedEndpoint existing r ∧ e' = requestedEndpoint out r).
  assert (Forall2 R (requestedEndpoint existing <$> rs) (requestedEndpoint out <$> rs)) as Hrel.
  { apply Forall2_fmap, Forall_Forall2_diag, Forall_forall. intros r Hr. by exists r. }
  apply (related_published R) with (probes := probes) (gw := gw) (l := l) in Hrel.
  2: { intros e e' (r & _ & -> & ->). apply requested_name_targets. }
  rewrite Hout in Hrel. inversion Hrel as [? out' Hall E1 E2|]; subst. f_equal.
  symmetry. apply (Forall2_same_elements R); [done|]. intros e e' Hin (r & Hr & -> & ->). symmetry.
  apply requested_again, find_unique; [done..|]. eapply requested_SetID; [done|]. by rewrite <- Hrs.
Qed.

(** ** Chains of names *)

Lemma elem_of_geoRequests lbName geo r :
  r ∈ geoRequests lbName geo ↔
  active lbName geo ∧
  ((∃ t, t ∈ geo.2 ∧ r ∈ clusterRequests lbName geo.1 t) ∨
   (geo.1 ≠ DefaultGeo ∧ r = geoLbRequest lbName geo.1)).
Proof.
  unfold geoRequests, active. destruct (geo.2 ≫= _) as [|x xs] eqn:E.
  { rewrite elem_of_nil. naive_solver. }
  rewrite elem_of_app, <- E, list_elem_of_bind.
  assert (geo.2 ≫= clusterRequests lbName geo.1 ≠ []) as Hne by (by rewrite E). clear E.
  case_decide; rewrite ?elem_of_nil, ?list_elem_of_singleton; split.
  - intros [(t & ? & ?)|[]]. split; [done|]. left. by exists t.
  - intros [_ [(t & ? & ?)|[? _]]]; [|done]. left. by exists t.
  - intros [(t & ? & ?)| ->]; (split; [done|]); [left; by exists t|by right].
  - intros [_ [(t & ? & ?)|[_ ->]]]; [left; by exists t|by right].
Qed.

Lemma elem_of_clusterRequests lbName geo t r :
  r ∈ clusterRequests lbName geo t ↔
  (ipValuesOf t ≠ [] ∧ r = mkRequested (clusterLbNameOf lbName t) (ipValuesOf t) ARecordType "" DefaultTTL None) ∨
  ∃ target, target ∈ clusterHosts lbName t ∧ r = weightedRequest (geoLbNameOf lbName geo) (cgtWeight t) target.
Proof.
  unfold clusterRequests, addressRequest. rewrite elem_of_app, list_elem_of_fmap.
  destruct (ipValuesOf t); rewrite ?elem_of_nil, ?list_elem_of_singleton; naive_solver.
Qed.

Lemma elem_of_clusterHosts lbName t target :
  target ∈ clusterHosts lbName t ↔
  target ∈ hostValuesOf t ∨ (ipValuesOf t ≠ [] ∧ target = clusterLbNameOf lbName t).
Proof.
  unfold clusterHosts. rewrite elem_of_app.
  destruct (ipValuesOf t); rewrite ?elem_of_nil, ?list_elem_of_singleton; naive_solver.
Qed.

(** An active geo has a cluster its name points to. *)
Lemma active_target lbName geo :
  active lbName geo → ∃ t target, t ∈ geo.2 ∧ target ∈ clusterHosts lbName t.
Proof.
  unfold active. intros Hact. destruct (geo.2 ≫= _) as [|r rs] eqn:E; [done|].
  assert (r ∈ geo.2 ≫= clusterRequests lbName geo.1) as (t & Hr & Ht)%list_elem_of_bind.
  { rewrite E. apply list_elem_of_here. }
  exists t. apply elem_of_clusterRequests in Hr as [[Hip _]|(target & Htarget & _)].
  - exists (clusterLbNameOf lbName t). split; [done|]. apply elem_of_clusterHosts. auto.
  - by exists target.
Qed.

Lemma cluster_active lbName geo ts t target :
  t ∈ ts → target ∈ clusterHosts lbName t → active lbName (geo, ts).
Proof.
  intros Ht Htarget Hnil. simpl in Hnil.
  assert (weightedRequest (geoLbNameOf lbName geo) (cgtWeight t) target ∈ ts ≫= clusterRequests lbName geo) as Hin.
  { apply list_elem_of_bind. exists t. split; [|done]. apply elem_of_clusterRequests. eauto. }
  rewrite Hnil in Hin. by apply not_elem_of_nil in Hin.
Qed.

Lemma chosen_active lbName defaultGeo geos chosen g :
  foldl (chooseDefault lbName defaultGeo) chosen geos = Some g →
  chosen = Some g ∨ ∃ ts, (g, ts) ∈ geos ∧ active lbName (g, ts).
Proof.
  revert chosen. induction geos as [|[g' ts'] geos IH]; intros chosen; simpl; [by auto|].
  intros [Hc|(ts & Hin & Hact)]%IH; [|right; exists ts; set_solver].
  unfold chooseDefault in Hc. simpl in Hc. destruct (ts' ≫= _) eqn:E; [by auto|].
  case_decide; simplify_eq; [|by auto]. right. exists ts'. split; [apply list_elem_of_here|].
  unfold active. simpl. by rewrite E.
Qed.

(** Some endpoint of [eps] answers for [name] with [target]. *)
Definition pointsTo (eps : list Endpoint) (name target : string) : Prop :=
  ∃ e, e ∈ eps ∧ DNSName e = name ∧ target ∈ Targets e.

(** The same, with a property. *)
Definition pointsToWith (eps : list Endpoint) (name target key value : string) : Prop :=
  ∃ e, e ∈ eps ∧ DNSName e = name ∧ target ∈ Targets e ∧ GetProviderSpecific e key = Some value.

Definition asks (rs : list Requested) (name target : string) : Prop :=
  ∃ r, r ∈ rs ∧ rqName r = name ∧ target ∈ rqTargets r.

Lemma requested_fields existing r :
  DNSName (requestedEndpoint existing r) = rqName r ∧ Targets (requestedEndpoint existing r) = rqTargets r ∧
  RecordType (requestedEndpoint existing r) = rqType r.
Proof.
  unfold requestedEndpoint.
  by destruct (withProperty_fields (rqProperty r) (requestedBase existing r)) as (-> & -> & -> & _).
Qed.

Lemma asks_pointsTo existing eps rs name target :
  eps ≡ₚ requestedEndpoint existing <$> rs → asks rs name target → pointsTo eps name target.
Proof.
  intros Hp (r & Hr & Hn & Ht). exists (requestedEndpoint existing r).
  destruct (requested_fields existing r) as (-> & -> & _). split; [|done]. rewrite Hp. by apply list_elem_of_fmap_2.
Qed.

Lemma requested_property existing eps rs r k v target :
  eps ≡ₚ requestedEndpoint existing <$> rs → r ∈ rs → rqProperty r = Some (k, v) → target ∈ rqTargets r →
  pointsToWith eps (rqName r) target k v.
Proof.
  intros Hp Hr Hv Ht. exists (requestedEndpoint existing r).
  destruct (requested_fields existing r) as (-> & -> & _). split_and!; try done.
  - rewrite Hp. by apply list_elem_of_fmap_2.
  - unfold requestedEndpoint, GetProviderSpecific. rewrite Hv. simpl.
    by rewrite find_property_map, set_property_map, lookup_insert_eq.
Qed.

(** The cluster's group, and its requests among all. *)
Lemma target_in_group `{MapRange} mcgTarget t :
  t ∈ ClusterGatewayTargets mcgTarget →
  ∃ ts, (cgtGeo t, ts) ∈ range_map (GroupTargetsByGeo mcgTarget) ∧ t ∈ ts ∧
    GroupTargetsByGeo mcgTarget !! cgtGeo t = Some ts.
Proof.
  intros Ht. assert (t ∈ filter (λ t', cgtGeo t' = cgtGeo t) (ClusterGatewayTargets mcgTarget)) as Hin.
  { by apply list_elem_of_filter. }
  exists (filter (λ t', cgtGeo t' = cgtGeo t) (ClusterGatewayTargets mcgTarget)).
  rewrite range_map_perm, elem_of_map_to_list.
  assert (GroupTargetsByGeo mcgTarget !! cgtGeo t =
    Some (filter (λ t', cgtGeo t' = cgtGeo t) (ClusterGatewayTargets mcgTarget))) as ->; [|done].
  unfold GroupTargetsByGeo. rewrite group_by_geo_lookup.
  destruct (filter _ _); [by apply not_elem_of_nil in Hin|done].
Qed.

Lemma cluster_request_in `{MapRange} mcgTarget host t target r :
  t ∈ ClusterGatewayTargets mcgTarget →
  target ∈ clusterHosts (lbNameSpec mcgTarget host) t →
  r ∈ clusterRequests (lbNameSpec mcgTarget host) (cgtGeo t) t →
  r ∈ endpointRequests mcgTarget host.
Proof.
  intros Ht Htarget Hr. destruct (target_in_group mcgTarget t Ht) as (ts & Hts & Hin & _).
  unfold endpointRequests, requests. apply elem_of_app. left. apply list_elem_of_bind.
  exists (cgtGeo t, ts). split; [|done]. apply elem_of_geoRequests.
  split; [by eapply cluster_active|]. left. by exists t.
Qed.

(** The listener's host leads to the geo name of every cluster with an
    address. *)
Lemma host_to_geo `{MapRange} mcgTarget host t target :
  Forall (λ t, cgtGeo t = DefaultGeo → cgtGeo t = GetDefaultGeo mcgTarget) (ClusterGatewayTargets mcgTarget) →
  t ∈ ClusterGatewayTargets mcgTarget → target ∈ clusterHosts (lbNameSpec mcgTarget host) t →
  asks (endpointRequests mcgTarget host) host (lbNameSpec mcgTarget host) ∧
  asks (endpointRequests mcgTarget host) (lbNameSpec mcgTarget host)
    (geoLbNameOf (lbNameSpec mcgTarget host) (cgtGeo t)).
Proof.
  intros Hmix Ht Htarget. destruct (target_in_group mcgTarget t Ht) as (ts & Hts & Hin & Hgroup).
  set (lb := lbNameSpec mcgTarget host) in *.
  assert (active lb (cgtGeo t, ts)) as Hact by (by eapply cluster_active).
  unfold endpointRequests, requests. fold lb. set (geos := range_map (GroupTargetsByGeo mcgTarget)) in *.
  destruct (foldl (chooseDefault lb (GetDefaultGeo mcgTarget)) None geos) as [g|] eqn:Hch.
  2: { apply chosen_requests in Hch as [_ Hnil]. exfalso.
       assert (weightedRequest (geoLbNameOf lb (cgtGeo t)) (cgtWeight t) target ∈ geos ≫= geoRequests lb) as Hr.
       { apply list_elem_of_bind. exists (cgtGeo t, ts). split; [|done]. apply elem_of_geoRequests.
         split; [done|]. left. exists t. split; [done|]. apply elem_of_clusterRequests. eauto. }
       rewrite Hnil in Hr. by apply not_elem_of_nil in Hr. }
  split.
  - exists (hostRequest lb host). split; [|split; [done|apply list_elem_of_here]]. simpl. set_solver.
  - destruct (decide (cgtGeo t = DefaultGeo)) as [Hd|Hd].
    + rewrite Forall_forall in Hmix. pose proof (Hmix t Ht Hd) as Hg.
      assert (defaultServed mcgTarget host) as Hs.
      { split; [|by apply Forall_forall]. exists ts. by rewrite <- Hg. }
      apply (chosen_served mcgTarget host) in Hs. fold lb geos in Hs. rewrite Hch in Hs. simplify_eq.
      exists (defaultRequest lb (GetDefaultGeo mcgTarget)). rewrite Hg.
      split; [simpl; set_solver|]. split; [done|apply list_elem_of_here].
    + exists (geoLbRequest lb (cgtGeo t)). split; [|split; [done|apply list_elem_of_here]].
      apply elem_of_app. left. apply list_elem_of_bind. exists (cgtGeo t, ts). split; [|done].
      apply elem_of_geoRequests. naive_solver.
Qed.

(** Every address of every cluster is served: the listener's host points
    to the load balancer name, that to the geo name of the cluster, that, with
    the cluster's weight, to the host address or to the cluster's own name,
    which holds the IP address. *)
Theorem endpoints_reach_clusters `{MapRange} `{SortSlice} mcgTarget existing listener host eps t a :
  EndpointsPre mcgTarget listener host →
  Forall (λ t, cgtGeo t = DefaultGeo → cgtGeo t = GetDefaultGeo mcgTarget) (ClusterGatewayTargets mcgTarget) →
  newEndpoints mcgTarget existing listener = Ok eps →
  t ∈ ClusterGatewayTargets mcgTarget → a ∈ GatewayAddresses (cgtGateway t) →
  let lb := lbNameSpec mcgTarget host in
  let weighted target :=
    pointsToWith eps (geoLbNameOf lb (cgtGeo t)) target "weight" (strconv.Itoa (cgtWeight t)) in
  pointsTo eps host lb ∧ pointsTo eps lb (geoLbNameOf lb (cgtGeo t)) ∧
  if decide (isIP a)
  then weighted (clusterLbNameOf lb t) ∧ pointsTo eps (clusterLbNameOf lb t) (aValue a)
  else weighted (aValue a).
Proof.
  intros Hpre Hmix He Ht Ha lb weighted. destruct (newEndpoints_perm _ existing _ _ Hpre) as (eps' & He' & Hp & _).
  rewrite He in He'. simplify_eq. rename eps' into eps.
  assert (∀ target, target ∈ clusterHosts lb t → pointsTo eps host lb ∧ pointsTo eps lb (geoLbNameOf lb (cgtGeo t))) as Hgeo.
  { intros target Htarget. destruct (host_to_geo mcgTarget host t target Hmix Ht Htarget). eauto using asks_pointsTo. }
  assert (∀ target, target ∈ clusterHosts lb t → weighted target) as Hweighted.
  { intros target Htarget. eapply (requested_property existing eps _
      (weightedRequest (geoLbNameOf lb (cgtGeo t)) (cgtWeight t) target)); [done| |done|apply list_elem_of_here].
    eapply cluster_request_in; [done..|]. apply elem_of_clusterRequests. eauto. }
  assert (aValue a ∈ if decide (isIP a) then ipValuesOf t else hostValuesOf t) as Hval.
  { unfold ipValuesOf, hostValuesOf. case_decide; apply list_elem_of_fmap_2, list_elem_of_filter; done. }
  case_decide.
  - assert (ipValuesOf t ≠ []) as Hne by (intros E; rewrite E in Hval; by apply not_elem_of_nil in Hval).
    assert (clusterLbNameOf lb t ∈ clusterHosts lb t) as Htarget by (apply elem_of_clusterHosts; auto).
    destruct (Hgeo _ Htarget). split_and!; [done..|by apply Hweighted|].
    eapply asks_pointsTo; [done|].
    exists (mkRequested (clusterLbNameOf lb t) (ipValuesOf t) ARecordType "" DefaultTTL None).
    split; [|by split].
    eapply cluster_request_in; [done..|]. apply elem_of_clusterRequests. eauto.
  - assert (aValue a ∈ clusterHosts lb t) as Htarget by (apply elem_of_clusterHosts; auto).
    destruct (Hgeo _ Htarget). auto.
Qed.

(** The name of an active geo is asked for. *)
Lemma geo_name_asked `{MapRange} mcgTarget host g ts :
  let lb := lbNameSpec mcgTarget host in
  (g, ts) ∈ range_map (GroupTargetsByGeo mcgTarget) → active lb (g, ts) →
  ∃ r, r ∈ endpointRequests mcgTarget host ∧ rqName r = geoLbNameOf lb g.
Proof.
  intros lb Hts Hact. destruct (active_target _ _ Hact) as (t & x & Ht & Hx).
  exists (weightedRequest (geoLbNameOf lb g) (cgtWeight t) x). split; [|done].
  apply elem_of_app. left. apply list_elem_of_bind. exists (g, ts). split; [|done].
  apply elem_of_geoRequests. split; [done|]. left. exists t. split; [done|]. apply elem_of_clusterRequests. eauto.
Qed.

(** The values come from addresses of the cluster of the right kind. *)
Lemma ip_value t x : x ∈ ipValuesOf t → ∃ a, a ∈ GatewayAddresses (cgtGateway t) ∧ isIP a ∧ x = aValue a.
Proof. intros Hx. apply list_elem_of_fmap in Hx as (a & -> & [? Ha]%list_elem_of_filter). by exists a. Qed.

Lemma host_value t x : x ∈ hostValuesOf t → ∃ a, a ∈ GatewayAddresses (cgtGateway t) ∧ ¬ isIP a ∧ x = aValue a.
Proof. intros Hx. apply list_elem_of_fmap in Hx as (a & -> & [? Ha]%list_elem_of_filter). by exists a. Qed.

(** An address record points to IP addresses of a cluster; an alias has one
    target, a host name of a cluster or a name of [names]. *)
Definition wellTyped mcgTarget (names : string → Prop) (type : string) (targets : list string) : Prop :=
  (type = ARecordType ∧ targets ≠ [] ∧ ∃ t, t ∈ ClusterGatewayTargets mcgTarget ∧
    ∀ target, target ∈ targets → ∃ a, a ∈ GatewayAddresses (cgtGateway t) ∧ isIP a ∧ target = aValue a) ∨
  (type = CNAMERecordType ∧ ∃ target, targets = [target] ∧
    ((∃ t a, t ∈ ClusterGatewayTargets mcgTarget ∧ a ∈ GatewayAddresses (cgtGateway t) ∧ ¬ isIP a ∧ target = aValue a) ∨
     names target)).

Definition askedName `{MapRange} mcgTarget host (name : string) : Prop :=
  ∃ r, r ∈ endpointRequests mcgTarget host ∧ rqName r = name.

Lemma request_well_typed `{MapRange} mcgTarget host r :
  r ∈ endpointRequests mcgTarget host → wellTyped mcgTarget (askedName mcgTarget host) (rqType r) (rqTargets r).
Proof.
  intros Hr. unfold endpointRequests, requests in Hr. set (lb := lbNameSpec mcgTarget host) in *.
  apply elem_of_app in Hr as [Hr|Hr].
  - apply list_elem_of_bind in Hr as ([g ts] & Hr & Hts). apply elem_of_geoRequests in Hr as [Hact [(t & Ht & Hr)|[_ ->]]].
    2: { right. split; [done|]. eexists. split; [done|]. right. by eapply geo_name_asked. }
    assert (t ∈ ClusterGatewayTargets mcgTarget ∧ cgtGeo t = g) as [Ht' Hg].
    { rewrite range_map_perm, elem_of_map_to_list in Hts. apply group_by_geo_Some in Hts as ->.
      by apply list_elem_of_filter in Ht as [??]. }
    simpl in Hr. apply elem_of_clusterRequests in Hr as [[Hip ->]|(x & Hx & ->)].
    { left. split_and!; [done..|]. exists t. split; [done|]. apply ip_value. }
    right. split; [done|]. exists x. split; [done|]. apply elem_of_clusterHosts in Hx as [Hx|[Hip ->]].
    { left. exists t. apply host_value in Hx as (a & ?). by exists a. }
    right. exists (mkRequested (clusterLbNameOf lb t) (ipValuesOf t) ARecordType "" DefaultTTL None).
    split; [|done]. eapply cluster_request_in; [done|by apply elem_of_clusterHosts; right|].
    apply elem_of_clusterRequests. auto.
  - destruct (foldl _ None _) as [g|] eqn:Hch; [|by apply not_elem_of_nil in Hr]. right.
    destruct (chosen_active _ _ _ _ _ Hch) as [|(ts & Hts & Hact)]; [done|]. simpl in Hr.
    apply elem_of_cons in Hr as [->|Hr%list_elem_of_singleton].
    + split; [done|]. eexists. split; [done|]. right. by eapply geo_name_asked.
    + subst r. split; [done|]. eexists. split; [done|]. right. exists (defaultRequest lb g). split; [|done].
      unfold endpointRequests, requests. fold lb. rewrite Hch. apply elem_of_app. right. apply list_elem_of_here.
Qed.

(** No name that is asked for is empty. *)
Lemma request_named `{MapRange} mcgTarget host r :
  host ≠ "" → r ∈ endpointRequests mcgTarget host → rqName r ≠ "".
Proof.
  intros Hhost Hr Hname.
  assert (∀ x y, strings.ToLower (x +:+ String y "" +:+ lbNameSpec mcgTarget host) ≠ "") as Hdot.
  { intros x y Hx. apply (f_equal String.length) in Hx. rewrite ToLower_length, !slength_app in Hx. simpl in Hx. lia. }
  assert (lbNameSpec mcgTarget host ≠ "") as Hlb.
  { intros Hx. apply (f_equal String.length) in Hx. unfold lbNameSpec in Hx.
    rewrite ToLower_length, !slength_app in Hx. simpl in Hx. lia. }
  unfold endpointRequests, requests in Hr. apply elem_of_app in Hr as [Hr|Hr].
  - apply list_elem_of_bind in Hr as ([g ts] & Hr & _). apply elem_of_geoRequests in Hr as [_ [(t & _ & Hr)|[_ ->]]]; [|done].
    simpl in Hr. apply elem_of_clusterRequests in Hr as [[_ ->]|(x & _ & ->)]; by eapply Hdot, Hname.
  - destruct (foldl _ None _); [|by apply not_elem_of_nil in Hr].
    apply elem_of_cons in Hr as [->|Hr%list_elem_of_singleton]; [done|]. by subst r.
Qed.

(** C12: every endpoint is well-formed and none points nowhere: an address record
    has IP addresses of one cluster as its targets, at least one; an alias has
    exactly one target, a host name of one of the clusters or the name of an
    endpoint of the list. *)
Theorem endpoints_well_typed `{MapRange} `{SortSlice} mcgTarget existing listener host eps :
  EndpointsPre mcgTarget listener host →
  newEndpoints mcgTarget existing listener = Ok eps →
  Forall (λ e, wellTyped mcgTarget (λ name, ∃ child, child ∈ eps ∧ DNSName child = name) (RecordType e) (Targets e)) eps.
Proof.
  intros Hpre He. destruct (newEndpoints_perm _ existing _ _ Hpre) as (eps' & He' & Hp & _).
  rewrite He in He'. simplify_eq. apply Forall_forall. intros e Hin. rewrite Hp in Hin.
  apply list_elem_of_fmap in Hin as (r & -> & Hr). apply request_well_typed in Hr.
  destruct (requested_fields existing r) as (_ & Hts & Hty). rewrite Hts, Hty. destruct Hr as [?|(Ht & target & Htarget & Hcase)]; [by left|].
  right. split; [done|]. exists target. split; [done|]. destruct Hcase as [?|(r' & Hr' & <-)]; [by left|]. right.
  exists (requestedEndpoint existing r'). destruct (requested_fields existing r') as (-> & _).
  split; [|done]. rewrite Hp. by apply list_elem_of_fmap_2.
Qed.

End props.

(** ** Examples and witnesses *)

(** Selectors that match nothing, and a stand-in for the hash that pads the
    name to six letters. *)
#[local] Instance exampleEnv : TargetEnv :=
  {| LabelSelectorAsSelector := λ _, Ok (λ _, false); base36sum224 := λ s, s +:+ "000000" |}.
#[local] Existing Instance range_in_key_order.
#[local] Existing Instance sort_by_merging.

Definition exampleCluster (name : string) (geo : string) (addrs : list GatewayAddress) (w : Z)
  : ClusterGatewayTarget :=
  mkCGT (mkClusterGateway (newObjectMeta name name) addrs) geo w.

Definition ipAddress (v : string) : GatewayAddress := mkAddress (Some IPAddressType) v.
Definition hostAddress (v : string) : GatewayAddress := mkAddress (Some HostnameAddressType) v.

Definition exampleTarget : MultiClusterGatewayTarget :=
  mkMCGT (mkGateway (newObjectMeta "prod" "infra") "mgc" [] emptyGatewayStatus)
    [exampleCluster "east" "IE" [ipAddress "10.0.0.1"; ipAddress "10.0.0.2"] 120;
     exampleCluster "west" "US" [hostAddress "elb.example.net"] 60]
    (Some (mkLoadBalancing None (Some "IE"))).

Definition exampleListener : Listener := mkListener "api" (Some "shop.example.com") 443 "HTTPS" None.

(** The record already has the endpoint of the cluster "east", with a health
    check id. *)
Definition exampleExisting : list Endpoint :=
  [mkEndpoint "eastxx.old.example.com" ["10.9.9.9"] "A" "" 60 ∅ [];
   mkEndpoint "lb-prod-i.shop.example.com" ["us.lb-prod-i.shop.example.com"] "CNAME" "default" 300 ∅
     [mkProperty "geo-code" "*"; mkProperty "aws/health-check-id" "hc-1"]].

Definition exampleResult : list Endpoint :=
     [mkEndpoint "east00.lb-prod-i.shop.example.com" ["10.0.0.1"; "10.0.0.2"] "A" "" 60 ∅ [];
      mkEndpoint "ie.lb-prod-i.shop.example.com" ["east00.lb-prod-i.shop.example.com"] "CNAME"
        "east00.lb-prod-i.shop.example.com" 60 ∅ [mkProperty "weight" "120"];
      mkEndpoint "lb-prod-i.shop.example.com" ["ie.lb-prod-i.shop.example.com"] "CNAME" "IE" 300 ∅
        [mkProperty "geo-code" "IE"];
      mkEndpoint "lb-prod-i.shop.example.com" ["us.lb-prod-i.shop.example.com"] "CNAME" "US" 300 ∅
        [mkProperty "geo-code" "US"];
      mkEndpoint "lb-prod-i.shop.example.com" ["ie.lb-prod-i.shop.example.com"] "CNAME" "default" 300 ∅
        [mkProperty "geo-code" "*"; mkProperty "aws/health-check-id" "hc-1"];
      mkEndpoint "shop.example.com" ["lb-prod-i.shop.example.com"] "CNAME" "" 300 ∅ [];
      mkEndpoint "us.lb-prod-i.shop.example.com" ["elb.example.net"] "CNAME" "elb.example.net" 60 ∅
        [mkProperty "weight" "60"]].

Example exampleEndpoints :
  newEndpoints exampleTarget exampleExisting exampleListener = Ok exampleResult.
Proof. vm_compute. reflexivity. Qed.

Lemma examplePre : EndpointsPre exampleTarget exampleListener "shop.example.com".
Proof.
  split.
  - reflexivity.
  - intros s. simpl. rewrite slength_app. simpl. lia.
  - repeat constructor; eexists; reflexivity.
  - apply (bool_decide_unpack _). vm_compute. exact I.
Qed.

Lemma exampleServed : defaultServed exampleTarget "shop.example.com".
Proof.
  split.
  - eexists. split; [vm_compute; reflexivity|]. vm_compute. discriminate.
  - repeat constructor; vm_compute; discriminate.
Qed.

Lemma endpoints_refine_requests_witness :
  ∃ eps, newEndpoints exampleTarget exampleExisting exampleListener = Ok eps ∧
    Sorted (λ a b, String.le (SetID a) (SetID b)) eps.
Proof.
  destruct (endpoints_refine_requests exampleTarget exampleExisting exampleListener "shop.example.com" examplePre)
    as (eps & He & Hs & _).
  exists eps. split; [exact He|exact Hs].
Defined.

(** The geos in the opposite order. *)
Definition range_reversed : MapRange :=
  {| range_map := λ V m, reverse (map_to_list m);
     range_map_perm := λ V m, reverse_Permutation (map_to_list m) |}.

Lemma endpoints_order_independent_witness :
  @newEndpoints _ range_in_key_order sort_by_merging exampleTarget exampleExisting exampleListener =
  @newEndpoints _ range_reversed sort_by_merging exampleTarget exampleExisting exampleListener.
Proof.
  apply (endpoints_order_independent range_in_key_order range_reversed sort_by_merging sort_by_merging
           exampleTarget exampleExisting exampleListener "shop.example.com").
  - exact examplePre.
  - exact exampleServed.
  - apply keepsIds_check. vm_compute. reflexivity.
Defined.

Lemma endpoints_stable_witness : newEndpoints exampleTarget exampleResult exampleListener = Ok exampleResult.
Proof.
  apply (endpoints_stable exampleTarget exampleExisting exampleListener "shop.example.com").
  - exact examplePre.
  - apply keepsIds_check. vm_compute. reflexivity.
  - exact exampleEndpoints.
Defined.

Lemma endpoints_reach_clusters_witness :
  pointsToWith exampleResult "us.lb-prod-i.shop.example.com" "elb.example.net" "weight" "60".
Proof.
  refine (proj2 (proj2 (endpoints_reach_clusters exampleTarget exampleExisting exampleListener
    "shop.example.com" exampleResult (exampleCluster "west" "US" [hostAddress "elb.example.net"] 60)
    (hostAddress "elb.example.net") examplePre _ exampleEndpoints _ _))).
  - repeat constructor; vm_compute; discriminate.
  - right. left.
  - left.
Defined.

Lemma endpoints_well_typed_witness :
  Forall (λ e, wellTyped exampleTarget (λ name, ∃ child, child ∈ exampleResult ∧ DNSName child = name)
    (RecordType e) (Targets e)) exampleResult.
Proof.
  exact (endpoints_well_typed exampleTarget exampleExisting exampleListener "shop.example.com" exampleResult
    examplePre exampleEndpoints).
Defined.

(** No cluster in the default geo: which geo answers for the rest of the world
    is decided by the order in which Go ranges over the map. *)
Definition noDefaultCluster : MultiClusterGatewayTarget :=
  mkMCGT (mcgGateway exampleTarget) (ClusterGatewayTargets exampleTarget)
    (Some (mkLoadBalancing None (Some "FR"))).

Definition worldTarget (r : res (list Endpoint)) : list string :=
  match r with
  | Ok eps => e ← filter (λ e, SetIdentifier e = "default") eps; Targets e
  | _ => []
  end.

Example default_geo_by_map_order :
  worldTarget (@newEndpoints _ range_in_key_order _ noDefaultCluster [] exampleListener) ≠
  worldTarget (@newEndpoints _ range_reversed _ noDefaultCluster [] exampleListener).
Proof. vm_compute. discriminate. Qed.

(** Two clusters of one geo behind the same host name: two endpoints with one id,
    which differ in their weight. *)
Definition sharedHost : MultiClusterGatewayTarget :=
  mkMCGT (mcgGateway exampleTarget)
    [exampleCluster "east" "IE" [hostAddress "elb.example.net"] 120;
     exampleCluster "west" "IE" [hostAddress "elb.example.net"] 60]
    (Some (mkLoadBalancing None (Some "IE"))).

Example shared_host_same_id :
  match newEndpoints sharedHost [] exampleListener with
  | Ok (a :: b :: _) => SetID a = SetID b ∧ ProviderSpecific a = [mkProperty "weight" "120"] ∧
                        ProviderSpecific b = [mkProperty "weight" "60"]
  | _ => False
  end.
Proof. vm_compute. done. Qed.
