(* ===== verification/DnsHelper.v ===== *)
(** * The DNS records of a gateway

    pkg/controllers/dnspolicy/dns_helper.go (the operations that talk to the
    API server) and dnspolicy_dnsrecords.go. *)

From S2P Require Import Prelude GoStrings Slice Kube ApiTypes GatewayApi Target Placer Zones EndpointHealth Endpoints MemApi EndpointProps.
Local Open Scope go_scope.

(** ** Constants *)

Definition LabelGatewayReference : string := "kuadrant.io/gateway".
Definition LabelGatewayNSRef : string := "kuadrant.io/gateway-namespace".
Definition LabelListenerReference : string := "kuadrant.io/listener-name".
Definition DNSPolicyBackRefAnnotation : string := "kuadrant.io/dnspolicy".

(** ** Interfaces *)

(** reconcilers.TargetRefReconciler (kuadrant-operator): deleting an object. *)
Class DeleteOps (W O : Type) := {
  DeleteResource : O → M W unit
}.

(** reconcilers.GatewayDiff (kuadrant-operator) *)
Record GatewayDiff := mkGatewayDiff {
  GatewaysMissingPolicyRef : list Gateway;
  GatewaysWithValidPolicyRef : list Gateway;
  GatewaysWithInvalidPolicyRef : list Gateway
}.

(** ** Labels *)

Definition commonDNSRecordLabels (gwKey apKey : ObjectKey) : StringMap :=
  <[DNSPolicyBackRefAnnotation := apKey.2]>
  (<[DNSPolicyBackRefAnnotation +:+ "-namespace" := apKey.1]>
  (<[LabelGatewayNSRef := gwKey.1]>
  {[LabelGatewayReference := gwKey.2]})).

Definition buildDNSRecordForListener (gateway : Gateway) (dnsPolicy : DNSPolicy) (targetListener : Listener)
  (managedZone : ManagedZone) : DNSRecord :=
  let labels := commonDNSRecordLabels (objectKey (gwMeta gateway)) (objectKey (polMeta dnsPolicy)) in
  mkDNSRecord
    (set_Labels (<[LabelListenerReference := lName targetListener]> labels)
       (newObjectMeta (dnsRecordName (Name (gwMeta gateway)) (lName targetListener))
          (Namespace (zMeta managedZone))))
    (mkDNSRecordSpec (Some (Name (zMeta managedZone))) [])
    emptyDNSRecordStatus.

(** [withGatewayListener] on the metadata of an object *)
Definition withGatewayListener (gateway : Gateway) (listener : Listener) (obj : ObjectMeta) : ObjectMeta :=
  set_Annotations
    (<["dnsrecord-namespace" := Namespace (gwMeta gateway)]>
     (<["dnsrecord-name" := Name (gwMeta gateway) +:+ "-" +:+ lName listener]> (Annotations obj))) obj.

Definition set_recMeta (m : ObjectMeta) (r : DNSRecord) : DNSRecord := mkDNSRecord m (recSpec r) (recStatus r).

Definition set_Endpoints (eps : list Endpoint) (r : DNSRecord) : DNSRecord :=
  mkDNSRecord (recMeta r) (mkDNSRecordSpec (ManagedZoneRef (recSpec r)) eps) (recStatus r).

Section dnsHelper.

Context {W : Type} `{Client W DNSRecord} `{Client W ManagedZone} `{Client W DNSHealthCheckProbe}.
Context `{TargetEnv} `{MapRange} `{SetRange} `{SortSlice} `{PublicSuffixList} `{OwnerOps} `{GatewayPlacer W} `{DeleteOps W DNSRecord}.

(** ** dnsHelper *)

Definition getDNSRecordForListener (listener : Listener) (owner : ObjectMeta) : M W DNSRecord :=
  clGet (Namespace owner, dnsRecordName (Name owner) (lName listener)).

Definition getDNSHealthCheckProbes (gateway : Gateway) (dnsPolicy : DNSPolicy)
  : M W (list DNSHealthCheckProbe) :=
  let! items := clList (mkListOptions (Namespace (polMeta dnsPolicy))
                  (commonDNSRecordLabels (objectKey (gwMeta gateway)) (objectKey (polMeta dnsPolicy)))) in
  lift (slice.MapErr items (λ obj, Ok obj)).

(** The whole of setEndpoints: build, drop what fails its probes, and update
    the record if its endpoints changed.  [publishedEndpoints] is never [None]
    ([published_cleanup]). *)
Definition setEndpoints (mcgTarget : MultiClusterGatewayTarget) (dnsRecord : DNSRecord)
  (dnsPolicy : DNSPolicy) (listener : Listener) : M W unit :=
  let! eps := lift (newEndpoints mcgTarget (Endpoints (recSpec dnsRecord)) listener) in
  let! probes := getDNSHealthCheckProbes (mcgGateway mcgTarget) dnsPolicy in
  match publishedEndpoints probes (Name (gwMeta (mcgGateway mcgTarget))) (lName listener) eps with
  | None => panic
  | Some published =>
      let updated := set_Endpoints published dnsRecord in
      if bool_decide (updated = dnsRecord) then ret tt
      else do! clUpdate updated in ret tt
  end.

Definition listenerExists (gateway : Gateway) (r : DNSRecord) : bool :=
  existsb (λ l, bool_decide (lName l = default "" (Labels (recMeta r) !! LabelListenerReference)))
    (Listeners gateway).

Definition removeDNSForDeletedListeners (upstreamGateway : Gateway) : M W unit :=
  let! items := clList (mkListOptions (Namespace (gwMeta upstreamGateway))
                  {[LabelGatewayReference := Name (gwMeta upstreamGateway)]}) in
  forEach items (deleteIf true (λ dns, negb (listenerExists upstreamGateway dns))).

Definition getManagedZoneForListener (ns : string) (listener : Listener) : M W ManagedZone :=
  let! managedZones := clList (mkListOptions ns ∅) in
  match Hostname listener with
  | None => panic
  | Some host =>
      let! (mz, _) := lift (findMatchingManagedZone host host managedZones) in
      ret mz
  end.

Definition createDNSRecordForListener (gateway : Gateway) (dnsPolicy : DNSPolicy) (mz : ManagedZone)
  (listener : Listener) : M W DNSRecord :=
  let dnsRecord := buildDNSRecordForListener gateway dnsPolicy listener mz in
  let! meta := lift (SetControllerReference (zMeta mz) (recMeta dnsRecord)) in
  let dnsRecord := set_recMeta meta dnsRecord in
  let! r := try (clCreate dnsRecord) in
  match r with
  | inl created => ret created
  | inr err => if IsAlreadyExists err then clGet (objectKey meta) else fail err
  end.

Definition deleteDNSRecordForListener (owner : ObjectMeta) (listener : Listener) : M W unit :=
  clDelete (mkDNSRecord (newObjectMeta (dnsRecordName (Name owner) (lName listener)) (Namespace owner))
              (mkDNSRecordSpec None []) emptyDNSRecordStatus).

(** ** dnspolicy_dnsrecords.go *)

(** The clusters that serve a listener: those with attached routes. A failed
    count is logged and skipped, a failed lookup ends the reconciliation. *)
Fixpoint listenerClusterGateways (gateway : Gateway) (listener : Listener) (clusters : list string)
  (clusterGateways : list ClusterGateway) : M W (list ClusterGateway) :=
  match clusters with
  | [] => ret clusterGateways
  | downstreamCluster :: rest =>
      let! attached := try (ListenerTotalAttachedRoutes gateway (lName listener) downstreamCluster) in
      match attached with
      | inr _ => listenerClusterGateways gateway listener rest clusterGateways
      | inl attached =>
          if bool_decide (attached = 0%Z) then listenerClusterGateways gateway listener rest clusterGateways
          else
            let! cg := try (GetClusterGateway gateway downstreamCluster) in
            match cg with
            | inr err => fail (ErrText ("get cluster gateway failed: " +:+ error_text err))
            | inl cg => listenerClusterGateways gateway listener rest (clusterGateways ++ [cg])
            end
      end
  end.

(** One listener; [false] is the [return nil] that ends the loop. *)
Definition reconcileListenerDNS (gateway : Gateway) (dnsPolicy : DNSPolicy) (clusters : list string)
  (listener : Listener) : M W bool :=
  let! mz := getManagedZoneForListener (Namespace (gwMeta gateway)) listener in
  match Hostname listener with
  | None => panic
  | Some listenerHost =>
      if bool_decide (listenerHost = "") then ret true
      else
        let! clusterGateways := listenerClusterGateways gateway listener clusters [] in
        match clusterGateways with
        | [] =>
            let! r := try (IgnoreNotFound (deleteDNSRecordForListener (gwMeta gateway) listener)) in
            match r with
            | inr err => fail (ErrText ("failed to delete dns record for listener " +:+ lName listener
                                        +:+ " : " +:+ error_text err))
            | inl _ => ret false
            end
        | _ =>
            let! created := try (createDNSRecordForListener gateway dnsPolicy mz listener) in
            let! dnsRecord :=
              match created with
              | inl dnsRecord => ret dnsRecord
              | inr err =>
                  if IsAlreadyExists err then
                    let! r := try (getDNSRecordForListener listener (gwMeta gateway)) in
                    match r with
                    | inl dnsRecord => ret dnsRecord
                    | inr err => fail (ErrText ("failed to get dns record for host " +:+ lName listener
                                                +:+ " : " +:+ error_text err +:+ " "))
                    end
                  else fail (ErrText ("failed to create dns record for listener host " +:+ listenerHost
                                      +:+ " : " +:+ error_text err +:+ " "))
              end in
            let! mcgTarget :=
              match NewMultiClusterGatewayTarget gateway clusterGateways (LoadBalancing (polSpec dnsPolicy)) with
              | Err err => fail (ErrText ("failed to create multi cluster gateway target for listener "
                                          +:+ lName listener +:+ " : " +:+ error_text err +:+ " "))
              | r => lift r
              end in
            let! r := try (setEndpoints mcgTarget dnsRecord dnsPolicy listener) in
            match r with
            (* the printed form of mcgTarget is left out of the text *)
            | inr err => fail (ErrText ("failed to add dns record dnsTargets " +:+ error_text err))
            | inl _ => ret true
            end
        end
  end.

Fixpoint reconcileListenersDNS (gateway : Gateway) (dnsPolicy : DNSPolicy) (clusters : list string)
  (listeners : list Listener) : M W unit :=
  match listeners with
  | [] => ret tt
  | listener :: rest =>
      let! continue := reconcileListenerDNS gateway dnsPolicy clusters listener in
      if continue then reconcileListenersDNS gateway dnsPolicy clusters rest else ret tt
  end.

Definition reconcileGatewayDNSRecords (gateway : Gateway) (dnsPolicy : DNSPolicy) : M W unit :=
  do! removeDNSForDeletedListeners gateway in
  let! placed := GetPlacedClusters gateway in
  reconcileListenersDNS gateway dnsPolicy (UnsortedList placed) (Listeners gateway).

Definition deleteGatewayDNSRecords (gateway : Gateway) (dnsPolicy : DNSPolicy) : M W unit :=
  let! records := clList (mkListOptions ""
                    (commonDNSRecordLabels (objectKey (gwMeta gateway)) (objectKey (polMeta dnsPolicy)))) in
  forEach records (λ record, do! IgnoreNotFound (DeleteResource record) in ret tt).

Definition reconcileDNSRecords (dnsPolicy : DNSPolicy) (gwDiffObj : GatewayDiff) : M W unit :=
  do! forEach (GatewaysWithInvalidPolicyRef gwDiffObj)
        (λ gw, deleteGatewayDNSRecords gw dnsPolicy) in
  forEach (GatewaysWithValidPolicyRef gwDiffObj ++ GatewaysMissingPolicyRef gwDiffObj)
    (λ gw, reconcileGatewayDNSRecords gw dnsPolicy).

End dnsHelper.

(** ** What reconciling the records does not touch *)

Section dnsHelper_frames.

Context {W S : Type} `{Client W DNSRecord} `{Client W ManagedZone} `{Client W DNSHealthCheckProbe}.
Context `{TargetEnv} `{MapRange} `{SetRange} `{SortSlice} `{PublicSuffixList} `{OwnerOps} `{GatewayPlacer W} `{DeleteOps W DNSRecord}.
Context (f : W → S) (Hrecords : clientFrames DNSRecord f) (Hzones : clientFrames ManagedZone f).
Context (Hprobes : clientFrames DNSHealthCheckProbe f) (Hdelete : ∀ r : DNSRecord, frames f (DeleteResource r)).
Context (Hplaced : ∀ g, frames f (GetPlacedClusters g)) (Hroutes : ∀ g l c, frames f (ListenerTotalAttachedRoutes g l c)).
Context (Hcluster : ∀ g c, frames f (GetClusterGateway g c)).

Lemma listenerClusterGateways_frames g l clusters acc : frames f (listenerClusterGateways g l clusters acc).
Proof. revert acc. induction clusters; intros acc; cbn [listenerClusterGateways]; solve_frames. Qed.

Lemma reconcileListenerDNS_frames g p clusters l : frames f (reconcileListenerDNS g p clusters l).
Proof.
  pose proof (listenerClusterGateways_frames g l clusters []).
  unfold reconcileListenerDNS, getManagedZoneForListener, createDNSRecordForListener, getDNSRecordForListener,
    deleteDNSRecordForListener, setEndpoints, getDNSHealthCheckProbes. solve_frames.
Qed.

Lemma reconcileListenersDNS_frames g p clusters ls : frames f (reconcileListenersDNS g p clusters ls).
Proof.
  induction ls as [|l ls IH]; cbn [reconcileListenersDNS]; [done|].
  apply frames_bind; [apply reconcileListenerDNS_frames|]. by intros [].
Qed.

Lemma reconcileDNSRecords_frames p d : frames f (reconcileDNSRecords p d).
Proof.
  unfold reconcileDNSRecords, deleteGatewayDNSRecords, reconcileGatewayDNSRecords, removeDNSForDeletedListeners, deleteIf.
  apply frames_bind; [|intros _]; apply frames_forEach; intros g.
  - solve_frames.
  - apply frames_bind; [|intros _; apply frames_bind; [done|intros placed; apply reconcileListenersDNS_frames]].
    apply frames_bind; [eauto with frames|]. intros items. apply frames_forEach. solve_frames.
Qed.

End dnsHelper_frames.

(** ** Properties *)

Section dnsHelper_laws.

Context {W : Type} `{Client W DNSRecord} `{!ApiStore W DNSRecord} `{!ApiLaws W DNSRecord}.
Context (Hmeta : ∀ r : DNSRecord, metaOf r = recMeta r).
Implicit Types (gateway : Gateway) (record : DNSRecord).

(** The record is one of the gateway's. *)
Definition belongsTo gateway record : Prop :=
  Namespace (recMeta record) = Namespace (gwMeta gateway) ∧
  Labels (recMeta record) !! LabelGatewayReference = Some (Name (gwMeta gateway)).

Lemma belongsTo_matches gateway record :
  Namespace (gwMeta gateway) ≠ "" →
  matches (mkListOptions (Namespace (gwMeta gateway)) {[LabelGatewayReference := Name (gwMeta gateway)]})
    (recMeta record) = true ↔ belongsTo gateway record.
Proof.
  intros Hns. unfold matches, belongsTo. simpl.
  rewrite andb_true_iff, !bool_decide_eq_true, map_singleton_subseteq_l. naive_solver.
Qed.

(** C13: when removing the DNS of deleted listeners succeeds, the records of
    the gateway whose listener no longer exists are gone or being deleted, and
    every other record is as it was. *)
Theorem deleted_listeners_cleaned gateway w w' :
  Namespace (gwMeta gateway) ≠ "" →
  removeDNSForDeletedListeners gateway w = (Ok tt, w') →
  ∀ k record, objs w !! k = Some record →
    (belongsTo gateway record ∧ listenerExists gateway record = false → goneOrDeleting (objs w') k) ∧
    (¬ (belongsTo gateway record ∧ listenerExists gateway record = false) → objs w' !! k = Some record).
Proof.
  intros Hns. unfold removeDNSForDeletedListeners, bind.
  destruct (clList _ w) as [[items| |] w1] eqn:El; try done.
  apply api_list in El as [Hw Hitems]. intros [Hother Hgone]%deleteLoop_spec k record Hk.
  assert (∀ r, r ∈ items ↔ (∃ k, objs w !! k = Some r) ∧ belongsTo gateway r) as Helem.
  { intros r. rewrite Hitems, elem_of_stored, Hmeta. by rewrite belongsTo_matches. }
  assert (oKey record = k) as <- by (by eapply api_key).
  split.
  - intros [Hb Hl]. apply Hgone; [|by rewrite Hl]. apply Helem. by eauto.
  - intros Hd. rewrite Hother, Hw; [done|]. intros r [[k' Hk'] Hb]%Helem Hu Heq. apply Hd.
    assert (oKey r = k') as <- by (by eapply api_key). rewrite Heq in Hk'. simplify_eq.
    split; [done|]. by apply negb_true_iff.
Qed.

(** Deleting the records of a policy and gateway deletes all of them, and nothing
    else. *)
Lemma deleteGatewayDNSRecords_spec `{DeleteOps W DNSRecord} gateway dnsPolicy w w' :
  (∀ (r : DNSRecord) w, DeleteResource r w = clDelete r w) →
  deleteGatewayDNSRecords gateway dnsPolicy w = (Ok tt, w') →
  onlyDeleted (objs w) (objs w') ∧
  ∀ k record, objs w !! k = Some record →
    commonDNSRecordLabels (objectKey (gwMeta gateway)) (objectKey (polMeta dnsPolicy)) ⊆ Labels (recMeta record) →
    goneOrDeleting (objs w') k.
Proof using ApiLaws0 Hmeta.
  intros Hdelete. unfold deleteGatewayDNSRecords, bind at 1.
  destruct (clList _ w) as [[items| |] w1] eqn:El; try done. apply api_list in El as [Hw1 Hitems].
  rewrite (forEach_ext _ _ (deleteIf true (λ _, true))).
  2: { intros r w2. unfold deleteIf, bind, IgnoreNotFound. by rewrite Hdelete. }
  intros Hrun. pose proof (deleteLoop_only _ _ _ _ _ Hrun) as Honly. rewrite Hw1 in Honly. split; [done|].
  apply deleteLoop_spec in Hrun as [_ Hgone]. intros k record Hk Hl.
  assert (oKey record = k) as <- by (by eapply api_key). apply Hgone; [|done].
  rewrite Hitems, elem_of_stored. split; [by eauto|]. rewrite Hmeta. unfold matches. simpl.
  by rewrite !bool_decide_eq_true_2 by auto.
Qed.

Context `{Client W DNSHealthCheckProbe} `{!ApiStore W DNSHealthCheckProbe} `{!ApiLaws W DNSHealthCheckProbe}.
Context `{TargetEnv}.

(** Listing probes does not touch records. *)
Context (Hframe : ∀ opts w, objs (O := DNSRecord) (clList (O := DNSHealthCheckProbe) opts w).2 = objs w).
(** An update keeps the spec it is given. *)
Context (Hkeeps : ∀ r r' : DNSRecord, keeps r r' → recSpec r' = recSpec r).

Lemma MapErr_id {A} (l : list A) : slice.MapErr l (λ x, Ok x) = Ok l.
Proof. induction l as [|x l IH]; [done|]. simpl. by rewrite IH. Qed.

(** setEndpoints on the stored record either fails or leaves the server
    with exactly the published endpoints: those built from the clusters, less
    what the probes of the policy rule out. *)
Theorem setEndpoints_stores `{MapRange} `{SortSlice} mcgTarget record dnsPolicy listener w w' :
  objs w !! oKey record = Some record →
  setEndpoints mcgTarget record dnsPolicy listener w = (Ok tt, w') →
  ∃ eps probes published stored',
    newEndpoints mcgTarget (Endpoints (recSpec record)) listener = Ok eps ∧
    probes ≡ₚ stored w (mkListOptions (Namespace (polMeta dnsPolicy))
      (commonDNSRecordLabels (objectKey (gwMeta (mcgGateway mcgTarget))) (objectKey (polMeta dnsPolicy)))) ∧
    publishedEndpoints probes (Name (gwMeta (mcgGateway mcgTarget))) (lName listener) eps = Some published ∧
    objs w' !! oKey record = Some stored' ∧
    Endpoints (recSpec stored') = published ∧
    ManagedZoneRef (recSpec stored') = ManagedZoneRef (recSpec record).
Proof.
  intros Hrec. unfold setEndpoints, getDNSHealthCheckProbes, bind, lift, ret.
  destruct (newEndpoints _ _ _) as [eps| |]; try done.
  destruct (clList _ w) as [[items| |] w1] eqn:El; try done. rewrite MapErr_id.
  pose proof (Hframe (mkListOptions (Namespace (polMeta dnsPolicy)) (commonDNSRecordLabels
    (objectKey (gwMeta (mcgGateway mcgTarget))) (objectKey (polMeta dnsPolicy)))) w) as Hw1.
  rewrite El in Hw1. simpl in Hw1. apply api_list in El as [_ Hitems].
  destruct (publishedEndpoints _ _ _ _) as [published|] eqn:Hp; [|done].
  case_bool_decide as Heq.
  - intros ?. simplify_eq/=. exists eps, items, published, record. split_and!; try done.
    + by rewrite Hw1.
    + by rewrite <- Heq.
  - destruct (clUpdate _ w1) as [[stored'| |] w2] eqn:Eu; try done.
    apply (api_update_stored _ _ record) in Eu as [Hw2 Hk]; [|rewrite Hw1; revert Hrec; unfold oKey; by rewrite !Hmeta|by rewrite !Hmeta].
    intros ?. simplify_eq/=. exists eps, items, published, stored'. split_and!; try done.
    + rewrite Hw2. unfold oKey. rewrite !Hmeta. simpl. by rewrite lookup_insert_eq.
    + by rewrite (Hkeeps _ _ Hk).
    + by rewrite (Hkeeps _ _ Hk).
Qed.

(** C10: reconciling a record settles.  After setEndpoints succeeded on the
    stored record, calling it again on what is now stored does nothing but list
    the probes, as long as these are the same: no write is made, whether or not
    unhealthy endpoints were left out of the record, and although the second
    call ranges over the geos in another order and sorts in another way.  For
    that the default geo of the policy must be served, and the ids asked for be
    distinct. *)
Theorem setEndpoints_settles (R1 R2 : MapRange) (S1 S2 : SortSlice) mcgTarget record dnsPolicy listener host w w' :
  let opts := mkListOptions (Namespace (polMeta dnsPolicy))
    (commonDNSRecordLabels (objectKey (gwMeta (mcgGateway mcgTarget))) (objectKey (polMeta dnsPolicy))) in
  objs w !! oKey record = Some record →
  @EndpointsPre _ R1 mcgTarget listener host →
  defaultServed mcgTarget host →
  keepsIds (Endpoints (recSpec record)) (@endpointRequests _ R1 mcgTarget host) →
  @setEndpoints W _ _ _ R1 S1 mcgTarget record dnsPolicy listener w = (Ok tt, w') →
  ∃ stored', objs w' !! oKey record = Some stored' ∧
    ∀ w2, stored (O := DNSHealthCheckProbe) w2 opts ≡ₚ stored w opts →
      @setEndpoints W _ _ _ R2 S2 mcgTarget stored' dnsPolicy listener w2 =
      (do! clList (O := DNSHealthCheckProbe) opts in ret tt) w2.
Proof.
  intros opts Hrec Hpre Hdef Hk Hset.
  destruct (@setEndpoints_stores R1 S1 _ _ _ _ _ _ Hrec Hset) as (eps & probes & published & stored' & He & Hprobes & Hp & Hs & Hep & _).
  exists stored'. split; [done|]. intros w2 Hsame.
  destruct (@published_stable _ R1 S1 _ _ _ _ _ _ _ _ _ Hpre Hk He Hp) as (Hk' & eps' & He' & Hp').
  rewrite (newEndpoints_order R1 R2 S1 S2 _ _ _ _ Hpre Hdef Hk') in He'.
  unfold setEndpoints, getDNSHealthCheckProbes, bind, lift, ret. rewrite Hep, He'. fold opts.
  destruct (clList opts w2) as [[items| |] w3] eqn:El; [|done..]. rewrite MapErr_id.
  apply api_list in El as [_ Hitems].
  rewrite (published_perm items probes), Hp'.
  - rewrite bool_decide_eq_true_2; [done|]. destruct stored' as [m [z ep] st]. simpl in *. by subst.
  - by rewrite Hitems, Hsame, Hprobes.
Qed.

End dnsHelper_laws.

(** ** Examples and witnesses *)

(** An in-memory server of records and probes. *)
Abbreviation exampleWorld := (gmap ObjectKey DNSRecord * gmap ObjectKey DNSHealthCheckProbe)%type.

#[local] Instance recordsClient : Client exampleWorld DNSRecord :=
  mem_client fst (λ m w, (m, w.2)) recMeta.
#[local] Instance recordsStore : ApiStore exampleWorld DNSRecord :=
  mem_store fst recMeta (λ r r', r' = r).
#[local] Instance recordsLaws : ApiLaws exampleWorld DNSRecord.
Proof. by apply mem_laws. Qed.
#[local] Instance probesClient : Client exampleWorld DNSHealthCheckProbe :=
  mem_client snd (λ m w, (w.1, m)) probeMeta.
#[local] Instance probesStore : ApiStore exampleWorld DNSHealthCheckProbe :=
  mem_store snd probeMeta (λ r r', r' = r).
#[local] Instance probesLaws : ApiLaws exampleWorld DNSHealthCheckProbe.
Proof. by apply mem_laws. Qed.

#[local] Existing Instance exampleEnv.
#[local] Existing Instance range_in_key_order.
#[local] Existing Instance sort_by_merging.

Definition exampleRecord (listener : string) : DNSRecord :=
  mkDNSRecord
    (set_Labels (<[LabelListenerReference := listener]> {[LabelGatewayReference := "prod"]})
       (newObjectMeta ("prod-" +:+ listener) "infra"))
    (mkDNSRecordSpec (Some "zone") exampleExisting) emptyDNSRecordStatus.

Definition exampleGateway : Gateway :=
  mkGateway (newObjectMeta "prod" "infra") "mgc" [exampleListener] emptyGatewayStatus.

Definition examplePolicy : DNSPolicy :=
  mkDNSPolicy (newObjectMeta "policy" "infra")
    (mkDNSPolicySpec (mkTargetRef "gateway.networking.k8s.io" "Gateway" "prod" None) None None)
    (mkDNSPolicyStatus [] 0).

Definition exampleStart : exampleWorld :=
  (<[("infra", "prod-old") := exampleRecord "old"]> {[("infra", "prod-api") := exampleRecord "api"]}, ∅).

Lemma deleted_listeners_cleaned_witness :
  goneOrDeleting (O := DNSRecord) (objs (removeDNSForDeletedListeners exampleGateway exampleStart).2)
    ("infra", "prod-old").
Proof.
  refine (proj1 (@deleted_listeners_cleaned exampleWorld recordsClient recordsStore recordsLaws
    (λ r, eq_refl) exampleGateway exampleStart (removeDNSForDeletedListeners exampleGateway exampleStart).2
    _ _ ("infra", "prod-old") (exampleRecord "old") _) _).
  - discriminate.
  - vm_compute. reflexivity.
  - vm_compute. reflexivity.
  - split; [split|]; vm_compute; reflexivity.
Defined.

Lemma setEndpoints_stores_witness :
  ∃ stored' : DNSRecord, objs (setEndpoints exampleTarget (exampleRecord "api") examplePolicy exampleListener exampleStart).2
    !! ("infra", "prod-api") = Some stored'.
Proof.
  destruct (@setEndpoints_stores exampleWorld recordsClient recordsStore recordsLaws (λ r, eq_refl)
    probesClient probesStore probesLaws _ (λ opts w, eq_refl) (λ r r' (H : r' = r), f_equal recSpec H) _ _
    exampleTarget (exampleRecord "api") examplePolicy exampleListener exampleStart
    (setEndpoints exampleTarget (exampleRecord "api") examplePolicy exampleListener exampleStart).2)
    as (eps & probes & published & stored' & _ & _ & _ & Hs & _).
  - vm_compute. reflexivity.
  - vm_compute. reflexivity.
  - exists stored'. exact Hs.
Defined.

(** The first run stores the endpoints of the clusters, the second one, with the
    geos in the opposite order, changes nothing at all. *)
Lemma setEndpoints_settles_witness :
  ∃ stored' : DNSRecord,
    @setEndpoints exampleWorld _ _ _ range_reversed sort_by_merging exampleTarget stored' examplePolicy exampleListener
      (setEndpoints exampleTarget (exampleRecord "api") examplePolicy exampleListener exampleStart).2 =
    (Ok tt, (setEndpoints exampleTarget (exampleRecord "api") examplePolicy exampleListener exampleStart).2).
Proof.
  destruct (@setEndpoints_settles exampleWorld recordsClient recordsStore recordsLaws (λ r, eq_refl)
    probesClient probesStore probesLaws _ (λ opts w, eq_refl) (λ r r' (H : r' = r), f_equal recSpec H)
    range_in_key_order range_reversed sort_by_merging sort_by_merging
    exampleTarget (exampleRecord "api") examplePolicy exampleListener "shop.example.com" exampleStart
    (setEndpoints exampleTarget (exampleRecord "api") examplePolicy exampleListener exampleStart).2)
    as (stored' & _ & Hagain).
  - vm_compute. reflexivity.
  - exact examplePre.
  - exact exampleServed.
  - apply keepsIds_check. vm_compute. reflexivity.
  - vm_compute. reflexivity.
  - exists stored'. rewrite Hagain; [vm_compute; reflexivity|]. vm_compute. reflexivity.
Defined.

(** The record's name does not tell a gateway from its listener: two gateways
    of one namespace can share a record. *)
Example record_name_shared : dnsRecordName "prod-eu" "api" = dnsRecordName "prod" "eu-api".
Proof. reflexivity. Qed.
