(* ===== verification/HealthChecks.v ===== *)
(** * The health check probes of a policy

    pkg/controllers/dnspolicy/dnspolicy_healthchecks.go: the probes a gateway
    should have, and the loops that create, update and delete them. *)

From S2P Require Import Prelude GoStrings Slice Kube ApiTypes GatewayApi EndpointHealth DnsHelper MemApi.
Local Open Scope go_scope.

(** ** The expected probes *)

Definition expectedProbe (gw : Gateway) (dnsPolicy : DNSPolicy) (hc : HealthCheckSpec) (interval : Z)
  (address : string) (listener : Listener) (hostname : string) : DNSHealthCheckProbe :=
  let port := match hcPort hc with Some p => p | None => lPort listener end in
  let protocol := match hcProtocol hc with Some p => p | None => lProtocol listener end in
  mkProbe
    (withGatewayListener gw listener
       (set_Labels (commonDNSRecordLabels (objectKey (gwMeta gw)) (objectKey (polMeta dnsPolicy)))
          (newObjectMeta (dnsHealthCheckProbeName address (Name (gwMeta gw)) (lName listener))
             (Namespace (gwMeta gw)))))
    (mkProbeSpec port hostname address (hcEndpoint hc) protocol interval (hcAdditionalHeadersRef hc)
       (hcFailureThreshold hc) (hcExpectedResponses hc) (hcAllowInsecureCertificates hc))
    emptyProbeStatus.

(** The loop over the listeners; a nil host name panics, wildcards are skipped. *)
Fixpoint probesForListeners (gw : Gateway) (dnsPolicy : DNSPolicy) (hc : HealthCheckSpec) (interval : Z)
  (address : string) (listeners : list Listener) (healthChecks : list DNSHealthCheckProbe)
  : res (list DNSHealthCheckProbe) :=
  match listeners with
  | [] => Ok healthChecks
  | listener :: rest =>
      match Hostname listener with
      | None => Panic
      | Some hostname =>
          if strings.Contains hostname "*" then
            probesForListeners gw dnsPolicy hc interval address rest healthChecks
          else
            probesForListeners gw dnsPolicy hc interval address rest
              (healthChecks ++ [expectedProbe gw dnsPolicy hc interval address listener hostname])
      end
  end.

(** The loop over the addresses, "<cluster>/<address>"; one that is not of
    that form makes the whole result nil. *)
Fixpoint probesForAddresses (gw : Gateway) (dnsPolicy : DNSPolicy) (hc : HealthCheckSpec) (interval : Z)
  (addresses : list GatewayAddress) (healthChecks : list DNSHealthCheckProbe)
  : res (list DNSHealthCheckProbe) :=
  match addresses with
  | [] => Ok healthChecks
  | address :: rest =>
      match strings.Split (aValue address) "/"%char with
      | [_; target] =>
          let? healthChecks :=
            probesForListeners gw dnsPolicy hc interval target (Listeners gw) healthChecks in
          probesForAddresses gw dnsPolicy hc interval rest healthChecks
      | _ => Ok []
      end
  end.

Definition expectedProbesForGateway (gw : Gateway) (dnsPolicy : DNSPolicy)
  : res (list DNSHealthCheckProbe) :=
  match HealthCheck (polSpec dnsPolicy) with
  | None => Ok []
  | Some hc =>
      let interval := match hcInterval hc with Some i => i | None => (60 * second)%Z end in
      probesForAddresses gw dnsPolicy hc interval (gwAddresses (gwStatus gw)) []
  end.

Definition set_probeSpec (s : DNSHealthCheckProbeSpec) (p : DNSHealthCheckProbe) : DNSHealthCheckProbe :=
  mkProbe (probeMeta p) s (probeStatus p).

Section healthchecks.

Context {W : Type} `{Client W DNSHealthCheckProbe}.

(** ** Operations on the server *)

Definition createOrUpdateProbe (hcProbe : DNSHealthCheckProbe) : M W unit :=
  let! r := try (clGet (objectKey (probeMeta hcProbe))) in
  match r with
  | inr err =>
      if IsNotFound err then do! clCreate hcProbe in ret tt
      else fail err
  | inl p => do! clUpdate (set_probeSpec (probeSpec hcProbe) p) in ret tt
  end.

Definition createOrUpdateProbes (expectedProbes : list DNSHealthCheckProbe) : M W unit :=
  forEach expectedProbes createOrUpdateProbe.

Definition isExpected (expectedProbes : list DNSHealthCheckProbe) (p : DNSHealthCheckProbe) : bool :=
  slice.Contains expectedProbes (λ expectedProbe,
    bool_decide (Name (probeMeta expectedProbe) = Name (probeMeta p))
    && bool_decide (Namespace (probeMeta expectedProbe) = Namespace (probeMeta p))).

Definition deleteUnexpectedGatewayProbes (expectedProbes : list DNSHealthCheckProbe) (gw : Gateway)
  (dnsPolicy : DNSPolicy) : M W unit :=
  let dnsLabels := commonDNSRecordLabels (objectKey (gwMeta gw)) (objectKey (polMeta dnsPolicy)) in
  let! existingProbes := IgnoreNotFound (clList (mkListOptions "" dnsLabels)) in
  forEach (default [] existingProbes) (deleteIf false (λ p, negb (isExpected expectedProbes p))).

(** [fmt.Errorf("...%w", err)] around a call. *)
Definition wrapErr {A} (msg : string) (m : M W A) : M W A := λ w,
  match m w with
  | (Err e, w') => (Err (ErrWrap msg e), w')
  | r => r
  end.

Definition reconcileGatewayProbes (dnsPolicy : DNSPolicy) (gw : Gateway) : M W unit :=
  let! expectedProbes := lift (expectedProbesForGateway gw dnsPolicy) in
  do! wrapErr ("error creating and updating expected proves for gateway " +:+ Name (gwMeta gw) +:+ ": ")
        (createOrUpdateProbes expectedProbes) in
  wrapErr ("error removing unexpected probes for gateway " +:+ Name (gwMeta gw) +:+ ": ")
    (deleteUnexpectedGatewayProbes expectedProbes gw dnsPolicy).

Definition reconcileHealthChecks (dnsPolicy : DNSPolicy) (gwDiffObj : GatewayDiff) : M W unit :=
  do! forEach (GatewaysWithValidPolicyRef gwDiffObj ++ GatewaysMissingPolicyRef gwDiffObj)
        (reconcileGatewayProbes dnsPolicy) in
  forEach (GatewaysWithInvalidPolicyRef gwDiffObj) (λ gw,
    wrapErr ("error deleting probes for gw " +:+ Name (gwMeta gw) +:+ ": ")
      (deleteUnexpectedGatewayProbes [] gw dnsPolicy)).

Lemma wrapErr_frames {S A} (f : W → S) msg (m : M W A) : frames f m → frames f (wrapErr msg m).
Proof. intros Hm w. unfold wrapErr. specialize (Hm w). by destruct (m w) as [[| |] ?]. Qed.

Lemma reconcileHealthChecks_frames {S} (f : W → S) pol d :
  clientFrames DNSHealthCheckProbe f → frames f (reconcileHealthChecks pol d).
Proof.
  intros Hprobes. assert (∀ ps gw, frames f (deleteUnexpectedGatewayProbes ps gw pol)) as Hdelete.
  { intros ps gw. unfold deleteUnexpectedGatewayProbes, deleteIf. solve_frames; apply frames_forEach; solve_frames. }
  unfold reconcileHealthChecks, reconcileGatewayProbes, createOrUpdateProbes, createOrUpdateProbe.
  apply frames_bind; [|intros _]; apply frames_forEach; intros gw; [|by apply wrapErr_frames].
  apply frames_bind; [done|]. intros ps. apply frames_bind; [|intros _; by apply wrapErr_frames].
  apply wrapErr_frames, frames_forEach. solve_frames.
Qed.

End healthchecks.

(** ** Lemmas *)

Lemma probesForListeners_elem gw pol hc i addr ls acc probes :
  probesForListeners gw pol hc i addr ls acc = Ok probes →
  ∀ p, p ∈ probes ↔ p ∈ acc ∨
    ∃ l host, l ∈ ls ∧ Hostname l = Some host ∧ strings.Contains host "*" = false ∧
      p = expectedProbe gw pol hc i addr l host.
Proof.
  revert acc. induction ls as [|l ls IH]; intros acc; cbn [probesForListeners].
  { intros ? p. simplify_eq. split; [by left|]. intros [?|(l & ? & Hl & _)]; [done|]. by apply not_elem_of_nil in Hl. }
  destruct (Hostname l) as [host|] eqn:Hh; [|done].
  destruct (strings.Contains host "*") eqn:Hc; intros Hrun p; rewrite (IH _ Hrun p), ?elem_of_app, ?list_elem_of_singleton;
    setoid_rewrite elem_of_cons; split.
  - intros [?|(l' & h & ? & ?)]; [by left|]. right. exists l', h. by auto.
  - intros [?|(l' & h & [->|?] & ? & ? & ?)]; [by left|congruence|]. right. by exists l', h.
  - intros [[?| ->]|(l' & h & ? & ?)]; [by left|right; by exists l, host; auto|]. right. exists l', h. by auto.
  - intros [?|(l' & h & [->|?] & ? & ? & ->)]; [by auto| |right; by exists l', h].
    left; right. by simplify_eq.
Qed.

(** The address of a well-formed "<cluster>/<address>" entry, as the loop over
    the addresses reads it. *)
Definition addressTarget (a : GatewayAddress) : option string :=
  match strings.Split (aValue a) "/"%char with
  | [_; target] => Some target
  | _ => None
  end.

Lemma probesForAddresses_elem gw pol hc i addrs acc probes :
  Forall (λ a, is_Some (addressTarget a)) addrs →
  probesForAddresses gw pol hc i addrs acc = Ok probes →
  ∀ p, p ∈ probes ↔ p ∈ acc ∨
    ∃ a target l host, a ∈ addrs ∧ addressTarget a = Some target ∧ l ∈ Listeners gw ∧
      Hostname l = Some host ∧ strings.Contains host "*" = false ∧
      p = expectedProbe gw pol hc i target l host.
Proof.
  intros Hall. revert acc. induction Hall as [|a addrs [target Ht] _ IH]; intros acc; cbn [probesForAddresses].
  { intros ? p. simplify_eq. split; [by left|]. intros [?|(a & ? & ? & ? & Ha & _)]; [done|]. by apply not_elem_of_nil in Ha. }
  unfold addressTarget in Ht. destruct (strings.Split (aValue a) "/"%char) as [|? [|? [|??]]] eqn:Hs; simplify_eq.
  destruct (probesForListeners _ _ _ _ _ _ _) as [probes1| |] eqn:El; simpl; try done.
  intros Hrun p. rewrite (IH _ Hrun p), (probesForListeners_elem _ _ _ _ _ _ _ _ El p).
  setoid_rewrite elem_of_cons. assert (addressTarget a = Some target) as Ha by (unfold addressTarget; by rewrite Hs).
  split.
  - intros [[?|(l & host & ?)]|(a' & t' & l & host & ? & ?)]; [by left|right..].
    + exists a, target, l, host. by auto.
    + exists a', t', l, host. by auto.
  - intros [?|(a' & t' & l & host & [->|Hin] & Ht' & Hrest)]; [by auto|..].
    + left; right. exists l, host. by simplify_eq.
    + right. by exists a', t', l, host.
Qed.

(** Only a listener without a host name makes the loops panic. *)
Lemma probesForListeners_ok gw pol hc i addr ls acc :
  Forall (λ l, is_Some (Hostname l)) ls → ∃ probes, probesForListeners gw pol hc i addr ls acc = Ok probes.
Proof.
  intros Hls. revert acc. induction Hls as [|l ls [host Hh] _ IH]; intros acc; cbn [probesForListeners]; [by eexists|].
  rewrite Hh. case_match; apply IH.
Qed.

Lemma probesForAddresses_ok gw pol hc i addrs acc :
  Forall (λ l, is_Some (Hostname l)) (Listeners gw) → ∃ probes, probesForAddresses gw pol hc i addrs acc = Ok probes.
Proof.
  intros Hls. revert acc. induction addrs as [|a addrs IH]; intros acc; cbn [probesForAddresses]; [by eexists|].
  destruct (strings.Split _ _) as [|? [|target [|??]]]; [by eexists..| |by eexists].
  destruct (probesForListeners_ok gw pol hc i target _ acc Hls) as [probes1 ->]. simpl. apply IH.
Qed.

Lemma elem_of_getProbesForEndpoint e probes gw l p target :
  p ∈ probes → target ∈ Targets e → Name (probeMeta p) = dnsHealthCheckProbeName target gw l →
  p ∈ getProbesForEndpoint e probes gw l.
Proof.
  intros Hp Ht Hn. unfold getProbesForEndpoint. apply list_elem_of_bind. exists p. split; [|done].
  apply list_elem_of_bind. exists target. split; [|done]. rewrite decide_True by done. set_solver.
Qed.

(** ** Properties *)

(** C15: the probes a gateway should have are the ones setEndpoints looks for:
    for every well-formed status address and every listener with a plain host
    name there is an expected probe that checks that address and host, and it
    is among the probes consulted for any endpoint of that listener with the
    address as a target. *)
Theorem probe_watches_endpoint gw pol hc probes a target l host e all :
  HealthCheck (polSpec pol) = Some hc →
  expectedProbesForGateway gw pol = Ok probes →
  Forall (λ a, is_Some (addressTarget a)) (gwAddresses (gwStatus gw)) →
  a ∈ gwAddresses (gwStatus gw) → addressTarget a = Some target →
  l ∈ Listeners gw → Hostname l = Some host → strings.Contains host "*" = false →
  target ∈ Targets e → probes ⊆ all →
  ∃ p, p ∈ probes ∧ psAddress (probeSpec p) = target ∧ psHost (probeSpec p) = host ∧
    psFailureThreshold (probeSpec p) = hcFailureThreshold hc ∧
    p ∈ getProbesForEndpoint e all (Name (gwMeta gw)) (lName l).
Proof.
  intros Hhc Hp Hall Ha Hat Hl Hh Hc Ht Hsub. unfold expectedProbesForGateway in Hp. rewrite Hhc in Hp.
  set (i := match hcInterval hc with Some i => i | None => (60 * second)%Z end) in Hp.
  assert (expectedProbe gw pol hc i target l host ∈ probes) as Hin.
  { apply (probesForAddresses_elem _ _ _ _ _ _ _ Hall Hp). right. by exists a, target, l, host. }
  exists (expectedProbe gw pol hc i target l host). split_and!; [done..|].
  eapply elem_of_getProbesForEndpoint; [by apply Hsub|done|done].
Qed.

Section convergence.

Context {W : Type} `{Client W DNSHealthCheckProbe} `{!ApiStore W DNSHealthCheckProbe}
  `{!ApiLaws W DNSHealthCheckProbe}.
Context (Hmeta : ∀ p : DNSHealthCheckProbe, metaOf p = probeMeta p).
(** A write keeps the spec it is given. *)
Context (Hkeeps : ∀ p p' : DNSHealthCheckProbe, keeps p p' → probeSpec p' = probeSpec p).

(** A list is never "not found", even when it is empty. *)
Context (Hlist : ∀ opts (w w' : W) e,
  clList (O := DNSHealthCheckProbe) opts w = (Err e, w') → IsNotFound e = false).

Definition pKey (p : DNSHealthCheckProbe) : ObjectKey := objectKey (probeMeta p).

Lemma oKey_pKey p : oKey p = pKey p.
Proof. unfold oKey, pKey. by rewrite Hmeta. Qed.

(** [p] is stored, with the spec it should have. *)
Definition upToDate (w : W) (p : DNSHealthCheckProbe) : Prop :=
  ∃ p', objs w !! pKey p = Some p' ∧ probeSpec p' = probeSpec p.

Lemma createOrUpdateProbe_spec p w w' :
  createOrUpdateProbe p w = (Ok tt, w') →
  upToDate w' p ∧ ∀ k, k ≠ pKey p → objs w' !! k = objs w !! k.
Proof.
  unfold createOrUpdateProbe, bind, try, ret, fail.
  destruct (clGet _ w) as [[p0|e|] w1] eqn:Eg; [..|done]; apply api_get in Eg as [Hw1 Hg].
  - destruct (clUpdate _ w1) as [[p'| |] w2] eqn:Eu; intros ?; simplify_eq.
    pose proof (api_key _ _ _ Hg) as Hkey. rewrite oKey_pKey in Hkey.
    assert (oKey (set_probeSpec (probeSpec p) p0) = pKey p) as Hkey' by (rewrite oKey_pKey; unfold pKey in *; simpl; done).
    apply (api_update_stored _ _ p0) in Eu as [Hw' Hk]; [|by rewrite Hkey', Hw1|by rewrite !Hmeta].
    rewrite Hkey' in Hw'. split.
    + exists p'. rewrite Hw', lookup_insert_eq. split; [done|]. by rewrite (Hkeeps _ _ Hk).
    + intros k Hne. by rewrite Hw', lookup_insert_ne, Hw1.
  - destruct (IsNotFound e); [|done]. destruct (clCreate p w1) as [[p'| |] w2] eqn:Ec; intros ?; simplify_eq.
    apply api_create in Ec as (_ & Hw' & Hk). rewrite oKey_pKey in Hw'. split.
    + exists p'. rewrite Hw', lookup_insert_eq. split; [done|]. by apply Hkeeps.
    + intros k Hne. by rewrite Hw', lookup_insert_ne, Hw1.
Qed.

(** Probes under one key ask for the same. *)
Definition consistent (ps : list DNSHealthCheckProbe) : Prop :=
  ∀ p q, p ∈ ps → q ∈ ps → pKey p = pKey q → probeSpec p = probeSpec q.

Lemma createOrUpdateProbes_spec ps w w' :
  consistent ps → createOrUpdateProbes ps w = (Ok tt, w') →
  (∀ p, p ∈ ps → upToDate w' p) ∧ ∀ k, k ∉ (pKey <$> ps) → objs w' !! k = objs w !! k.
Proof.
  unfold createOrUpdateProbes. revert w. induction ps as [|p ps IH]; intros w; cbn [forEach].
  { unfold ret. intros _ ?. simplify_eq. split; [|done]. intros p Hp. by apply not_elem_of_nil in Hp. }
  intros Hsame. unfold bind.
  destruct (createOrUpdateProbe p w) as [[[]| |] w1] eqn:E; try done.
  apply createOrUpdateProbe_spec in E as [[p' [Hp' Hs]] Hother]. intros Hrun.
  assert (consistent ps) as Hsame' by (intros x y Hx Hy; apply Hsame; by right).
  destruct (IH w1 Hsame' Hrun) as [Hall Hrest]. rewrite fmap_cons. split.
  - intros x [->|Hx]%elem_of_cons; [|by apply Hall].
    destruct (decide (pKey p ∈ pKey <$> ps)) as [Hin|Hn]; [|exists p'; by rewrite Hrest].
    apply list_elem_of_fmap in Hin as (q & Hkey & Hq). destruct (Hall q Hq) as (q' & Hq' & Hs').
    exists q'. rewrite Hkey. split; [done|]. rewrite Hs'. by apply Hsame; [right|left|].
  - intros k. rewrite not_elem_of_cons. intros [Hne Hk]. by rewrite Hrest, Hother.
Qed.

Lemma isExpected_spec ps p : isExpected ps p = true ↔ pKey p ∈ (pKey <$> ps).
Proof.
  unfold isExpected. rewrite Contains_true, list_elem_of_fmap. unfold pKey, objectKey.
  split.
  - intros (x & Hx & Heq). apply andb_true_iff in Heq as [Hn Hns]. rewrite !bool_decide_eq_true in Hn, Hns.
    exists x. by rewrite Hn, Hns.
  - intros (x & Heq & Hx). exists x. split; [done|]. simplify_eq. by rewrite !bool_decide_eq_true_2.
Qed.

Lemma deleteUnexpected_spec ps gw pol w w' :
  deleteUnexpectedGatewayProbes ps gw pol w = (Ok tt, w') →
  (∀ k, k ∈ (pKey <$> ps) → objs w' !! k = objs w !! k) ∧
  (∀ k p, objs w !! k = Some p →
    commonDNSRecordLabels (objectKey (gwMeta gw)) (objectKey (polMeta pol)) ⊆ Labels (probeMeta p) →
    k ∈ (pKey <$> ps) ∨ goneOrDeleting (objs w') k) ∧
  (∀ k p, objs w !! k = Some p →
    ¬ commonDNSRecordLabels (objectKey (gwMeta gw)) (objectKey (polMeta pol)) ⊆ Labels (probeMeta p) →
    objs w' !! k = Some p).
Proof.
  unfold deleteUnexpectedGatewayProbes, bind, IgnoreNotFound.
  destruct (clList _ w) as [[items|e|] w1] eqn:El; try done; [|by rewrite (Hlist _ _ _ _ El)].
  apply api_list in El as [Hw1 Hitems]. intros [Hother Hgone]%deleteLoop_spec. cbn [default] in *. split_and!.
  - intros k Hk. rewrite Hother, Hw1; [done|]. intros p Hp Hu Hkey. apply negb_true_iff in Hu.
    rewrite oKey_pKey in Hkey. subst k. apply isExpected_spec in Hk. congruence.
  - intros k p Hp Hl. assert (p ∈ items) as Hin.
    { rewrite Hitems, elem_of_stored. split; [by eauto|]. rewrite Hmeta. unfold matches. simpl.
      rewrite !bool_decide_eq_true_2 by auto. done. }
    assert (oKey p = k) as <- by (by eapply api_key). rewrite oKey_pKey.
    destruct (isExpected ps p) eqn:Hex; [left; by apply isExpected_spec|]. right.
    rewrite <- oKey_pKey. apply Hgone; [done|]. by rewrite Hex.
  - intros k p Hp Hl. rewrite Hother, Hw1; [done|]. intros q Hq _ Hkey. apply Hl.
    assert (q ∈ items) as Hin by done. rewrite Hitems in Hin. apply elem_of_stored in Hin as [[k' Hk'] Hm].
    assert (oKey q = k') as <- by (by eapply api_key). rewrite Hkey in Hk'. simplify_eq.
    rewrite Hmeta in Hm. unfold matches in Hm. apply andb_true_iff in Hm as [_ Hm]. by apply bool_decide_eq_true in Hm.
Qed.

(** Deleting all probes of a policy and gateway. *)
Lemma deleteGatewayProbes_spec gw pol w w' :
  deleteUnexpectedGatewayProbes [] gw pol w = (Ok tt, w') →
  onlyDeleted (objs w) (objs w') ∧
  ∀ k p, objs w !! k = Some p →
    commonDNSRecordLabels (objectKey (gwMeta gw)) (objectKey (polMeta pol)) ⊆ Labels (probeMeta p) →
    goneOrDeleting (objs w') k.
Proof.
  intros Hrun. split.
  - revert Hrun. unfold deleteUnexpectedGatewayProbes, bind, IgnoreNotFound.
    destruct (clList _ w) as [[items|e|] w1] eqn:El; try done; [|by rewrite (Hlist _ _ _ _ El)].
    apply api_list in El as [<- _]. apply deleteLoop_only.
  - apply deleteUnexpected_spec in Hrun as (_ & Hgone & _). intros k p Hk Hl.
    destruct (Hgone k p Hk Hl) as [?%not_elem_of_nil|]; done.
Qed.

(** C16: when reconciling the probes of a gateway succeeds, the server holds
    every expected probe with the expected spec; every other probe that was
    stored with the labels of this gateway and policy is gone or being deleted;
    and every other probe without them is as it was.  Expected probes that share
    a key (one address reported twice) must ask for the same. *)
Theorem gateway_probes_converge gw pol probes w w' :
  expectedProbesForGateway gw pol = Ok probes →
  (∀ p q, p ∈ probes → q ∈ probes → pKey p = pKey q → probeSpec p = probeSpec q) →
  reconcileGatewayProbes pol gw w = (Ok tt, w') →
  (∀ p, p ∈ probes → ∃ p', objs w' !! pKey p = Some p' ∧ probeSpec p' = probeSpec p) ∧
  (∀ k p, objs w !! k = Some p → k ∉ (pKey <$> probes) →
    if bool_decide (commonDNSRecordLabels (objectKey (gwMeta gw)) (objectKey (polMeta pol)) ⊆ Labels (probeMeta p))
    then goneOrDeleting (objs w') k
    else objs w' !! k = Some p).
Proof.
  intros Hp Hsame. unfold reconcileGatewayProbes, bind, lift, wrapErr. rewrite Hp.
  destruct (createOrUpdateProbes probes w) as [[[]| |] w1] eqn:Ec; try done.
  apply createOrUpdateProbes_spec in Ec as [Hup Hother]; [|done].
  destruct (deleteUnexpectedGatewayProbes probes gw pol w1) as [[[]| |] w2] eqn:Ed; try done.
  intros ?; simplify_eq. apply deleteUnexpected_spec in Ed as (Hkeep & Hgone & Hleft). split.
  - intros p Hin. destruct (Hup p Hin) as (p' & Hp' & Hs). exists p'. split; [|done].
    rewrite Hkeep; [done|]. by apply list_elem_of_fmap_2.
  - intros k p Hk Hn. rewrite <- Hother in Hk by done. case_bool_decide as Hl; [|by apply Hleft].
    by destruct (Hgone k p Hk Hl).
Qed.

End convergence.

(** ** Examples and witnesses *)

#[local] Instance memClient : Client (gmap ObjectKey DNSHealthCheckProbe) DNSHealthCheckProbe :=
  mem_client id (λ m w, m) probeMeta.
#[local] Instance memStore : ApiStore (gmap ObjectKey DNSHealthCheckProbe) DNSHealthCheckProbe :=
  mem_store id probeMeta (λ p p', p' = p).
#[local] Instance memLaws : ApiLaws (gmap ObjectKey DNSHealthCheckProbe) DNSHealthCheckProbe.
Proof. by apply mem_laws. Qed.

Definition probedGateway (addresses : list string) : Gateway :=
  mkGateway (newObjectMeta "prod" "infra") "mgc"
    [mkListener "api" (Some "shop.example.com") 443 "HTTPS" None;
     mkListener "wild" (Some "*.example.com") 443 "HTTPS" None]
    (mkGatewayStatus (mkAddress (Some "kuadrant.io/MultiClusterIPAddress") <$> addresses) [] []).

Definition probedCheck : HealthCheckSpec :=
  mkHealthCheckSpec "/healthz" None None (Some 3%Z) None (Some [200%Z]) false None.

Definition probedPolicy : DNSPolicy :=
  mkDNSPolicy (newObjectMeta "policy" "infra")
    (mkDNSPolicySpec (mkTargetRef "gateway.networking.k8s.io" "Gateway" "prod" None) (Some probedCheck) None)
    (mkDNSPolicyStatus [] 0).

Definition probedTwoClusters : Gateway := probedGateway ["east/10.0.0.1"; "west/10.0.0.2"].

Definition theirProbes : list DNSHealthCheckProbe :=
  match expectedProbesForGateway probedTwoClusters probedPolicy with Ok ps => ps | _ => [] end.

Example their_names :
  (λ p, Name (probeMeta p)) <$> theirProbes = ["10.0.0.1-prod-api"; "10.0.0.2-prod-api"].
Proof. vm_compute. reflexivity. Qed.

Lemma probe_watches_endpoint_witness :
  ∃ p, p ∈ theirProbes ∧ psAddress (probeSpec p) = "10.0.0.2" ∧ psHost (probeSpec p) = "shop.example.com" ∧
    psFailureThreshold (probeSpec p) = Some 3%Z ∧
    p ∈ getProbesForEndpoint (mkEndpoint "c2.lb.example.com" ["10.0.0.2"] "A" "" 60 ∅ []) theirProbes "prod" "api".
Proof.
  apply (probe_watches_endpoint probedTwoClusters probedPolicy probedCheck theirProbes
    (mkAddress (Some "kuadrant.io/MultiClusterIPAddress") "west/10.0.0.2") "10.0.0.2"
    (mkListener "api" (Some "shop.example.com") 443 "HTTPS" None) "shop.example.com").
  - reflexivity.
  - vm_compute. reflexivity.
  - repeat constructor; eexists; vm_compute; reflexivity.
  - right. left.
  - vm_compute. reflexivity.
  - left.
  - reflexivity.
  - vm_compute. reflexivity.
  - left.
  - intros x Hx. exact Hx.
Defined.

(** A probe of an address that is no longer reported. *)
Definition staleProbe : DNSHealthCheckProbe :=
  mkProbe (set_Labels (commonDNSRecordLabels ("infra", "prod") ("infra", "policy")) (newObjectMeta "10.0.0.9-prod-api" "infra"))
    (mkProbeSpec 443 "shop.example.com" "10.0.0.9" "/healthz" "HTTPS" 60 None (Some 3%Z) (Some [200%Z]) false) emptyProbeStatus.

Lemma theirProbes_consistent : consistent theirProbes.
Proof.
  assert (Forall (λ p, Forall (λ q, pKey p = pKey q → probeSpec p = probeSpec q) theirProbes) theirProbes) as Hall
    by (apply (bool_decide_unpack _); vm_compute; exact I).
  intros p q Hp Hq. rewrite Forall_forall in Hall. specialize (Hall p Hp). rewrite Forall_forall in Hall. by apply Hall.
Qed.

Definition probesBefore : gmap ObjectKey DNSHealthCheckProbe := {[("infra", "10.0.0.9-prod-api") := staleProbe]}.

Lemma gateway_probes_converge_witness :
  goneOrDeleting (W := gmap ObjectKey DNSHealthCheckProbe)
    (objs (reconcileGatewayProbes probedPolicy probedTwoClusters probesBefore).2) ("infra", "10.0.0.9-prod-api").
Proof.
  refine (proj2 (@gateway_probes_converge (gmap ObjectKey DNSHealthCheckProbe) memClient memStore memLaws
    (λ p, eq_refl) (λ p p' (H : p' = p), f_equal probeSpec H) _ probedTwoClusters probedPolicy theirProbes probesBefore _ _ _ _)
    ("infra", "10.0.0.9-prod-api") staleProbe _ _).
  - intros opts w w' e He. discriminate He.
  - vm_compute. reflexivity.
  - exact theirProbes_consistent.
  - vm_compute. reflexivity.
  - vm_compute. reflexivity.
  - apply (bool_decide_unpack _). vm_compute. exact I.
Defined.

(** One address that is not "<cluster>/<address>" and no probe is expected:
    the ones that exist are deleted. *)
Example malformed_address_drops_all_probes :
  let before := (reconcileGatewayProbes probedPolicy probedTwoClusters ∅).2 in
  size before = 2 ∧
  reconcileGatewayProbes probedPolicy (probedGateway ["east/10.0.0.1"; "10.0.0.2"]) before = (Ok tt, ∅).
Proof. vm_compute. done. Qed.
