(* ===== verification/GoNet.v ===== *)
(** * Go's [net]: [ParseIP], [SplitHostPort] and [JoinHostPort]

    Of [ParseIP] the code only asks whether the result is nil. As in Go 1.20,
    the first "." or ":" of the text decides between IPv4 and IPv6. *)

From S2P Require Import Prelude GoStrings.

Module net.

Definition decDigit (c : ascii) : option Z :=
  let n := Z.of_N (N_of_ascii c) in
  if decide (48 ≤ n ≤ 57)%Z then Some (n - 48)%Z else None.

Definition hexDigit (c : ascii) : option Z :=
  let n := Z.of_N (N_of_ascii c) in
  if decide (48 ≤ n ≤ 57)%Z then Some (n - 48)%Z
  else if decide (97 ≤ n ≤ 102)%Z then Some (n - 87)%Z
  else if decide (65 ≤ n ≤ 70)%Z then Some (n - 55)%Z
  else None.

(** A decimal number of one digit or more, all of the text. *)
Fixpoint decNumber (s : string) (acc : Z) : option Z :=
  match s with
  | "" => Some acc
  | String c s' => match decDigit c with Some d => decNumber s' (acc * 10 + d)%Z | None => None end
  end.

(** A field of an IPv4 address: at most 255, no leading zero. *)
Definition ipv4Field (s : string) : bool :=
  match s with
  | "" => false
  | String c s' =>
      match decNumber s 0 with
      | Some n => bool_decide (n ≤ 255)%Z && (bool_decide (s' = "") || bool_decide (c ≠ "0"%char))
      | None => false
      end
  end.

Definition parseIPv4 (s : string) : bool :=
  match strings.Split s "."%char with
  | [a; b; c; d] => ipv4Field a && ipv4Field b && ipv4Field c && ipv4Field d
  | _ => false
  end.

(** Leading hexadecimal digits: their number, their value (capped, as Go stops
    at a value above 0xFFFF) and the rest. *)
Fixpoint hexRun (s : string) (n : nat) (acc : Z) : nat * Z * string :=
  match s with
  | String c s' =>
      match hexDigit c with
      | Some d => hexRun s' (S n) (Z.min (acc * 16 + d) 65536)%Z
      | None => (n, acc, s)
      end
  | "" => (n, acc, "")
  end.

(** The loop over the groups: [i] bytes filled, [ellipsis] seen. *)
Fixpoint ipv6Groups (fuel : nat) (s : string) (i : nat) (ellipsis : bool) : bool :=
  let finish := λ i, if decide (i < 16) then ellipsis else negb ellipsis in
  match fuel with
  | O => bool_decide (s = "") && finish i
  | S fuel =>
      let '(n, acc, rest) := hexRun s 0 0 in
      if decide (n = 0) then false
      else if decide (65535 < acc)%Z then false
      else
        match rest with
        | "" => finish (i + 2)
        | String c rest' =>
            if decide (c = "."%char) then
              (ellipsis || bool_decide (i = 12)) && bool_decide (i + 4 ≤ 16) && parseIPv4 s && finish (i + 4)
            else if decide (c = ":"%char) then
              match rest' with
              | "" => false
              | String c' rest'' =>
                  if decide (c' = ":"%char) then
                    if ellipsis then false
                    else if decide (rest'' = "") then bool_decide (i + 2 < 16)
                    else ipv6Groups fuel rest'' (i + 2) true
                  else ipv6Groups fuel rest' (i + 2) ellipsis
              end
            else false
        end
  end.

Definition parseIPv6 (s : string) : bool :=
  match s with
  | String c1 (String c2 s') =>
      if decide (c1 = ":"%char ∧ c2 = ":"%char) then
        if decide (s' = "") then true else ipv6Groups 8 s' 0 true
      else ipv6Groups 8 s 0 false
  | _ => ipv6Groups 8 s 0 false
  end.

Fixpoint firstSeparator (s : string) : option ascii :=
  match s with
  | "" => None
  | String c s' => if decide (c = "."%char ∨ c = ":"%char) then Some c else firstSeparator s'
  end.

(** [net.ParseIP(s) != nil] *)
Definition isIP (s : string) : bool :=
  match firstSeparator s with
  | Some c => if decide (c = "."%char) then parseIPv4 s else parseIPv6 s
  | None => false
  end.

(** ** Host and port *)

(** The text around the last [c]. *)
Fixpoint cutLast (c : ascii) (s : string) : option (string * string) :=
  match s with
  | "" => None
  | String a s' =>
      match cutLast c s' with
      | Some (l, r) => Some (String a l, r)
      | None => if decide (a = c) then Some ("", s') else None
      end
  end.

(** [&AddrError{Err: why, Addr: addr}] *)
Definition addrErr {A} (addr why : string) : res A :=
  Err (ErrText (if decide (addr = "") then why else "address " +:+ addr +:+ ": " +:+ why)).

(** The tests that follow the branches of [SplitHostPort]: no bracket is left
    where none may be ([hostport[j:]] and [hostport[k:]]). *)
Definition noBrackets (hostport fromJ fromK host port : string) : res (string * string) :=
  if occurs "["%char fromJ then addrErr hostport "unexpected '[' in address"
  else if occurs "]"%char fromK then addrErr hostport "unexpected ']' in address"
  else Ok (host, port).

Definition SplitHostPort (hostport : string) : res (string * string) :=
  let missingPort := "missing port in address" in
  let tooManyColons := "too many colons in address" in
  match cutLast ":"%char hostport with
  | None => addrErr hostport missingPort
  | Some (before, port) =>
      match hostport with
      | String "[" rest =>
          match strings.cut "]"%char rest with
          | None => addrErr hostport "missing ']' in address"
          | Some (host, after) =>
              (* the first ']' is followed by nothing, by the last ':', or by something else *)
              if decide (after = "") then addrErr hostport missingPort
              else if decide (String.length before = String.length host + 2) then
                noBrackets hostport rest after host port
              else if strings.HasPrefix after ":" then addrErr hostport tooManyColons
              else addrErr hostport missingPort
          end
      | _ =>
          if occurs ":"%char before then addrErr hostport tooManyColons
          else noBrackets hostport hostport hostport before port
      end
  end.

Definition JoinHostPort (host port : string) : string :=
  if occurs ":"%char host then "[" +:+ host +:+ "]:" +:+ port else host +:+ ":" +:+ port.

End net.

Example isIP_examples :
  net.isIP <$> ["10.0.0.1"; "256.0.0.1"; "10.0.0.01"; "::1"; "2001:db8::"; "1:2:3:4:5:6:7:8"; "1:2:3:4:5:6:7";
                "::ffff:10.0.0.1"; "1:2:3:4:5:6:7:8::"; "shop.example.com"; "a.b.c.d"] =
  [true; false; false; true; true; true; false; true; false; false; false].
Proof. vm_compute. reflexivity. Qed.

Example SplitHostPort_examples :
  net.SplitHostPort <$> ["shop.example.com:443"; "[2001:db8::1]:80"; "10.0.0.1"; "a:b:80"; "[::1]"; "[::1]80:"; "[::1:80"; "a]:80"] =
  [Ok ("shop.example.com", "443"); Ok ("2001:db8::1", "80");
   Err (ErrText "address 10.0.0.1: missing port in address"); Err (ErrText "address a:b:80: too many colons in address");
   Err (ErrText "address [::1]: missing port in address"); Err (ErrText "address [::1]80:: missing port in address");
   Err (ErrText "address [::1:80: missing ']' in address"); Err (ErrText "address a]:80: unexpected ']' in address")].
Proof. vm_compute. reflexivity. Qed.

Lemma cutLast_app c l r : occurs c r = false → net.cutLast c (l +:+ String c r) = Some (l, r).
Proof.
  intros Hr. assert (net.cutLast c r = None) as Hnone.
  { induction r as [|a r IH]; [done|]. cbn in *. apply orb_false_iff in Hr as [Ha Hr]. apply bool_decide_eq_false in Ha.
    rewrite IH by done. by rewrite decide_False. }
  induction l as [|a l IH].
  - rewrite sapp_nil_l. cbn. by rewrite Hnone, decide_True.
  - rewrite sapp_cons. cbn. by rewrite IH.
Qed.

Lemma noBrackets_ok hostport fromJ fromK host port :
  occurs "["%char fromJ = false → occurs "]"%char fromK = false →
  net.noBrackets hostport fromJ fromK host port = Ok (host, port).
Proof. intros Hj Hk. unfold net.noBrackets. by rewrite Hj, Hk. Qed.

(** A host and a port that were joined come apart again, also an IPv6 address. *)
Lemma Split_JoinHostPort host port :
  occurs "["%char host = false → occurs "]"%char host = false →
  occurs ":"%char port = false → occurs "["%char port = false → occurs "]"%char port = false →
  net.SplitHostPort (net.JoinHostPort host port) = Ok (host, port).
Proof.
  intros Ho Hc Hp Hpo Hpc. unfold net.JoinHostPort. destruct (occurs ":"%char host) eqn:Hcolon.
  - assert ("[" +:+ host +:+ "]:" +:+ port = (String "[" (host +:+ "]")) +:+ String ":" port) as Heq.
    { rewrite !sapp_cons, !sapp_nil_l, <- sapp_assoc. by rewrite sapp_cons, sapp_nil_l. }
    rewrite Heq. unfold net.SplitHostPort. rewrite cutLast_app by done. rewrite sapp_cons, <- sapp_assoc.
    change ("]" +:+ String ":" port) with (String "]" (String ":" port)).
    rewrite cut_app by done. rewrite decide_False by done.
    rewrite decide_True by (cbn; rewrite slength_app; cbn; lia).
    apply noBrackets_ok; rewrite ?occurs_app; cbn; by rewrite ?Ho, ?Hpo, ?Hpc.
  - change (host +:+ ":" +:+ port) with (host +:+ String ":" port). unfold net.SplitHostPort.
    rewrite cutLast_app by done.
    assert (occurs "["%char (host +:+ String ":" port) = false ∧ occurs "]"%char (host +:+ String ":" port) = false) as [H1 H2].
    { rewrite !occurs_app. cbn. by rewrite Ho, Hc, Hpo, Hpc. }
    rewrite Hcolon, noBrackets_ok by done.
    destruct host as [|a host]; [done|]. rewrite sapp_cons in *. cbn in Ho. apply orb_false_iff in Ho as [Ha _].
    apply bool_decide_eq_false in Ha. by destruct a as [[] [] [] [] [] [] [] []].
Qed.
