(* ===== verification/GoUrl.v ===== *)
(** * Go's [net/url]: [Parse]

    As in Go 1.20.  The URL has the fields the parser sets; the user name and
    password are checked and not kept, since no caller reads them.  An error
    has the text of the parser's own error, without the quoted URL that
    [url.Error] puts before it and without the quotation marks around parts of
    the URL. *)

From S2P Require Import Prelude GoStrings GoNet.
Local Open Scope go_scope.

Module url.

Record URL := mkURL {
  Scheme : string;
  Opaque : string;
  Host : string;
  Path : string;
  RawQuery : string;
  Fragment : string
}.

(** Whether every byte of a text is one of [p]. *)
Fixpoint all (p : ascii → bool) (s : string) : bool :=
  match s with
  | "" => true
  | String c s' => p c && all p s'
  end.

Definition code (c : ascii) : N := N_of_ascii c.

Definition isLetter (c : ascii) : bool :=
  (97 <=? code c)%N && (code c <=? 122)%N || (65 <=? code c)%N && (code c <=? 90)%N.
Definition isDigit (c : ascii) : bool := (48 <=? code c)%N && (code c <=? 57)%N.
Definition isCTL (c : ascii) : bool := (code c <? 32)%N || (code c =? 127)%N.

Definition oneOf (chars : string) (c : ascii) : bool := occurs c chars.

(** ** Escapes *)

Inductive encoding := encodePath | encodeUserPassword | encodeHost | encodeZone | encodeFragment.

(** [shouldEscape(c, encodeHost)], and the same for [encodeZone]; a quotation
    mark (34) is allowed too. *)
Definition shouldEscapeHost (c : ascii) : bool :=
  negb (isLetter c || isDigit c || oneOf "!$&'()*+,;=:[]<>-_.~" c || (code c =? 34)%N).

Definition checksHost (mode : encoding) : bool :=
  match mode with encodeHost | encodeZone => true | _ => false end.

Definition escapeError (s : string) : goerror := ErrText ("invalid URL escape " +:+ s).

(** What the first loop of [unescape] rejects of an escape %ab. *)
Definition badEscape (mode : encoding) (a b : ascii) (va vb : Z) : bool :=
  let is25 := bool_decide (a = "2"%char) && bool_decide (b = "5"%char) in
  match mode with
  | encodeHost => (va <? 8)%Z && negb is25
  | encodeZone =>
      let v := ascii_of_N (Z.to_N (va * 16 + vb)) in
      negb is25 && negb (bool_decide (v = " "%char)) && shouldEscapeHost v
  | _ => false
  end.

(** Both loops of [unescape]: the escapes are checked and replaced. *)
Fixpoint unescape (mode : encoding) (s : string) : res string :=
  match s with
  | "" => Ok ""
  | String "%" (String a (String b rest)) =>
      match net.hexDigit a, net.hexDigit b with
      | Some va, Some vb =>
          if badEscape mode a b va vb then Err (escapeError (String "%" (String a (String b ""))))
          else
            let? t := unescape mode rest in
            Ok (String (ascii_of_N (Z.to_N (va * 16 + vb))) t)
      | _, _ => Err (escapeError (String "%" (String a (String b ""))))
      end
  | String "%" short => Err (escapeError (String "%" short))
  | String c rest =>
      if checksHost mode && (code c <? 128)%N && shouldEscapeHost c then
        Err (ErrText ("invalid character " +:+ String c "" +:+ " in host name"))
      else let? t := unescape mode rest in Ok (String c t)
  end.

(** ** Parts of a URL *)

(** [getScheme]; [scheme] are the bytes passed so far. *)
Fixpoint getSchemeFrom (rawURL scheme rest : string) : res (string * string) :=
  match rest with
  | "" => Ok ("", rawURL)
  | String c rest' =>
      if isLetter c then getSchemeFrom rawURL (scheme +:+ String c "") rest'
      else if isDigit c || oneOf "+-." c then
        if decide (scheme = "") then Ok ("", rawURL)
        else getSchemeFrom rawURL (scheme +:+ String c "") rest'
      else if decide (c = ":"%char) then
        if decide (scheme = "") then Err (ErrText "missing protocol scheme") else Ok (scheme, rest')
      else Ok ("", rawURL)
  end.
Definition getScheme (rawURL : string) : res (string * string) := getSchemeFrom rawURL "" rawURL.

Definition validOptionalPort (port : string) : bool :=
  match port with
  | "" => true
  | String c digits => bool_decide (c = ":"%char) && all isDigit digits
  end.

Definition validUserinfo : string → bool :=
  all (λ c, isLetter c || isDigit c || oneOf "-._:~!$&'()*+,;=%@" c).

(** [strings.Index(s, sub)], as the texts before and from [sub] on. *)
Fixpoint splitAt (sub s : string) : option (string * string) :=
  if strings.HasPrefix s sub then Some ("", s)
  else match s with
       | "" => None
       | String c s' => match splitAt sub s' with Some (l, r) => Some (String c l, r) | None => None end
       end.

Definition invalidPort (port : string) : goerror := ErrText ("invalid port " +:+ port +:+ " after host").

Definition parseHost (host : string) : res string :=
  if strings.HasPrefix host "[" then
    match net.cutLast "]"%char host with
    | None => Err (ErrText "missing ']' in host")
    | Some (inside, colonPort) =>
        if negb (validOptionalPort colonPort) then Err (invalidPort colonPort)
        else
          match splitAt "%25" inside with
          | Some (address, zone) =>
              let? host1 := unescape encodeHost address in
              let? host2 := unescape encodeZone zone in
              let? host3 := unescape encodeHost (String "]" colonPort) in
              Ok (host1 +:+ host2 +:+ host3)
          | None => unescape encodeHost host
          end
    end
  else
    match net.cutLast ":"%char host with
    | Some (_, port) =>
        if negb (validOptionalPort (String ":" port)) then Err (invalidPort (String ":" port))
        else unescape encodeHost host
    | None => unescape encodeHost host
    end.

(** The user information must be valid; its parts are unescaped for their
    errors. *)
Definition parseAuthority (authority : string) : res string :=
  match net.cutLast "@"%char authority with
  | None => parseHost authority
  | Some (userinfo, hostport) =>
      let? host := parseHost hostport in
      if negb (validUserinfo userinfo) then Err (ErrText "net/url: invalid userinfo")
      else
        match strings.cut ":"%char userinfo with
        | None => let? _ := unescape encodeUserPassword userinfo in Ok host
        | Some (username, password) =>
            let? _ := unescape encodeUserPassword username in
            let? _ := unescape encodeUserPassword password in
            Ok host
        end
  end.

(** [strings.Cut(s, c)]: the text is whole when [c] does not occur. *)
Definition Cut (c : ascii) (s : string) : string * string := default (s, "") (strings.cut c s).

(** The part after the scheme and before the query: authority and path. *)
Definition parseRest (scheme rest query : string) : res URL :=
  if strings.HasPrefix rest "//" && (bool_decide (scheme ≠ "") || negb (strings.HasPrefix rest "///")) then
    let afterSlashes := strings.drop 2 rest in
    let '(authority, path) := default (afterSlashes, "") (splitAt "/" afterSlashes) in
    let? host := parseAuthority authority in
    let? path := unescape encodePath path in
    Ok (mkURL scheme "" host path query "")
  else
    let? path := unescape encodePath rest in
    Ok (mkURL scheme "" "" path query "").

(** [parse(rawURL, false)].  A single "?" at the end is cut off like any other
    query, which is then empty. *)
Definition parse (rawURL : string) : res URL :=
  if negb (all (λ c, negb (isCTL c)) rawURL) then Err (ErrText "net/url: invalid control character in URL")
  else if decide (rawURL = "*") then Ok (mkURL "" "" "" "*" "" "")
  else
    let? sr := getScheme rawURL in
    let '(scheme, rest) := sr in
    let scheme := strings.ToLower scheme in
    let '(rest, query) := Cut "?"%char rest in
    if negb (strings.HasPrefix rest "/") then
      if decide (scheme ≠ "") then Ok (mkURL scheme rest "" "" query "")
      else if occurs ":"%char (Cut "/"%char rest).1 then
        Err (ErrText "first path segment in URL cannot contain colon")
      else parseRest scheme rest query
    else parseRest scheme rest query.

Definition Parse (rawURL : string) : res URL :=
  let '(u, frag) := Cut "#"%char rawURL in
  let? url := parse u in
  if decide (frag = "") then Ok url
  else
    let? fragment := unescape encodeFragment frag in
    Ok (mkURL (Scheme url) (Opaque url) (Host url) (Path url) (RawQuery url) fragment).

End url.

Example Parse_hosts :
  (λ s, match url.Parse s with Ok u => Some (url.Host u) | _ => None end) <$>
    ["https://api.example.com:6443/k8s?x=1#top"; "HTTPS://admin:pw@10.0.0.1"; "https://[fe80::1%25en0]:6443/";
     "api.example.com:6443"; "10.0.0.1:6443"; "api.example.com"; "//api.example.com/k8s"; "https://api example.com";
     "https://api.example.com:port"; "https://%61pi.example.com"; ":6443"; "https://[::1"; "https:///path"; ""; "*"; "https://a%zz"] =
  [Some "api.example.com:6443"; Some "10.0.0.1"; Some "[fe80::1%en0]:6443"; Some ""; None; Some ""; Some "api.example.com"; None;
   None; None; None; None; Some ""; Some ""; Some ""; None].
Proof. vm_compute. reflexivity. Qed.

(** ** Properties *)

Lemma all_app p s t : url.all p (s +:+ t) = url.all p s && url.all p t.
Proof. induction s as [|c s IH]; [done|]. rewrite sapp_cons. cbn. by rewrite IH, andb_assoc. Qed.

Lemma all_impl (p q : ascii → bool) s : (∀ c, p c = true → q c = true) → url.all p s = true → url.all q s = true.
Proof. intros Hpq. induction s as [|c s IH]; [done|]. cbn. rewrite !andb_true_iff. naive_solver. Qed.

(** A byte outside of [p] does not occur in a text of bytes of [p]. *)
Lemma all_occurs p c s : url.all p s = true → p c = false → occurs c s = false.
Proof.
  intros Hs Hc. induction s as [|a s IH]; [done|]. cbn in *. apply andb_true_iff in Hs as [Ha Hs].
  rewrite IH by done. rewrite bool_decide_eq_false_2; [done|]. congruence.
Qed.

Lemma cut_no c s : occurs c s = false → strings.cut c s = None.
Proof.
  induction s as [|a s IH]; [done|]. cbn. intros [Ha Hs]%orb_false_iff. apply bool_decide_eq_false in Ha.
  by rewrite decide_False, IH.
Qed.

Lemma cutLast_no c s : occurs c s = false → net.cutLast c s = None.
Proof.
  induction s as [|a s IH]; [done|]. cbn. intros [Ha Hs]%orb_false_iff. apply bool_decide_eq_false in Ha.
  by rewrite IH, decide_False.
Qed.

Lemma Cut_no c s : occurs c s = false → url.Cut c s = (s, "").
Proof. intros H. unfold url.Cut. by rewrite cut_no. Qed.

Lemma splitAt_no c s : occurs c s = false → url.splitAt (String c "") s = None.
Proof.
  induction s as [|a s IH]; [done|]. cbn. intros [Ha Hs]%orb_false_iff. apply bool_decide_eq_false in Ha.
  rewrite IH by done. destruct (Ascii.ascii_dec c a) as [->|]; [done|]. done.
Qed.

Lemma splitAt_app c l r : occurs c l = false → url.splitAt (String c "") (l +:+ String c r) = Some (l, String c r).
Proof.
  induction l as [|a l IH]; rewrite ?sapp_cons, ?sapp_nil_l; cbn.
  - intros _. destruct (Ascii.ascii_dec c c); [|done]. by destruct r.
  - intros [Ha Hl]%orb_false_iff. apply bool_decide_eq_false in Ha. destruct (Ascii.ascii_dec c a) as [->|]; [done|].
    by rewrite IH.
Qed.

(** A byte that is no escape. *)
Lemma unescape_cons mode c s :
  c ≠ "%"%char →
  url.unescape mode (String c s) =
  if url.checksHost mode && (url.code c <? 128)%N && url.shouldEscapeHost c
  then Err (ErrText ("invalid character " +:+ String c "" +:+ " in host name"))
  else rbind (url.unescape mode s) (λ t, Ok (String c t)).
Proof. intros Hc. by destruct c as [[] [] [] [] [] [] [] []]. Qed.

(** Text without escapes is unchanged, in a host if its bytes are allowed there. *)
Lemma unescape_plain mode s :
  occurs "%"%char s = false → (url.checksHost mode = true → url.all (λ c, negb (url.shouldEscapeHost c)) s = true) →
  url.unescape mode s = Ok s.
Proof.
  induction s as [|c s IH]; [done|]. cbn [occurs]. intros [Hc Hs]%orb_false_iff Hall.
  apply bool_decide_eq_false in Hc. rewrite unescape_cons by congruence.
  destruct (url.checksHost mode) eqn:Hm; cbn [andb].
  - specialize (Hall eq_refl). cbn in Hall. apply andb_true_iff in Hall as [Hc' Hall].
    apply negb_true_iff in Hc'. rewrite Hc', andb_false_r, IH; [done|done|]. by intros _.
  - rewrite IH; [done|done|]. by intros.
Qed.

Lemma getScheme_letters scheme rest :
  url.all url.isLetter scheme = true → scheme ≠ "" →
  url.getScheme (scheme +:+ String ":" rest) = Ok (scheme, rest).
Proof.
  intros Hall Hne. unfold url.getScheme. generalize (scheme +:+ String ":" rest) at 1. intros raw.
  assert (∀ acc s, url.all url.isLetter s = true → acc +:+ s ≠ "" →
            url.getSchemeFrom raw acc (s +:+ String ":" rest) = Ok (acc +:+ s, rest)) as Hgen.
  { intros acc s. revert acc. induction s as [|c s IH]; intros acc Hs Hacc.
    - rewrite sapp_nil_l, sapp_nil_r in *. cbn [url.getSchemeFrom].
      change (url.isLetter ":") with false. change (url.isDigit ":" || url.oneOf "+-." ":") with false. cbn [orb].
      by rewrite decide_True, decide_False.
    - cbn in Hs. apply andb_true_iff in Hs as [Hc Hs]. rewrite sapp_cons. cbn [url.getSchemeFrom]. rewrite Hc.
      rewrite IH; [|done|].
      + by rewrite <- sapp_assoc.
      + rewrite <- sapp_assoc. exact Hacc. }
  by rewrite (Hgen "" scheme).
Qed.

(** *** Absolute URLs *)

(** The bytes of host names and IPv4 addresses, and of plain paths. *)
Definition hostByte (c : ascii) : bool := url.isLetter c || url.isDigit c || url.oneOf "-." c.
Definition pathByte (c : ascii) : bool := hostByte c || url.oneOf "/_~" c.
Definition urlByte (c : ascii) : bool := pathByte c || url.oneOf ":" c.

(** A finite claim about bytes, checked on all of them. *)
Lemma every_byte (p : ascii → bool) :
  forallb (λ n, p (ascii_of_nat n)) (seq 0 256) = true → ∀ c, p c = true.
Proof.
  intros H c. rewrite forallb_forall in H. rewrite <- (ascii_nat_embedding c). apply H.
  apply in_seq. pose proof (nat_ascii_bounded c). lia.
Qed.

Lemma byte_impl (p q : ascii → bool) :
  forallb (λ n, implb (p (ascii_of_nat n)) (q (ascii_of_nat n))) (seq 0 256) = true → ∀ c, p c = true → q c = true.
Proof. intros H c Hp. apply (every_byte (λ c, implb (p c) (q c))) with (c := c) in H. by rewrite Hp in H. Qed.

Ltac solve_bytes := apply byte_impl; vm_compute; reflexivity.

Lemma port_bytes port : url.validOptionalPort port = true →
  port = "" ∨ ∃ digits, port = String ":" digits ∧ url.all url.isDigit digits = true.
Proof.
  destruct port as [|c digits]; [by left|]. cbn. intros [Hc Hd]%andb_true_iff. apply bool_decide_eq_true in Hc as ->.
  right. by exists digits.
Qed.

Lemma parseHost_plain host port :
  url.all hostByte host = true → url.validOptionalPort port = true → url.parseHost (host +:+ port) = Ok (host +:+ port).
Proof.
  intros Hh Hp.
  assert (url.unescape url.encodeHost (host +:+ port) = Ok (host +:+ port)) as Hu.
  { apply unescape_plain; [|intros _]; rewrite ?occurs_app, ?all_app.
    - rewrite (all_occurs hostByte) by done. destruct (port_bytes port Hp) as [->|(d & -> & Hd)]; [done|].
      cbn. by apply (all_occurs url.isDigit).
    - apply andb_true_iff. split.
      + eapply all_impl; [|exact Hh]. solve_bytes.
      + destruct (port_bytes port Hp) as [->|(d & -> & Hd)]; [done|]. cbn. eapply all_impl; [|exact Hd]. solve_bytes. }
  assert (strings.HasPrefix (host +:+ port) "[" = false) as Hb.
  { destruct host as [|c host]; [rewrite sapp_nil_l; destruct (port_bytes port Hp) as [->|(d & -> & Hd)]; [done|]; by destruct d|].
    rewrite sapp_cons. cbn in Hh. apply andb_true_iff in Hh as [Hc _].
    apply not_true_is_false. intros [u E]%prefix_spec. rewrite sapp_cons in E. by injection E as ->. }
  unfold url.parseHost. rewrite Hb. destruct (port_bytes port Hp) as [->|(d & -> & Hd)].
  - rewrite cutLast_no; [done|]. rewrite sapp_nil_r. by apply (all_occurs hostByte).
  - rewrite cutLast_app by (by apply (all_occurs url.isDigit)). by rewrite Hp.
Qed.

(** An absolute URL of a plain host, an optional port and a plain path has
    exactly these parts. *)
Theorem Parse_absolute scheme host port path :
  url.all url.isLetter scheme = true → scheme ≠ "" →
  url.all hostByte host = true → url.validOptionalPort port = true →
  url.all pathByte path = true → path = "" ∨ strings.HasPrefix path "/" = true →
  url.Parse (scheme +:+ "://" +:+ host +:+ port +:+ path) =
  Ok (url.mkURL (strings.ToLower scheme) "" (host +:+ port) path "" "").
Proof.
  intros Hs Hne Hh Hp Hpath Hslash.
  set (rest := String "/" (String "/" (host +:+ port +:+ path))).
  change (scheme +:+ "://" +:+ host +:+ port +:+ path) with (scheme +:+ String ":" rest).
  assert (url.all urlByte port = true) as Hport.
  { destruct (port_bytes port Hp) as [->|(d & -> & Hd)]; [done|]. cbn. eapply all_impl; [|exact Hd]. solve_bytes. }
  assert (url.all urlByte rest = true) as Hrest.
  { unfold rest. cbn [url.all]. rewrite !all_app, Hport. change (urlByte "/") with true. cbn [andb].
    apply andb_true_iff. split; [eapply all_impl; [|exact Hh]|eapply all_impl; [|exact Hpath]]; solve_bytes. }
  assert (url.all urlByte (scheme +:+ String ":" rest) = true) as Hall.
  { rewrite all_app. apply andb_true_iff. split; [|done]. eapply all_impl; [|exact Hs]. solve_bytes. }
  unfold url.Parse. rewrite Cut_no by (by apply (all_occurs urlByte)). unfold url.parse.
  rewrite (all_impl urlByte) by (done || solve_bytes). cbn [negb].
  rewrite decide_False by (destruct scheme as [|c [|? ?]]; [done|rewrite sapp_cons, sapp_nil_l; congruence|done]).
  rewrite getScheme_letters by done. cbn [rbind]. rewrite Cut_no by (by apply (all_occurs urlByte)).
  assert (strings.HasPrefix rest "/" = true) as -> by (apply (prefix_spec "/"); by eexists (String "/" _)).
  unfold url.parseRest. assert (strings.HasPrefix rest "//" = true) as -> by (apply (prefix_spec "//"); by eexists).
  cbn [negb andb]. unfold rest.
  rewrite bool_decide_eq_true_2 by (by destruct scheme). cbn [orb strings.drop].
  assert (default (host +:+ port +:+ path, "") (url.splitAt "/" (host +:+ port +:+ path)) = (host +:+ port, path)) as ->.
  { rewrite sapp_assoc. assert (occurs "/"%char (host +:+ port) = false) as Hno.
    { rewrite occurs_app, (all_occurs hostByte) by done.
      destruct (port_bytes port Hp) as [->|(d & -> & Hd)]; [done|]. cbn. by apply (all_occurs url.isDigit). }
    destruct Hslash as [->|[p ->]%prefix_spec]; [by rewrite sapp_nil_r, splitAt_no|].
    change ("/" +:+ p) with (String "/" p). by rewrite splitAt_app. }
  assert (url.parseAuthority (host +:+ port) = Ok (host +:+ port)) as Ha.
  { unfold url.parseAuthority. rewrite cutLast_no; [by apply parseHost_plain|].
    rewrite occurs_app, (all_occurs hostByte) by done. by apply (all_occurs urlByte). }
  rewrite Ha. cbn [rbind]. rewrite unescape_plain; [done|by apply (all_occurs pathByte)|done].
Qed.
