(* ===== verification/Google.v ===== *)
(** * The Google Cloud DNS provider (pkg/dns/google/google.go)

    Endpoints become resource record sets, one for each DNS name; a change
    replaces the record sets of the record's status by those of its spec, in
    batches.  The Google API client is an argument. *)

From S2P Require Import Prelude GoStrings GoNet Kube ApiTypes Target Endpoints.
Local Open Scope go_scope.

(** ** Data of the API (google.golang.org/api/dns/v1) *)

(** [float64] and [strconv.ParseFloat]. *)
Class GoFloat := {
  float64 : Type;
  float_of_int : Z → float64;
  ParseFloat : string → option float64
}.

Definition GoogleBatchChangeSize : nat := Z.to_nat 1000.
Definition defaultGeo : string := "europe-west1".

Inductive action := upsertAction | deleteAction.

(** pkg/dns/dns.go, ManagedZoneOutput *)
Record ManagedZoneOutput := mkZoneOutput {
  zoID : string;
  zoNameServers : list string;
  zoRecordCount : Z
}.

Section google.

Context `{GoFloat}.

Record WrrItem := mkWrrItem { wrrRrdatas : list string; wrrWeight : float64 }.
Record GeoItem := mkGeoItem { geoLocation : string; geoRrdatas : list string }.

(** RRSetRoutingPolicy: one of the two, set by the code. *)
Inductive RoutingPolicy :=
| Wrr (items : list WrrItem)
| GeoPolicy (items : list GeoItem).

Record ResourceRecordSet := mkRRSet {
  rrName : string;
  rrTtl : Z;
  rrType : string;
  rrRrdatas : list string;
  rrRoutingPolicy : option RoutingPolicy
}.

Record Change := mkChange {
  Additions : list ResourceRecordSet;
  Deletions : list ResourceRecordSet
}.

(** dnsv1.ManagedZone *)
Record GManagedZone := mkGZone {
  gzName : string;
  gzDnsName : string;
  gzDescription : string;
  gzNameServers : list string
}.

(** ** Names and record sets *)

Definition ensureTrailingDot (hostname : string) : string :=
  if net.isIP hostname then hostname
  else strings.TrimSuffix hostname "." +:+ ".".

(** The targets of an endpoint; a CNAME without targets panics. *)
Definition endpointTargets (ep : Endpoint) : res (list string) :=
  if bool_decide (RecordType ep = CNAMERecordType) then
    match Targets ep with
    | [] => Panic
    | t :: ts => Ok (ensureTrailingDot t :: ts)
    end
  else Ok (Targets ep).

Definition propertyValue (ep : Endpoint) (key : string) : string :=
  match GetProviderSpecificProperty ep key with
  | Some p => PropValue p
  | None => ""
  end.

Definition endpointWeight (ep : Endpoint) : float64 :=
  match ParseFloat (propertyValue ep ProviderSpecificWeight) with
  | Some w => w
  | None => float_of_int 0
  end.

(** The body of the loop over the endpoints of one name (lines 453-494), on the
    data and policy collected so far.  Where both properties are set the geo
    policy is nil and appending to it panics. *)
Definition addEndpoint (weighted geoCode : bool) (acc : list string * option RoutingPolicy) (ep : Endpoint)
  : res (list string * option RoutingPolicy) :=
  let '(rrdatas, policy) := acc in
  let? targets := endpointTargets ep in
  let rrdatas := if negb weighted && negb geoCode then targets else rrdatas in
  let policy :=
    match policy with
    | Some (Wrr items) => if weighted then Some (Wrr (items ++ [mkWrrItem targets (endpointWeight ep)])) else policy
    | _ => policy
    end in
  if geoCode then
    let geoCodeValue := propertyValue ep ProviderSpecificGeoCode in
    match Targets ep with
    | [] => Panic
    | t :: _ =>
        let targetIsDefaultGroup := strings.HasPrefix t DefaultGeo in
        let add location :=
          match policy with
          | Some (GeoPolicy items) => Ok (rrdatas, Some (GeoPolicy (items ++ [mkGeoItem location targets])))
          | _ => Panic
          end in
        if bool_decide (geoCodeValue = "*") then
          if negb targetIsDefaultGroup then Ok (rrdatas, policy) else add defaultGeo
        else add geoCodeValue
    end
  else Ok (rrdatas, policy).

Definition hasProperty (ep : Endpoint) (key : string) : bool :=
  match GetProviderSpecificProperty ep key with
  | Some _ => true
  | None => false
  end.

(** One name (lines 431-495); the group is never empty. *)
Definition toResourceRecordSet (dnsName : string) (endpoints : list Endpoint) : res ResourceRecordSet :=
  match endpoints with
  | [] => Panic
  | first :: _ =>
      let weighted := hasProperty first ProviderSpecificWeight in
      let geoCode := hasProperty first ProviderSpecificGeoCode in
      let policy := if weighted then Some (Wrr []) else if geoCode then Some (GeoPolicy []) else None in
      let? (rrdatas, policy) := rfold (addEndpoint weighted geoCode) ([], policy) endpoints in
      Ok (mkRRSet (ensureTrailingDot dnsName) (RecordTTL first) (RecordType first) rrdatas policy)
  end.

(** [endpointMap[ep.DNSName] = append(endpointMap[ep.DNSName], ep)] *)
Definition groupByName (eps : list Endpoint) : gmap string (list Endpoint) :=
  foldl (λ m ep, <[DNSName ep := default [] (m !! DNSName ep) ++ [ep]]> m) ∅ eps.

Definition toResourceRecordSets `{MapRange} (allEndpoints : list Endpoint) : res (list ResourceRecordSet) :=
  rfold (λ records group,
    let? record := toResourceRecordSet group.1 group.2 in
    Ok (records ++ [record])) [] (range_map (groupByName allEndpoints)).

(** ** Batches *)

Definition addAddition (m : gmap string Change) (a : ResourceRecordSet) : gmap string Change :=
  let c := default (mkChange [] []) (m !! rrName a) in
  <[rrName a := mkChange (Additions c ++ [a]) (Deletions c)]> m.

Definition addDeletion (m : gmap string Change) (a : ResourceRecordSet) : gmap string Change :=
  let c := default (mkChange [] []) (m !! rrName a) in
  <[rrName a := mkChange (Additions c) (Deletions c ++ [a])]> m.

Definition changesByName (change : Change) : gmap string Change :=
  foldl addDeletion (foldl addAddition ∅ (Additions change)) (Deletions change).

Definition changeSize (c : Change) : nat := length (Additions c) + length (Deletions c).

(** What the loop over the names carries: the batches, the current one and its
    size. *)
Record BatchLoop := mkBatchLoop {
  blChanges : list Change;
  blCurrent : Change;
  blTotal : nat
}.

Definition batchStep (batchSize : nat) (s : BatchLoop) (c : Change) : BatchLoop :=
  let totalChangesByName := changeSize c in
  if decide (batchSize < totalChangesByName) then s
  else
    let s :=
      if decide (batchSize < blTotal s + totalChangesByName)
      then mkBatchLoop (blChanges s ++ [blCurrent s]) (mkChange [] []) 0
      else s in
    mkBatchLoop (blChanges s)
      (mkChange (Additions (blCurrent s) ++ Additions c) (Deletions (blCurrent s) ++ Deletions c))
      (blTotal s + totalChangesByName).

(** The names, sorted ([sort.Strings]), with their changes. *)
Definition sortedChanges (change : Change) : list Change :=
  let m := changesByName change in
  omap (λ name, m !! name) (merge_sort String.le ((map_to_list m).*1)).

Definition batchChange (change : Change) (batchSize : nat) : list Change :=
  if decide (batchSize = 0) then [change]
  else
    let s := foldl (batchStep batchSize) (mkBatchLoop [] (mkChange [] []) 0) (sortedChanges change) in
    if decide (0 < blTotal s) then blChanges s ++ [blCurrent s] else blChanges s.

(** ** The provider *)

(** The Google API: zones, record sets, changes. *)
Class GoogleApi (W : Type) := {
  zonesCreate : string → GManagedZone → M W GManagedZone;
  zonesGet : string → string → M W GManagedZone;
  zonesDelete : string → string → M W unit;
  (** the pages of [ResourceRecordSets.List(project, zone)] *)
  recordSetsPages : string → string → M W (list (list ResourceRecordSet));
  changesCreate : string → string → Change → M W Change
}.

Context {W : Type} `{GoogleApi W} `{MapRange}.

Record GoogleDNSProvider := mkGoogle {
  project : string;
  dryRun : bool;
  batchChangeSize : nat
}.

(** [Pages] calls the closure that appends a page to [records] once per page. *)
Definition getResourceRecordSets (g : GoogleDNSProvider) (zoneID : string) : M W (list ResourceRecordSet) :=
  let! pages := recordSetsPages (project g) zoneID in
  ret (foldl (λ records page, records ++ page) [] pages).

Definition toManagedZoneOutput (g : GoogleDNSProvider) (mz : GManagedZone) : M W ManagedZoneOutput :=
  let! currentRecords := getResourceRecordSets g (gzName mz) in
  ret (mkZoneOutput (gzName mz) (gzNameServers mz) (Z.of_nat (length currentRecords))).

Definition getManagedZone (g : GoogleDNSProvider) (zoneID : string) : M W ManagedZoneOutput :=
  let! mz := zonesGet (project g) zoneID in
  toManagedZoneOutput g mz.

Definition createManagedZone (g : GoogleDNSProvider) (managedZone : ManagedZone) : M W ManagedZoneOutput :=
  let domain := DomainName (zSpec managedZone) in
  let zone := mkGZone (strings.ReplaceAll domain "." "-") (ensureTrailingDot domain)
                (Description (zSpec managedZone)) [] in
  let! mz := zonesCreate (project g) zone in
  toManagedZoneOutput g mz.

Definition google_EnsureManagedZone (g : GoogleDNSProvider) (managedZone : ManagedZone) : M W ManagedZoneOutput :=
  let zoneID :=
    if bool_decide (zsID (zSpec managedZone) = "") then zID (zStatus managedZone)
    else zsID (zSpec managedZone) in
  if bool_decide (zoneID = "") then createManagedZone g managedZone
  else getManagedZone g zoneID.

Definition google_DeleteManagedZone (g : GoogleDNSProvider) (managedZone : ManagedZone) : M W unit :=
  zonesDelete (project g) (zID (zStatus managedZone)).

Definition submitChange (g : GoogleDNSProvider) (change : Change) (zone : string) : M W unit :=
  match Additions change, Deletions change with
  | [], [] => ret tt
  | _, _ =>
      forEach (batchChange change (batchChangeSize g)) (λ c,
        if dryRun g then ret tt
        else do! changesCreate (project g) zone c in ret tt)
  end.

(** [m[record.Name] = record] for each record in turn *)
Definition byName (records : list ResourceRecordSet) : gmap string ResourceRecordSet :=
  foldl (λ m record, <[rrName record := record]> m) ∅ records.

(** The change [updateRecord] submits. *)
Definition recordChange (currentRecords : list ResourceRecordSet) (dnsRecord : DNSRecord) (act : action)
  : res Change :=
  let currentRecordsMap := byName currentRecords in
  let? statusRecords := toResourceRecordSets (recEndpoints (recStatus dnsRecord)) in
  let statusRecordsMap := byName statusRecords in
  let deletingRecords :=
    omap (λ entry : string * ResourceRecordSet, currentRecordsMap !! entry.1) (range_map statusRecordsMap) in
  let? addingRecords := toResourceRecordSets (Endpoints (recSpec dnsRecord)) in
  match act with
  | deleteAction => Ok (mkChange [] deletingRecords)
  | upsertAction => Ok (mkChange addingRecords deletingRecords)
  end.

Definition google_updateRecord (g : GoogleDNSProvider) (dnsRecord : DNSRecord) (zoneID : string) (act : action)
  : M W unit :=
  let! currentRecords := getResourceRecordSets g zoneID in
  let! change := lift (recordChange currentRecords dnsRecord act) in
  submitChange g change zoneID.

Definition google_Ensure (g : GoogleDNSProvider) (record : DNSRecord) (managedZone : ManagedZone) : M W unit :=
  google_updateRecord g record (zID (zStatus managedZone)) upsertAction.

Definition google_Delete (g : GoogleDNSProvider) (record : DNSRecord) (managedZone : ManagedZone) : M W unit :=
  google_updateRecord g record (zID (zStatus managedZone)) deleteAction.

End google.

(** ** Lemmas on batches *)

Section batches.

Context `{GoFloat}.
Implicit Types (change c : Change) (r : ResourceRecordSet).

(** All changes of one name. *)
Definition changesOf change (name : string) : Change :=
  mkChange (filter (λ r, rrName r = name) (Additions change))
           (filter (λ r, rrName r = name) (Deletions change)).

Lemma additions_lookup m adds n :
  foldl addAddition m adds !! n =
  match filter (λ r, rrName r = n) adds with
  | [] => m !! n
  | rs => let c := default (mkChange [] []) (m !! n) in Some (mkChange (Additions c ++ rs) (Deletions c))
  end.
Proof.
  revert m. induction adds as [|a adds IH]; intros m; [done|]. simpl. rewrite IH. unfold addAddition.
  rewrite lookup_insert, filter_cons. case_decide; subst.
  - destruct (filter _ adds); simpl; [done|]. by rewrite <- (assoc_L (++)).
  - done.
Qed.

Lemma deletions_lookup m dels n :
  foldl addDeletion m dels !! n =
  match filter (λ r, rrName r = n) dels with
  | [] => m !! n
  | rs => let c := default (mkChange [] []) (m !! n) in Some (mkChange (Additions c) (Deletions c ++ rs))
  end.
Proof.
  revert m. induction dels as [|a dels IH]; intros m; [done|]. simpl. rewrite IH. unfold addDeletion.
  rewrite lookup_insert, filter_cons. case_decide; subst.
  - destruct (filter _ dels); simpl; [done|]. by rewrite <- (assoc_L (++)).
  - done.
Qed.

Lemma changesByName_lookup change n :
  changesByName change !! n =
  if decide (changeSize (changesOf change n) = 0) then None else Some (changesOf change n).
Proof.
  unfold changesByName, changesOf, changeSize. rewrite deletions_lookup, additions_lookup, lookup_empty. simpl.
  by destruct (filter _ (Deletions change)), (filter _ (Additions change)); simpl; rewrite ?app_nil_r.
Qed.

(** The names that have changes. *)
Definition changeNames change : list string := merge_sort String.le ((map_to_list (changesByName change)).*1).

Lemma changeNames_NoDup change : NoDup (changeNames change).
Proof. unfold changeNames. rewrite merge_sort_Permutation. apply NoDup_fst_map_to_list. Qed.

Lemma elem_of_changeNames change n :
  n ∈ changeNames change ↔ changeSize (changesOf change n) ≠ 0.
Proof.
  unfold changeNames. rewrite merge_sort_Permutation, list_elem_of_fmap. split.
  - intros ([n' c] & -> & Hin). rewrite elem_of_map_to_list, changesByName_lookup in Hin. by case_decide.
  - intros Hs. exists (n, changesOf change n). split; [done|].
    rewrite elem_of_map_to_list, changesByName_lookup. by rewrite decide_False.
Qed.

Lemma sortedChanges_eq change : sortedChanges change = changesOf change <$> changeNames change.
Proof.
  unfold sortedChanges. fold (changeNames change).
  assert (∀ n, n ∈ changeNames change → changesByName change !! n = Some (changesOf change n)) as Hl.
  { intros n Hn%elem_of_changeNames. rewrite changesByName_lookup. by rewrite decide_False. }
  induction (changeNames change) as [|n ns IH]; [done|]. simpl. rewrite Hl by left.
  f_equal. apply IH. intros m Hm. apply Hl. by right.
Qed.

(** The invariant of the loop over the names, with the changes [kept] so far. *)
Record BatchInv (batchSize : nat) (s : BatchLoop) (kept : list Change) : Prop := {
  bi_total : blTotal s = changeSize (blCurrent s);
  bi_small : blTotal s ≤ batchSize;
  bi_full : Forall (λ b, 0 < changeSize b ≤ batchSize) (blChanges s);
  bi_adds : (b ← blChanges s ++ [blCurrent s]; Additions b) = (c ← kept; Additions c);
  bi_dels : (b ← blChanges s ++ [blCurrent s]; Deletions b) = (c ← kept; Deletions c);
  bi_whole : Forall (λ c, Exists (λ b, Additions c ⊆ Additions b ∧ Deletions c ⊆ Deletions b)
                            (blChanges s ++ [blCurrent s])) kept
}.

Lemma batchStep_inv batchSize s kept c :
  BatchInv batchSize s kept → 0 < changeSize c →
  BatchInv batchSize (batchStep batchSize s c)
    (kept ++ (if decide (batchSize < changeSize c) then [] else [c])).
Proof.
  intros Hinv Hc. unfold batchStep. case_decide as Hbig; [by rewrite app_nil_r|].
  set (s' := if decide (batchSize < blTotal s + changeSize c)
             then mkBatchLoop (blChanges s ++ [blCurrent s]) (mkChange [] []) 0 else s).
  assert (BatchInv batchSize s' kept ∧ blTotal s' + changeSize c ≤ batchSize) as [Hinv' Hfits].
  { unfold s'. case_decide as Hfull; [|split; [done|lia]]. destruct Hinv as [Ht Hs Hf Ha Hd Hw]. split; [|simpl; lia].
    split; simpl; [done|lia|..].
    - apply Forall_app. split; [done|]. constructor; [|done]. lia.
    - by rewrite bind_app, Ha, app_nil_r.
    - by rewrite bind_app, Hd, app_nil_r.
    - eapply Forall_impl; [done|]. intros x Hx. apply Exists_app. by left. }
  clearbody s'. clear Hinv s Hbig. destruct Hinv' as [Ht Hs Hf Ha Hd Hw].
  split; simpl; [|lia|done|..].
  - unfold changeSize in *. simpl. rewrite !length_app. lia.
  - rewrite !bind_app, !bind_singleton in *. simpl. by rewrite (assoc_L (++)), Ha.
  - rewrite !bind_app, !bind_singleton in *. simpl. by rewrite (assoc_L (++)), Hd.
  - apply Forall_app. split.
    + eapply Forall_impl; [done|]. intros x. rewrite !Exists_app, !Exists_cons, !Exists_nil. simpl.
      intros [?|[[??]|[]]]; [by left|]. right; left. set_solver.
    + constructor; [|done]. apply Exists_app. right. constructor. simpl. set_solver.
Qed.

Lemma batchLoop_inv batchSize cs s kept :
  BatchInv batchSize s kept → Forall (λ c, 0 < changeSize c) cs →
  BatchInv batchSize (foldl (batchStep batchSize) s cs)
    (kept ++ filter (λ c, changeSize c ≤ batchSize) cs).
Proof.
  intros Hinv Hcs. revert s kept Hinv. induction Hcs as [|c cs Hc _ IH]; intros s kept Hinv; simpl.
  { by rewrite app_nil_r. }
  pose proof (IH _ _ (batchStep_inv _ _ _ c Hinv Hc)) as Hrest. rewrite filter_cons.
  rewrite <- (assoc_L (++)) in Hrest.
  case_decide; case_decide; try lia; done.
Qed.

(** The changes of the names that fit a batch. *)
Definition keptNames change (batchSize : nat) : list string :=
  filter (λ n, changeSize (changesOf change n) ≤ batchSize) (changeNames change).

Lemma kept_eq change batchSize :
  filter (λ c, changeSize c ≤ batchSize) (sortedChanges change) = changesOf change <$> keptNames change batchSize.
Proof. rewrite sortedChanges_eq. unfold keptNames. by rewrite filter_fmap. Qed.

(** Grouping the record sets [rs] of a change by the kept names. *)
Lemma kept_perm change batchSize (rs : list ResourceRecordSet) :
  (∀ r, r ∈ rs → changeSize (changesOf change (rrName r)) ≠ 0) →
  (n ← keptNames change batchSize; filter (λ r, rrName r = n) rs) ≡ₚ
  filter (λ r, changeSize (changesOf change (rrName r)) ≤ batchSize) rs.
Proof.
  intros Hrs. set (fits n := changeSize (changesOf change n) ≤ batchSize).
  transitivity (n ← keptNames change batchSize; filter (λ r, rrName r = n) (filter (λ r, fits (rrName r)) rs)).
  - erewrite bind_ext_in; [done|]. intros n Hn%list_elem_of_filter. symmetry.
    apply filter_filter_sub. intros r _ ->. apply Hn.
  - apply group_perm.
    + apply NoDup_filter, changeNames_NoDup.
    + intros r [Hf Hr]%list_elem_of_filter. apply list_elem_of_filter. split; [done|].
      apply elem_of_changeNames. by apply Hrs.
Qed.

Lemma addition_counts change r : r ∈ Additions change → changeSize (changesOf change (rrName r)) ≠ 0.
Proof.
  intros Hr. unfold changeSize. simpl.
  assert (r ∈ filter (λ r', rrName r' = rrName r) (Additions change)) as Hin by (by apply list_elem_of_filter).
  destruct (filter _ (Additions change)); [by apply not_elem_of_nil in Hin|done].
Qed.

Lemma deletion_counts change r : r ∈ Deletions change → changeSize (changesOf change (rrName r)) ≠ 0.
Proof.
  intros Hr. unfold changeSize. simpl.
  assert (r ∈ filter (λ r', rrName r' = rrName r) (Deletions change)) as Hin by (by apply list_elem_of_filter).
  destruct (filter _ (Deletions change)); [by apply not_elem_of_nil in Hin|simpl; lia].
Qed.

Lemma batchChange_inv change batchSize :
  batchSize ≠ 0 →
  ∃ s, BatchInv batchSize s (changesOf change <$> keptNames change batchSize) ∧
    batchChange change batchSize = if decide (0 < blTotal s) then blChanges s ++ [blCurrent s] else blChanges s.
Proof.
  intros Hb. unfold batchChange. rewrite decide_False by done. eexists. split; [|done].
  rewrite <- kept_eq. apply (batchLoop_inv batchSize (sortedChanges change) _ []).
  - split; simpl; try done; [lia|constructor..].
  - rewrite sortedChanges_eq. apply Forall_fmap, Forall_forall. intros n Hn%elem_of_changeNames. simpl. lia.
Qed.

(** C17: the batches of a change.  Every batch is non-empty and within the
    limit; together they hold exactly the additions and deletions of the names
    whose own changes fit in a batch, and the changes of one name are never
    split over two batches. *)
Theorem batches_complete change batchSize :
  batchSize ≠ 0 →
  let fits name := changeSize (changesOf change name) ≤ batchSize in
  let batches := batchChange change batchSize in
  Forall (λ b, 0 < changeSize b ≤ batchSize) batches ∧
  (b ← batches; Additions b) ≡ₚ filter (λ r, fits (rrName r)) (Additions change) ∧
  (b ← batches; Deletions b) ≡ₚ filter (λ r, fits (rrName r)) (Deletions change) ∧
  ∀ name, changeSize (changesOf change name) ≠ 0 → fits name →
    Exists (λ b, Additions (changesOf change name) ⊆ Additions b ∧
                 Deletions (changesOf change name) ⊆ Deletions b) batches.
Proof.
  intros Hb fits batches. destruct (batchChange_inv change batchSize Hb) as (s & [Ht Hs Hf Ha Hd Hw] & Heq).
  rewrite list_fmap_bind in Ha, Hd.
  assert ((b ← batches; Additions b) = (b ← blChanges s ++ [blCurrent s]; Additions b) ∧
          (b ← batches; Deletions b) = (b ← blChanges s ++ [blCurrent s]; Deletions b)) as [Hadds Hdels].
  { unfold batches. rewrite Heq. case_decide as Hz; [done|]. unfold changeSize in Ht.
    rewrite !bind_app, !bind_singleton.
    assert (Additions (blCurrent s) = []) as -> by (apply length_zero_iff_nil; lia).
    assert (Deletions (blCurrent s) = []) as -> by (apply length_zero_iff_nil; lia).
    by rewrite !app_nil_r. }
  split_and!.
  - unfold batches. rewrite Heq. case_decide; [|done]. apply Forall_app. split; [done|]. constructor; [lia|done].
  - rewrite Hadds, Ha. apply (kept_perm change batchSize (Additions change)). apply addition_counts.
  - rewrite Hdels, Hd. apply (kept_perm change batchSize (Deletions change)). apply deletion_counts.
  - intros name Hn Hfit. rewrite Forall_forall in Hw.
    assert (changesOf change name ∈ changesOf change <$> keptNames change batchSize) as Hin.
    { apply list_elem_of_fmap_2, list_elem_of_filter. by rewrite elem_of_changeNames. }
    specialize (Hw _ Hin). unfold batches. rewrite Heq. case_decide as Hz; [done|].
    apply Exists_app in Hw as [?|Hcur]; [done|]. exfalso. apply Hn. unfold changeSize in Ht |- *.
    apply Exists_cons in Hcur as [[Hca Hcd]|Hnil]; [|by apply Exists_nil in Hnil].
    assert (Additions (blCurrent s) = []) as Hna by (apply length_zero_iff_nil; lia).
    assert (Deletions (blCurrent s) = []) as Hnd by (apply length_zero_iff_nil; lia).
    rewrite Hna in Hca. rewrite Hnd in Hcd.
    apply list_nil_subseteq in Hca, Hcd. by rewrite Hca, Hcd.
Qed.

End batches.

(** ** Record sets *)

Section recordsets.

Context `{GoFloat}.
Implicit Types (ep : Endpoint) (eps : list Endpoint).

(** The targets as Google wants them: a CNAME's first target ends in a dot. *)
Definition targetsOf ep : list string :=
  match Targets ep with
  | [] => []
  | t :: ts => (if bool_decide (RecordType ep = CNAMERecordType) then ensureTrailingDot t else t) :: ts
  end.

Definition weightItem ep : WrrItem := mkWrrItem (targetsOf ep) (endpointWeight ep).

(** The endpoint is for the rest of the world, and it points to the group of the
    clusters that have no geo of their own. *)
Definition restOfWorld ep : Prop := propertyValue ep ProviderSpecificGeoCode = "*".
Definition defaultGroup ep : Prop :=
  match Targets ep with t :: _ => strings.HasPrefix t DefaultGeo = true | [] => False end.

#[local] Instance defaultGroup_dec ep : Decision (defaultGroup ep).
Proof. unfold defaultGroup. destruct (Targets ep); apply _. Defined.

(** The endpoints that get a geo item, and the item. *)
Definition geoServed ep : Prop := restOfWorld ep → defaultGroup ep.

#[local] Instance restOfWorld_dec ep : Decision (restOfWorld ep).
Proof. unfold restOfWorld. apply _. Defined.
#[local] Instance geoServed_dec ep : Decision (geoServed ep).
Proof. unfold geoServed. apply _. Defined.

Definition geoItem ep : GeoItem :=
  mkGeoItem (if decide (restOfWorld ep) then "europe-west1" else propertyValue ep ProviderSpecificGeoCode)
    (targetsOf ep).

Lemma endpointTargets_eq ep : Targets ep ≠ [] → endpointTargets ep = Ok (targetsOf ep).
Proof. unfold endpointTargets, targetsOf. destruct (Targets ep); [done|]. by case_bool_decide. Qed.

Lemma addEndpoints_weighted eps rr items :
  Forall (λ ep, Targets ep ≠ []) eps →
  rfold (addEndpoint true false) (rr, Some (Wrr items)) eps = Ok (rr, Some (Wrr (items ++ (weightItem <$> eps)))).
Proof.
  intros Hall. revert items. induction Hall as [|ep eps Ht _ IH]; intros items; cbn [rfold].
  { by rewrite app_nil_r. }
  unfold addEndpoint at 1. rewrite endpointTargets_eq by done. cbn. rewrite IH. by rewrite <- (assoc_L (++)).
Qed.

Lemma addEndpoints_geo eps rr items :
  Forall (λ ep, Targets ep ≠ []) eps →
  rfold (addEndpoint false true) (rr, Some (GeoPolicy items)) eps =
  Ok (rr, Some (GeoPolicy (items ++ (geoItem <$> filter geoServed eps)))).
Proof.
  intros Hall. revert items. induction Hall as [|ep eps Ht _ IH]; intros items; cbn [rfold].
  { by rewrite app_nil_r. }
  unfold addEndpoint at 1. rewrite endpointTargets_eq by done. cbn [rbind negb andb].
  rewrite filter_cons. destruct (Targets ep) as [|t ts] eqn:Et; [done|].
  assert (defaultGroup ep ↔ strings.HasPrefix t DefaultGeo = true) as Hgroup by (unfold defaultGroup; by rewrite Et).
  case_bool_decide as Hrest.
  - destruct (strings.HasPrefix t DefaultGeo) eqn:Ep; cbn [rbind negb]; rewrite IH.
    + rewrite decide_True by (intros _; by apply Hgroup). rewrite fmap_cons.
      unfold geoItem at 2. rewrite decide_True by done. by rewrite <- (assoc_L (++)).
    + rewrite decide_False; [done|]. intros Hs. by apply Hs, Hgroup in Hrest.
  - cbn [rbind]. rewrite IH. rewrite decide_True by (by intros ?). rewrite fmap_cons.
    unfold geoItem at 2. rewrite decide_False by done. by rewrite <- (assoc_L (++)).
Qed.

Lemma addEndpoints_plain eps rr policy :
  Forall (λ ep, Targets ep ≠ []) eps →
  rfold (addEndpoint false false) (rr, policy) eps =
  Ok (match last eps with Some ep => targetsOf ep | None => rr end, policy).
Proof.
  intros Hall. revert rr. induction Hall as [|ep eps Ht _ IH]; intros rr; cbn [rfold]; [done|].
  unfold addEndpoint at 1. rewrite endpointTargets_eq by done. cbn.
  replace (match policy with Some (Wrr _) => policy | _ => policy end) with policy by (by destruct policy as [[]|]).
  rewrite IH, last_cons. by destruct (last eps).
Qed.

(** C18: the record set of a name.  Weighted endpoints become one weighted
    item each, with their own targets and weight.  Geo endpoints become one item
    each, at the location of their geo code and with their own targets, except
    the ones for the rest of the world: such an endpoint is served from
    europe-west1 if its first target starts with the name of the default group,
    and it gets no item at all if it does not.  Plain endpoints become the
    targets of the last one.  Name, TTL and type are those of the first
    endpoint. *)
Theorem record_set_of_name dnsName first rest :
  let eps := first :: rest in
  let weighted := hasProperty first ProviderSpecificWeight in
  let geo := hasProperty first ProviderSpecificGeoCode in
  Forall (λ ep, Targets ep ≠ []) eps → weighted && geo = false →
  toResourceRecordSet dnsName eps =
  Ok (mkRRSet (ensureTrailingDot dnsName) (RecordTTL first) (RecordType first)
        (if weighted || geo then [] else match last eps with Some ep => targetsOf ep | None => [] end)
        (if weighted then Some (Wrr (weightItem <$> eps))
         else if geo then Some (GeoPolicy (geoItem <$> filter geoServed eps)) else None)).
Proof.
  intros eps weighted geo Hall Hboth. unfold toResourceRecordSet, eps. fold eps weighted geo.
  destruct weighted, geo; simpl in Hboth; [done|..].
  - by rewrite addEndpoints_weighted.
  - by rewrite addEndpoints_geo.
  - by rewrite addEndpoints_plain.
Qed.

Lemma groupByName_lookup eps n :
  groupByName eps !! n = match filter (λ e, DNSName e = n) eps with [] => None | l => Some l end.
Proof.
  unfold groupByName. induction eps as [|e eps IH] using rev_ind; [done|].
  rewrite foldl_app, filter_app. simpl. rewrite lookup_insert, filter_cons, filter_nil.
  case_decide as Hg; subst.
  - rewrite IH. by destruct (filter _ eps).
  - by rewrite IH, app_nil_r.
Qed.

Lemma toResourceRecordSet_name n eps r : toResourceRecordSet n eps = Ok r → rrName r = ensureTrailingDot n.
Proof.
  unfold toResourceRecordSet. destruct eps; [done|]. destruct (rfold _ _ _) as [[??]| |]; simpl; intros; by simplify_eq.
Qed.

Lemma record_names_fold groups acc rs :
  rfold (λ records group, let? record := toResourceRecordSet group.1 group.2 in Ok (records ++ [record])) acc groups
    = Ok rs →
  rrName <$> rs = (rrName <$> acc) ++ (ensureTrailingDot <$> groups.*1).
Proof.
  revert acc. induction groups as [|[n g] groups IH]; intros acc; cbn [rfold].
  { intros ?. simplify_eq. by rewrite app_nil_r. }
  cbn [fst snd]. destruct (toResourceRecordSet n g) as [r| |] eqn:E; simpl; try done.
  intros ->%IH. rewrite fmap_app, <- (assoc_L (++)). simpl. by rewrite (toResourceRecordSet_name _ _ _ E).
Qed.

(** A record set for every name an endpoint has, and no other. *)
Lemma record_names `{MapRange} eps rs :
  toResourceRecordSets eps = Ok rs →
  ∀ n, n ∈ rrName <$> rs ↔ ∃ e, e ∈ eps ∧ n = ensureTrailingDot (DNSName e).
Proof.
  intros Hrs%record_names_fold n. rewrite Hrs, app_nil_l, list_elem_of_fmap.
  setoid_rewrite list_elem_of_fmap. split.
  - intros (x & -> & [m g] & -> & Hin). rewrite range_map_perm, elem_of_map_to_list, groupByName_lookup in Hin.
    destruct (filter _ eps) as [|e l] eqn:E; [done|]. exists e.
    assert (e ∈ filter (λ e, DNSName e = m) eps) as [Hm ?]%list_elem_of_filter by (rewrite E; apply list_elem_of_here).
    split; [done|]. simpl. by rewrite Hm.
  - intros (e & He & ->). exists (DNSName e). split; [done|].
    exists (DNSName e, filter (λ e', DNSName e' = DNSName e) eps). split; [done|].
    rewrite range_map_perm, elem_of_map_to_list, groupByName_lookup.
    assert (e ∈ filter (λ e', DNSName e' = DNSName e) eps) as Hin by (by apply list_elem_of_filter).
    destruct (filter _ eps); [by apply not_elem_of_nil in Hin|done].
Qed.

(** ** The change of an update *)

(** The record set a zone lists last for a name. *)
Definition lastNamed (records : list ResourceRecordSet) (r : ResourceRecordSet) : Prop :=
  ∃ before after, records = before ++ r :: after ∧ rrName r ∉ (rrName <$> after).

Lemma byName_Some rs n r : byName rs !! n = Some r ↔ lastNamed rs r ∧ rrName r = n.
Proof.
  unfold byName, lastNamed. revert r n. induction rs as [|x rs IH] using rev_ind; intros r n.
  { cbn [foldl]. rewrite lookup_empty. split; [done|]. by intros [(before & after & ? & _) _]; destruct before. }
  rewrite foldl_app. cbn [foldl]. rewrite lookup_insert_Some, IH. split.
  - intros [[<- ->]|[Hne [(before & after & -> & Hlast) <-]]]; split; try done.
    + exists rs, []. split; [done|]. apply not_elem_of_nil.
    + exists before, (after ++ [x]). rewrite <- (assoc_L (++)), <- app_comm_cons. split; [done|].
      rewrite fmap_app, not_elem_of_app. split; [done|]. rewrite fmap_cons, list_elem_of_singleton. by apply not_eq_sym.
  - intros [(before & after & Hrs & Hlast) <-]. destruct after as [|y after _] using rev_ind.
    { apply app_inj_tail in Hrs as [-> ->]. by left. }
    rewrite app_comm_cons, (assoc_L (++)) in Hrs. apply app_inj_tail in Hrs as [-> ->]. right.
    rewrite fmap_app, not_elem_of_app, fmap_cons, list_elem_of_singleton in Hlast. destruct Hlast as [Hlast Hne].
    split; [by apply not_eq_sym|]. split; [|done]. by exists before, after.
Qed.

Lemma byName_is_Some rs n : is_Some (byName rs !! n) ↔ n ∈ rrName <$> rs.
Proof.
  unfold byName. induction rs as [|x rs IH] using rev_ind.
  { cbn [foldl]. rewrite lookup_empty. split; [by intros [??]|]. by intros ?%not_elem_of_nil. }
  rewrite foldl_app. simpl. rewrite lookup_insert_is_Some', fmap_app, elem_of_app. simpl.
  rewrite list_elem_of_singleton, IH. naive_solver.
Qed.

(** One record set per name of the endpoints, made of the endpoints of that
    name. *)
Definition setsOf eps (rs : list ResourceRecordSet) : Prop :=
  ∃ names, NoDup names ∧ (∀ n, n ∈ names ↔ n ∈ (DNSName <$> eps)) ∧
    Forall2 (λ n r, toResourceRecordSet n (filter (λ e, DNSName e = n) eps) = Ok r) names rs.

Lemma record_sets_fold groups acc rs :
  rfold (λ records group, let? record := toResourceRecordSet group.1 group.2 in Ok (records ++ [record])) acc groups
    = Ok rs →
  ∃ made, rs = acc ++ made ∧ Forall2 (λ group r, toResourceRecordSet group.1 group.2 = Ok r) groups made.
Proof.
  revert acc. induction groups as [|[n g] groups IH]; intros acc; cbn [rfold].
  { intros ?. simplify_eq. exists []. by rewrite app_nil_r. }
  cbn [fst snd]. destruct (toResourceRecordSet n g) as [r| |] eqn:E; cbn [rbind]; try done.
  intros (made & -> & Hmade)%IH. exists (r :: made). rewrite <- (assoc_L (++)). split; [done|]. by constructor.
Qed.

Lemma record_sets `{MapRange} eps rs : toResourceRecordSets eps = Ok rs → setsOf eps rs.
Proof.
  intros (made & -> & Hmade)%record_sets_fold. exists (range_map (groupByName eps)).*1.
  assert (∀ n g, (n, g) ∈ range_map (groupByName eps) ↔
    g = filter (λ e, DNSName e = n) eps ∧ n ∈ (DNSName <$> eps)) as Hg.
  { intros n g. rewrite range_map_perm, elem_of_map_to_list, groupByName_lookup, list_elem_of_fmap.
    destruct (filter (λ e, DNSName e = n) eps) as [|e l] eqn:E.
    - split; [done|]. intros (_ & e & -> & He).
      assert (e ∈ filter (λ e', DNSName e' = DNSName e) eps) as Hin by (by apply list_elem_of_filter).
      rewrite E in Hin. by apply not_elem_of_nil in Hin.
    - assert (e ∈ filter (λ e, DNSName e = n) eps) as [? ?]%list_elem_of_filter by (rewrite E; apply list_elem_of_here).
      split; [intros ?; simplify_eq; split; [done|by exists e]|]. by intros [-> _]. }
  split_and!.
  - rewrite range_map_perm. apply NoDup_fst_map_to_list.
  - intros n. rewrite list_elem_of_fmap. split; [by intros ([m g] & -> & [_ ?]%Hg)|].
    intros Hn. exists (n, filter (λ e, DNSName e = n) eps). split; [done|]. by apply Hg.
  - apply Forall2_fmap_l, Forall2_same_length_lookup_2; [by eapply Forall2_length|].
    intros i [n g] r Hi Hr. pose proof (Forall2_lookup_lr _ _ _ _ _ _ Hmade Hi Hr) as Hset.
    apply list_elem_of_lookup_2, Hg in Hi as [-> _]. done.
Qed.

Lemma setsOf_names eps rs :
  setsOf eps rs → (∀ e e', e ∈ eps → e' ∈ eps → ensureTrailingDot (DNSName e) = ensureTrailingDot (DNSName e') →
    DNSName e = DNSName e') → NoDup (rrName <$> rs).
Proof.
  intros (names & Hnd & Hnames & Hsets) Hinj.
  assert (rrName <$> rs = ensureTrailingDot <$> names) as ->.
  { clear Hnd Hnames. induction Hsets as [|n r names rs Hr _ IH]; [done|]. rewrite !fmap_cons, IH.
    by rewrite (toResourceRecordSet_name _ _ _ Hr). }
  apply NoDup_fmap_2_strong; [|done]. intros n m Hn Hm Heq.
  apply Hnames, list_elem_of_fmap in Hn as (e & -> & He), Hm as (e' & -> & He'). by apply Hinj.
Qed.

Lemma deletions_names `{MapRange} (current : gmap string ResourceRecordSet) (status : gmap string ResourceRecordSet) :
  (∀ n r, current !! n = Some r → rrName r = n) →
  NoDup (rrName <$> omap (λ entry : string * ResourceRecordSet, current !! entry.1) (range_map status)).
Proof.
  intros Hc. assert (NoDup (range_map status).*1) as Hnd by (rewrite range_map_perm; apply NoDup_fst_map_to_list).
  induction (range_map status) as [|[n s] l IH]; [constructor|].
  rewrite fmap_cons in Hnd. apply NoDup_cons in Hnd as [Hnin Hnd].
  change (omap _ ((n, s) :: l)) with (match current !! n with
    | Some r => r :: omap (λ entry : string * ResourceRecordSet, current !! entry.1) l
    | None => omap (λ entry : string * ResourceRecordSet, current !! entry.1) l end).
  destruct (current !! n) as [r|] eqn:E; [|by apply IH]. rewrite fmap_cons. constructor; [|by apply IH].
  rewrite (Hc _ _ E). intros (r' & Hn & ([m s'] & Hin & Hr')%list_elem_of_omap)%list_elem_of_fmap. simpl in Hr'.
  apply Hnin, list_elem_of_fmap. exists (m, s'). split; [|done]. simpl. by rewrite Hn, (Hc _ _ Hr').
Qed.

(** C19: the change that publishes a record, over a zone that may hold several
    record sets of one name.  It deletes exactly, for each name of an endpoint
    of the record's status, the record set that the zone lists last under that
    name, as the zone has it, and no name twice.  It adds exactly one record set
    for each name of the record's spec, made of all endpoints of that name, and
    no name twice unless two names differ in a final dot only; when the record
    is being deleted it adds nothing. *)
Theorem update_replaces_status `{MapRange} currentRecords dnsRecord act change :
  recordChange currentRecords dnsRecord act = Ok change →
  let spec := Endpoints (recSpec dnsRecord) in
  (∀ r, r ∈ Deletions change ↔ lastNamed currentRecords r ∧
     ∃ e, e ∈ recEndpoints (recStatus dnsRecord) ∧ rrName r = ensureTrailingDot (DNSName e)) ∧
  NoDup (rrName <$> Deletions change) ∧
  match act with
  | deleteAction => Additions change = []
  | upsertAction =>
      setsOf spec (Additions change) ∧
      ((∀ e e', e ∈ spec → e' ∈ spec → ensureTrailingDot (DNSName e) = ensureTrailingDot (DNSName e') →
          DNSName e = DNSName e') → NoDup (rrName <$> Additions change))
  end.
Proof.
  unfold recordChange. destruct (toResourceRecordSets (recEndpoints _)) as [status| |] eqn:Es; try done. simpl.
  destruct (toResourceRecordSets (Endpoints _)) as [spec| |] eqn:Ea; try done. simpl. intros Hch.
  set (dels := omap _ _) in Hch.
  assert (Deletions change = dels ∧ Additions change = match act with deleteAction => [] | upsertAction => spec end)
    as [-> ->] by (destruct act; by simplify_eq).
  assert (setsOf (Endpoints (recSpec dnsRecord)) spec) as Hsets by (by apply record_sets).
  split_and!; [..|destruct act; [split; [done|by apply setsOf_names]|done]].
  - intros r. unfold dels. rewrite list_elem_of_omap. split.
    + intros ([n s] & Hin & [Hr Hn]%byName_Some). simpl in Hn. split; [done|].
      rewrite range_map_perm, elem_of_map_to_list in Hin.
      assert (n ∈ rrName <$> status) as (e & He & Heq)%(record_names _ _ Es) by (apply byName_is_Some; by eexists).
      exists e. by rewrite Hn.
    + intros [Hr (e & He & Hn)].
      assert (rrName r ∈ rrName <$> status) as [s Hs]%byName_is_Some by (apply (record_names _ _ Es); by exists e).
      exists (rrName r, s). rewrite range_map_perm, elem_of_map_to_list. split; [done|]. simpl. by apply byName_Some.
  - apply deletions_names. by intros n r [_ ?]%byName_Some.
Qed.

End recordsets.

(** ** Examples and witnesses *)

(** Weights are integers here. *)
#[local] Instance intFloat : GoFloat :=
  {| float64 := Z; float_of_int := id; ParseFloat := strconv.ParseInt |}.
#[local] Existing Instance range_in_key_order.

Definition weightedEndpoint (target weight : string) : Endpoint :=
  mkEndpoint "ie.lb.shop.example.com" [target] "CNAME" target 60 ∅ [mkProperty "weight" weight].

Lemma record_set_of_name_witness :
  toResourceRecordSet "ie.lb.shop.example.com" [weightedEndpoint "c1.example.com" "120"; weightedEndpoint "c2.example.com" "60"] =
  Ok (mkRRSet "ie.lb.shop.example.com." 60 "CNAME" []
        (Some (Wrr [mkWrrItem ["c1.example.com."] 120%Z; mkWrrItem ["c2.example.com."] 60%Z]))).
Proof.
  refine (record_set_of_name "ie.lb.shop.example.com" (weightedEndpoint "c1.example.com" "120")
    [weightedEndpoint "c2.example.com" "60"] _ _).
  - repeat constructor; discriminate.
  - vm_compute. reflexivity.
Defined.

(** The other examples do not look at weights. *)
#[local] Instance noFloat : GoFloat :=
  {| float64 := unit; float_of_int := λ _, tt; ParseFloat := λ _, Some tt |}.

Definition exampleSet (name : string) : ResourceRecordSet := mkRRSet name 60 "A" ["10.0.0.1"] None.

(** Three names, a limit of two: "b." has three changes and is skipped. *)
Definition exampleChange : Change :=
  mkChange [exampleSet "c."; exampleSet "a."; exampleSet "b."; exampleSet "b."] [exampleSet "b."; exampleSet "a."].

Example oversized_name_skipped :
  (λ b, (rrName <$> Additions b, rrName <$> Deletions b)) <$> batchChange exampleChange 2 =
  [(["a."], ["a."]); (["c."], [])].
Proof. vm_compute. reflexivity. Qed.

Lemma batches_complete_witness :
  Forall (λ b, 0 < changeSize b ≤ 2) (batchChange exampleChange 2) ∧
  (b ← batchChange exampleChange 2; Additions b) ≡ₚ
  filter (λ r, changeSize (changesOf exampleChange (rrName r)) ≤ 2) (Additions exampleChange).
Proof.
  destruct (batches_complete exampleChange 2) as (Hsize & Hadds & _); [discriminate|].
  split; [exact Hsize|exact Hadds].
Defined.

Definition publishedRecord : DNSRecord :=
  mkDNSRecord (newObjectMeta "prod-api" "infra")
    (mkDNSRecordSpec (Some "zone") [mkEndpoint "new.example.com" ["10.0.0.2"] "A" "" 60 ∅ []])
    (mkDNSRecordStatus [] 0 [mkEndpoint "old.example.com" ["10.0.0.1"] "A" "" 60 ∅ []]).

(** The zone's own two sets at its apex, and the set of the record's old name. *)
Definition zoneRecords : list ResourceRecordSet :=
  [mkRRSet "example.com." 21600 "NS" ["ns1.example.net."] None; mkRRSet "example.com." 21600 "SOA" ["ns1.example.net."] None;
   exampleSet "old.example.com."].

Lemma update_replaces_status_witness :
  exampleSet "old.example.com." ∈
    Deletions (mkChange [mkRRSet "new.example.com." 60 "A" ["10.0.0.2"] None] [exampleSet "old.example.com."]) ∧
  setsOf (Endpoints (recSpec publishedRecord)) [mkRRSet "new.example.com." 60 "A" ["10.0.0.2"] None].
Proof.
  destruct (update_replaces_status zoneRecords publishedRecord upsertAction
    (mkChange [mkRRSet "new.example.com." 60 "A" ["10.0.0.2"] None] [exampleSet "old.example.com."])) as (Hdels & _ & Hsets & _).
  - vm_compute. reflexivity.
  - split; [|exact Hsets]. apply Hdels. split.
    + exists [mkRRSet "example.com." 21600 "NS" ["ns1.example.net."] None; mkRRSet "example.com." 21600 "SOA" ["ns1.example.net."] None], [].
      split; [reflexivity|]. apply not_elem_of_nil.
    + exists (mkEndpoint "old.example.com" ["10.0.0.1"] "A" "" 60 ∅ []). split; [apply list_elem_of_here|].
      vm_compute. reflexivity.
Defined.

(** Only the name is looked at: beside a set of another type under the same
    name, listed later, it is that set which the change deletes, and the
    record's own A set stays. *)
Example other_type_deleted :
  let txt := mkRRSet "old.example.com." 300 "TXT" ["owner"] None in
  recordChange [exampleSet "old.example.com."; txt] publishedRecord deleteAction = Ok (mkChange [] [txt]).
Proof. vm_compute. reflexivity. Qed.

(** The usual geo case: the rest of the world points to the name of a geo, not
    to the default group, and gets no item. *)
Definition geoEndpoint (id geo : string) : Endpoint :=
  mkEndpoint "lb.shop.example.com" [id +:+ ".lb.shop.example.com"] "CNAME" id 60 ∅ [mkProperty "geo-code" geo].

Example rest_of_world_dropped :
  toResourceRecordSet "lb.shop.example.com" [geoEndpoint "us" "us-east1"; geoEndpoint "us" "*"] =
  Ok (mkRRSet "lb.shop.example.com." 60 "CNAME" []
        (Some (GeoPolicy [mkGeoItem "us-east1" ["us.lb.shop.example.com."]]))).
Proof. vm_compute. reflexivity. Qed.
