(* ===== verification/Aws.v ===== *)
(** * The Route 53 provider

    pkg/dns/aws/dns.go and pkg/dns/aws/health.go, the health-check cache of
    pkg/dns/health.go and the country codes of pkg/dns/iso3166.go.  The AWS
    SDK's Route 53 client is an argument.  A field that Go leaves nil is
    [None]. *)

From S2P Require Import Prelude GoStrings Slice Kube ApiTypes Target Endpoints Google.
Local Open Scope go_scope.

(** ** Country codes *)

(** The table, in the order of the source: up to Liechtenstein and from
    Lithuania on. *)
Definition iso3166CodesAtoLI : list string :=
  ["AF"; "AL"; "DZ"; "AS"; "AD"; "AO"; "AI"; "AQ"; "AG"; "AR"; "AM"; "AW"; "AU"; "AT"; "AZ"; "BS";
   "BH"; "BD"; "BB"; "BY"; "BE"; "BZ"; "BJ"; "BM"; "BT"; "BO"; "BQ"; "BA"; "BW"; "BV"; "BR"; "IO";
   "BN"; "BG"; "BF"; "BI"; "CV"; "KH"; "CM"; "CA"; "KY"; "CF"; "TD"; "CL"; "CN"; "CX"; "CC"; "CO";
   "KM"; "CD"; "CG"; "CK"; "CR"; "HR"; "CU"; "CW"; "CY"; "CZ"; "CI"; "DK"; "DJ"; "DM"; "DO"; "EC";
   "EG"; "SV"; "GQ"; "ER"; "EE"; "SZ"; "ET"; "FK"; "FO"; "FJ"; "FI"; "FR"; "GF"; "PF"; "TF"; "GA";
   "GM"; "GE"; "DE"; "GH"; "GI"; "GR"; "GL"; "GD"; "GP"; "GU"; "GT"; "GG"; "GN"; "GW"; "GY"; "HT";
   "HM"; "VA"; "HN"; "HK"; "HU"; "IS"; "IN"; "ID"; "IR"; "IQ"; "IE"; "IM"; "IL"; "IT"; "JM"; "JP";
   "JE"; "JO"; "KZ"; "KE"; "KI"; "KP"; "KR"; "KW"; "KG"; "LA"; "LV"; "LB"; "LS"; "LR"; "LY"; "LI"].

Definition iso3166CodesLTtoZ : list string :=
  ["LT"; "LU"; "MO"; "MG"; "MW"; "MY"; "MV"; "ML"; "MT"; "MH"; "MQ"; "MR"; "MU"; "YT"; "MX"; "FM";
   "MD"; "MC"; "MN"; "ME"; "MS"; "MA"; "MZ"; "MM"; "NA"; "NR"; "NP"; "NL"; "NC"; "NZ"; "NI"; "NE";
   "NG"; "NU"; "NF"; "MK"; "MP"; "NO"; "OM"; "PK"; "PW"; "PS"; "PA"; "PG"; "PY"; "PE"; "PH"; "PN";
   "PL"; "PT"; "PR"; "QA"; "RO"; "RU"; "RW"; "RE"; "BL"; "SH"; "KN"; "LC"; "MF"; "PM"; "VC"; "WS";
   "SM"; "ST"; "SA"; "SN"; "RS"; "SC"; "SL"; "SG"; "SX"; "SK"; "SI"; "SB"; "SO"; "ZA"; "GS"; "SS";
   "ES"; "LK"; "SD"; "SR"; "SJ"; "SE"; "CH"; "SY"; "TW"; "TJ"; "TZ"; "TH"; "TL"; "TG"; "TK"; "TO";
   "TT"; "TN"; "TR"; "TM"; "TC"; "TV"; "UG"; "UA"; "AE"; "GB"; "UM"; "US"; "UY"; "UZ"; "VU"; "VE";
   "VN"; "VG"; "VI"; "WF"; "EH"; "YE"; "ZM"; "ZW"].

Definition iso3166Codes : list string := iso3166CodesAtoLI ++ iso3166CodesLTtoZ.

Definition GetISO3166Alpha2Codes : list string := iso3166Codes.

Definition IsISO3166Alpha2Code (code : string) : bool :=
  slice.ContainsString GetISO3166Alpha2Codes code.

(** ** Record changes (aws/dns.go) *)

Definition ProviderSpecificRegion : string := "aws/region".
Definition ProviderSpecificFailover : string := "aws/failover".
Definition ProviderSpecificGeolocationSubdivisionCode : string := "aws/geolocation-subdivision-code".
Definition ProviderSpecificMultiValueAnswer : string := "aws/multi-value-answer".
Definition ProviderSpecificHealthCheckID : string := "aws/health-check-id".

(** route53.GeoLocation *)
Record GeoLocation := mkGeoLocation {
  CountryCode : option string;
  ContinentCode : option string;
  SubdivisionCode : option string
}.

(** route53.ResourceRecordSet *)
Record R53RecordSet := mkR53 {
  r53Name : string;
  r53Type : string;
  r53TTL : Z;
  r53Records : list string;
  r53SetIdentifier : option string;
  r53Weight : option Z;
  r53Region : option string;
  r53Failover : option string;
  r53MultiValueAnswer : option bool;
  r53GeoLocation : option GeoLocation;
  r53HealthCheckId : option string
}.

#[export] Instance action_eq_dec : EqDecision action.
Proof. solve_decision. Defined.

Record R53Change := mkR53Change { r53Action : action; r53RecordSet : R53RecordSet }.

(** The geo location of an endpoint (lines 299-319). *)
Definition endpointGeoLocation (endpoint : Endpoint) : option GeoLocation :=
  let '(country, continent, use) :=
    match GetProviderSpecificProperty endpoint ProviderSpecificGeoCode with
    | Some prop =>
        if IsISO3166Alpha2Code (PropValue prop) || IsWildcard (PropValue prop)
        then (Some (PropValue prop), None, true)
        else (None, Some (PropValue prop), true)
    | None => (None, None, false)
    end in
  let '(subdivision, use) :=
    match continent with
    | None =>
        match GetProviderSpecificProperty endpoint ProviderSpecificGeolocationSubdivisionCode with
        | Some prop => (Some (PropValue prop), true)
        | None => (None, use)
        end
    | Some _ => (None, use)
    end in
  if use then Some (mkGeoLocation country continent subdivision) else None.

Definition changeForEndpoint (endpoint : Endpoint) (act : action) : res R53Change :=
  if negb (bool_decide (RecordType endpoint = ARecordType))
     && negb (bool_decide (RecordType endpoint = CNAMERecordType))
     && negb (bool_decide (RecordType endpoint = NSRecordType)) then
    Err (ErrText ("unsupported record type " +:+ RecordType endpoint))
  else if bool_decide (DNSName endpoint = "") then Err (ErrText "domain is required")
  else if bool_decide (Targets endpoint = []) then Err (ErrText "targets is required")
  else
    let value key := PropValue <$> GetProviderSpecificProperty endpoint key in
    Ok (mkR53Change act
      (mkR53 (DNSName endpoint) (RecordType endpoint) (RecordTTL endpoint) (Targets endpoint)
         (if bool_decide (SetIdentifier endpoint = "") then None else Some (SetIdentifier endpoint))
         ((λ v, match strconv.ParseInt v with Some w => w | None => 0%Z end) <$> value ProviderSpecificWeight)
         (value ProviderSpecificRegion)
         (value ProviderSpecificFailover)
         ((λ _, true) <$> value ProviderSpecificMultiValueAnswer)
         (endpointGeoLocation endpoint)
         (value ProviderSpecificHealthCheckID))).

(** [changes] after the loop over the spec's endpoints, and
    [expectedEndpointsMap]. *)
Fixpoint specChanges (act : action) (endpoints : list Endpoint) (expected : gset string)
  (changes : list R53Change) : res (gset string * list R53Change) :=
  match endpoints with
  | [] => Ok (expected, changes)
  | endpoint :: rest =>
      let? change := changeForEndpoint endpoint act in
      specChanges act rest ({[SetID endpoint]} ∪ expected) (changes ++ [change])
  end.

(** The loop over the endpoints published last. *)
Fixpoint staleChanges (expected : gset string) (lastPublished : list Endpoint) (changes : list R53Change)
  : res (list R53Change) :=
  match lastPublished with
  | [] => Ok changes
  | endpoint :: rest =>
      if decide (SetID endpoint ∈ expected) then staleChanges expected rest changes
      else
        let? change := changeForEndpoint endpoint deleteAction in
        staleChanges expected rest (changes ++ [change])
  end.

(** The changes of [updateRecord] (lines 215-238), which it reaches only with
    endpoints in the spec. *)
Definition recordChanges (record : DNSRecord) (act : action) : res (list R53Change) :=
  let? (expected, changes) := specChanges act (Endpoints (recSpec record)) ∅ [] in
  match act with
  | deleteAction => Ok changes
  | upsertAction => staleChanges expected (recEndpoints (recStatus record)) changes
  end.

(** ** Health checks (dns/health.go, aws/health.go) *)

Inductive HealthCheckReconciliationResult :=
| HealthCheckCreated | HealthCheckUpdated | HealthCheckDeleted | HealthCheckNoop | HealthCheckFailed.

#[export] Instance HealthCheckReconciliationResult_eq_dec : EqDecision HealthCheckReconciliationResult.
Proof. solve_decision. Defined.

Record HealthCheckResult := mkHCResult {
  hcrResult : HealthCheckReconciliationResult;
  hcrMessage : string
}.

#[export] Instance HealthCheckResult_eq_dec : EqDecision HealthCheckResult.
Proof. solve_decision. Defined.

(** dns.HealthCheckSpec *)
Record DNSHealthCheckSpec := mkHCSpec {
  hsId : string;
  hsName : string;
  hsPort : option Z;
  hsFailureThreshold : option Z;
  hsProtocol : option string;
  hsPath : string
}.

#[export] Instance DNSHealthCheckSpec_eq_dec : EqDecision DNSHealthCheckSpec.
Proof. solve_decision. Defined.

(** route53.HealthCheckConfig *)
Record HealthCheckConfig := mkHCConfig {
  hcfIPAddress : option string;
  hcfFullyQualifiedDomainName : option string;
  hcfPort : option Z;
  hcfResourcePath : option string;
  hcfType : option string;
  hcfFailureThreshold : option Z
}.

Record R53HealthCheck := mkR53HC { hcId : string; hcConfig : HealthCheckConfig }.

(** route53.UpdateHealthCheckInput *)
Record UpdateHealthCheckInput := mkUpdate {
  uhId : string;
  uhFullyQualifiedDomainName : option string;
  uhIPAddress : option string;
  uhResourcePath : option string;
  uhPort : option Z;
  uhFailureThreshold : option Z
}.

Definition defaultHealthCheckPath : string := "/".
Definition defaultHealthCheckPort : Z := 80.
Definition defaultHealthCheckFailureThreshold : Z := 3.

Definition healthCheckType (protocol : option string) : option string :=
  match protocol with
  | None => None
  | Some p =>
      if bool_decide (p = "HTTP") then Some "HTTP"
      else if bool_decide (p = "HTTPS") then Some "HTTPS"
      else None
  end.

Definition valuesEqual {T} `{EqDecision T} (ptr1 ptr2 : option T) : bool :=
  match ptr1, ptr2 with
  | None, Some _ | Some _, None => false
  | None, None => true
  | Some v1, Some v2 => bool_decide (v1 = v2)
  end.

Definition valuesEqualWithDefault {T} `{EqDecision T} (ptr1 ptr2 : option T) (defaultValue : T) : bool :=
  let value1 := match ptr1 with Some v => v | None => defaultValue end in
  let value2 := match ptr2 with Some v => v | None => defaultValue end in
  bool_decide (value1 = value2).

(** [address, _ := endpoint.GetAddress()] *)
Definition endpointAddress (endpoint : Endpoint) : string := default "" (GetAddress endpoint).

(** [diff()]: the result so far, created on the first change. *)
Definition lazyDiff (healthCheck : R53HealthCheck) (result : option UpdateHealthCheckInput)
  : UpdateHealthCheckInput :=
  match result with
  | None => mkUpdate (hcId healthCheck) None None None None None
  | Some r => r
  end.

Definition healthCheckDiff (healthCheck : R53HealthCheck) (spec : DNSHealthCheckSpec) (endpoint : Endpoint)
  : option UpdateHealthCheckInput :=
  let cfg := hcConfig healthCheck in
  let diff := lazyDiff healthCheck in
  let result := None in
  let result :=
    if negb (valuesEqual (Some (DNSName endpoint)) (hcfFullyQualifiedDomainName cfg)) then
      let d := diff result in
      Some (mkUpdate (uhId d) (Some (DNSName endpoint)) (uhIPAddress d) (uhResourcePath d) (uhPort d) (uhFailureThreshold d))
    else result in
  let address := endpointAddress endpoint in
  let result :=
    if negb (valuesEqual (Some address) (hcfIPAddress cfg)) then
      let d := diff result in
      Some (mkUpdate (uhId d) (uhFullyQualifiedDomainName d) (Some address) (uhResourcePath d) (uhPort d) (uhFailureThreshold d))
    else result in
  let result :=
    if negb (valuesEqualWithDefault (Some (hsPath spec)) (hcfResourcePath cfg) defaultHealthCheckPath) then
      let d := diff result in
      Some (mkUpdate (uhId d) (uhFullyQualifiedDomainName d) (uhIPAddress d) (Some (hsPath spec)) (uhPort d) (uhFailureThreshold d))
    else result in
  let result :=
    if negb (valuesEqualWithDefault (hsPort spec) (hcfPort cfg) defaultHealthCheckPort) then
      let d := diff result in
      Some (mkUpdate (uhId d) (uhFullyQualifiedDomainName d) (uhIPAddress d) (uhResourcePath d) (hsPort spec) (uhFailureThreshold d))
    else result in
  if negb (valuesEqualWithDefault (hsFailureThreshold spec) (hcfFailureThreshold cfg) defaultHealthCheckFailureThreshold) then
    let d := diff result in
    Some (mkUpdate (uhId d) (uhFullyQualifiedDomainName d) (uhIPAddress d) (uhResourcePath d) (uhPort d) (hsFailureThreshold spec))
  else result.

(** A health-check operation may change the endpoint it is given, also when it
    fails. *)
Definition HCM (W : Type) : Type := Endpoint → W → res HealthCheckResult * Endpoint * W.

(** dns.HealthCheckReconciler *)
Class HealthCheckReconciler (W : Type) := {
  hcReconcile : DNSHealthCheckSpec → HCM W;
  hcDelete : HCM W
}.

(** *** CachedHealthCheckReconciler *)

Section cached.

Context {W : Type} `{HealthCheckReconciler W} (healthCheckIDKey : string).

(** The world with the [syncCache]. *)
Definition CachedWorld : Type := gmap string DNSHealthCheckSpec * W.

Definition getHealthCheckID (endpoint : Endpoint) : option string :=
  GetProviderSpecific endpoint healthCheckIDKey.

Definition delegate (op : HCM W) : HCM CachedWorld := λ endpoint w,
  let '(r, e, w') := op endpoint w.2 in (r, e, (w.1, w')).

(** [defer f()]: run on the cache whatever the outcome. *)
Definition deferCache (f : gmap string DNSHealthCheckSpec → gmap string DNSHealthCheckSpec)
  (op : HCM CachedWorld) : HCM CachedWorld := λ endpoint w,
  let '(r, e, w') := op endpoint w in (r, e, (f w'.1, w'.2)).

Definition cached_Delete : HCM CachedWorld := λ endpoint w,
  match getHealthCheckID endpoint with
  | None => (Ok (mkHCResult HealthCheckNoop ""), endpoint, w)
  | Some id => deferCache (delete id) (delegate hcDelete) endpoint w
  end.

Definition cached_Reconcile (spec : DNSHealthCheckSpec) : HCM CachedWorld := λ endpoint w,
  match getHealthCheckID endpoint with
  | None => delegate (hcReconcile spec) endpoint w
  | Some id =>
      deferCache (<[id := spec]>) (λ endpoint w,
        match w.1 !! id with
        | None => delegate (hcReconcile spec) endpoint w
        | Some existingSpec =>
            if bool_decide (spec = existingSpec)
            then (Ok (mkHCResult HealthCheckNoop "Spec unchanged"), endpoint, w)
            else delegate (hcReconcile spec) endpoint w
        end) endpoint w
  end.

End cached.

(** *** The Route 53 client *)

Record HostedZone := mkHostedZone { hzId : string; hzRecordCount : Z; hzNameServers : list string }.

Class Route53API (W : Type) := {
  GetHostedZone : string → M W HostedZone;
  UpdateHostedZoneComment : string → string → M W unit;
  (** caller reference, name, comment *)
  CreateHostedZone : string → string → string → M W HostedZone;
  DeleteHostedZone : string → M W unit;
  ListHostedZones : M W unit;
  ChangeResourceRecordSets : string → list R53Change → M W unit;
  GetHealthCheck : string → M W R53HealthCheck;
  CreateHealthCheck : string → HealthCheckConfig → M W R53HealthCheck;
  (** resource id, tags *)
  ChangeTagsForResource : string → list (string * string) → M W unit;
  UpdateHealthCheck : UpdateHealthCheckInput → M W unit;
  DeleteHealthCheck : string → M W unit;
  (** [time.Now().Format("20060102150405")] *)
  nowStamp : M W string
}.

Section route53.

Context {W : Type} `{Route53API W} (sid : string).

Definition callerReference (s : string) : string := s +:+ "." +:+ sid.

Definition idTag : string := "kuadrant.dev/healthcheck".

Definition findHealthCheck (endpoint : Endpoint) : M W (option R53HealthCheck) :=
  match GetProviderSpecific endpoint ProviderSpecificHealthCheckID with
  | None => ret None
  | Some id => let! response := GetHealthCheck id in ret (Some response)
  end.

Definition createHealthCheck (spec : DNSHealthCheckSpec) (endpoint : Endpoint) : M W R53HealthCheck :=
  let! output := CreateHealthCheck (callerReference (hsId spec))
                   (mkHCConfig (Some (endpointAddress endpoint)) (Some (DNSName endpoint)) (hsPort spec)
                      (Some (hsPath spec)) (healthCheckType (hsProtocol spec)) (hsFailureThreshold spec)) in
  do! ChangeTagsForResource (hcId output) [(idTag, hsId spec); ("Name", hsName spec)] in
  ret output.

Definition updateHealthCheck (spec : DNSHealthCheckSpec) (endpoint : Endpoint) (healthCheck : R53HealthCheck)
  : M W HealthCheckReconciliationResult :=
  match healthCheckDiff healthCheck spec endpoint with
  | None => ret HealthCheckNoop
  | Some diff => do! UpdateHealthCheck diff in ret HealthCheckUpdated
  end.

(** The deferred [SetProviderSpecific] runs whenever a health check is at
    hand, also after a failed update. *)
Definition aws_Reconcile (spec : DNSHealthCheckSpec) : HCM W := λ endpoint w,
  match findHealthCheck endpoint w with
  | (Err e, w) => (Err e, endpoint, w)
  | (Panic, w) => (Panic, endpoint, w)
  | (Ok (Some healthCheck), w) =>
      let tagged := SetProviderSpecific ProviderSpecificHealthCheckID (hcId healthCheck) endpoint in
      match updateHealthCheck spec endpoint healthCheck w with
      | (Ok status, w) => (Ok (mkHCResult status ""), tagged, w)
      | (Err e, w) => (Err e, tagged, w)
      | (Panic, w) => (Panic, tagged, w)
      end
  | (Ok None, w) =>
      match createHealthCheck spec endpoint w with
      | (Ok healthCheck, w) =>
          (Ok (mkHCResult HealthCheckCreated ("Created health check with ID " +:+ hcId healthCheck)),
           SetProviderSpecific ProviderSpecificHealthCheckID (hcId healthCheck) endpoint, w)
      | (Err e, w) => (Err e, endpoint, w)
      | (Panic, w) => (Panic, endpoint, w)
      end
  end.

Definition aws_Delete : HCM W := λ endpoint w,
  match findHealthCheck endpoint w with
  | (Err e, w) => (Err e, endpoint, w)
  | (Panic, w) => (Panic, endpoint, w)
  | (Ok None, w) => (Ok (mkHCResult HealthCheckNoop ""), endpoint, w)
  | (Ok (Some healthCheck), w) =>
      match DeleteHealthCheck (hcId healthCheck) w with
      | (Err e, w) => (Err e, endpoint, w)
      | (Panic, w) => (Panic, endpoint, w)
      | (Ok _, w) =>
          (Ok (mkHCResult HealthCheckDeleted ""),
           (DeleteProviderSpecific ProviderSpecificHealthCheckID endpoint).2, w)
      end
  end.

#[local] Instance awsReconciler : HealthCheckReconciler W :=
  {| hcReconcile := aws_Reconcile; hcDelete := aws_Delete |}.

(** *** The provider *)

Definition aws_updateRecord (record : DNSRecord) (zoneID : string) (act : action) : M W unit :=
  match Endpoints (recSpec record) with
  | [] => fail (ErrText "no endpoints")
  | _ =>
      let! changes := lift (recordChanges record act) in
      match changes with
      | [] => ret tt
      | _ =>
          let! r := try (ChangeResourceRecordSets zoneID changes) in
          match r with
          | inl _ => ret tt
          | inr err => fail (ErrText ("couldn't update DNS record " +:+ Name (recMeta record) +:+ " in zone "
                                      +:+ zoneID +:+ ": " +:+ error_text err))
          end
      end
  end.

Definition aws_change (record : DNSRecord) (managedZone : ManagedZone) (act : action) : M W unit :=
  match Endpoints (recSpec record) with
  | [] => ret tt
  | _ =>
      let! r := try (aws_updateRecord record (zID (zStatus managedZone)) act) in
      match r with
      | inl _ => ret tt
      | inr err => fail (ErrText ("failed to update record in route53 hosted zone "
                                  +:+ zID (zStatus managedZone) +:+ ": " +:+ error_text err))
      end
  end.

Definition aws_Ensure (record : DNSRecord) (managedZone : ManagedZone) : M W unit :=
  aws_change record managedZone upsertAction.

Definition aws_DeleteRecord (record : DNSRecord) (managedZone : ManagedZone) : M W unit :=
  aws_change record managedZone deleteAction.

Definition aws_EnsureManagedZone (zone : ManagedZone) : M W ManagedZoneOutput :=
  let zoneID :=
    if bool_decide (zsID (zSpec zone) = "") then zID (zStatus zone) else zsID (zSpec zone) in
  if bool_decide (zoneID = "") then
    let! callerRef := nowStamp in
    let! resp := CreateHostedZone callerRef (DomainName (zSpec zone)) (Description (zSpec zone)) in
    ret (mkZoneOutput (hzId resp) (hzNameServers resp) (hzRecordCount resp))
  else
    let! resp := GetHostedZone zoneID in
    (* a failed comment update is only logged *)
    let! _ := try (UpdateHostedZoneComment zoneID (Description (zSpec zone))) in
    ret (mkZoneOutput (hzId resp) (hzNameServers resp) (hzRecordCount resp)).

Definition aws_DeleteManagedZone (zone : ManagedZone) : M W unit :=
  DeleteHostedZone (zID (zStatus zone)).

Definition validateServiceEndpoints : M W unit :=
  let! r := try ListHostedZones in
  match r with
  | inl _ => ret tt
  | inr err => fail (ErrText ("failed to list route53 hosted zones: " +:+ error_text err))
  end.

End route53.

(** ** Properties of the record changes *)

Lemma specChanges_spec act eps expected changes out :
  specChanges act eps expected changes = Ok out →
  ∃ cs, out = (list_to_set (SetID <$> eps) ∪ expected, changes ++ cs) ∧
    Forall2 (λ e c, changeForEndpoint e act = Ok c) eps cs.
Proof.
  revert expected changes. induction eps as [|e eps IH]; intros expected changes; cbn [specChanges].
  { intros ?. simplify_eq. exists []. rewrite app_nil_r. split; [|constructor]. f_equal. set_solver. }
  destruct (changeForEndpoint e act) as [c| |] eqn:E; try done. cbn [rbind].
  intros (cs & -> & Hcs)%IH. exists (c :: cs). rewrite <- (assoc_L (++)). split; [|by constructor].
  f_equal. rewrite fmap_cons. set_solver.
Qed.

Lemma staleChanges_spec expected eps changes out :
  staleChanges expected eps changes = Ok out →
  ∃ cs, out = changes ++ cs ∧
    Forall2 (λ e c, changeForEndpoint e deleteAction = Ok c) (filter (λ e, SetID e ∉ expected) eps) cs.
Proof.
  revert changes. induction eps as [|e eps IH]; intros changes; cbn [staleChanges].
  { intros ?. simplify_eq. exists []. rewrite app_nil_r. split; [done|constructor]. }
  rewrite filter_cons. case_decide as Hin.
  - rewrite (decide_False (P := SetID e ∉ expected)) by auto. apply IH.
  - rewrite (decide_True (P := SetID e ∉ expected)) by done.
    destruct (changeForEndpoint e deleteAction) as [c| |] eqn:E; try done. cbn [rbind].
    intros (cs & -> & Hcs)%IH. exists (c :: cs). rewrite <- (assoc_L (++)). split; [done|]. by constructor.
Qed.

(** The batch of an update: the spec's endpoints, then the stale ones. *)
Lemma upsert_changes record changes :
  recordChanges record upsertAction = Ok changes →
  ∃ ups dels, changes = ups ++ dels ∧
    Forall2 (λ e c, changeForEndpoint e upsertAction = Ok c) (Endpoints (recSpec record)) ups ∧
    Forall2 (λ e c, changeForEndpoint e deleteAction = Ok c)
      (filter (λ e, SetID e ∉ (SetID <$> Endpoints (recSpec record))) (recEndpoints (recStatus record))) dels.
Proof.
  unfold recordChanges. destruct (specChanges _ _ _ _) as [out| |] eqn:Es; try done.
  apply specChanges_spec in Es as (cs & -> & Hcs). simpl.
  intros (dels & -> & Hd)%staleChanges_spec. exists cs, dels. split_and!; [done..|].
  erewrite list_filter_iff; [exact Hd|]. intros e. simpl. rewrite elem_of_union, elem_of_list_to_set. set_solver.
Qed.

(** What Route 53 can be told of an endpoint. *)
Definition acceptable (e : Endpoint) : Prop :=
  (RecordType e = "A" ∨ RecordType e = "CNAME" ∨ RecordType e = "NS") ∧ DNSName e ≠ "" ∧ Targets e ≠ [].

#[export] Instance acceptable_dec e : Decision (acceptable e).
Proof. unfold acceptable. apply _. Defined.

(** A change says the action and the endpoint's name, type, TTL, targets, set
    identifier, if it has one, and health check, if it has one. *)
Definition says (act : action) (e : Endpoint) (c : R53Change) : Prop :=
  let set := r53RecordSet c in
  r53Action c = act ∧ r53Name set = DNSName e ∧ r53Type set = RecordType e ∧ r53TTL set = RecordTTL e ∧
  r53Records set = Targets e ∧
  r53SetIdentifier set = (if decide (SetIdentifier e = "") then None else Some (SetIdentifier e)) ∧
  r53HealthCheckId set = GetProviderSpecific e "aws/health-check-id".

Lemma changeForEndpoint_says e act c : changeForEndpoint e act = Ok c → says act e c.
Proof.
  unfold changeForEndpoint. destruct (_ && _); [done|]. case_bool_decide; [done|]. case_bool_decide; [done|].
  intros ?. simplify_eq. unfold says. cbn. split_and!; try done. by case_bool_decide; case_decide.
Qed.

Lemma changeForEndpoint_total e act :
  if decide (acceptable e) then ∃ c, changeForEndpoint e act = Ok c else ∃ err, changeForEndpoint e act = Err err.
Proof.
  unfold changeForEndpoint. case_decide as Ha.
  - destruct Ha as (Hty & Hn & Ht).
    rewrite (bool_decide_eq_false_2 (DNSName e = "")), (bool_decide_eq_false_2 (Targets e = [])) by done.
    destruct Hty as [Hty|[Hty|Hty]]; rewrite Hty; eexists; reflexivity.
  - destruct (_ && _) eqn:Ety; [by eexists|].
    destruct (bool_decide (DNSName e = "")) eqn:En; [by eexists|]. apply bool_decide_eq_false in En.
    destruct (bool_decide (Targets e = [])) eqn:Et; [by eexists|]. apply bool_decide_eq_false in Et.
    exfalso. apply Ha. split; [|done]. unfold ARecordType, CNAMERecordType, NSRecordType in Ety.
    repeat case_bool_decide; try done; auto.
Qed.

(** The endpoints published before that are no longer in the spec. *)
Definition staleEndpoints (record : DNSRecord) : list Endpoint :=
  filter (λ e, SetID e ∉ (SetID <$> Endpoints (recSpec record))) (recEndpoints (recStatus record)).

(** The endpoints a batch speaks of: with the action, in order. *)
Definition batchOf (record : DNSRecord) (act : action) : list (action * Endpoint) :=
  (pair act <$> Endpoints (recSpec record)) ++
  match act with upsertAction => pair deleteAction <$> staleEndpoints record | deleteAction => [] end.

Lemma specChanges_total act eps expected changes :
  if decide (Forall acceptable eps) then ∃ out, specChanges act eps expected changes = Ok out
  else ∃ err, specChanges act eps expected changes = Err err.
Proof.
  revert expected changes. induction eps as [|e eps IH]; intros expected changes; cbn [specChanges].
  { rewrite decide_True by constructor. by eexists. }
  pose proof (changeForEndpoint_total e act) as He.
  destruct (decide (acceptable e)) as [Ha|Ha]; [|destruct (decide (Forall acceptable (e :: _))) as [Hall|_]].
  - destruct He as [c ->]. cbn [rbind]. specialize (IH ({[SetID e]} ∪ expected) (changes ++ [c])).
    do 2 case_decide; rewrite ?Forall_cons in *; tauto.
  - by apply Forall_cons in Hall as [??].
  - destruct He as [err ->]. by eexists.
Qed.

Lemma staleChanges_total expected eps changes :
  if decide (Forall acceptable (filter (λ e, SetID e ∉ expected) eps))
  then ∃ out, staleChanges expected eps changes = Ok out else ∃ err, staleChanges expected eps changes = Err err.
Proof.
  revert changes. induction eps as [|e eps IH]; intros changes; cbn [staleChanges].
  { rewrite decide_True by constructor. by eexists. }
  rewrite filter_cons. destruct (decide (SetID e ∈ expected)) as [Hin|Hin].
  { rewrite (decide_False (P := SetID e ∉ expected)) by auto. apply IH. }
  rewrite (decide_True (P := SetID e ∉ expected)) by done.
  pose proof (changeForEndpoint_total e deleteAction) as He.
  destruct (decide (acceptable e)) as [Ha|Ha]; [|destruct (decide (Forall acceptable (e :: _))) as [Hall|_]].
  - destruct He as [c ->]. cbn [rbind]. specialize (IH (changes ++ [c])).
    do 2 case_decide; rewrite ?Forall_cons in *; tauto.
  - by apply Forall_cons in Hall as [??].
  - destruct He as [err ->]. by eexists.
Qed.

Lemma staleEndpoints_filter record :
  filter (λ e, SetID e ∉ (list_to_set (SetID <$> Endpoints (recSpec record)) ∪ ∅ : gset string))
    (recEndpoints (recStatus record)) = staleEndpoints record.
Proof. unfold staleEndpoints. apply list_filter_iff. intros e. rewrite elem_of_union, elem_of_list_to_set. set_solver. Qed.

Lemma says_all act eps cs :
  Forall2 (λ e c, changeForEndpoint e act = Ok c) eps cs → Forall2 (λ p c, says p.1 p.2 c) (pair act <$> eps) cs.
Proof. intros Hcs. apply Forall2_fmap_l. eapply Forall2_impl; [exact Hcs|]. intros e c. apply changeForEndpoint_says. Qed.

Lemma stale_says record changes :
  let expected := list_to_set (SetID <$> Endpoints (recSpec record)) ∪ ∅ in
  if decide (Forall acceptable (staleEndpoints record))
  then ∃ dels, staleChanges expected (recEndpoints (recStatus record)) changes = Ok (changes ++ dels) ∧
    Forall2 (λ p c, says p.1 p.2 c) (pair deleteAction <$> staleEndpoints record) dels
  else ∃ err, staleChanges expected (recEndpoints (recStatus record)) changes = Err err.
Proof.
  cbn zeta. pose proof (staleChanges_total (list_to_set (SetID <$> Endpoints (recSpec record)) ∪ ∅)
    (recEndpoints (recStatus record)) changes) as Ht.
  rewrite staleEndpoints_filter in Ht. case_decide; [|done].
  destruct Ht as [out Hout]. rewrite Hout. apply staleChanges_spec in Hout as (dels & -> & Hd).
  rewrite staleEndpoints_filter in Hd. exists dels. split; [done|]. by apply says_all.
Qed.

Lemma acceptable_pairs act eps : Forall (λ p : action * Endpoint, acceptable p.2) (pair act <$> eps) ↔ Forall acceptable eps.
Proof. by rewrite Forall_fmap. Qed.

(** The batch of a record says what it is to say, or there is none. *)
Lemma recordChanges_says record act :
  if decide (Forall (λ p, acceptable p.2) (batchOf record act))
  then ∃ changes, recordChanges record act = Ok changes ∧ Forall2 (λ p c, says p.1 p.2 c) (batchOf record act) changes
  else ∃ err, recordChanges record act = Err err.
Proof.
  pose proof (specChanges_total act (Endpoints (recSpec record)) ∅ []) as Hspec. unfold recordChanges, batchOf.
  destruct (decide (Forall acceptable (Endpoints (recSpec record)))) as [Hs|Hs].
  - destruct Hspec as [out Hout]. rewrite Hout. apply specChanges_spec in Hout as (cs & -> & Hcs). cbn [rbind].
    apply says_all in Hcs. destruct act.
    + pose proof (stale_says record ([] ++ cs)) as Hstale. cbn zeta in Hstale.
      destruct (decide (Forall acceptable (staleEndpoints record))) as [Hd|Hd];
        destruct Hstale as [x Hx]; case_decide as Hall; rewrite Forall_app, !acceptable_pairs in Hall; try tauto.
      * destruct Hx as [-> Hdels]. eexists. split; [done|]. by apply Forall2_app.
      * by exists x.
    + rewrite app_nil_r. case_decide as Hall; rewrite acceptable_pairs in Hall; [|done]. by exists cs.
  - destruct Hspec as [err ->]. case_decide as Hall; [|by exists err].
    rewrite Forall_app, acceptable_pairs in Hall. by destruct Hall.
Qed.

(** What an endpoint's change says, when there is one. *)
Lemma changeForEndpoint_Ok e act c :
  changeForEndpoint e act = Ok c →
  r53Action c = act ∧ r53Name (r53RecordSet c) = DNSName e ∧ r53Records (r53RecordSet c) = Targets e ∧
  r53Type (r53RecordSet c) = RecordType e ∧ r53TTL (r53RecordSet c) = RecordTTL e ∧
  default "" (r53SetIdentifier (r53RecordSet c)) = SetIdentifier e ∧
  r53HealthCheckId (r53RecordSet c) = GetProviderSpecific e ProviderSpecificHealthCheckID ∧
  Targets e ≠ [] ∧ DNSName e ≠ "".
Proof.
  unfold changeForEndpoint. destruct (_ && _); [done|]. case_bool_decide; [done|]. case_bool_decide; [done|].
  intros ?. simplify_eq/=. split_and!; try done. by case_bool_decide.
Qed.

Section route53_run.

Context {W : Type} `{Route53API W}.

(** One run of the provider on a record that has endpoints. *)
Lemma aws_change_run record mz act (w : W) :
  Endpoints (recSpec record) ≠ [] →
  if decide (Forall (λ p, acceptable p.2) (batchOf record act))
  then ∃ changes, Forall2 (λ p c, says p.1 p.2 c) (batchOf record act) changes ∧
    let answer := ChangeResourceRecordSets (zID (zStatus mz)) changes w in
    (aws_change record mz act w).2 = answer.2 ∧ ((aws_change record mz act w).1 = Ok tt ↔ answer.1 = Ok tt)
  else ∃ err, aws_change record mz act w = (Err err, w).
Proof.
  intros Hne. pose proof (recordChanges_says record act) as Hch.
  unfold aws_change, aws_updateRecord, bind, try, lift, ret, fail.
  destruct (Endpoints (recSpec record)) as [|e eps] eqn:Heps; [done|]. case_decide as Hall.
  - destruct Hch as (changes & -> & Hsays). exists changes. split; [done|].
    destruct changes as [|c changes]; [unfold batchOf in Hsays; rewrite Heps in Hsays; by inv Hsays|].
    by destruct (ChangeResourceRecordSets _ _ w) as [[[]|err|] w'].
  - destruct Hch as [err ->]. by eexists.
Qed.

(** C20: what publishing a record and deleting it tell Route 53.  A record
    without endpoints is left alone: nothing is called.  Of any other record
    Route 53 is told in one batch, sent to the zone of the ManagedZone's status:
    to publish, each endpoint of the spec is upserted, in order, and then
    exactly the endpoints published before whose id has left the spec are
    deleted; to delete, each endpoint of the spec is deleted.  Every change
    says its action and the endpoint's name, type, TTL, targets, set
    identifier and health check.  The run succeeds exactly when Route 53
    accepts the batch; and if an endpoint has no name, no target or another
    type than A, CNAME or NS, it fails and nothing is called. *)
Theorem route53_changes record mz act (w : W) :
  let run := match act with upsertAction => aws_Ensure | deleteAction => aws_DeleteRecord end record mz w in
  let spec := Endpoints (recSpec record) in
  let stale := filter (λ e, SetID e ∉ (SetID <$> spec)) (recEndpoints (recStatus record)) in
  let batch := match act with
    | upsertAction => (pair upsertAction <$> spec) ++ (pair deleteAction <$> stale)
    | deleteAction => pair deleteAction <$> spec
    end in
  if decide (spec = []) then run = (Ok tt, w)
  else if decide (Forall (λ p, acceptable p.2) batch) then
    ∃ changes, Forall2 (λ p c, says p.1 p.2 c) batch changes ∧
      let answer := ChangeResourceRecordSets (zID (zStatus mz)) changes w in
      run.2 = answer.2 ∧ (run.1 = Ok tt ↔ answer.1 = Ok tt)
  else ∃ err, run = (Err err, w).
Proof.
  intros run spec stale batch.
  assert (run = aws_change record mz act w) as -> by (by destruct act).
  assert (batch = batchOf record act) as ->.
  { unfold batch, batchOf. destruct act; [done|]. by rewrite app_nil_r. }
  destruct (decide (spec = [])) as [Hnil|Hne]; [|by apply aws_change_run].
  unfold aws_change. fold spec. by rewrite Hnil.
Qed.

End route53_run.

(** A weight in the range of int64 reaches Route 53 as that number. *)
Lemma route53_weight e act c weight :
  changeForEndpoint e act = Ok c →
  GetProviderSpecific e ProviderSpecificWeight = Some (strconv.Itoa weight) →
  (strconv.min_int64 ≤ weight ≤ strconv.max_int64)%Z → r53Weight (r53RecordSet c) = Some weight.
Proof.
  unfold changeForEndpoint, GetProviderSpecific, GetProviderSpecificProperty.
  destruct (_ && _); [done|]. case_bool_decide; [done|]. case_bool_decide; [done|].
  intros ? Hw Hrange. simplify_eq. cbn [r53RecordSet r53Weight]. rewrite Hw. simpl. by rewrite Itoa_ParseInt.
Qed.

(** The officially assigned codes of ISO 3166-1 alpha-2, in alphabetical
    order. *)
Definition isoAssigned : list string :=
  ["AD"; "AE"; "AF"; "AG"; "AI"; "AL"; "AM"; "AO"; "AQ"; "AR"; "AS"; "AT"; "AU"; "AW"; "AX"; "AZ"] ++
  ["BA"; "BB"; "BD"; "BE"; "BF"; "BG"; "BH"; "BI"; "BJ"; "BL"; "BM"; "BN"; "BO"; "BQ"; "BR"; "BS"; "BT"; "BV"; "BW";
   "BY"; "BZ"] ++
  ["CA"; "CC"; "CD"; "CF"; "CG"; "CH"; "CI"; "CK"; "CL"; "CM"; "CN"; "CO"; "CR"; "CU"; "CV"; "CW"; "CX"; "CY"; "CZ"] ++
  ["DE"; "DJ"; "DK"; "DM"; "DO"; "DZ"] ++ ["EC"; "EE"; "EG"; "EH"; "ER"; "ES"; "ET"] ++
  ["FI"; "FJ"; "FK"; "FM"; "FO"; "FR"] ++
  ["GA"; "GB"; "GD"; "GE"; "GF"; "GG"; "GH"; "GI"; "GL"; "GM"; "GN"; "GP"; "GQ"; "GR"; "GS"; "GT"; "GU"; "GW"; "GY"] ++
  ["HK"; "HM"; "HN"; "HR"; "HT"; "HU"] ++ ["ID"; "IE"; "IL"; "IM"; "IN"; "IO"; "IQ"; "IR"; "IS"; "IT"] ++
  ["JE"; "JM"; "JO"; "JP"] ++ ["KE"; "KG"; "KH"; "KI"; "KM"; "KN"; "KP"; "KR"; "KW"; "KY"; "KZ"] ++
  ["LA"; "LB"; "LC"; "LI"; "LK"; "LR"; "LS"; "LT"; "LU"; "LV"; "LY"] ++
  ["MA"; "MC"; "MD"; "ME"; "MF"; "MG"; "MH"; "MK"; "ML"; "MM"; "MN"; "MO"; "MP"; "MQ"; "MR"; "MS"; "MT"; "MU"; "MV";
   "MW"; "MX"; "MY"; "MZ"] ++
  ["NA"; "NC"; "NE"; "NF"; "NG"; "NI"; "NL"; "NO"; "NP"; "NR"; "NU"; "NZ"] ++ ["OM"] ++
  ["PA"; "PE"; "PF"; "PG"; "PH"; "PK"; "PL"; "PM"; "PN"; "PR"; "PS"; "PT"; "PW"; "PY"] ++ ["QA"] ++
  ["RE"; "RO"; "RS"; "RU"; "RW"] ++
  ["SA"; "SB"; "SC"; "SD"; "SE"; "SG"; "SH"; "SI"; "SJ"; "SK"; "SL"; "SM"; "SN"; "SO"; "SR"; "SS"; "ST"; "SV"; "SX";
   "SY"; "SZ"] ++
  ["TC"; "TD"; "TF"; "TG"; "TH"; "TJ"; "TK"; "TL"; "TM"; "TN"; "TO"; "TR"; "TT"; "TV"; "TW"; "TZ"] ++
  ["UA"; "UG"; "UM"; "US"; "UY"; "UZ"] ++ ["VA"; "VC"; "VE"; "VG"; "VI"; "VN"; "VU"] ++ ["WF"; "WS"] ++ ["YE"; "YT"] ++
  ["ZA"; "ZM"; "ZW"].

Example isoAssigned_length : length isoAssigned = 249.
Proof. vm_compute. reflexivity. Qed.

(** The table of the source has every assigned code but one, the Åland
    Islands. *)
Lemma iso_table c : IsISO3166Alpha2Code c = true ↔ c ∈ isoAssigned ∧ c ≠ "AX".
Proof.
  unfold IsISO3166Alpha2Code, GetISO3166Alpha2Codes. rewrite ContainsString_spec. split.
  - apply (proj1 (Forall_forall (λ c, c ∈ isoAssigned ∧ c ≠ "AX") iso3166Codes)).
    apply (bool_decide_unpack _). vm_compute. exact I.
  - intros [Hc Hne]. revert Hne. apply (proj1 (Forall_forall (λ c, c ≠ "AX" → c ∈ iso3166Codes) isoAssigned)); [|done].
    apply (bool_decide_unpack _). vm_compute. exact I.
Qed.

(** C21: the weight and the geo code that setEndpoints writes into an endpoint
    reach Route 53 unchanged.  A weight in the range of int64 arrives as that
    number.  An assigned country code of ISO 3166 other than that of the Åland
    Islands, and the wildcard, arrive as a country, with the endpoint's
    subdivision code if it has one; every other code arrives as a continent,
    and a subdivision code is then ignored. *)
Theorem route53_weight_geo e act c weight :
  changeForEndpoint e act = Ok c →
  GetProviderSpecific e "weight" = strconv.Itoa <$> weight →
  (∀ w, weight = Some w → (strconv.min_int64 ≤ w ≤ strconv.max_int64)%Z) →
  let subdivision := GetProviderSpecific e "aws/geolocation-subdivision-code" in
  r53Weight (r53RecordSet c) = weight ∧
  r53GeoLocation (r53RecordSet c) =
    match GetProviderSpecific e "geo-code" with
    | Some geo =>
        Some (if decide (geo = "*" ∨ geo ∈ isoAssigned ∧ geo ≠ "AX") then mkGeoLocation (Some geo) None subdivision
              else mkGeoLocation None (Some geo) None)
    | None => mkGeoLocation None None ∘ Some <$> subdivision
    end.
Proof.
  intros Hc Hw Hrange subdivision. split.
  { destruct weight as [weight|]; [by apply (route53_weight e act); auto|].
    revert Hc Hw. unfold changeForEndpoint, GetProviderSpecific, GetProviderSpecificProperty.
    destruct (_ && _); [done|]. case_bool_decide; [done|]. case_bool_decide; [done|].
    intros ? Hw. simplify_eq. cbn [r53RecordSet r53Weight]. unfold ProviderSpecificWeight. by rewrite Hw. }
  assert (r53GeoLocation (r53RecordSet c) = endpointGeoLocation e) as ->.
  { revert Hc. unfold changeForEndpoint. destruct (_ && _); [done|]. case_bool_decide; [done|].
    case_bool_decide; [done|]. intros ?. by simplify_eq. }
  unfold subdivision, endpointGeoLocation, GetProviderSpecific, GetProviderSpecificProperty.
  unfold ProviderSpecificGeoCode, ProviderSpecificGeolocationSubdivisionCode.
  destruct (find_property _ "geo-code") as [p|]; [|by destruct (find_property _ _)]. simpl.
  assert (IsISO3166Alpha2Code (PropValue p) || IsWildcard (PropValue p) = true ↔
    PropValue p = "*" ∨ PropValue p ∈ isoAssigned ∧ PropValue p ≠ "AX") as Hcountry.
  { rewrite orb_true_iff, iso_table. unfold IsWildcard. rewrite bool_decide_eq_true. tauto. }
  case_decide as Hd; [apply Hcountry in Hd as ->; by destruct (find_property _ _)|].
  destruct (_ || _); [|done]. exfalso. by apply Hd, Hcountry.
Qed.

(** ** Properties of the health checks *)

(** UpdateHealthCheck as AWS documents it: a field that is given replaces the
    configured one, the others stay. *)
Definition applyUpdate (u : UpdateHealthCheckInput) (hc : R53HealthCheck) : R53HealthCheck :=
  let pick {A} (new old : option A) := match new with Some _ => new | None => old end in
  let cfg := hcConfig hc in
  mkR53HC (hcId hc)
    (mkHCConfig (pick (uhIPAddress u) (hcfIPAddress cfg))
       (pick (uhFullyQualifiedDomainName u) (hcfFullyQualifiedDomainName cfg))
       (pick (uhPort u) (hcfPort cfg)) (pick (uhResourcePath u) (hcfResourcePath cfg)) (hcfType cfg)
       (pick (uhFailureThreshold u) (hcfFailureThreshold cfg))).

Lemma valuesEqual_spec {T} `{EqDecision T} (v1 v2 : option T) : valuesEqual v1 v2 = bool_decide (v1 = v2).
Proof.
  destruct v1, v2; simpl; try done. apply bool_decide_ext. naive_solver.
Qed.

(** The five comparisons. *)
Definition sameName (cfg : HealthCheckConfig) (e : Endpoint) : bool :=
  valuesEqual (Some (DNSName e)) (hcfFullyQualifiedDomainName cfg).
Definition sameAddress (cfg : HealthCheckConfig) (e : Endpoint) : bool :=
  valuesEqual (Some (endpointAddress e)) (hcfIPAddress cfg).
Definition samePath (cfg : HealthCheckConfig) (spec : DNSHealthCheckSpec) : bool :=
  valuesEqualWithDefault (Some (hsPath spec)) (hcfResourcePath cfg) defaultHealthCheckPath.
Definition samePort (cfg : HealthCheckConfig) (spec : DNSHealthCheckSpec) : bool :=
  valuesEqualWithDefault (hsPort spec) (hcfPort cfg) defaultHealthCheckPort.
Definition sameThreshold (cfg : HealthCheckConfig) (spec : DNSHealthCheckSpec) : bool :=
  valuesEqualWithDefault (hsFailureThreshold spec) (hcfFailureThreshold cfg) defaultHealthCheckFailureThreshold.

Definition agrees (hc : R53HealthCheck) (spec : DNSHealthCheckSpec) (e : Endpoint) : bool :=
  sameName (hcConfig hc) e && sameAddress (hcConfig hc) e && samePath (hcConfig hc) spec
  && samePort (hcConfig hc) spec && sameThreshold (hcConfig hc) spec.

(** The diff holds the fields that differ. *)
Lemma healthCheckDiff_eq hc spec e :
  let cfg := hcConfig hc in
  healthCheckDiff hc spec e =
  if agrees hc spec e then None
  else Some (mkUpdate (hcId hc)
    (if sameName cfg e then None else Some (DNSName e))
    (if sameAddress cfg e then None else Some (endpointAddress e))
    (if samePath cfg spec then None else Some (hsPath spec))
    (if samePort cfg spec then None else hsPort spec)
    (if sameThreshold cfg spec then None else hsFailureThreshold spec)).
Proof.
  intros cfg. unfold healthCheckDiff, agrees. fold cfg.
  fold (sameName cfg e) (sameAddress cfg e) (samePath cfg spec) (samePort cfg spec) (sameThreshold cfg spec).
  by destruct (sameName cfg e), (sameAddress cfg e), (samePath cfg spec), (samePort cfg spec), (sameThreshold cfg spec).
Qed.

Lemma valuesEqualWithDefault_eq {T} `{EqDecision T} (v1 v2 : option T) d :
  valuesEqualWithDefault v1 v2 d = bool_decide (default d v1 = default d v2).
Proof. by destruct v1, v2. Qed.

Lemma valuesEqual_refl {T} `{EqDecision T} (v : option T) : valuesEqual v v = true.
Proof. rewrite valuesEqual_spec. by apply bool_decide_eq_true_2. Qed.

Lemma valuesEqualWithDefault_refl {T} `{EqDecision T} (v : option T) d : valuesEqualWithDefault v v d = true.
Proof. rewrite valuesEqualWithDefault_eq. by apply bool_decide_eq_true_2. Qed.

(** The health check diff.  It is nil exactly when the health check
    already agrees with the spec; otherwise it is about that health check, and
    once it is applied nothing is left to change, provided the spec gives a
    port and a failure threshold. *)
Theorem health_check_diff_converges hc spec e :
  (healthCheckDiff hc spec e = None ↔
     Some (DNSName e) = hcfFullyQualifiedDomainName (hcConfig hc) ∧
     Some (endpointAddress e) = hcfIPAddress (hcConfig hc) ∧
     hsPath spec = default "/" (hcfResourcePath (hcConfig hc)) ∧
     default 80%Z (hsPort spec) = default 80%Z (hcfPort (hcConfig hc)) ∧
     default 3%Z (hsFailureThreshold spec) = default 3%Z (hcfFailureThreshold (hcConfig hc))) ∧
  ∀ u, healthCheckDiff hc spec e = Some u →
    uhId u = hcId hc ∧
    (is_Some (hsPort spec) → is_Some (hsFailureThreshold spec) →
     healthCheckDiff (applyUpdate u hc) spec e = None).
Proof.
  rewrite healthCheckDiff_eq. split.
  - transitivity (agrees hc spec e = true); [by destruct (agrees hc spec e)|].
    unfold agrees, sameName, sameAddress, samePath, samePort, sameThreshold.
    rewrite !andb_true_iff, !valuesEqual_spec, !valuesEqualWithDefault_eq, !bool_decide_eq_true. simpl. tauto.
  - intros u Hu. destruct (agrees hc spec e); [done|]. simplify_eq. split; [done|].
    intros [port Hport] [ft Hft]. rewrite healthCheckDiff_eq.
    enough (agrees (applyUpdate (mkUpdate (hcId hc)
      (if sameName (hcConfig hc) e then None else Some (DNSName e))
      (if sameAddress (hcConfig hc) e then None else Some (endpointAddress e))
      (if samePath (hcConfig hc) spec then None else Some (hsPath spec))
      (if samePort (hcConfig hc) spec then None else hsPort spec)
      (if sameThreshold (hcConfig hc) spec then None else hsFailureThreshold spec)) hc) spec e = true) as ->; [done|].
    unfold agrees. rewrite !andb_true_iff. rewrite Hport, Hft. split_and!.
    + destruct (sameName (hcConfig hc) e) eqn:E; [exact E|]. apply (valuesEqual_refl (Some (DNSName e))).
    + destruct (sameAddress (hcConfig hc) e) eqn:E; [exact E|]. apply (valuesEqual_refl (Some (endpointAddress e))).
    + destruct (samePath (hcConfig hc) spec) eqn:E; [exact E|]. apply (valuesEqualWithDefault_refl (Some (hsPath spec))).
    + destruct (samePort (hcConfig hc) spec) eqn:E; [exact E|]. unfold samePort. rewrite Hport. apply valuesEqualWithDefault_refl.
    + destruct (sameThreshold (hcConfig hc) spec) eqn:E; [exact E|]. unfold sameThreshold. rewrite Hft.
      apply valuesEqualWithDefault_refl.
Qed.

(** Without a port in the spec, a health check on another port than 80 is
    updated for ever: the update carries no port. *)
Lemma unset_port_never_converges hc spec e :
  hsPort spec = None → (∃ p, hcfPort (hcConfig hc) = Some p ∧ p ≠ 80%Z) →
  ∃ u, healthCheckDiff hc spec e = Some u ∧ hcfPort (hcConfig (applyUpdate u hc)) = hcfPort (hcConfig hc).
Proof.
  intros Hp (p & Hcfg & Hne). rewrite healthCheckDiff_eq.
  assert (samePort (hcConfig hc) spec = false) as Hsame.
  { unfold samePort. rewrite valuesEqualWithDefault_eq, Hp, Hcfg. by apply bool_decide_eq_false_2. }
  assert (agrees hc spec e = false) as ->.
  { unfold agrees. rewrite Hsame. by rewrite !andb_false_r. }
  eexists. split; [done|]. simpl. by rewrite Hsame, Hp.
Qed.

Section cache.

Context {W : Type} `{HealthCheckReconciler W} (key : string).

(** The cache in front of a provider's health checks.  For an endpoint
    with a health check id, the provider is called exactly when the cached spec
    for the id is missing or different; the outcome is the provider's, and the
    cache then holds this spec for the id and is otherwise unchanged. *)
Theorem cache_calls_provider spec e id cache (w : W) :
  getHealthCheckID key e = Some id →
  cached_Reconcile key spec e (cache, w) =
  if decide (cache !! id = Some spec)
  then (Ok (mkHCResult HealthCheckNoop "Spec unchanged"), e, (cache, w))
  else let '(r, e', w') := hcReconcile spec e w in (r, e', (<[id := spec]> cache, w')).
Proof.
  intros Hid. unfold cached_Reconcile, deferCache, delegate. rewrite Hid. simpl.
  destruct (cache !! id) as [old|] eqn:Hc.
  - case_bool_decide as Heq.
    + subst. rewrite decide_True by done. simpl. by rewrite insert_id.
    + rewrite decide_False by congruence. by destruct (hcReconcile spec e w) as [[??]?].
  - rewrite decide_False by done. by destruct (hcReconcile spec e w) as [[??]?].
Qed.

(** A failed reconciliation is cached too: the next one with the same spec
    reports "Spec unchanged" without trying again. *)
Lemma failure_is_cached spec e e' id cache (w : W) err e1 w1 :
  getHealthCheckID key e = Some id → getHealthCheckID key e' = Some id →
  cached_Reconcile key spec e (cache, w) = (Err err, e1, w1) →
  cached_Reconcile key spec e' w1 = (Ok (mkHCResult HealthCheckNoop "Spec unchanged"), e', w1).
Proof.
  unfold cached_Reconcile at 1, deferCache, delegate. intros Hid Hid'. rewrite Hid. simpl.
  destruct (cache !! id) as [old|] eqn:Hc; [case_bool_decide; [done|]|];
    destruct (hcReconcile spec e w) as [[r x] w'] eqn:Er; intros ?; simplify_eq; simpl;
    unfold cached_Reconcile, deferCache; rewrite Hid'; simpl; rewrite lookup_insert_eq;
    rewrite bool_decide_eq_true_2 by done; simpl; by rewrite insert_insert_eq.
Qed.

End cache.

(** ** Examples and witnesses *)

Definition awsEndpoint (name id target : string) (ps : list ProviderSpecificProperty) : Endpoint :=
  mkEndpoint name [target] "CNAME" id 60 ∅ ps.

Definition awsRecord : DNSRecord :=
  mkDNSRecord (newObjectMeta "prod-api" "infra")
    (mkDNSRecordSpec (Some "zone") [awsEndpoint "lb.example.com" "IE" "ie.example.com" [mkProperty "geo-code" "IE"]])
    (mkDNSRecordStatus [] 0
       [awsEndpoint "lb.example.com" "IE" "ie.example.com" [mkProperty "geo-code" "IE"];
        awsEndpoint "lb.example.com" "US" "us.example.com" [mkProperty "geo-code" "US"]]).

Definition awsChanges : list R53Change :=
  match recordChanges awsRecord upsertAction with Ok cs => cs | _ => [] end.

Example aws_changes_names :
  (λ c, (r53Action c, r53SetIdentifier (r53RecordSet c))) <$> awsChanges =
  [(upsertAction, Some "IE"); (deleteAction, Some "US")].
Proof. vm_compute. reflexivity. Qed.

Definition awsWeighted : Endpoint :=
  awsEndpoint "ie.example.com" "c1.example.com" "c1.example.com" [mkProperty "weight" "120"; mkProperty "geo-code" "EU"].

Definition awsWeightedChange : R53Change :=
  match changeForEndpoint awsWeighted upsertAction with
  | Ok c => c
  | _ => mkR53Change upsertAction (mkR53 "" "" 0 [] None None None None None None None)
  end.

Lemma route53_weight_geo_witness :
  r53Weight (r53RecordSet awsWeightedChange) = Some 120%Z ∧
  r53GeoLocation (r53RecordSet awsWeightedChange) = Some (mkGeoLocation None (Some "EU") None).
Proof.
  apply (route53_weight_geo awsWeighted upsertAction awsWeightedChange (Some 120%Z)).
  - vm_compute. reflexivity.
  - vm_compute. reflexivity.
  - intros w Hw. injection Hw as <-. split; vm_compute; discriminate.
Defined.

(** A state goes to Route 53 as a continent; so does the Åland Islands; and of
    the seven continents four are taken for the country of the same code. *)
Example states_are_continents :
  endpointGeoLocation (awsEndpoint "n" "i" "t" [mkProperty "geo-code" "US-NY"]) =
    Some (mkGeoLocation None (Some "US-NY") None) ∧
  endpointGeoLocation (awsEndpoint "n" "i" "t" [mkProperty "geo-code" "AX"]) =
    Some (mkGeoLocation None (Some "AX") None) ∧
  filter (λ c, IsISO3166Alpha2Code c = true) ["AF"; "AN"; "AS"; "EU"; "NA"; "OC"; "SA"] = ["AF"; "AS"; "NA"; "SA"].
Proof. vm_compute. done. Qed.

(** A provider that always fails. *)
#[local] Instance failingReconciler : HealthCheckReconciler unit :=
  {| hcReconcile := λ spec e w, (Err (ErrText "throttled"), e, w); hcDelete := λ e w, (Err (ErrText "throttled"), e, w) |}.

Definition checkedEndpoint : Endpoint := awsEndpoint "c1.example.com" "" "10.0.0.1" [mkProperty "aws/health-check-id" "hc-1"].
Definition checkedSpec : DNSHealthCheckSpec := mkHCSpec "id" "name" (Some 443%Z) (Some 3%Z) (Some "HTTPS") "/healthz".

Lemma cache_calls_provider_witness :
  cached_Reconcile ProviderSpecificHealthCheckID checkedSpec checkedEndpoint (∅, tt) =
  (Err (ErrText "throttled"), checkedEndpoint, (<["hc-1" := checkedSpec]> ∅, tt)).
Proof.
  rewrite (cache_calls_provider ProviderSpecificHealthCheckID checkedSpec checkedEndpoint "hc-1" ∅ tt).
  - reflexivity.
  - reflexivity.
Defined.
