(* ===== verification/Health.v ===== *)
(** * pkg/health: probes, the monitor and the request queue

    The monitor owns a goroutine per probe, each putting a request on the queue
    at every interval; a worker takes requests off the queue one at a time and
    runs each in a goroutine of its own.  Probes are shared by pointer between
    the monitor and their goroutines, so the model has a heap of probe queuers;
    the goroutines are the steps of a transition relation. *)

From S2P Require Import Prelude GoStrings Kube ApiTypes.
Local Open Scope go_scope.

(** ** Data *)

(** Who is told the result: the status updater of a probe object, perhaps
    wrapped by the one that counts metrics (gateway, namespace, listener). *)
Inductive ProbeNotifier :=
| StatusUpdateProbeNotifier (probeObjKey : ObjectKey)
| InstrumentedProbeNotifier (gatewayName gatewayNamespace listener : string) (notifier : ProbeNotifier).

Record ProbeQueuer := mkProbeQueuer {
  pqID : string;
  pqInterval : Z;
  pqProtocol : string;
  pqPath : string;
  pqIPAddress : string;
  pqHost : string;
  pqPort : Z;
  pqAdditionalHeaders : list AdditionalHeader;
  pqExpectedResponses : option (list Z);
  pqAllowInsecureCertificate : bool;
  pqNotifier : ProbeNotifier;
  pqStarted : bool;
  (** [p.cancel] was called *)
  pqCancelled : bool
}.

Record HealthRequest := mkHealthRequest {
  hrHost : string;
  hrPath : string;
  hrAddress : string;
  hrProtocol : string;
  hrPort : Z;
  hrAdditionalHeaders : list AdditionalHeader;
  hrExpectedResponses : option (list Z);
  hrAllowInsecureCertificate : bool;
  hrNotifier : ProbeNotifier
}.

Record ProbeResult := mkProbeResult {
  prCheckedAt : Z;
  prReason : string;
  prStatus : Z;
  prHealthy : bool
}.

Definition set_started (b : bool) (p : ProbeQueuer) : ProbeQueuer :=
  mkProbeQueuer (pqID p) (pqInterval p) (pqProtocol p) (pqPath p) (pqIPAddress p) (pqHost p) (pqPort p)
    (pqAdditionalHeaders p) (pqExpectedResponses p) (pqAllowInsecureCertificate p) (pqNotifier p) b (pqCancelled p).

Definition set_cancelled (b : bool) (p : ProbeQueuer) : ProbeQueuer :=
  mkProbeQueuer (pqID p) (pqInterval p) (pqProtocol p) (pqPath p) (pqIPAddress p) (pqHost p) (pqPort p)
    (pqAdditionalHeaders p) (pqExpectedResponses p) (pqAllowInsecureCertificate p) (pqNotifier p) (pqStarted p) b.

(** ** ProbeQueuer *)

(** The request a probe enqueues. *)
Definition probeRequest (p : ProbeQueuer) : HealthRequest :=
  mkHealthRequest (pqHost p) (pqPath p) (pqIPAddress p) (pqProtocol p) (pqPort p) (pqAdditionalHeaders p)
    (pqExpectedResponses p) (pqAllowInsecureCertificate p) (pqNotifier p).

(** The state of package health: the probe queuers in memory, the monitor's
    list, the probes with a live goroutine, the worker's queue, the requests
    being processed; for the theorems, everything ever put on the queue
    and everything ever taken off it; and whether the context of
    [Monitor.Start] is done. *)
Record HealthState := mkHealthState {
  hsQueuers : list ProbeQueuer;
  hsMonitor : list nat;
  hsRunning : list nat;
  hsRequests : list HealthRequest;
  hsInFlight : list HealthRequest;
  hsEnqueued : list HealthRequest;
  hsDequeued : list HealthRequest;
  hsDown : bool
}.

Definition set_queuers (q : list ProbeQueuer) (s : HealthState) : HealthState :=
  mkHealthState q (hsMonitor s) (hsRunning s) (hsRequests s) (hsInFlight s) (hsEnqueued s) (hsDequeued s) (hsDown s).

Definition queuer_Start (l : nat) (s : HealthState) : HealthState :=
  match hsQueuers s !! l with
  | Some p =>
      if pqStarted p then s
      else mkHealthState (alter (set_started true) l (hsQueuers s)) (hsMonitor s) (l :: hsRunning s)
             (hsRequests s) (hsInFlight s) (hsEnqueued s) (hsDequeued s) (hsDown s)
  | None => s
  end.

Definition queuer_Stop (l : nat) (s : HealthState) : HealthState :=
  match hsQueuers s !! l with
  | Some p => if pqStarted p then set_queuers (alter (set_cancelled true) l (hsQueuers s)) s else s
  | None => s
  end.

(** ** Monitor *)

Definition hasID (id : string) (s : HealthState) (l : nat) : bool :=
  match hsQueuers s !! l with
  | Some p => bool_decide (pqID p = id)
  | None => false
  end.

Definition HasProbe (id : string) (s : HealthState) : bool := existsb (hasID id s) (hsMonitor s).

Definition UpdateProbe (id : string) (update : ProbeQueuer → ProbeQueuer) (s : HealthState) : HealthState :=
  foldl (λ s l, if hasID id s l then set_queuers (alter update l (hsQueuers s)) s else s) s (hsMonitor s).

(** The new queuer comes into being with the call; the result says whether it
    was added. *)
Definition AddProbeQueuer (p : ProbeQueuer) (s : HealthState) : bool * HealthState :=
  if HasProbe (pqID p) s then (false, s)
  else
    let l := length (hsQueuers s) in
    (true, queuer_Start l
       (mkHealthState (hsQueuers s ++ [p]) (hsMonitor s ++ [l]) (hsRunning s) (hsRequests s) (hsInFlight s)
          (hsEnqueued s) (hsDequeued s) (hsDown s))).

(** The loop of [RemoveProbe], with [updatedProbes]. *)
Fixpoint removeLoop (id : string) (probes updatedProbes : list nat) (s : HealthState) : list nat * HealthState :=
  match probes with
  | [] => (updatedProbes, s)
  | l :: rest =>
      if hasID id s l then removeLoop id rest updatedProbes (queuer_Stop l s)
      else removeLoop id rest (updatedProbes ++ [l]) s
  end.

Definition RemoveProbe (id : string) (s : HealthState) : HealthState :=
  let '(updatedProbes, s) := removeLoop id (hsMonitor s) [] s in
  mkHealthState (hsQueuers s) updatedProbes (hsRunning s) (hsRequests s) (hsInFlight s) (hsEnqueued s) (hsDequeued s)
    (hsDown s).

(** [Monitor.Start] once its context is done: every probe is stopped. *)
Definition monitorShutdown (s : HealthState) : HealthState :=
  let s := foldl (λ s l, queuer_Stop l s) s (hsMonitor s) in
  mkHealthState (hsQueuers s) (hsMonitor s) (hsRunning s) (hsRequests s) (hsInFlight s) (hsEnqueued s) (hsDequeued s) true.

(** ** QueuedProbeWorker *)

Definition EnqueueCheck (r : HealthRequest) (s : HealthState) : HealthState :=
  mkHealthState (hsQueuers s) (hsMonitor s) (hsRunning s) (hsRequests s ++ [r]) (hsInFlight s)
    (hsEnqueued s ++ [r]) (hsDequeued s) (hsDown s).

(** [dequeue] on a queue that is not empty, and [process] starting a goroutine
    for the request. *)
Definition dequeueProcess (s : HealthState) : option HealthState :=
  match hsRequests s with
  | [] => None
  | r :: rest =>
      Some (mkHealthState (hsQueuers s) (hsMonitor s) (hsRunning s) rest (r :: hsInFlight s)
              (hsEnqueued s) (hsDequeued s ++ [r]) (hsDown s))
  end.

(** The end of the goroutine of [process]: the request is put back when the
    notifier asks for it. *)
Definition finishRequest (i : nat) (requeue : bool) (s : HealthState) : option HealthState :=
  match hsInFlight s !! i with
  | None => None
  | Some r =>
      let s := mkHealthState (hsQueuers s) (hsMonitor s) (hsRunning s) (hsRequests s) (delete i (hsInFlight s))
                 (hsEnqueued s) (hsDequeued s) (hsDown s) in
      Some (if requeue then EnqueueCheck r s else s)
  end.

Definition checkResponse (response : Z) (expected : list Z) : bool := existsb (λ i, bool_decide (response = i)) expected.

(** What sending a request leads to: it cannot be built, the connection is
    reset, another error, or a response. *)
Inductive HttpOutcome :=
| BadRequest (msg : string)
| ConnectionReset
| HttpError (msg : string)
| Response (status : Z).

(** The HTTP client: scheme, host, port, path, address to dial, headers,
    insecure; and the clock. *)
Class HttpClient (W : Type) := {
  httpGet : string → string → Z → string → string → list AdditionalHeader → bool → M W HttpOutcome;
  timeNow : M W Z
}.

Definition performRequest {W} `{HttpClient W} (req : HealthRequest) : M W ProbeResult :=
  let port := if bool_decide (hrPort req = 0%Z) then 80%Z else hrPort req in
  let! outcome := httpGet (ToScheme (hrProtocol req)) (hrHost req) port (hrPath req) (hrAddress req)
                    (hrAdditionalHeaders req) (hrAllowInsecureCertificate req) in
  let! now := timeNow in
  let judge status :=
    let expected := match hrExpectedResponses req with None => [200; 201]%Z | Some l => l end in
    if checkResponse status expected then ret (mkProbeResult now "" status true)
    else ret (mkProbeResult now ("Status code: " +:+ strconv.Itoa status) status false) in
  match outcome with
  | BadRequest msg => ret (mkProbeResult now msg 0 false)
  | HttpError msg => ret (mkProbeResult now ("error: " +:+ msg +:+ ", response: <nil>") 0 false)
  | ConnectionReset => judge 104%Z
  | Response status => judge status
  end.

(** ** Steps of the package

    Calls of the monitor hold its lock and are atomic; so are the worker's
    accesses to the queue.  A probe's goroutine enqueues when its timer fires;
    after [cancel] it may do so once more if the timer was due, until it sees
    that its context is done.  When the context of [Monitor.Start] is done it
    stops every monitored probe, once; the list of probes is not emptied, and
    controllers that are still running may call the monitor after that. *)
Inductive step : HealthState → HealthState → Prop :=
| StepAdd p s : pqStarted p = false → pqCancelled p = false → step s (AddProbeQueuer p s).2
| StepUpdate id f s :
    (∀ p, pqID (f p) = pqID p ∧ pqStarted (f p) = pqStarted p ∧ pqCancelled (f p) = pqCancelled p) →
    step s (UpdateProbe id f s)
| StepRemove id s : step s (RemoveProbe id s)
| StepShutdown s : hsDown s = false → step s (monitorShutdown s)
| StepTick l p s : l ∈ hsRunning s → hsQueuers s !! l = Some p → step s (EnqueueCheck (probeRequest p) s)
| StepExit l p s :
    l ∈ hsRunning s → hsQueuers s !! l = Some p → pqCancelled p = true →
    step s (mkHealthState (hsQueuers s) (hsMonitor s) (filter (λ l', l' ≠ l) (hsRunning s)) (hsRequests s)
              (hsInFlight s) (hsEnqueued s) (hsDequeued s) (hsDown s))
| StepDequeue s s' : dequeueProcess s = Some s' → step s s'
| StepFinish i b s s' : finishRequest i b s = Some s' → step s s'.

Definition initHealth : HealthState := mkHealthState [] [] [] [] [] [] [] false.

(** ** The invariant *)

(** Probe [l] is in memory and is not cancelled / is cancelled. *)
Definition alive (s : HealthState) (l : nat) : Prop :=
  ∃ p, hsQueuers s !! l = Some p ∧ pqStarted p = true ∧ pqCancelled p = false.
Definition dying (s : HealthState) (l : nat) : Prop :=
  ∃ p, hsQueuers s !! l = Some p ∧ pqStarted p = true ∧ pqCancelled p = true.

Definition idOf (s : HealthState) (l : nat) : option string := pqID <$> hsQueuers s !! l.

Record HealthInv (s : HealthState) : Prop := {
  (** no two monitored probes share an id *)
  hi_ids : NoDup (idOf s <$> hsMonitor s);
  (** a monitored probe has a goroutine, and it has not been cancelled, unless
      by the shutdown *)
  hi_monitored l : l ∈ hsMonitor s → (alive s l ∧ l ∈ hsRunning s) ∨ (hsDown s = true ∧ dying s l);
  (** a goroutine belongs to a monitored probe or has been cancelled *)
  hi_running l : l ∈ hsRunning s → l ∈ hsMonitor s ∨ dying s l;
  (** first in, first out: the queue is what came in less what went out *)
  hi_fifo : hsEnqueued s = hsDequeued s ++ hsRequests s
}.

Lemma hasID_idOf id s l : hasID id s l = true ↔ idOf s l = Some id.
Proof.
  unfold hasID, idOf. destruct (hsQueuers s !! l) as [p|]; simpl; [|done].
  rewrite bool_decide_eq_true. naive_solver.
Qed.

Lemma HasProbe_spec id s : HasProbe id s = true ↔ Some id ∈ (idOf s <$> hsMonitor s).
Proof.
  unfold HasProbe. rewrite existsb_exists, list_elem_of_fmap. setoid_rewrite hasID_idOf.
  setoid_rewrite <- list_elem_of_In. naive_solver.
Qed.

(** *** Adding *)

Lemma AddProbeQueuer_inv p s :
  HealthInv s → pqStarted p = false → pqCancelled p = false → HealthInv (AddProbeQueuer p s).2.
Proof.
  intros Hinv Hns Hnc. unfold AddProbeQueuer. destruct (HasProbe (pqID p) s) eqn:Hhas; [done|].
  simpl. unfold queuer_Start. simpl. rewrite lookup_app_r, Nat.sub_diag by done. simpl. rewrite Hns.
  set (l := length (hsQueuers s)).
  assert (alter (set_started true) l (hsQueuers s ++ [p]) = hsQueuers s ++ [set_started true p]) as ->.
  { unfold l. rewrite <- (Nat.add_0_r (length (hsQueuers s))). by rewrite alter_app_r. }
  assert (∀ l', l' ∈ hsMonitor s → ∃ q, hsQueuers s !! l' = Some q) as Hmem.
  { by intros l' [[(q & Hq & _) _]|[_ (q & Hq & _)]]%(hi_monitored _ Hinv); exists q. }
  set (s' := mkHealthState _ _ _ _ _ _ _ _).
  assert (∀ l' q, hsQueuers s !! l' = Some q → hsQueuers s' !! l' = Some q) as Hold.
  { intros l' q Hq. simpl. by apply lookup_app_l_Some. }
  assert (hsQueuers s' !! l = Some (set_started true p)) as Hnew.
  { simpl. unfold l. by rewrite lookup_app_r, Nat.sub_diag. }
  assert (idOf s' <$> hsMonitor s = idOf s <$> hsMonitor s) as Hids.
  { apply list_fmap_ext. intros i l' Hl'%list_elem_of_lookup_2. unfold idOf.
    destruct (Hmem _ Hl') as (q & Hq). by rewrite (Hold _ _ Hq), Hq. }
  split.
  - simpl. rewrite fmap_app, Hids, NoDup_app. split_and!; [apply Hinv| |apply NoDup_singleton].
    intros x Hx. simpl. rewrite list_elem_of_singleton. unfold idOf. rewrite Hnew. intros ->.
    simpl in Hx. by apply HasProbe_spec in Hx; congruence.
  - simpl. intros l' [Hl'| ->%list_elem_of_singleton]%elem_of_app.
    + destruct (hi_monitored _ Hinv _ Hl') as [[(q & Hq & ?) ?]|[? (q & Hq & ?)]]; [left|right].
      * split; [exists q; eauto|by right].
      * split; [done|]. exists q; eauto.
    + left. split; [|left]. by exists (set_started true p).
  - simpl. intros l' [->|Hl']%elem_of_cons; [left; set_solver|].
    destruct (hi_running _ Hinv _ Hl') as [?|(q & Hq & ?)]; [left; set_solver|]. right. exists q. eauto.
  - apply Hinv.
Qed.

(** *** Removing and updating *)

(** [f] keeps a probe's id and its life cycle. *)
Definition keepsLife (f : ProbeQueuer → ProbeQueuer) : Prop :=
  ∀ p, pqID (f p) = pqID p ∧ pqStarted (f p) = pqStarted p ∧ pqCancelled (f p) = pqCancelled p.

Lemma idOf_alter s l l' f :
  (∀ p, pqID (f p) = pqID p) → idOf (set_queuers (alter f l (hsQueuers s)) s) l' = idOf s l'.
Proof.
  intros Hf. unfold idOf. simpl. destruct (decide (l = l')) as [->|].
  - rewrite list_lookup_alter_eq. destruct (hsQueuers s !! l'); simpl; [by rewrite Hf|done].
  - by rewrite list_lookup_alter_ne.
Qed.

Lemma idOf_Stop s l l' : idOf (queuer_Stop l s) l' = idOf s l'.
Proof.
  unfold queuer_Stop. destruct (hsQueuers s !! l) as [p|]; [|done]. destruct (pqStarted p); [|done].
  by apply idOf_alter.
Qed.

Lemma hasID_ext id s s' l : idOf s' l = idOf s l → hasID id s' l = hasID id s l.
Proof.
  intros Heq. apply eq_true_iff_eq. by rewrite !hasID_idOf, Heq.
Qed.

(** Only the queuers differ. *)
Definition sameRest (s s' : HealthState) : Prop :=
  hsMonitor s' = hsMonitor s ∧ hsRunning s' = hsRunning s ∧ hsRequests s' = hsRequests s ∧
  hsInFlight s' = hsInFlight s ∧ hsEnqueued s' = hsEnqueued s ∧ hsDequeued s' = hsDequeued s ∧ hsDown s' = hsDown s.

Lemma sameRest_trans s1 s2 s3 : sameRest s1 s2 → sameRest s2 s3 → sameRest s1 s3.
Proof. unfold sameRest. intros (?&?&?&?&?&?&?) (?&?&?&?&?&?&?). split_and!; congruence. Qed.

Lemma Stop_rest l s : sameRest s (queuer_Stop l s).
Proof. unfold queuer_Stop. destruct (hsQueuers s !! l) as [p|]; [|done]. by destruct (pqStarted p). Qed.

Lemma Stop_alive l l' s : alive s l' → l ≠ l' → alive (queuer_Stop l s) l'.
Proof.
  intros (p & Hp & Hlife) Hne. unfold queuer_Stop. destruct (hsQueuers s !! l) as [q|]; [|by exists p].
  destruct (pqStarted q); [|by exists p]. exists p. simpl. by rewrite list_lookup_alter_ne.
Qed.

Lemma Stop_dying l l' s : dying s l' → dying (queuer_Stop l s) l'.
Proof.
  intros (p & Hp & Hst & Hc). unfold queuer_Stop. destruct (hsQueuers s !! l) as [q|] eqn:Hq; [|by exists p].
  destruct (pqStarted q); [|by exists p]. destruct (decide (l = l')) as [->|Hne].
  - exists (set_cancelled true p). simpl. by rewrite list_lookup_alter_eq, Hp.
  - exists p. simpl. by rewrite list_lookup_alter_ne.
Qed.

Lemma Stop_kills l s : alive s l → dying (queuer_Stop l s) l.
Proof.
  intros (p & Hp & Hst & _). unfold queuer_Stop. rewrite Hp, Hst. exists (set_cancelled true p). simpl.
  by rewrite list_lookup_alter_eq, Hp.
Qed.

(** What the loop of RemoveProbe does to the probes in front of it. *)
Lemma removeLoop_spec id probes acc s :
  NoDup probes →
  let '(kept, s') := removeLoop id probes acc s in
  kept = acc ++ filter (λ l, hasID id s l = false) probes ∧ sameRest s s' ∧
  (∀ l, idOf s' l = idOf s l) ∧
  (∀ l, alive s l → l ∉ probes ∨ hasID id s l = false → alive s' l) ∧
  (∀ l, dying s l → dying s' l) ∧
  (∀ l, alive s l → l ∈ probes → hasID id s l = true → dying s' l).
Proof.
  revert acc s. induction probes as [|l probes IH]; intros acc s Hnd; cbn [removeLoop].
  { rewrite app_nil_r. split_and!; try done. intros l _ Hl. by apply not_elem_of_nil in Hl. }
  apply NoDup_cons in Hnd as [Hl Hnd]. rewrite filter_cons.
  destruct (hasID id s l) eqn:Hid.
  - specialize (IH acc (queuer_Stop l s) Hnd). destruct (removeLoop _ _ _ _) as [kept s'].
    destruct IH as (-> & Hrest & Hids & Hal & Hdy & Hkill).
    assert (∀ l', hasID id (queuer_Stop l s) l' = hasID id s l') as Hsame.
    { intros l'. apply hasID_ext, idOf_Stop. }
    split_and!.
    + rewrite decide_False by congruence. f_equal. apply list_filter_iff. intros l'. by rewrite Hsame.
    + eapply sameRest_trans; [apply Stop_rest|done].
    + intros l'. by rewrite Hids, idOf_Stop.
    + intros l' Ha [Hout|Hno]; (destruct (decide (l = l')) as [<-|Hne]; [first [congruence|set_solver]|]);
        (apply Hal; [by apply Stop_alive|]); [left; set_solver|right; by rewrite Hsame].
    + intros l' Hd. by apply Hdy, Stop_dying.
    + intros l' Ha [->|Hin]%elem_of_cons Hh; [by apply Hdy, Stop_kills|].
      apply Hkill; [apply Stop_alive; set_solver|done|by rewrite Hsame].
  - specialize (IH (acc ++ [l]) s Hnd). destruct (removeLoop _ _ _ _) as [kept s'].
    destruct IH as (-> & Hrest & Hids & Hal & Hdy & Hkill).
    split_and!; [|done..| |done|].
    + rewrite decide_True by done. by rewrite <- (assoc_L (++)).
    + intros l' Ha Ho. apply Hal; [done|]. set_solver.
    + intros l' Ha [->|Hin]%elem_of_cons Hh; [congruence|by apply Hkill].
Qed.

Lemma monitor_NoDup s : HealthInv s → NoDup (hsMonitor s).
Proof. intros Hinv. eapply NoDup_fmap_1, Hinv. Qed.

Lemma RemoveProbe_inv id s : HealthInv s → HealthInv (RemoveProbe id s).
Proof.
  intros Hinv. unfold RemoveProbe. pose proof (removeLoop_spec id (hsMonitor s) [] s (monitor_NoDup s Hinv)) as Hspec.
  destruct (removeLoop _ _ _ _) as [kept s']. destruct Hspec as (-> & Hrest & Hids & Hal & Hdy & Hkill).
  destruct Hrest as (_ & Hrun & Hreq & _ & Henq & Hdeq & Hdown). split; simpl.
  - replace (idOf _ <$> _) with (idOf s <$> filter (λ l, hasID id s l = false) (hsMonitor s)).
    + eapply sublist_NoDup; [apply (hi_ids _ Hinv)|]. apply fmap_sublist, sublist_filter.
    + apply list_fmap_ext. intros ? l _. symmetry. apply Hids.
  - intros l [Hno Hl]%list_elem_of_filter. rewrite Hrun, Hdown.
    destruct (hi_monitored _ Hinv _ Hl) as [[??]|[??]]; [left|right; split; [done|by apply Hdy]].
    split; [|done]. apply Hal; auto.
  - rewrite Hrun. intros l Hl. destruct (hi_running _ Hinv _ Hl) as [Hm|Hd]; [|right; by apply Hdy].
    destruct (hasID id s l) eqn:E.
    + right. destruct (hi_monitored _ Hinv _ Hm) as [[??]|[_ ?]]; [by apply Hkill|by apply Hdy].
    + left. by apply list_elem_of_filter.
  - rewrite Henq, Hdeq, Hreq. apply Hinv.
Qed.

Lemma UpdateProbe_loop id f ls s :
  keepsLife f →
  let s' := foldl (λ s l, if hasID id s l then set_queuers (alter f l (hsQueuers s)) s else s) s ls in
  sameRest s s' ∧ (∀ l, idOf s' l = idOf s l) ∧ (∀ l, alive s l → alive s' l) ∧ (∀ l, dying s l → dying s' l).
Proof.
  intros Hf. revert s. induction ls as [|l ls IH]; intros s; [done|]. simpl.
  destruct (hasID id s l); [|apply IH].
  destruct (IH (set_queuers (alter f l (hsQueuers s)) s)) as (Hrest & Hids & Hal & Hdy).
  assert (∀ l' q, hsQueuers s !! l' = Some q → ∃ q', alter f l (hsQueuers s) !! l' = Some q' ∧
            pqStarted q' = pqStarted q ∧ pqCancelled q' = pqCancelled q) as Hq.
  { intros l' q Hq. destruct (decide (l = l')) as [->|].
    - rewrite list_lookup_alter_eq, Hq. exists (f q). split; [done|]. apply Hf.
    - rewrite list_lookup_alter_ne by done. by exists q. }
  split_and!.
  - by eapply sameRest_trans; [|done].
  - intros l'. rewrite Hids. apply idOf_alter. apply Hf.
  - intros l' (q & (q' & Hq' & <- & <-)%Hq & Hlife). apply Hal. by exists q'.
  - intros l' (q & (q' & Hq' & <- & <-)%Hq & Hlife). apply Hdy. by exists q'.
Qed.

Lemma UpdateProbe_inv id f s : keepsLife f → HealthInv s → HealthInv (UpdateProbe id f s).
Proof.
  intros Hf Hinv. destruct (UpdateProbe_loop id f (hsMonitor s) s Hf) as (Hrest & Hids & Hal & Hdy).
  fold (UpdateProbe id f s) in *. destruct Hrest as (Hmon & Hrun & Hreq & _ & Henq & Hdeq & Hdown). split.
  - rewrite Hmon. erewrite list_fmap_ext; [apply (hi_ids _ Hinv)|]. intros; apply Hids.
  - rewrite Hmon, Hrun, Hdown. intros l Hl. destruct (hi_monitored _ Hinv _ Hl) as [[??]|[??]]; auto.
  - rewrite Hmon, Hrun. intros l Hl. destruct (hi_running _ Hinv _ Hl); auto.
  - rewrite Henq, Hdeq, Hreq. apply Hinv.
Qed.

Lemma EnqueueCheck_inv r s : HealthInv s → HealthInv (EnqueueCheck r s).
Proof. intros [? ? ? Hf]. split; try done. simpl. by rewrite Hf, <- (assoc_L (++)). Qed.

(** The shutdown cancels every monitored probe and touches nothing else. *)
Lemma stopAll_spec ls s :
  let s' := foldl (λ s l, queuer_Stop l s) s ls in
  sameRest s s' ∧ (∀ l, idOf s' l = idOf s l) ∧ (∀ l, dying s l → dying s' l) ∧
  (∀ l, alive s l → l ∈ ls → dying s' l).
Proof.
  revert s. induction ls as [|l ls IH]; intros s; simpl.
  { split_and!; try done. intros l _ Hl. by apply not_elem_of_nil in Hl. }
  destruct (IH (queuer_Stop l s)) as (Hrest & Hids & Hdy & Hkill). split_and!.
  - eapply sameRest_trans; [apply Stop_rest|done].
  - intros l'. by rewrite Hids, idOf_Stop.
  - intros l' Hd. by apply Hdy, Stop_dying.
  - intros l' Ha Hin. destruct (decide (l = l')) as [<-|Hne]; [by apply Hdy, Stop_kills|].
    apply Hkill; [by apply Stop_alive|]. set_solver.
Qed.

Lemma monitorShutdown_dying s l : HealthInv s → l ∈ hsMonitor s → dying (monitorShutdown s) l.
Proof.
  intros Hinv Hl. destruct (stopAll_spec (hsMonitor s) s) as (_ & _ & Hdy & Hkill).
  change (dying (foldl (λ s l, queuer_Stop l s) s (hsMonitor s)) l).
  destruct (hi_monitored _ Hinv _ Hl) as [[??]|[_ ?]]; [by apply Hkill|by apply Hdy].
Qed.

Lemma monitorShutdown_inv s : HealthInv s → HealthInv (monitorShutdown s).
Proof.
  intros Hinv. pose proof (λ l, monitorShutdown_dying s l Hinv) as Hdead.
  destruct (stopAll_spec (hsMonitor s) s) as ((Hmon & Hrun & Hreq & _ & Henq & Hdeq & _) & Hids & Hdy & _).
  unfold monitorShutdown in *. set (s1 := foldl _ s _) in *. split; simpl.
  - rewrite Hmon. erewrite list_fmap_ext; [apply (hi_ids _ Hinv)|]. intros ? l _. exact (Hids l).
  - rewrite Hmon. intros l Hl. right. split; [done|]. by apply Hdead.
  - rewrite Hmon, Hrun. intros l Hl. destruct (hi_running _ Hinv _ Hl) as [?|Hd]; [by left|right]. exact (Hdy _ Hd).
  - rewrite Henq, Hdeq, Hreq. apply Hinv.
Qed.

(** A probe that was cancelled stays cancelled. *)
Lemma step_dying s s' l : HealthInv s → step s s' → dying s l → dying s' l.
Proof.
  intros Hinv. destruct 1 as [p s Hns Hnc|id f s Hf|id s|s _|l' p s Hl Hp|l' p s Hl Hp Hc|s s' Hd|i b s s' Hfin];
    intros Hdying.
  - destruct Hdying as (q & Hq & Hlife). unfold AddProbeQueuer. destruct (HasProbe (pqID p) s); [by exists q|].
    exists q. split; [|done]. simpl. unfold queuer_Start. simpl. rewrite lookup_app_r, Nat.sub_diag by done. simpl. rewrite Hns.
    simpl. pose proof (lookup_lt_Some _ _ _ Hq). rewrite list_lookup_alter_ne by lia. by apply lookup_app_l_Some.
  - by apply (UpdateProbe_loop id f (hsMonitor s) s Hf).
  - unfold RemoveProbe. pose proof (removeLoop_spec id (hsMonitor s) [] s (monitor_NoDup s Hinv)) as Hspec.
    destruct (removeLoop _ _ _ _) as [kept s']. destruct Hspec as (_ & _ & _ & _ & Hdy & _). exact (Hdy _ Hdying).
  - destruct (stopAll_spec (hsMonitor s) s) as (_ & _ & Hdy & _). exact (Hdy _ Hdying).
  - exact Hdying.
  - exact Hdying.
  - unfold dequeueProcess in Hd. destruct (hsRequests s); simplify_eq. exact Hdying.
  - unfold finishRequest in Hfin. destruct (hsInFlight s !! i); simplify_eq. by destruct b.
Qed.

Lemma step_inv s s' : HealthInv s → step s s' → HealthInv s'.
Proof.
  intros Hinv. destruct 1 as [p s Hns Hnc|id f s Hf|id s|s _|l p s Hl Hp|l p s Hl Hp Hc|s s' Hd|i b s s' Hfin].
  - by apply AddProbeQueuer_inv.
  - by apply UpdateProbe_inv.
  - by apply RemoveProbe_inv.
  - by apply monitorShutdown_inv.
  - by apply EnqueueCheck_inv.
  - destruct Hinv as [Hids Hmon Hrun Hf]. split; simpl; try done.
    + intros l' Hl'. destruct (Hmon l' Hl') as [[Ha Hr]|?]; [left|by right]. split; [done|]. apply list_elem_of_filter. split; [|done].
      intros ->. destruct Ha as (q & Hq & _ & Hnc). congruence.
    + intros l' [_ Hl']%list_elem_of_filter. by apply Hrun.
  - unfold dequeueProcess in Hd. destruct (hsRequests s) as [|r rest] eqn:Hq; simplify_eq.
    destruct Hinv as [? ? ? Hf]. split; simpl; try done. by rewrite Hf, Hq, <- (assoc_L (++)).
  - unfold finishRequest in Hfin. destruct (hsInFlight s !! i); [|done]. simplify_eq.
    destruct Hinv as [? ? ? Hf]. destruct b; [|done]. by apply EnqueueCheck_inv.
Qed.

Lemma reachable_inv s : rtc step initHealth s → HealthInv s.
Proof.
  intros Hr. remember initHealth as s0. assert (HealthInv s0) as Hinv.
  { subst. split; simpl; [constructor|..|done]; intros l Hl; by apply not_elem_of_nil in Hl. }
  clear Heqs0. induction Hr as [|s1 s2 s3 Hs _ IH]; [done|]. apply IH. by eapply step_inv.
Qed.

Lemma reachable_dying s s' l : HealthInv s → rtc step s s' → dying s l → dying s' l.
Proof.
  intros Hinv Hr. induction Hr as [|s1 s2 s3 Hs _ IH]; [done|]. intros Hd.
  apply IH; [by eapply step_inv|by eapply step_dying].
Qed.

(** *** What the operations do *)

Lemma AddProbeQueuer_has p s : HasProbe (pqID p) (AddProbeQueuer p s).2 = true.
Proof.
  unfold AddProbeQueuer. destruct (HasProbe (pqID p) s) eqn:E; [done|]. apply HasProbe_spec. simpl.
  unfold queuer_Start. simpl. rewrite lookup_app_r, Nat.sub_diag by done. simpl.
  destruct (pqStarted p); apply list_elem_of_fmap; exists (length (hsQueuers s));
    (split; [unfold idOf; simpl|simpl; set_solver]).
  - by rewrite lookup_app_r, Nat.sub_diag.
  - by rewrite list_lookup_alter_eq, lookup_app_r, Nat.sub_diag.
Qed.

Lemma RemoveProbe_has id id' s :
  HealthInv s → HasProbe id' (RemoveProbe id s) = true ↔ id' ≠ id ∧ HasProbe id' s = true.
Proof.
  intros Hinv. rewrite !HasProbe_spec. unfold RemoveProbe.
  pose proof (removeLoop_spec id (hsMonitor s) [] s (monitor_NoDup s Hinv)) as Hspec.
  destruct (removeLoop _ _ _ _) as [kept s']. destruct Hspec as (-> & _ & Hids & _). simpl.
  rewrite !list_elem_of_fmap. split.
  - intros (l & Heq & [Hno Hl]%list_elem_of_filter). change (idOf _ l) with (idOf s' l) in Heq.
    rewrite Hids in Heq. split; [|by exists l]. intros ->. symmetry in Heq. apply hasID_idOf in Heq. congruence.
  - intros (Hne & l & Heq & Hl). exists l. change (idOf _ l) with (idOf s' l). rewrite Hids. split; [done|].
    apply list_elem_of_filter. split; [|done]. apply not_true_iff_false. rewrite hasID_idOf. congruence.
Qed.

(** The update reaches the probe of that id, once. *)
Lemma UpdateProbe_applies id f s l q :
  NoDup (hsMonitor s) → keepsLife f → l ∈ hsMonitor s → hsQueuers s !! l = Some q → pqID q = id →
  hsMonitor (UpdateProbe id f s) = hsMonitor s ∧ hsQueuers (UpdateProbe id f s) !! l = Some (f q).
Proof.
  intros Hnd Hf Hl Hq Hid. split; [by destruct (UpdateProbe_loop id f (hsMonitor s) s Hf) as [[??] _]|].
  unfold UpdateProbe. destruct (list_elem_of_split _ _ Hl) as (l1 & l2 & Heq). rewrite Heq in *. clear Heq Hl.
  apply NoDup_app in Hnd as (_ & Hd1 & [Hd2 _]%NoDup_cons).
  assert (∀ ls s, l ∉ ls → hsQueuers (foldl (λ s l, if hasID id s l then set_queuers (alter f l (hsQueuers s)) s else s) s ls)
            !! l = hsQueuers s !! l) as Hskip.
  { clear. intros ls. induction ls as [|l' ls IH]; intros s; [done|]. rewrite not_elem_of_cons. intros [Hne Hl]. simpl.
    rewrite IH by done. destruct (hasID id s l'); [|done]. simpl. by rewrite list_lookup_alter_ne. }
  rewrite foldl_app. simpl. rewrite Hskip by done.
  assert (l ∉ l1) as Hl1 by (intros ?; by eapply Hd1, list_elem_of_here).
  set (s1 := foldl _ s l1). assert (hsQueuers s1 !! l = Some q) as Hq1 by (unfold s1; by rewrite Hskip).
  assert (hasID id s1 l = true) as -> by (apply hasID_idOf; unfold idOf; rewrite Hq1; simpl; by rewrite Hid).
  simpl. by rewrite list_lookup_alter_eq, Hq1.
Qed.

(** ** Properties *)

(** C24: in every reachable state the monitored probes have different ids; as
    long as the monitor is not shut down each has a goroutine that was not
    cancelled, and the shutdown cancels every probe that is monitored then, for
    good; a goroutine without a monitored probe was cancelled: once a probe is
    removed, nothing keeps probing for it; and requests leave the queue in the
    order they came, none lost. *)
Theorem monitor_invariant s :
  rtc step initHealth s →
  NoDup (idOf s <$> hsMonitor s) ∧
  (hsDown s = false → ∀ l, l ∈ hsMonitor s → alive s l ∧ l ∈ hsRunning s) ∧
  (∀ l s', l ∈ hsMonitor s → rtc step (monitorShutdown s) s' → dying s' l) ∧
  (∀ id l, HasProbe id s = false → l ∈ hsRunning s → idOf s l = Some id → dying s l) ∧
  hsEnqueued s = hsDequeued s ++ hsRequests s.
Proof.
  intros Hinv%reachable_inv. pose proof (λ l, monitorShutdown_dying s l Hinv) as Hdead.
  pose proof (monitorShutdown_inv s Hinv) as Hinv'. destruct Hinv as [Hids Hmon Hrun Hf]. split_and!; [done|..|done].
  - intros Hup l Hl. destruct (Hmon l Hl) as [?|[? _]]; [done|congruence].
  - intros l s' Hl Hr. eapply reachable_dying; [|done|]; auto.
  - intros id l Hno Hl Hid. destruct (Hrun l Hl) as [Hm|]; [|done]. exfalso.
    assert (HasProbe id s = true) by (apply HasProbe_spec; rewrite <- Hid; by apply list_elem_of_fmap_2).
    congruence.
Qed.

(** The monitor's operations do what they say: after adding a probe it is
    there, and adding reports false exactly when the id was taken; after
    removing an id it is not there and the other ids are as before. *)
Theorem monitor_operations p id s :
  rtc step initHealth s →
  (AddProbeQueuer p s).1 = negb (HasProbe (pqID p) s) ∧
  HasProbe (pqID p) (AddProbeQueuer p s).2 = true ∧
  HasProbe id (RemoveProbe id s) = false ∧
  ∀ id', id' ≠ id → HasProbe id' (RemoveProbe id s) = HasProbe id' s.
Proof.
  intros Hinv%reachable_inv. split_and!.
  - unfold AddProbeQueuer. by destruct (HasProbe (pqID p) s).
  - apply AddProbeQueuer_has.
  - apply not_true_iff_false. rewrite RemoveProbe_has by done. tauto.
  - intros id' Hne. apply eq_true_iff_eq. rewrite RemoveProbe_has by done. tauto.
Qed.

(** ** Examples and witnesses *)

Definition exampleQueuer (id : string) : ProbeQueuer :=
  mkProbeQueuer id 60 "HTTPS" "/healthz" "10.0.0.1" "shop.example.com" 443 [] None false
    (StatusUpdateProbeNotifier ("infra", id)) false false.

(** Two probes, one tick each, and the first one removed. *)
Definition exampleHealth : HealthState :=
  RemoveProbe "a" (EnqueueCheck (probeRequest (set_started true (exampleQueuer "a")))
    (AddProbeQueuer (exampleQueuer "b") (AddProbeQueuer (exampleQueuer "a") initHealth).2).2).

Lemma exampleHealth_reachable : rtc step initHealth exampleHealth.
Proof.
  eapply rtc_l; [by apply (StepAdd (exampleQueuer "a"))|].
  eapply rtc_l; [by apply (StepAdd (exampleQueuer "b"))|].
  eapply rtc_l; [|eapply rtc_l; [apply StepRemove|apply rtc_refl]].
  by apply (StepTick 0); [right; left|].
Qed.

(** Then the monitor is shut down, and a controller still adds a probe. *)
Definition exampleDown : HealthState := (AddProbeQueuer (exampleQueuer "c") (monitorShutdown exampleHealth)).2.

Lemma monitor_invariant_witness :
  alive exampleHealth 1 ∧ dying exampleDown 1 ∧ dying exampleHealth 0 ∧
  hsEnqueued exampleHealth = hsDequeued exampleHealth ++ hsRequests exampleHealth.
Proof.
  destruct (monitor_invariant exampleHealth exampleHealth_reachable) as (_ & Halive & Hdown & Hrest & Hfifo).
  split_and!; [| | |exact Hfifo].
  - refine (proj1 (Halive eq_refl 1 _)). vm_compute. left.
  - refine (Hdown 1 exampleDown _ _); [vm_compute; left|].
    eapply rtc_l; [|apply rtc_refl]. apply (StepAdd (exampleQueuer "c")); reflexivity.
  - apply (Hrest "a" 0); [reflexivity| |reflexivity]. vm_compute. right. left.
Defined.

Lemma monitor_operations_witness :
  (AddProbeQueuer (exampleQueuer "b") exampleHealth).1 = negb (HasProbe "b" exampleHealth) ∧
  HasProbe "b" (AddProbeQueuer (exampleQueuer "b") exampleHealth).2 = true ∧
  HasProbe "b" (RemoveProbe "b" exampleHealth) = false ∧
  ∀ id', id' ≠ "b" → HasProbe id' (RemoveProbe "b" exampleHealth) = HasProbe id' exampleHealth.
Proof. apply (monitor_operations (exampleQueuer "b") "b" exampleHealth). exact exampleHealth_reachable. Defined.
