(* ===== verification/ProbeController.v ===== *)
(** * pkg/controllers/dnshealthcheckprobe

    The controller keeps the monitor in step with the probe objects
    (dnshealthcheckprobe_controller.go); the notifier writes results into a
    probe's status (notifier.go). *)

From S2P Require Import Prelude GoStrings Slice Kube ApiTypes GatewayApi EndpointHealth Health MemApi.
Local Open Scope go_scope.

Definition DNSHealthCheckProbeFinalizer : string := "kuadrant.io/dns-health-check-probe".
Definition ErrInvalidHeader : goerror := ErrSentinel "invalid header format".

(** ** The notifier *)

Definition set_probeStatus (st : DNSHealthCheckProbeStatus) (p : DNSHealthCheckProbe) : DNSHealthCheckProbe :=
  mkProbe (probeMeta p) (probeSpec p) st.

(** The status after a result. *)
Definition notifyStatus (result : ProbeResult) (st : DNSHealthCheckProbeStatus) : DNSHealthCheckProbeStatus :=
  let consecutiveFailures :=
    if negb (prHealthy result) then
      let probeHealthy := match Healthy st with Some h => h | None => true end in
      if probeHealthy then 1%Z else strconv.wrap_int64 (ConsecutiveFailures st + 1)
    else 0%Z in
  mkProbeStatus (prCheckedAt result) consecutiveFailures (prReason result) (prStatus result)
    (Some (prHealthy result)).

Section controller.

Context {W : Type} `{Client W DNSHealthCheckProbe} `{Client W Gateway} `{Client W DNSRecord} `{Client W Secret}.
Context `{FinalizerOps} `{MapRange} `{Clock W}.

(** [Notify] of the status updater: whether to put the request back. *)
Definition Notify (probeObjKey : ObjectKey) (result : ProbeResult) : M W bool :=
  let! probeObj := clGet (O := DNSHealthCheckProbe) probeObjKey in
  let! r := try (clStatusUpdate (set_probeStatus (notifyStatus result (probeStatus probeObj)) probeObj)) in
  match r with
  | inl _ => ret false
  | inr err => if IsConflict err then ret true else fail err
  end.

(** ** The controller *)

Definition probeId (probeObj : DNSHealthCheckProbe) : string :=
  Namespace (probeMeta probeObj) +:+ "/" +:+ Name (probeMeta probeObj).

(** The status written when the headers cannot be used: the failure count is
    reset and the reason set. *)
Definition headerFailure (reason : string) (p : DNSHealthCheckProbe) : DNSHealthCheckProbe :=
  let st := probeStatus p in
  set_probeStatus (mkProbeStatus (LastCheckedAt st) 0 reason (psStatus st) (Healthy st)) p.

(** The loop over the secret's data, in the order of the map. *)
Fixpoint headersOf (entries : list (string * string)) (acc : list AdditionalHeader)
  : list AdditionalHeader + string :=
  match entries with
  | [] => inl acc
  | (k, v) :: rest =>
      if strings.ContainsAny (strings.TrimSpace k) [" "%char; "009"%char] then inr k
      else headersOf rest (acc ++ [mkHeader (strings.TrimSpace k) v])
  end.

(** [getAdditionalHeaders] changes the probe it is given when it fails, so it
    returns the probe with its result. *)
Definition getAdditionalHeaders (probeObj : DNSHealthCheckProbe)
  : M W ((list AdditionalHeader + goerror) * DNSHealthCheckProbe) :=
  match psAdditionalHeadersRef (probeSpec probeObj) with
  | None => ret (inl [], probeObj)
  | Some name =>
      let ns := Namespace (probeMeta probeObj) in
      let! r := try (clGet (O := Secret) (ns, name)) in
      match r with
      | inr err =>
          let wrapped := ErrWrap ("error retrieving additional headers secret " +:+ ns +:+ "/" +:+ name +:+ ": ") err in
          if IsNotFound err then
            ret (inr wrapped, headerFailure ("additional headers secret '" +:+ name +:+ "' not found") probeObj)
          else ret (inr wrapped, probeObj)
      | inl secret =>
          match headersOf (range_map (secData secret)) [] with
          | inl hs => ret (inl hs, probeObj)
          | inr k =>
              ret (inr (ErrWrap ("invalid header, must not contain whitespace '" +:+ k +:+ "': ") ErrInvalidHeader),
                   headerFailure ("invalid header found: " +:+ k) probeObj)
          end
      end
  end.

Definition getGatewayFor (probe : DNSHealthCheckProbe) : M W (option Gateway) :=
  match Labels (probeMeta probe) !! "kuadrant.io/gateway", Labels (probeMeta probe) !! "kuadrant.io/gateway-namespace" with
  | Some name, Some ns => let! gw := clGet (O := Gateway) (ns, name) in ret (Some gw)
  | _, _ => ret None
  end.

Definition getDNSRecord (obj : ObjectMeta) : M W (option DNSRecord) :=
  match Annotations obj !! "dnsrecord-name", Annotations obj !! "dnsrecord-namespace" with
  | Some name, Some ns => IgnoreNotFound (clGet (O := DNSRecord) (ns, name))
  | _, _ => ret None
  end.

Definition newProbeNotifierFor (probe : DNSHealthCheckProbe) : M W ProbeNotifier :=
  let notifier := StatusUpdateProbeNotifier (objectKey (probeMeta probe)) in
  let! gateway := getGatewayFor probe in
  match gateway with
  | None => ret notifier
  | Some gateway =>
      let! dnsRecord := getDNSRecord (probeMeta probe) in
      match dnsRecord with
      | None => ret notifier
      | Some dnsRecord =>
          match slice.Find (Listeners gateway) (λ listener,
                  bool_decide (Name (recMeta dnsRecord) = Name (gwMeta gateway) +:+ "-" +:+ lName listener)) with
          | None => ret notifier
          | Some listener =>
              ret (InstrumentedProbeNotifier (Name (gwMeta gateway)) (Namespace (gwMeta gateway)) (lName listener) notifier)
          end
      end
  end.

(** The closure given to [UpdateProbe]. *)
Definition updateQueuer (spec : DNSHealthCheckProbeSpec) (protocol : string) (headers : list AdditionalHeader)
  (p : ProbeQueuer) : ProbeQueuer :=
  mkProbeQueuer (pqID p) (psInterval spec) protocol (psPath spec) (psAddress spec) (psHost spec) (psPort spec)
    headers (psExpectedResponses spec) (psAllowInsecureCertificate spec) (pqNotifier p) (pqStarted p) (pqCancelled p).

Definition newQueuer (id : string) (spec : DNSHealthCheckProbeSpec) (protocol : string)
  (headers : list AdditionalHeader) (notifier : ProbeNotifier) : ProbeQueuer :=
  mkProbeQueuer id (psInterval spec) protocol (psPath spec) (psAddress spec) (psHost spec) (psPort spec)
    headers (psExpectedResponses spec) (psAllowInsecureCertificate spec) notifier false false.

(** The world with the monitor in it. *)
Definition onServer {A} (m : M W A) : M (HealthState * W) A := λ w,
  let '(r, w') := m w.2 in (r, (w.1, w')).
Definition onMonitor (f : HealthState → HealthState) : M (HealthState * W) unit := λ w, (Ok tt, (f w.1, w.2)).
Definition readMonitor {A} (f : HealthState → A) : M (HealthState * W) A := λ w, (Ok (f w.1), w).

Definition set_probeMeta (m : ObjectMeta) (p : DNSHealthCheckProbe) : DNSHealthCheckProbe :=
  mkProbe m (probeSpec p) (probeStatus p).

(** Lines 79-142: the probe is added to the monitor or updated there. *)
Definition registerProbe (previous probeObj : DNSHealthCheckProbe) : M (HealthState * W) ReconcileResult :=
  let spec := probeSpec probeObj in
  let protocol := NewHealthProtocol (psProtocol spec) in
  let! (headers, probeObj) := onServer (getAdditionalHeaders probeObj) in
  match headers with
  | inr err =>
      let! now := onServer Now in
      let st := probeStatus probeObj in
      let failed := set_probeStatus (mkProbeStatus now (ConsecutiveFailures st) (psReason st) (psStatus st) (Some false))
                      probeObj in
      (* a failed status update is only logged *)
      let! _ := try (onServer (clStatusUpdate failed)) in
      fail err
  | inl headers =>
      let id := probeId probeObj in
      let! known := readMonitor (HasProbe id) in
      if known then
        do! onMonitor (UpdateProbe id (updateQueuer spec protocol headers)) in ret noRequeue
      else
        let! notifier := onServer (newProbeNotifierFor previous) in
        do! onMonitor (λ s, (AddProbeQueuer (newQueuer id spec protocol headers notifier) s).2) in ret noRequeue
  end.

Definition probe_Reconcile (req : ObjectKey) : M (HealthState * W) ReconcileResult :=
  let! r := try (onServer (clGet (O := DNSHealthCheckProbe) req)) in
  match r with
  (* lines 47-53: any error but not-found is swallowed, and IgnoreNotFound has
     turned a not-found error into nil *)
  | inr _ => ret noRequeue
  | inl previous =>
      if isDeleting (probeMeta previous) then
        do! onMonitor (RemoveProbe (probeId previous)) in
        do! onServer (clUpdate (set_probeMeta (RemoveFinalizer (probeMeta previous) DNSHealthCheckProbeFinalizer) previous)) in
        ret noRequeue
      else if negb (ContainsFinalizer (probeMeta previous) DNSHealthCheckProbeFinalizer) then
        let! probeObj := onServer
          (clUpdate (set_probeMeta (AddFinalizer (probeMeta previous) DNSHealthCheckProbeFinalizer) previous)) in
        registerProbe previous probeObj
      else registerProbe previous previous
  end.

End controller.

(** ** Counting failures *)

(** The number of unhealthy results at the end of a history. *)
Fixpoint leadingFailures (newestFirst : list ProbeResult) : nat :=
  match newestFirst with
  | r :: rest => if prHealthy r then 0 else S (leadingFailures rest)
  | [] => 0
  end.
Definition trailingFailures (history : list ProbeResult) : nat := leadingFailures (reverse history).

(** The status of a probe after a history of results. *)
Definition statusAfter (history : list ProbeResult) : DNSHealthCheckProbeStatus :=
  foldl (λ st r, notifyStatus r st) emptyProbeStatus history.

Lemma wrap_int64_small z : (strconv.min_int64 ≤ z ≤ strconv.max_int64)%Z → strconv.wrap_int64 z = z.
Proof.
  unfold strconv.wrap_int64, strconv.min_int64, strconv.max_int64. intros Hz.
  rewrite Z.mod_small by lia. lia.
Qed.

Lemma leadingFailures_le l : leadingFailures l ≤ length l.
Proof. induction l as [|r l IH]; simpl; [done|]. destruct (prHealthy r); lia. Qed.

Lemma statusAfter_spec history :
  (Z.of_nat (length history) ≤ strconv.max_int64)%Z →
  ConsecutiveFailures (statusAfter history) = Z.of_nat (trailingFailures history) ∧
  Healthy (statusAfter history) = prHealthy <$> last history.
Proof.
  unfold statusAfter, trailingFailures. induction history as [|r history IH] using rev_ind; [done|].
  rewrite length_app, foldl_app, reverse_app, last_snoc. simpl. intros Hlen.
  destruct IH as [IHc IHh]; [lia|]. split; [|done]. rewrite IHc, IHh.
  destruct (prHealthy r); simpl; [done|].
  pose proof (leadingFailures_le (reverse history)) as Hle. rewrite length_reverse in Hle.
  destruct (last history) as [r'|] eqn:El; simpl.
  - apply last_Some in El as [h ->]. rewrite reverse_snoc in *. simpl in *.
    destruct (prHealthy r'); simpl; [done|].
    rewrite wrap_int64_small; [lia|]. unfold strconv.min_int64, strconv.max_int64 in *. lia.
  - apply last_None in El as ->. done.
Qed.

Lemma trailing_all history t :
  1 ≤ t → t ≤ trailingFailures history ↔
  ∃ before lasts, history = before ++ lasts ∧ length lasts = t ∧ Forall (λ r, prHealthy r = false) lasts.
Proof.
  intros Ht. unfold trailingFailures. split.
  - intros Hle. exists (reverse (drop t (reverse history))), (reverse (take t (reverse history))).
    pose proof (leadingFailures_le (reverse history)) as Hlen.
    split_and!.
    + by rewrite <- reverse_app, take_drop, reverse_involutive.
    + rewrite length_reverse, length_take. lia.
    + apply Forall_reverse. revert Hle. generalize (reverse history) as l, t as n. clear.
      induction l as [|r l IH]; intros [|n]; simpl; [constructor..|done|]. intros Hn.
      destruct (prHealthy r) eqn:E; [lia|]. constructor; [done|]. apply IH. lia.
  - intros (before & lasts & -> & <- & Hall). rewrite reverse_app.
    apply Forall_reverse in Hall. rewrite <- (length_reverse lasts). generalize dependent (reverse lasts).
    intros l. induction 1 as [|r l Hr _ IH]; simpl; [lia|]. rewrite Hr. lia.
Qed.

(** ** Properties *)

(** A probe that started without a status fails once its last results, as many
    as its threshold, were unhealthy. *)
Lemma failing_trailing probe history threshold :
  psFailureThreshold (probeSpec probe) = Some (Z.of_nat threshold) → 1 ≤ threshold →
  (Z.of_nat (length history) ≤ strconv.max_int64)%Z → probeStatus probe = statusAfter history →
  probeFailing probe = true ↔ threshold ≤ trailingFailures history.
Proof.
  intros Ht Hpos Hlen Hst. destruct (statusAfter_spec history Hlen) as [Hc Hh].
  unfold probeFailing. rewrite Hst, Ht, Hc, Hh.
  rewrite andb_true_iff, bool_decide_eq_true. split; [intros [_ ?]; lia|]. intros Hle. split; [|lia].
  unfold trailingFailures in Hle. destruct (last history) as [r|] eqn:El.
  - apply last_Some in El as [h ->]. rewrite reverse_snoc in Hle. simpl in *.
    destruct (prHealthy r); [lia|done].
  - apply last_None in El as ->. simpl in Hle. lia.
Qed.

(** C26: a probe that started without a status counts as failing, for the
    endpoints it watches, exactly when its last results, as many as its
    failure threshold, were all unhealthy: the code compares the consecutive
    failures with [>=] (dns_helper.go:283), where docs/dnspolicy/dns-health-checks.md
    and the comment above the loop say that they must be greater than the
    threshold, see [failing_at_threshold]. *)
Theorem failing_iff_threshold_reached meta spec history threshold :
  psFailureThreshold spec = Some (Z.of_nat threshold) → 1 ≤ threshold →
  (Z.of_nat (length history) ≤ strconv.max_int64)%Z →
  probeFailing (mkProbe meta spec (statusAfter history)) = true ↔
  ∃ before lasts, history = before ++ lasts ∧ length lasts = threshold ∧
    Forall (λ r, prHealthy r = false) lasts.
Proof. intros Ht Hpos Hlen. rewrite <- trailing_all by done. by apply failing_trailing. Qed.

Section reconcile.

Context {W : Type} `{Client W DNSHealthCheckProbe} `{Client W Gateway} `{Client W DNSRecord} `{Client W Secret}.
Context `{FinalizerOps} `{!FinalizerLaws} `{MapRange} `{Clock W}.

(** A stored probe keeps the spec and the key it was sent with. *)
Context (Hupdate : ∀ (p p' : DNSHealthCheckProbe) (w w' : W),
  clUpdate p w = (Ok p', w') →
  probeSpec p' = probeSpec p ∧ objectKey (probeMeta p') = objectKey (probeMeta p)).

(** The monitor has exactly the spec's probe under the id. *)
Definition monitors (s : HealthState) (id : string) (spec : DNSHealthCheckProbeSpec) : Prop :=
  ∃ l q, l ∈ hsMonitor s ∧ hsQueuers s !! l = Some q ∧ pqID q = id ∧
    pqInterval q = psInterval spec ∧ pqHost q = psHost spec ∧ pqPath q = psPath spec ∧
    pqPort q = psPort spec ∧ pqIPAddress q = psAddress spec ∧
    pqProtocol q = NewHealthProtocol (psProtocol spec) ∧
    pqExpectedResponses q = psExpectedResponses spec ∧
    pqAllowInsecureCertificate q = psAllowInsecureCertificate spec.

Lemma updateQueuer_keeps spec protocol hs : keepsLife (updateQueuer spec protocol hs).
Proof. by intros p. Qed.

Lemma HasProbe_elem id s :
  HasProbe id s = true → ∃ l q, l ∈ hsMonitor s ∧ hsQueuers s !! l = Some q ∧ pqID q = id.
Proof.
  rewrite HasProbe_spec, list_elem_of_fmap. unfold idOf. intros (l & Heq & Hl).
  destruct (hsQueuers s !! l) as [q|] eqn:Hq; simpl in Heq; simplify_eq. by exists l, q.
Qed.

Lemma added_queuer p s :
  HasProbe (pqID p) s = false → pqStarted p = false →
  ∃ l, l ∈ hsMonitor (AddProbeQueuer p s).2 ∧ hsQueuers (AddProbeQueuer p s).2 !! l = Some (set_started true p).
Proof.
  intros Hno Hst. unfold AddProbeQueuer. rewrite Hno. simpl. unfold queuer_Start. simpl.
  rewrite lookup_app_r, Nat.sub_diag by done. simpl. rewrite Hst. exists (length (hsQueuers s)). simpl.
  split; [set_solver|]. by rewrite list_lookup_alter_eq, lookup_app_r, Nat.sub_diag.
Qed.

Lemma registerProbe_monitors previous probeObj s w s' w' r :
  HealthInv s → registerProbe previous probeObj (s, w) = (Ok r, (s', w')) →
  monitors s' (probeId probeObj) (probeSpec probeObj).
Proof.
  intros Hinv. unfold registerProbe, bind, onServer, readMonitor, onMonitor, try, ret, fail. cbn [fst snd].
  destruct (getAdditionalHeaders probeObj w) as [[[headers p1]| |] w1] eqn:Eh; try done.
  assert (∀ hs, headers = inl hs → p1 = probeObj) as Hsame.
  { intros hs ->. revert Eh. unfold getAdditionalHeaders, bind, try, ret.
    destruct (psAdditionalHeadersRef _); [|intros; by simplify_eq].
    destruct (clGet _ w) as [[sec|err|] w2]; [..|done].
    - destruct (headersOf _ _); intros; by simplify_eq.
    - destruct (IsNotFound err); intros; by simplify_eq. }
  destruct headers as [hs|err]; cbn [fst snd].
  2: { destruct (Now w1) as [[now| |] w2]; try done. by destruct (clStatusUpdate _ _) as [[| |] ?]. }
  rewrite (Hsame hs eq_refl). destruct (HasProbe (probeId probeObj) s) eqn:Hhas.
  - intros ?; simplify_eq. destruct (HasProbe_elem _ _ Hhas) as (l & q & Hl & Hq & Hid).
    set (f := updateQueuer (probeSpec probeObj) (NewHealthProtocol (psProtocol (probeSpec probeObj))) hs).
    destruct (UpdateProbe_applies (probeId probeObj) f s l q (monitor_NoDup s Hinv) (updateQueuer_keeps _ _ _) Hl Hq Hid)
      as [Hmon Hlook].
    exists l, (f q). split_and!; try done. cbn [fst]. by rewrite Hmon.
  - cbn [fst snd]. destruct (newProbeNotifierFor previous w1) as [[notifier| |] w2]; try done. cbn [fst snd].
    intros ?; simplify_eq.
    destruct (added_queuer (newQueuer (probeId probeObj) (probeSpec probeObj)
      (NewHealthProtocol (psProtocol (probeSpec probeObj))) hs notifier) s Hhas eq_refl) as (l & Hl & Hq).
    eexists l, _. split; [exact Hl|]. split; [exact Hq|]. by split_and!.
Qed.

Lemma probeId_key p p' : objectKey (probeMeta p) = objectKey (probeMeta p') → probeId p = probeId p'.
Proof. unfold objectKey, probeId. intros [= Hns Hn]. by rewrite Hns, Hn. Qed.

(** C27: a successful reconciliation of a probe object leaves the monitor in
    step with it: an object being deleted is no longer probed, any other is
    monitored under its id with the host, path, port, address, protocol,
    interval, expected responses and TLS option of its spec. *)
Theorem probe_reconciled req s w p w0 r s' w' :
  rtc step initHealth s →
  clGet req w = (Ok p, w0) →
  probe_Reconcile req (s, w) = (Ok r, (s', w')) →
  if isDeleting (probeMeta p) then HasProbe (probeId p) s' = false
  else monitors s' (probeId p) (probeSpec p).
Proof.
  intros Hinv%reachable_inv Hget. unfold probe_Reconcile, bind at 1, try, onServer at 1. cbn [fst snd]. rewrite Hget.
  destruct (isDeleting (probeMeta p)).
  - unfold bind, onMonitor, onServer, ret. cbn [fst snd].
    destruct (clUpdate _ _) as [[p'| |] w1]; intros ?; simplify_eq.
    apply not_true_iff_false. rewrite RemoveProbe_has by done. tauto.
  - destruct (ContainsFinalizer _ _); simpl; [by apply registerProbe_monitors|].
    unfold bind, onServer. cbn [fst snd]. destruct (clUpdate _ _) as [[p'| |] w1] eqn:Eu; try done.
    apply Hupdate in Eu as [Hspec Hkey]. simpl in Hspec, Hkey. intros Hreg%registerProbe_monitors; [|done].
    rewrite Hspec in Hreg. rewrite (probeId_key p p'); [done|]. rewrite Hkey.
    rewrite <- (add_only_finalizers (probeMeta p) DNSHealthCheckProbeFinalizer) at 1. done.
Qed.

End reconcile.

(** ** Examples and witnesses *)

Definition exampleResultOf (healthy : bool) : ProbeResult := mkProbeResult 0 "" 200 healthy.

Definition exampleProbeSpec : DNSHealthCheckProbeSpec :=
  mkProbeSpec 443 "shop.example.com" "10.0.0.1" "/healthz" "https" 60 None (Some 3%Z) None false.

Lemma failing_iff_threshold_reached_witness :
  probeFailing (mkProbe (newObjectMeta "p" "ns") exampleProbeSpec
    (statusAfter (exampleResultOf <$> [true; false; false; false]))) = true ↔
  ∃ before lasts, exampleResultOf <$> [true; false; false; false] = before ++ lasts ∧ length lasts = 3 ∧
    Forall (λ r, prHealthy r = false) lasts.
Proof.
  apply (failing_iff_threshold_reached (newObjectMeta "p" "ns") exampleProbeSpec
    (exampleResultOf <$> [true; false; false; false]) 3).
  - reflexivity.
  - lia.
  - vm_compute. discriminate.
Defined.

(** As many failures as the threshold are enough, one less is not. *)
Example failing_at_threshold :
  let probeAfter results := mkProbe (newObjectMeta "p" "ns") exampleProbeSpec (statusAfter (exampleResultOf <$> results)) in
  probeFailing (probeAfter [true; false; false; false]) = true ∧ probeFailing (probeAfter [true; false; false]) = false.
Proof. vm_compute. done. Qed.

Abbreviation probeWorld := (gmap ObjectKey DNSHealthCheckProbe).
#[local] Instance pwProbes : Client probeWorld DNSHealthCheckProbe := mem_client id (λ m w, m) probeMeta.
#[local] Instance pwGateways : Client probeWorld Gateway := mem_client (λ _, ∅) (λ m w, w) gwMeta.
#[local] Instance pwRecords : Client probeWorld DNSRecord := mem_client (λ _, ∅) (λ m w, w) recMeta.
#[local] Instance pwSecrets : Client probeWorld Secret := mem_client (λ _, ∅) (λ m w, w) secMeta.
#[local] Instance pwClock : Clock probeWorld := {| Now := ret 0%Z |}.
#[local] Existing Instances listFinalizers listFinalizers_laws range_in_key_order.

Definition reconciledProbe : DNSHealthCheckProbe :=
  mkProbe (newObjectMeta "p" "ns") exampleProbeSpec emptyProbeStatus.

Lemma mem_update_same (p p' : DNSHealthCheckProbe) (w w' : probeWorld) :
  clUpdate p w = (Ok p', w') →
  probeSpec p' = probeSpec p ∧ objectKey (probeMeta p') = objectKey (probeMeta p).
Proof. simpl. unfold mem_update. repeat case_match; intros; by simplify_eq. Qed.

Lemma probe_reconciled_witness :
  monitors (probe_Reconcile ("ns", "p") (initHealth, {[("ns", "p") := reconciledProbe]})).2.1 "ns/p" exampleProbeSpec.
Proof.
  refine (probe_reconciled mem_update_same ("ns", "p") initHealth {[("ns", "p") := reconciledProbe]}
    reconciledProbe {[("ns", "p") := reconciledProbe]} noRequeue _
    (probe_Reconcile ("ns", "p") (initHealth, {[("ns", "p") := reconciledProbe]})).2.2 _ _ _).
  - apply rtc_refl.
  - vm_compute. reflexivity.
  - vm_compute. reflexivity.
Defined.
