(* ===== verification/Providers.v ===== *)
(** * DNS providers (pkg/dns/dns.go, pkg/dns/dnsprovider/dnsProvider.go)

    The [Provider] interface the controllers use, its two implementations and
    the factory that picks one by the type of the zone's secret. *)

From S2P Require Import Prelude GoStrings Kube ApiTypes Target Google Aws MemApi.
Local Open Scope go_scope.

(** ** The interface

    What a controller needs of a provider; its theorems are proved for every
    instance. *)
Class Provider (W P : Type) := {
  Ensure : P → DNSRecord → ManagedZone → M W unit;
  DeleteRecord : P → DNSRecord → ManagedZone → M W unit;
  EnsureManagedZone : P → ManagedZone → M W ManagedZoneOutput;
  DeleteManagedZone : P → ManagedZone → M W unit
}.

(** dns.DNSProviderFactory *)
Class ProviderFactory (W P : Type) := {
  DNSProvider : ManagedZone → M W P
}.

(** pkg/dns/dns.go, ProviderSpecificLabels *)
Record ProviderSpecificLabels := mkProviderLabels { pslWeight : string; pslHealthCheckID : string }.

(** ** SanitizeError

    [regexp.MustCompile(`request id: [^\s]+`).ReplaceAllString(text, "")]: at
    the leftmost match the text "request id: " and the non-blank characters
    after it, one at least, are dropped. *)

Definition isSpace (c : ascii) : bool :=
  bool_decide (c = " "%char ∨ c = "009"%char ∨ c = "010"%char ∨ c = "012"%char ∨ c = "013"%char).

Fixpoint dropNonSpace (s : string) : string :=
  match s with
  | String c s' => if isSpace c then s else dropNonSpace s'
  | "" => ""
  end.

Definition requestIdHere (s : string) : option string :=
  if strings.HasPrefix s "request id: " then
    match strings.drop 12 s with
    | String c s' => if isSpace c then None else Some (dropNonSpace s')
    | "" => None
    end
  else None.

Fixpoint sanitizeFuel (fuel : nat) (s : string) : string :=
  match fuel with
  | O => s
  | S fuel =>
      match requestIdHere s with
      | Some rest => sanitizeFuel fuel rest
      | None => match s with "" => "" | String c s' => String c (sanitizeFuel fuel s') end
      end
  end.

(** Each round takes at least one character, so the length is fuel enough. *)
Definition SanitizeError (err : goerror) : goerror :=
  let text := error_text err in
  ErrText (sanitizeFuel (S (String.length text)) text).

Example sanitized :
  SanitizeError (ErrText "Throttling: Rate exceeded status code: 400, request id: 051c860b-9b30 done") =
  ErrText "Throttling: Rate exceeded status code: 400,  done".
Proof. vm_compute. reflexivity. Qed.

Section providers.

Context `{GoFloat} {W : Type} `{GoogleApi W} `{Route53API W} `{Client W Secret} `{MapRange}.

(** The AWS session and the Google service a secret's credentials open
    (aws-sdk-go and google.golang.org/api). *)
Class ProviderClients := {
  awsSession : string → string → M W unit;
  googleService : string → M W unit
}.

Context `{ProviderClients}.

Inductive DNSProviderImpl :=
| Route53DNSProvider (region : string)
| GoogleProvider (g : GoogleDNSProvider).

Definition secretValue (s : Secret) (key : string) : string := default "" (secData s !! key).

Definition aws_NewProviderFromSecret (s : Secret) : M W DNSProviderImpl :=
  if bool_decide (secretValue s "AWS_ACCESS_KEY_ID" = "") || bool_decide (secretValue s "AWS_SECRET_ACCESS_KEY" = "") then
    fail (ErrText "AWS Provider credentials is empty")
  else
    let! session := try (awsSession (secretValue s "AWS_ACCESS_KEY_ID") (secretValue s "AWS_SECRET_ACCESS_KEY")) in
    match session with
    | inr err => fail (ErrText ("unable to create aws session: " +:+ error_text err))
    | inl _ =>
        let! valid := try validateServiceEndpoints in
        match valid with
        | inr err => fail (ErrText ("failed to validate AWS provider service endpoints: " +:+ error_text err))
        | inl _ => ret (Route53DNSProvider (secretValue s "REGION"))
        end
    end.

Definition google_NewProviderFromSecret (s : Secret) : M W DNSProviderImpl :=
  if bool_decide (secretValue s "GOOGLE" = "") || bool_decide (secretValue s "PROJECT_ID" = "") then
    fail (ErrText "GCP Provider credentials is empty")
  else
    do! googleService (secretValue s "GOOGLE") in
    ret (GoogleProvider (mkGoogle (secretValue s "PROJECT_ID") false GoogleBatchChangeSize)).

Definition errUnsupportedProvider : goerror := ErrSentinel "provider type given is not supported".

Definition DNSProviderFactory (managedZone : ManagedZone) : M W DNSProviderImpl :=
  let! providerSecret := clGet (O := Secret) (SecretRef (zSpec managedZone)) in
  if bool_decide (secType providerSecret = "kuadrant.io/aws") then
    let! r := try (aws_NewProviderFromSecret providerSecret) in
    match r with
    | inl p => ret p
    | inr err => fail (ErrText ("unable to create AWS dns provider from secret: " +:+ error_text err))
    end
  else if bool_decide (secType providerSecret = "kuadrant.io/gcp") then
    let! r := try (google_NewProviderFromSecret providerSecret) in
    match r with
    | inl p => ret p
    | inr err => fail (ErrText ("unable to create GCP dns provider from secret: " +:+ error_text err))
    end
  else fail errUnsupportedProvider.

#[export] Instance providerFactory : ProviderFactory W DNSProviderImpl := {| DNSProvider := DNSProviderFactory |}.

#[export] Instance cloudProvider : Provider W DNSProviderImpl := {|
  Ensure p record zone :=
    match p with Route53DNSProvider _ => aws_Ensure record zone | GoogleProvider g => google_Ensure g record zone end;
  DeleteRecord p record zone :=
    match p with Route53DNSProvider _ => aws_DeleteRecord record zone | GoogleProvider g => google_Delete g record zone end;
  EnsureManagedZone p zone :=
    match p with Route53DNSProvider _ => aws_EnsureManagedZone zone | GoogleProvider g => google_EnsureManagedZone g zone end;
  DeleteManagedZone p zone :=
    match p with Route53DNSProvider _ => aws_DeleteManagedZone zone | GoogleProvider g => google_DeleteManagedZone g zone end
|}.

Definition providerSpecificLabels (p : DNSProviderImpl) : ProviderSpecificLabels :=
  match p with
  | Route53DNSProvider _ => mkProviderLabels "weight" ProviderSpecificHealthCheckID
  | GoogleProvider _ => mkProviderLabels "" ""
  end.

End providers.

(** The fake provider of pkg/dns/dns.go: it does nothing. *)
Definition FakeProvider (W : Type) : Provider W unit := {|
  Ensure _ _ _ := ret tt;
  DeleteRecord _ _ _ := ret tt;
  EnsureManagedZone _ _ := ret (mkZoneOutput "" [] 0);
  DeleteManagedZone _ _ := ret tt
|}.
