(* ===== verification/ProviderHealth.v ===== *)
(** * The health check reconcilers of the providers

    [Provider.HealthCheckReconciler] of pkg/dns/aws/dns.go and pkg/dns/google/
    google.go, and the fake one of pkg/dns/health.go: Route 53 health checks
    behind the cache, nothing for Google. *)

From S2P Require Import Prelude GoStrings Kube ApiTypes Target Google Aws Providers.
Local Open Scope go_scope.

(** pkg/dns/health.go, FakeHealthCheckReconciler *)
Definition FakeHealthCheckReconciler (W : Type) : HealthCheckReconciler W := {|
  hcReconcile _ endpoint w := (Ok (mkHCResult HealthCheckCreated ""), endpoint, w);
  hcDelete endpoint w := (Ok (mkHCResult HealthCheckDeleted ""), endpoint, w)
|}.

Section provider_health.

Context {W : Type} `{!Route53API W} (sid : string).

(** [NewRoute53HealthCheckReconciler] *)
Definition NewRoute53HealthCheckReconciler : HealthCheckReconciler W :=
  {| hcReconcile := aws_Reconcile sid; hcDelete := aws_Delete |}.

(** [NewCachedHealthCheckReconciler]: the key of the health check id is that of
    the provider; the cache, which starts empty, is in the world. *)
Definition NewCachedHealthCheckReconciler {W'} (labels : ProviderSpecificLabels) (reconciler : HealthCheckReconciler W')
  : HealthCheckReconciler (CachedWorld (W := W')) :=
  {| hcReconcile := cached_Reconcile (pslHealthCheckID labels); hcDelete := cached_Delete (pslHealthCheckID labels) |}.

(** What the method returns; the Route 53 provider makes its reconciler in the
    first call and returns the same one, with its cache, ever after. *)
Definition healthCheckReconcilerOf (p : DNSProviderImpl) : HealthCheckReconciler (CachedWorld (W := W)) :=
  match p with
  | Route53DNSProvider _ => NewCachedHealthCheckReconciler (providerSpecificLabels p) NewRoute53HealthCheckReconciler
  | GoogleProvider _ => FakeHealthCheckReconciler (CachedWorld (W := W))
  end.

(** ** Properties *)

Lemma find_set_property ps name value : find_property (set_property ps name value) name = Some (mkProperty name value).
Proof.
  induction ps as [|p ps IH]; simpl; [by rewrite decide_True|].
  case_decide as Hp; simpl; [by rewrite decide_True, Hp|]. by rewrite decide_False.
Qed.

Lemma set_property_twice ps name value : set_property (set_property ps name value) name value = set_property ps name value.
Proof.
  induction ps as [|p ps IH]; simpl; [by rewrite decide_True|].
  case_decide as Hp; simpl; [by rewrite decide_True|]. by rewrite decide_False, IH.
Qed.

(** The id of the health check is found under the key it was written to, and
    writing it again changes nothing. *)
Lemma GetProviderSpecific_Set name value e : GetProviderSpecific (SetProviderSpecific name value e) name = Some value.
Proof. unfold GetProviderSpecific. simpl. by rewrite find_set_property. Qed.

Lemma SetProviderSpecific_twice name value e :
  SetProviderSpecific name value (SetProviderSpecific name value e) = SetProviderSpecific name value e.
Proof. unfold SetProviderSpecific. cbn. by rewrite set_property_twice. Qed.

(** The configuration the health check of an endpoint is created with. *)
Definition createdConfig (spec : DNSHealthCheckSpec) (e : Endpoint) : HealthCheckConfig :=
  mkHCConfig (Some (endpointAddress e)) (Some (DNSName e)) (hsPort spec) (Some (hsPath spec))
    (healthCheckType (hsProtocol spec)) (hsFailureThreshold spec).

Lemma created_needs_no_update hc spec e id :
  hcConfig hc = createdConfig spec e →
  healthCheckDiff hc spec (SetProviderSpecific ProviderSpecificHealthCheckID id e) = None.
Proof. intros Hc. apply (proj1 (health_check_diff_converges _ _ _)). by rewrite Hc. Qed.

(** The life of a Route 53 health check.  The first reconciliation of an
    endpoint without one creates it and writes its id into the endpoint; the
    second reads it back, finds nothing to change and remembers the spec; from
    then on, as long as the spec stays the same, Route 53 is not called. *)
Theorem health_check_created_once region spec e hc cache w w1 w2 w3 :
  let reconcile := hcReconcile (HealthCheckReconciler := healthCheckReconcilerOf (Route53DNSProvider region)) spec in
  let e1 := SetProviderSpecific ProviderSpecificHealthCheckID (hcId hc) e in
  GetProviderSpecific e ProviderSpecificHealthCheckID = None →
  CreateHealthCheck (callerReference sid (hsId spec)) (createdConfig spec e) w = (Ok hc, w1) →
  hcConfig hc = createdConfig spec e →
  ChangeTagsForResource (hcId hc) [(idTag, hsId spec); ("Name", hsName spec)] w1 = (Ok tt, w2) →
  GetHealthCheck (hcId hc) w2 = (Ok hc, w3) →
  cache !! hcId hc = None →
  reconcile e (cache, w) = (Ok (mkHCResult HealthCheckCreated ("Created health check with ID " +:+ hcId hc)), e1, (cache, w2)) ∧
  reconcile e1 (cache, w2) = (Ok (mkHCResult HealthCheckNoop ""), e1, (<[hcId hc := spec]> cache, w3)) ∧
  ∀ w', reconcile e1 (<[hcId hc := spec]> cache, w') =
        (Ok (mkHCResult HealthCheckNoop "Spec unchanged"), e1, (<[hcId hc := spec]> cache, w')).
Proof.
  intros reconcile e1 Hid Hcreate Hcfg Htags Hget Hcache.
  pose proof (λ c w', cache_calls_provider (H := NewRoute53HealthCheckReconciler) ProviderSpecificHealthCheckID spec e1
                (hcId hc) c w' (GetProviderSpecific_Set _ _ _)) as Hsecond.
  split_and!.
  - unfold reconcile, e1. cbn. unfold cached_Reconcile, getHealthCheckID. rewrite Hid. unfold delegate. cbn.
    unfold aws_Reconcile, findHealthCheck. rewrite Hid. unfold createHealthCheck, bind. cbn.
    fold (createdConfig spec e). by rewrite Hcreate, Htags.
  - etransitivity; [apply Hsecond|]. rewrite decide_False by congruence. cbn. unfold aws_Reconcile, findHealthCheck.
    unfold e1 at 1. rewrite GetProviderSpecific_Set. unfold bind. rewrite Hget. cbn.
    unfold updateHealthCheck. unfold e1 at 1. rewrite created_needs_no_update by done. cbn.
    unfold e1. by rewrite SetProviderSpecific_twice.
  - intros w'. etransitivity; [apply Hsecond|]. by rewrite decide_True by apply lookup_insert_eq.
Qed.

(** Google endpoints get no health check id, whatever the reconciler reports. *)
Lemma google_health_checks_do_nothing g spec e w :
  hcReconcile (HealthCheckReconciler := healthCheckReconcilerOf (GoogleProvider g)) spec e w =
  (Ok (mkHCResult HealthCheckCreated ""), e, w).
Proof. done. Qed.

End provider_health.
