(* ===== verification/RecordController.v ===== *)
(** * pkg/controllers/dnsrecord: publishing DNS records

    The controller publishes the endpoints of a DNSRecord to the provider of
    its managed zone and keeps in the status what is published. *)

From S2P Require Import Prelude GoStrings Kube ApiTypes Google Providers MemApi.
Local Open Scope go_scope.

Definition DNSRecordFinalizer : string := "kuadrant.io/dns-record".

Definition set_recStatus (st : DNSRecordStatus) (r : DNSRecord) : DNSRecord :=
  mkDNSRecord (recMeta r) (recSpec r) st.
Definition set_recordMeta (m : ObjectMeta) (r : DNSRecord) : DNSRecord :=
  mkDNSRecord m (recSpec r) (recStatus r).

Section controller.

Context {W P : Type} `{Client W DNSRecord} `{Client W ManagedZone} `{ProviderFactory W P} `{Provider W P}.
Context `{FinalizerOps} `{ConditionOps}.

Definition setDNSRecordCondition (conditionType : string) (status : ConditionStatus) (reason message : string)
  (r : DNSRecord) : DNSRecord :=
  let cond := mkCondition conditionType status reason message (Generation (recMeta r)) in
  let st := recStatus r in
  set_recStatus (mkDNSRecordStatus (SetStatusCondition (recConditions st) cond) (recObservedGeneration st)
                   (recEndpoints st)) r.

(** The zone of a record: [dnsRecord.Spec.ManagedZoneRef] is dereferenced. *)
Definition zoneKey (dnsRecord : DNSRecord) : res ObjectKey :=
  match ManagedZoneRef (recSpec dnsRecord) with
  | Some name => Ok (Namespace (recMeta dnsRecord), name)
  | None => Panic
  end.

Definition notReady (managedZone : ManagedZone) : goerror :=
  ErrText ("the managed zone is not in a ready state : " +:+ Name (zMeta managedZone)).

Definition deleteRecord (dnsRecord : DNSRecord) : M W unit :=
  let! key := lift (zoneKey dnsRecord) in
  let! zone := IgnoreNotFound (clGet (O := ManagedZone) key) in
  match zone with
  | None => ret tt
  | Some managedZone =>
      if negb (IsStatusConditionTrue (zConditions (zStatus managedZone)) "Ready") then fail (notReady managedZone)
      else
        let! dnsProvider := DNSProvider managedZone in
        let! r := try (DeleteRecord dnsProvider dnsRecord managedZone) in
        match r with
        | inl _ => ret tt
        | inr err =>
            let text := error_text err in
            if strings.Contains text "was not found" || strings.Contains text "notFound" then ret tt
            else if strings.Contains text "no endpoints" then ret tt
            else fail err
        end
  end.

Definition publishRecord (dnsRecord : DNSRecord) : M W unit :=
  let! key := lift (zoneKey dnsRecord) in
  let! managedZone := clGet (O := ManagedZone) key in
  if negb (IsStatusConditionTrue (zConditions (zStatus managedZone)) "Ready") then fail (notReady managedZone)
  else if bool_decide (Generation (recMeta dnsRecord) = recObservedGeneration (recStatus dnsRecord)) then ret tt
  else
    let! dnsProvider := DNSProvider managedZone in
    Ensure dnsProvider dnsRecord managedZone.

(** The record with the status of an attempt to publish it (lines 96-111). *)
Definition recordOutcome (outcome : unit + goerror) (dnsRecord : DNSRecord) : DNSRecord :=
  match outcome with
  | inr err =>
      setDNSRecordCondition ConditionTypeReady ConditionFalse "ProviderError"
        ("The DNS provider failed to ensure the record: " +:+ error_text (SanitizeError err)) dnsRecord
  | inl _ =>
      setDNSRecordCondition ConditionTypeReady ConditionTrue "ProviderSuccess" "Provider ensured the managed zone"
        (set_recStatus (mkDNSRecordStatus (recConditions (recStatus dnsRecord)) (Generation (recMeta dnsRecord))
                          (Endpoints (recSpec dnsRecord))) dnsRecord)
  end.

Definition record_Reconcile (req : ObjectKey) : M W ReconcileResult :=
  let! found := IgnoreNotFound (clGet (O := DNSRecord) req) in
  match found with
  | None => ret noRequeue
  | Some previous =>
      if isDeleting (recMeta previous) then
        do! deleteRecord previous in
        do! clUpdate (set_recordMeta (RemoveFinalizer (recMeta previous) DNSRecordFinalizer) previous) in
        ret noRequeue
      else if negb (ContainsFinalizer (recMeta previous) DNSRecordFinalizer) then
        do! clUpdate (set_recordMeta (AddFinalizer (recMeta previous) DNSRecordFinalizer) previous) in
        ret (mkResult true 0)
      else
        let! outcome := try (publishRecord previous) in
        let dnsRecord := recordOutcome outcome previous in
        let! conflict :=
          if bool_decide (recStatus previous = recStatus dnsRecord) then ret false
          else
            let! r := try (clStatusUpdate dnsRecord) in
            match r with
            | inl _ => ret false
            | inr updateErr => if IsConflict updateErr then ret true else fail updateErr
            end in
        if conflict then ret (mkResult true 0)
        else match outcome with
             | inl _ => ret noRequeue
             | inr err => fail err
             end
  end.

End controller.

(** ** Properties *)

Section properties.

Context {W P : Type} `{Client W DNSRecord} `{Client W ManagedZone} `{ProviderFactory W P} `{Provider W P}.
Context `{FinalizerOps} `{!FinalizerLaws} `{ConditionOps} `{!ConditionLaws}.
Context `{!ApiStore W DNSRecord} `{!ApiLaws W DNSRecord} (Hmeta : ∀ r : DNSRecord, metaOf r = recMeta r).

Context (Hstatus : StatusUpdates (W := W) recStatus).
(** Reading a zone and calling the provider leave the records of the server
    alone. *)
Context (Hzones : ∀ k, frames (objs (O := DNSRecord)) (clGet (O := ManagedZone) k)).
Context (Hfactory : ∀ z, frames (objs (O := DNSRecord)) (DNSProvider z)).
Context (Hensure : ∀ p r z, frames (objs (O := DNSRecord)) (Ensure p r z)).
Context (Hdelete : ∀ p r z, frames (objs (O := DNSRecord)) (DeleteRecord p r z)).

Lemma publishRecord_frames r : frames (objs (O := DNSRecord)) (publishRecord r).
Proof. unfold publishRecord. solve_frames. Qed.

Lemma deleteRecord_frames r : frames (objs (O := DNSRecord)) (deleteRecord r).
Proof. unfold deleteRecord. solve_frames. Qed.

Definition recordReady (r : DNSRecord) : Prop :=
  IsStatusConditionTrue (recConditions (recStatus r)) ConditionTypeReady = true.

Lemma recordOutcome_ready outcome r :
  recordReady (recordOutcome outcome r) ↔ ∃ u, outcome = inl u.
Proof.
  unfold recordReady, IsStatusConditionTrue. destruct outcome as [u|e]; simpl.
  - split; [by eauto|]. intros _. by rewrite find_set_eq.
  - split; [|by intros [??]]. by rewrite find_set_eq.
Qed.

(** What a status says, in words of the attempt it records. *)
Definition tellsOutcome (outcome : unit + goerror) (before after : DNSRecord) : Prop :=
  match outcome with
  | inl _ => recordReady after ∧ recEndpoints (recStatus after) = Endpoints (recSpec before) ∧
             recObservedGeneration (recStatus after) = Generation (recMeta before)
  | inr _ => ¬ recordReady after ∧ recEndpoints (recStatus after) = recEndpoints (recStatus before) ∧
             recObservedGeneration (recStatus after) = recObservedGeneration (recStatus before)
  end.

Lemma recordOutcome_tells outcome r r' :
  recStatus r' = recStatus (recordOutcome outcome r) → tellsOutcome outcome r r'.
Proof.
  intros Hs. pose proof (recordOutcome_ready outcome r) as Hr. unfold tellsOutcome, recordReady in *. rewrite Hs.
  destruct outcome as [u|e]; simpl in *.
  - split_and!; try done. apply Hr. by eexists.
  - split_and!; try done. intros Hready. by apply Hr in Hready as [??].
Qed.

(** C28: the status of a record tells the truth.  Unless writing the status
    fails (then nothing is stored), the stored status is that of this attempt:
    Ready with the generation and endpoints of the spec when the provider
    accepted them; not Ready, with the endpoints published last, when it did
    not, and then the error is returned so that the record is tried again. *)
Theorem record_status_truthful req record w w1 outcome w2 result w' :
  clGet req w = (Ok record, w1) →
  isDeleting (recMeta record) = false →
  ContainsFinalizer (recMeta record) DNSRecordFinalizer = true →
  try (publishRecord record) w1 = (Ok outcome, w2) →
  record_Reconcile req w = (result, w') →
  (objs w' = objs w ∧ ∃ e w3, clStatusUpdate (recordOutcome outcome record) w2 = (Err e, w3)) ∨
  ∃ stored', objs w' !! req = Some stored' ∧ tellsOutcome outcome record stored' ∧
    result = match outcome with inl _ => Ok noRequeue | inr err => Err err end.
Proof.
  intros Hget Hdel Hfin Hpub. unfold record_Reconcile, bind at 1, IgnoreNotFound. rewrite Hget, Hdel, Hfin. cbn [negb].
  apply api_get in Hget as [Hw1 Hrec]. unfold bind at 1. rewrite Hpub.
  assert (objs (O := DNSRecord) w2 = objs w) as Hw2.
  { pose proof (publishRecord_frames record w1) as Hp. unfold try in Hpub.
    destruct (publishRecord record w1) as [[| |] ?]; simplify_eq/=; congruence. }
  assert (∀ r', recStatus r' = recStatus (recordOutcome outcome record) →
    ∀ w0, objs w0 !! req = Some r' →
    ∃ stored', objs w0 !! req = Some stored' ∧ tellsOutcome outcome record stored') as Htell.
  { intros r' Hs w0 Hr'. exists r'. split; [done|]. by apply recordOutcome_tells. }
  case_bool_decide as Hsame.
  - unfold bind, ret, fail. intros Hres. right.
    destruct (Htell record Hsame w2) as (st & Hst & Ht); [by rewrite Hw2|].
    exists st. destruct outcome; simplify_eq; done.
  - unfold bind, try, ret, fail. destruct (clStatusUpdate _ w2) as [[r'|e|] w3] eqn:Eu.
    + pose proof (Hstatus _ _ _ _ Eu) as [Hw3 Hs]. intros Hres. right.
      assert (oKey (recordOutcome outcome record) = req) as Hkey.
      { apply api_key in Hrec. rewrite <- Hrec. unfold oKey. rewrite !Hmeta. by destruct outcome. }
      destruct (Htell r' Hs w3) as (st & Hst & Ht); [by rewrite Hw3, Hkey, lookup_insert_eq|].
      exists st. destruct outcome; simplify_eq; done.
    + pose proof (Hstatus _ _ _ _ Eu) as Hw3. simpl in Hw3. intros Hres. left.
      split; [|by eauto]. destruct (IsConflict e); simplify_eq; congruence.
    + by pose proof (Hstatus _ _ _ _ Eu).
Qed.

(** The DNS of [record] was dealt with, from [w] on: its managed zone is not
    there any more; or the zone is Ready, a provider was made for it, and its
    deletion of the record succeeded or failed with a text that is taken to say
    that there was nothing to delete. *)
Definition dnsDeleted (record : DNSRecord) (w : W) : Prop :=
  ∃ name, ManagedZoneRef (recSpec record) = Some name ∧
  let key := (Namespace (recMeta record), name) in
  (∃ e w1, clGet (O := ManagedZone) key w = (Err e, w1) ∧ IsNotFound e = true) ∨
  (∃ zone w1 provider w2 r w3,
    clGet key w = (Ok zone, w1) ∧ IsStatusConditionTrue (zConditions (zStatus zone)) "Ready" = true ∧
    DNSProvider zone w1 = (Ok provider, w2) ∧ DeleteRecord provider record zone w2 = (r, w3) ∧
    match r with
    | Ok _ => True
    | Err e => ∃ text, text ∈ ["was not found"; "notFound"; "no endpoints"] ∧ strings.Contains (error_text e) text = true
    | Panic => False
    end).

Lemma deleteRecord_ok record w w' : deleteRecord record w = (Ok tt, w') → dnsDeleted record w.
Proof using Type.
  unfold deleteRecord, dnsDeleted, bind, lift, zoneKey, IgnoreNotFound, try, ret, fail.
  destruct (ManagedZoneRef (recSpec record)) as [name|]; [|done]. intros Hrun. exists name. split; [done|].
  cbv zeta. destruct (clGet _ w) as [[zone|e|] w1] eqn:Ez; [right| |done].
  2: { left. destruct (IsNotFound e) eqn:He; [by eauto|done]. }
  destruct (IsStatusConditionTrue _ "Ready") eqn:Hready; [|done]. cbn [negb] in Hrun.
  destruct (DNSProvider zone w1) as [[provider| |] w2] eqn:Ep; try done.
  destruct (DeleteRecord provider record zone w2) as [r w3] eqn:Ed.
  exists zone, w1, provider, w2, r, w3. split_and!; try done.
  destruct r as [|e|]; [done| |done].
  destruct (strings.Contains (error_text e) "was not found") eqn:Htext1; [exists "was not found"; split; [left|done]|].
  destruct (strings.Contains (error_text e) "notFound") eqn:Htext2; [exists "notFound"; split; [right; left|done]|].
  destruct (strings.Contains (error_text e) "no endpoints") eqn:Htext3; [exists "no endpoints"; split; [right; right; left|done]|].
  done.
Qed.

(** C29: a record's finalizer goes only after its DNS was dealt with.  If a
    reconciliation leaves a record that was being deleted without its
    finalizer, or gone, then its managed zone no longer exists, or the zone is
    Ready and the provider was told to delete the record there, and did so or
    answered with one of the three texts that are taken for "there is nothing to
    delete". *)
Theorem finalizer_after_delete req record w w1 result w' :
  clGet req w = (Ok record, w1) →
  isDeleting (recMeta record) = true →
  DNSRecordFinalizer ∈ Finalizers (recMeta record) →
  record_Reconcile req w = (result, w') →
  (∀ stored', objs w' !! req = Some stored' → DNSRecordFinalizer ∉ Finalizers (recMeta stored')) →
  ∃ name, ManagedZoneRef (recSpec record) = Some name ∧
  let key := (Namespace (recMeta record), name) in
  (∃ e w2, clGet (O := ManagedZone) key w1 = (Err e, w2) ∧ IsNotFound e = true) ∨
  (∃ zone w2 provider w3 r w4,
    clGet key w1 = (Ok zone, w2) ∧ IsStatusConditionTrue (zConditions (zStatus zone)) "Ready" = true ∧
    DNSProvider zone w2 = (Ok provider, w3) ∧ DeleteRecord provider record zone w3 = (r, w4) ∧
    match r with
    | Ok _ => True
    | Err e => ∃ text, text ∈ ["was not found"; "notFound"; "no endpoints"] ∧ strings.Contains (error_text e) text = true
    | Panic => False
    end).
Proof.
  intros Hget Hdel Hfin. unfold record_Reconcile, bind at 1, IgnoreNotFound. rewrite Hget, Hdel.
  apply api_get in Hget as [Hw1 Hrec]. unfold bind. pose proof (deleteRecord_frames record w1) as Hw2.
  destruct (deleteRecord record w1) as [[[]|e|] w2] eqn:Ed; simpl in Hw2.
  { intros _ _. exact (deleteRecord_ok _ _ _ Ed). }
  all: intros [= _ <-] Hno; exfalso; apply (Hno record); [by rewrite Hw2, Hw1|done].
Qed.

End properties.

(** ** Examples and witnesses *)

(** An in-memory server of records and zones. *)
Abbreviation recordWorld := (gmap ObjectKey DNSRecord * gmap ObjectKey ManagedZone)%type.

#[local] Instance recordsClient : Client recordWorld DNSRecord := mem_client fst (λ m w, (m, w.2)) recMeta.
#[local] Instance recordsStore : ApiStore recordWorld DNSRecord := mem_store fst recMeta (λ r r', r' = r).
#[local] Instance recordsLaws : ApiLaws recordWorld DNSRecord.
Proof. by apply mem_laws. Qed.
#[local] Instance zonesClient : Client recordWorld ManagedZone := mem_client snd (λ m w, (w.1, m)) zMeta.
#[local] Instance fakeFactory : ProviderFactory recordWorld unit := {| DNSProvider := λ _, ret tt |}.
#[local] Instance fakeProvider : Provider recordWorld unit := FakeProvider recordWorld.
#[local] Existing Instance listFinalizers.
#[local] Existing Instance listFinalizers_laws.
#[local] Existing Instance listConditions.
#[local] Existing Instance listConditions_laws.

Lemma recordWorld_meta (r : DNSRecord) : metaOf (W := recordWorld) r = recMeta r.
Proof. done. Qed.

Lemma recordWorld_factory z : frames (objs (O := DNSRecord)) (DNSProvider (W := recordWorld) z).
Proof. done. Qed.

Lemma recordWorld_ensure p r z : frames (objs (O := DNSRecord)) (Ensure (W := recordWorld) p r z).
Proof. done. Qed.

Lemma recordWorld_delete p r z : frames (objs (O := DNSRecord)) (DeleteRecord (W := recordWorld) p r z).
Proof. done. Qed.

Lemma recordWorld_status : StatusUpdates (W := recordWorld) recStatus.
Proof. by apply mem_status. Qed.

Lemma recordWorld_zones k : frames (objs (O := DNSRecord)) (clGet (W := recordWorld) (O := ManagedZone) k).
Proof. intros w. simpl. unfold mem_get. by destruct (served _ _ w !! k). Qed.

Definition readyZone : ManagedZone :=
  mkManagedZone (newObjectMeta "zone" "infra") (mkManagedZoneSpec "" "example.com" "" None ("infra", "credentials"))
    (mkManagedZoneStatus [mkCondition "Ready" ConditionTrue "ProviderSuccess" "" 1] 1 "Z1" 2 []).

Definition anEndpoint : Endpoint := mkEndpoint "www.example.com" ["1.2.3.4"] "A" "" 60 ∅ [].

Definition aRecord (deleting : option Z) : DNSRecord :=
  mkDNSRecord (mkObjectMeta "www" "infra" ∅ ∅ [DNSRecordFinalizer] 2 deleting None)
    (mkDNSRecordSpec (Some "zone") [anEndpoint]) (mkDNSRecordStatus [] 1 []).

Definition recordStart (deleting : option Z) : recordWorld :=
  ({[("infra", "www") := aRecord deleting]}, {[("infra", "zone") := readyZone]}).

Lemma record_status_truthful_witness :
  ∃ stored', objs (record_Reconcile ("infra", "www") (recordStart None)).2 !! ("infra", "www") = Some stored' ∧
    tellsOutcome (inl tt) (aRecord None) stored'.
Proof.
  destruct (record_status_truthful recordWorld_meta recordWorld_status recordWorld_zones recordWorld_factory
    recordWorld_ensure ("infra", "www") (aRecord None) (recordStart None) (recordStart None) (inl tt) (recordStart None)
    (record_Reconcile ("infra", "www") (recordStart None)).1 (record_Reconcile ("infra", "www") (recordStart None)).2)
    as [(_ & e & w3 & Hu)|(s & Hs & Ht & _)].
  - vm_cast_no_check (eq_refl (Ok (aRecord None), recordStart None)).
  - reflexivity.
  - reflexivity.
  - vm_cast_no_check (eq_refl (Ok (inl (B := goerror) tt), recordStart None)).
  - apply surjective_pairing.
  - apply (f_equal fst) in Hu. vm_compute in Hu. discriminate.
  - exact (ex_intro _ s (conj Hs Ht)).
Defined.

Lemma finalizer_after_delete_witness :
  ∃ name, ManagedZoneRef (recSpec (aRecord (Some 5%Z))) = Some name ∧
    clGet ("infra", name) (recordStart (Some 5%Z)) = (Ok readyZone, recordStart (Some 5%Z)).
Proof.
  destruct (finalizer_after_delete recordWorld_zones recordWorld_factory recordWorld_delete
    ("infra", "www") (aRecord (Some 5%Z)) (recordStart (Some 5%Z)) (recordStart (Some 5%Z))
    (record_Reconcile ("infra", "www") (recordStart (Some 5%Z))).1
    (record_Reconcile ("infra", "www") (recordStart (Some 5%Z))).2) as (name & Hname & Hcases).
  - vm_cast_no_check (eq_refl (Ok (aRecord (Some 5%Z)), recordStart (Some 5%Z))).
  - reflexivity.
  - apply list_elem_of_here.
  - apply surjective_pairing.
  - intros stored' Hst. vm_compute in Hst. discriminate.
  - exists name. injection Hname as <-. split; [reflexivity|].
    destruct Hcases as [(e & w2 & Hg & _)|(zone & w2 & provider & w3 & r & w4 & Hg & _)].
    + apply (f_equal fst) in Hg. vm_compute in Hg. discriminate.
    + vm_cast_no_check (eq_refl (Ok readyZone, recordStart (Some 5%Z))).
Defined.
