(* ===== verification/ZoneController.v ===== *)
(** * pkg/controllers/managedzone: the managed zones

    The controller ensures a zone with its DNS provider, delegates it from its
    parent zone with an NS record, and reports both in the zone's Ready
    condition. *)

From S2P Require Import Prelude GoStrings Kube ApiTypes Google Providers MemApi.
Local Open Scope go_scope.

Definition ManagedZoneFinalizer : string := "kuadrant.io/managed-zone".

Definition set_zStatus (st : ManagedZoneStatus) (z : ManagedZone) : ManagedZone := mkManagedZone (zMeta z) (zSpec z) st.
Definition set_zMeta (m : ObjectMeta) (z : ManagedZone) : ManagedZone := mkManagedZone m (zSpec z) (zStatus z).

(** [&v1alpha1.ManagedZone{}], what a failed Get leaves behind. *)
Definition zeroZone : ManagedZone :=
  mkManagedZone (newObjectMeta "" "") (mkManagedZoneSpec "" "" "" None ("", "")) (mkManagedZoneStatus [] 0 "" 0 []).

Section controller.

Context {W P : Type} `{Client W DNSRecord} `{Client W ManagedZone} `{ProviderFactory W P} `{Provider W P}.
Context `{FinalizerOps} `{ConditionOps} `{OwnerOps}.

Definition setManagedZoneCondition (conditionType : string) (status : ConditionStatus) (reason message : string)
  (z : ManagedZone) : ManagedZone :=
  let cond := mkCondition conditionType status reason message (Generation (zMeta z)) in
  let st := zStatus z in
  set_zStatus (mkManagedZoneStatus (SetStatusCondition (zConditions st) cond) (zObservedGeneration st) (zID st)
                 (zRecordCount st) (zNameServers st)) z.

(** The zone with the status the provider reports. *)
Definition publishManagedZone (managedZone : ManagedZone) : M W ManagedZone :=
  let! dnsProvider := DNSProvider managedZone in
  let! mzResp := EnsureManagedZone dnsProvider managedZone in
  let st := zStatus managedZone in
  ret (set_zStatus (mkManagedZoneStatus (zConditions st) (zObservedGeneration st) (zoID mzResp)
                      (zoRecordCount mzResp) (zoNameServers mzResp)) managedZone).

(** When the provider cannot be created the code also sets a condition on the
    zone it holds; the caller drops that zone with the error. *)
Definition deleteManagedZone (managedZone : ManagedZone) : M W unit :=
  if negb (bool_decide (zsID (zSpec managedZone) = "")) then ret tt
  else
    let! dnsProvider := DNSProvider managedZone in
    let! r := try (DeleteManagedZone dnsProvider managedZone) in
    match r with
    | inl _ => ret tt
    | inr err =>
        let text := error_text err in
        if strings.Contains text "was not found" || strings.Contains text "notFound" then ret tt else fail err
    end.

(** [(parentZone, err)]: both are returned, and a caller may ignore the error. *)
Definition getParentZone (managedZone : ManagedZone) : M W (option ManagedZone * option goerror) :=
  match ParentManagedZone (zSpec managedZone) with
  | None => ret (None, None)
  | Some parent =>
      let! r := try (clGet (O := ManagedZone) (Namespace (zMeta managedZone), parent)) in
      match r with
      | inl parentZone => ret (Some parentZone, None)
      | inr err => ret (Some zeroZone, Some err)
      end
  end.

(** [if err != nil { return err }] *)
Definition parentOrError (managedZone : ManagedZone) : M W (option ManagedZone) :=
  let! (parentZone, err) := getParentZone managedZone in
  match err with Some e => fail e | None => ret parentZone end.

(** [if err := client.IgnoreNotFound(err); err != nil { return err }] *)
Definition parentIgnoringNotFound (managedZone : ManagedZone) : M W (option ManagedZone) :=
  let! (parentZone, err) := getParentZone managedZone in
  match err with
  | Some e => if IsNotFound e then ret parentZone else fail e
  | None => ret parentZone
  end.

Definition setParentZoneOwner (managedZone : ManagedZone) : M W ManagedZone :=
  let! parentZone := parentOrError managedZone in
  match parentZone with
  | None => ret managedZone
  | Some parentZone =>
      let! m := lift (SetControllerReference (zMeta parentZone) (zMeta managedZone)) in
      ret (set_zMeta m managedZone)
  end.

(** The NS record of [managedZone] in [parentZone] (lines 249-276). *)
Definition nsRecordOf (managedZone parentZone : ManagedZone) : DNSRecord :=
  let recordName := DomainName (zSpec managedZone) in
  mkDNSRecord (newObjectMeta recordName (Namespace (zMeta parentZone)))
    (mkDNSRecordSpec (Some (Name (zMeta parentZone)))
       [mkEndpoint recordName (zNameServers (zStatus managedZone)) NSRecordType "" 172800 ∅ []])
    emptyDNSRecordStatus.

Definition createParentZoneNSRecord (managedZone : ManagedZone) : M W unit :=
  let! parentZone := parentOrError managedZone in
  match parentZone with
  | None => ret tt
  | Some parentZone =>
      let nsRecord := nsRecordOf managedZone parentZone in
      let! m := lift (SetControllerReference (zMeta parentZone) (recMeta nsRecord)) in
      let! r := try (clCreate (mkDNSRecord m (recSpec nsRecord) (recStatus nsRecord))) in
      match r with
      | inl _ => ret tt
      | inr err => if IsAlreadyExists err then ret tt else fail err
      end
  end.

Definition deleteParentZoneNSRecord (managedZone : ManagedZone) : M W unit :=
  let! parentZone := parentIgnoringNotFound managedZone in
  match parentZone with
  | None => ret tt
  | Some parentZone =>
      let! found := IgnoreNotFound (clGet (Namespace (zMeta parentZone), DomainName (zSpec managedZone))) in
      match found with
      | None => ret tt
      | Some nsRecord => clDelete (O := DNSRecord) nsRecord
      end
  end.

Definition parentZoneNSRecordReady (managedZone : ManagedZone) : M W unit :=
  let! parentZone := parentIgnoringNotFound managedZone in
  match parentZone with
  | None => ret tt
  | Some parentZone =>
      let! found := IgnoreNotFound (clGet (Namespace (zMeta parentZone), DomainName (zSpec managedZone))) in
      match found with
      | None => ret tt
      | Some nsRecord =>
          if IsStatusConditionTrue (recConditions (recStatus nsRecord)) ConditionTypeReady then ret tt
          else fail (ErrText ("the ns record is not in a ready state : " +:+ Name (recMeta nsRecord)))
      end
  end.

(** ** Reconcile *)

(** The variables [status], [reason] and [message]. *)
Record verdict := mkVerdict { vStatus : ConditionStatus; vReason : string; vMessage : string }.

Definition providerSuccess : verdict :=
  mkVerdict ConditionTrue "ProviderSuccess" "Provider ensured the managed zone".

(** One step of the reconciliation on the zone it holds and the verdict so far:
    when [call] fails, the verdict is this step's, the zone as it is is written
    to the server and the reconciliation goes on. *)
Definition zoneStep (call : ManagedZone → M W ManagedZone) (reason message : string)
  (st : ManagedZone * verdict) : M W (ManagedZone * verdict) :=
  let! r := try (call st.1) in
  match r with
  | inl managedZone => ret (managedZone, st.2)
  | inr err =>
      let! managedZone := clStatusUpdate st.1 in
      ret (managedZone, mkVerdict ConditionFalse reason (message +:+ error_text err))
  end.

Definition keepingZone (call : ManagedZone → M W unit) (z : ManagedZone) : M W ManagedZone :=
  do! call z in ret z.

(** Lines 101-143. *)
Definition zoneSteps (managedZone : ManagedZone) : M W (ManagedZone * verdict) :=
  let! st := zoneStep publishManagedZone "ProviderError"
    "The DNS provider failed to ensure the managed zone: " (managedZone, providerSuccess) in
  let! st := zoneStep (keepingZone createParentZoneNSRecord) "ParentZoneNSRecordError"
    "Failed to create the NS record in the parent managed zone: " st in
  zoneStep (keepingZone parentZoneNSRecordReady) "ParentZoneNSRecordNotReady"
    "NS Record ready status check failed: " st.

(** Lines 145-146. *)
Definition withVerdict (v : verdict) (managedZone : ManagedZone) : ManagedZone :=
  let s := zStatus managedZone in
  setManagedZoneCondition ConditionTypeReady (vStatus v) (vReason v) (vMessage v)
    (set_zStatus (mkManagedZoneStatus (zConditions s) (Generation (zMeta managedZone)) (zID s)
       (zRecordCount s) (zNameServers s)) managedZone).

(** Lines 101-152. *)
Definition reconcileZone (managedZone : ManagedZone) : M W ReconcileResult :=
  let! (managedZone, v) := zoneSteps managedZone in
  do! clStatusUpdate (withVerdict v managedZone) in
  ret noRequeue.

Definition zone_Reconcile (req : ObjectKey) : M W ReconcileResult :=
  let! found := IgnoreNotFound (clGet (O := ManagedZone) req) in
  match found with
  | None => ret noRequeue
  | Some managedZone =>
      if isDeleting (zMeta managedZone) then
        do! deleteParentZoneNSRecord managedZone in
        do! deleteManagedZone managedZone in
        do! clUpdate (set_zMeta (RemoveFinalizer (zMeta managedZone) ManagedZoneFinalizer) managedZone) in
        ret noRequeue
      else
        let! managedZone :=
          if negb (ContainsFinalizer (zMeta managedZone) ManagedZoneFinalizer) then
            let! owned := setParentZoneOwner
              (set_zMeta (AddFinalizer (zMeta managedZone) ManagedZoneFinalizer) managedZone) in
            clUpdate owned
          else ret managedZone in
        reconcileZone managedZone
  end.

End controller.

(** ** Properties *)

Section properties.

Context {W P : Type} `{Client W DNSRecord} `{Client W ManagedZone} `{ProviderFactory W P} `{Provider W P}.
Context `{FinalizerOps} `{!FinalizerLaws} `{ConditionOps} `{!ConditionLaws} `{OwnerOps}.
Context `{!ApiStore W ManagedZone} `{!ApiLaws W ManagedZone} (Hmeta : ∀ z : ManagedZone, metaOf z = zMeta z).
Context (Hstatus : StatusUpdates (W := W) zStatus).

Definition zoneReady (z : ManagedZone) : Prop :=
  IsStatusConditionTrue (zConditions (zStatus z)) ConditionTypeReady = true.

(** The key is kept, and the verdict is good afterwards exactly when it was and
    the call succeeds. *)
Lemma zoneStep_spec (call : ManagedZone → M W ManagedZone) reason message z v z' v' w w' :
  zoneStep call reason message (z, v) w = (Ok (z', v'), w') →
  (∀ z1 w1, call z w = (Ok z1, w1) → zMeta z1 = zMeta z) →
  objectKey (zMeta z') = objectKey (zMeta z) ∧
  (vStatus v' = ConditionTrue → v' = v ∧ call z w = (Ok z', w')) ∧
  (∀ z1 w1, call z w = (Ok z1, w1) → z1 = z' ∧ w1 = w' ∧ v' = v).
Proof.
  unfold zoneStep, bind, try, ret. simpl. intros E Hcall. destruct (call z w) as [[z1|e|] w1]; simplify_eq.
  - split_and!; [by erewrite Hcall|done|intros; by simplify_eq].
  - destruct (clStatusUpdate z w1) as [[z2|e2|] w2] eqn:Eu; simplify_eq.
    apply Hstatus in Eu as [Hw2 _]. split_and!; [|done|done].
    assert (oKey z' = oKey z) as Hk by (eapply api_key; by rewrite Hw2, lookup_insert_eq).
    unfold oKey in Hk. by rewrite !Hmeta in Hk.
Qed.

Lemma keepingZone_ok (call : ManagedZone → M W unit) z w z' w' :
  keepingZone call z w = (Ok z', w') ↔ z' = z ∧ call z w = (Ok tt, w').
Proof. unfold keepingZone, bind, ret. destruct (call z w) as [[[]|e|] w1]; split; intros; simplify_eq; naive_solver. Qed.

Lemma publishManagedZone_meta z w z' w' :
  publishManagedZone z w = (Ok z', w') → zMeta z' = zMeta z ∧ zSpec z' = zSpec z.
Proof.
  unfold publishManagedZone, bind, ret. destruct (DNSProvider z w) as [[p| |] w1]; try done.
  destruct (EnsureManagedZone p z w1) as [[out| |] w2]; try done. by intros [= <- _].
Qed.

(** Every step of the reconciliation of [zone] from [w] succeeded, and the
    provider reported the status of [published]. *)
Definition allStepsSucceed (zone published : ManagedZone) (w w3 : W) : Prop :=
  ∃ w1 w2, publishManagedZone zone w = (Ok published, w1) ∧
    createParentZoneNSRecord published w1 = (Ok tt, w2) ∧
    parentZoneNSRecordReady published w2 = (Ok tt, w3).

(** The three steps: the verdict is good exactly when all succeed. *)
Lemma zoneSteps_spec zone w v z3 w3 :
  zoneSteps zone w = (Ok (z3, v), w3) →
  objectKey (zMeta z3) = objectKey (zMeta zone) ∧
  (vStatus v = ConditionTrue → allStepsSucceed zone z3 w w3) ∧
  (∀ z w', allStepsSucceed zone z w w' → vStatus v = ConditionTrue).
Proof.
  unfold zoneSteps, bind, allStepsSucceed. destruct (zoneStep publishManagedZone _ _ _ w) as [[[z1 v1]| |] w1] eqn:E1; try done.
  destruct (zoneStep (keepingZone _) _ _ _ w1) as [[[z2 v2]| |] w2] eqn:E2; try done. intros E3.
  apply zoneStep_spec in E1 as (Hk1 & Hf1 & Hb1); [|by intros ?? [? _]%publishManagedZone_meta].
  apply zoneStep_spec in E2 as (Hk2 & Hf2 & Hb2); [|by intros ?? [-> _]%keepingZone_ok].
  apply zoneStep_spec in E3 as (Hk3 & Hf3 & Hb3); [|by intros ?? [-> _]%keepingZone_ok].
  split_and!; [congruence|..].
  - intros Hv. apply Hf3 in Hv as Hs3. destruct Hs3 as [-> [-> ?]%keepingZone_ok].
    apply Hf2 in Hv as Hs2. destruct Hs2 as [-> [-> ?]%keepingZone_ok].
    apply Hf1 in Hv as [-> ?]. by eauto.
  - intros z w' (wa & wb & Hp & Hc & Hr). apply Hb1 in Hp as (-> & -> & ->).
    destruct (Hb2 z1 wb) as (<- & -> & ->); [by apply keepingZone_ok|].
    destruct (Hb3 z1 w') as (_ & _ & ->); [by apply keepingZone_ok|]. done.
Qed.

Lemma zone_Reconcile_spec req zone w w0 result w' :
  clGet req w = (Ok zone, w0) →
  isDeleting (zMeta zone) = false →
  ContainsFinalizer (zMeta zone) ManagedZoneFinalizer = true →
  zone_Reconcile req w = (Ok result, w') →
  ∃ z3 v w3 stored', zoneSteps zone w0 = (Ok (z3, v), w3) ∧
    clStatusUpdate (withVerdict v z3) w3 = (Ok stored', w') ∧
    objs w' !! req = Some stored' ∧ zStatus stored' = zStatus (withVerdict v z3) ∧
    (zoneReady stored' ↔ vStatus v = ConditionTrue).
Proof.
  intros Hget Hdel Hfin. unfold zone_Reconcile, bind at 1, IgnoreNotFound. rewrite Hget, Hdel, Hfin. cbn [negb].
  apply api_get in Hget as [_ Hrec]. apply api_key in Hrec. unfold oKey in Hrec. rewrite Hmeta in Hrec.
  unfold reconcileZone, bind, ret. cbv beta iota zeta.
  destruct (zoneSteps zone w0) as [[[z3 v]| |] w3] eqn:Es; try done.
  pose proof (zoneSteps_spec _ _ _ _ _ Es) as [Hk _]. rewrite Hrec in Hk.
  destruct (clStatusUpdate (withVerdict v z3) w3) as [[z4| |] w4] eqn:Eu; try done. intros [= _ <-].
  pose proof (Hstatus _ _ _ _ Eu) as [Hw' Hz4]. exists z3, v, w3, z4. split_and!; try done.
  - rewrite Hw'. unfold oKey. rewrite Hmeta. cbn [zMeta withVerdict setManagedZoneCondition set_zStatus].
    by rewrite Hk, lookup_insert_eq.
  - unfold zoneReady, IsStatusConditionTrue. rewrite Hz4. simpl. rewrite find_set_eq. simpl.
    by rewrite bool_decide_eq_true.
Qed.

(** C30: the Ready condition of a zone tells the truth.  After a reconciliation
    that returns, the stored zone is Ready exactly when the provider ensured
    the zone, the NS record of its parent was created (or was there) and is not
    unready; then the stored status has the identifier, the record count and the
    name servers the provider reported. *)
Theorem zone_ready_iff req zone w w0 result w' :
  clGet req w = (Ok zone, w0) →
  isDeleting (zMeta zone) = false →
  ContainsFinalizer (zMeta zone) ManagedZoneFinalizer = true →
  zone_Reconcile req w = (Ok result, w') →
  ∃ stored', objs w' !! req = Some stored' ∧
    (zoneReady stored' ↔ ∃ published w3, allStepsSucceed zone published w0 w3) ∧
    (∀ published w3, allStepsSucceed zone published w0 w3 →
       zID (zStatus stored') = zID (zStatus published) ∧
       zRecordCount (zStatus stored') = zRecordCount (zStatus published) ∧
       zNameServers (zStatus stored') = zNameServers (zStatus published)).
Proof.
  intros Hget Hdel Hfin Hrec.
  destruct (zone_Reconcile_spec _ _ _ _ _ _ Hget Hdel Hfin Hrec) as (z3 & v & w3 & st & Es & _ & Hst & Hz & Hr).
  apply zoneSteps_spec in Es as (_ & Hf & Hb). exists st. split_and!; [done|..].
  - rewrite Hr. split; [by eauto|]. by intros (z & w'' & ?%Hb).
  - intros published w5 Hall. pose proof (Hf (Hb _ _ Hall)) as (? & ? & Hp & _).
    destruct Hall as (? & ? & Hp' & _). rewrite Hz, Hp in *. by simplify_eq.
Qed.

(** *** Delegation *)

Context `{!ApiStore W DNSRecord} `{!ApiLaws W DNSRecord}.

(** A server that refuses to create a record because it exists has it; the
    owner set on a record keeps its key; zones and records are apart. *)
Context (Hexists : ∀ (r : DNSRecord) w e w', clCreate r w = (Err e, w') → IsAlreadyExists e = true →
  is_Some (objs w !! oKey r)).
Context (Howner : ∀ owner m m', SetControllerReference owner m = Ok m' → objectKey m' = objectKey m).
Context (HmetaR : ∀ r : DNSRecord, metaOf r = recMeta r).
Context (HzonesFrame : ∀ k, frames (objs (O := DNSRecord)) (clGet (O := ManagedZone) k)).
Context (HstatusFrame : ∀ z : ManagedZone, frames (objs (O := DNSRecord)) (clStatusUpdate z)).

Context (HcreateFrame : ∀ r : DNSRecord, frames (objs (O := ManagedZone)) (clCreate r)).

Definition nsKey (z : ManagedZone) : ObjectKey := (Namespace (zMeta z), DomainName (zSpec z)).

(** Reading the parent zone changes nothing; a parent that is read is stored in
    the namespace of the zone. *)
Lemma getParentZone_spec z p w o err w' :
  ParentManagedZone (zSpec z) = Some p → getParentZone z w = (Ok (o, err), w') →
  objs (O := ManagedZone) w' = objs w ∧ objs (O := DNSRecord) w' = objs w ∧
  match err with
  | None => is_Some (objs (O := ManagedZone) w !! (Namespace (zMeta z), p)) ∧
            ∃ parent, o = Some parent ∧ Namespace (zMeta parent) = Namespace (zMeta z)
  | Some e => IsNotFound e = true → objs (O := ManagedZone) w !! (Namespace (zMeta z), p) = None
  end.
Proof.
  intros Hp. unfold getParentZone. rewrite Hp. unfold bind, try, ret.
  pose proof (HzonesFrame (Namespace (zMeta z), p) w) as Hf.
  destruct (clGet _ w) as [[parent|e|] w1] eqn:Eg; try done; intros ?; simplify_eq/=;
    apply api_get in Eg as [Hz Hg]; split_and!; try done.
  exists parent. split; [done|]. apply api_key in Hg. unfold oKey in Hg. rewrite Hmeta in Hg.
  by injection Hg.
Qed.

(** After the NS record is created there is one, and the parent zone is still
    there. *)
Lemma createParentZoneNSRecord_stores z p w w' :
  ParentManagedZone (zSpec z) = Some p → createParentZoneNSRecord z w = (Ok tt, w') →
  is_Some (objs (O := ManagedZone) w' !! (Namespace (zMeta z), p)) ∧ is_Some (objs (O := DNSRecord) w' !! nsKey z).
Proof.
  intros Hp. unfold createParentZoneNSRecord, parentOrError, bind, lift, try, ret, fail.
  destruct (getParentZone z w) as [[[o [e|]]| |] w1] eqn:Ep; try done.
  apply (getParentZone_spec _ p) in Ep as (Hz & _ & Hst & parent & -> & Hns); [|done].
  destruct (SetControllerReference _ _) as [m| |] eqn:Em; try done. apply Howner in Em.
  set (r := mkDNSRecord m _ _). assert (oKey r = nsKey z) as Hk.
  { unfold oKey, nsKey. rewrite HmetaR, <- Hns. exact Em. }
  pose proof (HcreateFrame r w1) as Hf. rewrite <- Hz, <- Hf in Hst. clearbody r. clear Em.
  destruct (clCreate r w1) as [[r'|e|] w2] eqn:Ec; try done; pose proof (api_create _ _ _ _ Ec) as Hr; simpl in Hr, Hst.
  - intros [= <-]. destruct Hr as (_ & -> & _). by rewrite Hk, lookup_insert_eq.
  - destruct (IsAlreadyExists e) eqn:He; [|done]. intros [= <-]. rewrite Hr, <- Hk. split; [done|]. by eapply Hexists.
Qed.

(** A check that passes with the parent and the NS record there found the
    record ready. *)
Lemma parentZoneNSRecordReady_ready z p w w' :
  ParentManagedZone (zSpec z) = Some p →
  is_Some (objs (O := ManagedZone) w !! (Namespace (zMeta z), p)) → is_Some (objs (O := DNSRecord) w !! nsKey z) →
  parentZoneNSRecordReady z w = (Ok tt, w') →
  ∃ ns, objs (O := DNSRecord) w' !! nsKey z = Some ns ∧
    IsStatusConditionTrue (recConditions (recStatus ns)) ConditionTypeReady = true.
Proof.
  intros Hp Hz [ns Hns]. unfold parentZoneNSRecordReady, parentIgnoringNotFound, IgnoreNotFound, bind, ret, fail.
  destruct (getParentZone z w) as [[[o err]| |] w1] eqn:Ep; try done.
  apply (getParentZone_spec _ p) in Ep as (_ & Hr & Herr); [|done]. rewrite <- Hr in Hns.
  destruct err as [e|]; [destruct (IsNotFound e); [rewrite Herr in Hz by done; by destruct Hz|done]|].
  destruct Herr as (_ & parent & -> & Hpns). rewrite Hpns. fold (nsKey z).
  destruct (clGet (nsKey z) w1) as [[r|e|] w2] eqn:Eg; try done; apply api_get in Eg as [Hw2 Hg].
  - destruct (IsStatusConditionTrue _ _) eqn:Hready; [|done]. intros [= <-]. exists r. by rewrite Hw2.
  - destruct (IsNotFound e); [|done]. by rewrite Hg in Hns.
Qed.

(** Deleting at the provider and deleting records leave the zones alone. *)
Context (HdeleteFrame : ∀ r : DNSRecord, frames (objs (O := ManagedZone)) (clDelete r)).
Context (HgetFrame : ∀ k, frames (objs (O := ManagedZone)) (clGet (O := DNSRecord) k)).
Context (HfactoryFrame : ∀ z, frames (objs (O := ManagedZone)) (DNSProvider z)).
Context (HdeleteZoneFrame : ∀ p z, frames (objs (O := ManagedZone)) (DeleteManagedZone p z)).

Lemma deleteNS_frames z : frames (objs (O := ManagedZone)) (deleteParentZoneNSRecord z).
Proof.
  assert (∀ k, frames (objs (O := ManagedZone)) (clGet (O := ManagedZone) k)) as Hg.
  { intros k w. destruct (clGet k w) eqn:E. by apply api_get in E as [? _]. }
  unfold deleteParentZoneNSRecord, parentIgnoringNotFound, getParentZone. solve_frames.
Qed.

Lemma deleteZone_frames z : frames (objs (O := ManagedZone)) (deleteManagedZone z).
Proof. unfold deleteManagedZone. solve_frames. Qed.

(** *** What the NS record says

    The record is created once and never updated, so what a Ready zone is
    delegated to depends on its history. *)
Context (HkeepsR : ∀ r r' : DNSRecord, keeps r r' → recSpec r' = recSpec r).
Context (HproviderFrame : ∀ z, frames (objs (O := DNSRecord)) (DNSProvider z)).
Context (HensureFrame : ∀ p z, frames (objs (O := DNSRecord)) (EnsureManagedZone p z)).

Section history.

(** The zone [req], its domain and parent, and its name servers. *)
Context (req : ObjectKey) (domain parent : string) (servers : list string).

(** One NS endpoint for the domain with the name servers, in the parent zone. *)
Definition delegation : DNSRecordSpec :=
  mkDNSRecordSpec (Some parent) [mkEndpoint domain servers NSRecordType "" 172800 ∅ []].

(** A reconciliation of the zone in which the provider ensured the zone and
    reported [servers]. *)
Record ensured (w : W) (zone : ManagedZone) (w0 : W) (published : ManagedZone) (w1 : W) : Prop := {
  en_get : clGet req w = (Ok zone, w0);
  en_live : isDeleting (zMeta zone) = false;
  en_finalizer : ContainsFinalizer (zMeta zone) ManagedZoneFinalizer = true;
  en_domain : DomainName (zSpec zone) = domain;
  en_parent : ParentManagedZone (zSpec zone) = Some parent;
  en_publish : publishManagedZone zone w0 = (Ok published, w1);
  en_servers : zNameServers (zStatus published) = servers
}.

(** What happens to the record under the key of the NS record: such a
    reconciliation, however it ends; or anything that does not create it and
    leaves its spec alone (the record's own controller, its deletion). *)
Inductive delegationStep : W → W → Prop :=
| Reconciled w zone w0 published w1 result w' :
    ensured w zone w0 published w1 → zone_Reconcile req w = (result, w') → delegationStep w w'
| Elsewhere w w' :
    (∀ r', objs (O := DNSRecord) w' !! (req.1, domain) = Some r' →
      ∃ r, objs (O := DNSRecord) w !! (req.1, domain) = Some r ∧ recSpec r' = recSpec r) →
    delegationStep w w'.

Definition nsInv (w : W) : Prop :=
  ∀ r, objs (O := DNSRecord) w !! (req.1, domain) = Some r → recSpec r = delegation.

Lemma nsInv_frames {A} (m : M W A) w : frames (objs (O := DNSRecord)) m → nsInv w → nsInv (m w).2.
Proof using Type. unfold nsInv. intros Hm. by rewrite Hm. Qed.

Lemma nsInv_bind {A B} (m : M W A) (k : A → M W B) w :
  nsInv w → nsInv (m w).2 → (∀ a w1, m w = (Ok a, w1) → nsInv w1 → nsInv (k a w1).2) → nsInv (bind m k w).2.
Proof using Type. intros Hw Hm Hk. unfold bind. destruct (m w) as [[a|e|] w1] eqn:E; [|done..]. by apply Hk. Qed.

(** Creating the NS record of [z] gives it the name servers of [z]. *)
Lemma createParentZoneNSRecord_inv z w :
  Namespace (zMeta z) = req.1 → DomainName (zSpec z) = domain → ParentManagedZone (zSpec z) = Some parent →
  zNameServers (zStatus z) = servers → nsInv w → nsInv (createParentZoneNSRecord z w).2.
Proof using ApiLaws0 ApiLaws1 Hmeta HmetaR Howner HkeepsR HzonesFrame.
  intros Hns Hdom Hpar Hsrv Hinv. unfold createParentZoneNSRecord, parentOrError, getParentZone. rewrite Hpar.
  unfold bind, lift, try, ret, fail. pose proof (HzonesFrame (Namespace (zMeta z), parent) w) as Hf.
  destruct (clGet _ w) as [[pz|e|] w1] eqn:Eg; simpl in Hf; [|unfold nsInv; simpl; by rewrite Hf..].
  apply api_get in Eg as [_ Hg]. apply api_key in Hg. unfold oKey in Hg. rewrite Hmeta in Hg.
  injection Hg as Hpns Hpname. assert (nsInv w1) as Hinv1 by (unfold nsInv; by rewrite Hf).
  destruct (SetControllerReference _ _) as [m| |] eqn:Em; [|done..]. apply Howner in Em.
  destruct (clCreate _ w1) as [[r'|e|] w2] eqn:Ec; pose proof (api_create _ _ _ _ Ec) as Hr; simpl in Hr; [| |done].
  - simpl. destruct Hr as (_ & Hw2 & Hk). intros r. rewrite Hw2. unfold oKey. rewrite HmetaR. simpl. rewrite Em.
    change (objectKey _) with (Namespace (zMeta pz), DomainName (zSpec z)). rewrite Hpns, Hns, Hdom, lookup_insert_eq.
    intros [= <-]. rewrite (HkeepsR _ _ Hk). simpl. unfold delegation. by rewrite Hpname, Hdom, Hsrv.
  - destruct (IsAlreadyExists e); unfold nsInv; simpl; by rewrite Hr.
Qed.

Lemma zoneStep_inv (call : ManagedZone → M W unit) reason message st w :
  nsInv (call st.1 w).2 → nsInv (zoneStep (keepingZone call) reason message st w).2.
Proof using HstatusFrame.
  intros Hcall. unfold zoneStep, keepingZone, bind, try, ret.
  destruct (call st.1 w) as [[[]|e|] w1]; simpl in *; [done| |done].
  pose proof (nsInv_frames _ w1 (HstatusFrame st.1) Hcall). by destruct (clStatusUpdate st.1 w1) as [[]?].
Qed.

Lemma parentZoneNSRecordReady_frames z : frames (objs (O := DNSRecord)) (parentZoneNSRecordReady z).
Proof using ApiLaws1 HzonesFrame. unfold parentZoneNSRecordReady, parentIgnoringNotFound, getParentZone. solve_frames. Qed.

Lemma reconciled_inv w zone w0 published w1 result w' :
  ensured w zone w0 published w1 → zone_Reconcile req w = (result, w') → nsInv w → nsInv w'.
Proof using ApiLaws0 ApiLaws1 Hmeta HmetaR Howner HkeepsR HzonesFrame HstatusFrame HproviderFrame HensureFrame.
  intros [Hget Hlive Hfin Hdom Hpar Hpub Hsrv] Hrun Hinv. change w' with (result, w').2. rewrite <- Hrun. clear Hrun.
  unfold zone_Reconcile, bind at 1, IgnoreNotFound. rewrite Hget, Hlive, Hfin. cbn [negb].
  pose proof (publishManagedZone_meta _ _ _ _ Hpub) as [Hm Hs].
  assert (Namespace (zMeta published) = req.1) as Hns.
  { pose proof Hget as Hg. apply api_get in Hg as [_ Hg]. apply api_key in Hg. unfold oKey in Hg. rewrite Hmeta in Hg.
    by rewrite Hm, <- Hg. }
  assert (nsInv w0) as Hinv0.
  { pose proof (nsInv_frames _ w (HzonesFrame req) Hinv) as Hi. by rewrite Hget in Hi. }
  assert (nsInv w1) as Hinv1.
  { assert (frames (objs (O := DNSRecord)) (publishManagedZone zone)) as Hf by (unfold publishManagedZone; solve_frames).
    pose proof (nsInv_frames _ w0 Hf Hinv0) as Hi. by rewrite Hpub in Hi. }
  change (nsInv (reconcileZone zone w0).2). unfold reconcileZone.
  apply nsInv_bind; [done|unfold zoneSteps|].
  - assert (zoneStep publishManagedZone "ProviderError" "The DNS provider failed to ensure the managed zone: "
      (zone, providerSuccess) w0 = (Ok (published, providerSuccess), w1)) as Hfirst.
    { unfold zoneStep, bind, try, ret. cbn [fst snd]. by rewrite Hpub. }
    apply nsInv_bind; [done|by rewrite Hfirst|]. intros st w2. rewrite Hfirst. intros [= <- <-] _.
    apply nsInv_bind; [done|apply zoneStep_inv|].
    + apply createParentZoneNSRecord_inv; cbn [fst]; rewrite ?Hs; done.
    + intros st w2 _ Hw2. apply zoneStep_inv, nsInv_frames; [apply parentZoneNSRecordReady_frames|done].
  - intros [z v] w2 _ Hw2. apply nsInv_frames; [|done]. solve_frames.
Qed.

Lemma history_inv w w' : rtc delegationStep w w' → nsInv w → nsInv w'.
Proof using ApiLaws0 ApiLaws1 Hmeta HmetaR Howner HkeepsR HzonesFrame HstatusFrame HproviderFrame HensureFrame.
  induction 1 as [|w w1 w2 Hstep _ IH]; [done|]. intros Hinv. apply IH. clear IH.
  destruct Hstep as [w zone w0 published w1 result w' Hens Hrun|w w' Helse]; [by eapply reconciled_inv|].
  intros r' Hr'. destruct (Helse r' Hr') as (r & Hr & ->). by apply Hinv.
Qed.

(** C31: a Ready zone is delegated to its name servers.  Take any history that
    starts without a record under the zone's domain in its namespace, and in
    which that record is written by nobody but this zone's reconciliations,
    each with the provider reporting the same name servers (others may change
    its status or delete it).  When such a reconciliation leaves the zone Ready,
    the record is stored and itself ready, and asks the parent zone for exactly
    one NS endpoint, from the zone's domain to the name servers that the zone's
    own status reports. *)
Theorem zone_ready_delegated start w zone w0 published w1 result w' stored' :
  objs (O := DNSRecord) start !! (req.1, domain) = None →
  rtc delegationStep start w →
  ensured w zone w0 published w1 →
  zone_Reconcile req w = (Ok result, w') →
  objs w' !! req = Some stored' → zoneReady stored' →
  zNameServers (zStatus stored') = servers ∧
  ∃ ns, objs (O := DNSRecord) w' !! (req.1, domain) = Some ns ∧
    IsStatusConditionTrue (recConditions (recStatus ns)) ConditionTypeReady = true ∧
    recSpec ns = mkDNSRecordSpec (Some parent) [mkEndpoint domain servers NSRecordType "" 172800 ∅ []].
Proof.
  intros Hnone Hhist Hens Hrec Hst Hready.
  assert (nsInv w') as Hinv.
  { eapply reconciled_inv; [done..|]. eapply history_inv; [done|]. intros r Hr. by rewrite Hnone in Hr. }
  destruct Hens as [Hget Hlive Hfin Hdom Hp Hpub Hsrv].
  destruct (zone_Reconcile_spec _ _ _ _ _ _ Hget Hlive Hfin Hrec) as (z3 & v & w3 & st & Es & Eu & Hst' & Hzst & Hr).
  rewrite Hst in Hst'. injection Hst' as <-.
  apply zoneSteps_spec in Es as (_ & Hf & _). destruct (Hf (proj1 Hr Hready)) as (w1' & w2 & Hpub' & Hc & Hn).
  rewrite Hpub in Hpub'. injection Hpub' as <- <-. split; [by rewrite Hzst|].
  apply publishManagedZone_meta in Hpub as [Hm Hs].
  assert (nsKey published = (req.1, domain)) as Hkey.
  { unfold nsKey. rewrite Hm, Hs, Hdom. f_equal. apply api_get in Hget as [_ Hg]. apply api_key in Hg.
    unfold oKey in Hg. rewrite Hmeta in Hg. by rewrite <- Hg. }
  rewrite <- Hs in Hp. apply (createParentZoneNSRecord_stores _ parent) in Hc as [Hz Hns]; [|done].
  destruct (parentZoneNSRecordReady_ready _ parent _ _ Hp Hz Hns Hn) as (ns & Hns' & Hnsr). rewrite Hkey in Hns'.
  pose proof (HstatusFrame (withVerdict v published) w3) as Hw'. rewrite Eu in Hw'. simpl in Hw'.
  exists ns. rewrite Hw'. split_and!; [done..|]. apply Hinv. by rewrite Hw'.
Qed.

End history.

(** A zone's finalizer goes only after its delegation and the zone at the
    provider are gone: if a reconciliation leaves a zone that was being deleted
    without its finalizer, or gone, then the NS record was deleted (or was not
    there) and the provider deleted the zone, unless its identifier was given in
    the spec. *)
Theorem zone_finalizer_after_delete req zone w w0 result w' :
  clGet req w = (Ok zone, w0) →
  isDeleting (zMeta zone) = true →
  ManagedZoneFinalizer ∈ Finalizers (zMeta zone) →
  zone_Reconcile req w = (result, w') →
  (∀ stored', objs w' !! req = Some stored' → ManagedZoneFinalizer ∉ Finalizers (zMeta stored')) →
  ∃ w1 w2, deleteParentZoneNSRecord zone w0 = (Ok tt, w1) ∧ deleteManagedZone zone w1 = (Ok tt, w2).
Proof.
  intros Hget Hdel Hfin. unfold zone_Reconcile, bind at 1, IgnoreNotFound. rewrite Hget, Hdel.
  apply api_get in Hget as [Hw0 Hrec]. unfold bind.
  assert (∀ w1, objs w1 = objs (O := ManagedZone) w0 →
    (∀ stored', objs w1 !! req = Some stored' → ManagedZoneFinalizer ∉ Finalizers (zMeta stored')) → False) as Hkept.
  { intros w1 Hw1. rewrite Hw1, Hw0, Hrec. intros Hno. by apply (Hno zone). }
  pose proof (deleteNS_frames zone w0) as Hw1.
  destruct (deleteParentZoneNSRecord zone w0) as [[[]|e|] w1]; simpl in Hw1;
    [|intros [= _ <-] Hno; by edestruct Hkept..].
  pose proof (deleteZone_frames zone w1) as Hw2. rewrite Hw1 in Hw2.
  destruct (deleteManagedZone zone w1) as [[[]|e|] w2] eqn:Ed; simpl in Hw2;
    [|intros [= _ <-] Hno; by edestruct Hkept..]. by eauto.
Qed.

End properties.

(** ** Examples and witnesses *)

Abbreviation zoneWorld := (gmap ObjectKey DNSRecord * gmap ObjectKey ManagedZone)%type.

#[local] Instance recordsClient : Client zoneWorld DNSRecord := mem_client fst (λ m w, (m, w.2)) recMeta.
#[local] Instance recordsStore : ApiStore zoneWorld DNSRecord := mem_store fst recMeta (λ r r', r' = r).
#[local] Instance recordsLaws : ApiLaws zoneWorld DNSRecord.
Proof. by apply mem_laws. Qed.
#[local] Instance zonesClient : Client zoneWorld ManagedZone := mem_client snd (λ m w, (w.1, m)) zMeta.
#[local] Instance zonesStore : ApiStore zoneWorld ManagedZone := mem_store snd zMeta (λ r r', r' = r).
#[local] Instance zonesLaws : ApiLaws zoneWorld ManagedZone.
Proof. by apply mem_laws. Qed.
#[local] Instance fakeFactory : ProviderFactory zoneWorld unit := {| DNSProvider := λ _, ret tt |}.
#[local] Instance fakeProvider : Provider zoneWorld unit := {|
  Ensure _ _ _ := ret tt; DeleteRecord _ _ _ := ret tt;
  EnsureManagedZone _ _ := ret (mkZoneOutput "Z1" ["ns1.example.net"; "ns2.example.net"] 2);
  DeleteManagedZone _ _ := ret tt |}.
#[local] Instance ownerByName : OwnerOps :=
  {| SetControllerReference := λ owner m, Ok (set_ControllerRef (Some (Name owner)) m) |}.
#[local] Existing Instance listFinalizers.
#[local] Existing Instance listConditions.
#[local] Existing Instance listConditions_laws.

Lemma zoneWorld_meta (z : ManagedZone) : metaOf (W := zoneWorld) z = zMeta z.
Proof. done. Qed.
Lemma zoneWorld_metaR (r : DNSRecord) : metaOf (W := zoneWorld) r = recMeta r.
Proof. done. Qed.
Lemma zoneWorld_status : StatusUpdates (W := zoneWorld) zStatus.
Proof. by apply mem_status. Qed.
Lemma zoneWorld_exists (r : DNSRecord) (w : zoneWorld) e w' :
  clCreate r w = (Err e, w') → IsAlreadyExists e = true → is_Some (objs (O := DNSRecord) w !! oKey r).
Proof.
  change (objs (O := DNSRecord) w !! oKey r) with (served fst recMeta w !! objectKey (recMeta r)). simpl. unfold mem_create.
  destruct (served _ _ w !! _); [by eexists|]. destruct (released _); by intros [= <- _].
Qed.
Lemma zoneWorld_keepsR (r r' : DNSRecord) : keeps (W := zoneWorld) r r' → recSpec r' = recSpec r.
Proof. by intros ->. Qed.
Lemma zoneWorld_provider z : frames (objs (O := DNSRecord)) (DNSProvider (W := zoneWorld) z).
Proof. done. Qed.
Lemma zoneWorld_ensure p z : frames (objs (O := DNSRecord)) (EnsureManagedZone (W := zoneWorld) p z).
Proof. done. Qed.
Lemma zoneWorld_owner owner m m' : SetControllerReference owner m = Ok m' → objectKey m' = objectKey m.
Proof. by intros [= <-]. Qed.

(** The calls on one kind leave the other alone. *)
Ltac zoneWorld_frames := intros ? ?; simpl; unfold mem_get, mem_create, mem_update, mem_status_update, mem_delete; by repeat case_match.

Lemma zoneWorld_getZone k : frames (objs (O := DNSRecord)) (clGet (W := zoneWorld) (O := ManagedZone) k).
Proof. revert k. zoneWorld_frames. Qed.
Lemma zoneWorld_statusZone (z : ManagedZone) : frames (objs (O := DNSRecord)) (clStatusUpdate (W := zoneWorld) z).
Proof. revert z. zoneWorld_frames. Qed.
Lemma zoneWorld_createRecord (r : DNSRecord) : frames (objs (O := ManagedZone)) (clCreate (W := zoneWorld) r).
Proof. revert r. zoneWorld_frames. Qed.
Lemma zoneWorld_deleteRecord (r : DNSRecord) : frames (objs (O := ManagedZone)) (clDelete (W := zoneWorld) r).
Proof. revert r. zoneWorld_frames. Qed.
Lemma zoneWorld_getRecord k : frames (objs (O := ManagedZone)) (clGet (W := zoneWorld) (O := DNSRecord) k).
Proof. revert k. zoneWorld_frames. Qed.
Lemma zoneWorld_factory z : frames (objs (O := ManagedZone)) (DNSProvider (W := zoneWorld) z).
Proof. done. Qed.
Lemma zoneWorld_deleteZone p z : frames (objs (O := ManagedZone)) (DeleteManagedZone (W := zoneWorld) p z).
Proof. done. Qed.

Definition aZone (name domain : string) (parent : option string) (deleting : option Z) : ManagedZone :=
  mkManagedZone (mkObjectMeta name "infra" ∅ ∅ [ManagedZoneFinalizer] 1 deleting None)
    (mkManagedZoneSpec "" domain "" parent ("infra", "credentials")) (mkManagedZoneStatus [] 0 "" 0 []).

Definition nsReady : DNSRecord :=
  mkDNSRecord (newObjectMeta "dev.example.com" "infra") (mkDNSRecordSpec (Some "root") [])
    (mkDNSRecordStatus [mkCondition "Ready" ConditionTrue "ProviderSuccess" "" 1] 1 []).

Definition zoneStart (deleting : option Z) : zoneWorld :=
  ({[("infra", "dev.example.com") := nsReady]},
   <[("infra", "root") := aZone "root" "example.com" None None]>
   {[("infra", "dev") := aZone "dev" "dev.example.com" (Some "root") deleting]}).

Lemma zone_ready_iff_witness :
  ∃ stored', objs (O := ManagedZone) (zone_Reconcile ("infra", "dev") (zoneStart None)).2 !! ("infra", "dev") = Some stored'.
Proof.
  destruct (zone_ready_iff zoneWorld_meta zoneWorld_status ("infra", "dev") (aZone "dev" "dev.example.com" (Some "root") None)
    (zoneStart None) (zoneStart None) noRequeue (zone_Reconcile ("infra", "dev") (zoneStart None)).2)
    as (s & Hs & _).
  - vm_cast_no_check (eq_refl (Ok (aZone "dev" "dev.example.com" (Some "root") None), zoneStart None)).
  - reflexivity.
  - reflexivity.
  - vm_cast_no_check (eq_refl (zone_Reconcile ("infra", "dev") (zoneStart None))).
  - exact (ex_intro _ s Hs).
Defined.

(** The life of a zone: no NS record; created by a first reconciliation; made
    ready by the records' controller; and then the zone is Ready. *)
Definition devOf (w : zoneWorld) : ManagedZone := default zeroZone (w.2 !! ("infra", "dev")).
Definition reconcileDev (w : zoneWorld) : zoneWorld := (zone_Reconcile ("infra", "dev") w).2.

Definition undelegated : zoneWorld := (∅, (zoneStart None).2).
Definition delegated : zoneWorld := reconcileDev undelegated.
Definition markReady (r : DNSRecord) : DNSRecord :=
  mkDNSRecord (recMeta r) (recSpec r) (mkDNSRecordStatus [mkCondition "Ready" ConditionTrue "ProviderSuccess" "" 1] 1 []).
Definition nsPublished : zoneWorld := (markReady <$> delegated.1, delegated.2).
Definition devReady : ManagedZone := devOf (reconcileDev nsPublished).

Abbreviation devServers := ["ns1.example.net"; "ns2.example.net"].

Lemma dev_ensured (w : zoneWorld) :
  clGet ("infra", "dev") w = (Ok (devOf w), w) → isDeleting (zMeta (devOf w)) = false →
  ContainsFinalizer (zMeta (devOf w)) ManagedZoneFinalizer = true → DomainName (zSpec (devOf w)) = "dev.example.com" →
  ParentManagedZone (zSpec (devOf w)) = Some "root" →
  ensured ("infra", "dev") "dev.example.com" "root" devServers w (devOf w) w
    (set_zStatus (mkManagedZoneStatus (zConditions (zStatus (devOf w))) (zObservedGeneration (zStatus (devOf w))) "Z1" 2 devServers) (devOf w)) w.
Proof. intros. by split. Qed.

Lemma dev_history : rtc (delegationStep ("infra", "dev") "dev.example.com" "root" devServers) undelegated nsPublished.
Proof.
  eapply rtc_l; [|eapply rtc_l; [|apply rtc_refl]].
  - eapply Reconciled; [|apply surjective_pairing]. apply dev_ensured; vm_compute; reflexivity.
  - apply Elsewhere. intros r'. vm_compute. intros [= <-]. eexists. split; reflexivity.
Qed.

Lemma zone_ready_delegated_witness :
  ∃ ns, objs (O := DNSRecord) (reconcileDev nsPublished) !! ("infra", "dev.example.com") = Some ns ∧
    IsStatusConditionTrue (recConditions (recStatus ns)) ConditionTypeReady = true ∧
    recSpec ns = mkDNSRecordSpec (Some "root") [mkEndpoint "dev.example.com" devServers NSRecordType "" 172800 ∅ []].
Proof.
  refine (proj2 (zone_ready_delegated zoneWorld_meta zoneWorld_status zoneWorld_exists zoneWorld_owner zoneWorld_metaR
    zoneWorld_getZone zoneWorld_statusZone zoneWorld_createRecord zoneWorld_keepsR zoneWorld_provider zoneWorld_ensure
    ("infra", "dev") "dev.example.com" "root" devServers undelegated nsPublished (devOf nsPublished) nsPublished _ nsPublished
    noRequeue (reconcileDev nsPublished) devReady _ dev_history _ _ _ _)).
  - vm_cast_no_check (eq_refl (None (A := DNSRecord))).
  - apply dev_ensured; vm_compute; reflexivity.
  - vm_cast_no_check (eq_refl (zone_Reconcile ("infra", "dev") nsPublished)).
  - vm_cast_no_check (eq_refl (Some devReady)).
  - vm_cast_no_check (eq_refl true).
Defined.

(** When the provider fails at first, the NS record is created all the same, from
    the empty status; later reconciliations find that it exists and leave it. *)
Example ns_record_without_servers :
  let failing : ProviderFactory zoneWorld unit := {| DNSProvider := λ _, fail (ErrText "no credentials") |} in
  let after := (zone_Reconcile (H1 := failing) ("infra", "dev") undelegated).2 in
  let w := reconcileDev (markReady <$> after.1, after.2) in
  (λ r, Targets <$> Endpoints (recSpec r)) <$> (w.1 !! ("infra", "dev.example.com")) = Some [[]] ∧
  zNameServers (zStatus (devOf w)) = devServers ∧
  IsStatusConditionTrue (zConditions (zStatus (devOf w))) ConditionTypeReady = true.
Proof. vm_compute. done. Qed.

Lemma zone_finalizer_after_delete_witness :
  ∃ w1 w2, deleteParentZoneNSRecord (aZone "dev" "dev.example.com" (Some "root") (Some 5%Z)) (zoneStart (Some 5%Z)) = (Ok tt, w1) ∧
    deleteManagedZone (aZone "dev" "dev.example.com" (Some "root") (Some 5%Z)) w1 = (Ok tt, w2).
Proof.
  refine (zone_finalizer_after_delete zoneWorld_deleteRecord zoneWorld_getRecord zoneWorld_factory zoneWorld_deleteZone
    ("infra", "dev") (aZone "dev" "dev.example.com" (Some "root") (Some 5%Z))
    (zoneStart (Some 5%Z)) (zoneStart (Some 5%Z)) (Ok noRequeue) (zone_Reconcile ("infra", "dev") (zoneStart (Some 5%Z))).2
    _ _ _ _ _).
  - vm_cast_no_check (eq_refl (Ok (aZone "dev" "dev.example.com" (Some "root") (Some 5%Z)), zoneStart (Some 5%Z))).
  - reflexivity.
  - apply list_elem_of_here.
  - vm_cast_no_check (eq_refl (zone_Reconcile ("infra", "dev") (zoneStart (Some 5%Z)))).
  - intros stored' Hst. vm_compute in Hst. discriminate.
Defined.
