(* ===== verification/Metadata.v ===== *)
(** * pkg/_internal/metadata: annotations, labels and finalizers

    The helpers that read and write the metadata of an object.  A nil map and
    an empty one are both [∅]; a loop over a map whose body does not depend on
    the order is a filter of the map. *)

From S2P Require Import Prelude GoStrings Kube.
Local Open Scope go_scope.

Module metadata.

(** ** Annotations *)

Definition HasAnnotation (obj : ObjectMeta) (key : string) : bool :=
  bool_decide (is_Some (Annotations obj !! strings.TrimSpace key)).

Definition GetAnnotation (obj : ObjectMeta) (key : string) : string :=
  if negb (HasAnnotation obj key) then "" else default "" (Annotations obj !! key).

Definition HasAnnotationsContaining (obj : ObjectMeta) (key : string) : bool * StringMap :=
  let matches := filter (λ kv, strings.Contains kv.1 key = true) (Annotations obj) in
  (bool_decide (matches ≠ ∅), matches).

Definition GetAnnotationsByPrefix (obj : ObjectMeta) (prefix : string) : StringMap :=
  let '(exists_, keys) := HasAnnotationsContaining obj prefix in
  if negb exists_ then ∅ else filter (λ kv, strings.HasPrefix kv.1 prefix = true) keys.

Definition AddAnnotation (key value : string) (obj : ObjectMeta) : ObjectMeta :=
  if bool_decide (Annotations obj !! key = Some value) then obj
  else set_Annotations (<[key := value]> (Annotations obj)) obj.

Definition RemoveAnnotation (key : string) (obj : ObjectMeta) : ObjectMeta :=
  match Annotations obj !! key with
  | Some _ => set_Annotations (delete key (Annotations obj)) obj
  | None => obj
  end.

(** The loop removes the annotations one by one and counts them. *)
Definition RemoveAnnotationsByPrefix `{MapRange} (prefix : string) (obj : ObjectMeta) : nat * ObjectMeta :=
  foldl (λ acc kv, (S acc.1, RemoveAnnotation kv.1 acc.2)) (0, obj) (range_map (GetAnnotationsByPrefix obj prefix)).

Definition CopyAnnotationsPredicate (fromObj : ObjectMeta) (predicate : string → string → bool) (toObj : ObjectMeta)
  : bool * ObjectMeta :=
  let copied := filter (λ kv, predicate kv.1 kv.2 = true) (Annotations fromObj) in
  (bool_decide (copied ≠ ∅), set_Annotations (copied ∪ Annotations toObj) toObj).

Definition CopyAnnotation (fromObj : ObjectMeta) (key : string) (toObj : ObjectMeta) : bool * ObjectMeta :=
  CopyAnnotationsPredicate fromObj (λ eachKey _, bool_decide (eachKey = key)) toObj.

(** ** Labels *)

Definition HasLabel (obj : ObjectMeta) (key : string) : bool := bool_decide (is_Some (Labels obj !! key)).

Definition GetLabel (obj : ObjectMeta) (key : string) : string :=
  if negb (HasLabel obj key) then "" else default "" (Labels obj !! key).

Definition HasLabelsContaining (obj : ObjectMeta) (key : string) : bool * StringMap :=
  let matches := filter (λ kv, strings.Contains kv.1 key = true) (Labels obj) in
  (bool_decide (matches ≠ ∅), matches).

Definition AddLabel (key value : string) (obj : ObjectMeta) : ObjectMeta :=
  if bool_decide (Labels obj !! key = Some value) then obj
  else set_Labels (<[key := value]> (Labels obj)) obj.

Definition RemoveLabel (key : string) (obj : ObjectMeta) : ObjectMeta :=
  match Labels obj !! key with
  | Some _ => set_Labels (delete key (Labels obj)) obj
  | None => obj
  end.

(** ** Finalizers *)

Definition HasFinalizer (obj : ObjectMeta) (finalizer : string) : bool :=
  existsb (λ v, bool_decide (v = finalizer)) (Finalizers obj).

Definition AddFinalizer (finalizer : string) (obj : ObjectMeta) : ObjectMeta :=
  if HasFinalizer obj finalizer then obj else set_Finalizers (Finalizers obj ++ [finalizer]) obj.

(** The first occurrence is overwritten by the last entry, then the last entry
    is cut off. *)
Fixpoint removeFinalizer_loop (finalizer : string) (before after : list string) : option (list string) :=
  match after with
  | [] => None
  | v :: rest =>
      if decide (v = finalizer) then
        let finalizers := before ++ default v (last (v :: rest)) :: rest in
        Some (take (length finalizers - 1) finalizers)
      else removeFinalizer_loop finalizer (before ++ [v]) rest
  end.

Definition RemoveFinalizer (finalizer : string) (obj : ObjectMeta) : ObjectMeta :=
  match removeFinalizer_loop finalizer [] (Finalizers obj) with
  | Some finalizers => set_Finalizers finalizers obj
  | None => obj
  end.

Definition HasFinalizersContaining (obj : ObjectMeta) (key : string) : bool * list string :=
  let matches := filter (λ f, strings.Contains f key = true) (Finalizers obj) in
  (bool_decide (matches ≠ []), matches).

End metadata.

(** ** Lemmas *)

(** An annotation just added is read back, for a key without surrounding
    blanks; the others are as before. *)
Lemma AddAnnotation_lookup key value obj k :
  Annotations (metadata.AddAnnotation key value obj) !! k = (<[key := value]> (Annotations obj)) !! k.
Proof.
  unfold metadata.AddAnnotation. case_bool_decide as Hk; [|done].
  by rewrite insert_id.
Qed.

Lemma AddAnnotation_meta key value obj :
  set_Annotations (Annotations obj) (metadata.AddAnnotation key value obj) = obj.
Proof. unfold metadata.AddAnnotation. case_bool_decide; by destruct obj. Qed.

Lemma GetAnnotation_Add key value obj :
  strings.TrimSpace key = key →
  metadata.GetAnnotation (metadata.AddAnnotation key value obj) key = value.
Proof.
  intros Ht. unfold metadata.GetAnnotation, metadata.HasAnnotation.
  rewrite Ht, AddAnnotation_lookup, lookup_insert_eq. by rewrite bool_decide_eq_true_2 by eauto.
Qed.

(** Removing a finalizer takes away exactly one occurrence, in another order. *)
Lemma removeFinalizer_loop_spec f before after :
  match metadata.removeFinalizer_loop f before after with
  | Some l => f ∈ after ∧ f :: l ≡ₚ before ++ after
  | None => f ∉ after
  end.
Proof.
  revert before. induction after as [|v rest IH]; intros before; cbn [metadata.removeFinalizer_loop].
  { apply not_elem_of_nil. }
  case_decide as Hv.
  - subst v. split; [apply list_elem_of_here|].
    destruct rest as [|x rest _] using rev_ind.
    + simpl. rewrite length_app, Nat.add_sub, take_app_length. by rewrite Permutation_cons_append.
    + assert (last (f :: rest ++ [x]) = Some x) as -> by (by rewrite app_comm_cons, last_snoc).
      assert (∀ k : list string, take (length (before ++ k ++ [x]) - 1) (before ++ k ++ [x]) = before ++ k) as Hcut.
      { intros k. rewrite app_assoc, length_app. simpl. by rewrite Nat.add_sub, take_app_length. }
      simpl. rewrite app_comm_cons, Hcut. rewrite (Permutation_app_comm rest [x]). simpl.
      by rewrite <- !Permutation_middle.
  - specialize (IH (before ++ [v])). destruct (metadata.removeFinalizer_loop f (before ++ [v]) rest) as [l|].
    + destruct IH as [Hin Hp]. split; [by right|]. by rewrite Hp, <- app_assoc.
    + rewrite not_elem_of_cons. done.
Qed.

Lemma RemoveFinalizer_spec f obj :
  f ∈ Finalizers obj → f :: Finalizers (metadata.RemoveFinalizer f obj) ≡ₚ Finalizers obj.
Proof.
  intros Hf. unfold metadata.RemoveFinalizer. pose proof (removeFinalizer_loop_spec f [] (Finalizers obj)) as Hl.
  destruct (metadata.removeFinalizer_loop _ _ _); [by destruct Hl|done].
Qed.
