(* ===== verification/GracePeriod.v ===== *)
(** * pkg/_internal/gracePeriod: deletion after a grace period

    An object is first marked with the time at which it may be deleted, and
    deleted by a later call once that time has come. *)

From S2P Require Import Prelude GoStrings Kube Metadata MemApi.
Local Open Scope go_scope.
Local Open Scope Z_scope.

Definition GraceTimestampAnnotation : string := "kuadrant.io/grace-timeout".

(** Times and durations in nanoseconds; [time.Second * dns.DefaultTTL * 10] *)
Definition nanosecond_per_second : Z := 1000000000.
Definition DefaultGracePeriod : Z := nanosecond_per_second * 60 * 10.

(** [t.Unix()] *)
Definition Unix (t : Z) : Z := t / nanosecond_per_second.

Definition ErrGracePeriodNotExpired : goerror := ErrSentinel "grace period has not yet expired".

(** [time.Now()] *)
Class WallClock (W : Type) := { TimeNow : M W Z }.

Section grace.

Context {W O : Type} `{Client W O} `{WallClock W} (metaOf : O → ObjectMeta) (set_meta : ObjectMeta → O → O).

(** Annotate the object with the deadline [at] and store it. *)
Definition setDeadline (at_ : Z) (obj : O) : M W unit :=
  do! clUpdate (set_meta (metadata.AddAnnotation GraceTimestampAnnotation (strconv.FormatInt (Unix at_)) (metaOf obj)) obj) in
  fail ErrGracePeriodNotExpired.

Definition GracefulDelete (key : ObjectKey) (ignoreGrace : bool) : M W unit :=
  let! now := TimeNow in
  let at_ := now + DefaultGracePeriod in
  let! obj := clGet key in
  let! atOnce :=
    if ignoreGrace then ret true
    else
      let! now := TimeNow in
      if bool_decide (at_ < now) then ret true
      else let! now := TimeNow in ret (bool_decide (at_ = now)) in
  if atOnce then clDelete obj
  else if negb (metadata.HasAnnotation (metaOf obj) GraceTimestampAnnotation) then setDeadline at_ obj
  else
    match strconv.Atoi (default ""%string (Annotations (metaOf obj) !! GraceTimestampAnnotation)) with
    | None => setDeadline at_ obj
    | Some deleteAt =>
        let! now := TimeNow in
        if bool_decide (deleteAt <= Unix now) then clDelete obj else fail ErrGracePeriodNotExpired
    end.

End grace.

(** ** What a graceful deletion touches *)

Section touches.

Context {W O : Type} `{Client W O} `{WallClock W} `{!ApiStore W O} `{!ApiLaws W O}.
Context (set_meta : ObjectMeta → O → O) (Hset : ∀ m (o : O), metaOf (set_meta m o) = m).
Context (Hclock : frames (objs (O := O)) TimeNow).

Lemma setDeadline_frames at_ obj k : k ≠ oKey obj → frames (λ w, objs w !! k) (setDeadline metaOf set_meta at_ obj).
Proof.
  intros Hk. unfold setDeadline. apply frames_bind; [|by intros]. apply api_update_frames.
  unfold oKey. rewrite Hset. intros ->. apply Hk.
  exact (f_equal objectKey (AddAnnotation_meta GraceTimestampAnnotation (strconv.FormatInt (Unix at_)) (metaOf obj))).
Qed.

Lemma GracefulDelete_frames key ignoreGrace k :
  k ≠ key → frames (λ w, objs w !! k) (GracefulDelete metaOf set_meta key ignoreGrace).
Proof.
  intros Hk. unfold GracefulDelete. apply frames_bind; [by apply frames_at|]. intros now.
  apply frames_bind_ok; [apply frames_at, api_get_frames|]. intros w obj w' Hget.
  apply api_get in Hget as [_ Hobj]. apply api_key in Hobj as <-.
  match goal with |- (objs (?m w').2 !! k) = _ => apply (λ Hf : frames (λ w, objs w !! k) m, Hf w') end.
  pose proof (frames_at _ k Hclock). pose proof (λ t, setDeadline_frames t obj k Hk).
  pose proof (api_delete_frames obj k Hk). solve_frames.
Qed.

(** Success means that the object was deleted. *)
Lemma GracefulDelete_ok key ignoreGrace w w' :
  GracefulDelete metaOf set_meta key ignoreGrace w = (Ok tt, w') → goneOrDeleting (objs w') key.
Proof.
  unfold GracefulDelete, bind at 1. destruct (TimeNow w) as [[now| |] w1]; try done.
  unfold bind at 1. destruct (clGet key w1) as [[obj| |] w2] eqn:Eg; try done.
  apply api_get in Eg as [_ Hobj]. apply api_key in Hobj as <-.
  assert (∀ w0, clDelete obj w0 = (Ok tt, w') → goneOrDeleting (objs w') (oKey obj)) as Hdel.
  { intros w0 Hd. by apply api_delete in Hd as [_ ?]. }
  assert (∀ t w0, setDeadline metaOf set_meta t obj w0 = (Ok tt, w') → False) as Hno.
  { intros t w0. unfold setDeadline, bind, fail. by destruct (clUpdate _ w0) as [[| |] ?]. }
  unfold bind, ret, fail. repeat case_match; naive_solver.
Qed.

End touches.

(** ** Properties *)

Section properties.

Context {W O : Type} `{Client W O} `{WallClock W} `{!ApiStore W O} `{!ApiLaws W O}.
Context (set_meta : ObjectMeta → O → O) (Hset : ∀ m (o : O), metaOf (set_meta m o) = m).
Context (Hkeeps : ∀ o o' : O, keeps o o' → Annotations (metaOf o') = Annotations (metaOf o)).

(** The time of the world.  The clock tells it, and no call turns it back; the
    API server does not answer with this package's own error. *)
Context (time : W → Z).
Context (Hclock : ∀ w r w', TimeNow w = (r, w') →
  r = Ok (time w) ∧ time w ≤ time w' ∧ objs (O := O) w' = objs w).

Definition polite {A} (m : M W A) : Prop := ∀ w r w', m w = (r, w') →
  time w ≤ time w' ∧ r ≠ Err ErrGracePeriodNotExpired.

Context (Hget : ∀ k, polite (clGet (O := O) k)) (Hupdate : ∀ o : O, polite (clUpdate o)).
Context (Hdelete : ∀ o : O, polite (clDelete o)).

(** The time an object may be deleted at, in seconds. *)
Definition deadline (o : O) : option Z :=
  Annotations (metaOf o) !! GraceTimestampAnnotation ≫= strconv.Atoi.

Lemma Unix_add_grace t : Unix (t + DefaultGracePeriod) = Unix t + 600.
Proof.
  unfold Unix, DefaultGracePeriod. replace (nanosecond_per_second * 60 * 10) with (600 * nanosecond_per_second) by done.
  by rewrite Z.div_add.
Qed.

Lemma Unix_mono t t' : t ≤ t' → Unix t ≤ Unix t'.
Proof. unfold Unix, nanosecond_per_second. intros. by apply Z.div_le_mono. Qed.

(** [e] is this package's error, with [P], or an error of the API server that
    changed nothing. *)
Definition graceError (e : goerror) (w w' : W) (P : Prop) : Prop :=
  (e = ErrGracePeriodNotExpired ∧ P) ∨ (e ≠ ErrGracePeriodNotExpired ∧ objs (O := O) w' = objs w).

Lemma setDeadline_spec at_ obj w r w' :
  objs w !! oKey obj = Some obj → 0 ≤ Unix at_ ≤ strconv.max_int64 →
  setDeadline metaOf set_meta at_ obj w = (r, w') →
  match r with
  | Ok _ | Panic => False
  | Err e => graceError e w w' (∃ st', objs w' !! oKey obj = Some st' ∧ deadline st' = Some (Unix at_))
  end.
Proof.
  intros Hobj Hat. unfold setDeadline, bind, fail.
  set (o' := set_meta _ _).
  pose proof (AddAnnotation_meta GraceTimestampAnnotation (strconv.FormatInt (Unix at_)) (metaOf obj)) as Hother.
  assert (oKey o' = oKey obj) as Hk.
  { unfold oKey, o'. rewrite Hset. exact (f_equal objectKey Hother). }
  assert (Finalizers (metaOf o') = Finalizers (metaOf obj)) as Hf.
  { unfold o'. rewrite Hset. exact (f_equal Finalizers Hother). }
  assert (deadline o' = Some (Unix at_)) as Hd.
  { unfold deadline, o'. rewrite Hset, AddAnnotation_lookup, lookup_insert_eq. simpl.
    apply Itoa_ParseInt. unfold strconv.min_int64. lia. }
  destruct (clUpdate o' w) as [[st|e|] w1] eqn:Eu; pose proof (Hupdate _ _ _ _ Eu) as [_ He]; intros [= <- <-].
  - left. split; [done|]. apply (api_update_stored _ _ obj) in Eu as [-> Hks]; [|by rewrite Hk|done].
    rewrite Hk. exists st. rewrite lookup_insert_eq. split; [done|]. unfold deadline. by rewrite (Hkeeps _ _ Hks).
  - right. split; [by intros ->|]. by apply api_update in Eu.
  - by apply api_update in Eu.
Qed.

(** What happens to an object that is not deleted at once. *)
Definition afterGrace (at_ : Z) (obj : O) : M W unit :=
  if negb (metadata.HasAnnotation (metaOf obj) GraceTimestampAnnotation) then setDeadline metaOf set_meta at_ obj
  else
    match strconv.Atoi (default ""%string (Annotations (metaOf obj) !! GraceTimestampAnnotation)) with
    | None => setDeadline metaOf set_meta at_ obj
    | Some deleteAt =>
        let! now := TimeNow in
        if bool_decide (deleteAt <= Unix now) then clDelete obj else fail ErrGracePeriodNotExpired
    end.

(** The deadline of a stored object: the one it had, which has not come at
    [now], or the new one. *)
Definition pending (key : ObjectKey) (st : O) (now new : Z) (w' : W) : Prop :=
  ∃ st' d, objs w' !! key = Some st' ∧ deadline st' = Some d ∧
    match deadline st with
    | Some d0 => d = d0 ∧ Unix now < d0
    | None => d = new
    end.

Lemma afterGrace_spec at_ st w r w' :
  afterGrace at_ st w = (r, w') →
  objs w !! oKey st = Some st → 0 ≤ Unix at_ ≤ strconv.max_int64 →
  match r with
  | Ok _ => goneOrDeleting (objs w') (oKey st) ∧ ∃ d, deadline st = Some d ∧ d ≤ Unix (time w')
  | Err e => graceError e w w' (pending (oKey st) st (time w) (Unix at_) w')
  | Panic => False
  end.
Proof.
  intros Hrun Hst Hat. unfold afterGrace, metadata.HasAnnotation in Hrun.
  replace (strings.TrimSpace GraceTimestampAnnotation) with GraceTimestampAnnotation in Hrun by done.
  assert (deadline st = None → setDeadline metaOf set_meta at_ st w = (r, w') →
    match r with Ok _ | Panic => False | Err e => graceError e w w' (pending (oKey st) st (time w) (Unix at_) w') end) as Hset'.
  { intros Hn Hs. apply setDeadline_spec in Hs; [|done..]. destruct r; [done| |done].
    destruct Hs as [(-> & st' & ? & ?)|?]; [left|by right]. split; [done|]. exists st', (Unix at_). by rewrite Hn. }
  unfold pending, deadline in *. destruct (Annotations (metaOf st) !! GraceTimestampAnnotation) as [text|] eqn:Ha; simpl in *.
  2: { specialize (Hset' eq_refl Hrun). by destruct r. }
  destruct (strconv.Atoi text) as [d|] eqn:Htext; [|specialize (Hset' eq_refl Hrun); by destruct r].
  unfold bind, fail in Hrun. destruct (TimeNow w) as [r0 w1] eqn:E0. apply Hclock in E0 as (-> & Ht1 & Hw1).
  case_bool_decide as Hd.
  - pose proof (Hdelete _ _ _ _ Hrun) as [Ht2 Hne]. apply api_delete in Hrun as [_ Hdel].
    destruct r as [|e|]; [|right; split; [by intros ->|]; by rewrite <- Hw1; destruct Hdel|done].
    split; [done|]. exists d. split; [done|].
    pose proof (Unix_mono (time w) (time w') ltac:(lia)). lia.
  - simplify_eq. left. split; [done|]. exists st, d. rewrite Hw1, Ha. simpl. rewrite Htext. split_and!; try done. lia.
Qed.

(** The outcome of a call. *)
Lemma GracefulDelete_outcome key ignoreGrace w r w' st :
  objs w !! key = Some st →
  0 ≤ time w → Unix (time w) + 600 ≤ strconv.max_int64 →
  GracefulDelete metaOf set_meta key ignoreGrace w = (r, w') →
  match r with
  | Ok _ => goneOrDeleting (objs w') key ∧
      (ignoreGrace = true ∨ (∃ d, deadline st = Some d ∧ d ≤ Unix (time w')) ∨ time w + DefaultGracePeriod ≤ time w')
  | Err e => graceError e w w' (ignoreGrace = false ∧ pending key st (time w) (Unix (time w) + 600) w')
  | Panic => False
  end.
Proof.
  intros Hst Ht0 Hmax. unfold GracefulDelete, bind, ret. rewrite <- Unix_add_grace in *.
  destruct (TimeNow w) as [r0 w1] eqn:E0. apply Hclock in E0 as (-> & Ht1 & Hw1).
  destruct (clGet key w1) as [[obj|e|] w2] eqn:Eg; pose proof (Hget _ _ _ _ Eg) as [Ht2 Hne];
    apply api_get in Eg as [Hw2 Hg]; [| |done]; rewrite Hw1 in *.
  2: { intros [= <- <-]. right. split; [by intros ->|done]. }
  rewrite Hst in Hg. injection Hg as <-. pose proof (api_key _ _ _ Hst) as Hkey.
  set (at_ := time w + DefaultGracePeriod) in *.
  assert (∀ w3, objs w3 = objs w → clDelete st w3 = (r, w') →
    time w3 ≤ time w' ∧ match r with
    | Ok _ => goneOrDeleting (objs w') key
    | Err e => ∀ P, graceError e w w' P
    | Panic => False
    end) as Hdel.
  { intros w3 Hw3 Hd. pose proof (Hdelete _ _ _ _ Hd) as [? Hne']. apply api_delete in Hd as [_ Hd]. split; [done|].
    rewrite <- Hkey. destruct r; [done| |done]. intros P. right. destruct Hd as [Hd _]. split; [by intros ->|]. by rewrite Hd. }
  destruct ignoreGrace.
  { intros [_ Hd]%Hdel; [|done]. destruct r; [by auto|done|done]. }
  destruct (TimeNow w2) as [r2 w3] eqn:E2. apply Hclock in E2 as (-> & Ht3 & Hw3). rewrite <- Hw3 in Hw2.
  case_bool_decide as Hlate.
  { intros [? Hd]%Hdel; [|done]. destruct r; [|done|done]. split; [done|]. right; right. lia. }
  destruct (TimeNow w3) as [r3 w4] eqn:E3. apply Hclock in E3 as (-> & Ht4 & Hw4). rewrite <- Hw4 in Hw2.
  case_bool_decide as Heq.
  { intros [? Hd]%Hdel; [|done]. destruct r; [|done|done]. split; [done|]. right; right. lia. }
  pose proof (afterGrace_spec at_ st w4 r w') as Hspec. unfold afterGrace, bind in Hspec.
  intros Hrun. rewrite <- Hkey in *. apply Hspec in Hrun; [|by rewrite Hw2|].
  - destruct r; [|destruct Hrun as [(-> & st' & d & ? & ? & Hm)|[? Hsame]]|done].
    + destruct Hrun. by auto.
    + left. split_and!; [done..|]. exists st', d. split_and!; try done.
      destruct (deadline st); [|done]. destruct Hm as [-> Hm]. split; [done|].
      pose proof (Unix_mono (time w) (time w4) ltac:(lia)). lia.
    + right. split; [done|]. by rewrite Hsame.
  - split; [|done]. unfold Unix. apply Z.div_pos; [|done]. unfold at_, DefaultGracePeriod, nanosecond_per_second. lia.
Qed.

(** C33: the grace period is respected.  A call succeeds only with the object
    deleted (gone or marked), and then the caller asked to ignore the grace
    period, or the deadline stored in the object had come, or the call itself
    took the whole period.  The grace error comes only from calls that do not
    ignore the period, and leaves the object stored with a deadline: the one it
    had, which has not come, or, if it had none, ten minutes from now.  Any
    other error leaves every object as it was; the call does not panic. *)
Theorem grace_period_respected key ignoreGrace w r w' st :
  objs w !! key = Some st →
  0 ≤ time w → Unix (time w) + 600 ≤ strconv.max_int64 →
  GracefulDelete metaOf set_meta key ignoreGrace w = (r, w') →
  match r with
  | Ok _ => goneOrDeleting (objs w') key ∧
      (ignoreGrace = true ∨
       (∃ d, deadline st = Some d ∧ d ≤ Unix (time w')) ∨
       time w + DefaultGracePeriod ≤ time w')
  | Err e =>
      (e = ErrGracePeriodNotExpired ∧ ignoreGrace = false ∧
       ∃ st' d, objs w' !! key = Some st' ∧ deadline st' = Some d ∧
         match deadline st with
         | Some d0 => d = d0 ∧ Unix (time w) < d0
         | None => d = Unix (time w) + 600
         end) ∨
      (e ≠ ErrGracePeriodNotExpired ∧ objs (O := O) w' = objs w)
  | Panic => False
  end.
Proof. apply GracefulDelete_outcome. Qed.

(** A server without faults: what is stored can be read, updated and deleted. *)
Context (Hget_ok : ∀ k w (o : O), objs w !! k = Some o → (clGet k w).1 = Ok o).
Context (Hupdate_ok : ∀ (o old : O) w, objs w !! oKey o = Some old →
  DeletionTimestamp (metaOf o) = DeletionTimestamp (metaOf old) → ∃ o', (clUpdate o w).1 = Ok o').
Context (Hdelete_ok : ∀ (o : O) w, is_Some (objs w !! oKey o) → (clDelete o w).1 = Ok tt).

(** Once the deadline of an object has come, the next call deletes it. *)
Lemma GracefulDelete_due key w r w' st d :
  objs w !! key = Some st → deadline st = Some d → d ≤ Unix (time w) →
  GracefulDelete metaOf set_meta key false w = (r, w') → r = Ok tt ∧ goneOrDeleting (objs w') key.
Proof.
  intros Hst Hd Hdue Hrun.
  assert (r = Ok tt) as ->; [|split; [done|by apply GracefulDelete_ok in Hrun]].
  pose proof (api_key _ _ _ Hst) as Hkey. change ((r, w').1 = Ok tt). rewrite <- Hrun.
  clear Hrun. unfold GracefulDelete, bind, ret.
  destruct (TimeNow w) as [r0 w1] eqn:E0. apply Hclock in E0 as (-> & Ht1 & Hw1). rewrite <- Hw1 in Hst.
  pose proof (Hget_ok _ _ _ Hst) as Hg. destruct (clGet key w1) as [rg w2] eqn:Eg. simpl in Hg. subst rg.
  pose proof (Hget _ _ _ _ Eg) as [Ht2 _]. apply api_get in Eg as [Hw2 _]. rewrite <- Hw2 in Hst.
  assert (∀ w0, objs w0 = objs w2 → (clDelete st w0).1 = Ok tt) as Hdel.
  { intros w0 Hw0. apply Hdelete_ok. rewrite Hw0, Hkey, Hst. by eauto. }
  destruct (TimeNow w2) as [r2 w3] eqn:E2. apply Hclock in E2 as (-> & Ht3 & Hw3). case_bool_decide; [by apply Hdel|].
  destruct (TimeNow w3) as [r3 w4] eqn:E3. apply Hclock in E3 as (-> & Ht4 & Hw4).
  case_bool_decide; [apply Hdel; congruence|]. unfold deadline in Hd.
  unfold metadata.HasAnnotation. replace (strings.TrimSpace GraceTimestampAnnotation) with GraceTimestampAnnotation by done.
  destruct (Annotations (metaOf st) !! GraceTimestampAnnotation) as [text|]; [|done]. cbn in Hd |- *. rewrite Hd.
  destruct (TimeNow w4) as [r4 w5] eqn:E4. apply Hclock in E4 as (-> & Ht5 & Hw5).
  rewrite bool_decide_eq_true_2; [apply Hdel; congruence|].
  pose proof (Unix_mono (time w) (time w4) ltac:(lia)). lia.
Qed.

(** A call either deletes or leaves the object for later. *)
Lemma GracefulDelete_settles key w r w' st :
  objs w !! key = Some st → GracefulDelete metaOf set_meta key false w = (r, w') →
  r = Ok tt ∨ r = Err ErrGracePeriodNotExpired.
Proof.
  intros Hst Hrun. pose proof (api_key _ _ _ Hst) as Hkey. change ((r, w').1 = Ok tt ∨ (r, w').1 = Err ErrGracePeriodNotExpired).
  rewrite <- Hrun. clear Hrun. unfold GracefulDelete, bind, ret.
  destruct (TimeNow w) as [r0 w1] eqn:E0. apply Hclock in E0 as (-> & _ & Hw1). rewrite <- Hw1 in Hst.
  pose proof (Hget_ok _ _ _ Hst) as Hg. destruct (clGet key w1) as [rg w2] eqn:Eg. simpl in Hg. subst rg.
  apply api_get in Eg as [Hw2 _]. rewrite <- Hw2 in Hst.
  assert (∀ w0, objs w0 = objs w2 → (clDelete st w0).1 = Ok tt) as Hdel.
  { intros w0 Hw0. apply Hdelete_ok. rewrite Hw0, Hkey, Hst. by eauto. }
  assert (∀ t w0, objs w0 = objs w2 → (setDeadline metaOf set_meta t st w0).1 = Err ErrGracePeriodNotExpired) as Hset'.
  { intros t w0 Hw0. unfold setDeadline, bind. set (o' := set_meta _ _).
    pose proof (AddAnnotation_meta GraceTimestampAnnotation (strconv.FormatInt (Unix t)) (metaOf st)) as Hother.
    destruct (Hupdate_ok o' st w0) as [o1 Ho1]; [..|by destruct (clUpdate o' w0) as [[| |] ?]].
    - assert (oKey o' = oKey st) as ->; [|by rewrite Hw0, Hkey, Hst]. unfold oKey, o'. rewrite Hset.
      exact (f_equal objectKey Hother).
    - unfold o'. rewrite Hset. exact (f_equal DeletionTimestamp Hother). }
  destruct (TimeNow w2) as [r2 w3] eqn:E2. apply Hclock in E2 as (-> & _ & Hw3). case_bool_decide; [left; by apply Hdel|].
  destruct (TimeNow w3) as [r3 w4] eqn:E3. apply Hclock in E3 as (-> & _ & Hw4).
  assert (objs (O := O) w4 = objs w2) as Hw by congruence.
  case_bool_decide; [left; by apply Hdel|]. case_match; [right; by apply Hset'|].
  case_match; [|right; by apply Hset'].
  destruct (TimeNow w4) as [r4 w5] eqn:E4. apply Hclock in E4 as (-> & _ & Hw5).
  case_bool_decide; [left; apply Hdel; congruence|by right].
Qed.

(** C4: a graceful deletion completes.  On a server without faults, an object
    that a first (quick) call did not delete yet is deleted by any call after
    its deadline, at most ten minutes later if it had none, unless somebody
    changed the object in between. *)
Theorem graceful_delete_completes key w r1 w1 w2 r2 w3 st :
  objs w !! key = Some st →
  0 ≤ time w → Unix (time w) + 600 ≤ strconv.max_int64 →
  GracefulDelete metaOf set_meta key false w = (r1, w1) →
  time w1 < time w + DefaultGracePeriod →
  objs w2 !! key = objs w1 !! key →
  default (Unix (time w) + 600) (deadline st) ≤ Unix (time w2) →
  GracefulDelete metaOf set_meta key false w2 = (r2, w3) →
  (r1 = Ok tt ∧ goneOrDeleting (objs w1) key) ∨
  (r1 = Err ErrGracePeriodNotExpired ∧ r2 = Ok tt ∧ goneOrDeleting (objs w3) key).
Proof.
  intros Hst Ht0 Hmax Hrun1 Hquick Hsame Hdue Hrun2.
  pose proof (GracefulDelete_outcome _ _ _ _ _ _ Hst Ht0 Hmax Hrun1) as Hout.
  destruct (GracefulDelete_settles _ _ _ _ _ Hst Hrun1) as [-> | ->].
  - left. by destruct Hout.
  - right. split; [done|]. destruct Hout as [(_ & _ & st' & d & Hst' & Hd & Hm)|[? _]]; [|done]. rewrite <- Hsame in Hst'.
    eapply GracefulDelete_due; [done..| |done]. destruct (deadline st); simpl in Hdue; [destruct Hm as [-> _]|subst]; done.
Qed.

End properties.

(** ** Witness *)

(** Objects that are only metadata, and a clock that ticks at each reading. *)
Abbreviation graceWorld := (gmap ObjectKey ObjectMeta * Z)%type.

#[local] Instance graceClient : Client graceWorld ObjectMeta := mem_client fst (λ m w, (m, w.2)) id.
#[local] Instance graceStore : ApiStore graceWorld ObjectMeta := mem_store fst id (λ o o', o' = o).
#[local] Instance graceLaws : ApiLaws graceWorld ObjectMeta.
Proof. by apply mem_laws. Qed.
#[local] Instance tickingClock : WallClock graceWorld := {| TimeNow := λ w, (Ok w.2, (w.1, w.2 + 1)) |}.

Lemma graceWorld_set m (o : ObjectMeta) : metaOf (W := graceWorld) m = m.
Proof. done. Qed.
Lemma graceWorld_keeps (o o' : ObjectMeta) : keeps (W := graceWorld) o o' →
  Annotations (metaOf (W := graceWorld) o') = Annotations (metaOf (W := graceWorld) o).
Proof. by intros ->. Qed.
Lemma graceWorld_clock (w : graceWorld) r w' : TimeNow w = (r, w') →
  r = Ok w.2 ∧ w.2 ≤ w'.2 ∧ objs (O := ObjectMeta) w' = objs w.
Proof. intros [= <- <-]. simpl. split_and!; [done|lia|done]. Qed.

Ltac graceWorld_polite := intros w r w'; simpl; unfold mem_get, mem_update, mem_delete; repeat case_match; intros; by simplify_eq/=.

Lemma graceWorld_get k : polite snd (clGet (W := graceWorld) (O := ObjectMeta) k).
Proof. graceWorld_polite. Qed.
Lemma graceWorld_update (o : ObjectMeta) : polite snd (clUpdate (W := graceWorld) o).
Proof. graceWorld_polite. Qed.
Lemma graceWorld_delete (o : ObjectMeta) : polite snd (clDelete (W := graceWorld) o).
Proof. graceWorld_polite. Qed.

Definition graceStart : graceWorld := ({[("east", "work")%string := newObjectMeta "work" "east"]}, 0).

Lemma grace_period_respected_witness :
  ∃ st' d, objs (GracefulDelete (W := graceWorld) metaOf (λ m _, m) ("east", "work")%string false graceStart).2
      !! ("east", "work")%string = Some st' ∧ deadline (W := graceWorld) st' = Some d ∧ d = 600.
Proof.
  destruct (grace_period_respected (λ m (_ : ObjectMeta), m) graceWorld_set graceWorld_keeps snd graceWorld_clock
    graceWorld_get graceWorld_update graceWorld_delete ("east", "work")%string false graceStart (Err ErrGracePeriodNotExpired)
    (GracefulDelete (W := graceWorld) metaOf (λ m (_ : ObjectMeta), m) ("east", "work")%string false graceStart).2
    (newObjectMeta "work" "east")) as [(_ & _ & Hst)|[Hno _]].
  - vm_cast_no_check (eq_refl (Some (newObjectMeta "work" "east"))).
  - discriminate.
  - discriminate.
  - vm_cast_no_check (eq_refl (GracefulDelete (W := graceWorld) metaOf (λ m (_ : ObjectMeta), m) ("east", "work")%string false graceStart)).
  - exact Hst.
  - destruct (Hno eq_refl).
Defined.

Lemma graceWorld_get_ok (k : ObjectKey) (w : graceWorld) (o : ObjectMeta) : objs w !! k = Some o → (clGet (O := ObjectMeta) k w).1 = Ok o.
Proof. simpl. unfold mem_get. by intros ->. Qed.
Lemma graceWorld_update_ok (o old : ObjectMeta) (w : graceWorld) :
  objs (O := ObjectMeta) w !! oKey (W := graceWorld) o = Some old →
  DeletionTimestamp o = DeletionTimestamp old → ∃ o', (clUpdate o w).1 = Ok o'.
Proof.
  intros Hold Ht. exists o. change (served fst id w !! objectKey o = Some old) in Hold.
  simpl. unfold mem_update. simpl. rewrite Hold. simpl. rewrite bool_decide_eq_true_2 by done. by case_match.
Qed.
Lemma graceWorld_delete_ok (o : ObjectMeta) (w : graceWorld) :
  is_Some (objs (O := ObjectMeta) w !! oKey (W := graceWorld) o) → (clDelete o w).1 = Ok tt.
Proof. intros [x Hx]. simpl. unfold mem_delete. change (served fst id w !! objectKey o = Some x) in Hx. simpl. by rewrite Hx. Qed.

Definition deleteWork : M graceWorld unit :=
  GracefulDelete (W := graceWorld) metaOf (λ m (_ : ObjectMeta), m) ("east", "work")%string false.
(** Ten minutes later. *)
Definition graceLater : graceWorld := ((deleteWork graceStart).2.1, 600 * nanosecond_per_second).

Lemma graceful_delete_completes_witness : goneOrDeleting (W := graceWorld) (objs (deleteWork graceLater).2) ("east", "work")%string.
Proof.
  destruct (graceful_delete_completes (λ m (_ : ObjectMeta), m) graceWorld_set graceWorld_keeps snd graceWorld_clock
    graceWorld_get graceWorld_update graceWorld_delete graceWorld_get_ok graceWorld_update_ok graceWorld_delete_ok
    ("east", "work")%string graceStart (Err ErrGracePeriodNotExpired) (deleteWork graceStart).2 graceLater
    (deleteWork graceLater).1 (deleteWork graceLater).2 (newObjectMeta "work" "east")) as [[Hno _]|[_ [_ Hgone]]].
  - vm_cast_no_check (eq_refl (Some (newObjectMeta "work" "east"))).
  - discriminate.
  - discriminate.
  - vm_cast_no_check (eq_refl (deleteWork graceStart)).
  - vm_compute. reflexivity.
  - vm_cast_no_check (eq_refl (objs (O := ObjectMeta) graceLater !! ("east", "work")%string)).
  - vm_compute. discriminate.
  - apply surjective_pairing.
  - discriminate Hno.
  - exact Hgone.
Defined.
