(* ===== verification/Placement.v ===== *)
(** * pkg/placement/ocm.go: placing gateways on clusters

    With Open Cluster Management, a gateway is placed on a cluster by a
    ManifestWork in the cluster's namespace that holds the gateway and what it
    needs; the cluster's agent applies it and reports back in its status. *)

From S2P Require Import Prelude GoStrings Kube GatewayApi Target Placer Metadata GracePeriod MemApi.
Local Open Scope go_scope.

Definition OCMPlacementLabel : string := "cluster.open-cluster-management.io/placement".
Definition rbacName : string := "open-cluster-management:klusterlet-work:gateway".
Definition rbacManifest : string := "gateway-rbac".
Definition WorkManifestLabel : string := "kuadrant.io/manifestKey".

(** [gateway.GetObjectKind().GroupVersionKind()] of a gateway the API client
    returned. *)
Definition gatewayGroup : string := "gateway.networking.k8s.io".
Definition gatewayKind : string := "Gateway".

(** ** Open Cluster Management objects *)

(** workv1.FeedbackValue *)
Record FeedbackValue := mkFeedback { fvName : string; fvInteger : option Z; fvJsonRaw : option string }.

(** workv1.ManifestCondition *)
Record ManifestCondition := mkManifestCondition { mcGroup : string; mcName : string; mcValues : list FeedbackValue }.

Record JsonPath := mkJsonPath { jpName : string; jpPath : string }.

(** workv1.ManifestConfigOption, with one feedback rule of type JSONPaths *)
Record ManifestConfigOption := mkConfigOption {
  coGroup : string;
  coResource : string;
  coName : string;
  coNamespace : string;
  coJsonPaths : list JsonPath
}.

Record ManifestWorkSpec := mkWorkSpec { wsManifests : list string; wsConfigs : list ManifestConfigOption }.

Record ManifestWork := mkManifestWork {
  mwMeta : ObjectMeta;
  mwSpec : ManifestWorkSpec;
  mwConditions : list Condition;
  mwManifests : list ManifestCondition
}.

#[export] Instance JsonPath_eq_dec : EqDecision JsonPath.
Proof. solve_decision. Defined.
#[export] Instance ManifestConfigOption_eq_dec : EqDecision ManifestConfigOption.
Proof. solve_decision. Defined.
#[export] Instance ManifestWorkSpec_eq_dec : EqDecision ManifestWorkSpec.
Proof. solve_decision. Defined.

Definition set_mwMeta (m : ObjectMeta) (w : ManifestWork) : ManifestWork :=
  mkManifestWork m (mwSpec w) (mwConditions w) (mwManifests w).
Definition set_mwSpec (s : ManifestWorkSpec) (w : ManifestWork) : ManifestWork :=
  mkManifestWork (mwMeta w) s (mwConditions w) (mwManifests w).

Definition ManifestApplied : string := "Applied".

Record PlacementDecision := mkPlacementDecision { pdMeta : ObjectMeta; pdDecisions : list string }.
Record ManagedCluster := mkManagedCluster { mclMeta : ObjectMeta }.

(** ** JSON

    What is marshalled into a manifest, and encoding/json on it. *)
Inductive Manifestable :=
| GatewayManifest (g : Gateway)
| SecretManifest (s : Secret)
| NamespaceManifest (name : string)
| ClusterRoleManifest (name : string) (verbs apiGroups resources : list string)
| ClusterRoleBindingManifest (name roleName subjectKind subjectName subjectNamespace : string).

Definition manifestNamespace (o : Manifestable) : string :=
  match o with
  | GatewayManifest g => Namespace (gwMeta g)
  | SecretManifest s => Namespace (secMeta s)
  | _ => ""
  end.

Class Json := {
  json_Marshal : Manifestable → res string;
  (** the addresses after decoding the text into the given ones, and the error *)
  json_UnmarshalAddresses : string → list GatewayAddress → list GatewayAddress * option goerror
}.

Definition WorkName (kind : string) (rootMeta : ObjectMeta) : string :=
  strings.ToLower (kind +:+ "-" +:+ Namespace rootMeta +:+ "-" +:+ Name rootMeta).

Definition gatewayWorkName (gateway : Gateway) : string := WorkName gatewayKind (gwMeta gateway).

Module ocmPlacer.
Section placement.

Context {W : Type} `{Client W ManifestWork} `{Client W PlacementDecision} `{Client W ManagedCluster}.
Context `{WallClock W} `{Json} `{KeyFunc} `{ConditionOps} `{SetRange}.

Definition isGatewayManifest (gateway : Gateway) (m : ManifestCondition) : bool :=
  bool_decide (mcGroup m = gatewayGroup) && bool_decide (mcName m = Name (gwMeta gateway)).

(** The loop over the manifests; the error of an undecodable value is kept
    until a later manifest overwrites it. *)
Fixpoint addressesLoop (gateway : Gateway) (manifests : list ManifestCondition)
  (addresses : list GatewayAddress) (err : option goerror) : res (list GatewayAddress) :=
  match manifests with
  | [] => match err with Some e => Err e | None => Ok addresses end
  | m :: rest =>
      if isGatewayManifest gateway m then
        match head (filter (λ v, fvName v = "addresses") (mcValues m)) with
        | None => addressesLoop gateway rest addresses err
        | Some value =>
            match fvJsonRaw value with
            | None => Panic
            | Some raw =>
                let '(addresses, err) := json_UnmarshalAddresses raw addresses in
                addressesLoop gateway rest addresses err
            end
        end
      else addressesLoop gateway rest addresses err
  end.

Definition GetAddresses (gateway : Gateway) (downstream : string) : M W (list GatewayAddress) :=
  let! mw := clGet (O := ManifestWork) (downstream, gatewayWorkName gateway) in
  lift (addressesLoop gateway (mwManifests mw) [] None).

Definition attachedRoutesKey (listenerName : string) : string :=
  strings.ToLower ("listener" +:+ listenerName +:+ "AttachedRoutes").

Definition attachedRoutesValues (gateway : Gateway) (listenerName : string) (manifests : list ManifestCondition)
  : list FeedbackValue :=
  m ← filter (λ m, isGatewayManifest gateway m = true) manifests;
  filter (λ v, strings.ToLower (fvName v) = attachedRoutesKey listenerName) (mcValues m).

(** [int( *value.Value.Integer)] of the first value with the key. *)
Definition ListenerTotalAttachedRoutes (gateway : Gateway) (listenerName downstream : string) : M W Z :=
  let! mw := clGet (O := ManifestWork) (downstream, gatewayWorkName gateway) in
  match head (attachedRoutesValues gateway listenerName (mwManifests mw)) with
  | None => fail (ErrText ("no listener " +:+ listenerName +:+ " status found"))
  | Some value => match fvInteger value with Some n => ret n | None => panic end
  end.

Definition GetPlacedClusters (gateway : Gateway) : M W (gset string) :=
  let! existing := clList (O := ManifestWork)
    (mkListOptions "" {[WorkManifestLabel := gatewayWorkName gateway]}) in
  ret (list_to_set (Namespace ∘ mwMeta <$>
    filter (λ e, DeletionTimestamp (mwMeta e) = None ∧ IsStatusConditionTrue (mwConditions e) ManifestApplied = true)
      existing)).

Definition GetClusters (gateway : Gateway) : M W (gset string) :=
  let selectedPlacement := default "" (Labels (gwMeta gateway) !! OCMPlacementLabel) in
  if bool_decide (selectedPlacement = "") then ret ∅
  else
    let! items := clList (O := PlacementDecision)
      (mkListOptions (Namespace (gwMeta gateway)) {[OCMPlacementLabel := selectedPlacement]}) in
    match items with
    | [] => fail (ErrWrap ("no PlacementDecisions found for placement " +:+ selectedPlacement)
                    (ErrApi ReasonNotFound selectedPlacement))
    | _ => ret (list_to_set (items ≫= pdDecisions))
    end.

Definition GetClusterGateway (gateway : Gateway) (clusterName : string) : M W ClusterGateway :=
  let! _ := clGet (O := ManifestWork) (clusterName, gatewayWorkName gateway) in
  let! mc := clGet (O := ManagedCluster) ("", clusterName) in
  let! addresses := GetAddresses gateway clusterName in
  ret (mkClusterGateway (mclMeta mc) addresses).

(** ** Writing manifest works *)

Fixpoint manifest (objs : list Manifestable) : res (list string) :=
  match objs with
  | [] => Ok []
  | o :: rest =>
      let? jsonData := json_Marshal o in
      let? nsData := json_Marshal (NamespaceManifest (manifestNamespace o)) in
      let? manifests := manifest rest in
      Ok (jsonData :: nsData :: manifests)
  end.

Definition createUpdateManifest (m : ManifestWork) : M W unit :=
  let! found := try (clGet (O := ManifestWork) (objectKey (mwMeta m))) in
  let update mw :=
    if bool_decide (mwSpec mw = mwSpec m) then ret tt
    else do! clUpdate (set_mwSpec (mwSpec m) mw) in ret tt in
  match found with
  | inl mw => update mw
  | inr err =>
      if IsNotFound err then do! clCreate m in ret tt
      else update (mkManifestWork (newObjectMeta (Name (mwMeta m)) (Namespace (mwMeta m))) (mkWorkSpec [] []) [] [])
  end.

(** The feedback the cluster is asked for (lines 337-348). *)
Definition feedbackPaths (upstream : Gateway) : list JsonPath :=
  mkJsonPath "addresses" ".status.addresses" ::
  ((λ l, mkJsonPath ("listener" +:+ lName l +:+ "AttachedRoutes")
     (".status.listeners[?(@.name==" +:+ String "034"%char (lName l +:+ String "034"%char ")].attachedRoutes")))
   <$> Listeners upstream).

Definition gatewayWorkSpec (upstream downstream : Gateway) (objs : list Manifestable) : res ManifestWorkSpec :=
  let? objManifests := manifest objs in
  Ok (mkWorkSpec objManifests
        [mkConfigOption "gateway.networking.k8s.io" "gateways" (Name (gwMeta downstream))
           (Namespace (gwMeta downstream)) (feedbackPaths upstream)]).

Definition createUpdateClusterManifests (manifestName : string) (upstream downstream : Gateway) (cluster : string)
  (objs : list Manifestable) : M W unit :=
  let! key := lift (MetaNamespaceKeyFunc (gwMeta upstream)) in
  let! spec := lift (gatewayWorkSpec upstream downstream objs) in
  createUpdateManifest (mkManifestWork
    (set_Annotations {["kuadrant.io/parent" := key]}
      (set_Labels (<["kuadrant.io" := "managed"]> {[WorkManifestLabel := manifestName]})
        (newObjectMeta manifestName cluster))) spec [] []).

Definition defaultRBAC (clusterName : string) : M W unit :=
  let! clusterRoleJSON := lift (json_Marshal
    (ClusterRoleManifest rbacName ["*"] ["gateway.networking.k8s.io"] ["gateways"])) in
  let! clusterRoleBindingJSON := lift (json_Marshal
    (ClusterRoleBindingManifest "open-cluster-management:klusterlet-work:gateway"
       "open-cluster-management:klusterlet-work:gateway" "ServiceAccount" "klusterlet-work-sa"
       "open-cluster-management-agent")) in
  createUpdateManifest (mkManifestWork (newObjectMeta "gateway-rbac" clusterName)
    (mkWorkSpec [clusterRoleJSON; clusterRoleBindingJSON] []) [] []).

(** ** Place *)

Definition emptyWork (key : ObjectKey) : ManifestWork :=
  mkManifestWork (newObjectMeta key.2 key.1) (mkWorkSpec [] []) [] [].

(** Taking a gateway that is being deleted off one cluster (lines 135-141). *)
Definition deleteFromCluster (workname cluster : string) : M W unit :=
  do! IgnoreNotFound (clDelete (emptyWork (cluster, workname))) in
  ret tt.

(** The loops that take the gateway off clusters, with the set of clusters it
    is still on (lines 133-144 and 164-213). *)
Fixpoint takeOff (off : string → M W unit) (clusters : list string) (existing : gset string) : M W (gset string) :=
  match clusters with
  | [] => ret existing
  | cluster :: rest =>
      do! off cluster in
      takeOff off rest (existing ∖ {[cluster]})
  end.

(** The loop over the targets (lines 148-161). *)
Fixpoint placeOnClusters (workname : string) (upstream downstream : Gateway) (objs : list Manifestable)
  (clusters : list string) (existing : gset string) : M W (gset string) :=
  match clusters with
  | [] => ret existing
  | cluster :: rest =>
      do! defaultRBAC cluster in
      do! createUpdateClusterManifests workname upstream downstream cluster objs in
      placeOnClusters workname upstream downstream objs rest (existing ∪ {[cluster]})
  end.

(** Taking the gateway off one cluster (lines 167-209). *)
Definition removeFromCluster (workname cluster : string) : M W unit :=
  let! w := clGet (O := ManifestWork) (cluster, workname) in
  let! managedCluster := try (clGet (O := ManagedCluster) ("", cluster)) in
  let ignoreGrace := match managedCluster with inr err => IsNotFound err | inl _ => false end in
  do! GracefulDelete mwMeta set_mwMeta (objectKey (mwMeta w)) ignoreGrace in
  do! IgnoreNotFound (clDelete (emptyWork (cluster, rbacManifest))) in
  ret tt.

Definition Place (upStreamGateway downStreamGateway : Gateway) (children : list Manifestable) : M W (gset string) :=
  let workname := gatewayWorkName upStreamGateway in
  let! placementTargets := GetClusters upStreamGateway in
  let! existingClusters := GetPlacedClusters upStreamGateway in
  let removeFrom := existingClusters ∖ placementTargets in
  match DeletionTimestamp (gwMeta upStreamGateway) with
  | Some _ => takeOff (deleteFromCluster workname) (UnsortedList existingClusters) existingClusters
  | None =>
      let objects := GatewayManifest downStreamGateway :: children in
      let! existingClusters :=
        placeOnClusters workname upStreamGateway downStreamGateway objects (UnsortedList placementTargets) existingClusters in
      takeOff (removeFromCluster workname) (UnsortedList removeFrom) existingClusters
  end.

End placement.
End ocmPlacer.

(** The placer as the controllers see it. *)
#[export] Instance ocmGatewayPlacer {W : Type} `{Client W ManifestWork} `{Client W PlacementDecision}
  `{Client W ManagedCluster} `{WallClock W} `{Json} `{KeyFunc} `{ConditionOps} `{SetRange} : GatewayPlacer W := {|
  Place up down secrets := ocmPlacer.Place up down (SecretManifest <$> secrets);
  GetPlacedClusters := ocmPlacer.GetPlacedClusters;
  GetClusters := ocmPlacer.GetClusters;
  ListenerTotalAttachedRoutes := ocmPlacer.ListenerTotalAttachedRoutes;
  GetAddresses := ocmPlacer.GetAddresses;
  GetClusterGateway := ocmPlacer.GetClusterGateway
|}.

(** ** What the placer does not touch

    It reads and writes works, placement decisions and managed clusters only,
    which is what its clients rely on. *)

Section placer_frames.

Context {W S : Type} `{Client W ManifestWork} `{Client W PlacementDecision} `{Client W ManagedCluster}.
Context `{WallClock W} `{Json} `{KeyFunc} `{ConditionOps} `{SetRange} (f : W → S).
Context (Hworks : clientFrames ManifestWork f) (Hdecisions : clientFrames PlacementDecision f).
Context (Hclusters : clientFrames ManagedCluster f) (Hclock : frames f TimeNow).

Lemma ocm_GetPlacedClusters_frames g : frames f (ocmPlacer.GetPlacedClusters g).
Proof. unfold ocmPlacer.GetPlacedClusters. solve_frames. Qed.

Lemma ocm_GetClusters_frames g : frames f (ocmPlacer.GetClusters g).
Proof. unfold ocmPlacer.GetClusters. solve_frames. Qed.

Lemma ocm_GetAddresses_frames g c : frames f (ocmPlacer.GetAddresses g c).
Proof. unfold ocmPlacer.GetAddresses. solve_frames. Qed.

Lemma ocm_ListenerTotalAttachedRoutes_frames g l c : frames f (ocmPlacer.ListenerTotalAttachedRoutes g l c).
Proof. unfold ocmPlacer.ListenerTotalAttachedRoutes. solve_frames. Qed.

Lemma ocm_GetClusterGateway_frames g c : frames f (ocmPlacer.GetClusterGateway g c).
Proof. pose proof ocm_GetAddresses_frames. unfold ocmPlacer.GetClusterGateway. solve_frames. Qed.

Lemma ocm_createUpdateManifest_frames m : frames f (ocmPlacer.createUpdateManifest m).
Proof. unfold ocmPlacer.createUpdateManifest. solve_frames. Qed.

Lemma ocm_placeOnClusters_frames name up down objs clusters existing :
  frames f (ocmPlacer.placeOnClusters name up down objs clusters existing).
Proof.
  pose proof ocm_createUpdateManifest_frames. revert existing.
  induction clusters; intros existing; cbn [ocmPlacer.placeOnClusters];
    unfold ocmPlacer.defaultRBAC, ocmPlacer.createUpdateClusterManifests; solve_frames.
Qed.

Lemma ocm_takeOff_frames off clusters existing :
  (∀ c, frames f (off c)) → frames f (ocmPlacer.takeOff off clusters existing).
Proof. intros Hoff. revert existing. induction clusters; intros existing; cbn [ocmPlacer.takeOff]; solve_frames. Qed.

Lemma ocm_Place_frames up down children : frames f (ocmPlacer.Place up down children).
Proof.
  pose proof ocm_GetClusters_frames. pose proof ocm_GetPlacedClusters_frames. pose proof ocm_placeOnClusters_frames.
  unfold ocmPlacer.Place. apply frames_bind; [done|intros targets]. apply frames_bind; [done|intros existing].
  case_match; [|apply frames_bind; [done|intros mid]]; apply ocm_takeOff_frames; intros c;
    unfold ocmPlacer.deleteFromCluster, ocmPlacer.removeFromCluster, GracefulDelete, setDeadline; solve_frames.
Qed.

End placer_frames.

(** ** Properties *)

Section properties.

Context {W : Type} `{Client W ManifestWork} `{Client W PlacementDecision} `{Client W ManagedCluster}.
Context `{WallClock W} `{Json} `{KeyFunc} `{ConditionOps} `{SetRange}.
Context `{!ApiStore W ManifestWork} `{!ApiLaws W ManifestWork} (Hmeta : metaOf (O := ManifestWork) = mwMeta).
(** A write keeps the spec it is given. *)
Context (Hkeeps : ∀ m m' : ManifestWork, keeps m m' → mwSpec m' = mwSpec m).
(** Reading the clock or another kind leaves the works alone. *)
Context (Hclock : frames (objs (O := ManifestWork)) TimeNow).
Context (Hclusters : ∀ k, frames (objs (O := ManifestWork)) (clGet (O := ManagedCluster) k)).
Context (Hdecisions : ∀ opts, frames (objs (O := ManifestWork)) (clList (O := PlacementDecision) opts)).

Abbreviation works w := (objs (O := ManifestWork) w).

Lemma goneOrDeleting_same (m m' : gmap ObjectKey ManifestWork) (k : ObjectKey) :
  m' !! k = m !! k → goneOrDeleting (W := W) m k → goneOrDeleting (W := W) m' k.
Proof. unfold goneOrDeleting. by intros ->. Qed.

Lemma workName_not_rbac gateway : gatewayWorkName gateway ≠ rbacManifest.
Proof.
  unfold gatewayWorkName, WorkName, rbacManifest. rewrite !ToLower_app. cbn. intros Heq. injection Heq as Heq.
  apply (f_equal (occurs "-"%char)) in Heq. rewrite !occurs_app in Heq. cbn in Heq.
  by rewrite !orb_true_r in Heq.
Qed.

(** The work under [k] holds [spec].  The update that follows a read that
    failed (with another error than not found) carries no finalizers, so a work
    that was already being deleted [before] may be released by it. *)
Definition holds (spec : ManifestWorkSpec) (k : ObjectKey) (before w : W) : Prop :=
  (∃ mw, works w !! k = Some mw ∧ mwSpec mw = spec) ∨
  (works w !! k = None ∧ ∃ old, works before !! k = Some old ∧ isDeleting (mwMeta old) = true).

Lemma holds_same spec k before before' w w' :
  works before' !! k = works before !! k → works w' !! k = works w !! k →
  holds spec k before w → holds spec k before' w'.
Proof. unfold holds. by intros -> ->. Qed.

(** The manifest of [m]'s key holds [m]'s spec afterwards; other keys are not
    touched. *)
Lemma createUpdateManifest_stores (m : ManifestWork) w w' :
  mwSpec m ≠ mkWorkSpec [] [] → ocmPlacer.createUpdateManifest m w = (Ok tt, w') →
  holds (mwSpec m) (objectKey (mwMeta m)) w w'.
Proof.
  intros Hne. unfold ocmPlacer.createUpdateManifest, bind, try, ret.
  destruct (clGet _ w) as [[mw|e|] w1] eqn:Eg; apply api_get in Eg as [Hw1 Hg]; try done.
  - pose proof (api_key _ _ _ Hg) as Hk. unfold oKey in Hk. rewrite Hmeta in Hk.
    case_bool_decide as Hs; [intros [= <-]; left; exists mw; by rewrite Hw1|].
    destruct (clUpdate _ w1) as [[mw'|?|] w2] eqn:Eu; try done. intros [= <-]. left.
    apply (api_update_stored _ _ mw) in Eu as [-> Hks]; [..|by rewrite Hmeta];
      unfold oKey; rewrite Hmeta; cbn [mwMeta set_mwSpec]; rewrite Hk; [|by rewrite Hw1].
    rewrite lookup_insert_eq. exists mw'. split; [done|]. by rewrite (Hkeeps _ _ Hks).
  - destruct (IsNotFound e).
    + destruct (clCreate m w1) as [[mw|e'|] w2] eqn:Ec; try done. intros [= <-].
      apply api_create in Ec as (_ & Hw2 & Hks). left. rewrite Hw2. unfold oKey. rewrite Hmeta, lookup_insert_eq.
      exists mw. split; [done|]. by apply Hkeeps.
    + case_bool_decide as Hs; [by destruct Hne|].
      destruct (clUpdate _ w1) as [[mw|?|] w2] eqn:Eu; try done. intros [= <-].
      apply api_update in Eu as ((old & Hold & Hts & _) & Hw2 & Hks).
      revert Hold Hts Hw2. unfold holds, oKey. rewrite Hmeta. cbn [mwMeta set_mwSpec]. rewrite Hw1.
      intros Hold Hts ->. destruct (released _) eqn:Hr.
      * right. rewrite lookup_delete_eq. split; [done|]. exists old. split; [done|].
        unfold released in Hr. apply andb_true_iff in Hr as [Hr _]. unfold isDeleting in *. by rewrite <- Hts.
      * left. rewrite lookup_insert_eq. exists mw. split; [done|]. by rewrite (Hkeeps _ _ Hks).
Qed.

Lemma createUpdateManifest_frames (m : ManifestWork) k :
  k ≠ objectKey (mwMeta m) → frames (λ w, works w !! k) (ocmPlacer.createUpdateManifest m).
Proof.
  intros Hk. unfold ocmPlacer.createUpdateManifest.
  apply frames_bind_ok; [apply frames_try, frames_at, api_get_frames|].
  intros w found w' Hf.
  assert (∀ mw : ManifestWork, objectKey (mwMeta mw) = objectKey (mwMeta m) →
    frames (λ w, works w !! k) (do! clUpdate (set_mwSpec (mwSpec m) mw) in ret tt)) as Hupdate.
  { intros mw Hmw. apply frames_bind; [|by intros]. apply api_update_frames. unfold oKey. rewrite Hmeta.
    cbn [mwMeta set_mwSpec]. by rewrite Hmw. }
  destruct found as [mw|e].
  - assert (objectKey (mwMeta mw) = objectKey (mwMeta m)) as Hmw.
    { unfold try in Hf. destruct (clGet _ w) as [[?|?|] ?] eqn:Eg; simplify_eq.
      apply api_get in Eg as [_ Hg]. apply api_key in Hg. unfold oKey in Hg. by rewrite Hmeta in Hg. }
    case_bool_decide; [done|]. by apply (Hupdate mw Hmw).
  - destruct (IsNotFound e).
    + apply (frames_bind (λ w, works w !! k)); [|by intros]. apply api_create_frames. unfold oKey. by rewrite Hmeta.
    + case_bool_decide; [done|]. by apply Hupdate.
Qed.

Lemma defaultRBAC_frames cluster k :
  k ≠ (cluster, rbacManifest) → frames (λ w, works w !! k) (ocmPlacer.defaultRBAC cluster).
Proof.
  intros Hk. unfold ocmPlacer.defaultRBAC. apply frames_bind; [by intros|]. intros role.
  apply frames_bind; [by intros|]. intros binding. by apply createUpdateManifest_frames.
Qed.

Lemma createUpdateClusterManifests_frames workname up down cluster objects k :
  k ≠ (cluster, workname) →
  frames (λ w, works w !! k) (ocmPlacer.createUpdateClusterManifests workname up down cluster objects).
Proof.
  intros Hk. unfold ocmPlacer.createUpdateClusterManifests. apply frames_bind; [by intros|]. intros key.
  apply frames_bind; [by intros|]. intros spec. by apply createUpdateManifest_frames.
Qed.

Lemma createUpdateClusterManifests_stores workname up down cluster objects spec w w' :
  ocmPlacer.gatewayWorkSpec up down objects = Ok spec →
  ocmPlacer.createUpdateClusterManifests workname up down cluster objects w = (Ok tt, w') →
  holds spec (cluster, workname) w w'.
Proof.
  intros Hspec. unfold ocmPlacer.createUpdateClusterManifests, bind, lift. rewrite Hspec.
  destruct (MetaNamespaceKeyFunc _) as [key| |]; try done. intros Hc. apply createUpdateManifest_stores in Hc; [done|]. simpl. intros ->.
  revert Hspec. unfold ocmPlacer.gatewayWorkSpec. destruct (ocmPlacer.manifest objects); done.
Qed.

(** The loop over the targets adds them to the set and places the gateway on
    each; it works in the namespaces of the targets only. *)
Lemma placeOnClusters_frames workname up down objects clusters existing k :
  k.1 ∉ clusters →
  frames (λ w, works w !! k) (ocmPlacer.placeOnClusters workname up down objects clusters existing).
Proof.
  revert existing. induction clusters as [|c clusters IH]; intros existing; [done|].
  rewrite not_elem_of_cons. intros [Hc Hk]. cbn [ocmPlacer.placeOnClusters]. destruct k as [ns name]; simpl in *.
  apply frames_bind; [apply defaultRBAC_frames; congruence|]. intros _.
  apply frames_bind; [apply createUpdateClusterManifests_frames; congruence|]. intros _. by apply IH.
Qed.

Lemma placeOnClusters_spec workname up down objects spec clusters existing w s w' :
  NoDup clusters → ocmPlacer.gatewayWorkSpec up down objects = Ok spec → workname ≠ rbacManifest →
  ocmPlacer.placeOnClusters workname up down objects clusters existing w = (Ok s, w') →
  s = existing ∪ list_to_set clusters ∧ ∀ c, c ∈ clusters → holds spec (c, workname) w w'.
Proof.
  intros Hnd Hspec Hname. revert existing w. induction Hnd as [|c clusters Hc Hnd IH]; intros existing w;
    cbn [ocmPlacer.placeOnClusters].
  { intros [= <- <-]. split; [clear; set_solver|]. intros c Hc. by apply not_elem_of_nil in Hc. }
  unfold bind at 1.
  assert (∀ c', works (ocmPlacer.defaultRBAC c w).2 !! (c', workname) = works w !! (c', workname)) as Hw1.
  { intros c'. apply defaultRBAC_frames. congruence. }
  destruct (ocmPlacer.defaultRBAC c w) as [[[]| |] w1]; try done. simpl in Hw1.
  unfold bind at 1.
  assert (∀ c', c' ≠ c → works (ocmPlacer.createUpdateClusterManifests workname up down c objects w1).2 !! (c', workname) =
    works w !! (c', workname)) as Hw2.
  { intros c' Hne. rewrite <- Hw1. apply createUpdateClusterManifests_frames. congruence. }
  destruct (ocmPlacer.createUpdateClusterManifests _ _ _ c _ w1) as [[[]| |] w2] eqn:Ec; try done. simpl in Hw2.
  intros Hrest. pose proof (IH _ _ Hrest) as [-> Hplaced]. split; [clear; set_solver|].
  intros c' [->|Hc']%elem_of_cons.
  - eapply createUpdateClusterManifests_stores in Ec; [|done]. eapply holds_same, Ec; [done|].
    pose proof (placeOnClusters_frames workname up down objects clusters (existing ∪ {[c]}) (c, workname) Hc w2) as Hf.
    by rewrite Hrest in Hf.
  - eapply holds_same; [|done|by apply Hplaced]. symmetry. apply Hw2. by intros ->.
Qed.

(** Taking the gateway off a cluster works in the namespace of that cluster, and
    the gateway's work is then gone or going. *)
Lemma set_mwMeta_meta m (o : ManifestWork) : metaOf (set_mwMeta m o) = m.
Proof. by rewrite Hmeta. Qed.

Lemma removeFromCluster_frames workname cluster k :
  k.1 ≠ cluster → frames (λ w, works w !! k) (ocmPlacer.removeFromCluster workname cluster).
Proof.
  intros Hk. unfold ocmPlacer.removeFromCluster. destruct k as [ns name]; simpl in Hk.
  apply frames_bind_ok; [apply frames_at, api_get_frames|]. intros w mw w' Hg.
  apply api_get in Hg as [_ Hg]. apply api_key in Hg. unfold oKey in Hg. rewrite Hmeta in Hg.
  match goal with |- (objs (?m w').2 !! ?k) = _ => apply (λ Hf : frames (λ w, objs w !! k) m, Hf w') end.
  apply frames_bind; [by apply frames_try, frames_at|]. intros mc.
  apply frames_bind; [|intros _; apply frames_bind; [|by intros]].
  - rewrite Hg, <- Hmeta. apply GracefulDelete_frames; [apply set_mwMeta_meta|done|congruence].
  - apply frames_IgnoreNotFound, api_delete_frames. unfold oKey, objectKey. rewrite Hmeta. simpl. congruence.
Qed.

Lemma removeFromCluster_spec workname cluster w w' :
  workname ≠ rbacManifest → ocmPlacer.removeFromCluster workname cluster w = (Ok tt, w') →
  goneOrDeleting (works w') (cluster, workname).
Proof.
  intros Hname. unfold ocmPlacer.removeFromCluster, bind at 1.
  destruct (clGet _ w) as [[mw| |] w1] eqn:Eg; try done.
  apply api_get in Eg as [_ Hg]. apply api_key in Hg. unfold oKey in Hg. rewrite Hmeta in Hg. rewrite Hg.
  unfold bind at 1. destruct (try _ w1) as [[mc| |] w2]; try done.
  unfold bind at 1. destruct (GracefulDelete _ _ _ _ w2) as [[[]| |] w3] eqn:Ed; try done.
  rewrite <- Hmeta in Ed. apply GracefulDelete_ok in Ed.
  pose proof (api_delete_frames (ocmPlacer.emptyWork (cluster, rbacManifest)) (cluster, workname)) as Hf.
  intros Hrun. eapply goneOrDeleting_same; [|done].
  revert Hrun. unfold bind, IgnoreNotFound, ret. specialize (Hf ltac:(unfold oKey, objectKey; rewrite Hmeta; simpl; congruence) w3).
  destruct (clDelete _ w3) as [[[]|e|] w4]; simpl in Hf; [|destruct (IsNotFound e)|]; intros; by simplify_eq.
Qed.

Lemma deleteFromCluster_frames workname cluster k :
  k.1 ≠ cluster → frames (λ w, works w !! k) (ocmPlacer.deleteFromCluster workname cluster).
Proof.
  intros Hk. apply frames_bind; [|by intros]. apply frames_IgnoreNotFound, api_delete_frames.
  unfold oKey, objectKey. rewrite Hmeta. simpl. by intros ->.
Qed.

Lemma deleteFromCluster_spec workname cluster w w' :
  ocmPlacer.deleteFromCluster workname cluster w = (Ok tt, w') → goneOrDeleting (works w') (cluster, workname).
Proof.
  unfold ocmPlacer.deleteFromCluster, bind, IgnoreNotFound, ret.
  destruct (clDelete _ w) as [[[]|e|] w1] eqn:Ed; try done; apply api_delete in Ed as [_ Hd];
    unfold oKey, objectKey in Hd; rewrite Hmeta in Hd; simpl in Hd.
  - by intros [= <-].
  - destruct (IsNotFound e); [|done]. intros [= <-]. destruct Hd as [-> Hd].
    unfold goneOrDeleting. by rewrite Hd.
Qed.

(** A loop that takes the gateway off the clusters one by one. *)
Section takeOff.

Context (workname : string) (off : string → M W unit).
Context (Hoff : ∀ c k, k.1 ≠ c → frames (λ w, works w !! k) (off c)).
Context (Hgone : ∀ c w w', off c w = (Ok tt, w') → goneOrDeleting (works w') (c, workname)).

Lemma takeOff_frames clusters existing k :
  k.1 ∉ clusters → frames (λ w, works w !! k) (ocmPlacer.takeOff off clusters existing).
Proof.
  revert existing. induction clusters as [|c clusters IH]; intros existing; [done|].
  rewrite not_elem_of_cons. intros [Hc Hk]. cbn [ocmPlacer.takeOff].
  apply frames_bind; [by apply Hoff|]. intros _. by apply IH.
Qed.

Lemma takeOff_spec clusters existing w s w' :
  ocmPlacer.takeOff off clusters existing w = (Ok s, w') →
  s = existing ∖ list_to_set clusters ∧ ∀ c, c ∈ clusters → goneOrDeleting (works w') (c, workname).
Proof.
  revert existing w. induction clusters as [|c clusters IH]; intros existing w; cbn [ocmPlacer.takeOff].
  { intros [= <- <-]. split; [clear; set_solver|]. intros c Hc. by apply not_elem_of_nil in Hc. }
  unfold bind at 1. destruct (off c w) as [[[]| |] w1] eqn:Ec; try done.
  intros Hrest. pose proof (IH _ _ Hrest) as [-> Hall]. split; [clear; set_solver|].
  intros c' [->|Hc']%elem_of_cons; [|by apply Hall].
  destruct (decide (c ∈ clusters)) as [Hc|Hc]; [by apply Hall|].
  eapply goneOrDeleting_same; [|by eapply Hgone].
  pose proof (takeOff_frames clusters (existing ∖ {[c]}) (c, workname) Hc w1) as Hf.
  rewrite Hrest in Hf. exact Hf.
Qed.

End takeOff.

(** *** Place *)

Lemma UnsortedList_elem (s : gset string) c : c ∈ UnsortedList s ↔ c ∈ s.
Proof. by rewrite UnsortedList_perm, elem_of_elements. Qed.

Lemma UnsortedList_NoDup (s : gset string) : NoDup (UnsortedList s).
Proof. rewrite UnsortedList_perm. apply NoDup_elements. Qed.

Lemma UnsortedList_set (s : gset string) : list_to_set (UnsortedList s) = s.
Proof. apply set_eq. intros c. by rewrite elem_of_list_to_set, UnsortedList_elem. Qed.

(** Reading the placement leaves the works alone. *)
Lemma GetClusters_frames up : frames (objs (O := ManifestWork)) (ocmPlacer.GetClusters up).
Proof. unfold ocmPlacer.GetClusters. pose proof Hdecisions. solve_frames. Qed.

Lemma GetPlacedClusters_frames up : frames (objs (O := ManifestWork)) (ocmPlacer.GetPlacedClusters up).
Proof. unfold ocmPlacer.GetPlacedClusters. solve_frames. Qed.

(** Placing a gateway converges.  When Place succeeds it returns exactly the
    clusters the placement decision names; on each of them the gateway's work
    holds the downstream gateway, its children and the feedback rules of its
    listeners (see [holds]), and on every cluster the gateway was placed on before but is no
    longer targeted, the work is gone or being deleted. *)
Theorem place_converges up down children spec w s w' targets w1 existing w2 :
  DeletionTimestamp (gwMeta up) = None →
  ocmPlacer.gatewayWorkSpec up down (GatewayManifest down :: children) = Ok spec →
  ocmPlacer.GetClusters up w = (Ok targets, w1) →
  ocmPlacer.GetPlacedClusters up w1 = (Ok existing, w2) →
  ocmPlacer.Place up down children w = (Ok s, w') →
  s = targets ∧
  (∀ c, c ∈ targets → holds spec (c, gatewayWorkName up) w w') ∧
  (∀ c, c ∈ existing → c ∉ targets → goneOrDeleting (works w') (c, gatewayWorkName up)).
Proof.
  intros Hdel Hspec Ht He. unfold ocmPlacer.Place, bind at 1. rewrite Ht. unfold bind at 1. rewrite He, Hdel.
  assert (works w2 = works w) as Hw2.
  { transitivity (works w1).
    - pose proof (GetPlacedClusters_frames up w1) as Hf. by rewrite He in Hf.
    - pose proof (GetClusters_frames up w) as Hf. by rewrite Ht in Hf. }
  unfold bind. destruct (ocmPlacer.placeOnClusters _ _ _ _ _ _ w2) as [[mid| |] w3] eqn:Ep; try done.
  pose proof (workName_not_rbac up) as Hname. intros Hoff.
  apply (placeOnClusters_spec _ _ _ _ spec) in Ep as [-> Hplaced]; [|apply UnsortedList_NoDup|done..].
  pose proof (takeOff_frames _ (removeFromCluster_frames (gatewayWorkName up))) as Hframe.
  pose proof (takeOff_spec (gatewayWorkName up) _ (removeFromCluster_frames (gatewayWorkName up))
    (λ c w w', removeFromCluster_spec _ c w w' Hname) _ _ _ _ _ Hoff) as [-> Hgone].
  rewrite !UnsortedList_set in *. split_and!.
  - apply set_eq. intros c. clear. destruct (decide (c ∈ targets)); set_solver.
  - intros c Hc. eapply holds_same; [by rewrite <- Hw2| |apply Hplaced; by apply UnsortedList_elem].
    pose proof (Hframe (UnsortedList (existing ∖ targets)) (existing ∪ targets) (c, gatewayWorkName up)) as Hf.
    specialize (Hf ltac:(simpl; rewrite UnsortedList_elem; set_solver) w3). rewrite Hoff in Hf. exact Hf.
  - intros c Hc Hn. apply Hgone, UnsortedList_elem. set_solver.
Qed.

(** C35: a gateway that is being deleted is taken off the clusters it is placed
    on: when Place succeeds it returns no cluster, and on each of them the work
    is gone or being deleted. *)
Theorem place_deletes up down children w s w' targets w1 existing w2 :
  DeletionTimestamp (gwMeta up) ≠ None →
  ocmPlacer.GetClusters up w = (Ok targets, w1) →
  ocmPlacer.GetPlacedClusters up w1 = (Ok existing, w2) →
  ocmPlacer.Place up down children w = (Ok s, w') →
  s = ∅ ∧ ∀ c, c ∈ existing → goneOrDeleting (works w') (c, gatewayWorkName up).
Proof using ApiLaws0 Hmeta.
  intros Hdel Ht He. unfold ocmPlacer.Place, bind at 1. rewrite Ht. unfold bind at 1. rewrite He.
  destruct (DeletionTimestamp (gwMeta up)); [|done]. intros Hoff.
  apply (takeOff_spec (gatewayWorkName up)) in Hoff as [-> Hgone];
    [|apply deleteFromCluster_frames|apply deleteFromCluster_spec].
  split; [rewrite UnsortedList_set; clear; set_solver|]. intros c Hc. by apply Hgone, UnsortedList_elem.
Qed.

End properties.

(** ** Examples and witnesses *)

(** Works, placement decisions and managed clusters. *)
Abbreviation placeWorld :=
  (gmap ObjectKey ManifestWork * gmap ObjectKey PlacementDecision * gmap ObjectKey ManagedCluster)%type.

#[local] Instance worksClient : Client placeWorld ManifestWork := mem_client (λ w, w.1.1) (λ m w, (m, w.1.2, w.2)) mwMeta.
#[local] Instance worksStore : ApiStore placeWorld ManifestWork := mem_store (λ w, w.1.1) mwMeta (λ r r', r' = r).
#[local] Instance worksLaws : ApiLaws placeWorld ManifestWork.
Proof. by apply mem_laws. Qed.
#[local] Instance decisionsClient : Client placeWorld PlacementDecision :=
  mem_client (λ w, w.1.2) (λ m w, (w.1.1, m, w.2)) pdMeta.
#[local] Instance clustersClient : Client placeWorld ManagedCluster := mem_client snd (λ m w, (w.1, m)) mclMeta.
#[local] Instance placeClock : WallClock placeWorld := {| TimeNow := ret 0%Z |}.
#[local] Instance placeJson : Json :=
  {| json_Marshal := λ _, Ok "{}"; json_UnmarshalAddresses := λ _ _, ([], None) |}.
#[local] Existing Instance slashKeys.
#[local] Existing Instance listConditions.
#[local] Existing Instance list_in_key_order.

Lemma placeWorld_keeps (m m' : ManifestWork) : keeps (W := placeWorld) m m' → mwSpec m' = mwSpec m.
Proof. by intros ->. Qed.
Lemma placeWorld_clock : frames (objs (O := ManifestWork)) (TimeNow (W := placeWorld)).
Proof. done. Qed.
Lemma placeWorld_clusters k : frames (objs (O := ManifestWork)) (clGet (W := placeWorld) (O := ManagedCluster) k).
Proof. intros w. simpl. unfold mem_get. by case_match. Qed.

Lemma placeWorld_decisions opts : frames (objs (O := ManifestWork)) (clList (W := placeWorld) (O := PlacementDecision) opts).
Proof. done. Qed.

Definition placedGateway (deleting : option Z) : Gateway :=
  mkGateway (mkObjectMeta "prod" "infra" {[OCMPlacementLabel := "eu"]} ∅ [] 1 deleting None) "mgc"
    [mkListener "api" (Some "api.example.com") 80 "HTTP" None] emptyGatewayStatus.

Definition workOn (cluster : string) (conditions : list Condition) : ManifestWork :=
  mkManifestWork
    (set_Annotations {[GraceTimestampAnnotation := "0"]}
      (set_Labels {[WorkManifestLabel := "gateway-infra-prod"]} (newObjectMeta "gateway-infra-prod" cluster)))
    (mkWorkSpec ["{}"] []) conditions [].

Definition appliedCondition : Condition := mkCondition ManifestApplied ConditionTrue "Applied" "" 1.

(** The gateway is on west; the decision now says east. *)
Definition placeStart (conditions : list Condition) : placeWorld :=
  ({[("west", "gateway-infra-prod") := workOn "west" conditions]},
   {[("infra", "eu-decision") := mkPlacementDecision
       (set_Labels {[OCMPlacementLabel := "eu"]} (newObjectMeta "eu-decision" "infra")) ["east"]]},
   {[("", "west") := mkManagedCluster (newObjectMeta "west" "")]}).

Definition downstreamOf (up : Gateway) : Gateway := mkGateway (newObjectMeta "prod" "kuadrant-infra") "istio" (Listeners up) emptyGatewayStatus.

Lemma place_converges_witness :
  (ocmPlacer.Place (placedGateway None) (downstreamOf (placedGateway None)) [] (placeStart [appliedCondition])).1 = Ok {["east"]} ∧
  goneOrDeleting (W := placeWorld) (objs (O := ManifestWork)
    (ocmPlacer.Place (placedGateway None) (downstreamOf (placedGateway None)) [] (placeStart [appliedCondition])).2)
    ("west", "gateway-infra-prod").
Proof.
  split; [vm_cast_no_check (eq_refl (Ok (A := gset string) {["east"]}))|].
  refine (proj2 (proj2 (place_converges eq_refl placeWorld_keeps placeWorld_clock placeWorld_clusters placeWorld_decisions
    (placedGateway None) (downstreamOf (placedGateway None)) []
    (mkWorkSpec ["{}"; "{}"] [mkConfigOption "gateway.networking.k8s.io" "gateways" "prod" "kuadrant-infra"
      (ocmPlacer.feedbackPaths (placedGateway None))])
    (placeStart [appliedCondition]) {["east"]}
    (ocmPlacer.Place (placedGateway None) (downstreamOf (placedGateway None)) [] (placeStart [appliedCondition])).2
    {["east"]} (placeStart [appliedCondition]) {["west"]} (placeStart [appliedCondition]) _ _ _ _ _)) "west" _ _).
  - reflexivity.
  - reflexivity.
  - vm_cast_no_check (eq_refl (Ok (A := gset string) {["east"]}, placeStart [appliedCondition])).
  - vm_cast_no_check (eq_refl (Ok (A := gset string) {["west"]}, placeStart [appliedCondition])).
  - vm_cast_no_check (eq_refl (ocmPlacer.Place (placedGateway None) (downstreamOf (placedGateway None)) [] (placeStart [appliedCondition]))).
  - apply elem_of_singleton. reflexivity.
  - apply not_elem_of_singleton. discriminate.
Defined.

Lemma place_deletes_witness :
  goneOrDeleting (W := placeWorld) (objs (O := ManifestWork)
    (ocmPlacer.Place (placedGateway (Some 5%Z)) (downstreamOf (placedGateway None)) [] (placeStart [appliedCondition])).2)
    ("west", "gateway-infra-prod").
Proof.
  refine (proj2 (place_deletes eq_refl
    (placedGateway (Some 5%Z)) (downstreamOf (placedGateway None)) [] (placeStart [appliedCondition]) ∅
    (ocmPlacer.Place (placedGateway (Some 5%Z)) (downstreamOf (placedGateway None)) [] (placeStart [appliedCondition])).2
    {["east"]} (placeStart [appliedCondition]) {["west"]} (placeStart [appliedCondition]) _ _ _ _) "west" _).
  - discriminate.
  - vm_cast_no_check (eq_refl (Ok (A := gset string) {["east"]}, placeStart [appliedCondition])).
  - vm_cast_no_check (eq_refl (Ok (A := gset string) {["west"]}, placeStart [appliedCondition])).
  - vm_cast_no_check (eq_refl (ocmPlacer.Place (placedGateway (Some 5%Z)) (downstreamOf (placedGateway None)) [] (placeStart [appliedCondition]))).
  - apply elem_of_singleton. reflexivity.
Defined.

(** Only works that were applied count as placed: deleting the gateway before
    the cluster's agent reports leaves the work where it is. *)
Example unapplied_work_left_behind :
  (ocmPlacer.Place (placedGateway (Some 5%Z)) (downstreamOf (placedGateway None)) [] (placeStart [])).1 = Ok ∅ ∧
  objs (O := ManifestWork)
    (ocmPlacer.Place (placedGateway (Some 5%Z)) (downstreamOf (placedGateway None)) [] (placeStart [])).2
    !! ("west", "gateway-infra-prod") = Some (workOn "west" []).
Proof. split; vm_compute; reflexivity. Qed.
