(* ===== verification/PolicyController.v ===== *)
(** * pkg/controllers/dnspolicy/dnspolicy_controller.go

    The DNSPolicy controller: it finds the gateway a policy targets, lets the
    DNS records and the health checks of the policy be reconciled, and reports
    the outcome in the status of the policy and of the gateways.  Also
    pkg/_internal/conditions, whose conditions it writes. *)

From S2P Require Import Prelude GoStrings Kube ApiTypes GatewayApi Target Placer Zones Endpoints EndpointProps DnsHelper HealthChecks MemApi.
Local Open Scope go_scope.

(** ** pkg/_internal/conditions *)

Definition PolicyReasonAccepted : string := "Accepted".
Definition PolicyReasonInvalid : string := "Invalid".
Definition PolicyReasonUnknown : string := "Unknown".
Definition PolicyReasonConflicted : string := "Conflicted".

(** [policyKind] is the printed GroupVersionKind of the policy; reading the
    metadata of a policy cannot fail. *)
Definition BuildPolicyAffectedCondition (conditionType policyKind : string) (policyObject targetRef : ObjectMeta)
  (reason : string) (err : option goerror) : Condition :=
  let object := policyKind +:+ " in namespace " +:+ Namespace policyObject +:+ " with name " +:+ Name policyObject in
  match err with
  | Some err =>
      mkCondition conditionType ConditionFalse reason
        ("policy failed. Object unaffected by policy " +:+ object +:+ " with error " +:+ error_text err)
        (Generation targetRef)
  | None =>
      mkCondition conditionType ConditionTrue reason
        ("policy success. Object affected by policy " +:+ object +:+ " ") (Generation targetRef)
  end.

(** ** Interfaces of kuadrant-operator

    [reconcilers.TargetRefReconciler]: finding the target of a policy, which
    gateways refer to it, and the back references.  The calls that change
    objects they are given return them as they leave them. *)

Class TargetRefReconciler (W P : Type) := {
  FetchValidTargetRef : PolicyTargetReference → string → M W ObjectMeta;
  ComputeGatewayDiffs : P → option ObjectMeta → M W GatewayDiff;
  ReconcileTargetBackReference : ObjectKey → ObjectMeta → string → M W unit;
  DeleteTargetBackReference : ObjectKey → ObjectMeta → string → M W unit;
  ReconcileGatewayPolicyReferences : P → GatewayDiff → M W GatewayDiff;
  AddFinalizerTo : P → string → M W P;
  RemoveFinalizerFrom : P → string → M W P
}.

(** ** The controller *)

Definition DNSPolicyFinalizer : string := "kuadrant.io/dns-policy".
Definition DNSPolicyAffected : string := "kuadrant.io/DNSPolicyAffected".
Definition DNSPolicyKind : string := "kuadrant.io/v1alpha1, Kind=DNSPolicy".

#[export] Instance DNSPolicyStatus_eq_dec : EqDecision DNSPolicyStatus.
Proof. solve_decision. Defined.

Definition set_polStatus (st : DNSPolicyStatus) (p : DNSPolicy) : DNSPolicy := mkDNSPolicy (polMeta p) (polSpec p) st.
Section controller.

Context {W : Type} `{Client W DNSRecord} `{Client W ManagedZone} `{Client W DNSHealthCheckProbe} `{Client W DNSPolicy} `{Client W Gateway}.
Context `{TargetEnv} `{MapRange} `{SetRange} `{SortSlice} `{PublicSuffixList} `{OwnerOps} `{GatewayPlacer W} `{DeleteOps W DNSRecord}.
Context `{TargetRefReconciler W DNSPolicy} `{ConditionOps} `{FinalizerOps}.

(** Write the conditions of a gateway if they changed. *)
Definition updateConditions (f : list Condition → list Condition) (gw : Gateway) : M W unit :=
  let conditions := f (gwConditions (gwStatus gw)) in
  if bool_decide (gwConditions (gwStatus gw) = conditions) then ret tt
  else do! clStatusUpdate (set_gwConditions conditions gw) in ret tt.

Definition updateGatewayCondition (condition : Condition) (gatewayDiff : GatewayDiff) : M W unit :=
  do! forEach (GatewaysWithValidPolicyRef gatewayDiff ++ GatewaysMissingPolicyRef gatewayDiff)
        (updateConditions (λ cs, SetStatusCondition cs condition)) in
  forEach (GatewaysWithInvalidPolicyRef gatewayDiff)
    (updateConditions (λ cs, RemoveStatusCondition cs (cType condition))).

Definition affectedCondition (dnsPolicy : DNSPolicy) (target : ObjectMeta) (reason : string) (err : option goerror) : Condition :=
  BuildPolicyAffectedCondition DNSPolicyAffected DNSPolicyKind (polMeta dnsPolicy) target reason err.

(** A step of reconcileResources: when it fails, the gateways get a condition
    with [reason], and the error of writing it is joined. *)
Definition reportFailure {A} (dnsPolicy : DNSPolicy) (target : ObjectMeta) (diff : GatewayDiff) (reason text : string)
  (m : M W A) : M W A :=
  let! r := try m in
  match r with
  | inl a => ret a
  | inr err =>
      let! u := try (updateGatewayCondition (affectedCondition dnsPolicy target reason (Some err)) diff) in
      fail (errors_Join (ErrWrap text err) (match u with inl _ => None | inr e => Some e end))
  end.

(** Lines 161-199, on the policy with its defaults. *)
Definition reconcileValidPolicy (dnsPolicy : DNSPolicy) (target : ObjectMeta) : M W unit :=
  let! diff := ComputeGatewayDiffs dnsPolicy (Some target) in
  do! reportFailure dnsPolicy target diff PolicyReasonInvalid "reconcile DNSRecords error "
        (reconcileDNSRecords dnsPolicy diff) in
  do! reportFailure dnsPolicy target diff PolicyReasonInvalid "reconcile HealthChecks error "
        (reconcileHealthChecks dnsPolicy diff) in
  do! reportFailure dnsPolicy target diff PolicyReasonConflicted "reconcile TargetBackReference error "
        (ReconcileTargetBackReference (objectKey (polMeta dnsPolicy)) target DNSPolicyBackRefAnnotation) in
  let! diff := reportFailure dnsPolicy target diff PolicyReasonUnknown "ReconcileGatewayPolicyReferences error "
        (ReconcileGatewayPolicyReferences dnsPolicy diff) in
  let! r := try (updateGatewayCondition (affectedCondition dnsPolicy target PolicyReasonAccepted None) diff) in
  match r with
  | inl _ => ret tt
  | inr updateErr => fail (ErrWrap "failed to update gateway conditions " updateErr)
  end.

(** The policy as the call leaves it (with its defaults when it is valid), and
    [specErr]. *)
Definition reconcileResources (dnsPolicy : DNSPolicy) (target : ObjectMeta) : M W (DNSPolicy * option goerror) :=
  match DNSPolicy_Validate dnsPolicy with
  | Panic => panic
  | Err err => ret (dnsPolicy, Some err)
  | Ok _ =>
      let dnsPolicy := DNSPolicy_Default dnsPolicy in
      let! r := try (reconcileValidPolicy dnsPolicy target) in
      ret (dnsPolicy, match r with inl _ => None | inr err => Some err end)
  end.

Definition deleteResources (dnsPolicy : DNSPolicy) (target : option ObjectMeta) : M W unit :=
  let! diff := ComputeGatewayDiffs dnsPolicy target in
  do! reconcileDNSRecords dnsPolicy diff in
  do! reconcileHealthChecks dnsPolicy diff in
  do! match target with
      | Some target => DeleteTargetBackReference (objectKey (polMeta dnsPolicy)) target DNSPolicyBackRefAnnotation
      | None => ret tt
      end in
  let! diff := ComputeGatewayDiffs dnsPolicy target in
  let! diff := ReconcileGatewayPolicyReferences dnsPolicy diff in
  updateGatewayCondition (mkCondition DNSPolicyAffected ConditionNoStatus "" "" 0) diff.

Definition readyCondition (targetKind : string) (specErr : option goerror) : Condition :=
  match specErr with
  | None => mkCondition ConditionTypeReady ConditionTrue (targetKind +:+ "DNSEnabled") (targetKind +:+ " is DNS Enabled") 0
  | Some err => mkCondition ConditionTypeReady ConditionFalse "ReconciliationError" (error_text err) 0
  end.

Definition calculateStatus (dnsPolicy : DNSPolicy) (specErr : option goerror) : DNSPolicyStatus :=
  let st := polStatus dnsPolicy in
  mkDNSPolicyStatus (SetStatusCondition (polConditions st) (readyCondition (trKind (TargetRef (polSpec dnsPolicy))) specErr))
    (match specErr with Some _ => Generation (polMeta dnsPolicy) | None => polObservedGeneration st end).

(** Lines 127-147: [previous] as it was read, [dnsPolicy] with its finalizer. *)
Definition reconcileAndReport (previous dnsPolicy : DNSPolicy) (target : ObjectMeta) : M W ReconcileResult :=
  let! (dnsPolicy, specErr) := reconcileResources dnsPolicy target in
  let dnsPolicy := set_polStatus (calculateStatus dnsPolicy specErr) dnsPolicy in
  let! conflict :=
    if bool_decide (polStatus previous = polStatus dnsPolicy) then ret false
    else
      let! r := try (clStatusUpdate dnsPolicy) in
      match r with
      | inl _ => ret false
      | inr updateErr => if IsConflict updateErr then ret true else fail updateErr
      end in
  if conflict then ret (mkResult true 0)
  else match specErr with None => ret noRequeue | Some err => fail err end.

Definition policy_Reconcile (req : ObjectKey) : M W ReconcileResult :=
  let! found := IgnoreNotFound (clGet (O := DNSPolicy) req) in
  match found with
  | None => ret noRequeue
  | Some previous =>
      let markedForDeletion := bool_decide (DeletionTimestamp (polMeta previous) ≠ None) in
      let! target := try (FetchValidTargetRef (TargetRef (polSpec previous)) (Namespace (polMeta previous))) in
      if markedForDeletion then
        if ContainsFinalizer (polMeta previous) DNSPolicyFinalizer then
          do! deleteResources previous (match target with inl t => Some t | inr _ => None end) in
          do! RemoveFinalizerFrom previous DNSPolicyFinalizer in
          ret noRequeue
        else ret noRequeue
      else
        match target with
        | inr err =>
            if IsNotFound err then do! deleteResources previous None in ret noRequeue else fail err
        | inl target =>
            let! dnsPolicy :=
              if negb (ContainsFinalizer (polMeta previous) DNSPolicyFinalizer) then AddFinalizerTo previous DNSPolicyFinalizer
              else ret previous in
            reconcileAndReport previous dnsPolicy target
        end
  end.

End controller.

(** ** Properties *)

Section properties.

Context {W : Type} `{Client W DNSRecord} `{Client W ManagedZone} `{Client W DNSHealthCheckProbe} `{Client W DNSPolicy} `{Client W Gateway}.
Context `{TargetEnv} `{MapRange} `{SetRange} `{SortSlice} `{PublicSuffixList} `{OwnerOps} `{GatewayPlacer W} `{DeleteOps W DNSRecord}.
Context `{TargetRefReconciler W DNSPolicy} `{ConditionOps} `{!ConditionLaws} `{FinalizerOps}.
Context `{!ApiStore W DNSPolicy} `{!ApiLaws W DNSPolicy} (Hmeta : ∀ p : DNSPolicy, metaOf p = polMeta p).
Context (Hstatus : StatusUpdates (W := W) polStatus).

Definition policyReady (p : DNSPolicy) : Prop :=
  IsStatusConditionTrue (polConditions (polStatus p)) ConditionTypeReady = true.

Lemma calculateStatus_ready p specErr :
  IsStatusConditionTrue (polConditions (calculateStatus p specErr)) ConditionTypeReady = true ↔ specErr = None.
Proof.
  unfold IsStatusConditionTrue, calculateStatus. simpl.
  pose proof (find_set_eq (polConditions (polStatus p)) (readyCondition (trKind (TargetRef (polSpec p))) specErr)) as Hf.
  assert (cType (readyCondition (trKind (TargetRef (polSpec p))) specErr) = ConditionTypeReady) as Ht by (by destruct specErr).
  rewrite Ht in Hf. rewrite Hf. by destruct specErr.
Qed.

(** The policy keeps its name through the reconciliation of its resources. *)
Lemma reconcileResources_meta p target w p' specErr w' :
  reconcileResources p target w = (Ok (p', specErr), w') → polMeta p' = polMeta p.
Proof.
  unfold reconcileResources, bind, try, ret. destruct (DNSPolicy_Validate p); [|by intros [= <- _ _]|done].
  destruct (reconcileValidPolicy _ target w) as [[[]|e|] w1]; by intros [= <- _ _].
Qed.

(** Nothing but the finalizer calls touches the policies. *)
Abbreviation policies := (objs (O := DNSPolicy)).
Context (Hrecords : clientFrames DNSRecord policies) (Hzones : clientFrames ManagedZone policies).
Context (Hprobes : clientFrames DNSHealthCheckProbe policies) (Hgateways : clientFrames Gateway policies).
Context (HdeleteRes : ∀ r : DNSRecord, frames policies (DeleteResource r)).
Context (Hplaced : ∀ g, frames policies (GetPlacedClusters g)) (Hroutes : ∀ g l c, frames policies (ListenerTotalAttachedRoutes g l c)).
Context (Hcluster : ∀ g c, frames policies (GetClusterGateway g c)).
Context (Hfetchf : ∀ r ns, frames policies (FetchValidTargetRef r ns)) (Hdiffs : ∀ p t, frames policies (ComputeGatewayDiffs p t)).
Context (Hback : ∀ k t a, frames policies (DeleteTargetBackReference k t a)).
Context (Hsetback : ∀ k t a, frames policies (ReconcileTargetBackReference k t a)).
Context (Hrefs : ∀ p d, frames policies (ReconcileGatewayPolicyReferences p d)).

Lemma updateGatewayCondition_frames c d : frames policies (updateGatewayCondition c d).
Proof. unfold updateGatewayCondition, updateConditions. solve_frames. Qed.

Lemma reportFailure_frames {A} p t d reason text (m : M W A) :
  frames policies m → frames policies (reportFailure p t d reason text m).
Proof. intros Hm. pose proof updateGatewayCondition_frames. unfold reportFailure. solve_frames. Qed.

Lemma reconcileResources_frames p t : frames policies (reconcileResources p t).
Proof.
  pose proof (λ p d, reconcileDNSRecords_frames policies Hrecords Hzones Hprobes HdeleteRes Hplaced Hroutes Hcluster p d).
  pose proof (λ p d, reconcileHealthChecks_frames policies p d Hprobes). pose proof updateGatewayCondition_frames.
  pose proof (@reportFailure_frames). unfold reconcileResources, reconcileValidPolicy. solve_frames.
Qed.

Lemma deleteResources_frames p t : frames policies (deleteResources p t).
Proof.
  pose proof (λ d, reconcileDNSRecords_frames policies Hrecords Hzones Hprobes HdeleteRes Hplaced Hroutes Hcluster p d).
  pose proof (λ d, reconcileHealthChecks_frames policies p d Hprobes). pose proof updateGatewayCondition_frames.
  unfold deleteResources. solve_frames.
Qed.

(** Every step of a reconciliation reported success, from [w] to [w']: the policy
    is valid; with its defaults, the gateways it affects were found, the DNS
    records and the health checks reconciled, the back references set, and the
    affected condition written to the gateways. *)
Definition everyStep (policy : DNSPolicy) (target : ObjectMeta) (w w' : W) : Prop :=
  let p := DNSPolicy_Default policy in
  DNSPolicy_Validate policy = Ok tt ∧
  ∃ diff wd wr wh wb diff' wg,
    ComputeGatewayDiffs p (Some target) w = (Ok diff, wd) ∧
    reconcileDNSRecords p diff wd = (Ok tt, wr) ∧
    reconcileHealthChecks p diff wr = (Ok tt, wh) ∧
    ReconcileTargetBackReference (objectKey (polMeta p)) target DNSPolicyBackRefAnnotation wh = (Ok tt, wb) ∧
    ReconcileGatewayPolicyReferences p diff wb = (Ok diff', wg) ∧
    updateGatewayCondition (affectedCondition p target PolicyReasonAccepted None) diff' wg = (Ok tt, w').

Lemma policy_bind_ok {A B} (m : M W A) (k : A → M W B) w b w' :
  bind m k w = (Ok b, w') ↔ ∃ a w1, m w = (Ok a, w1) ∧ k a w1 = (Ok b, w').
Proof using Type. unfold bind. destruct (m w) as [[a|e|] w1]; naive_solver. Qed.

Lemma policy_reportFailure_ok {A} p t d reason text (m : M W A) w a w' :
  reportFailure p t d reason text m w = (Ok a, w') ↔ m w = (Ok a, w').
Proof using Type.
  unfold reportFailure, bind, try, ret, fail. destruct (m w) as [[x|e|] w1]; [naive_solver| |naive_solver].
  destruct (updateGatewayCondition _ d w1) as [[]?]; naive_solver.
Qed.

Lemma reconcileResources_steps policy target w policy' specErr w' :
  reconcileResources policy target w = (Ok (policy', specErr), w') →
  specErr = None ↔ everyStep policy target w w'.
Proof using Type.
  unfold reconcileResources, everyStep, bind at 1, try, ret. cbv zeta.
  assert (∀ p, reconcileValidPolicy p target w = (Ok tt, w') ↔
    ∃ diff wd wr wh wb diff' wg,
      ComputeGatewayDiffs p (Some target) w = (Ok diff, wd) ∧ reconcileDNSRecords p diff wd = (Ok tt, wr) ∧
      reconcileHealthChecks p diff wr = (Ok tt, wh) ∧
      ReconcileTargetBackReference (objectKey (polMeta p)) target DNSPolicyBackRefAnnotation wh = (Ok tt, wb) ∧
      ReconcileGatewayPolicyReferences p diff wb = (Ok diff', wg) ∧
      updateGatewayCondition (affectedCondition p target PolicyReasonAccepted None) diff' wg = (Ok tt, w')) as Hvalid.
  { intros p. unfold reconcileValidPolicy. split.
    - intros (diff & wd & Hd & ([] & wr & Hr%policy_reportFailure_ok & ([] & wh & Hh%policy_reportFailure_ok &
        ([] & wb & Hb%policy_reportFailure_ok & (diff' & wg & Hg%policy_reportFailure_ok &
        (r & w1 & Hu & Hend)%policy_bind_ok)%policy_bind_ok)%policy_bind_ok)%policy_bind_ok)%policy_bind_ok)%policy_bind_ok.
      exists diff, wd, wr, wh, wb, diff', wg. split_and!; try done. revert Hu. unfold try, ret, fail in *.
      destruct (updateGatewayCondition _ _ wg) as [[[]|e|] w2]; intros [= <- <-]; [|done]. by injection Hend as <-.
    - intros (diff & wd & wr & wh & wb & diff' & wg & Hd & Hr & Hh & Hb & Hg & Hu).
      apply policy_bind_ok. exists diff, wd. split; [done|].
      apply policy_bind_ok. exists tt, wr. split; [by apply policy_reportFailure_ok|].
      apply policy_bind_ok. exists tt, wh. split; [by apply policy_reportFailure_ok|].
      apply policy_bind_ok. exists tt, wb. split; [by apply policy_reportFailure_ok|].
      apply policy_bind_ok. exists diff', wg. split; [by apply policy_reportFailure_ok|].
      apply policy_bind_ok. exists (inl tt), w'. split; [|done]. unfold try. by rewrite Hu. }
  destruct (DNSPolicy_Validate policy) as [[]|e|]; [|intros [= _ <- _]; naive_solver|done].
  specialize (Hvalid (DNSPolicy_Default policy)).
  destruct (reconcileValidPolicy _ target w) as [[[]|e|] w1]; intros [= _ <- <-]; naive_solver.
Qed.

(** C36: the Ready condition of a policy tells the truth.  Once its resources were
    reconciled, either writing the status fails, or the stored policy is Ready
    exactly when each step in turn reported success: validation, finding the
    gateways, the DNS records, the health checks, the back reference to the
    target, the references of the gateways and their conditions; a failed step
    is returned as the error, so that the policy is reconciled again. *)
Theorem policy_status_truthful req policy w w0 target w1 policy' specErr w2 result w' :
  clGet req w = (Ok policy, w0) →
  DeletionTimestamp (polMeta policy) = None →
  FetchValidTargetRef (TargetRef (polSpec policy)) (Namespace (polMeta policy)) w0 = (Ok target, w1) →
  ContainsFinalizer (polMeta policy) DNSPolicyFinalizer = true →
  reconcileResources policy target w1 = (Ok (policy', specErr), w2) →
  policy_Reconcile req w = (result, w') →
  (∃ e w3, clStatusUpdate (set_polStatus (calculateStatus policy' specErr) policy') w2 = (Err e, w3)) ∨
  (∃ stored', objs w' !! req = Some stored' ∧ (policyReady stored' ↔ everyStep policy target w1 w2)) ∧
  result = match specErr with None => Ok noRequeue | Some err => Err err end.
Proof.
  intros Hget Hdel Hfetch Hfin Hrec. setoid_rewrite <- (reconcileResources_steps _ _ _ _ _ _ Hrec).
  unfold policy_Reconcile, bind at 1, IgnoreNotFound.
  rewrite Hget. unfold bind at 1, try. rewrite Hfetch, Hdel, Hfin. cbn [negb].
  rewrite bool_decide_eq_false_2 by naive_solver.
  unfold reconcileAndReport, bind, try, ret, fail. cbv beta iota zeta. rewrite Hrec.
  pose proof (reconcileResources_meta _ _ _ _ _ _ Hrec) as Hm. apply api_get in Hget as [Hw0 Hpol].
  assert (objs (O := DNSPolicy) w2 = objs w) as Hw2.
  { pose proof (reconcileResources_frames policy target w1) as Hr. rewrite Hrec in Hr.
    pose proof (Hfetchf (TargetRef (polSpec policy)) (Namespace (polMeta policy)) w0) as Hw1. rewrite Hfetch in Hw1.
    simpl in *. congruence. }
  pose proof (calculateStatus_ready policy' specErr) as Hready. set (new := set_polStatus _ policy').
  case_bool_decide as Hsame.
  - intros Hres. right. split; [|by destruct specErr; simplify_eq].
    exists policy. unfold policyReady. rewrite Hsame. split; [|done].
    destruct specErr; simplify_eq; by rewrite Hw2.
  - destruct (clStatusUpdate new w2) as [[st|e|] w3] eqn:Eu; intros Hres.
    + right. apply Hstatus in Eu as [Hw3 Hst]. split; [|by destruct specErr; simplify_eq].
      exists st. unfold policyReady. rewrite Hst. split; [|done].
      assert (oKey new = req) as Hk.
      { apply api_key in Hpol. rewrite <- Hpol. unfold oKey. rewrite !Hmeta. simpl. by rewrite Hm. }
      destruct specErr; simplify_eq; by rewrite Hw3, lookup_insert_eq.
    + left. by eauto.
    + by apply Hstatus in Eu.
Qed.

(** ** Deletion

    What the deletion of a policy leaves of its records and probes.  A policy
    that is being deleted targets no gateway any more (kuadrant-operator's
    ComputeGatewayDiffs looks for targeted gateways only while the deletion
    timestamp is nil), and DeleteResource deletes through the client. *)
Context `{!ApiStore W DNSRecord} `{!ApiLaws W DNSRecord} `{!ApiStore W DNSHealthCheckProbe} `{!ApiLaws W DNSHealthCheckProbe}.
Context (HrecMeta : ∀ r : DNSRecord, metaOf r = recMeta r) (HprobeMeta : ∀ p : DNSHealthCheckProbe, metaOf p = probeMeta p).
Context (Hlist : ∀ opts (w w' : W) e, clList (O := DNSHealthCheckProbe) opts w = (Err e, w') → IsNotFound e = false).
Context (Hdelete : ∀ (r : DNSRecord) w, DeleteResource r w = clDelete r w).
Context (Huntargeted : ∀ policy t w d w', DeletionTimestamp (polMeta policy) ≠ None →
  ComputeGatewayDiffs policy t w = (Ok d, w') → GatewaysWithValidPolicyRef d = [] ∧ GatewaysMissingPolicyRef d = []).

(** Calls that leave the records alone, or the probes. *)
Abbreviation records := (objs (O := DNSRecord)).
Abbreviation probes := (objs (O := DNSHealthCheckProbe)).
Record aside {S : Type} (f : W → S) : Prop := {
  as_policies k : frames f (clGet (O := DNSPolicy) k);
  as_gateways : clientFrames Gateway f;
  as_fetch r ns : frames f (FetchValidTargetRef r ns);
  as_diffs p t : frames f (ComputeGatewayDiffs p t);
  as_back k t a : frames f (DeleteTargetBackReference k t a);
  as_refs p d : frames f (ReconcileGatewayPolicyReferences p d);
  as_finalizer p fin : frames f (RemoveFinalizerFrom (P := DNSPolicy) p fin)
}.
Context (Hasider : aside records) (Hasidep : aside probes).
Context (Hprobesr : clientFrames DNSHealthCheckProbe records) (Hrecordsp : clientFrames DNSRecord probes).

(** Everything labelled for the policy and gateway is gone or going. *)
Definition cleaned (policy : DNSPolicy) (gw : Gateway) (w w' : W) : Prop :=
  let labels := commonDNSRecordLabels (objectKey (gwMeta gw)) (objectKey (polMeta policy)) in
  (∀ k r, records w !! k = Some r → labels ⊆ Labels (recMeta r) → goneOrDeleting (records w') k) ∧
  (∀ k p, probes w !! k = Some p → labels ⊆ Labels (probeMeta p) → goneOrDeleting (probes w') k).

Lemma deleteDNSRecords_frames policy d :
  GatewaysWithValidPolicyRef d = [] → GatewaysMissingPolicyRef d = [] → frames probes (reconcileDNSRecords policy d).
Proof using Hdelete Hrecordsp.
  intros Hv Hm. unfold reconcileDNSRecords. rewrite Hv, Hm. cbn [app forEach]. apply frames_bind; [|by intros].
  apply frames_forEach. intros gw. unfold deleteGatewayDNSRecords. apply frames_bind; [apply (cf_list _ Hrecordsp)|].
  intros rs. apply frames_forEach. intros r. apply frames_bind; [|by intros]. apply frames_IgnoreNotFound. intros w1.
  rewrite Hdelete. apply (cf_delete _ Hrecordsp).
Qed.

Lemma deleteResources_cleans policy t w diff wd w' :
  ComputeGatewayDiffs policy t w = (Ok diff, wd) →
  GatewaysWithValidPolicyRef diff = [] → GatewaysMissingPolicyRef diff = [] →
  deleteResources policy t w = (Ok tt, w') →
  ∀ gw, gw ∈ GatewaysWithInvalidPolicyRef diff → cleaned policy gw w w'.
Proof using ApiLaws1 ApiLaws2 HrecMeta HprobeMeta Hlist Hdelete Hasider Hasidep Hprobesr Hrecordsp.
  intros Hdiff Hv Hm. unfold deleteResources.
  intros (d & wd' & Hd & ([] & wr & Hr & ([] & wh & Hh & Hrest)%policy_bind_ok)%policy_bind_ok)%policy_bind_ok.
  rewrite Hdiff in Hd. injection Hd as <- <-.
  assert (∀ (S : Type) (f : W → S), aside f → f w' = f wh) as Htail.
  { intros S f []. change w' with (Ok tt, w').2. rewrite <- Hrest. generalize wh.
    unfold updateGatewayCondition, updateConditions. solve_frames. }
  pose proof (Htail _ _ Hasider) as Htr. pose proof (Htail _ _ Hasidep) as Htp. clear Htail Hrest.
  pose proof (as_diffs _ Hasider policy t w) as Hdr. pose proof (as_diffs _ Hasidep policy t w) as Hdp.
  pose proof (reconcileHealthChecks_frames records policy diff Hprobesr wr) as Hhr.
  pose proof (deleteDNSRecords_frames policy diff Hv Hm wd) as Hrp.
  rewrite Hdiff in Hdr, Hdp. rewrite Hh in Hhr. rewrite Hr in Hrp. simpl in *.
  unfold reconcileDNSRecords in Hr. unfold reconcileHealthChecks in Hh. rewrite Hv, Hm in Hr, Hh. cbn [app forEach] in Hr, Hh.
  apply policy_bind_ok in Hr as ([] & ? & Hr & [= ->]). apply policy_bind_ok in Hh as ([] & ? & [= <-] & Hh).
  set (labelled gw m := commonDNSRecordLabels (objectKey (gwMeta gw)) (objectKey (polMeta policy)) ⊆ Labels m).
  apply (deleteAll_loop _ _ (λ gw r, labelled gw (recMeta r))) in Hr as [_ Hgoner].
  2: { intros gw w1 w2 _. by apply deleteGatewayDNSRecords_spec. }
  apply (deleteAll_loop _ _ (λ gw p, labelled gw (probeMeta p))) in Hh as [_ Hgonep].
  2: { intros gw w1 w2 _. unfold wrapErr. destruct (deleteUnexpectedGatewayProbes [] gw policy w1) as [[[]| |] w3] eqn:Ed;
       intros [= <-]. by eapply deleteGatewayProbes_spec. }
  rewrite Hdr in Hgoner. rewrite Hrp, Hdp in Hgonep. intros gw Hgw. unfold cleaned. rewrite Htr, Htp, Hhr. split; eauto.
Qed.

(** C37: a policy's finalizer goes only after its resources.  If a reconciliation
    leaves a policy that was being deleted without its finalizer, or gone, then
    for every gateway that refers to the policy (by kuadrant-operator's
    account), every DNS record and every health check probe that was stored
    with the labels of the gateway and the policy is gone or being deleted. *)
Theorem policy_finalizer_after_cleanup req policy w w0 target w1 result w' :
  clGet req w = (Ok policy, w0) →
  DeletionTimestamp (polMeta policy) ≠ None →
  try (FetchValidTargetRef (TargetRef (polSpec policy)) (Namespace (polMeta policy))) w0 = (Ok target, w1) →
  DNSPolicyFinalizer ∈ Finalizers (polMeta policy) →
  policy_Reconcile req w = (result, w') →
  (∀ stored', objs w' !! req = Some stored' → DNSPolicyFinalizer ∉ Finalizers (polMeta stored')) →
  ∃ diff w2,
    ComputeGatewayDiffs policy (match target with inl t => Some t | inr _ => None end) w1 = (Ok diff, w2) ∧
    ∀ gw, gw ∈ GatewaysWithInvalidPolicyRef diff →
      let labels := commonDNSRecordLabels (objectKey (gwMeta gw)) (objectKey (polMeta policy)) in
      (∀ k r, records w !! k = Some r → labels ⊆ Labels (recMeta r) → goneOrDeleting (records w') k) ∧
      (∀ k p, probes w !! k = Some p → labels ⊆ Labels (probeMeta p) → goneOrDeleting (probes w') k).
Proof.
  intros Hget Hdel Hfetch Hfin. unfold policy_Reconcile, bind at 1, IgnoreNotFound.
  assert (∀ (S : Type) (f : W → S), aside f → f w1 = f w) as Hstart.
  { intros S f Hf. pose proof (as_policies _ Hf req w) as Hg. rewrite Hget in Hg.
    pose proof (frames_try _ _ (as_fetch _ Hf (TargetRef (polSpec policy)) (Namespace (polMeta policy))) w0) as Ht.
    rewrite Hfetch in Ht. simpl in *. congruence. }
  rewrite Hget. unfold bind at 1. rewrite Hfetch. rewrite bool_decide_eq_true_2 by done.
  apply api_get in Hget as [Hw0 Hpol].
  pose proof (frames_try _ _ (Hfetchf (TargetRef (polSpec policy)) (Namespace (polMeta policy))) w0) as Hw1.
  rewrite Hfetch in Hw1. simpl in Hw1. rewrite Hw0 in Hw1.
  assert (∀ w2, objs w2 = objs (O := DNSPolicy) w →
    (∀ stored', objs w2 !! req = Some stored' → DNSPolicyFinalizer ∉ Finalizers (polMeta stored')) → False) as Hkept.
  { intros w2 -> Hno. by apply (Hno policy). }
  destruct (ContainsFinalizer _ _); [|intros [= _ <-] Hno; by edestruct Hkept].
  set (t := match target with inl t => Some t | inr _ => None end).
  unfold bind at 1. pose proof (deleteResources_frames policy t w1) as Hw2. rewrite Hw1 in Hw2.
  destruct (deleteResources policy t w1) as [[[]|e|] w2] eqn:Ed; simpl in Hw2; [|intros [= _ <-] Hno; by edestruct Hkept..].
  intros Hrun _.
  assert (∀ (S : Type) (f : W → S), aside f → f w' = f w2) as Hend.
  { intros S f Hf. pose proof (as_finalizer _ Hf policy DNSPolicyFinalizer w2) as Hfr. revert Hrun Hfr. unfold bind, ret.
    destruct (RemoveFinalizerFrom policy _ w2) as [[|?|] w3]; by intros [= _ <-]. }
  pose proof Ed as Hdiff. unfold deleteResources in Hdiff. apply policy_bind_ok in Hdiff as (diff & wd & Hdiff & _).
  destruct (Huntargeted _ _ _ _ _ Hdel Hdiff) as [Hv Hm]. exists diff, wd. split; [done|]. intros gw Hgw.
  pose proof (deleteResources_cleans _ _ _ _ _ _ Hdiff Hv Hm Ed gw Hgw) as Hclean. unfold cleaned in Hclean.
  by rewrite !(Hend _ _ Hasider), !(Hend _ _ Hasidep), <- !(Hstart _ _ Hasider), <- !(Hstart _ _ Hasidep).
Qed.

End properties.

(** ** Examples and witnesses *)

Record policyWorld := mkPolicyWorld {
  pwRecords : gmap ObjectKey DNSRecord;
  pwZones : gmap ObjectKey ManagedZone;
  pwProbes : gmap ObjectKey DNSHealthCheckProbe;
  pwPolicies : gmap ObjectKey DNSPolicy;
  pwGateways : gmap ObjectKey Gateway
}.

#[local] Instance pwRecordsClient : Client policyWorld DNSRecord :=
  mem_client pwRecords (λ m w, mkPolicyWorld m (pwZones w) (pwProbes w) (pwPolicies w) (pwGateways w)) recMeta.
#[local] Instance pwZonesClient : Client policyWorld ManagedZone :=
  mem_client pwZones (λ m w, mkPolicyWorld (pwRecords w) m (pwProbes w) (pwPolicies w) (pwGateways w)) zMeta.
#[local] Instance pwProbesClient : Client policyWorld DNSHealthCheckProbe :=
  mem_client pwProbes (λ m w, mkPolicyWorld (pwRecords w) (pwZones w) m (pwPolicies w) (pwGateways w)) probeMeta.
#[local] Instance pwPoliciesClient : Client policyWorld DNSPolicy :=
  mem_client pwPolicies (λ m w, mkPolicyWorld (pwRecords w) (pwZones w) (pwProbes w) m (pwGateways w)) polMeta.
#[local] Instance pwGatewaysClient : Client policyWorld Gateway :=
  mem_client pwGateways (λ m w, mkPolicyWorld (pwRecords w) (pwZones w) (pwProbes w) (pwPolicies w) m) gwMeta.
#[local] Instance pwPoliciesStore : ApiStore policyWorld DNSPolicy := mem_store pwPolicies polMeta (λ p p', p' = p).
#[local] Instance pwPoliciesLaws : ApiLaws policyWorld DNSPolicy.
Proof. by apply mem_laws. Qed.
#[local] Instance pwRecordsStore : ApiStore policyWorld DNSRecord := mem_store pwRecords recMeta (λ r r', r' = r).
#[local] Instance pwRecordsLaws : ApiLaws policyWorld DNSRecord.
Proof. by apply mem_laws. Qed.
#[local] Instance pwProbesStore : ApiStore policyWorld DNSHealthCheckProbe := mem_store pwProbes probeMeta (λ p p', p' = p).
#[local] Instance pwProbesLaws : ApiLaws policyWorld DNSHealthCheckProbe.
Proof. by apply mem_laws. Qed.

#[local] Existing Instance exampleEnv.
#[local] Existing Instance range_in_key_order.
#[local] Existing Instance list_in_key_order.
#[local] Existing Instance sort_by_merging.
#[local] Existing Instance defaultRule.
#[local] Existing Instance listFinalizers.
#[local] Existing Instance listFinalizers_laws.
#[local] Existing Instance listConditions.
#[local] Existing Instance listConditions_laws.
#[local] Instance pwOwner : OwnerOps := {| SetControllerReference := λ _ m, Ok m |}.
#[local] Instance pwDelete : DeleteOps policyWorld DNSRecord := {| DeleteResource := clDelete |}.
(** Nothing is placed yet. *)
#[local] Instance pwPlacer : GatewayPlacer policyWorld :=
  {| Place := λ _ _ _, ret ∅; GetPlacedClusters := λ _, ret ∅; GetClusters := λ _, ret ∅;
     ListenerTotalAttachedRoutes := λ _ _ _, ret 0%Z; GetAddresses := λ _ _, ret [];
     GetClusterGateway := λ _ _, fail notFound |}.
(** The target is the stored gateway, which refers to the policy already; a policy
    being deleted has no target. *)
#[local] Instance pwTargets : TargetRefReconciler policyWorld DNSPolicy :=
  {| FetchValidTargetRef := λ ref ns, let! g := clGet (O := Gateway) (ns, trName ref) in ret (gwMeta g);
     ComputeGatewayDiffs := λ p _, ret (if DeletionTimestamp (polMeta p) is None
       then mkGatewayDiff [] [exampleGateway] [] else mkGatewayDiff [] [] [exampleGateway]);
     ReconcileTargetBackReference := λ _ _ _, ret tt;
     DeleteTargetBackReference := λ _ _ _, ret tt;
     ReconcileGatewayPolicyReferences := λ _ d, ret d;
     AddFinalizerTo := λ p f, clUpdate (mkDNSPolicy (AddFinalizer (polMeta p) f) (polSpec p) (polStatus p));
     RemoveFinalizerFrom := λ p f, clUpdate (mkDNSPolicy (RemoveFinalizer (polMeta p) f) (polSpec p) (polStatus p)) |}.

Abbreviation pwPolicyMap := (objs (W := policyWorld) (O := DNSPolicy)).

Lemma pw_meta (p : DNSPolicy) : metaOf (W := policyWorld) p = polMeta p.
Proof. done. Qed.
Lemma pw_status : StatusUpdates (W := policyWorld) polStatus.
Proof. by apply mem_status. Qed.
Lemma pw_records : clientFrames DNSRecord pwPolicyMap.
Proof. by apply mem_clientFrames. Qed.
Lemma pw_zones : clientFrames ManagedZone pwPolicyMap.
Proof. by apply mem_clientFrames. Qed.
Lemma pw_probes : clientFrames DNSHealthCheckProbe pwPolicyMap.
Proof. by apply mem_clientFrames. Qed.
Lemma pw_gateways : clientFrames Gateway pwPolicyMap.
Proof. by apply mem_clientFrames. Qed.
Lemma pw_delete (r : DNSRecord) : frames pwPolicyMap (DeleteResource r).
Proof. apply (cf_delete _ pw_records). Qed.
Lemma pw_placed g : frames pwPolicyMap (GetPlacedClusters g).
Proof. done. Qed.
Lemma pw_routes g l c : frames pwPolicyMap (ListenerTotalAttachedRoutes g l c).
Proof. done. Qed.
Lemma pw_cluster g c : frames pwPolicyMap (GetClusterGateway g c).
Proof. done. Qed.
Lemma pw_fetch r ns : frames pwPolicyMap (FetchValidTargetRef r ns).
Proof. apply frames_bind; [apply (cf_get _ pw_gateways)|done]. Qed.
Lemma pw_diffs p t : frames pwPolicyMap (ComputeGatewayDiffs p t).
Proof. done. Qed.
Lemma pw_back k t a : frames pwPolicyMap (DeleteTargetBackReference k t a).
Proof. done. Qed.
Lemma pw_setback k t a : frames pwPolicyMap (ReconcileTargetBackReference k t a).
Proof. done. Qed.
Lemma pw_refs p d : frames pwPolicyMap (ReconcileGatewayPolicyReferences p d).
Proof. done. Qed.

Definition policyZone : ManagedZone :=
  mkManagedZone (newObjectMeta "zone" "infra") (mkManagedZoneSpec "" "example.com" "" None ("infra", "credentials"))
    (mkManagedZoneStatus [] 0 "" 0 []).

Definition storedPolicy (deleting : option Z) : DNSPolicy :=
  mkDNSPolicy (mkObjectMeta "policy" "infra" ∅ ∅ [DNSPolicyFinalizer] 1 deleting None) (polSpec examplePolicy)
    (polStatus examplePolicy).

(** A record and a probe of the policy. *)
Definition policyMeta : ObjectMeta :=
  set_Labels (commonDNSRecordLabels ("infra", "prod") ("infra", "policy")) (newObjectMeta "prod-api" "infra").

Definition policyStart (deleting : option Z) : policyWorld :=
  mkPolicyWorld {[("infra", "prod-api") := set_recMeta policyMeta (exampleRecord "api")]}
    {[("infra", "zone") := policyZone]} {[("infra", "10.0.0.9-prod-api") := staleProbe]} {[("infra", "policy") := storedPolicy deleting]}
    {[("infra", "prod") := exampleGateway]}.

Definition reconciledPolicy : res (DNSPolicy * option goerror) * policyWorld :=
  reconcileResources (storedPolicy None) (gwMeta exampleGateway) (policyStart None).

Lemma reconciledPolicy_steps : everyStep (storedPolicy None) (gwMeta exampleGateway) (policyStart None) reconciledPolicy.2.
Proof.
  apply (reconcileResources_steps _ _ _ (DNSPolicy_Default (storedPolicy None)) None); [|done].
  vm_cast_no_check (eq_refl reconciledPolicy).
Qed.

Lemma policy_status_truthful_witness :
  ∃ stored', objs (policy_Reconcile ("infra", "policy") (policyStart None)).2 !! ("infra", "policy") = Some stored' ∧
    policyReady stored'.
Proof.
  destruct (policy_status_truthful pw_meta pw_status pw_records pw_zones pw_probes pw_gateways pw_delete pw_placed
    pw_routes pw_cluster pw_fetch pw_diffs pw_setback pw_refs ("infra", "policy") (storedPolicy None)
    (policyStart None) (policyStart None) (gwMeta exampleGateway) (policyStart None)
    (DNSPolicy_Default (storedPolicy None)) None reconciledPolicy.2
    (policy_Reconcile ("infra", "policy") (policyStart None)).1
    (policy_Reconcile ("infra", "policy") (policyStart None)).2)
    as [(e & w3 & Hu)|((s & Hs & Ht) & _)].
  - vm_cast_no_check (eq_refl (Ok (storedPolicy None), policyStart None)).
  - reflexivity.
  - vm_cast_no_check (eq_refl (Ok (gwMeta exampleGateway), policyStart None)).
  - reflexivity.
  - vm_cast_no_check (eq_refl reconciledPolicy).
  - apply surjective_pairing.
  - apply (f_equal fst) in Hu. vm_compute in Hu. discriminate.
  - exact (ex_intro _ s (conj Hs (proj2 Ht reconciledPolicy_steps))).
Defined.

Lemma pw_untargeted (policy : DNSPolicy) t (w : policyWorld) d w' : DeletionTimestamp (polMeta policy) ≠ None →
  ComputeGatewayDiffs policy t w = (Ok d, w') → GatewaysWithValidPolicyRef d = [] ∧ GatewaysMissingPolicyRef d = [].
Proof. intros Hd [= <- _]. by destruct (DeletionTimestamp (polMeta policy)). Qed.
Lemma pw_aside_records : aside (objs (W := policyWorld) (O := DNSRecord)).
Proof.
  assert (clientFrames (W := policyWorld) DNSPolicy (objs (O := DNSRecord))) as Hp by (by apply mem_clientFrames).
  assert (clientFrames (W := policyWorld) Gateway (objs (O := DNSRecord))) as Hg by (by apply mem_clientFrames).
  split; [intros k; apply (cf_get _ Hp)|exact Hg|intros r ns; apply frames_bind; [apply (cf_get _ Hg)|done]|done..|].
  intros p fin. apply (cf_update _ Hp).
Qed.
Lemma pw_aside_probes : aside (objs (W := policyWorld) (O := DNSHealthCheckProbe)).
Proof.
  assert (clientFrames (W := policyWorld) DNSPolicy (objs (O := DNSHealthCheckProbe))) as Hp by (by apply mem_clientFrames).
  assert (clientFrames (W := policyWorld) Gateway (objs (O := DNSHealthCheckProbe))) as Hg by (by apply mem_clientFrames).
  split; [intros k; apply (cf_get _ Hp)|exact Hg|intros r ns; apply frames_bind; [apply (cf_get _ Hg)|done]|done..|].
  intros p fin. apply (cf_update _ Hp).
Qed.

Lemma pw_recMeta (r : DNSRecord) : metaOf (W := policyWorld) r = recMeta r.
Proof. done. Qed.
Lemma pw_probeMeta (p : DNSHealthCheckProbe) : metaOf (W := policyWorld) p = probeMeta p.
Proof. done. Qed.
Lemma pw_list opts (w w' : policyWorld) e : clList (O := DNSHealthCheckProbe) opts w = (Err e, w') → IsNotFound e = false.
Proof. done. Qed.
Lemma pw_deletes (r : DNSRecord) (w : policyWorld) : DeleteResource r w = clDelete r w.
Proof. done. Qed.
Lemma pw_probes_records : clientFrames (W := policyWorld) DNSHealthCheckProbe (objs (O := DNSRecord)).
Proof. by apply mem_clientFrames. Qed.
Lemma pw_records_probes : clientFrames (W := policyWorld) DNSRecord (objs (O := DNSHealthCheckProbe)).
Proof. by apply mem_clientFrames. Qed.

Definition policyDeleted : policyWorld := (policy_Reconcile ("infra", "policy") (policyStart (Some 5%Z))).2.

Lemma policy_finalizer_after_cleanup_witness :
  goneOrDeleting (objs (O := DNSRecord) policyDeleted) ("infra", "prod-api") ∧
  goneOrDeleting (objs (O := DNSHealthCheckProbe) policyDeleted) ("infra", "10.0.0.9-prod-api").
Proof.
  destruct (policy_finalizer_after_cleanup pw_records pw_zones pw_probes pw_gateways pw_delete pw_placed
    pw_routes pw_cluster pw_fetch pw_diffs pw_back pw_refs pw_recMeta pw_probeMeta pw_list pw_deletes
    pw_untargeted pw_aside_records pw_aside_probes pw_probes_records pw_records_probes ("infra", "policy") (storedPolicy (Some 5%Z))
    (policyStart (Some 5%Z)) (policyStart (Some 5%Z)) (inl (gwMeta exampleGateway)) (policyStart (Some 5%Z))
    (policy_Reconcile ("infra", "policy") (policyStart (Some 5%Z))).1 policyDeleted) as (diff & w2 & Hdiff & Hclean).
  - vm_cast_no_check (eq_refl (Ok (storedPolicy (Some 5%Z)), policyStart (Some 5%Z))).
  - discriminate.
  - vm_cast_no_check (eq_refl (Ok (inl (B := goerror) (gwMeta exampleGateway)), policyStart (Some 5%Z))).
  - apply list_elem_of_here.
  - apply surjective_pairing.
  - intros stored' Hst. vm_compute in Hst. discriminate.
  - injection Hdiff as <- _. destruct (Hclean exampleGateway) as [Hr Hp]; [apply list_elem_of_here|]. split.
    + apply (Hr _ (set_recMeta policyMeta (exampleRecord "api"))); [vm_compute; reflexivity|]. apply map_subseteq_spec. intros k v Hk. exact Hk.
    + apply (Hp _ staleProbe); [vm_compute; reflexivity|]. apply map_subseteq_spec. intros k v Hk. exact Hk.
Defined.
