(* ===== verification/GatewayParams.v ===== *)
(** * Parameters of a gateway class, and the GatewayClass controller

    pkg/controllers/gateway/params.go and gatewayclass_controller.go: a
    gateway class may refer to a ConfigMap with parameters; a class whose
    parameters cannot be used is reported as not accepted. *)

From S2P Require Import Prelude GoStrings Slice Kube MemApi.
Local Open Scope go_scope.

(** ** Data *)

Record Params := mkParams { DownstreamClass : string }.

Definition GetDownstreamClass (p : Params) : string := DownstreamClass p.

Definition defaultParams : Params := mkParams "istio".

(** The type assertion [err.( *InvalidParamsError)]: the error itself, not one
    it wraps. *)
Definition IsInvalidParamsError (err : goerror) : bool :=
  match err with
  | ErrInvalidParams _ => true
  | _ => false
  end.

(** gatewayv1beta1.ParametersReference *)
Record ParametersReference := mkParametersRef {
  prGroup : string;
  prKind : string;
  prName : string;
  prNamespace : option string
}.

(** gatewayv1beta1.GatewayClass; its controller name only matters to the
    filter of the controller's events. *)
Record GatewayClass := mkGatewayClass {
  gcMeta : ObjectMeta;
  gcControllerName : string;
  ParametersRef : option ParametersReference;
  gcConditions : list Condition
}.

Definition set_gcConditions (cs : list Condition) (c : GatewayClass) : GatewayClass :=
  mkGatewayClass (gcMeta c) (gcControllerName c) (ParametersRef c) cs.

Record ConfigMap := mkConfigMap { cmMeta : ObjectMeta; cmData : StringMap }.

(** [json.Unmarshal] into a [Params]. *)
Class ParamsJson := { json_UnmarshalParams : string → res Params }.

(** [schema.GroupKind.String] *)
Definition groupKindString (gk : string * string) : string :=
  if bool_decide (gk.1 = "") then gk.2 else gk.2 +:+ "." +:+ gk.1.

(** ** params.go *)

Section params.

Context {W : Type} `{Client W GatewayClass} `{Client W ConfigMap} `{ParamsJson}.

Definition ParamsResolver : Type := ParametersReference → M W Params.

Definition fromNamespacedObject {T} `{Client W T} (getParams : T → res Params) : ParamsResolver := λ paramsRef,
  match prNamespace paramsRef with
  | None | Some "" => fail (ErrInvalidParams "Namespace must be defined")
  | Some namespace =>
      let! found := try (clGet (O := T) (namespace, prName paramsRef)) in
      match found with
      | inr err => fail (ErrInvalidParams ("failed to get object " +:+ namespace +:+ "/" +:+ prName paramsRef
                                           +:+ ": " +:+ error_text err))
      | inl obj => lift (getParams obj)
      end
  end.

Definition fromConfigMap (configMap : ConfigMap) : res Params :=
  match cmData configMap !! "params" with
  | None => Err (ErrInvalidParams ("Parameters must be defined in " +:+ String "034"%char ("params" +:+
                                   String "034"%char " field of ConfigMap")))
  | Some paramsRaw =>
      match json_UnmarshalParams paramsRaw with
      | Err err => Err (ErrInvalidParams ("Failed to unmarshal params: " +:+ error_text err))
      | r => r
      end
  end.

Definition paramsResolvers : gmap (string * string) ParamsResolver :=
  {[("", "ConfigMap") := fromNamespacedObject fromConfigMap]}.

Definition getParams (gatewayClassName : string) : M W Params :=
  let! gatewayClass := clGet (O := GatewayClass) ("", gatewayClassName) in
  match ParametersRef gatewayClass with
  | None => ret defaultParams
  | Some paramsRef =>
      let groupKind := (prGroup paramsRef, prKind paramsRef) in
      match paramsResolvers !! groupKind with
      | None => fail (ErrInvalidParams ("unable to retrieve parameters for GroupKind " +:+ groupKindString groupKind))
      | Some resolveParams => resolveParams paramsRef
      end
  end.

End params.

(** ** gatewayclass_controller.go *)

Definition ControllerName : string := "kuadrant.io/mgc-gw-controller".

Definition getSupportedClasses : list string := ["kuadrant-multi-cluster-gateway-instance-per-cluster"].

(** The condition types and reasons of the Gateway API. *)
Definition GatewayConditionAccepted : string := "Accepted".
Definition GatewayClassConditionStatusAccepted : string := "Accepted".
Definition GatewayClassReasonInvalidParameters : string := "InvalidParameters".

(** [strings.Join(classes, ",")] *)
Fixpoint joinComma (l : list string) : string :=
  match l with
  | [] => ""
  | [s] => s
  | s :: rest => s +:+ "," +:+ joinComma rest
  end.

Section gatewayclass.

Context {W : Type} `{Client W GatewayClass} `{Client W ConfigMap} `{ParamsJson} `{ConditionOps}.

Definition gatewayClassIsAccepted (gatewayClass : GatewayClass) : bool :=
  match FindStatusCondition (gcConditions gatewayClass) GatewayConditionAccepted with
  | Some acceptedCondition => bool_decide (cStatus acceptedCondition = ConditionTrue)
  | None => false
  end.

(** The condition a class gets, from the outcome of reading its parameters
    (lines 87-131). *)
Definition classCondition (class : GatewayClass) (params : Params + goerror) : Condition :=
  let supportedClasses := getSupportedClasses in
  let generation := Generation (gcMeta class) in
  let invalid message :=
    mkCondition GatewayClassConditionStatusAccepted ConditionFalse GatewayClassReasonInvalidParameters message generation in
  let accepted :=
    mkCondition GatewayClassConditionStatusAccepted ConditionTrue GatewayClassConditionStatusAccepted
      ("Handled by " +:+ ControllerName) generation in
  if negb (slice.ContainsString supportedClasses (Name (gcMeta class))) then
    invalid ("Invalid Parameters - Unsupported class name " +:+ Name (gcMeta class) +:+ ". Must be one of ["
             +:+ joinComma supportedClasses +:+ "]")
  else
    match params with
    | inr err => if IsInvalidParamsError err then invalid ("Invalid Parameters - " +:+ error_text err) else accepted
    | inl _ => accepted
    end.

Definition class_Reconcile (req : ObjectKey) : M W ReconcileResult :=
  let! found := IgnoreNotFound (clGet (O := GatewayClass) req) in
  match found with
  | None => ret noRequeue
  | Some previous =>
      if gatewayClassIsAccepted previous then ret noRequeue
      else
        let! params := try (getParams (Name (gcMeta previous))) in
        do! clStatusUpdate (set_gcConditions [classCondition previous params] previous) in
        ret noRequeue
  end.

(** The controller's event filter. *)
Definition classEventFilter (gatewayClass : GatewayClass) : bool :=
  bool_decide (gcControllerName gatewayClass = ControllerName).

End gatewayclass.
