(* ===== verification/GatewayController.v ===== *)
(** * The Gateway controller

    pkg/controllers/gateway/gateway_controller.go and cluster_eventhandler.go:
    a gateway of a supported class is translated for the clusters, placed on
    them together with its TLS secrets, and its status says where it is and
    under which addresses. *)

From S2P Require Import Prelude GoStrings Slice Kube ApiTypes GatewayApi Target Placer Metadata GracePeriod HealthChecks Placement GatewayParams MemApi.
Local Open Scope go_scope.

(** ** Constants *)

Definition GatewayClustersAnnotation : string := "kuadrant.io/gateway-clusters".
Definition GatewayFinalizer : string := "kuadrant.io/gateway".
Definition ManagedLabel : string := "kuadrant.io/managed".
Definition MultiClusterIPAddressType : string := "kuadrant.io/MultiClusterIPAddress".
Definition MultiClusterHostnameAddressType : string := "kuadrant.io/MultiClusterHostnameAddress".

(** Condition types and reasons of the Gateway API. *)
Definition GatewayConditionProgrammed : string := "Programmed".
Definition GatewayReasonProgrammed : string := "Programmed".
Definition GatewayReasonInvalid : string := "Invalid".
Definition GatewayReasonPending : string := "Pending".
Definition GatewayReasonAccepted : string := "Accepted".

Definition set_gwMeta (m : ObjectMeta) (g : Gateway) : Gateway :=
  mkGateway m (GatewayClassName g) (Listeners g) (gwStatus g).
Definition set_gwStatus (st : GatewayStatus) (g : Gateway) : Gateway :=
  mkGateway (gwMeta g) (GatewayClassName g) (Listeners g) st.
Definition set_GatewayClassName (c : string) (g : Gateway) : Gateway :=
  mkGateway (gwMeta g) c (Listeners g) (gwStatus g).
(** ** Go library code the controller uses *)

(** [int32(x)] *)
Definition wrap_int32 (z : Z) : Z := ((z + 2 ^ 31) mod 2 ^ 32 - 2 ^ 31)%Z.

(** [sets.List]: the elements in increasing order. *)
Definition sets_List (s : gset string) : list string := merge_sort String.le (elements s).

(** [fmt.Sprintf("%v", l)] of a list of strings *)
Fixpoint joinSpace (l : list string) : string :=
  match l with
  | [] => ""
  | [s] => s
  | s :: rest => s +:+ " " +:+ joinSpace rest
  end.
Definition printStrings (l : list string) : string := "[" +:+ joinSpace l +:+ "]".

(** [json.Marshal] and [json.Unmarshal] of a list of strings (encoding/json). *)
Class StringsJson := {
  json_MarshalStrings : list string → res string;
  json_UnmarshalStrings : string → res (list string)
}.

(** ** Conditions *)

Definition buildProgrammedCondition (generation : Z) (placed : list string) (programmedStatus : ConditionStatus)
  (err : option goerror) : Condition :=
  let '(message, reason) :=
    match programmedStatus with
    | ConditionTrue => ("gateway placed on clusters " +:+ printStrings placed, GatewayReasonProgrammed)
    | ConditionFalse => ("gateway failed to be placed on all clusters " +:+ printStrings placed, GatewayReasonInvalid)
    | ConditionUnknown => ("current state of the gateway is unknown", GatewayReasonPending)
    | ConditionNoStatus => ("waiting for gateway to placed on clusters %v", GatewayReasonProgrammed)
    end in
  let message := match err with Some err => message +:+ " error: " +:+ error_text err | None => message end in
  mkCondition GatewayConditionProgrammed programmedStatus reason message generation.

Definition buildAcceptedCondition (generation : Z) (acceptedStatus : ConditionStatus) : Condition :=
  mkCondition GatewayConditionAccepted acceptedStatus GatewayReasonAccepted ("Handled by " +:+ ControllerName) generation.

(** The condition of a class with invalid parameters (lines 136-142). *)
Definition invalidParamsCondition (generation : Z) (err : goerror) : Condition :=
  mkCondition GatewayConditionProgrammed ConditionFalse GatewayReasonPending
    ("Invalid parameters in gateway class: " +:+ error_text err) generation.

(** ** The downstream gateway *)

(** Lines 273-287: a fresh object with the same name, spec, labels and
    annotations. *)
Definition downstreamGateway (upstreamGateway : Gateway) : Gateway :=
  let m := gwMeta upstreamGateway in
  mkGateway (mkObjectMeta (Name m) ("kuadrant-" +:+ Namespace m) (<[ManagedLabel := "true"]> (Labels m)) (Annotations m)
               [] 0 None None)
    (GatewayClassName upstreamGateway) (Listeners upstreamGateway) emptyGatewayStatus.

Definition reconcileParams (gateway : Gateway) (params : Params) : Gateway :=
  set_GatewayClassName (GetDownstreamClass params) gateway.

(** A TLS secret as it is synced (lines 356-361). *)
Definition downstreamSecret (tlsSecret : Secret) (downstreamNS : string) : Secret :=
  mkSecret (mkObjectMeta (Name (secMeta tlsSecret)) downstreamNS (Labels (secMeta tlsSecret))
              (Annotations (secMeta tlsSecret)) [] 0 None None)
    (secType tlsSecret) (secData tlsSecret).

Section controller.

Context {W : Type} `{Client W Gateway} `{Client W GatewayClass} `{Client W ConfigMap} `{Client W Secret}.
Context `{GatewayPlacer W} `{ParamsJson} `{StringsJson} `{ConditionOps} `{FinalizerOps} `{SetRange}.

(** The secrets found so far and the last error ([errors.Join] of one error
    is that error). *)
Definition tlsSecretStep (upstreamGateway downstream : Gateway) (listener : Listener)
  (acc : list Secret * option goerror) (secretRef : SecretObjectReference) : M W (list Secret * option goerror) :=
  let ns := default (Namespace (gwMeta upstreamGateway)) (srNamespace secretRef) in
  let! found := try (clGet (O := Secret) (ns, srName secretRef)) in
  match found with
  | inr err => ret (acc.1, Some (ErrWrap ("failed to find tls secret for listener " +:+ lName listener +:+ " ") err))
  | inl tlsSecret => ret (acc.1 ++ [downstreamSecret tlsSecret (Namespace (gwMeta downstream))], acc.2)
  end.

Definition getTLSSecrets (upstreamGateway downstream : Gateway) : M W (list Secret * option goerror) :=
  foldM (λ acc listener,
    match TLS listener with
    | None => ret acc
    | Some tls => foldM (tlsSecretStep upstreamGateway downstream listener) acc (CertificateRefs tls)
    end) ([], None) (Listeners upstreamGateway).

(** (requeue, programmed status, clusters, error) *)
Definition Downstream : Type := bool * ConditionStatus * list string * option goerror.

(** The part after the TLS secrets (lines 314-332). *)
Definition placeDownstream (upstreamGateway downstream : Gateway) (tlsSecrets : list Secret) : M W Downstream :=
  let! r := try (Place upstreamGateway downstream tlsSecrets) in
  match r with
  | inr err => ret (true, ConditionFalse, [], Some (ErrWrap "failed to place gateway : " err))
  | inl targets =>
      let! r := try (GetPlacedClusters upstreamGateway) in
      match r with
      | inr err => ret (false, ConditionUnknown, UnsortedList targets,
                        Some (ErrText ("failed to get placed clusters : " +:+ error_text err)))
      | inl placed =>
          let clusters := sets_List placed in
          if bool_decide (placed = targets) && bool_decide (0 < size placed) then
            ret (false, ConditionTrue, clusters, None)
          else ret (false, ConditionUnknown, clusters, None)
      end
  end.

Definition reconcileDownstreamFromUpstreamGateway (upstreamGateway : Gateway) (params : option Params) : M W Downstream :=
  let downstream := downstreamGateway upstreamGateway in
  if isDeleting (gwMeta upstreamGateway) then
    let! r := try (Place upstreamGateway downstream []) in
    match r with
    | inr err => ret (false, ConditionFalse, [], Some err)
    | inl targets => ret (false, ConditionTrue, UnsortedList targets, None)
    end
  else if bool_decide (Listeners upstreamGateway = []) then
    ret (false, ConditionFalse, [], Some (ErrText "no managed listeners found"))
  else
    let! (tlsSecrets, err) := getTLSSecrets upstreamGateway downstream in
    match err with
    | Some err => ret (true, ConditionFalse, [], Some (ErrText ("failed to get tls secrets : " +:+ error_text err)))
    | None =>
        let downstream := match params with Some params => reconcileParams downstream params | None => downstream end in
        placeDownstream upstreamGateway downstream tlsSecrets
    end.

(** ** Status *)

(** The addresses of one cluster (lines 210-224); a nil type panics. *)
Fixpoint clusterAddresses (cluster : string) (addresses : list GatewayAddress) : res (list GatewayAddress) :=
  match addresses with
  | [] => Ok []
  | address :: rest =>
      match aType address with
      | None => Panic
      | Some t =>
          let? mapped := clusterAddresses cluster rest in
          let value := cluster +:+ "/" +:+ aValue address in
          if bool_decide (t = IPAddressType) then Ok (mkAddress (Some MultiClusterIPAddressType) value :: mapped)
          else if bool_decide (t = HostnameAddressType) then
            Ok (mkAddress (Some MultiClusterHostnameAddressType) value :: mapped)
          else Ok mapped
      end
  end.

(** The loop over the clusters; it stops at the first that cannot be read (its
    error is lost: the variable is shadowed). *)
Fixpoint allAddresses (gateway : Gateway) (clusters : list string) (acc : list GatewayAddress)
  : M W (list GatewayAddress) :=
  match clusters with
  | [] => ret acc
  | cluster :: rest =>
      let! r := try (GetAddresses gateway cluster) in
      match r with
      | inr _ => ret acc
      | inl addresses =>
          let! mapped := lift (clusterAddresses cluster addresses) in
          allAddresses gateway rest (acc ++ mapped)
      end
  end.

Definition listenerStatusStep (gateway : Gateway) (listener : Listener) (acc : list ListenerStatus) (cluster : string)
  : M W (list ListenerStatus) :=
  let! r := try (ListenerTotalAttachedRoutes gateway (lName listener) cluster) in
  match r with
  | inr _ => ret acc
  | inl attachedRoutes =>
      ret (acc ++ [mkListenerStatus (cluster +:+ "." +:+ lName listener) (wrap_int32 attachedRoutes)])
  end.

Definition allListenerStatuses (gateway : Gateway) (clusters : list string) : M W (list ListenerStatus) :=
  foldM (λ acc listener, foldM (listenerStatusStep gateway listener) acc clusters) [] (Listeners gateway).

(** [reflect.DeepEqual] of the new status with the one that was read: the new
    address and listener lists are never nil, while an empty list that was
    read is (both are omitted when empty), so with an empty list the two
    differ. *)
Definition sameStatus (new previous : GatewayStatus) : bool :=
  bool_decide (new = previous) && negb (bool_decide (gwAddresses new = []))
  && negb (bool_decide (gwListenerStatuses new = [])).

(** Lines 201-266: the status of a gateway whose metadata is up to date. *)
Definition reportStatus (previous upstreamGateway : Gateway) (requeue : bool) (programmedStatus : ConditionStatus)
  (clusters : list string) (reconcileErr : option goerror) : M W ReconcileResult :=
  let! addresses := allAddresses upstreamGateway clusters [] in
  let! listeners := allListenerStatuses upstreamGateway clusters in
  let generation := Generation (gwMeta upstreamGateway) in
  let conditions := SetStatusCondition (gwConditions (gwStatus upstreamGateway))
                      (buildAcceptedCondition generation ConditionTrue) in
  let conditions := SetStatusCondition conditions (buildProgrammedCondition generation clusters programmedStatus None) in
  let status := mkGatewayStatus addresses conditions listeners in
  if negb (isDeleting (gwMeta upstreamGateway)) && negb (sameStatus status (gwStatus previous)) then
    do! clStatusUpdate (set_gwStatus status upstreamGateway) in ret noRequeue
  else
    match reconcileErr with
    | Some err => fail err
    | None => ret (if requeue then mkResult true (10 * nanosecond_per_second) else noRequeue)
    end.

(** Lines 173-199: what follows the downstream reconciliation. *)
Definition afterDownstream (previous : Gateway) (outcome : Downstream) : M W ReconcileResult :=
  let '(requeue, programmedStatus, clusters, reconcileErr) := outcome in
  let retry :=
    match reconcileErr with
    | Some err => errors_Is err "grace period has not yet expired" || requeue
    | None => false
    end in
  if retry then
    let condition := buildProgrammedCondition (Generation (gwMeta previous)) clusters ConditionUnknown reconcileErr in
    let upstreamGateway := set_gwConditions (SetStatusCondition (gwConditions (gwStatus previous)) condition) previous in
    if negb (isDeleting (gwMeta previous)) && negb (bool_decide (gwStatus upstreamGateway = gwStatus previous)) then
      do! clStatusUpdate upstreamGateway in ret noRequeue
    else ret (mkResult true (30 * nanosecond_per_second))
  else
    let! serialized := lift (json_MarshalStrings clusters) in
    let upstreamGateway :=
      set_gwMeta (metadata.AddAnnotation GatewayClustersAnnotation serialized (gwMeta previous)) previous in
    if bool_decide (reconcileErr = None) && negb (bool_decide (upstreamGateway = previous)) then
      do! clUpdate upstreamGateway in ret noRequeue
    else reportStatus previous upstreamGateway requeue programmedStatus clusters reconcileErr.

(** Lines 157-169: an accepted gateway is placed; one that is not is accepted
    first. *)
Definition reconcileAccepted (previous : Gateway) (params : Params) : M W ReconcileResult :=
  let conditions := gwConditions (gwStatus previous) in
  if negb (IsStatusConditionTrue conditions GatewayConditionAccepted) then
    let generation := Generation (gwMeta previous) in
    let conditions := SetStatusCondition conditions (buildAcceptedCondition generation ConditionTrue) in
    let conditions := SetStatusCondition conditions (buildProgrammedCondition generation [] ConditionUnknown None) in
    do! clStatusUpdate (set_gwConditions conditions previous) in ret noRequeue
  else
    let! outcome := reconcileDownstreamFromUpstreamGateway previous (Some params) in
    afterDownstream previous outcome.

(** Lines 133-156: the parameters of the class. *)
Definition reconcileClassed (previous : Gateway) : M W ReconcileResult :=
  let! params := try (getParams (GatewayClassName previous)) in
  match params with
  | inr err =>
      if IsInvalidParamsError err then
        let condition := invalidParamsCondition (Generation (gwMeta previous)) err in
        let upstreamGateway :=
          set_gwConditions (SetStatusCondition (gwConditions (gwStatus previous)) condition) previous in
        if negb (bool_decide (upstreamGateway = previous)) then
          do! clStatusUpdate upstreamGateway in ret noRequeue
        else ret noRequeue
      else fail (ErrText ("gateway class err " +:+ error_text err +:+ " "))
  | inl params => reconcileAccepted previous params
  end.

(** [fmt.Errorf("...%s", err)] around a call: the text only. *)
Definition textErr {A} (msg : string) (m : M W A) : M W A := λ w,
  match m w with
  | (Err e, w') => (Err (ErrText (msg +:+ error_text e)), w')
  | r => r
  end.

(** Lines 112-123: the gateway is being deleted. *)
Definition deleteGateway (upstreamGateway : Gateway) : M W ReconcileResult :=
  let! outcome := reconcileDownstreamFromUpstreamGateway upstreamGateway None in
  let '(_, _, _, err) := outcome in
  let failed := match err with Some err => if IsNotFound err then None else Some err | None => None end in
  match failed with
  | Some err => fail (ErrText ("failed to reconcile downstream gateway after upstream gateway deleted: "
                               +:+ error_text err +:+ " "))
  | None =>
      do! textErr "failed to remove finalizer from gateway : "
            (clUpdate (set_gwMeta (RemoveFinalizer (gwMeta upstreamGateway) GatewayFinalizer) upstreamGateway)) in
      ret noRequeue
  end.

Definition gateway_Reconcile (req : ObjectKey) : M W ReconcileResult :=
  let! found := IgnoreNotFound (clGet (O := Gateway) req) in
  match found with
  | None => ret noRequeue
  | Some previous =>
      if isDeleting (gwMeta previous) then deleteGateway previous
      else if negb (ContainsFinalizer (gwMeta previous) GatewayFinalizer) then
        do! textErr "failed to add finalizer to gateway : "
              (clUpdate (set_gwMeta (AddFinalizer (gwMeta previous) GatewayFinalizer) previous)) in
        ret noRequeue
      else reconcileClassed previous
  end.

End controller.

(** ** Events *)

(** pkg/_internal/clusterSecret/util.go *)
Definition CLUSTER_SECRET_LABEL : string := "argocd.argoproj.io/secret-type".
Definition CLUSTER_SECRET_LABEL_VALUE : string := "cluster".

Definition IsClusterSecret (object : ObjectMeta) : bool :=
  match Labels object !! CLUSTER_SECRET_LABEL with
  | None => false
  | Some secretType => bool_decide (secretType = CLUSTER_SECRET_LABEL_VALUE)
  end.

(** Whether one of the references is to the secret; the namespace is
    dereferenced once the name matches. *)
Fixpoint refersTo (secret : ObjectMeta) (refs : list SecretObjectReference) : res bool :=
  match refs with
  | [] => Ok false
  | ts :: rest =>
      if bool_decide (srName ts = Name secret) then
        match srNamespace ts with
        | None => Panic
        | Some ns => if bool_decide (ns = Namespace secret) then Ok true else refersTo secret rest
        end
      else refersTo secret rest
  end.

Fixpoint listenersReferTo (secret : ObjectMeta) (listeners : list Listener) : res bool :=
  match listeners with
  | [] => Ok false
  | l :: rest =>
      match TLS l with
      | Some tls =>
          if bool_decide (lProtocol l = "HTTPS") then
            let? found := refersTo secret (CertificateRefs tls) in
            if found then Ok true else listenersReferTo secret rest
          else listenersReferTo secret rest
      | None => listenersReferTo secret rest
      end
  end.

(** [slice.Filter] with a predicate that may panic. *)
Fixpoint filterGateways (secret : ObjectMeta) (gateways : list Gateway) : res (list Gateway) :=
  match gateways with
  | [] => Ok []
  | gateway :: rest =>
      let? keep := listenersReferTo secret (Listeners gateway) in
      let? kept := filterGateways secret rest in
      Ok (if keep then gateway :: kept else kept)
  end.

Section events.

Context {W : Type} `{Client W Gateway} `{KeyFunc}.

Definition getGatewaysFor (secret : ObjectMeta) : M W (list Gateway) :=
  let! gateways := clList (O := Gateway) (mkListOptions (Namespace secret) ∅) in
  lift (filterGateways secret gateways).

(** The requests added to the queue. *)
Definition enqueueForObject (obj : ObjectMeta) : M W (list ObjectKey) :=
  if negb (IsClusterSecret obj) then ret []
  else
    let! r := try (getGatewaysFor obj) in
    match r with
    | inr _ => ret []
    | inl gateways => ret (objectKey ∘ gwMeta <$> gateways)
    end.

(** A manifest work changed (SetupWithManager, lines 440-459). *)
Definition manifestWorkRequests (work : ObjectMeta) : list ObjectKey :=
  if bool_decide (Annotations work = ∅) then []
  else
    match SplitMetaNamespaceKey (default "" (Annotations work !! "kuadrant.io/parent")) with
    | Ok (ns, name) => [(ns, name)]
    | _ => []
    end.

(** A placement decision changed (lines 460-476). *)
Definition placementDecisionRequests (decision : ObjectMeta) : M W (list ObjectKey) :=
  let! r := try (clList (O := Gateway) (mkListOptions (Namespace decision) ∅)) in
  match r with
  | inr _ => ret []
  | inl gateways => ret (objectKey ∘ gwMeta <$> gateways)
  end.

End events.

(** The event filter (lines 480-488). *)
Definition shouldReconcile (gateway : Gateway) : bool :=
  slice.ContainsString getSupportedClasses (GatewayClassName gateway).

(** ** Properties *)

(** What a cluster reports about a gateway comes back out of the status. *)
Section addresses.

Context {W : Type} `{GatewayPlacer W} (gateway : Gateway).

(** An address of a kind the controller publishes. *)
Definition publishable (a : GatewayAddress) : Prop := aType a = Some IPAddressType ∨ aType a = Some HostnameAddressType.

Lemma clusterAddresses_spec cluster l :
  Forall (λ a, is_Some (aType a)) l →
  ∃ mapped, clusterAddresses cluster l = Ok mapped ∧
    ∀ v, (∃ a, a ∈ mapped ∧ aValue a = v) ↔ ∃ x, x ∈ l ∧ publishable x ∧ v = cluster +:+ "/" +:+ aValue x.
Proof.
  induction 1 as [|a l [t Ht] _ (mapped & Hm & IH)]; cbn [clusterAddresses].
  { exists []. split; [done|]. intros v. split; intros (x & Hx & _); by apply not_elem_of_nil in Hx. }
  rewrite Ht, Hm. cbn [rbind].
  assert (∀ ty v, (∃ b, b ∈ mkAddress ty (cluster +:+ "/" +:+ aValue a) :: mapped ∧ aValue b = v) ↔
    v = cluster +:+ "/" +:+ aValue a ∨ ∃ x, x ∈ l ∧ publishable x ∧ v = cluster +:+ "/" +:+ aValue x) as Hcons.
  { intros ty v. rewrite <- IH. setoid_rewrite elem_of_cons. split.
    - intros (b & [->|Hb] & <-); [by left|by eauto].
    - intros [->|(b & Hb & <-)]; eauto. }
  assert (∀ v, (∃ x, x ∈ a :: l ∧ publishable x ∧ v = cluster +:+ "/" +:+ aValue x) ↔
    (publishable a ∧ v = cluster +:+ "/" +:+ aValue a) ∨ ∃ x, x ∈ l ∧ publishable x ∧ v = cluster +:+ "/" +:+ aValue x)
    as Hsplit.
  { intros v. setoid_rewrite elem_of_cons. split; [intros (x & [->|Hx] & ?); eauto|].
    intros [[??]|(x & ? & ?)]; eauto. }
  assert (publishable a ↔ t = IPAddressType ∨ t = HostnameAddressType) as Hpub.
  { unfold publishable. rewrite Ht. split; (intros [Heq|Heq]; [left|right]; congruence). }
  repeat case_bool_decide; eexists; (split; [done|]); intros v; rewrite ?Hcons, ?IH, Hsplit; naive_solver.
Qed.

(** What the clusters answer when they are asked for their addresses; [None]: an
    error. *)
Context (reported : string → option (list GatewayAddress)).
Definition answers (cluster : string) : Prop := ∀ w,
  match reported cluster with
  | Some l => (GetAddresses gateway cluster w).1 = Ok l
  | None => ∃ e, (GetAddresses gateway cluster w).1 = Err e
  end.

(** The clusters before the first that cannot be read. *)
Fixpoint readUpTo (clusters : list string) : list string :=
  match clusters with
  | [] => []
  | c :: rest => if reported c is Some _ then c :: readUpTo rest else []
  end.

(** [x] was reported by cluster [c], which was read, and is published. *)
Definition publishedFrom (clusters : list string) (c : string) (x : GatewayAddress) : Prop :=
  c ∈ readUpTo clusters ∧ (∃ l, reported c = Some l ∧ x ∈ l) ∧ publishable x.

Lemma allAddresses_spec clusters acc w :
  Forall answers clusters →
  (∀ c l, c ∈ clusters → reported c = Some l → Forall (λ a, is_Some (aType a)) l) →
  ∃ addresses w', allAddresses gateway clusters acc w = (Ok addresses, w') ∧
    ∀ v, (∃ a, a ∈ addresses ∧ aValue a = v) ↔ (∃ a, a ∈ acc ∧ aValue a = v) ∨
      ∃ c x, publishedFrom clusters c x ∧ v = c +:+ "/" +:+ aValue x.
Proof.
  intros Hans. revert acc w. induction Hans as [|c clusters Hc _ IH]; intros acc w Hty; cbn [allAddresses].
  { exists acc, w. split; [done|]. intros v. split; [by left|]. intros [?|(c & ? & [Hc _] & _)]; [done|].
    by apply not_elem_of_nil in Hc. }
  unfold bind, try, lift. specialize (Hc w). unfold publishedFrom. cbn [readUpTo].
  destruct (reported c) as [l|] eqn:Hl.
  2: { destruct Hc as [e He]. destruct (GetAddresses gateway c w) as [r w1]. simpl in He. subst r.
    exists acc, w1. split; [done|]. intros v. split; [by left|]. intros [?|(? & ? & [Hin _] & _)]; [done|].
    by apply not_elem_of_nil in Hin. }
  destruct (GetAddresses gateway c w) as [r w1]. simpl in Hc. subst r.
  destruct (clusterAddresses_spec c l) as (mapped & -> & Hm); [by eapply Hty; [left|]|].
  destruct (IH (acc ++ mapped) w1) as (addresses & w' & -> & Ha); [intros c' l' Hin; apply Hty; by right|].
  exists addresses, w'. split; [done|]. intros v. rewrite Ha. setoid_rewrite elem_of_app. setoid_rewrite elem_of_cons.
  split.
  - intros [(a & [Hacc|Hmap] & Hv)|(c' & x & (Hc' & Hx & Hp) & Hv)].
    + left. by eauto.
    + right. destruct (proj1 (Hm v)) as (x & ? & ? & ?); [by eauto|]. exists c, x. naive_solver.
    + right. exists c', x. by auto.
  - intros [(a & Hacc & Hv)|(c' & x & ([->|Hc'] & Hx & Hp) & Hv)].
    + left. by eauto.
    + left. destruct (proj2 (Hm v)) as (a & ? & ?); [naive_solver|]. by eauto.
    + right. exists c', x. by unfold publishedFrom.
Qed.

(** Every address of the status is one the health checks parse, and they read the
    reported address out of it. *)
Lemma allAddresses_targets clusters w :
  Forall answers clusters →
  (∀ c l, c ∈ clusters → reported c = Some l → occurs "/"%char c = false ∧
    Forall (λ a, is_Some (aType a) ∧ occurs "/"%char (aValue a) = false) l) →
  ∃ addresses w', allAddresses gateway clusters [] w = (Ok addresses, w') ∧
    Forall (λ a, is_Some (addressTarget a)) addresses ∧
    ∀ target, (∃ a, a ∈ addresses ∧ addressTarget a = Some target) ↔
      ∃ c x, publishedFrom clusters c x ∧ aValue x = target.
Proof.
  intros Hans Hwf. destruct (allAddresses_spec clusters [] w) as (addresses & w' & Hrun & Ha); [done|..].
  { intros c l Hc Hl. destruct (Hwf c l Hc Hl) as [_ Hf]. eapply Forall_impl; [exact Hf|]. by intros a [? _]. }
  assert (∀ c, c ∈ readUpTo clusters → c ∈ clusters) as Hsub.
  { clear. induction clusters as [|c cs IH]; cbn [readUpTo]; [done|]. intros c'. case_match; [|by intros ?%not_elem_of_nil].
    rewrite !elem_of_cons. naive_solver. }
  assert (∀ c x, publishedFrom clusters c x → strings.Split (c +:+ "/" +:+ aValue x) "/"%char = [c; aValue x]) as Hsplit.
  { intros c x (Hc%Hsub & (l & Hl & Hx) & _). destruct (Hwf c l Hc Hl) as [Hn Hf]. rewrite Forall_forall in Hf.
    apply Hf in Hx as [_ Hx]. change (c +:+ "/" +:+ aValue x) with (c +:+ String "/"%char (aValue x)).
    by rewrite Split_app, Split_no. }
  assert (∀ a, a ∈ addresses → ∃ c x, publishedFrom clusters c x ∧ aValue a = c +:+ "/" +:+ aValue x) as Hfrom.
  { intros a Hin. destruct (proj1 (Ha (aValue a))) as [(b & Hb & _)|Hx]; [by eauto|by apply not_elem_of_nil in Hb|done]. }
  exists addresses, w'. split_and!; [done|..].
  - apply Forall_forall. intros a (c & x & Hp & Hv)%Hfrom. unfold addressTarget. rewrite Hv, Hsplit by done. by eauto.
  - intros target. split.
    + intros (a & (c & x & Hp & Hv)%Hfrom & Ht). exists c, x. split; [done|].
      unfold addressTarget in Ht. rewrite Hv, Hsplit in Ht by done. by simplify_eq.
    + intros (c & x & Hp & <-). destruct (proj2 (Ha (c +:+ "/" +:+ aValue x))) as (a & Hin & Hv).
      { right. by exists c, x. }
      exists a. split; [done|]. unfold addressTarget. by rewrite Hv, Hsplit.
Qed.

(** C39: the addresses clusters report are the addresses that are probed.  The
    loop that builds the addresses of a gateway's status returns (whatever
    clusters fail to answer), and for any policy with a health check and any
    gateway with that status whose listeners have host names, the expected
    probes exist and check exactly the IP and host name addresses reported by
    the clusters before the first that could not be read, each for exactly the
    host names of the listeners that are not wildcards.  Cluster names and
    addresses hold no slash, and each address has a type. *)
Theorem status_addresses_probed clusters w :
  Forall answers clusters →
  (∀ c l, c ∈ clusters → reported c = Some l → occurs "/"%char c = false ∧
    Forall (λ a, is_Some (aType a) ∧ occurs "/"%char (aValue a) = false) l) →
  ∃ addresses w', allAddresses gateway clusters [] w = (Ok addresses, w') ∧
    ∀ gw pol hc, HealthCheck (polSpec pol) = Some hc → gwAddresses (gwStatus gw) = addresses →
      Forall (λ l, is_Some (Hostname l)) (Listeners gw) →
      ∃ probes, expectedProbesForGateway gw pol = Ok probes ∧
        ∀ address host,
          (∃ p, p ∈ probes ∧ psAddress (probeSpec p) = address ∧ psHost (probeSpec p) = host) ↔
          (∃ c x, c ∈ readUpTo clusters ∧ (∃ l, reported c = Some l ∧ x ∈ l) ∧
             (aType x = Some IPAddressType ∨ aType x = Some HostnameAddressType) ∧ aValue x = address) ∧
          (∃ l, l ∈ Listeners gw ∧ Hostname l = Some host ∧ strings.Contains host "*" = false).
Proof.
  intros Hans Hwf. destruct (allAddresses_targets clusters w Hans Hwf) as (addresses & w' & Hrun & Hall & Hread).
  exists addresses, w'. split; [done|]. intros gw pol hc Hhc Hst Hls. unfold expectedProbesForGateway. rewrite Hhc, Hst.
  set (i := match hcInterval hc with Some i => i | None => _ end).
  destruct (probesForAddresses_ok gw pol hc i addresses [] Hls) as [probes Hp]. exists probes. split; [done|].
  pose proof (probesForAddresses_elem _ _ _ _ _ _ _ Hall Hp) as Helem. intros address host. split.
  - intros (p & Hin & Haddr & Hhost). apply Helem in Hin as [Hin|(a & target & l & host' & Ha & Ht & Hl & Hh & Hc & ->)];
      [by apply not_elem_of_nil in Hin|]. simpl in Haddr, Hhost. subst. split; [|by eauto].
    destruct (proj1 (Hread address)) as (c & x & (? & ? & ?) & ?); [by eauto|]. by exists c, x.
  - intros [(c & x & Hc & Hx & Hty & Hv) (l & Hl & Hh & Hw)].
    destruct (proj2 (Hread address)) as (a & Ha & Ht); [by exists c, x|].
    exists (expectedProbe gw pol hc i address l host). split; [|done].
    apply Helem. right. by exists a, address, l, host.
Qed.

End addresses.

(** What the status of a gateway tells. *)
Section status.

Context {W : Type} `{Client W Gateway} `{Client W GatewayClass} `{Client W ConfigMap} `{Client W Secret}.
Context `{GatewayPlacer W} `{ParamsJson} `{StringsJson} `{ConditionOps} `{!ConditionLaws} `{FinalizerOps} `{SetRange}.
Context `{!FinalizerLaws} `{!ApiStore W Gateway} `{!ApiLaws W Gateway} (Hmeta : ∀ g : Gateway, metaOf g = gwMeta g).
Context (Hstatus : StatusUpdates (W := W) gwStatus).
(** Updating a gateway without changing its status leaves the status alone. *)
Context (Hupdate : ∀ (g old g' : Gateway) w w', clUpdate g w = (Ok g', w') → objs w !! oKey g = Some old →
  gwStatus g = gwStatus old → gwStatus g' = gwStatus old).
(** The other calls leave the gateways alone. *)
Abbreviation gateways := (objs (O := Gateway)).
Context (Hclasses : ∀ k, frames gateways (clGet (O := GatewayClass) k)) (Hmaps : ∀ k, frames gateways (clGet (O := ConfigMap) k)).
Context (Hsecrets : ∀ k, frames gateways (clGet (O := Secret) k)) (Hplace : ∀ up down ss, frames gateways (Place up down ss)).
Context (Hplaced : ∀ g, frames gateways (GetPlacedClusters g)) (Haddresses : ∀ g c, frames gateways (GetAddresses g c)).
Context (Hroutes : ∀ g l c, frames gateways (ListenerTotalAttachedRoutes g l c)).

Definition programmed (st : GatewayStatus) : Prop :=
  IsStatusConditionTrue (gwConditions st) GatewayConditionProgrammed = true.

Lemma frames_foldM {A B S} (f : W → S) (step : B → A → M W B) b l :
  (∀ b a, frames f (step b a)) → frames f (foldM step b l).
Proof. intros Hs. revert b. induction l; intros b; cbn [foldM]; [done|]. by apply frames_bind. Qed.

Lemma getParams_frames class : frames gateways (getParams class).
Proof.
  unfold getParams. apply frames_bind; [done|]. intros gc. case_match; [|done]. case_match eqn:E; [|done].
  unfold paramsResolvers in E. apply lookup_singleton_Some in E as [_ <-]. unfold fromNamespacedObject. solve_frames.
Qed.

Lemma getTLSSecrets_frames up down : frames gateways (getTLSSecrets up down).
Proof.
  apply frames_foldM. intros acc l. case_match; [|done]. apply frames_foldM. intros acc' r. unfold tlsSecretStep. solve_frames.
Qed.

Lemma reconcileDownstream_frames up params : frames gateways (reconcileDownstreamFromUpstreamGateway up params).
Proof.
  pose proof getTLSSecrets_frames. unfold reconcileDownstreamFromUpstreamGateway, placeDownstream. solve_frames.
Qed.

Lemma allAddresses_frames g clusters acc : frames gateways (allAddresses g clusters acc).
Proof. revert acc. induction clusters; intros acc; cbn [allAddresses]; solve_frames. Qed.

Lemma allListenerStatuses_frames g clusters : frames gateways (allListenerStatuses g clusters).
Proof. apply frames_foldM. intros acc l. apply frames_foldM. intros acc' c. unfold listenerStatusStep. solve_frames. Qed.

(** The gateway and its TLS secrets were placed, from [w0] on, and as of [w4] it
    is on every cluster it is targeted at. *)
Definition fullyPlaced (gateway : Gateway) (w0 w4 : W) : Prop := ∃ params w1 secrets w2 targets w3,
  getParams (GatewayClassName gateway) w0 = (Ok params, w1) ∧
  getTLSSecrets gateway (downstreamGateway gateway) w1 = (Ok (secrets, None), w2) ∧
  Place gateway (reconcileParams (downstreamGateway gateway) params) secrets w2 = (Ok targets, w3) ∧
  GetPlacedClusters gateway w3 = (Ok targets, w4) ∧ targets ≠ ∅.

Lemma downstream_programmed gateway params w0 w1 requeue clusters err w' :
  isDeleting (gwMeta gateway) = false → getParams (GatewayClassName gateway) w0 = (Ok params, w1) →
  reconcileDownstreamFromUpstreamGateway gateway (Some params) w1 = (Ok (requeue, ConditionTrue, clusters, err), w') →
  fullyPlaced gateway w0 w'.
Proof.
  intros Hdel Hp. unfold reconcileDownstreamFromUpstreamGateway. rewrite Hdel.
  case_bool_decide; [done|]. unfold bind at 1.
  destruct (getTLSSecrets _ _ w1) as [[[secrets [?|]]|?|] w2] eqn:Es; try done.
  unfold placeDownstream, bind, try, ret. destruct (Place _ _ _ w2) as [[targets|?|] w3] eqn:Epl; try done.
  destruct (GetPlacedClusters gateway w3) as [[placed|?|] w4] eqn:Eg; try done.
  case_bool_decide as Heq; [|done]. case_bool_decide as Hn; [|done]. intros [= _ _ _ <-]. subst placed.
  exists params, w1, secrets, w2, targets, w3. split_and!; try done. intros ->. rewrite size_empty in Hn. lia.
Qed.

Lemma gwKey (g : Gateway) : oKey g = objectKey (gwMeta g).
Proof. unfold oKey. by rewrite Hmeta. Qed.

(** The stored gateway after a write of its status, or of the rest of it. *)
Lemma status_write req previous g w result w' stored' :
  objs w !! req = Some previous →
  bind (clStatusUpdate g) (λ _, ret noRequeue) w = (result, w') → objectKey (gwMeta g) = req → objs w' !! req = Some stored' →
  gwStatus stored' = gwStatus previous ∨ gwStatus stored' = gwStatus g.
Proof.
  rewrite <- gwKey. unfold bind, ret. destruct (clStatusUpdate g w) as [[g'|e|] w1] eqn:Eu; apply Hstatus in Eu;
    intros Hp [= _ <-] <-; [|rewrite Eu; naive_solver|done].
  destruct Eu as [-> Hg]. rewrite lookup_insert_eq. naive_solver.
Qed.

Lemma object_write req previous g (m : M W Gateway) w result w' stored' :
  objs w !! req = Some previous → objectKey (gwMeta g) = req → gwStatus g = gwStatus previous →
  (∀ g' w1, m w = (Ok g', w1) → clUpdate g w = (Ok g', w1)) →
  (∀ r w1, m w = (r, w1) → match r with Ok _ => True | Err _ => objs w1 = objs w | Panic => False end) →
  bind m (λ _, ret noRequeue) w = (result, w') → objs w' !! req = Some stored' →
  gwStatus stored' = gwStatus previous.
Proof.
  rewrite <- gwKey. intros Hp <- Hst Hm Herr. unfold bind, ret. destruct (m w) as [[g'|e|] w1] eqn:Eu; pose proof (Herr _ _ eq_refl) as He;
    intros [= _ <-]; [|rewrite He; naive_solver|done].
  specialize (Hm _ _ eq_refl). pose proof (Hupdate _ _ _ _ _ Hm Hp Hst) as Hg.
  apply api_update_at in Hm as ([-> | ->] & _); naive_solver.
Qed.

Lemma not_programmed cs c st :
  cType c = GatewayConditionProgrammed → cStatus c ≠ ConditionTrue → gwConditions st = SetStatusCondition cs c →
  ¬ programmed st.
Proof.
  intros Ht Hs Hc. unfold programmed, IsStatusConditionTrue. rewrite Hc, <- Ht, find_set_eq. by case_bool_decide.
Qed.

Lemma reportStatus_programmed req previous g requeue status clusters err w result w' stored' :
  objs w !! req = Some previous → objectKey (gwMeta g) = req →
  reportStatus previous g requeue status clusters err w = (result, w') → objs w' !! req = Some stored' →
  programmed (gwStatus stored') → gwStatus stored' = gwStatus previous ∨ status = ConditionTrue.
Proof.
  intros Hp Hk. unfold reportStatus, bind at 1.
  pose proof (allAddresses_frames g clusters [] w) as Hw1. destruct (allAddresses _ _ _ w) as [[addrs|e|] w1];
    simpl in Hw1; [|intros [= _ <-]; rewrite Hw1; naive_solver..].
  unfold bind at 1. pose proof (allListenerStatuses_frames g clusters w1) as Hw2.
  destruct (allListenerStatuses _ _ w1) as [[ls|e|] w2]; simpl in Hw2;
    [|intros [= _ <-]; rewrite Hw2, Hw1; naive_solver..].
  rewrite <- Hw1, <- Hw2 in Hp. case_match.
  - intros Hrun Hs Hprog. destruct (status_write _ _ _ _ _ _ _ Hp Hrun Hk Hs) as [?|Heq]; [by left|]. right.
    destruct (decide (status = ConditionTrue)) as [|Hne]; [done|]. exfalso. rewrite Heq in Hprog. revert Hprog.
    eapply not_programmed; [..|reflexivity]; by destruct status.
  - unfold fail, ret. destruct err; intros [= _ <-]; naive_solver.
Qed.

(** A write of the object that adds or removes nothing but metadata, with or
    without a text around its error. *)
Lemma textErr_update msg (g : Gateway) w : (∀ g' w1, textErr msg (clUpdate g) w = (Ok g', w1) → clUpdate g w = (Ok g', w1)) ∧
  (∀ r w1, textErr msg (clUpdate g) w = (r, w1) →
    match r with Ok _ => True | Err _ => objs (O := Gateway) w1 = objs w | Panic => False end).
Proof.
  unfold textErr. destruct (clUpdate g w) as [[g1|e|] w0] eqn:E; apply api_update in E;
    (split; [intros ?? [= <- <-]|intros ?? [= <- <-]]); done.
Qed.

Lemma update_outcome (g : Gateway) w : ∀ r w1, clUpdate g w = (r, w1) →
  match r with Ok _ => True | Err _ => objs (O := Gateway) w1 = objs w | Panic => False end.
Proof. intros [g1|e|] w0 E; apply api_update in E; done. Qed.

Lemma key_add_finalizer m f : objectKey (AddFinalizer m f) = objectKey m.
Proof. transitivity (objectKey (set_Finalizers (Finalizers m) (AddFinalizer m f))); [done|]. by rewrite add_only_finalizers. Qed.

Lemma key_add_annotation key value m : objectKey (metadata.AddAnnotation key value m) = objectKey m.
Proof. unfold metadata.AddAnnotation. by case_bool_decide. Qed.

(** What follows the downstream reconciliation leaves the gateway Programmed
    only if that said so. *)
Lemma afterDownstream_programmed req previous requeue status clusters err w result w' stored' :
  objs w !! req = Some previous →
  afterDownstream previous (requeue, status, clusters, err) w = (result, w') → objectKey (gwMeta previous) = req →
  objs w' !! req = Some stored' → programmed (gwStatus stored') →
  gwStatus stored' = gwStatus previous ∨ status = ConditionTrue.
Proof.
  intros Hp. unfold afterDownstream. destruct (match err with Some _ => _ | None => _ end).
  { case_match.
    - intros Hrun Hk Hs Hprog. left. destruct (status_write _ _ _ _ _ _ _ Hp Hrun Hk Hs) as [?|Heq]; [done|].
      rewrite Heq in Hprog. exfalso. revert Hprog. by eapply not_programmed; [..|reflexivity].
    - intros [= _ <-]. naive_solver. }
  unfold bind at 1, lift. destruct (json_MarshalStrings clusters) as [text|e|]; [|intros [= _ <-]; naive_solver..].
  case_match.
  - intros Hrun Hk Hs _. left.
    refine (object_write req previous _ _ _ _ _ _ Hp _ _ (λ g' w1 E, E) (update_outcome _ _) Hrun Hs); [|done].
    simpl. by rewrite key_add_annotation.
  - intros Hrun Hk Hs Hprog. eapply reportStatus_programmed; [done| |done..]. simpl. by rewrite key_add_annotation.
Qed.

(** What is left alone once the gateway is placed: by the writes of the gateway
    and by the placer's questions. *)
Record afterPlacing {S : Type} (f : W → S) : Prop := {
  ap_gateways : clientFrames Gateway f;
  ap_addresses g c : frames f (GetAddresses g c);
  ap_routes g l c : frames f (ListenerTotalAttachedRoutes g l c)
}.

Lemma afterDownstream_frames {S : Type} (f : W → S) previous r : afterPlacing f → frames f (afterDownstream previous r).
Proof using Type.
  intros [[] Ha Hr]. destruct r as [[[requeue status] clusters] err]. unfold afterDownstream, reportStatus.
  assert (∀ g acc, frames f (allAddresses g clusters acc)) as Haddr.
  { intros g. induction clusters; intros acc; cbn [allAddresses]; solve_frames. }
  assert (∀ g, frames f (allListenerStatuses g clusters)) as Hstat.
  { intros g. apply frames_foldM. intros acc l. apply frames_foldM. intros acc' c. unfold listenerStatusStep. solve_frames. }
  solve_frames.
Qed.

(** A gateway is Programmed only where it really is: when a reconciliation
    leaves a gateway Programmed, it either wrote nothing into the status, or
    it placed the gateway and its TLS secrets, and the clusters the gateway
    is on are exactly the targeted ones, at least one; after that it only
    wrote the gateway. *)
Theorem gateway_programmed_truthful req previous w w0 result w' stored' :
  clGet req w = (Ok previous, w0) → isDeleting (gwMeta previous) = false →
  gateway_Reconcile req w = (result, w') → objs w' !! req = Some stored' →
  programmed (gwStatus stored') →
  gwStatus stored' = gwStatus previous ∨
  ∃ w4, fullyPlaced previous w0 w4 ∧ ∀ (S : Type) (f : W → S), afterPlacing f → f w' = f w4.
Proof.
  intros Hget Hdel. unfold gateway_Reconcile, bind at 1, IgnoreNotFound. rewrite Hget, Hdel.
  apply api_get in Hget as [Hw0 Hp]. pose proof (api_key _ _ _ Hp) as Hk. rewrite gwKey in Hk. rewrite <- Hw0 in Hp.
  case_match.
  { intros Hrun Hs _. left.
    refine (object_write _ _ _ _ _ _ _ _ Hp _ _ (proj1 (textErr_update _ _ _)) (proj2 (textErr_update _ _ _)) Hrun Hs);
      [|done]. simpl. by rewrite key_add_finalizer. }
  unfold reconcileClassed, bind at 1, try. pose proof (getParams_frames (GatewayClassName previous) w0) as Hw1.
  destruct (getParams _ w0) as [[params|e|] w1] eqn:Epar; simpl in Hw1; rewrite <- Hw1 in Hp; [..|intros [= _ <-]; naive_solver].
  2: { case_match; [case_match|]; [..|intros [= _ <-]; naive_solver|intros [= _ <-]; naive_solver].
    intros Hrun Hs Hprog. left. destruct (status_write _ _ _ _ _ _ _ Hp Hrun Hk Hs) as [?|Heq]; [done|].
    rewrite Heq in Hprog. exfalso. revert Hprog. by eapply not_programmed; [..|reflexivity]. }
  unfold reconcileAccepted. case_match.
  { intros Hrun Hs Hprog. left. destruct (status_write _ _ _ _ _ _ _ Hp Hrun Hk Hs) as [?|Heq]; [done|].
    rewrite Heq in Hprog. exfalso. revert Hprog. by eapply not_programmed; [..|reflexivity]. }
  unfold bind at 1. pose proof (reconcileDownstream_frames previous (Some params) w1) as Hw2.
  destruct (reconcileDownstreamFromUpstreamGateway _ _ w1) as [[[[[requeue status] clusters] err]|e|] w2] eqn:Ed;
    simpl in Hw2; rewrite <- Hw2 in Hp; [|intros [= _ <-]; naive_solver..].
  intros Hrun Hs Hprog. destruct (afterDownstream_programmed _ _ _ _ _ _ _ _ _ _ Hp Hrun Hk Hs Hprog) as [?| ->];
    [by left|]. right.
  exists w2. split; [by eapply downstream_programmed|]. intros S f Hf.
  pose proof (afterDownstream_frames f previous (requeue, ConditionTrue, clusters, err) Hf w2) as Heq.
  by rewrite Hrun in Heq.
Qed.

(** C40: a gateway whose class cannot be used is not placed.  Invalid parameters
    end the reconciliation, without a retry, once the Programmed condition
    says what is wrong with them; any other failure to read the class is
    returned for a retry and changes nothing. *)
Theorem gateway_class_errors req previous w w0 e w1 result w' :
  clGet req w = (Ok previous, w0) → isDeleting (gwMeta previous) = false →
  ContainsFinalizer (gwMeta previous) GatewayFinalizer = true →
  getParams (GatewayClassName previous) w0 = (Err e, w1) →
  gateway_Reconcile req w = (result, w') →
  if IsInvalidParamsError e then
    (∃ err, result = Err err ∧ objs (O := Gateway) w' = objs w) ∨
    (result = Ok noRequeue ∧ ∃ stored', objs w' !! req = Some stored' ∧
      FindStatusCondition (gwConditions (gwStatus stored')) GatewayConditionProgrammed =
        Some (invalidParamsCondition (Generation (gwMeta previous)) e))
  else result = Err (ErrText ("gateway class err " +:+ error_text e +:+ " ")) ∧ w' = w1 ∧ objs (O := Gateway) w' = objs w.
Proof.
  intros Hget Hdel Hfin Hpar. unfold gateway_Reconcile, bind at 1, IgnoreNotFound. rewrite Hget, Hdel, Hfin. cbn [negb].
  apply api_get in Hget as [Hw0 Hp]. pose proof (api_key _ _ _ Hp) as Hk. rewrite gwKey in Hk.
  unfold reconcileClassed, bind at 1, try. pose proof (getParams_frames (GatewayClassName previous) w0) as Hw1.
  rewrite Hpar in *. simpl in Hw1. rewrite Hw0 in Hw1.
  destruct (IsInvalidParamsError e); [|by intros [= <- <-]].
  set (condition := invalidParamsCondition _ e). set (g := set_gwConditions _ previous).
  assert (FindStatusCondition (gwConditions (gwStatus g)) GatewayConditionProgrammed = Some condition) as Hfind.
  { change GatewayConditionProgrammed with (cType condition). apply find_set_eq. }
  case_bool_decide as Hsame; simpl.
  { intros [= <- <-]. right. split; [done|]. exists previous. rewrite <- Hsame, Hw1. split; [by rewrite Hsame|done]. }
  unfold bind, ret. destruct (clStatusUpdate g w1) as [[g'|err|] w2] eqn:Eu; apply Hstatus in Eu; intros [= <- <-]; [| |done].
  - right. split; [done|]. destruct Eu as [-> Hg]. exists g'. rewrite gwKey. rewrite <- Hk. rewrite lookup_insert_eq.
    by rewrite Hg.
  - left. exists err. by rewrite Eu.
Qed.

(** A gateway being deleted loses its finalizer only after Place took it off
    its clusters, or when Place found something missing. *)
Lemma gateway_finalizer_after_placement req previous w w0 result w' stored' :
  clGet req w = (Ok previous, w0) → isDeleting (gwMeta previous) = true →
  GatewayFinalizer ∈ Finalizers (gwMeta previous) →
  gateway_Reconcile req w = (result, w') → objs w' !! req = Some stored' →
  GatewayFinalizer ∉ Finalizers (gwMeta stored') →
  match (Place previous (downstreamGateway previous) [] w0).1 with
  | Ok _ => True
  | Err e => IsNotFound e = true
  | Panic => False
  end.
Proof.
  intros Hget Hdel Hfin. unfold gateway_Reconcile, bind at 1, IgnoreNotFound. rewrite Hget, Hdel.
  apply api_get in Hget as [Hw0 Hp]. unfold deleteGateway, reconcileDownstreamFromUpstreamGateway. rewrite Hdel.
  pose proof (Hplace previous (downstreamGateway previous) [] w0) as Hw1. unfold bind at 1, bind at 1, try.
  destruct (Place _ _ _ w0) as [[targets|e|] w1]; simpl in *; [done| |intros [= _ <-]; rewrite Hw1, Hw0; naive_solver].
  destruct (IsNotFound e); [done|]. intros [= _ <-]. rewrite Hw1, Hw0. naive_solver.
Qed.

End status.

(** ** Examples and witnesses

    The controller on top of the placement of [Placement], on an in-memory
    server. *)

Record gatewayWorld := mkGatewayWorld {
  gwlGateways : gmap ObjectKey Gateway;
  gwlClasses : gmap ObjectKey GatewayClass;
  gwlMaps : gmap ObjectKey ConfigMap;
  gwlSecrets : gmap ObjectKey Secret;
  gwlPlacement : placeWorld
}.

#[local] Instance glGateways : Client gatewayWorld Gateway :=
  mem_client gwlGateways (λ m w, mkGatewayWorld m (gwlClasses w) (gwlMaps w) (gwlSecrets w) (gwlPlacement w)) gwMeta.
#[local] Instance glClasses : Client gatewayWorld GatewayClass :=
  mem_client gwlClasses (λ m w, mkGatewayWorld (gwlGateways w) m (gwlMaps w) (gwlSecrets w) (gwlPlacement w)) gcMeta.
#[local] Instance glMaps : Client gatewayWorld ConfigMap :=
  mem_client gwlMaps (λ m w, mkGatewayWorld (gwlGateways w) (gwlClasses w) m (gwlSecrets w) (gwlPlacement w)) cmMeta.
#[local] Instance glSecrets : Client gatewayWorld Secret :=
  mem_client gwlSecrets (λ m w, mkGatewayWorld (gwlGateways w) (gwlClasses w) (gwlMaps w) m (gwlPlacement w)) secMeta.
#[local] Instance glStore : ApiStore gatewayWorld Gateway := mem_store gwlGateways gwMeta (λ g g', g' = g).
#[local] Instance glLaws : ApiLaws gatewayWorld Gateway.
Proof. by apply mem_laws. Qed.

Definition set_placement (p : placeWorld) (w : gatewayWorld) : gatewayWorld :=
  mkGatewayWorld (gwlGateways w) (gwlClasses w) (gwlMaps w) (gwlSecrets w) p.

#[local] Instance glWorks : Client gatewayWorld ManifestWork :=
  mem_client (λ w, (gwlPlacement w).1.1) (λ m w, set_placement (m, (gwlPlacement w).1.2, (gwlPlacement w).2) w) mwMeta.
#[local] Instance glDecisions : Client gatewayWorld PlacementDecision :=
  mem_client (λ w, (gwlPlacement w).1.2) (λ m w, set_placement ((gwlPlacement w).1.1, m, (gwlPlacement w).2) w) pdMeta.
#[local] Instance glClusters : Client gatewayWorld ManagedCluster :=
  mem_client (λ w, (gwlPlacement w).2) (λ m w, set_placement ((gwlPlacement w).1, m) w) mclMeta.
#[local] Instance glClock : WallClock gatewayWorld := {| TimeNow := ret 0%Z |}.
#[local] Instance glJson : Json :=
  {| json_Marshal := λ _, Ok "{}";
     json_UnmarshalAddresses := λ text _, ([mkAddress (Some IPAddressType) text], None) |}.
#[local] Instance glParams : ParamsJson := {| json_UnmarshalParams := λ s, Ok (mkParams s) |}.
#[local] Instance glStrings : StringsJson :=
  {| json_MarshalStrings := λ l, Ok (printStrings l); json_UnmarshalStrings := λ s, Ok [s] |}.
#[local] Existing Instance slashKeys.
#[local] Existing Instance listConditions.
#[local] Existing Instance listConditions_laws.
#[local] Existing Instance listFinalizers.
#[local] Existing Instance listFinalizers_laws.
#[local] Existing Instance list_in_key_order.

Abbreviation glObjs := (objs (W := gatewayWorld) (O := Gateway)).

Lemma gl_meta (g : Gateway) : metaOf (W := gatewayWorld) g = gwMeta g.
Proof. done. Qed.
Lemma gl_status : StatusUpdates (W := gatewayWorld) gwStatus.
Proof. by apply mem_status. Qed.
Lemma gl_update (g old g' : Gateway) (w w' : gatewayWorld) :
  clUpdate g w = (Ok g', w') → objs w !! oKey g = Some old → gwStatus g = gwStatus old → gwStatus g' = gwStatus old.
Proof. simpl. unfold mem_update. repeat case_match; try done; by intros [= <- _] _. Qed.
Lemma gl_frames_classes : clientFrames GatewayClass glObjs.
Proof. by apply mem_clientFrames. Qed.
Lemma gl_frames_maps : clientFrames ConfigMap glObjs.
Proof. by apply mem_clientFrames. Qed.
Lemma gl_frames_secrets : clientFrames Secret glObjs.
Proof. by apply mem_clientFrames. Qed.
Lemma gl_frames_works : clientFrames ManifestWork glObjs.
Proof. by apply mem_clientFrames. Qed.
Lemma gl_frames_decisions : clientFrames PlacementDecision glObjs.
Proof. by apply mem_clientFrames. Qed.
Lemma gl_frames_clusters : clientFrames ManagedCluster glObjs.
Proof. by apply mem_clientFrames. Qed.
Lemma gl_classes k : frames glObjs (clGet (O := GatewayClass) k).
Proof. apply (cf_get _ gl_frames_classes). Qed.
Lemma gl_maps k : frames glObjs (clGet (O := ConfigMap) k).
Proof. apply (cf_get _ gl_frames_maps). Qed.
Lemma gl_secrets k : frames glObjs (clGet (O := Secret) k).
Proof. apply (cf_get _ gl_frames_secrets). Qed.
Lemma gl_clock : frames glObjs TimeNow.
Proof. done. Qed.
Lemma gl_place up down ss : frames glObjs (Place up down ss).
Proof. apply (ocm_Place_frames _ gl_frames_works gl_frames_decisions gl_frames_clusters gl_clock). Qed.
Lemma gl_placed g : frames glObjs (GetPlacedClusters g).
Proof. apply (ocm_GetPlacedClusters_frames _ gl_frames_works). Qed.
Lemma gl_addresses g c : frames glObjs (GetAddresses g c).
Proof. apply (ocm_GetAddresses_frames _ gl_frames_works). Qed.
Lemma gl_routes g l c : frames glObjs (ListenerTotalAttachedRoutes g l c).
Proof. apply (ocm_ListenerTotalAttachedRoutes_frames _ gl_frames_works). Qed.

Definition exampleClass : string := "kuadrant-multi-cluster-gateway-instance-per-cluster".

Definition newGateway (deleting : option Z) (finalizers : list string) : Gateway :=
  mkGateway (mkObjectMeta "prod" "infra" {[OCMPlacementLabel := "eu"]} ∅ finalizers 1 deleting None) exampleClass
    [mkListener "api" (Some "api.example.com") 443 "HTTPS"
       (Some (mkTLS (Some TLSModeTerminate) [mkSecretRef (Some "") (Some "Secret") "api-tls" None]))] emptyGatewayStatus.

(** A class with parameters in a ConfigMap, a TLS secret, and a decision for
    the cluster east. *)
Definition classFor (paramsNamespace : option string) : GatewayClass :=
  mkGatewayClass (newObjectMeta exampleClass "") ControllerName
    (Some (mkParametersRef "" "ConfigMap" "params" paramsNamespace)) [].

Definition gatewayStart (g : Gateway) (paramsNamespace : option string) (works : gmap ObjectKey ManifestWork)
  (decisions : gmap ObjectKey PlacementDecision) : gatewayWorld :=
  mkGatewayWorld {[("infra", "prod") := g]} {[("", exampleClass) := classFor paramsNamespace]}
    {[("infra", "params") := mkConfigMap (newObjectMeta "params" "infra") {["params" := "istio"]}]}
    {[("infra", "api-tls") := mkSecret (newObjectMeta "api-tls" "infra") "kubernetes.io/tls" ∅]}
    (works, decisions, {[("", "east") := mkManagedCluster (newObjectMeta "east" "")]}).

Definition eastDecision : gmap ObjectKey PlacementDecision :=
  {[("infra", "eu-decision") := mkPlacementDecision
       (set_Labels {[OCMPlacementLabel := "eu"]} (newObjectMeta "eu-decision" "infra")) ["east"]]}.

(** The agent of a cluster applies the works and reports an address and the
    attached routes. *)
Definition agentApplies (w : gatewayWorld) : gatewayWorld :=
  set_placement
    ((λ m, mkManifestWork (mwMeta m) (mwSpec m) [appliedCondition]
        [mkManifestCondition gatewayGroup "prod"
           [mkFeedback "addresses" None (Some "1.2.3.4"); mkFeedback "listenerapiAttachedRoutes" (Some 1%Z) None]])
       <$> (gwlPlacement w).1.1, (gwlPlacement w).1.2, (gwlPlacement w).2) w.

Definition reconcileProd (w : gatewayWorld) : gatewayWorld := (gateway_Reconcile ("infra", "prod") w).2.

(** Finalizer, acceptance, placement, agent, annotation. *)
Definition gatewayBefore : gatewayWorld :=
  reconcileProd (agentApplies (reconcileProd (reconcileProd (reconcileProd
    (gatewayStart (newGateway None []) (Some "infra") ∅ eastDecision))))).

(** The whole life of a new gateway: it gets its finalizer, is accepted, placed
    and annotated, and in the end says where it runs. *)
Example gateway_life :
  (λ g, gwAddresses (gwStatus g)) <$> (gwlGateways (reconcileProd gatewayBefore) !! ("infra", "prod")) =
    Some [mkAddress (Some MultiClusterIPAddressType) "east/1.2.3.4"] ∧
  (λ g, IsStatusConditionTrue (gwConditions (gwStatus g)) GatewayConditionProgrammed) <$> (gwlGateways (reconcileProd gatewayBefore) !! ("infra", "prod")) =
    Some true.
Proof. split; vm_compute; reflexivity. Qed.

Definition prodIn (w : gatewayWorld) : Gateway := default (newGateway None []) (glObjs w !! ("infra", "prod")).

Lemma gateway_programmed_truthful_witness : ∃ w4, fullyPlaced (prodIn gatewayBefore) gatewayBefore w4.
Proof.
  destruct (gateway_programmed_truthful gl_meta gl_status gl_update gl_classes gl_maps gl_secrets gl_place gl_placed
    gl_addresses gl_routes ("infra", "prod") (prodIn gatewayBefore) gatewayBefore gatewayBefore
    (gateway_Reconcile ("infra", "prod") gatewayBefore).1 (reconcileProd gatewayBefore)
    (prodIn (reconcileProd gatewayBefore))) as [Hsame|Hplaced].
  - vm_cast_no_check (eq_refl (Ok (prodIn gatewayBefore), gatewayBefore)).
  - vm_compute. reflexivity.
  - apply surjective_pairing.
  - vm_cast_no_check (eq_refl (Some (prodIn (reconcileProd gatewayBefore)))).
  - vm_cast_no_check (eq_refl true).
  - apply (f_equal gwAddresses) in Hsame. vm_compute in Hsame. discriminate.
  - destruct Hplaced as (w4 & Hfull & _). exists w4. exact Hfull.
Defined.

(** A parameters reference without a namespace. *)
Definition badClassStart : gatewayWorld := gatewayStart (newGateway None [GatewayFinalizer]) None ∅ eastDecision.

Lemma gateway_class_errors_witness :
  ∃ stored', objs (reconcileProd badClassStart) !! ("infra", "prod") = Some stored' ∧
    FindStatusCondition (gwConditions (gwStatus stored')) GatewayConditionProgrammed =
      Some (mkCondition GatewayConditionProgrammed ConditionFalse GatewayReasonPending
        "Invalid parameters in gateway class: Namespace must be defined" 1).
Proof.
  destruct (gateway_class_errors gl_meta gl_status gl_classes gl_maps ("infra", "prod")
    (newGateway None [GatewayFinalizer]) badClassStart badClassStart (ErrInvalidParams "Namespace must be defined")
    badClassStart (gateway_Reconcile ("infra", "prod") badClassStart).1 (reconcileProd badClassStart))
    as [(err & He & _)|(_ & Hstored)].
  - vm_cast_no_check (eq_refl (Ok (newGateway None [GatewayFinalizer]), badClassStart)).
  - reflexivity.
  - reflexivity.
  - vm_cast_no_check (eq_refl (Err (A := Params) (ErrInvalidParams "Namespace must be defined"), badClassStart)).
  - apply surjective_pairing.
  - vm_compute in He. discriminate.
  - exact Hstored.
Defined.

(** The second cluster does not answer. *)
Definition reportedAddresses (cluster : string) : option (list GatewayAddress) :=
  if bool_decide (cluster = "east") then Some [mkAddress (Some IPAddressType) "10.0.0.1"; mkAddress (Some "NamedAddress") "lb"]
  else None.

Definition reportingPlacer : GatewayPlacer unit := {|
  Place _ _ _ := ret ∅; GetPlacedClusters _ := ret ∅; GetClusters _ := ret ∅;
  ListenerTotalAttachedRoutes _ _ _ := ret 0%Z;
  GetAddresses _ c := match reportedAddresses c with Some l => ret l | None => fail notFound end;
  GetClusterGateway _ _ := fail notFound |}.

Lemma status_addresses_probed_witness :
  ∃ p probes, expectedProbesForGateway (probedGateway ["east/10.0.0.1"]) probedPolicy = Ok probes ∧ p ∈ probes ∧
    psAddress (probeSpec p) = "10.0.0.1" ∧ psHost (probeSpec p) = "shop.example.com".
Proof.
  destruct (status_addresses_probed (H := reportingPlacer) (newGateway None []) reportedAddresses ["east"; "west"] tt)
    as (addresses & w' & Hrun & Hprobed).
  - apply Forall_cons. split; [intros w; vm_compute; reflexivity|].
    apply Forall_cons. split; [intros w; eexists; vm_compute; reflexivity|]. apply Forall_nil. exact I.
  - intros c l Hc Hl. apply elem_of_cons in Hc as [->|Hc].
    + vm_compute in Hl. injection Hl as <-. split; [reflexivity|]. apply Forall_cons. split; [split; [eexists|]; reflexivity|].
      apply Forall_cons. split; [split; [eexists|]; reflexivity|]. apply Forall_nil. exact I.
    + apply list_elem_of_singleton in Hc as ->. vm_compute in Hl. discriminate.
  - vm_compute in Hrun. injection Hrun as <- _.
    destruct (Hprobed (probedGateway ["east/10.0.0.1"]) probedPolicy probedCheck) as (probes & Hp & Hiff).
    + reflexivity.
    + reflexivity.
    + repeat constructor; eexists; reflexivity.
    + destruct (proj2 (Hiff "10.0.0.1" "shop.example.com")) as (p & Hin & Ha & Hh).
      * split.
        -- exists "east", (mkAddress (Some IPAddressType) "10.0.0.1"). split_and!; [left|..|left; reflexivity|reflexivity].
           exists [mkAddress (Some IPAddressType) "10.0.0.1"; mkAddress (Some "NamedAddress") "lb"]. split; [reflexivity|left].
        -- exists (mkListener "api" (Some "shop.example.com") 443 "HTTPS" None). split_and!; [left|reflexivity|reflexivity].
      * exists p, probes. split_and!; [exact Hp|exact Hin|exact Ha|exact Hh].
Defined.

(** Deleting a gateway whose placement decision is gone: Place reports a missing
    decision, which is taken for a gateway that is not there, so the gateway
    loses its finalizer, and with it goes, while its work stays on the cluster. *)
Example finalizer_lost_without_decision :
  let w := reconcileProd (gatewayStart (newGateway (Some 5%Z) [GatewayFinalizer]) (Some "infra")
             {[("west", "gateway-infra-prod") := workOn "west" [appliedCondition]]} ∅) in
  gwlGateways w !! ("infra", "prod") = None ∧
  (gwlPlacement w).1.1 !! ("west", "gateway-infra-prod") = Some (workOn "west" [appliedCondition]).
Proof. split; vm_compute; reflexivity. Qed.
