(* ===== verification/ClusterClient.v ===== *)
(** * Clients for the clusters (pkg/_internal/clusterSecret/client.go)

    The configuration of a client from the secret of a cluster: credentials in
    JSON under "config", the address of the API server under "server".  The
    JSON decoder and the constructors of the clients are arguments. *)

From S2P Require Import Prelude GoStrings GoNet GoUrl Kube.
Local Open Scope go_scope.

(** ** Data *)

Record TLSClientConfig := mkTLSClientConfig {
  Insecure : bool;
  CaData : string;
  CertData : string;
  KeyData : string
}.

Record ProviderConfig := mkProviderConfig { Command : string; Args : list string; APIVersion : string }.

Record ClusterConfig := mkClusterConfig {
  ccName : string;
  BearerToken : string;
  Username : string;
  Password : string;
  TlsClientConfig : TLSClientConfig;
  ExecProviderConfig : ProviderConfig
}.

(** Of rest.TLSClientConfig and rest.Config (client-go): the fields the code
    sets, and [Insecure], which it leaves false. *)
Record RestTLS := mkRestTLS {
  rtInsecure : bool;
  ServerName : string;
  rtCertData : string;
  rtKeyData : string;
  rtCAData : string
}.

Record RestConfig := mkRestConfig {
  rcHost : string;
  rcUsername : string;
  rcPassword : string;
  rcBearerToken : string;
  rcTLS : RestTLS
}.

(** [json.Unmarshal(data, &ClusterConfig{})] (apimachinery) *)
Class ClusterConfigJson := { json_Unmarshal : string → res ClusterConfig }.

(** [client.New] (controller-runtime) and [dynamic.NewForConfig] (client-go). *)
Class ClientConstructors (W C D : Type) := {
  client_New : RestConfig → M W C;
  dynamic_NewForConfig : RestConfig → M W D
}.

Section cluster_client.

Context `{ClusterConfigJson}.

(** ** Operations *)

(** [secret.Data[key]]: empty when the key is missing. *)
Definition dataOf (secret : Secret) (key : string) : string := default "" (secData secret !! key).

Definition ClusterConfigFromSecret (secret : Secret) : res ClusterConfig :=
  let? c := json_Unmarshal (dataOf secret "config") in
  Ok (mkClusterConfig (dataOf secret "name") (BearerToken c) (Username c) (Password c) (TlsClientConfig c) (ExecProviderConfig c)).

(** [strings.SplitN(host, ":", 2)[0]] *)
Definition serverName (host : string) : string :=
  match strings.SplitN2 host ":"%char with first :: _ => first | [] => "" end.

Definition RestConfigFromSecret (secret : Secret) : res RestConfig :=
  let? clusterClientConfig := ClusterConfigFromSecret secret in
  let? hostUrl := url.Parse (dataOf secret "server") in
  Ok (mkRestConfig (url.Host hostUrl) (Username clusterClientConfig) (Password clusterClientConfig)
        (BearerToken clusterClientConfig)
        (mkRestTLS false (serverName (url.Host hostUrl)) (CertData (TlsClientConfig clusterClientConfig))
           (KeyData (TlsClientConfig clusterClientConfig)) (CaData (TlsClientConfig clusterClientConfig)))).

Section clients.

Context {W C D : Type} `{!ClientConstructors W C D}.

Definition ClientFromSecret (secret : Secret) : M W C :=
  match RestConfigFromSecret secret with
  | Ok restConfig => client_New restConfig
  | Err err => fail (ErrText ("error creating rest config from secret: " +:+ error_text err))
  | Panic => lift Panic
  end.

Definition DynamicClientsetFromSecret (secret : Secret) : M W D :=
  let! restConfig := lift (RestConfigFromSecret secret) in
  dynamic_NewForConfig restConfig.

(** ** Properties *)

(** Both clients are made from the same configuration, and none is made when
    the secret has no usable one. *)
Lemma clients_from_secret secret w :
  match RestConfigFromSecret secret with
  | Ok rc => ClientFromSecret secret w = client_New rc w ∧ DynamicClientsetFromSecret secret w = dynamic_NewForConfig rc w
  | Err e =>
      ClientFromSecret secret w = (Err (ErrText ("error creating rest config from secret: " +:+ error_text e)), w) ∧
      DynamicClientsetFromSecret secret w = (Err e, w)
  | Panic => True
  end.
Proof.
  unfold ClientFromSecret, DynamicClientsetFromSecret, bind, lift. by destruct (RestConfigFromSecret secret).
Qed.

End clients.

(** A secret whose server is an absolute URL of a host name or IPv4 address
    gives a configuration for that host and port, which verifies the server's
    certificate for the host name, with the credentials of the secret.  The
    scheme and the path of the URL are lost. *)
Theorem rest_config_of_server secret cfg scheme host port path :
  json_Unmarshal (dataOf secret "config") = Ok cfg →
  dataOf secret "server" = scheme +:+ "://" +:+ host +:+ port +:+ path →
  url.all url.isLetter scheme = true → scheme ≠ "" →
  url.all hostByte host = true → url.validOptionalPort port = true →
  url.all pathByte path = true → path = "" ∨ strings.HasPrefix path "/" = true →
  RestConfigFromSecret secret =
  Ok (mkRestConfig (host +:+ port) (Username cfg) (Password cfg) (BearerToken cfg)
        (mkRestTLS false host (CertData (TlsClientConfig cfg)) (KeyData (TlsClientConfig cfg)) (CaData (TlsClientConfig cfg)))).
Proof.
  intros Hcfg Hsrv ???? ??. unfold RestConfigFromSecret, ClusterConfigFromSecret. rewrite Hcfg, Hsrv. cbn [rbind].
  rewrite Parse_absolute by done. cbn. do 3 f_equal. unfold serverName, strings.SplitN2.
  destruct (port_bytes port) as [->|(d & -> & _)]; [done|..].
  - by rewrite sapp_nil_r, cut_no by (by apply (all_occurs hostByte)).
  - by rewrite cut_app by (by apply (all_occurs hostByte)).
Qed.

(** A secret without a usable configuration or with a malformed server gives
    an error, never a configuration. *)
Lemma rest_config_errors secret :
  (∀ e, json_Unmarshal (dataOf secret "config") = Err e → RestConfigFromSecret secret = Err e) ∧
  (∀ cfg e, json_Unmarshal (dataOf secret "config") = Ok cfg → url.Parse (dataOf secret "server") = Err e →
     RestConfigFromSecret secret = Err e).
Proof.
  unfold RestConfigFromSecret, ClusterConfigFromSecret. split.
  - by intros e ->.
  - intros cfg e -> He. cbn [rbind]. by rewrite He.
Qed.

End cluster_client.

(** Whether the configuration asks for an insecure connection or for a
    credential plugin makes no difference: the client always verifies the
    server and never runs the plugin. *)
Lemma insecure_and_exec_ignored (J J' : ClusterConfigJson) secret rc :
  RestConfigFromSecret (H := J) secret = Ok rc →
  rtInsecure (rcTLS rc) = false ∧
  ∀ cfg insecure exec,
    json_Unmarshal (ClusterConfigJson := J) (dataOf secret "config") = Ok cfg →
    json_Unmarshal (ClusterConfigJson := J') (dataOf secret "config") =
      Ok (mkClusterConfig (ccName cfg) (BearerToken cfg) (Username cfg) (Password cfg)
            (mkTLSClientConfig insecure (CaData (TlsClientConfig cfg)) (CertData (TlsClientConfig cfg)) (KeyData (TlsClientConfig cfg)))
            exec) →
    RestConfigFromSecret (H := J') secret = Ok rc.
Proof.
  unfold RestConfigFromSecret, ClusterConfigFromSecret. destruct (json_Unmarshal _) as [c| |]; [|done..]. cbn [rbind].
  destruct (url.Parse _) as [u| |]; [|done..]. cbn. intros [= <-]. split; [done|]. intros cfg i ex [= ->] ->. done.
Qed.

(** ** Examples *)

(** A decoder that knows one document. *)
#[local] Instance exampleJson : ClusterConfigJson := {| json_Unmarshal data :=
  if decide (data = "{}") then Ok (mkClusterConfig "" "token" "" "" (mkTLSClientConfig true "ca" "" "") (mkProviderConfig "" [] ""))
  else Err (ErrText "unexpected end of JSON input") |}.

Definition exampleClusterSecret (server : string) : Secret :=
  mkSecret (newObjectMeta "cluster-1" "argocd") "Opaque" (<["config" := "{}"]> (<["server" := server]> {["name" := "cluster-1"]})).

Lemma rest_config_of_server_witness :
  RestConfigFromSecret (exampleClusterSecret "https://api.cluster-1.example.com:6443/") =
  Ok (mkRestConfig "api.cluster-1.example.com:6443" "" "" "token" (mkRestTLS false "api.cluster-1.example.com" "" "" "ca")).
Proof.
  apply (rest_config_of_server (exampleClusterSecret "https://api.cluster-1.example.com:6443/")
           (mkClusterConfig "" "token" "" "" (mkTLSClientConfig true "ca" "" "") (mkProviderConfig "" [] ""))
           "https" "api.cluster-1.example.com" ":6443" "/"); try (vm_compute; reflexivity); [discriminate|by right].
Defined.

(** The server name of an IPv6 address is cut at its first colon, so the
    certificate is checked for "[fd00". *)
Example ipv6_server_name_cut :
  match RestConfigFromSecret (exampleClusterSecret "https://[fd00::1]:6443") with
  | Ok rc => Some (rcHost rc, ServerName (rcTLS rc))
  | _ => None
  end = Some ("[fd00::1]:6443", "[fd00").
Proof. vm_compute. reflexivity. Qed.

(** A server without a scheme is taken for a scheme and an opaque part: the
    configuration has no host and no error is reported. *)
Example server_without_scheme_has_no_host :
  match RestConfigFromSecret (exampleClusterSecret "api.cluster-1.example.com:6443") with
  | Ok rc => Some (rcHost rc, ServerName (rcTLS rc))
  | _ => None
  end = Some ("", "").
Proof. vm_compute. reflexivity. Qed.
