(* ===== verification/Events.v ===== *)
(** * Which policies an event concerns

    pkg/controllers/events: mapping a changed gateway, health check probe or
    managed cluster to the policies to reconcile, and
    pkg/_internal/policy.GetTargetRefValueFromPolicy, the key policies are
    indexed under. *)

From S2P Require Import Prelude GoStrings Slice Kube ApiTypes GatewayApi Metadata EndpointHealth DnsHelper HealthChecks GatewayParams GatewayController MemApi.
Local Open Scope go_scope.

(** ** pkg/_internal/policy *)

Definition POLICY_TARGET_REF_KEY : string := "policyTargetRef".

Definition GetTargetRefValueFromPolicy (targetRef : PolicyTargetReference) (policyNamespace : string) : string :=
  let ns := default policyNamespace (trNamespace targetRef) in
  trName targetRef +:+ "," +:+ ns.

(** ** Events *)

(** The object of an event, by its dynamic type. *)
Inductive clientObject :=
| GatewayObject (g : Gateway)
| ProbeObject (p : DNSHealthCheckProbe)
| OtherObject (m : ObjectMeta).

Definition objectMetaOf (obj : clientObject) : ObjectMeta :=
  match obj with
  | GatewayObject g => gwMeta g
  | ProbeObject p => probeMeta p
  | OtherObject m => m
  end.

(** [common.GatewayWrapper.PolicyRefs] (kuadrant-operator): the policies a
    gateway names in the annotation of a kind of policies. *)
Class GatewayWrapper := { PolicyRefs : string → Gateway → list ObjectKey }.

(** The mappers differ between kinds of policies in the annotation with the
    policies of a gateway ([PolicyRefsConfig]); the kind is only logged. *)
Module GatewayEventMapper.
Section mapper.

Context `{GatewayWrapper}.

Definition mapToPolicyRequest (obj : clientObject) (policyRefsAnnotation : string) : list ObjectKey :=
  match obj with
  | GatewayObject gateway => PolicyRefs policyRefsAnnotation gateway
  | _ => []
  end.

Definition MapToPolicy (policyRefsAnnotation : string) (obj : clientObject) : list ObjectKey :=
  mapToPolicyRequest obj policyRefsAnnotation.

End mapper.
End GatewayEventMapper.

Module ProbeEventMapper.

Definition mapToPolicyRequest (obj : clientObject) (policyRef : string) : list ObjectKey :=
  match obj with
  | ProbeObject probe =>
      let policyName := metadata.GetLabel (probeMeta probe) policyRef in
      if bool_decide (policyName = "") then []
      else
        let policyNamespace := metadata.GetLabel (probeMeta probe) (policyRef +:+ "-namespace") in
        if bool_decide (policyNamespace = "") then [] else [(policyNamespace, policyName)]
  | _ => []
  end.

Definition MapToPolicy (policyRef : string) (obj : clientObject) : list ObjectKey := mapToPolicyRequest obj policyRef.

End ProbeEventMapper.

Module ClusterEventMapper.
Section mapper.

Context {W : Type} `{Client W Gateway} `{GatewayWrapper} `{StringsJson}.

(** One gateway of the loop. *)
Definition gatewayRequests (policyRefsAnnotation clusterName : string) (gw : Gateway) : list ObjectKey :=
  let val := metadata.GetAnnotation (gwMeta gw) GatewayClustersAnnotation in
  if bool_decide (val = "") then []
  else
    match json_UnmarshalStrings val with
    | Ok clusters =>
        if slice.ContainsString clusters clusterName then
          GatewayEventMapper.mapToPolicyRequest (GatewayObject gw) policyRefsAnnotation
        else []
    | _ => []
    end.

Definition mapToPolicyRequest (obj : clientObject) (policyRefsAnnotation : string) : M W (list ObjectKey) :=
  if bool_decide (DeletionTimestamp (objectMetaOf obj) ≠ None) then ret []
  else
    let clusterName := Name (objectMetaOf obj) in
    let! r := try (clList (O := Gateway) (mkListOptions "" ∅)) in
    match r with
    | inr _ => ret []
    | inl allGwList => ret (allGwList ≫= gatewayRequests policyRefsAnnotation clusterName)
    end.

Definition MapToPolicy (policyRefsAnnotation : string) (obj : clientObject) : M W (list ObjectKey) :=
  mapToPolicyRequest obj policyRefsAnnotation.

End mapper.
End ClusterEventMapper.

(** ** Properties *)

(** A probe leads back to the policy it was built for. *)
Lemma expectedProbe_policy gw pol hc i address l host :
  Name (polMeta pol) ≠ "" → Namespace (polMeta pol) ≠ "" →
  ProbeEventMapper.MapToPolicy DNSPolicyBackRefAnnotation (ProbeObject (expectedProbe gw pol hc i address l host)) =
    [objectKey (polMeta pol)].
Proof.
  intros Hn Hns. unfold ProbeEventMapper.MapToPolicy, ProbeEventMapper.mapToPolicyRequest.
  assert (metadata.GetLabel (probeMeta (expectedProbe gw pol hc i address l host)) DNSPolicyBackRefAnnotation =
    Name (polMeta pol)) as -> by reflexivity.
  assert (metadata.GetLabel (probeMeta (expectedProbe gw pol hc i address l host))
    (DNSPolicyBackRefAnnotation +:+ "-namespace") = Namespace (polMeta pol)) as -> by reflexivity.
  by rewrite !bool_decide_eq_false_2.
Qed.

Section cluster_events.

Context {W : Type} `{Client W Gateway} `{!ApiStore W Gateway} `{!ApiLaws W Gateway}.
Context `{GatewayWrapper} `{StringsJson}.
(** encoding/json: decoding what was encoded gives it back; the text is not
    empty. *)
Context (Hjson : ∀ l text, json_MarshalStrings l = Ok text → text ≠ "" ∧ json_UnmarshalStrings text = Ok l).

(** The Gateway controller recorded in [g] that it is on [clusters]. *)
Definition recordedOn (clusters : list string) (g : Gateway) : Prop :=
  ∃ text m, json_MarshalStrings clusters = Ok text ∧ gwMeta g = metadata.AddAnnotation GatewayClustersAnnotation text m.

Lemma gatewayRequests_recorded annotation cluster clusters g :
  recordedOn clusters g →
  ClusterEventMapper.gatewayRequests annotation cluster g =
    if bool_decide (cluster ∈ clusters) then PolicyRefs annotation g else [].
Proof.
  intros (text & m & [Hne Hdec]%Hjson & Hm). unfold ClusterEventMapper.gatewayRequests.
  rewrite Hm, GetAnnotation_Add by reflexivity. rewrite bool_decide_eq_false_2, Hdec by done.
  pose proof (ContainsString_spec clusters cluster) as Hc. case_bool_decide as Hin.
  - apply Hc in Hin. by rewrite Hin.
  - destruct (slice.ContainsString _ _); naive_solver.
Qed.

(** An event of a cluster reaches exactly the policies of the gateways the
    Gateway controller recorded on that cluster. *)
Theorem cluster_event_reaches_policies annotation cluster w requests w' (recorded : Gateway → list string) :
  DeletionTimestamp (objectMetaOf cluster) = None →
  (∀ k g, objs w !! k = Some g → recordedOn (recorded g) g) →
  (∃ l w1, clList (O := Gateway) (mkListOptions "" ∅) w = (Ok l, w1)) →
  ClusterEventMapper.MapToPolicy annotation cluster w = (Ok requests, w') →
  ∀ policy, policy ∈ requests ↔
    ∃ k g, objs w !! k = Some g ∧ Name (objectMetaOf cluster) ∈ recorded g ∧ policy ∈ PolicyRefs annotation g.
Proof.
  intros Hdel Hrec (l & w1 & Hl). unfold ClusterEventMapper.MapToPolicy, ClusterEventMapper.mapToPolicyRequest.
  rewrite Hdel. cbn. unfold bind, try, ret. rewrite Hl. intros [= <- _] policy. apply api_list in Hl as [_ Hl].
  assert (∀ g, g ∈ l ↔ ∃ k, objs w !! k = Some g) as Helem.
  { intros g. rewrite Hl, elem_of_stored. split; [by intros [? _]|]. intros Hk. split; [done|].
    unfold matches. simpl. apply bool_decide_eq_true, map_empty_subseteq. }
  rewrite list_elem_of_bind. setoid_rewrite Helem. split.
  - intros (g & Hin & k & Hk). rewrite (gatewayRequests_recorded _ _ _ _ (Hrec _ _ Hk)) in Hin.
    case_bool_decide; [by eauto 10|by apply not_elem_of_nil in Hin].
  - intros (k & g & Hk & Hc & Hp). exists g. split; [|by eauto].
    rewrite (gatewayRequests_recorded _ _ _ _ (Hrec _ _ Hk)). by rewrite bool_decide_eq_true_2.
Qed.

End cluster_events.
