(* ===== verification/TlsPolicy.v ===== *)
(** * Certificates of a TLS policy

    pkg/apis/v1alpha1/tlspolicy_types.go and
    pkg/controllers/tlspolicy/{certmanager_helper,tlspolicy_certmanager_certificates}.go:
    a TLS policy asks cert-manager for one certificate per secret that the
    listeners of its gateways refer to. *)

From S2P Require Import Prelude GoStrings Slice Kube ApiTypes GatewayApi DnsHelper MemApi.
Local Open Scope go_scope.

(** ** Data *)

(** cmmeta.ObjectReference *)
Record IssuerReference := mkIssuerRef { irName : string; irKind : string; irGroup : string }.

(** certmanv1.CertificatePrivateKey *)
Record CertificatePrivateKey := mkPrivateKey {
  pkRotationPolicy : string;
  pkEncoding : string;
  pkAlgorithm : string;
  pkSize : Z
}.

(** v1alpha1.CertificateSpec; durations in nanoseconds. *)
Record PolicyCertificateSpec := mkPolicyCertificateSpec {
  pcIssuerRef : IssuerReference;
  pcCommonName : string;
  pcDuration : option Z;
  pcRenewBefore : option Z;
  pcUsages : option (list string);
  pcRevisionHistoryLimit : option Z;
  pcPrivateKey : option CertificatePrivateKey
}.

Record TLSPolicySpec := mkTLSPolicySpec { tpTargetRef : PolicyTargetReference; tpCertificate : PolicyCertificateSpec }.

Record TLSPolicyStatus := mkTLSPolicyStatus { tpConditions : list Condition; tpObservedGeneration : Z }.

Record TLSPolicy := mkTLSPolicy { tpMeta : ObjectMeta; tpSpec : TLSPolicySpec; tpStatus : TLSPolicyStatus }.

Definition TLSPolicy_Validate (p : TLSPolicy) : res unit :=
  validateTargetRef (tpTargetRef (tpSpec p)) (Namespace (tpMeta p)).

Definition TLSPolicy_GetWrappedNamespace (p : TLSPolicy) : string := Namespace (tpMeta p).
Definition TLSPolicy_GetRulesHostnames (_ : TLSPolicy) : res (list string) := Panic.
Definition TLSPolicy_GetTargetRef (p : TLSPolicy) : PolicyTargetReference := tpTargetRef (tpSpec p).

(** certmanv1.CertificateSpec, with the labels of its secret template. *)
Record CertificateSpec := mkCertificateSpec {
  DNSNames : list string;
  csSecretName : string;
  SecretTemplate : option StringMap;
  IssuerRef : IssuerReference;
  Usages : option (list string);
  CommonName : string;
  Duration : option Z;
  RenewBefore : option Z;
  RevisionHistoryLimit : option Z;
  PrivateKey : option CertificatePrivateKey
}.

Record Certificate := mkCertificate { certMeta : ObjectMeta; certSpec : CertificateSpec }.

#[export] Instance IssuerReference_eq_dec : EqDecision IssuerReference.
Proof. solve_decision. Defined.
#[export] Instance CertificatePrivateKey_eq_dec : EqDecision CertificatePrivateKey.
Proof. solve_decision. Defined.
#[export] Instance CertificateSpec_eq_dec : EqDecision CertificateSpec.
Proof. solve_decision. Defined.

Definition set_certSpec (s : CertificateSpec) (c : Certificate) : Certificate := mkCertificate (certMeta c) s.

Record Issuer := mkIssuer { issuerMeta : ObjectMeta }.
Record ClusterIssuer := mkClusterIssuer { clusterIssuerMeta : ObjectMeta }.

(** ** Interfaces *)

(** [certmanv1.DefaultKeyUsages()] (cert-manager). *)
Class CertManager := { DefaultKeyUsages : list string }.

(** The order in which [range] visits a map keyed by object references. *)
Class RefRange := {
  range_refs {V : Type} : gmap ObjectKey V → list (ObjectKey * V);
  range_refs_perm {V : Type} (m : gmap ObjectKey V) : range_refs m ≡ₚ map_to_list m
}.

Definition refs_in_key_order : RefRange :=
  {| range_refs := λ V m, map_to_list m; range_refs_perm := λ V m, Permutation_refl _ |}.

(** reconcilers.BaseReconciler.ReconcileResource (kuadrant-operator): bring the
    stored object to the desired state, with a function that changes an
    existing object and says whether it did. *)
Class ResourceReconciler (W O : Type) := {
  ReconcileResource : O → (O → O → bool * O) → M W unit
}.

(** ** certmanager_helper.go *)

(** field.Error: the field and what is wrong with it. *)
Inductive FieldError :=
| Required (field detail : string)
| NotSupported (field value : string)
| Invalid (field value detail : string).

(** One certificate reference; its group and kind are dereferenced. *)
Definition validateCertificateRef (path namespace : string) (i : nat) (secretRef : SecretObjectReference) : res (list FieldError) :=
  let field child := path +:+ ".tls.certificateRef[" +:+ strconv.Itoa (Z.of_nat i) +:+ "]." +:+ child in
  match srGroup secretRef, srKind secretRef with
  | None, _ => Panic
  | Some _, None => Panic
  | Some group, Some kind =>
      let group_errs := if bool_decide (group ≠ "core" ∧ group ≠ "") then [NotSupported (field "group") group] else [] in
      let kind_errs := if bool_decide (kind ≠ "Secret" ∧ kind ≠ "") then [NotSupported (field "kind") kind] else [] in
      let ns_errs :=
        match srNamespace secretRef with
        | Some ns =>
            if bool_decide (ns ≠ namespace) then
              [Invalid (field "namespace") ns "cross-namespace secret references are not allowed in listeners"]
            else []
        | None => []
        end in
      Ok (group_errs ++ kind_errs ++ ns_errs)
  end.

Fixpoint validateCertificateRefs (path namespace : string) (i : nat) (refs : list SecretObjectReference) : res (list FieldError) :=
  match refs with
  | [] => Ok []
  | secretRef :: rest =>
      let? errs := validateCertificateRef path namespace i secretRef in
      let? errs' := validateCertificateRefs path namespace (S i) rest in
      Ok (errs ++ errs')
  end.

(** The checks of the host name, of the references and of the mode. *)
Definition hostErrors (path : string) (l : Listener) : list FieldError :=
  match Hostname l with
  | None | Some "" => [Required (path +:+ ".hostname") "the hostname cannot be empty"]
  | Some _ => []
  end.

Definition refErrors (path namespace : string) (tls : GatewayTLSConfig) : res (list FieldError) :=
  match CertificateRefs tls with
  | [] => Ok [Required (path +:+ ".tls.certificateRef") "listener has no certificateRefs"]
  | refs => validateCertificateRefs path namespace 0 refs
  end.

Definition modeErrors (path : string) (tls : GatewayTLSConfig) : list FieldError :=
  match tlsMode tls with
  | None => [Required (path +:+ ".tls.mode") "the mode field is required"]
  | Some mode => if bool_decide (mode ≠ TLSModeTerminate) then [NotSupported (path +:+ ".tls.mode") mode] else []
  end.

Definition validateGatewayListenerBlock (path : string) (l : Listener) (namespace : string) : res (list FieldError) :=
  match TLS l with
  | None => Ok (hostErrors path l ++ [Required (path +:+ ".tls") "the TLS block cannot be empty"])
  | Some tls =>
      let? ref_errs := refErrors path namespace tls in
      Ok (hostErrors path l ++ ref_errs ++ modeErrors path tls)
  end.

(** [if v != "" { field = v }] and [if v != nil { field = v }] *)
Definition overrideString (v old : string) : string := if bool_decide (v ≠ "") then v else old.
Definition overrideZ (v old : Z) : Z := if bool_decide (v ≠ 0%Z) then v else old.
Definition override {A} (v old : option A) : option A := match v with Some _ => v | None => old end.

Definition emptyPrivateKey : CertificatePrivateKey := mkPrivateKey "" "" "" 0.

Definition translatePolicy (crt : CertificateSpec) (tlsPolicy : PolicyCertificateSpec) : CertificateSpec :=
  mkCertificateSpec (DNSNames crt) (csSecretName crt) (SecretTemplate crt) (IssuerRef crt)
    (override (pcUsages tlsPolicy) (Usages crt))
    (overrideString (pcCommonName tlsPolicy) (CommonName crt))
    (override (pcDuration tlsPolicy) (Duration crt))
    (override (pcRenewBefore tlsPolicy) (RenewBefore crt))
    (override (pcRevisionHistoryLimit tlsPolicy) (RevisionHistoryLimit crt))
    (match pcPrivateKey tlsPolicy with
     | None => PrivateKey crt
     | Some key =>
         let old := default emptyPrivateKey (PrivateKey crt) in
         Some (mkPrivateKey (overrideString (pkRotationPolicy key) (pkRotationPolicy old))
                 (overrideString (pkEncoding key) (pkEncoding old))
                 (overrideString (pkAlgorithm key) (pkAlgorithm old))
                 (overrideZ (pkSize key) (pkSize old)))
     end).

Definition IssuerKind : string := "Issuer".
Definition ClusterIssuerKind : string := "ClusterIssuer".

Definition quoted (s : string) : string := String "034"%char (s +:+ String "034"%char "").

Definition validateIssuer {W} `{Client W Issuer} `{Client W ClusterIssuer} (policy : TLSPolicy) : M W unit :=
  let ref := pcIssuerRef (tpCertificate (tpSpec policy)) in
  let kind := irKind ref in
  if bool_decide (kind = "" ∨ kind = IssuerKind) then
    do! clGet (O := Issuer) (Namespace (tpMeta policy), irName ref) in ret tt
  else if bool_decide (kind = ClusterIssuerKind) then
    do! clGet (O := ClusterIssuer) ("", irName ref) in ret tt
  else fail (ErrText ("invalid value " +:+ quoted kind +:+ " for issuerRef.kind. Must be empty, " +:+ quoted IssuerKind
                      +:+ " or " +:+ quoted ClusterIssuerKind)).

(** ** tlspolicy_certmanager_certificates.go *)

Definition TLSPolicyBackRefAnnotation : string := "kuadrant.io/tlspolicy".

Definition tlsCertificateLabels (gwKey apKey : ObjectKey) : StringMap :=
  <[TLSPolicyBackRefAnnotation := apKey.2]>
  (<[TLSPolicyBackRefAnnotation +:+ "-namespace" := apKey.1]>
  (<["gateway-namespace" := gwKey.1]> {["gateway" := gwKey.2]})).

(** The reference with the mutated object; the type assertions cannot fail. *)
Definition alwaysUpdateCertificate (existing desired : Certificate) : bool * Certificate :=
  if bool_decide (certSpec existing = certSpec desired) then (false, existing)
  else (true, set_certSpec (certSpec desired) existing).

Section certificates.

Context `{CertManager} `{RefRange}.

Definition buildCertManagerCertificate (gateway : Gateway) (tlsPolicy : TLSPolicy) (secretRef : ObjectKey)
  (hosts : list string) : Certificate :=
  let tlsCertLabels := tlsCertificateLabels (objectKey (gwMeta gateway)) (objectKey (tpMeta tlsPolicy)) in
  let policy := tpCertificate (tpSpec tlsPolicy) in
  mkCertificate (set_Labels tlsCertLabels (newObjectMeta secretRef.2 secretRef.1))
    (translatePolicy
       (mkCertificateSpec hosts secretRef.2 (Some tlsCertLabels) (pcIssuerRef policy) (Some DefaultKeyUsages)
          "" None None None None)
       policy).

(** The secret a listener refers to. *)
Definition secretRefKey (gateway : Gateway) (certRef : SecretObjectReference) : ObjectKey :=
  (default (Namespace (gwMeta gateway)) (srNamespace certRef), srName certRef).

Definition addHost (host : string) (tlsHosts : gmap ObjectKey (list string)) (secretRef : ObjectKey)
  : gmap ObjectKey (list string) :=
  <[secretRef := default [] (tlsHosts !! secretRef) ++ [host]]> tlsHosts.

(** The loop over the listeners, numbered from [i]; [*l.Hostname] of a valid
    listener is there. *)
Fixpoint collectHosts (gateway : Gateway) (i : nat) (listeners : list Listener) (tlsHosts : gmap ObjectKey (list string))
  : res (gmap ObjectKey (list string)) :=
  match listeners with
  | [] => Ok tlsHosts
  | l :: rest =>
      let? errs := validateGatewayListenerBlock ("spec.listeners[" +:+ strconv.Itoa (Z.of_nat i) +:+ "]") l
                     (Namespace (gwMeta gateway)) in
      match errs with
      | _ :: _ => collectHosts gateway (S i) rest tlsHosts
      | [] =>
          match TLS l, Hostname l with
          | Some tls, Some host =>
              collectHosts gateway (S i) rest
                (foldl (addHost host) tlsHosts (secretRefKey gateway <$> CertificateRefs tls))
          | _, _ => Panic
          end
      end
  end.

Definition expectedCertificatesForGateway (gateway : Gateway) (tlsPolicy : TLSPolicy) : res (list Certificate) :=
  let? tlsHosts := collectHosts gateway 0 (Listeners gateway) ∅ in
  Ok ((λ '(secretRef, hosts), buildCertManagerCertificate gateway tlsPolicy secretRef hosts) <$> range_refs tlsHosts).

End certificates.

Definition isExpectedCertificate (expectedCerts : list Certificate) (cert : Certificate) : bool :=
  slice.Contains expectedCerts (λ expectedCert,
    bool_decide (Name (certMeta expectedCert) = Name (certMeta cert))
    && bool_decide (Namespace (certMeta expectedCert) = Namespace (certMeta cert))).

Section reconcile.

Context {W : Type} `{Client W Certificate} `{DeleteOps W Certificate} `{ResourceReconciler W Certificate}.
Context `{CertManager} `{RefRange}.

Definition deleteUnexpectedGatewayCertificates (expectedCerts : list Certificate) (gateway : Gateway)
  (tlsPolicy : TLSPolicy) : M W unit :=
  let! certList := clList (mkListOptions ""
    (tlsCertificateLabels (objectKey (gwMeta gateway)) (objectKey (tpMeta tlsPolicy)))) in
  forEach certList (λ cert,
    if negb (isExpectedCertificate expectedCerts cert) then do! IgnoreNotFound (DeleteResource cert) in ret tt
    else ret tt).

Definition deleteGatewayCertificates (gateway : Gateway) (tlsPolicy : TLSPolicy) : M W unit :=
  deleteUnexpectedGatewayCertificates [] gateway tlsPolicy.

Definition reconcileCertificate (cert : Certificate) : M W unit :=
  let! r := try (ReconcileResource cert alwaysUpdateCertificate) in
  match r with
  | inl _ => ret tt
  | inr err => if IsAlreadyExists err then ret tt else fail err
  end.

Definition reconcileGatewayCertificates (gateway : Gateway) (tlsPolicy : TLSPolicy) : M W unit :=
  let! expectedCerts := lift (expectedCertificatesForGateway gateway tlsPolicy) in
  do! deleteUnexpectedGatewayCertificates expectedCerts gateway tlsPolicy in
  forEach expectedCerts reconcileCertificate.

Definition reconcileCertificates (tlsPolicy : TLSPolicy) (gwDiffObj : GatewayDiff) : M W unit :=
  do! forEach (GatewaysWithInvalidPolicyRef gwDiffObj) (λ gw, deleteGatewayCertificates gw tlsPolicy) in
  forEach (GatewaysWithValidPolicyRef gwDiffObj ++ GatewaysMissingPolicyRef gwDiffObj)
    (λ gw, reconcileGatewayCertificates gw tlsPolicy).

End reconcile.

(** ** Properties *)

(** A listener the certificates are built from. *)
Definition listenerValid (gateway : Gateway) (l : Listener) : Prop :=
  validateGatewayListenerBlock "" l (Namespace (gwMeta gateway)) = Ok [].

(** [host] is served by a valid listener with a reference to the secret [key]. *)
Definition servesWith (gateway : Gateway) (listeners : list Listener) (key : ObjectKey) (host : string) : Prop :=
  ∃ l tls certRef, l ∈ listeners ∧ listenerValid gateway l ∧ TLS l = Some tls ∧ certRef ∈ CertificateRefs tls ∧
    secretRefKey gateway certRef = key ∧ Hostname l = Some host.

Section validity.

(** Whether there are errors does not depend on the path they are reported
    under. *)
Lemma validateCertificateRef_path path path' ns i i' r :
  (length <$> (match validateCertificateRef path ns i r with Ok l => Some l | _ => None end)) =
  (length <$> (match validateCertificateRef path' ns i' r with Ok l => Some l | _ => None end)).
Proof. unfold validateCertificateRef. repeat case_match; repeat case_bool_decide; naive_solver. Qed.

Lemma validateCertificateRefs_path path path' ns i i' refs :
  validateCertificateRefs path ns i refs = Ok [] → validateCertificateRefs path' ns i' refs = Ok [].
Proof.
  revert i i'. induction refs as [|r refs IH]; intros i i'; [done|]. cbn [validateCertificateRefs].
  pose proof (validateCertificateRef_path path path' ns i i' r) as Hr.
  destruct (validateCertificateRef path ns i r) as [l| |], (validateCertificateRef path' ns i' r) as [l'| |]; try done.
  cbn [rbind]. destruct (validateCertificateRefs path ns (S i) refs) as [l2| |] eqn:E; try done. cbn [rbind].
  intros [= Hl]. apply app_nil in Hl as [-> ->]. simpl in Hr. rewrite (IH _ (S i') E). by destruct l'.
Qed.

Lemma validate_path path path' l ns :
  validateGatewayListenerBlock path l ns = Ok [] → validateGatewayListenerBlock path' l ns = Ok [].
Proof.
  unfold validateGatewayListenerBlock. destruct (TLS l) as [tls|]; [|by intros [= [_ ?]%app_nil]].
  assert (refErrors path ns tls = Ok [] → refErrors path' ns tls = Ok []) as Hrefs.
  { unfold refErrors. destruct (CertificateRefs tls); [done|]. apply validateCertificateRefs_path. }
  destruct (refErrors path ns tls) as [errs| |]; try done. cbn [rbind].
  intros [= [Hh [-> Hm]%app_nil]%app_nil]. rewrite Hrefs by done. cbn [rbind].
  revert Hh Hm. unfold hostErrors, modeErrors. repeat case_match; try done; case_bool_decide; done.
Qed.

Lemma listenerValid_path gateway path l :
  validateGatewayListenerBlock path l (Namespace (gwMeta gateway)) = Ok [] ↔ listenerValid gateway l.
Proof. split; apply validate_path. Qed.

End validity.

Section expected.

Implicit Types m : gmap ObjectKey (list string).

(** The hosts collected for a secret. *)
Definition hostsFor m (key : ObjectKey) : list string := default [] (m !! key).

Lemma addHost_elem host m keys key h :
  h ∈ hostsFor (foldl (addHost host) m keys) key ↔ h ∈ hostsFor m key ∨ (key ∈ keys ∧ h = host).
Proof.
  revert m. induction keys as [|k keys IH]; intros m; cbn [foldl].
  { split; [by left|]. intros [?|[Hin _]]; [done|by apply not_elem_of_nil in Hin]. }
  rewrite IH, elem_of_cons. unfold hostsFor, addHost.
  destruct (decide (k = key)) as [->|Hne].
  - rewrite lookup_insert_eq. simpl. rewrite elem_of_app, list_elem_of_singleton. naive_solver.
  - rewrite lookup_insert_ne by done. naive_solver.
Qed.

Definition noEmptyHosts m : Prop := ∀ key, m !! key ≠ Some [].

Lemma addHost_noEmpty host m keys : noEmptyHosts m → noEmptyHosts (foldl (addHost host) m keys).
Proof.
  revert m. induction keys as [|k keys IH]; intros m Hm; [done|]. apply IH. intros key. unfold addHost.
  destruct (decide (k = key)) as [->|Hne]; [|by rewrite lookup_insert_ne].
  rewrite lookup_insert_eq. intros [= Happ]. by apply app_nil in Happ as [_ ?].
Qed.

Lemma servesWith_cons gateway l ls key host :
  servesWith gateway (l :: ls) key host ↔ servesWith gateway [l] key host ∨ servesWith gateway ls key host.
Proof.
  unfold servesWith. setoid_rewrite elem_of_cons. setoid_rewrite elem_of_nil. split.
  - intros (l' & tls & r & [->|Hin] & Hrest); [left|right]; eauto 10.
  - intros [(l' & tls & r & [->|[]] & Hrest)|(l' & tls & r & Hin & Hrest)]; eauto 10.
Qed.

Lemma servesWith_valid gateway l tls host key h :
  listenerValid gateway l → TLS l = Some tls → Hostname l = Some host →
  servesWith gateway [l] key h ↔ key ∈ secretRefKey gateway <$> CertificateRefs tls ∧ h = host.
Proof.
  intros Hv Ht Hh. unfold servesWith. rewrite list_elem_of_fmap. split.
  - intros (l' & tls' & r & Hin & _ & Ht' & Hr & <- & Hh'). apply list_elem_of_singleton in Hin as ->. simplify_eq. by eauto.
  - intros [(r & -> & Hr) ->]. exists l, tls, r. split_and!; try done. by apply list_elem_of_singleton.
Qed.

Lemma collectHosts_spec gateway i ls m m' :
  collectHosts gateway i ls m = Ok m' →
  (noEmptyHosts m → noEmptyHosts m') ∧
  ∀ key h, h ∈ hostsFor m' key ↔ h ∈ hostsFor m key ∨ servesWith gateway ls key h.
Proof.
  revert i m. induction ls as [|l ls IH]; intros i m; cbn [collectHosts].
  { intros [= <-]. split; [done|]. intros key h. split; [by left|].
    intros [?|(l & ? & ? & Hin & _)]; [done|by apply not_elem_of_nil in Hin]. }
  set (path := "spec.listeners[" +:+ _). pose proof (listenerValid_path gateway path l) as Hvalid.
  destruct (validateGatewayListenerBlock path l _) as [[|e errs]| |]; try done; cbn [rbind].
  - destruct (TLS l) as [tls|] eqn:Ht; [|done]. destruct (Hostname l) as [host|] eqn:Hh; [|done].
    intros [Hne Hiff]%IH. split; [intros; by apply Hne, addHost_noEmpty|].
    intros key h. rewrite Hiff, addHost_elem, (servesWith_cons _ l). rewrite (servesWith_valid gateway l tls host) by naive_solver.
    tauto.
  - intros [Hne Hiff]%IH. split; [done|]. intros key h. rewrite Hiff, (servesWith_cons _ l).
    assert (¬ servesWith gateway [l] key h) as Hno; [|tauto].
    intros (l' & ? & ? & Hin & Hv & _). apply list_elem_of_singleton in Hin as ->. by apply Hvalid in Hv.
Qed.

Context `{CertManager} `{RefRange}.

Lemma expected_NoDup gateway policy certs :
  expectedCertificatesForGateway gateway policy = Ok certs → NoDup (objectKey ∘ certMeta <$> certs).
Proof.
  unfold expectedCertificatesForGateway. destruct (collectHosts _ _ _ _) as [m| |]; try done. intros [= <-].
  rewrite <- list_fmap_compose. erewrite (list_fmap_ext _ fst) by (by intros ? [[??] ?] ?).
  rewrite range_refs_perm. apply NoDup_fst_map_to_list.
Qed.

Lemma range_refs_lookup {V} (m : gmap ObjectKey V) key v : (key, v) ∈ range_refs m ↔ m !! key = Some v.
Proof. by rewrite range_refs_perm, elem_of_map_to_list. Qed.

(** A host is on the certificate of a secret exactly when a valid listener
    serves it with that secret. *)
Lemma expected_covers gateway policy certs key host :
  expectedCertificatesForGateway gateway policy = Ok certs →
  (∃ c, c ∈ certs ∧ objectKey (certMeta c) = key ∧ host ∈ DNSNames (certSpec c)) ↔
    servesWith gateway (Listeners gateway) key host.
Proof.
  unfold expectedCertificatesForGateway. destruct (collectHosts _ _ _ _) as [m| |] eqn:Ec; try done. intros [= <-].
  apply collectHosts_spec in Ec as [_ Hhosts].
  specialize (Hhosts key host). unfold hostsFor in Hhosts. rewrite lookup_empty in Hhosts. simpl in Hhosts.
  transitivity (host ∈ default [] (m !! key)); [|rewrite Hhosts; split; [|by right]; intros [Hnil|?]; [by apply not_elem_of_nil in Hnil|done]].
  setoid_rewrite list_elem_of_fmap. split.
  - intros (c & ([[ns name] hosts] & -> & Hk%range_refs_lookup) & <- & Hh). simpl in *.
    change (objectKey _) with (ns, name). by rewrite Hk.
  - destruct (m !! key) as [hosts|] eqn:Hk; simpl; [|by intros ?%not_elem_of_nil]. intros Hh.
    exists (buildCertManagerCertificate gateway policy key hosts). split_and!; [|by destruct key|done].
    exists (key, hosts). by rewrite range_refs_lookup.
Qed.

(** An expected certificate is for the secret it is named after, of the
    policy's issuer, and for some host. *)
Lemma expected_wellformed gateway policy certs :
  expectedCertificatesForGateway gateway policy = Ok certs →
  Forall (λ c, csSecretName (certSpec c) = Name (certMeta c) ∧
    IssuerRef (certSpec c) = pcIssuerRef (tpCertificate (tpSpec policy)) ∧ DNSNames (certSpec c) ≠ []) certs.
Proof.
  unfold expectedCertificatesForGateway. destruct (collectHosts _ _ _ _) as [m| |] eqn:Ec; try done. intros [= <-].
  apply collectHosts_spec in Ec as [Hne _]. specialize (Hne ltac:(by intros ?)).
  apply Forall_fmap, Forall_forall. intros [key hosts] Hk%range_refs_lookup. split_and!; [done..|]. intros Hnil.
  apply (Hne key). rewrite Hk. by f_equal.
Qed.

(** C25: the certificates of a gateway cover its TLS listeners: there is at most
    one certificate per secret; the host names of the one for a secret are
    exactly those of the valid listeners that refer to it, at least one; it is
    stored in that secret and asked of the policy's issuer. *)
Theorem certificates_match_listeners gateway policy certs :
  expectedCertificatesForGateway gateway policy = Ok certs →
  NoDup (objectKey ∘ certMeta <$> certs) ∧
  Forall (λ c, csSecretName (certSpec c) = Name (certMeta c) ∧
    IssuerRef (certSpec c) = pcIssuerRef (tpCertificate (tpSpec policy)) ∧ DNSNames (certSpec c) ≠ []) certs ∧
  ∀ key host, (∃ c, c ∈ certs ∧ objectKey (certMeta c) = key ∧ host ∈ DNSNames (certSpec c)) ↔
    servesWith gateway (Listeners gateway) key host.
Proof.
  intros Hexp. split_and!; [by eapply expected_NoDup|by eapply expected_wellformed|].
  intros key host. by apply (expected_covers gateway policy).
Qed.

End expected.

Section convergence.

Context {W : Type} `{Client W Certificate} `{!ApiStore W Certificate} `{!ApiLaws W Certificate}.
Context `{DeleteOps W Certificate} `{ResourceReconciler W Certificate} `{CertManager} `{RefRange}.
Context (Hmeta : ∀ c : Certificate, metaOf c = certMeta c).
(** A write keeps the spec it is given. *)
Context (Hkeeps : ∀ c c' : Certificate, keeps c c' → certSpec c' = certSpec c).
(** kuadrant-operator's DeleteResource deletes through the client. *)
Context (Hdelete : ∀ (c : Certificate) w, DeleteResource c w = clDelete c w).
(** ReconcileResource creates the object when it is not there, and otherwise
    stores what the mutating function makes of it, if that changed anything; it
    works on the key of the desired object only.  When somebody else created the
    object meanwhile it reports that it already exists, as it then does. *)
Context (Hreconcile : ∀ (desired : Certificate) w r w', ReconcileResource desired alwaysUpdateCertificate w = (r, w') →
  (∀ k, k ≠ oKey desired → objs w' !! k = objs w !! k) ∧
  match r with
  | Ok _ => ∃ c', objs w' !! oKey desired = Some c' ∧
      match objs w !! oKey desired with
      | None => keeps desired c'
      | Some old => let '(changed, new) := alwaysUpdateCertificate old desired in if changed then keeps new c' else c' = old
      end
  | Err e => if IsAlreadyExists e then is_Some (objs w' !! oKey desired) else objs w' = objs w
  | Panic => False
  end).

Definition certKey (c : Certificate) : ObjectKey := objectKey (certMeta c).

Lemma oKey_certKey c : oKey c = certKey c.
Proof. unfold oKey, certKey. by rewrite Hmeta. Qed.

(** In the loop over [cs] from [w], the call for [c] reported that the
    certificate already exists. *)
Definition racedIn (cs : list Certificate) (w : W) (c : Certificate) : Prop :=
  ∃ before after w1 e w2, cs = before ++ c :: after ∧ forEach before reconcileCertificate w = (Ok tt, w1) ∧
    ReconcileResource c alwaysUpdateCertificate w1 = (Err e, w2) ∧ IsAlreadyExists e = true.

Lemma reconcileCertificate_spec c w w' :
  reconcileCertificate c w = (Ok tt, w') →
  (∃ c', objs w' !! certKey c = Some c' ∧ (certSpec c' = certSpec c ∨
    ∃ e w2, ReconcileResource c alwaysUpdateCertificate w = (Err e, w2) ∧ IsAlreadyExists e = true)) ∧
  ∀ k, k ≠ certKey c → objs w' !! k = objs w !! k.
Proof.
  unfold reconcileCertificate, bind, try, ret, fail.
  destruct (ReconcileResource c alwaysUpdateCertificate w) as [[[]|e|] w1] eqn:E; [..|done].
  - apply Hreconcile in E as [Hother (c' & Hc' & Hspec)]. rewrite oKey_certKey in *. intros [= <-]. split; [|done].
    exists c'. split; [done|]. left. destruct (objs w !! certKey c) as [old|]; [|by apply Hkeeps].
    unfold alwaysUpdateCertificate in Hspec. case_bool_decide as Hs; [by subst|]. by apply Hkeeps in Hspec.
  - destruct (IsAlreadyExists e) eqn:Ee; [|done]. intros [= <-]. pose proof (Hreconcile _ _ _ _ E) as [Hother Hsome].
    rewrite Ee in Hsome. rewrite oKey_certKey in *. split; [|done]. destruct Hsome as [c' Hc']. exists c'. split; [done|].
    right. by exists e, w1.
Qed.

Lemma reconcileCertificateLoop_spec cs w w' :
  NoDup (certKey <$> cs) → forEach cs reconcileCertificate w = (Ok tt, w') →
  (∀ c, c ∈ cs → ∃ c', objs w' !! certKey c = Some c' ∧ (certSpec c' = certSpec c ∨ racedIn cs w c)) ∧
  ∀ k, k ∉ certKey <$> cs → objs w' !! k = objs w !! k.
Proof.
  revert w. induction cs as [|c cs IH]; intros w; cbn [forEach].
  { intros _ [= <-]. split; [|done]. by intros c Hc%not_elem_of_nil. }
  rewrite fmap_cons, NoDup_cons. intros [Hc Hnd]. unfold bind.
  destruct (reconcileCertificate c w) as [[[]| |] w1] eqn:E; try done.
  pose proof (reconcileCertificate_spec _ _ _ E) as [(c' & Hc' & Hs) Hframe].
  intros [Hall Hrest]%IH; [|done]. split.
  - intros x [->|Hx]%elem_of_cons.
    + exists c'. rewrite Hrest by done. split; [done|]. destruct Hs as [?|(e & w3 & ?)]; [by left|right]. by exists [], cs, w, e, w3.
    + destruct (Hall x Hx) as (x' & Hx' & [?|(before & after & w2 & e & w3 & -> & Hb & Hr)]); exists x'; (split; [done|]); [by left|right].
      exists (c :: before), after, w2, e, w3. split_and!; [done| |by destruct Hr..]. cbn [forEach]. unfold bind. by rewrite E.
  - intros k. rewrite not_elem_of_cons. intros [Hk Hk']. by rewrite Hrest, Hframe.
Qed.

(** The certificates of the policy and gateway that are not expected go, and
    nothing else changes. *)
Lemma deleteUnexpectedCertificates_spec expected gateway policy w w' :
  deleteUnexpectedGatewayCertificates expected gateway policy w = (Ok tt, w') →
  let labels := tlsCertificateLabels (objectKey (gwMeta gateway)) (objectKey (tpMeta policy)) in
  (∀ k c, objs w !! k = Some c → matches (mkListOptions "" labels) (certMeta c) = true →
    isExpectedCertificate expected c = false → goneOrDeleting (W := W) (objs w') k) ∧
  (∀ k, (∀ c, objs w !! k = Some c → matches (mkListOptions "" labels) (certMeta c) = true →
    isExpectedCertificate expected c = true) → objs w' !! k = objs w !! k).
Proof.
  unfold deleteUnexpectedGatewayCertificates, bind. set (labels := tlsCertificateLabels _ _).
  destruct (clList _ w) as [[certs| |] w1] eqn:El; try done. apply api_list in El as [Hw1 Hl].
  rewrite (forEach_ext _ _ (deleteIf true (λ c, negb (isExpectedCertificate expected c)))).
  2: { intros c w2. unfold deleteIf, bind, IgnoreNotFound. case_match; [by rewrite Hdelete|done]. }
  intros [Hkeep Hgone]%deleteLoop_spec. rewrite Hw1 in Hkeep.
  assert (∀ c, c ∈ certs ↔ (∃ k, objs w !! k = Some c) ∧ matches (mkListOptions "" labels) (certMeta c) = true) as Hin.
  { intros c. by rewrite Hl, elem_of_stored, Hmeta. }
  split.
  - intros k c Hk Hm He. rewrite <- (api_key _ _ _ Hk). apply Hgone; [by apply Hin; eauto|by rewrite He].
  - intros k Hall. apply Hkeep. intros c ([k' Hk'] & Hm)%Hin He Heq. pose proof (api_key _ _ _ Hk') as Hkey.
    rewrite Hkey in Heq. subst k'. by rewrite (Hall c Hk' Hm) in He.
Qed.

Lemma isExpected_key expected c : isExpectedCertificate expected c = true ↔ certKey c ∈ certKey <$> expected.
Proof.
  unfold isExpectedCertificate. rewrite Contains_true, list_elem_of_fmap. split.
  - intros (x & Hx & Heq). apply andb_true_iff in Heq as [Hn Hns].
    apply bool_decide_eq_true in Hn. apply bool_decide_eq_true in Hns. exists x. split; [|done].
    unfold certKey, objectKey. by rewrite Hn, Hns.
  - intros (x & Hk & Hx). exists x. split; [done|]. injection Hk as Hns Hn. by rewrite !bool_decide_eq_true_2.
Qed.

(** In the reconciliation of the certificates of the gateway from [w], the call
    for [c] reported that the certificate already exists. *)
Definition raced (gateway : Gateway) (policy : TLSPolicy) (w : W) (c : Certificate) : Prop :=
  ∃ certs w1, expectedCertificatesForGateway gateway policy = Ok certs ∧
    deleteUnexpectedGatewayCertificates certs gateway policy w = (Ok tt, w1) ∧ racedIn certs w1 c.

Lemma reconcileGatewayCertificates_stored gateway policy w w' :
  reconcileGatewayCertificates gateway policy w = (Ok tt, w') →
  ∃ certs, expectedCertificatesForGateway gateway policy = Ok certs ∧
    ∀ c, c ∈ certs → ∃ c', objs w' !! certKey c = Some c' ∧ (certSpec c' = certSpec c ∨ raced gateway policy w c).
Proof.
  unfold reconcileGatewayCertificates, bind, lift.
  destruct (expectedCertificatesForGateway gateway policy) as [certs| |] eqn:Hexp; try done.
  destruct (deleteUnexpectedGatewayCertificates certs gateway policy w) as [[[]| |] w1] eqn:Ed; try done.
  intros [Hall _]%reconcileCertificateLoop_spec; [|by apply expected_NoDup in Hexp]. exists certs. split; [done|].
  intros c Hc. destruct (Hall c Hc) as (c' & Hc' & [?|Hr]); exists c'; (split; [done|]); [by left|right]. by exists certs, w1.
Qed.

(** C23: reconciling the certificates of a gateway converges: afterwards, under
    the key of every expected certificate one is stored, with the spec it should
    have, unless ReconcileResource reported, when its turn came in this run,
    that it already exists (which the code tolerates, see
    [already_exists_tolerated]); and the other certificates that carry the
    labels of the gateway and the policy are gone or going. *)
Theorem certificates_converge gateway policy certs w w' :
  expectedCertificatesForGateway gateway policy = Ok certs →
  reconcileGatewayCertificates gateway policy w = (Ok tt, w') →
  (∀ c, c ∈ certs → ∃ c', objs w' !! certKey c = Some c' ∧ (certSpec c' = certSpec c ∨ raced gateway policy w c)) ∧
  ∀ k c, objs w !! k = Some c → k ∉ certKey <$> certs →
    matches (mkListOptions "" (tlsCertificateLabels (objectKey (gwMeta gateway)) (objectKey (tpMeta policy)))) (certMeta c) = true →
    goneOrDeleting (W := W) (objs w') k.
Proof.
  intros Hexp Hrun. split.
  { destruct (reconcileGatewayCertificates_stored _ _ _ _ Hrun) as (certs' & Hexp' & Hall).
    rewrite Hexp in Hexp'. by injection Hexp' as <-. }
  revert Hrun. unfold reconcileGatewayCertificates, bind at 1, lift. rewrite Hexp. unfold bind.
  assert (NoDup (certKey <$> certs)) as Hnd by (by apply expected_NoDup in Hexp).
  destruct (deleteUnexpectedGatewayCertificates certs gateway policy w) as [[[]| |] w1] eqn:Ed; try done.
  apply deleteUnexpectedCertificates_spec in Ed as [Hgone _]. intros [_ Hrest]%reconcileCertificateLoop_spec; [|done].
  intros k c Hk Hno Hm. specialize (Hgone k c Hk Hm).
  assert (certKey c = k) as Hkey by (rewrite <- oKey_certKey; by apply api_key in Hk).
  unfold goneOrDeleting in *. rewrite Hrest by done. apply Hgone.
  destruct (isExpectedCertificate certs c) eqn:He; [|done]. apply isExpected_key in He. by rewrite Hkey in He.
Qed.

End convergence.

(** ** Examples and witnesses *)

Definition tlsListener (name host secret : string) : Listener :=
  mkListener name (Some host) 443 "HTTPS"
    (Some (mkTLS (Some TLSModeTerminate) [mkSecretRef (Some "") (Some "Secret") secret None])).

(** Two listeners share a secret; the third has no TLS block. *)
Definition tlsGateway : Gateway :=
  mkGateway (newObjectMeta "prod" "infra") "mgc"
    [tlsListener "api" "api.example.com" "prod-tls"; tlsListener "www" "www.example.com" "prod-tls";
     mkListener "plain" (Some "plain.example.com") 80 "HTTP" None] emptyGatewayStatus.

Definition examplePolicyTLS : TLSPolicy :=
  mkTLSPolicy (newObjectMeta "tls" "infra")
    (mkTLSPolicySpec (mkTargetRef "gateway.networking.k8s.io" "Gateway" "prod" None)
       (mkPolicyCertificateSpec (mkIssuerRef "letsencrypt" "ClusterIssuer" "") "" None None None None None))
    (mkTLSPolicyStatus [] 0).

#[local] Instance exampleCertManager : CertManager := {| DefaultKeyUsages := ["digital signature"; "key encipherment"] |}.
#[local] Existing Instance refs_in_key_order.

Definition prodCertificate : Certificate :=
  buildCertManagerCertificate tlsGateway examplePolicyTLS ("infra", "prod-tls") ["api.example.com"; "www.example.com"].

Lemma prodExpected : expectedCertificatesForGateway tlsGateway examplePolicyTLS = Ok [prodCertificate].
Proof. vm_compute. reflexivity. Qed.

Lemma certificates_match_listeners_witness : servesWith tlsGateway (Listeners tlsGateway) ("infra", "prod-tls") "www.example.com".
Proof.
  apply (proj2 (proj2 (certificates_match_listeners tlsGateway examplePolicyTLS [prodCertificate] prodExpected))
    ("infra", "prod-tls") "www.example.com").
  exists prodCertificate. split; [apply list_elem_of_singleton; reflexivity|]. split; [reflexivity|].
  apply list_elem_of_further, list_elem_of_here.
Defined.

(** ReconcileResource on a server in memory: get, then create, or mutate and
    store under the key of the desired object. *)
Section mem_reconcile.

Context {W O : Type} (view : W → gmap ObjectKey O) (upd : gmap ObjectKey O → W → W) (meta : O → ObjectMeta).

Definition mem_reconcile : ResourceReconciler W O :=
  {| ReconcileResource desired mutate := λ w,
       let k := objectKey (meta desired) in
       match served view meta w !! k with
       | None =>
           if released (meta desired) then (Err invalid, w)
           else (Ok tt, upd (<[k := desired]> (served view meta w)) w)
       | Some old =>
           let '(changed, new) := mutate old desired in
           if changed && bool_decide (objectKey (meta new) = k ∧ released (meta new) = false) then (Ok tt, upd (<[k := new]> (served view meta w)) w)
           else if changed then (Err notFound, w) else (Ok tt, w)
       end |}.

Context (view_upd : ∀ m w, view (upd m w) = m).

Lemma served_upd k o w : objectKey (meta o) = k → released (meta o) = false →
  served view meta (upd (<[k := o]> (served view meta w)) w) = <[k := o]> (served view meta w).
Proof. intros <-. by apply served_upd_insert. Qed.

Lemma mem_reconcile_spec desired mutate w (r : res unit) w' :
  ReconcileResource (ResourceReconciler := mem_reconcile) desired mutate w = (r, w') →
  (∀ k, k ≠ objectKey (meta desired) → served view meta w' !! k = served view meta w !! k) ∧
  match r with
  | Ok _ => ∃ c', served view meta w' !! objectKey (meta desired) = Some c' ∧
      match served view meta w !! objectKey (meta desired) with
      | None => c' = desired
      | Some old => let '(changed, new) := mutate old desired in if changed then c' = new else c' = old
      end
  | Err e => if IsAlreadyExists e then is_Some (served view meta w' !! objectKey (meta desired))
             else served view meta w' = served view meta w
  | Panic => False
  end.
Proof.
  simpl. set (k := objectKey (meta desired)). destruct (served view meta w !! k) as [old|] eqn:Eold.
  - destruct (mutate old desired) as [[] new]; simpl; [case_bool_decide as Hk|]; intros [= <- <-].
    + destruct Hk. rewrite served_upd by done. split; [intros; by rewrite lookup_insert_ne|].
      exists new. by rewrite lookup_insert_eq.
    + done.
    + split; [done|]. by exists old.
  - destruct (released (meta desired)) eqn:Hr; intros [= <- <-]; [done|].
    rewrite served_upd by done. split; [intros; by rewrite lookup_insert_ne|].
    exists desired. by rewrite lookup_insert_eq.
Qed.

Lemma mem_reconcile_frames {S : Type} (g : W → S) desired mutate :
  (∀ m w, g (upd m w) = g w) → frames g (ReconcileResource (ResourceReconciler := mem_reconcile) desired mutate).
Proof. intros Hg w. simpl. repeat case_match; simpl; by rewrite ?Hg. Qed.

End mem_reconcile.

Abbreviation certWorld := (gmap ObjectKey Certificate).

#[local] Instance certsClient : Client certWorld Certificate := mem_client id (λ m w, m) certMeta.
#[local] Instance certsStore : ApiStore certWorld Certificate := mem_store id certMeta (λ c c', c' = c).
#[local] Instance certsLaws : ApiLaws certWorld Certificate.
Proof. by apply mem_laws. Qed.
#[local] Instance certsDelete : DeleteOps certWorld Certificate := {| DeleteResource := clDelete |}.
#[local] Instance certsReconcile : ResourceReconciler certWorld Certificate := mem_reconcile id (λ m w, m) certMeta.

Lemma certWorld_meta (c : Certificate) : metaOf (W := certWorld) c = certMeta c.
Proof. done. Qed.
Lemma certWorld_keeps (c c' : Certificate) : keeps (W := certWorld) c c' → certSpec c' = certSpec c.
Proof. by intros ->. Qed.
Lemma certWorld_delete (c : Certificate) (w : certWorld) : DeleteResource c w = clDelete c w.
Proof. done. Qed.

Lemma certWorld_reconcile (desired : Certificate) (w : certWorld) (r : res unit) w' :
  ReconcileResource desired alwaysUpdateCertificate w = (r, w') →
  (∀ k, k ≠ oKey desired → objs w' !! k = objs w !! k) ∧
  match r with
  | Ok _ => ∃ c', objs w' !! oKey desired = Some c' ∧
      match objs w !! oKey desired with
      | None => keeps desired c'
      | Some old => let '(changed, new) := alwaysUpdateCertificate old desired in if changed then keeps new c' else c' = old
      end
  | Err e => if IsAlreadyExists e then is_Some (objs w' !! oKey desired) else objs w' = objs w
  | Panic => False
  end.
Proof. by apply (mem_reconcile_spec id (λ m w, m) certMeta). Qed.

(** A certificate of a listener that is gone, and none for the others. *)
Definition oldCertificate : Certificate :=
  buildCertManagerCertificate tlsGateway examplePolicyTLS ("infra", "old-tls") ["old.example.com"].
Definition certStart : certWorld := {[("infra", "old-tls") := oldCertificate]}.

Lemma certificates_converge_witness :
  goneOrDeleting (W := certWorld) (objs (reconcileGatewayCertificates tlsGateway examplePolicyTLS certStart).2) ("infra", "old-tls").
Proof.
  refine (proj2 (certificates_converge certWorld_meta certWorld_keeps certWorld_delete certWorld_reconcile
    tlsGateway examplePolicyTLS [prodCertificate] certStart
    (reconcileGatewayCertificates tlsGateway examplePolicyTLS certStart).2 _ _) ("infra", "old-tls") oldCertificate _ _ _).
  - exact prodExpected.
  - vm_cast_no_check (eq_refl (reconcileGatewayCertificates tlsGateway examplePolicyTLS certStart)).
  - vm_cast_no_check (eq_refl (Some oldCertificate)).
  - intros Hin. apply list_elem_of_singleton in Hin. discriminate.
  - vm_cast_no_check (eq_refl true).
Defined.

(** Somebody else creates a certificate under the same key between the read and
    the creation: the loop goes on, and the certificate for another host is
    all there is. *)
Example already_exists_tolerated :
  let other := buildCertManagerCertificate tlsGateway examplePolicyTLS ("infra", "prod-tls") ["other.example.com"] in
  let racing : ResourceReconciler certWorld Certificate :=
    {| ReconcileResource desired _ := λ w, (Err alreadyExists, <[("infra", "prod-tls") := other]> w) |} in
  reconcileGatewayCertificates (H1 := racing) tlsGateway examplePolicyTLS ∅ = (Ok tt, {[("infra", "prod-tls") := other]}).
Proof. vm_compute. reflexivity. Qed.
