(* ===== verification/TlsController.v ===== *)
(** * pkg/controllers/tlspolicy/tlspolicy_controller.go

    The TLSPolicy controller: it finds the gateway a policy targets (ready or
    not: the policy may be what makes it ready), lets the certificates be
    reconciled and reports the outcome in the status of the policy and of the
    gateways. *)

From S2P Require Import Prelude GoStrings Kube ApiTypes GatewayApi DnsHelper PolicyController TlsPolicy MemApi.
Local Open Scope go_scope.

#[export] Instance TLSPolicyStatus_eq_dec : EqDecision TLSPolicyStatus.
Proof. solve_decision. Defined.

Definition set_tpMeta (m : ObjectMeta) (p : TLSPolicy) : TLSPolicy := mkTLSPolicy m (tpSpec p) (tpStatus p).
Definition set_tpStatus (st : TLSPolicyStatus) (p : TLSPolicy) : TLSPolicy := mkTLSPolicy (tpMeta p) (tpSpec p) st.

(** kuadrant-operator: the kinds of targets, and fetching an HTTP route. *)
Class TargetRefKinds (W : Type) := {
  IsTargetRefHTTPRoute : PolicyTargetReference → bool;
  IsTargetRefGateway : PolicyTargetReference → bool;
  FetchValidHTTPRoute : ObjectKey → M W ObjectMeta
}.

Module tlspolicy.

Definition TLSPolicyFinalizer : string := "kuadrant.io/tls-policy".
Definition TLSPoliciesBackRefAnnotation : string := "kuadrant.io/tlspolicies".
Definition TLSPolicyAffected : string := "kuadrant.io/TLSPolicyAffected".
Definition TLSPolicyKind : string := "kuadrant.io/v1alpha1, Kind=TLSPolicy".

Definition PolicyRefsAnnotation : string := TLSPoliciesBackRefAnnotation.

Section controller.

Context {W : Type} `{Client W Certificate} `{DeleteOps W Certificate} `{ResourceReconciler W Certificate}.
Context `{Client W TLSPolicy} `{Client W Gateway} `{Client W Issuer} `{Client W ClusterIssuer}.
Context `{CertManager} `{RefRange} `{TargetRefReconciler W TLSPolicy} `{TargetRefKinds W} `{ConditionOps} `{FinalizerOps}.

(** ** The target *)

Definition FetchValidGateway (key : ObjectKey) : M W ObjectMeta :=
  let! gw := clGet (O := Gateway) key in
  ret (gwMeta gw).

(** The printed reference is left out of the error text. *)
Definition FetchValidTargetRef (targetRef : PolicyTargetReference) (defaultNs : string) : M W ObjectMeta :=
  let tmpNS := default defaultNs (trNamespace targetRef) in
  let objKey := (tmpNS, trName targetRef) in
  if IsTargetRefHTTPRoute targetRef then FetchValidHTTPRoute objKey
  else if IsTargetRefGateway targetRef then FetchValidGateway objKey
  else fail (ErrText "FetchValidTargetRef: targetRef to unknown network resource").

(** ** Conditions *)

Definition updateGatewayCondition (condition : Condition) (gatewayDiff : GatewayDiff) : M W unit :=
  do! forEach (GatewaysWithValidPolicyRef gatewayDiff ++ GatewaysMissingPolicyRef gatewayDiff)
        (updateConditions (λ cs, SetStatusCondition cs condition)) in
  forEach (GatewaysWithInvalidPolicyRef gatewayDiff)
    (updateConditions (λ cs, RemoveStatusCondition cs (cType condition))).

Definition affectedCondition (tlsPolicy : TLSPolicy) (target : ObjectMeta) (reason : string) (err : option goerror) : Condition :=
  BuildPolicyAffectedCondition TLSPolicyAffected TLSPolicyKind (tpMeta tlsPolicy) target reason err.

(** A step of reconcileResources that failed is reported to the gateways. *)
Definition reportFailure {A} (tlsPolicy : TLSPolicy) (target : ObjectMeta) (diff : GatewayDiff) (reason text : string)
  (m : M W A) : M W A :=
  let! r := try m in
  match r with
  | inl a => ret a
  | inr err =>
      let! u := try (updateGatewayCondition (affectedCondition tlsPolicy target reason (Some err)) diff) in
      fail (errors_Join (ErrWrap text err) (match u with inl _ => None | inr e => Some e end))
  end.

(** ** Resources *)

Definition reconcileResources (tlsPolicy : TLSPolicy) (target : ObjectMeta) : M W unit :=
  do! lift (TLSPolicy_Validate tlsPolicy) in
  do! validateIssuer tlsPolicy in
  let! diff := ComputeGatewayDiffs tlsPolicy (Some target) in
  do! reportFailure tlsPolicy target diff PolicyReasonInvalid "reconcile Certificates error "
        (reconcileCertificates tlsPolicy diff) in
  do! reportFailure tlsPolicy target diff PolicyReasonConflicted "reconcile TargetBackReference error "
        (ReconcileTargetBackReference (objectKey (tpMeta tlsPolicy)) target TLSPolicyBackRefAnnotation) in
  let! diff := reportFailure tlsPolicy target diff PolicyReasonUnknown "ReconcileGatewayPolicyReferences error "
        (ReconcileGatewayPolicyReferences tlsPolicy diff) in
  let! r := try (updateGatewayCondition (affectedCondition tlsPolicy target PolicyReasonAccepted None) diff) in
  match r with
  | inl _ => ret tt
  | inr updateErr => fail (ErrWrap "failed to update gateway conditions " updateErr)
  end.

Definition deleteResources (tlsPolicy : TLSPolicy) (target : option ObjectMeta) : M W unit :=
  let! diff := ComputeGatewayDiffs tlsPolicy target in
  do! reconcileCertificates tlsPolicy diff in
  do! match target with
      | Some target => DeleteTargetBackReference (objectKey (tpMeta tlsPolicy)) target TLSPolicyBackRefAnnotation
      | None => ret tt
      end in
  let! diff := ReconcileGatewayPolicyReferences tlsPolicy diff in
  updateGatewayCondition (mkCondition TLSPolicyAffected ConditionNoStatus "" "" 0) diff.

Definition readyCondition (targetKind : string) (specErr : option goerror) : Condition :=
  match specErr with
  | None => mkCondition ConditionTypeReady ConditionTrue (targetKind +:+ "TLSEnabled") (targetKind +:+ " is TLS Enabled") 0
  | Some err => mkCondition ConditionTypeReady ConditionFalse "ReconciliationError" (error_text err) 0
  end.

Definition calculateStatus (tlsPolicy : TLSPolicy) (specErr : option goerror) : TLSPolicyStatus :=
  let st := tpStatus tlsPolicy in
  mkTLSPolicyStatus (SetStatusCondition (tpConditions st) (readyCondition (trKind (tpTargetRef (tpSpec tlsPolicy))) specErr))
    (match specErr with Some _ => Generation (tpMeta tlsPolicy) | None => tpObservedGeneration st end).

(** Lines 127-149: [previous] as it was read, [tlsPolicy] with its finalizer. *)
Definition reconcileAndReport (previous tlsPolicy : TLSPolicy) (target : ObjectMeta) : M W ReconcileResult :=
  let! r := try (reconcileResources tlsPolicy target) in
  let specErr := match r with inl _ => None | inr err => Some err end in
  let tlsPolicy := set_tpStatus (calculateStatus tlsPolicy specErr) tlsPolicy in
  let! conflict :=
    if bool_decide (tpStatus previous = tpStatus tlsPolicy) then ret false
    else
      let! r := try (clStatusUpdate tlsPolicy) in
      match r with
      | inl _ => ret false
      | inr updateErr => if IsConflict updateErr then ret true else fail updateErr
      end in
  if conflict then ret (mkResult true 0)
  else match specErr with None => ret noRequeue | Some err => fail err end.

Definition Reconcile (req : ObjectKey) : M W ReconcileResult :=
  let! found := IgnoreNotFound (clGet (O := TLSPolicy) req) in
  match found with
  | None => ret noRequeue
  | Some previous =>
      let markedForDeletion := bool_decide (DeletionTimestamp (tpMeta previous) ≠ None) in
      let! target := try (FetchValidTargetRef (tpTargetRef (tpSpec previous)) (Namespace (tpMeta previous))) in
      if markedForDeletion then
        if ContainsFinalizer (tpMeta previous) TLSPolicyFinalizer then
          do! deleteResources previous (match target with inl t => Some t | inr _ => None end) in
          do! RemoveFinalizerFrom previous TLSPolicyFinalizer in
          ret noRequeue
        else ret noRequeue
      else
        match target with
        | inr err =>
            (* the error of deleteResources shadows [err], and the outer one is returned *)
            if IsNotFound err then do! deleteResources previous None in fail err else fail err
        | inl target =>
            if negb (ContainsFinalizer (tpMeta previous) TLSPolicyFinalizer) then
              let! r := try (AddFinalizerTo previous TLSPolicyFinalizer) in
              match r with
              | inl tlsPolicy => reconcileAndReport previous tlsPolicy target
              | inr err =>
                  (* a policy that is gone goes on with the finalizer set in memory *)
                  if IsNotFound err then
                    reconcileAndReport previous (set_tpMeta (AddFinalizer (tpMeta previous) TLSPolicyFinalizer) previous) target
                  else fail err
              end
            else reconcileAndReport previous previous target
        end
  end.

End controller.

End tlspolicy.

(** ** Properties *)

Section properties.

Context {W : Type} `{Client W Certificate} `{DeleteOps W Certificate} `{ResourceReconciler W Certificate}.
Context `{Client W TLSPolicy} `{Client W Gateway} `{Client W Issuer} `{Client W ClusterIssuer}.
Context `{CertManager} `{RefRange} `{TargetRefReconciler W TLSPolicy} `{TargetRefKinds W} `{ConditionOps} `{!ConditionLaws} `{FinalizerOps}.

(** The Ready condition that is reported is that of the reconciliation. *)
Lemma tls_calculateStatus_ready p specErr :
  IsStatusConditionTrue (tpConditions (tlspolicy.calculateStatus p specErr)) ConditionTypeReady = true ↔ specErr = None.
Proof.
  unfold IsStatusConditionTrue, tlspolicy.calculateStatus. simpl.
  set (c := tlspolicy.readyCondition _ specErr). assert (cType c = ConditionTypeReady) as Ht by (by destruct specErr).
  pose proof (find_set_eq (tpConditions (tpStatus p)) c) as Hf. rewrite Ht in Hf. rewrite Hf. by destruct specErr.
Qed.

(** The resources of a policy whose gateway is gone are cleaned up, but the
    reconciliation still ends with the not-found error of the gateway, so it
    is repeated for as long as the policy exists. *)
Lemma missing_gateway_never_settles req policy w w0 err w1 result w' :
  clGet req w = (Ok policy, w0) → DeletionTimestamp (tpMeta policy) = None →
  tlspolicy.FetchValidTargetRef (tpTargetRef (tpSpec policy)) (Namespace (tpMeta policy)) w0 = (Err err, w1) →
  IsNotFound err = true → tlspolicy.Reconcile req w = (result, w') → ∀ r, result ≠ Ok r.
Proof.
  intros Hget Hdel Hfetch Hnf. unfold tlspolicy.Reconcile, bind at 1, IgnoreNotFound. rewrite Hget.
  unfold bind at 1, try. rewrite Hfetch, Hdel, Hnf. cbn. unfold bind, fail.
  destruct (tlspolicy.deleteResources policy None w1) as [[[]|?|] ?]; by intros [= <- _] r.
Qed.

End properties.

(** ** Status and certificates *)

Section status.

Context {W : Type} `{Client W Certificate} `{DeleteOps W Certificate} `{ResourceReconciler W Certificate}.
Context `{Client W TLSPolicy} `{Client W Gateway} `{Client W Issuer} `{Client W ClusterIssuer}.
Context `{CertManager} `{RefRange} `{TargetRefReconciler W TLSPolicy} `{TargetRefKinds W} `{ConditionOps} `{!ConditionLaws} `{FinalizerOps}.
Context `{!ApiStore W TLSPolicy} `{!ApiLaws W TLSPolicy} (Hmeta : ∀ p : TLSPolicy, metaOf p = tpMeta p).
Context (Hstatus : StatusUpdates (W := W) tpStatus).

Definition tlsReady (p : TLSPolicy) : Prop := IsStatusConditionTrue (tpConditions (tpStatus p)) ConditionTypeReady = true.

Lemma tls_updateGatewayCondition_frames {S : Type} (f : W → S) c d :
  clientFrames Gateway f → frames f (tlspolicy.updateGatewayCondition c d).
Proof. intros Hg. unfold tlspolicy.updateGatewayCondition, updateConditions. solve_frames. Qed.

Lemma tls_reportFailure_frames {S A : Type} (f : W → S) p t d reason text (m : M W A) :
  clientFrames Gateway f → frames f m → frames f (tlspolicy.reportFailure p t d reason text m).
Proof.
  intros Hg Hm. pose proof (λ c d, tls_updateGatewayCondition_frames f c d Hg). unfold tlspolicy.reportFailure. solve_frames.
Qed.

(** Nothing but the finalizer calls and the status update touches the policies. *)
Abbreviation policies := (objs (O := TLSPolicy)).
Context (Hcerts : clientFrames Certificate policies) (Hgateways : clientFrames Gateway policies).
Context (Hissuers : clientFrames Issuer policies) (HclusterIssuers : clientFrames ClusterIssuer policies).
Context (HdeleteRes : ∀ c : Certificate, frames policies (DeleteResource c)).
Context (HreconcileRes : ∀ (c : Certificate) f, frames policies (ReconcileResource c f)).
Context (Hroute : ∀ k, frames policies (FetchValidHTTPRoute k)) (Hdiffs : ∀ p t, frames policies (ComputeGatewayDiffs p t)).
Context (Hsetback : ∀ k t a, frames policies (ReconcileTargetBackReference k t a)).
Context (Hrefs : ∀ p d, frames policies (ReconcileGatewayPolicyReferences p d)).

Lemma tls_fetch_frames r ns : frames policies (tlspolicy.FetchValidTargetRef r ns).
Proof. unfold tlspolicy.FetchValidTargetRef, tlspolicy.FetchValidGateway. solve_frames. Qed.

Lemma tls_certificates_frames p d : frames policies (reconcileCertificates p d).
Proof.
  unfold reconcileCertificates, reconcileGatewayCertificates, deleteGatewayCertificates,
    deleteUnexpectedGatewayCertificates, reconcileCertificate. solve_frames.
Qed.

Lemma tls_resources_frames p t : frames policies (tlspolicy.reconcileResources p t).
Proof.
  pose proof tls_certificates_frames. pose proof (λ c d, tls_updateGatewayCondition_frames policies c d Hgateways).
  unfold tlspolicy.reconcileResources, validateIssuer.
  repeat first [apply tls_reportFailure_frames; [done|] | progress solve_frames].
Qed.

(** The Ready condition of a TLS policy tells the truth: once its resources
    were reconciled, either writing the status fails and the policy comes back,
    or the stored policy is Ready exactly when every step succeeded. *)
Lemma tls_status_truthful req policy w w0 target w1 r w2 result w' :
  let specErr := match r with inl _ => None | inr err => Some err end in
  clGet req w = (Ok policy, w0) →
  DeletionTimestamp (tpMeta policy) = None →
  tlspolicy.FetchValidTargetRef (tpTargetRef (tpSpec policy)) (Namespace (tpMeta policy)) w0 = (Ok target, w1) →
  ContainsFinalizer (tpMeta policy) tlspolicy.TLSPolicyFinalizer = true →
  try (tlspolicy.reconcileResources policy target) w1 = (Ok r, w2) →
  tlspolicy.Reconcile req w = (result, w') →
  (∃ e, (clStatusUpdate (set_tpStatus (tlspolicy.calculateStatus policy specErr) policy) w2).1 = Err e ∧ result ≠ Ok noRequeue) ∨
  (∃ stored', objs w' !! req = Some stored' ∧ (tlsReady stored' ↔ specErr = None)) ∧
  result = match specErr with None => Ok noRequeue | Some err => Err err end ∧
  (w' = w2 ∨ ∃ p, w' = (clStatusUpdate (O := TLSPolicy) p w2).2).
Proof.
  intros specErr Hget Hdel Hfetch Hfin Hrec. unfold tlspolicy.Reconcile, bind at 1, IgnoreNotFound.
  rewrite Hget. unfold bind at 1, try at 1. rewrite Hfetch, Hdel, Hfin. cbn [negb].
  rewrite bool_decide_eq_false_2 by naive_solver.
  unfold tlspolicy.reconcileAndReport, bind at 1. rewrite Hrec. fold specErr. cbv zeta.
  apply api_get in Hget as [Hw0 Hpol].
  assert (objs (O := TLSPolicy) w2 = objs w) as Hw2.
  { pose proof (frames_try _ _ (tls_resources_frames policy target) w1) as Hr. rewrite Hrec in Hr.
    pose proof (tls_fetch_frames (tpTargetRef (tpSpec policy)) (Namespace (tpMeta policy)) w0) as Hw1. rewrite Hfetch in Hw1.
    simpl in *. congruence. }
  pose proof (tls_calculateStatus_ready policy specErr) as Hready. set (new := set_tpStatus _ policy).
  clearbody specErr. unfold bind, try, ret, fail. case_bool_decide as Hsame.
  - intros Hres. right. split_and!; [|destruct specErr; by simplify_eq|left; destruct specErr; by simplify_eq].
    exists policy. unfold tlsReady. rewrite Hsame. split; [|done]. destruct specErr; simplify_eq; by rewrite Hw2.
  - destruct (clStatusUpdate new w2) as [[st|e|] w3] eqn:Eu; intros Hres.
    + right. assert (w' = w3) as -> by (destruct specErr; by simplify_eq).
      split_and!; [|destruct specErr; by simplify_eq|right; exists new; by rewrite Eu].
      apply Hstatus in Eu as [Hw3 Hst]. exists st. unfold tlsReady. rewrite Hst. split; [|done].
      apply api_key in Hpol. assert (oKey new = req) as Hk by (rewrite <- Hpol; unfold oKey; by rewrite !Hmeta).
      by rewrite Hw3, Hk, lookup_insert_eq.
    + left. exists e. split; [done|]. destruct (IsConflict e), specErr; by simplify_eq.
    + by apply Hstatus in Eu.
Qed.

(** Nor does anything after the certificates touch them. *)
Context `{!ApiStore W Certificate} `{!ApiLaws W Certificate} (HcertMeta : ∀ c : Certificate, metaOf c = certMeta c).
Abbreviation certificates := (objs (O := Certificate)).
Context (Hkeeps : ∀ c c' : Certificate, keeps c c' → certSpec c' = certSpec c).
Context (Hreconcile : ∀ (desired : Certificate) w r w', ReconcileResource desired alwaysUpdateCertificate w = (r, w') →
  (∀ k, k ≠ oKey desired → objs (O := Certificate) w' !! k = objs w !! k) ∧
  match r with
  | Ok _ => ∃ c', objs w' !! oKey desired = Some c' ∧
      match objs w !! oKey desired with
      | None => keeps desired c'
      | Some old => let '(changed, new) := alwaysUpdateCertificate old desired in if changed then keeps new c' else c' = old
      end
  | Err e => if IsAlreadyExists e then is_Some (objs (O := Certificate) w' !! oKey desired) else objs (O := Certificate) w' = objs w
  | Panic => False
  end).
Context (Hgateways' : clientFrames Gateway certificates) (Hpolicies' : clientFrames TLSPolicy certificates).
Context (Hsetback' : ∀ k t a, frames certificates (ReconcileTargetBackReference k t a)).
Context (Hrefs' : ∀ p d, frames certificates (ReconcileGatewayPolicyReferences p d)).

(** A sequence that succeeds went through its first call. *)
Lemma bind_ok {A B} (m : M W A) (k : A → M W B) w b w' :
  bind m k w = (Ok b, w') → ∃ a w1, m w = (Ok a, w1) ∧ k a w1 = (Ok b, w').
Proof. unfold bind. destruct (m w) as [[a|e|] w1]; try done. by eauto. Qed.

Lemma reportFailure_ok {A} p t d reason text (m : M W A) w a w' :
  tlspolicy.reportFailure p t d reason text m w = (Ok a, w') → m w = (Ok a, w').
Proof.
  unfold tlspolicy.reportFailure, bind, try, ret, fail. destruct (m w) as [[x|e|] w1]; [by intros [= -> ->]| |done].
  destruct (tlspolicy.updateGatewayCondition _ d w1) as [[]?]; by intros [=].
Qed.

(** What succeeded before is there at the end. *)
Lemma tls_resources_certificates policy target w w1 diff w2 w3 gateway w' :
  validateIssuer policy w = (Ok tt, w1) →
  ComputeGatewayDiffs policy (Some target) w1 = (Ok diff, w2) →
  forEach (GatewaysWithInvalidPolicyRef diff) (λ gw, deleteGatewayCertificates gw policy) w2 = (Ok tt, w3) →
  GatewaysWithValidPolicyRef diff ++ GatewaysMissingPolicyRef diff = [gateway] →
  tlspolicy.reconcileResources policy target w = (Ok tt, w') →
  ∃ w4, reconcileGatewayCertificates gateway policy w3 = (Ok tt, w4) ∧ certificates w' = certificates w4.
Proof.
  intros Hissuer Hdiff Hinvalid Hone. unfold tlspolicy.reconcileResources.
  intros ([] & ? & Hv & ([] & ? & Hi & (d & ? & Hd & ([] & w4 & Hc%reportFailure_ok & Hrest)%bind_ok)%bind_ok)%bind_ok)%bind_ok.
  assert (certificates w' = certificates w4) as Heq.
  { change w' with (Ok tt, w').2. rewrite <- Hrest. generalize w4.
    pose proof (λ c d, tls_updateGatewayCondition_frames certificates c d Hgateways').
    repeat first [apply tls_reportFailure_frames; [done|] | progress solve_frames]. }
  injection Hv as _ <-. rewrite Hissuer in Hi. injection Hi as <-. rewrite Hdiff in Hd. injection Hd as <- <-.
  revert Hc. unfold reconcileCertificates, bind at 1. rewrite Hinvalid, Hone.
  cbn [forEach]. intros ([] & w4' & Hc & [= ->])%bind_ok. by eauto.
Qed.

(** C34: a TLS policy that reconciled is Ready and has its certificates.  When a
    reconciliation of a policy that has its finalizer and affects one gateway
    ends without an error and without a retry, the stored policy is Ready, and
    for every host that a valid listener of the gateway serves with a secret, a
    certificate for that secret is stored that covers the host and names the
    issuer of the policy, unless in this very run its creation was reported as
    AlreadyExists, which the code tolerates: then one is stored, of whoever
    created it. *)
Theorem tls_policy_certified req policy w w0 target w1 w2 diff w3 w4 gateway w' key host :
  clGet req w = (Ok policy, w0) →
  DeletionTimestamp (tpMeta policy) = None →
  tlspolicy.FetchValidTargetRef (tpTargetRef (tpSpec policy)) (Namespace (tpMeta policy)) w0 = (Ok target, w1) →
  ContainsFinalizer (tpMeta policy) tlspolicy.TLSPolicyFinalizer = true →
  validateIssuer policy w1 = (Ok tt, w2) →
  ComputeGatewayDiffs policy (Some target) w2 = (Ok diff, w3) →
  forEach (GatewaysWithInvalidPolicyRef diff) (λ gw, deleteGatewayCertificates gw policy) w3 = (Ok tt, w4) →
  GatewaysWithValidPolicyRef diff ++ GatewaysMissingPolicyRef diff = [gateway] →
  tlspolicy.Reconcile req w = (Ok noRequeue, w') →
  servesWith gateway (Listeners gateway) key host →
  (∃ stored', objs w' !! req = Some stored' ∧ tlsReady stored') ∧
  ∃ cert, objs w' !! key = Some cert ∧
    ((host ∈ DNSNames (certSpec cert) ∧ IssuerRef (certSpec cert) = pcIssuerRef (tpCertificate (tpSpec policy))) ∨
     ∃ c, certKey c = key ∧ raced gateway policy w4 c).
Proof.
  intros Hget Hdel Hfetch Hfin Hissuer Hdiff Hinvalid Hone Hrun Hserves.
  assert (∃ r w5, try (tlspolicy.reconcileResources policy target) w1 = (Ok r, w5)) as (r & w5 & Hrec).
  { revert Hrun. unfold tlspolicy.Reconcile, bind at 1, IgnoreNotFound. rewrite Hget. unfold bind at 1, try at 1.
    rewrite Hfetch, Hdel, Hfin. cbn [negb]. rewrite bool_decide_eq_false_2 by naive_solver.
    intros (r & w5 & Hrec & _)%bind_ok. by eauto. }
  destruct (tls_status_truthful _ _ _ _ _ _ _ _ _ _ Hget Hdel Hfetch Hfin Hrec Hrun)
    as [(e & _ & Hno)|((stored & Hst & Hready) & Hres & Hw')]; [done|].
  destruct r as [[]|err]; [|done]. split; [exists stored; by rewrite Hready|].
  assert (tlspolicy.reconcileResources policy target w1 = (Ok tt, w5)) as Hok.
  { revert Hrec. unfold try. by destruct (tlspolicy.reconcileResources policy target w1) as [[[]| |] ?]; intros [= <-]. }
  apply (tls_resources_certificates _ _ _ _ _ _ _ gateway _ Hissuer Hdiff Hinvalid Hone) in Hok as (w6 & Hc & Heq).
  apply (reconcileGatewayCertificates_stored HcertMeta Hkeeps Hreconcile) in Hc as (certs & Hexp & Hup).
  apply (expected_covers _ _ _ _ _ Hexp) in Hserves as (c & Hin & Hk & Hh).
  destruct (Hup c Hin) as (c' & Hc' & Hspec). fold (certKey c) in Hk.
  pose proof (expected_wellformed _ _ _ Hexp) as Hwf. rewrite Forall_forall in Hwf. destruct (Hwf c Hin) as (_ & Hi & _).
  exists c'. split.
  - rewrite Hk, <- Heq in Hc'. destruct Hw' as [->|(p & ->)]; [done|]. by rewrite (cf_status _ Hpolicies').
  - destruct Hspec as [Hspec|Hr]; [left; by rewrite Hspec|right; by exists c].
Qed.

End status.

(** ** Examples and witnesses *)

Record tlsWorld := mkTlsWorld {
  twCerts : gmap ObjectKey Certificate;
  twPolicies : gmap ObjectKey TLSPolicy;
  twGateways : gmap ObjectKey Gateway;
  twIssuers : gmap ObjectKey Issuer;
  twClusterIssuers : gmap ObjectKey ClusterIssuer
}.

Definition putCerts m w := mkTlsWorld m (twPolicies w) (twGateways w) (twIssuers w) (twClusterIssuers w).

#[local] Instance twCertsClient : Client tlsWorld Certificate := mem_client twCerts putCerts certMeta.
#[local] Instance twPoliciesClient : Client tlsWorld TLSPolicy :=
  mem_client twPolicies (λ m w, mkTlsWorld (twCerts w) m (twGateways w) (twIssuers w) (twClusterIssuers w)) tpMeta.
#[local] Instance twGatewaysClient : Client tlsWorld Gateway :=
  mem_client twGateways (λ m w, mkTlsWorld (twCerts w) (twPolicies w) m (twIssuers w) (twClusterIssuers w)) gwMeta.
#[local] Instance twIssuersClient : Client tlsWorld Issuer :=
  mem_client twIssuers (λ m w, mkTlsWorld (twCerts w) (twPolicies w) (twGateways w) m (twClusterIssuers w)) issuerMeta.
#[local] Instance twClusterIssuersClient : Client tlsWorld ClusterIssuer :=
  mem_client twClusterIssuers (λ m w, mkTlsWorld (twCerts w) (twPolicies w) (twGateways w) (twIssuers w) m) clusterIssuerMeta.
#[local] Instance twCertsStore : ApiStore tlsWorld Certificate := mem_store twCerts certMeta (λ c c', c' = c).
#[local] Instance twPoliciesStore : ApiStore tlsWorld TLSPolicy := mem_store twPolicies tpMeta (λ p p', p' = p).
#[local] Instance twCertsLaws : ApiLaws tlsWorld Certificate.
Proof. by apply mem_laws. Qed.
#[local] Instance twPoliciesLaws : ApiLaws tlsWorld TLSPolicy.
Proof. by apply mem_laws. Qed.
#[local] Instance twDelete : DeleteOps tlsWorld Certificate := {| DeleteResource := clDelete |}.
#[local] Instance twReconcile : ResourceReconciler tlsWorld Certificate := mem_reconcile twCerts putCerts certMeta.
#[local] Instance twCertManager : CertManager := {| DefaultKeyUsages := ["digital signature"; "key encipherment"] |}.
#[local] Existing Instance refs_in_key_order.
#[local] Existing Instance listFinalizers.
#[local] Existing Instance listConditions.
#[local] Existing Instance listConditions_laws.
(** The gateway refers to the policy already. *)
#[local] Instance twTargets : TargetRefReconciler tlsWorld TLSPolicy :=
  {| FetchValidTargetRef := λ ref ns, let! g := clGet (O := Gateway) (ns, trName ref) in ret (gwMeta g);
     ComputeGatewayDiffs := λ _ _, ret (mkGatewayDiff [] [tlsGateway] []);
     ReconcileTargetBackReference := λ _ _ _, ret tt;
     DeleteTargetBackReference := λ _ _ _, ret tt;
     ReconcileGatewayPolicyReferences := λ _ d, ret d;
     AddFinalizerTo := λ p f, clUpdate (set_tpMeta (AddFinalizer (tpMeta p) f) p);
     RemoveFinalizerFrom := λ p f, clUpdate (set_tpMeta (RemoveFinalizer (tpMeta p) f) p) |}.
#[local] Instance twKinds : TargetRefKinds tlsWorld :=
  {| IsTargetRefHTTPRoute := λ r, bool_decide (trKind r = "HTTPRoute");
     IsTargetRefGateway := λ r, bool_decide (trKind r = "Gateway");
     FetchValidHTTPRoute := λ _, fail notFound |}.

Abbreviation twPolicyMap := (objs (W := tlsWorld) (O := TLSPolicy)).
Abbreviation twCertMap := (objs (W := tlsWorld) (O := Certificate)).

Lemma tw_reconcile (desired : Certificate) (w : tlsWorld) (r : res unit) w' :
  ReconcileResource desired alwaysUpdateCertificate w = (r, w') →
  (∀ k, k ≠ oKey desired → objs (O := Certificate) w' !! k = objs w !! k) ∧
  match r with
  | Ok _ => ∃ c', objs w' !! oKey desired = Some c' ∧
      match objs w !! oKey desired with
      | None => keeps desired c'
      | Some old => let '(changed, new) := alwaysUpdateCertificate old desired in if changed then keeps new c' else c' = old
      end
  | Err e => if IsAlreadyExists e then is_Some (objs (O := Certificate) w' !! oKey desired) else objs (O := Certificate) w' = objs w
  | Panic => False
  end.
Proof. by apply (mem_reconcile_spec twCerts putCerts certMeta). Qed.

Definition storedTLS : TLSPolicy :=
  set_tpMeta (mkObjectMeta "tls" "infra" ∅ ∅ [tlspolicy.TLSPolicyFinalizer] 1 None None) examplePolicyTLS.

Definition tlsStart : tlsWorld :=
  mkTlsWorld ∅ {[("infra", "tls") := storedTLS]} {[("infra", "prod") := tlsGateway]} ∅
    {[("", "letsencrypt") := mkClusterIssuer (newObjectMeta "letsencrypt" "")]}.

Lemma tls_policy_certified_witness :
  ∃ cert, objs (tlspolicy.Reconcile ("infra", "tls") tlsStart).2 !! ("infra", "prod-tls") = Some cert ∧
    (("www.example.com" ∈ DNSNames (certSpec cert) ∧ IssuerRef (certSpec cert) = mkIssuerRef "letsencrypt" "ClusterIssuer" "") ∨
     ∃ c, certKey c = ("infra", "prod-tls") ∧ raced tlsGateway storedTLS tlsStart c).
Proof.
  refine (proj2 (tls_policy_certified (W := tlsWorld) _ _ _ _ _ _ _ _ _ _ _ _ _ _ tw_reconcile _ _ _ _
    ("infra", "tls") storedTLS tlsStart tlsStart (gwMeta tlsGateway) tlsStart tlsStart (mkGatewayDiff [] [tlsGateway] [])
    tlsStart tlsStart tlsGateway
    (tlspolicy.Reconcile ("infra", "tls") tlsStart).2 ("infra", "prod-tls") "www.example.com" _ _ _ _ _ _ _ _ _ _)).
  all: try done.
  all: try by apply mem_clientFrames.
  - apply mem_status. done.
  - intros c f. apply mem_reconcile_frames. done.
  - intros c c' ->. reflexivity.
  - exists (tlsListener "www" "www.example.com" "prod-tls"), (mkTLS (Some TLSModeTerminate) [mkSecretRef (Some "") (Some "Secret") "prod-tls" None]),
      (mkSecretRef (Some "") (Some "Secret") "prod-tls" None).
    split; [apply list_elem_of_further, list_elem_of_here|]. repeat split. apply list_elem_of_here.
Defined.
