(* ===== verification/Instrumented.v ===== *)
(** * The instrumented Route 53 client

    pkg/dns/aws/client.go and metrics.go: every call of the provider to Route 53
    goes through a wrapper that counts it in Prometheus metrics.  A metric is a
    map from its label values; gauges and counters hold whole numbers. *)

From S2P Require Import Prelude GoStrings Kube ApiTypes Aws.
Local Open Scope go_scope.

(** ** The metrics *)

(** operation and return code *)
Definition OpCode : Type := string * string.

Record Route53Metrics := mkR53Metrics {
  (** gauge: requests in flight *)
  route53RequestCount : gmap string Z;
  route53RequestTotal : gmap OpCode Z;
  route53RequestErrors : gmap OpCode Z;
  (** histogram: the durations observed, in nanoseconds *)
  route53RequestDuration : gmap OpCode (list Z)
}.

Definition returnCodeLabelDefault : string := "".

(** [metric.WithLabelValues(k).Add(z)] *)
Definition addAt {K} `{Countable K} (z : Z) (k : K) (m : gmap K Z) : gmap K Z := <[k := (default 0 (m !! k) + z)%Z]> m.

Definition addCount (z : Z) (operation : string) (ms : Route53Metrics) : Route53Metrics :=
  mkR53Metrics (addAt z operation (route53RequestCount ms)) (route53RequestTotal ms) (route53RequestErrors ms)
    (route53RequestDuration ms).

Definition addError (z : Z) (k : OpCode) (ms : Route53Metrics) : Route53Metrics :=
  mkR53Metrics (route53RequestCount ms) (route53RequestTotal ms) (addAt z k (route53RequestErrors ms))
    (route53RequestDuration ms).

Definition addTotal (z : Z) (k : OpCode) (ms : Route53Metrics) : Route53Metrics :=
  mkR53Metrics (route53RequestCount ms) (addAt z k (route53RequestTotal ms)) (route53RequestErrors ms)
    (route53RequestDuration ms).

Definition observeDuration (k : OpCode) (d : Z) (ms : Route53Metrics) : Route53Metrics :=
  mkR53Metrics (route53RequestCount ms) (route53RequestTotal ms) (route53RequestErrors ms)
    (<[k := default [] (route53RequestDuration ms !! k) ++ [d]]> (route53RequestDuration ms)).

(** The methods of [InstrumentedRoute53], in the order of reflection. *)
Definition operationLabelValues : list string :=
  ["ChangeResourceRecordSets"; "ChangeTagsForResourceWithContext"; "CreateHealthCheck"; "CreateHostedZone";
   "DeleteHealthCheckWithContext"; "DeleteHostedZone"; "GetHealthCheckWithContext"; "GetHostedZone";
   "ListHostedZones"; "UpdateHealthCheckWithContext"; "UpdateHostedZoneComment"].

(** [init] *)
Definition initMetrics : Route53Metrics :=
  foldl (λ ms operation,
    addError 0 (operation, returnCodeLabelDefault)
      (addTotal 0 (operation, returnCodeLabelDefault)
        (mkR53Metrics (<[operation := 0%Z]> (route53RequestCount ms)) (route53RequestTotal ms)
           (route53RequestErrors ms) (route53RequestDuration ms))))
    (mkR53Metrics ∅ ∅ ∅ ∅) operationLabelValues.

(** ** The errors of the SDK *)

(** An [awserr.Error] that came back from the service, with its HTTP status,
    or another one, with its code. *)
Inductive AwsError :=
| RequestFailure (StatusCode : Z)
| GenericAwsError (Code : string).

(** The type assertions on an error of the SDK (aws-sdk-go). *)
Class AwsErrors := { asAwsError : goerror → option AwsError }.

Definition returnCode `{AwsErrors} (err : goerror) : string :=
  match asAwsError err with
  | Some (RequestFailure status) => strconv.Itoa status
  | Some (GenericAwsError code) => code
  | None => returnCodeLabelDefault
  end.

Section instrumented.

Context {W : Type} `{Route53API W} `{AwsErrors} `{Clock W}.

(** A call that does not see the metrics. *)
Definition onClient {A} (m : M W A) : M (Route53Metrics * W) A := λ w,
  let '(r, w') := m w.2 in (r, (w.1, w')).

Definition onMetrics (f : Route53Metrics → Route53Metrics) : M (Route53Metrics * W) unit := λ w,
  (Ok tt, (f w.1, w.2)).

(** [defer f()] *)
Definition deferMetrics {A} (f : Route53Metrics → Route53Metrics) (m : M (Route53Metrics * W) A)
  : M (Route53Metrics * W) A := λ w,
  let '(r, w') := m w in (r, (f w'.1, w'.2)).

(** The error counter is incremented before the code is known. *)
Definition observe {A} (operation : string) (f : M W A) : M (Route53Metrics * W) A :=
  let! start := onClient Now in
  do! onMetrics (addCount 1 operation) in
  deferMetrics (addCount (-1) operation)
    (let! r := try (onClient f) in
     let! now := onClient Now in
     let duration := (now - start)%Z in
     let! code :=
       match r with
       | inl _ => ret returnCodeLabelDefault
       | inr err =>
           do! onMetrics (addError 1 (operation, returnCodeLabelDefault)) in
           ret (returnCode err)
       end in
     do! onMetrics (observeDuration (operation, code) duration) in
     do! onMetrics (addTotal 1 (operation, code)) in
     match r with inl a => ret a | inr err => fail err end).

Definition instrumentedRoute53 : Route53API (Route53Metrics * W) := {|
  GetHostedZone id := observe "GetHostedZone" (GetHostedZone id);
  UpdateHostedZoneComment id comment := observe "UpdateHostedZoneComment" (UpdateHostedZoneComment id comment);
  CreateHostedZone callerRef name comment := observe "CreateHostedZone" (CreateHostedZone callerRef name comment);
  DeleteHostedZone id := observe "DeleteHostedZone" (DeleteHostedZone id);
  ListHostedZones := observe "ListHostedZones" ListHostedZones;
  ChangeResourceRecordSets zone changes := observe "ChangeResourceRecordSets" (ChangeResourceRecordSets zone changes);
  GetHealthCheck id := observe "GetHealthCheckWithContext" (GetHealthCheck id);
  CreateHealthCheck callerRef cfg := observe "CreateHealthCheck" (CreateHealthCheck callerRef cfg);
  ChangeTagsForResource id tags := observe "ChangeTagsForResourceWithContext" (ChangeTagsForResource id tags);
  UpdateHealthCheck input := observe "UpdateHealthCheckWithContext" (UpdateHealthCheck input);
  DeleteHealthCheck id := observe "DeleteHealthCheckWithContext" (DeleteHealthCheck id);
  nowStamp := onClient nowStamp
|}.
#[local] Existing Instance instrumentedRoute53.

(** ** Properties *)

(** Reading the clock changes nothing. *)
Context (Hclock : ∀ w : W, ∃ t, Now w = (Ok t, w)).

Definition inFlight (ms : Route53Metrics) (operation : string) : Z := default 0%Z (route53RequestCount ms !! operation).
Definition total (ms : Route53Metrics) (k : OpCode) : Z := default 0%Z (route53RequestTotal ms !! k).
Definition errorsOf (ms : Route53Metrics) (k : OpCode) : Z := default 0%Z (route53RequestErrors ms !! k).
Definition durations (ms : Route53Metrics) (k : OpCode) : list Z := default [] (route53RequestDuration ms !! k).

Lemma addAt_lookup {K} `{Countable K} z (k k' : K) m :
  default 0%Z (addAt z k m !! k') = (default 0 (m !! k') + if decide (k = k') then z else 0)%Z.
Proof. unfold addAt. destruct (decide (k = k')) as [->|]; [by rewrite lookup_insert_eq|]. rewrite lookup_insert_ne by done. lia. Qed.

(** What one finished call adds to the metrics. *)
Definition counted (operation : string) (r : option goerror) (ms ms' : Route53Metrics) : Prop :=
  let code := match r with Some err => returnCode err | None => returnCodeLabelDefault end in
  (∀ op, inFlight ms' op = inFlight ms op) ∧
  (∀ k, total ms' k = total ms k + if decide ((operation, code) = k) then 1 else 0)%Z ∧
  (∀ k, errorsOf ms' k = errorsOf ms k +
     match r with
     | Some _ => if decide ((operation, returnCodeLabelDefault) = k) then 1 else 0
     | None => 0
     end)%Z ∧
  ∃ d, ∀ k, durations ms' k = durations ms k ++ if decide ((operation, code) = k) then [d] else [].

(** The outcome of a wrapped call is the outcome of the call, and the metrics
    say how it ended; after a panic only the gauge was touched, and it is back
    where it was. *)
Lemma observe_spec {A} operation (f : M W A) ms w :
  ∃ ms', observe operation f (ms, w) = ((f w).1, (ms', (f w).2)) ∧
    match (f w).1 with
    | Ok _ => counted operation None ms ms'
    | Err err => counted operation (Some err) ms ms'
    | Panic => ∀ op, inFlight ms' op = inFlight ms op
    end.
Proof.
  unfold observe, bind, onClient, onMetrics, deferMetrics, try, ret, fail. cbn [fst snd].
  destruct (Hclock w) as [t ->]. cbn [fst snd]. destruct (f w) as [[a|err|] w'] eqn:Ef; cbn [fst snd].
  3: { eexists. split; [done|]. intros op. unfold inFlight. cbn [route53RequestCount addCount].
       rewrite !addAt_lookup. destruct (decide (operation = op)); lia. }
  all: destruct (Hclock w') as [t' ->]; cbn [fst snd]; eexists; (split; [done|]).
  all: unfold counted, inFlight, total, errorsOf, durations;
    cbn [route53RequestCount route53RequestTotal route53RequestErrors route53RequestDuration addCount addTotal addError observeDuration];
    split_and!.
  all: try (intros k; rewrite ?addAt_lookup; repeat case_decide; first [lia|done]).
  all: exists (t' - t)%Z; intros k; case_decide as Hk; [rewrite <- Hk; by rewrite lookup_insert_eq|].
  all: rewrite lookup_insert_ne by done; by rewrite app_nil_r.
Qed.

(** *** The provider on top of the client *)

(** The metrics after some calls: nothing more is in flight, the counters only
    grow, and there is a duration for every request counted. *)
Definition laterMetrics (ms ms' : Route53Metrics) : Prop :=
  (∀ op, inFlight ms' op = inFlight ms op) ∧
  (∀ k, total ms k ≤ total ms' k ∧ errorsOf ms k ≤ errorsOf ms' k)%Z ∧
  ((∀ k, total ms k = Z.of_nat (length (durations ms k))) → ∀ k, total ms' k = Z.of_nat (length (durations ms' k))).

#[local] Instance laterMetrics_refl : Reflexive laterMetrics.
Proof. intros ms. unfold laterMetrics. split_and!; done. Qed.

#[local] Instance laterMetrics_trans : Transitive laterMetrics.
Proof.
  intros ms1 ms2 ms3 (Hf1 & Hc1 & Hd1) (Hf2 & Hc2 & Hd2). split_and!.
  - intros op. by rewrite Hf2.
  - intros k. specialize (Hc1 k). specialize (Hc2 k). lia.
  - intros Hd. by apply Hd2, Hd1.
Qed.

Lemma counted_later operation r ms ms' : counted operation r ms ms' → laterMetrics ms ms'.
Proof.
  intros (Hf & Ht & He & d & Hd). split_and!; [done|..].
  - intros k. rewrite Ht, He. destruct r; repeat case_decide; lia.
  - intros Hlen k. rewrite Ht, Hd, Hlen, length_app. case_decide; simpl; lia.
Qed.

(** [m'] does what [m] does, besides counting. *)
Definition mirrors {A} (m : M W A) (m' : M (Route53Metrics * W) A) : Prop :=
  ∀ ms w, ∃ ms', m' (ms, w) = ((m w).1, (ms', (m w).2)) ∧ ((m w).1 ≠ Panic → laterMetrics ms ms').

Lemma mirrors_pure {A} (r : res A) : mirrors (lift r) (lift r).
Proof. intros ms w. by exists ms. Qed.

Lemma mirrors_bind {A B} (m : M W A) m' (k : A → M W B) k' :
  mirrors m m' → (∀ a, mirrors (k a) (k' a)) → mirrors (bind m k) (bind m' k').
Proof.
  intros Hm Hk ms w. unfold bind. destruct (Hm ms w) as (ms1 & -> & Hl1).
  destruct (m w) as [[a|e|] w1]; cbn [fst snd] in *.
  - destruct (Hk a ms1 w1) as (ms2 & -> & Hl2). exists ms2. split; [done|]. intros Hp. etrans; [by apply Hl1|by apply Hl2].
  - exists ms1. split; [done|]. intros _. by apply Hl1.
  - by exists ms1.
Qed.

Lemma mirrors_try {A} (m : M W A) m' : mirrors m m' → mirrors (try m) (try m').
Proof.
  intros Hm ms w. unfold try. destruct (Hm ms w) as (ms1 & -> & Hl). exists ms1.
  destruct (m w) as [[a|e|] w1]; cbn [fst snd] in *; (split; [done|]); intros Hp; by apply Hl.
Qed.

Lemma mirrors_observe {A} operation (f : M W A) : mirrors f (observe operation f).
Proof.
  intros ms w. destruct (observe_spec operation f ms w) as (ms' & -> & Hc). exists ms'. split; [done|].
  intros Hp. destruct (f w).1; [by eapply counted_later..|done].
Qed.

Lemma mirrors_onClient {A} (m : M W A) : mirrors m (onClient m).
Proof. intros ms w. unfold onClient. cbn [fst snd]. exists ms. by destruct (m w). Qed.

(** A provider function is taken apart at its calls and branches. *)
Ltac solve_mirrors :=
  repeat first
    [ apply mirrors_observe | apply mirrors_onClient | apply (mirrors_pure (Ok _)) | apply (mirrors_pure (Err _))
    | apply mirrors_pure | apply mirrors_try | apply mirrors_bind; [|intros ?] | progress (case_match; try done) ].

(** C22: the metrics do not get in the way: the Route 53 provider does on the
    instrumented client exactly what it would do on the bare one, for records,
    zones and the start-up check; unless a call panicked no request is left in
    flight, no counter went down, and every request that was counted has its
    duration. *)
Theorem instrumented_provider_transparent record zone :
  mirrors (aws_Ensure record zone) (aws_Ensure (H := instrumentedRoute53) record zone) ∧
  mirrors (aws_DeleteRecord record zone) (aws_DeleteRecord (H := instrumentedRoute53) record zone) ∧
  mirrors (aws_EnsureManagedZone zone) (aws_EnsureManagedZone (H := instrumentedRoute53) zone) ∧
  mirrors (aws_DeleteManagedZone zone) (aws_DeleteManagedZone (H := instrumentedRoute53) zone) ∧
  mirrors validateServiceEndpoints (validateServiceEndpoints (H := instrumentedRoute53)).
Proof.
  unfold aws_Ensure, aws_DeleteRecord, aws_EnsureManagedZone, aws_DeleteManagedZone, validateServiceEndpoints,
    aws_change, aws_updateRecord. split_and!; solve_mirrors.
Qed.

End instrumented.

(** ** Examples and witnesses *)

(** A service that answers every request with 400, throttling; the world is
    the time. *)
Definition throttling {A} : M Z A := fail (ErrText "Throttling: Rate exceeded").

#[local] Instance throttlingClient : Route53API Z := {|
  GetHostedZone _ := throttling; UpdateHostedZoneComment _ _ := throttling; CreateHostedZone _ _ _ := throttling;
  DeleteHostedZone _ := throttling; ListHostedZones := throttling; ChangeResourceRecordSets _ _ := throttling;
  GetHealthCheck _ := throttling; CreateHealthCheck _ _ := throttling; ChangeTagsForResource _ _ := throttling;
  UpdateHealthCheck _ := throttling; DeleteHealthCheck _ := throttling; nowStamp := ret "20230901120000"
|}.
#[local] Instance throttlingErrors : AwsErrors := {| asAwsError _ := Some (RequestFailure 400) |}.
#[local] Instance plainClock : Clock Z := {| Now := λ w, (Ok w, w) |}.

Definition exampleZone : ManagedZone :=
  mkManagedZone (newObjectMeta "zone" "infra") (mkManagedZoneSpec "Z1" "example.com" "" None ("infra", "aws"))
    (mkManagedZoneStatus [] 0 "Z1" 0 []).

Lemma instrumented_provider_transparent_witness :
  ∃ ms', aws_DeleteManagedZone (H := instrumentedRoute53) exampleZone (initMetrics, 7%Z) =
      (Err (ErrText "Throttling: Rate exceeded"), (ms', 7%Z)) ∧
    inFlight ms' "DeleteHostedZone" = 0%Z.
Proof.
  destruct (@instrumented_provider_transparent Z throttlingClient throttlingErrors plainClock (λ w, ex_intro _ w eq_refl)
    (mkDNSRecord (newObjectMeta "r" "infra") (mkDNSRecordSpec None []) emptyDNSRecordStatus) exampleZone)
    as (_ & _ & _ & Hdelete & _).
  destruct (Hdelete initMetrics 7%Z) as (ms' & Hrun & Hlater). exists ms'. split; [exact Hrun|].
  destruct Hlater as [Hflight _]; [discriminate|]. rewrite Hflight. vm_compute. reflexivity.
Defined.

(** The request is counted under its code, its failure is not: the label of
    the error counter is read before the code is set. *)
Example error_counted_without_code :
  let ms := (aws_DeleteManagedZone (H := instrumentedRoute53) exampleZone (initMetrics, 7%Z)).2.1 in
  total ms ("DeleteHostedZone", "400") = 1%Z ∧ errorsOf ms ("DeleteHostedZone", "400") = 0%Z ∧
  errorsOf ms ("DeleteHostedZone", "") = 1%Z.
Proof. vm_compute. done. Qed.
