(* ===== verification/ProbeWorker.v ===== *)
(** * Carrying out a probe

    What happens to a request taken off the queue: pkg/health/queuedProbeWorker.go
    ([process], [TransportWithDNSResponse]), pkg/health/metrics.go (the notifier
    that counts) and the notifier that writes the probe's status.  The request
    is sent to the host name of the listener, but the connection is made to the
    address of the cluster. *)

From S2P Require Import Prelude GoStrings GoNet Kube ApiTypes Health ProbeController MemApi.
Local Open Scope go_scope.

(** ** Metrics *)

(** gateway name, gateway namespace, listener *)
Definition ProbeLabels : Type := string * string * string.

Record ProbeMetrics := mkProbeMetrics {
  healthCheckAttempts : gmap ProbeLabels Z;
  healthCheckFailures : gmap ProbeLabels Z
}.

(** [counter.WithLabelValues(k).Inc()] *)
Definition inc (k : ProbeLabels) (m : gmap ProbeLabels Z) : gmap ProbeLabels Z := <[k := (default 0 (m !! k) + 1)%Z]> m.

(** ** Dialling *)

(** The connection a dialer opens, and an HTTP transport with its
    [DialContext]: scheme, host, port, path, headers, insecure (net and
    net/http). *)
Class Transport (W : Type) := {
  Conn : Type;
  dial : string → string → M W Conn;
  roundTrip : (string → string → M W Conn) → string → string → Z → string → list AdditionalHeader → bool → M W HttpOutcome;
  transportNow : M W Z
}.

Section worker.

Context {W : Type}.

(** The [DialContext] of [TransportWithDNSResponse(overrides)]. *)
Definition TransportWithDNSResponse `{Transport W} (overrides : StringMap) (network address : string) : M W Conn :=
  let! (host, port) := lift (net.SplitHostPort address) in
  match overrides !! host with
  | None => dial network address
  | Some newHost => dial network (net.JoinHostPort newHost port)
  end.

(** The client of [performRequest]: the request's host is overridden by its
    address. *)
#[local] Instance probeClient `{Transport W} : HttpClient W := {|
  httpGet scheme host port path address headers insecure :=
    roundTrip (TransportWithDNSResponse {[host := address]}) scheme host port path headers insecure;
  timeNow := transportNow
|}.

(** ** Notifiers *)

Context `{Client W DNSHealthCheckProbe}.

(** [Notify] of the notifier a request carries; whether to put the request
    back. *)
Fixpoint notify (n : ProbeNotifier) (result : ProbeResult) : M (ProbeMetrics * W) bool := λ w,
  match n with
  | StatusUpdateProbeNotifier probeObjKey =>
      let '(r, w') := Notify probeObjKey result w.2 in (r, (w.1, w'))
  | InstrumentedProbeNotifier gatewayName gatewayNamespace listener notifier =>
      let k := (gatewayName, gatewayNamespace, listener) in
      let attempts := inc k (healthCheckAttempts w.1) in
      let failures := if negb (prHealthy result) then inc k (healthCheckFailures w.1) else healthCheckFailures w.1 in
      notify notifier result (mkProbeMetrics attempts failures, w.2)
  end.

(** The goroutine of [process]: an error of the notifier is logged. *)
Definition process `{HttpClient W} (req : HealthRequest) : M (ProbeMetrics * W) bool :=
  let! result := λ w, let '(r, w') := performRequest req w.2 in (r, (w.1, w')) in
  let! requeue := try (notify (hrNotifier req) result) in
  ret (match requeue with inl requeue => requeue | inr _ => false end).

End worker.

(** ** Dialling the cluster *)

(** A host name or an address without brackets, a port of digits. *)
Definition plainHost (host : string) : Prop := occurs "["%char host = false ∧ occurs "]"%char host = false.
Definition plainPort (port : string) : Prop := plainHost port ∧ occurs ":"%char port = false.

(** C32: a probe goes to the address of its cluster.  However the transport
    dials the host of the request, on whatever port, the connection is opened
    to the probe's address on that port, an IPv6 address included; the dialled
    text can be taken apart into that address and port again.  A host the
    request is redirected to is dialled as it is. *)
Theorem probe_dials_address {W} `{Transport W} host address network port w :
  plainHost host → plainHost address → plainPort port →
  let dialContext := TransportWithDNSResponse {[host := address]} network in
  dialContext (net.JoinHostPort host port) w = dial network (net.JoinHostPort address port) w ∧
  net.SplitHostPort (net.JoinHostPort address port) = Ok (address, port) ∧
  ∀ other, plainHost other → other ≠ host →
    dialContext (net.JoinHostPort other port) w = dial network (net.JoinHostPort other port) w.
Proof.
  intros [Ho Hc] [Ao Ac] [[Po Pc] Pp]. cbn zeta. unfold TransportWithDNSResponse, bind, lift. split_and!.
  - rewrite Split_JoinHostPort by done. by rewrite lookup_singleton_eq.
  - by apply Split_JoinHostPort.
  - intros other [Oo Oc] Hne. rewrite Split_JoinHostPort by done. by rewrite lookup_singleton_ne.
Qed.

(** A transport that notes what it dials. *)
#[local] Instance notingTransport : Transport (list string) := {|
  Conn := unit;
  dial network address := λ w, (Ok tt, w ++ [address]);
  roundTrip dialContext scheme host port path headers insecure :=
    bind (dialContext "tcp" (net.JoinHostPort host (strconv.Itoa port))) (λ _, ret (Response 200));
  transportNow := ret 0%Z
|}.

Lemma probe_dials_address_witness :
  TransportWithDNSResponse {["shop.example.com" := "2001:db8::1"]} "tcp" "shop.example.com:443" [] =
  (Ok (tt : Conn (W := list string)), ["[2001:db8::1]:443"]).
Proof.
  refine (proj1 (probe_dials_address "shop.example.com" "2001:db8::1" "tcp" "443" [] _ _ _));
    repeat split; vm_compute; reflexivity.
Defined.

Example probe_request_dials :
  (performRequest (H := probeClient) (W := list string)
     (mkHealthRequest "shop.example.com" "/healthz" "172.18.0.5" "HTTPS" 443 [] None true
        (StatusUpdateProbeNotifier ("infra", "p"))) []).2 = ["172.18.0.5:443"].
Proof. vm_compute. reflexivity. Qed.
