(* ===== verification/HealthFlow.v ===== *)
(** * From probe results to DNS: unhealthy addresses are withdrawn

    The path of a probe's results through the components: the worker's notifier
    ([ProbeWorker]) writes them into the probe object ([ProbeController]), the
    DNS policy reads the probes of its gateway ([DnsHelper]) and leaves the
    failing endpoints out ([EndpointHealth]). *)

From S2P Require Import Prelude GoStrings Kube MemApi ApiTypes GatewayApi Target EndpointHealth Endpoints EndpointProps DnsHelper HealthChecks Health ProbeController ProbeWorker.
Local Open Scope go_scope.

(** The probe object a notifier reports to. *)
Fixpoint notifierKey (n : ProbeNotifier) : ObjectKey :=
  match n with
  | StatusUpdateProbeNotifier key => key
  | InstrumentedProbeNotifier _ _ _ n => notifierKey n
  end.

Section flow.

Context {W : Type} `{Client W DNSRecord} `{!ApiStore W DNSRecord} `{!ApiLaws W DNSRecord}.
Context `{Client W DNSHealthCheckProbe} `{!ApiStore W DNSHealthCheckProbe} `{!ApiLaws W DNSHealthCheckProbe}.
Context `{TargetEnv} `{MapRange} `{SortSlice}.
Context (HmetaR : ∀ r : DNSRecord, metaOf r = recMeta r) (HmetaP : ∀ p : DNSHealthCheckProbe, metaOf p = probeMeta p).
(** Listing probes does not touch records, and an update keeps the spec. *)
Context (Hframe : ∀ opts w, objs (O := DNSRecord) (clList (O := DNSHealthCheckProbe) opts w).2 = objs w).
Context (Hkeeps : ∀ r r' : DNSRecord, keeps r r' → recSpec r' = recSpec r).
(** A status update that is accepted stores the status; labels and spec stay. *)
Context (Hstatus : StatusUpdates (O := DNSHealthCheckProbe) (λ p, (Labels (probeMeta p), probeSpec p, probeStatus p))).

Implicit Types (n : ProbeNotifier) (w : ProbeMetrics * W) (p : DNSHealthCheckProbe).

Definition storedProbe (w : W) (key : ObjectKey) : option DNSHealthCheckProbe := objs w !! key.

(** The results [history] were reported through [n], in this order: a report
    may be lost (a conflict puts the request back, an error is logged), and
    between the reports anything may happen that leaves the probe object
    alone. *)
Inductive Reported (n : ProbeNotifier) : list ProbeResult → ProbeMetrics * W → ProbeMetrics * W → Prop :=
| Reported_none w : Reported n [] w w
| Reported_stored history r w w1 w2 :
    Reported n history w w1 → notify n r w1 = (Ok false, w2) → Reported n (history ++ [r]) w w2
| Reported_lost history r outcome w w1 w2 :
    Reported n history w w1 → notify n r w1 = (outcome, w2) → outcome ≠ Ok false → Reported n history w w2
| Reported_other history w w1 w2 :
    Reported n history w w1 → storedProbe w2.2 (notifierKey n) = storedProbe w1.2 (notifierKey n) →
    Reported n history w w2.

(** A report that gets through changes the status and nothing else. *)
Lemma notify_spec n r w outcome w' :
  notify n r w = (outcome, w') →
  (outcome ≠ Ok false → storedProbe w'.2 (notifierKey n) = storedProbe w.2 (notifierKey n)) ∧
  (outcome = Ok false → ∃ p p',
     storedProbe w.2 (notifierKey n) = Some p ∧ storedProbe w'.2 (notifierKey n) = Some p' ∧
     Labels (probeMeta p') = Labels (probeMeta p) ∧ probeSpec p' = probeSpec p ∧
     probeStatus p' = notifyStatus r (probeStatus p)).
Proof.
  unfold storedProbe. revert w. induction n as [key|gn gns l n IH]; intros w; cbn [notify notifierKey].
  2: { intros Hrun. by apply IH in Hrun. }
  unfold Notify, bind, try, ret, fail.
  destruct (clGet key w.2) as [[p|e|] w1] eqn:Eg; apply api_get in Eg as [Hw1 Hp];
    [|intros ?; simplify_eq; cbn [snd]; by rewrite Hw1|done].
  destruct (clStatusUpdate _ w1) as [[p'|e|] w2] eqn:Eu; apply Hstatus in Eu; [| |done].
  - destruct Eu as [Hw2 Hst]. intros ?. simplify_eq. cbn [snd]. split; [done|]. intros _.
    exists p, p'. rewrite Hw2. simplify_eq/=. split_and!; try done.
    apply api_key in Hp. unfold oKey in *. rewrite HmetaP in *. cbn [probeMeta set_probeStatus].
    by rewrite Hp, lookup_insert_eq.
  - destruct (IsConflict e); intros ?; simplify_eq; cbn [snd]; by rewrite Eu, Hw1.
Qed.

Lemma reported_status n history w w' p :
  Reported n history w w' → storedProbe w.2 (notifierKey n) = Some p → probeStatus p = emptyProbeStatus →
  ∃ p', storedProbe w'.2 (notifierKey n) = Some p' ∧ Labels (probeMeta p') = Labels (probeMeta p) ∧
    probeSpec p' = probeSpec p ∧ probeStatus p' = statusAfter history.
Proof.
  intros Hrep Hp Hst.
  induction Hrep as [w|history r w w1 w2 _ IH Hn|history r outcome w w1 w2 _ IH Hn Hne|history w w1 w2 _ IH Hsame];
    [by exists p|destruct (IH Hp) as (p1 & Hp1 & Hl & Hs & Hst1)..].
  - destruct (proj2 (notify_spec _ _ _ _ _ Hn) eq_refl) as (q & q' & Hq & Hq' & Hl' & Hs' & Hst').
    rewrite Hp1 in Hq. simplify_eq. exists q'. unfold statusAfter. rewrite foldl_snoc.
    split_and!; [done|congruence..|]. by rewrite Hst', Hst1.
  - exists p1. by rewrite (proj1 (notify_spec _ _ _ _ _ Hn) Hne).
  - exists p1. by rewrite Hsame.
Qed.

(** The endpoint is one of those the address would be reached by. *)
Definition targets (address : string) (e : Endpoint) : Prop := address ∈ Targets e.

(** The probes of the gateway and policy that the server holds. *)
Definition policyProbes (w : W) (gw : Gateway) (dnsPolicy : DNSPolicy) : list DNSHealthCheckProbe :=
  stored w (mkListOptions (Namespace (polMeta dnsPolicy))
              (commonDNSRecordLabels (objectKey (gwMeta gw)) (objectKey (polMeta dnsPolicy)))).

(** C7: an unhealthy address is withdrawn.  The probe expected for a listener
    and an address of its gateway is stored and fresh; results are reported to
    it, of which the last ones, as many as the policy's failure threshold (at
    the threshold already: the code compares with [>=], where the guide and a
    comment say greater), are unhealthy; then the record of the listener is reconciled.  Either no
    endpoint stored in the record leads to that address, or nothing healthy
    that resolves could have been published and the record holds the full
    set. *)
Theorem unhealthy_address_withdrawn mcgTarget record dnsPolicy listener hc interval address host
    threshold n w0 w1 p0 before lasts (w' : W) :
  let gw := mcgGateway mcgTarget in
  let expected := expectedProbe gw dnsPolicy hc interval address listener host in
  Namespace (polMeta dnsPolicy) = Namespace (gwMeta gw) →
  hcFailureThreshold hc = Some (Z.of_nat threshold) → 1 ≤ threshold →
  notifierKey n = objectKey (probeMeta expected) →
  storedProbe w0.2 (notifierKey n) = Some p0 →
  Labels (probeMeta p0) = Labels (probeMeta expected) → probeSpec p0 = probeSpec expected →
  probeStatus p0 = emptyProbeStatus →
  Reported n (before ++ lasts) w0 w1 → (Z.of_nat (length (before ++ lasts)) ≤ strconv.max_int64)%Z →
  threshold ≤ length lasts → Forall (λ r, prHealthy r = false) lasts →
  objs w1.2 !! oKey record = Some record →
  setEndpoints mcgTarget record dnsPolicy listener w1.2 = (Ok tt, w') →
  ∃ stored' eps probes, objs w' !! oKey record = Some stored' ∧
    newEndpoints mcgTarget (Endpoints (recSpec record)) listener = Ok eps ∧
    probes ≡ₚ policyProbes w1.2 gw dnsPolicy ∧
    (Forall (λ e, ¬ targets address e) (Endpoints (recSpec stored')) ∨
     Endpoints (recSpec stored') = eps ∧
     ∀ part, closed part → part ⊆ eps →
       Forall (λ e, endpointFailing probes (Name (gwMeta gw)) (lName listener) e = false) part → part = []).
Proof.
  intros gw expected Hns Hthr Hpos Hkey Hp0 Hlabels Hspec Hfresh Hrep Hlen Hlasts Hbad Hrec Hset.
  destruct (reported_status _ _ _ _ _ Hrep Hp0 Hfresh) as (p & Hp & Hpl & Hps & Hpst).
  assert (probeFailing p = true) as Hfail.
  { apply (failing_trailing p (before ++ lasts) threshold); [by rewrite Hps, Hspec|done..|].
    apply trailing_all; [done|]. exists (before ++ take (length lasts - threshold) lasts), (drop (length lasts - threshold) lasts).
    rewrite <- app_assoc, take_drop, length_drop. split_and!; [done|lia|by apply Forall_drop]. }
  destruct (setEndpoints_stores HmetaR Hframe Hkeeps _ _ _ _ _ _ Hrec Hset)
    as (eps & probes & published & stored' & Heps & Hprobes & Hpub & Hst' & Hends & _).
  exists stored', eps, probes. split_and!; [done..|]. rewrite Hends. clear Hends.
  assert (Name (probeMeta p) = dnsHealthCheckProbeName address (Name (gwMeta gw)) (lName listener)
    ∧ Namespace (probeMeta p) = Namespace (gwMeta gw)) as [Hname Hpns].
  { unfold storedProbe in Hp. apply api_key in Hp. unfold oKey in Hp. rewrite HmetaP, Hkey in Hp.
    unfold objectKey in Hp. by simplify_eq/=. }
  assert (p ∈ probes) as Hin.
  { rewrite Hprobes. apply elem_of_stored. split; [by eexists|]. rewrite HmetaP. unfold matches. cbn [lo_namespace lo_labels].
    rewrite andb_true_iff, !bool_decide_eq_true, Hpl, Hlabels, Hpns. split; [by right|done]. }
  destruct (decide (Exists (λ e, address ∈ Targets e) published)) as [Hex|Hno].
  - right. apply Exists_exists in Hex as (e & He & Ht).
    assert (endpointFailing probes (Name (gwMeta gw)) (lName listener) e = true) as Hf.
    { unfold endpointFailing. apply existsb_exists. exists p. split; [|done]. apply list_elem_of_In.
      by eapply elem_of_getProbesForEndpoint. }
    by apply (failing_published_only_as_fallback _ _ _ _ _ _ Hpub He Hf).
  - left. apply not_Exists_Forall in Hno; [|apply _]. done.
Qed.

End flow.

(** ** An example *)

#[local] Existing Instance recordsClient.
#[local] Existing Instance recordsStore.
#[local] Existing Instance recordsLaws.
#[local] Existing Instance probesClient.
#[local] Existing Instance probesStore.
#[local] Existing Instance probesLaws.
#[local] Existing Instance exampleEnv.
#[local] Existing Instance range_in_key_order.
#[local] Existing Instance sort_by_merging.

Definition flowCheck : HealthCheckSpec := mkHealthCheckSpec "/healthz" None None (Some 2%Z) None None false None.

(** The probe of the load balancer of the second cluster. *)
Definition flowProbe : DNSHealthCheckProbe :=
  expectedProbe (mcgGateway exampleTarget) examplePolicy flowCheck 60 "elb.example.net" exampleListener "shop.example.com".

Definition flowNotifier : ProbeNotifier :=
  InstrumentedProbeNotifier "prod" "infra" "api" (StatusUpdateProbeNotifier (objectKey (probeMeta flowProbe))).

Definition flowStart : ProbeMetrics * exampleWorld :=
  (mkProbeMetrics ∅ ∅,
   ({[("infra", "prod-api") := exampleRecord "api"]}, {[objectKey (probeMeta flowProbe) := flowProbe]})).

Definition timedOut : ProbeResult := mkProbeResult 5 "timeout" 0 false.
Definition flowOnce : ProbeMetrics * exampleWorld := (notify flowNotifier timedOut flowStart).2.
Definition flowTwice : ProbeMetrics * exampleWorld := (notify flowNotifier timedOut flowOnce).2.

Definition flowReconciled : res unit * exampleWorld :=
  setEndpoints exampleTarget (exampleRecord "api") examplePolicy exampleListener flowTwice.2.

Lemma unhealthy_address_withdrawn_witness :
  ∃ stored' eps probes, objs flowReconciled.2 !! ("infra", "prod-api") = Some stored' ∧
    newEndpoints exampleTarget exampleExisting exampleListener = Ok eps ∧
    probes ≡ₚ policyProbes flowTwice.2 (mcgGateway exampleTarget) examplePolicy ∧
    (Forall (λ e, ¬ targets "elb.example.net" e) (Endpoints (recSpec stored')) ∨
     Endpoints (recSpec stored') = eps ∧
     ∀ part, closed part → part ⊆ eps →
       Forall (λ e, endpointFailing probes "prod" "api" e = false) part → part = []).
Proof.
  apply (@unhealthy_address_withdrawn exampleWorld recordsClient recordsStore recordsLaws probesClient probesStore probesLaws
    _ _ _ (λ r, eq_refl) (λ p, eq_refl) (λ opts w, eq_refl) (λ r r' (H : r' = r), f_equal recSpec H)
    (mem_status snd (λ m w, (w.1, m)) probeMeta (λ r r', r' = r) (λ m w, eq_refl) _) exampleTarget (exampleRecord "api") examplePolicy exampleListener flowCheck 60 "elb.example.net"
    "shop.example.com" 2 flowNotifier flowStart flowTwice flowProbe [] [timedOut; timedOut] flowReconciled.2).
  12: { repeat constructor. }
  9: { apply (Reported_stored flowNotifier [timedOut] timedOut flowStart flowOnce).
       - apply (Reported_stored flowNotifier [] timedOut flowStart flowStart); [constructor|]. vm_compute. reflexivity.
       - vm_compute. reflexivity. }
  all: try (vm_compute; reflexivity). all: try lia. vm_compute. discriminate.
Defined.

(** The second cluster and its geo are gone from the record. *)
Example flow_withdraws :
  Endpoints (recSpec (default (exampleRecord "api") (objs flowReconciled.2 !! ("infra", "prod-api")))) =
  [mkEndpoint "east00.lb-prod-i.shop.example.com" ["10.0.0.1"; "10.0.0.2"] "A" "" 60 ∅ [];
   mkEndpoint "ie.lb-prod-i.shop.example.com" ["east00.lb-prod-i.shop.example.com"] "CNAME"
     "east00.lb-prod-i.shop.example.com" 60 ∅ [mkProperty "weight" "120"];
   mkEndpoint "lb-prod-i.shop.example.com" ["ie.lb-prod-i.shop.example.com"] "CNAME" "IE" 300 ∅
     [mkProperty "geo-code" "IE"];
   mkEndpoint "lb-prod-i.shop.example.com" ["ie.lb-prod-i.shop.example.com"] "CNAME" "default" 300 ∅
     [mkProperty "geo-code" "*"; mkProperty "aws/health-check-id" "hc-1"];
   mkEndpoint "shop.example.com" ["lb-prod-i.shop.example.com"] "CNAME" "" 300 ∅ []].
Proof. vm_compute. reflexivity. Qed.
