(* ===== verification/DnsFlow.v ===== *)
(** * From the clusters to the zone: what Route 53 ends up serving

    The endpoints that the DNS policy builds for a listener ([Endpoints]),
    published by the Route 53 provider ([Aws]): a Route 53 that applies the
    change batches it accepts holds, after [Ensure], a chain of record sets from
    the listener's host to every address of every cluster. *)

From S2P Require Import Prelude GoStrings Kube ApiTypes GatewayApi Target Endpoints EndpointProps Google Aws.
Local Open Scope go_scope.

(** ** A hosted zone

    Route 53 tells record sets apart by name, type and set identifier. *)

Definition SetKey : Type := string * string * option string.
Abbreviation HostedRecords := (gmap SetKey R53RecordSet).

Definition setKey (s : R53RecordSet) : SetKey := (r53Name s, r53Type s, r53SetIdentifier s).

(** "UPSERT: If a resource record set doesn't already exist, Route 53 creates
    it. If a resource record set does exist, Route 53 updates it with the values
    in the request"; "DELETE: Deletes a existing resource record set". *)
Definition applyChange (z : HostedRecords) (c : R53Change) : HostedRecords :=
  match r53Action c with
  | upsertAction => <[setKey (r53RecordSet c) := r53RecordSet c]> z
  | deleteAction => delete (setKey (r53RecordSet c)) z
  end.

Definition applyChanges (z : HostedRecords) (changes : list R53Change) : HostedRecords := foldl applyChange z changes.

(** A record set of the zone answers for [name] with [target]. *)
Definition answers (z : HostedRecords) (name target : string) : Prop :=
  ∃ s, z !! setKey s = Some s ∧ r53Name s = name ∧ target ∈ r53Records s.

(** The same, with a weight. *)
Definition answersWeighted (z : HostedRecords) (name target : string) (weight : Z) : Prop :=
  ∃ s, z !! setKey s = Some s ∧ r53Name s = name ∧ target ∈ r53Records s ∧ r53Weight s = Some weight.

(** ** Applying a batch *)

(** The sets a batch leaves alone. *)
Lemma applyChanges_other z cs k :
  Forall (λ c, setKey (r53RecordSet c) ≠ k) cs → applyChanges z cs !! k = z !! k.
Proof.
  unfold applyChanges. revert z. induction cs as [|c cs IH]; intros z; [done|]. simpl. intros [Hc Hcs]%Forall_cons.
  rewrite IH by done. unfold applyChange. destruct (r53Action c); [by rewrite lookup_insert_ne|by rewrite lookup_delete_ne].
Qed.

(** A change whose key no later change touches is in force. *)
Lemma applyChanges_last z before c after :
  Forall (λ c', setKey (r53RecordSet c') ≠ setKey (r53RecordSet c)) after →
  applyChanges z (before ++ c :: after) !! setKey (r53RecordSet c) =
  match r53Action c with upsertAction => Some (r53RecordSet c) | deleteAction => None end.
Proof.
  intros Hafter. unfold applyChanges. rewrite foldl_app. simpl.
  change (foldl applyChange ?z ?l) with (applyChanges z l). rewrite applyChanges_other by done.
  unfold applyChange. destruct (r53Action c); [by rewrite lookup_insert_eq|by rewrite lookup_delete_eq].
Qed.

(** The id of an endpoint can be read off its key. *)
Definition keyID (k : SetKey) : string := k.1.1 +:+ default "" k.2.

(** Where the set of an endpoint is, and what it says. *)
Definition keyOf (e : Endpoint) : SetKey :=
  (DNSName e, RecordType e, if bool_decide (SetIdentifier e = "") then None else Some (SetIdentifier e)).
Definition setOf (e : Endpoint) : option R53RecordSet :=
  match changeForEndpoint e upsertAction with Ok c => Some (r53RecordSet c) | _ => None end.

Lemma change_key e act c : changeForEndpoint e act = Ok c → setKey (r53RecordSet c) = keyOf e.
Proof.
  unfold changeForEndpoint. destruct (_ && _); [done|]. case_bool_decide; [done|]. case_bool_decide; [done|].
  intros ?. by simplify_eq.
Qed.

Lemma keyOf_SetID e : keyID (keyOf e) = SetID e.
Proof. unfold keyID, keyOf, SetID. simpl. by case_bool_decide as Hid; [rewrite Hid|]. Qed.

Lemma change_keyID e act c : changeForEndpoint e act = Ok c → keyID (setKey (r53RecordSet c)) = SetID e.
Proof. intros Hc. by rewrite (change_key _ _ _ Hc), keyOf_SetID. Qed.

(** After an update batch of a record whose endpoints have distinct ids, every
    endpoint of the spec is in the zone as it is published, and no endpoint
    that left the spec is. *)
Lemma recordChanges_in_force record changes z :
  NoDup (SetID <$> Endpoints (recSpec record)) → recordChanges record upsertAction = Ok changes →
  Forall (λ e, ∃ c, changeForEndpoint e upsertAction = Ok c ∧
    applyChanges z changes !! setKey (r53RecordSet c) = Some (r53RecordSet c)) (Endpoints (recSpec record)).
Proof.
  intros Hnd Hch. pose proof (upsert_changes _ _ Hch) as (ups & dels & -> & Hups & Hdels). clear Hch.
  apply Forall_forall. intros e He. apply list_elem_of_split in He as (es1 & es2 & Hsplit).
  rewrite Hsplit in Hups, Hdels, Hnd. apply Forall2_app_inv_l in Hups as (cs1 & cs2 & _ & Hcs2 & ->).
  apply Forall2_cons_inv_l in Hcs2 as (c & cs2' & Hc & Hcs2 & ->). exists c. split; [done|].
  rewrite <- app_assoc, <- app_comm_cons.
  rewrite applyChanges_last; [by rewrite (proj1 (changeForEndpoint_Ok _ _ _ Hc))|].
  rewrite fmap_app, fmap_cons in Hnd. apply NoDup_app in Hnd as (_ & _ & [Hnin _]%NoDup_cons).
  apply Forall_app. split.
  - apply Forall_forall. intros c' Hc' Heq. apply Hnin.
    apply list_elem_of_lookup in Hc' as [i Hi]. destruct (Forall2_lookup_r _ _ _ _ _ Hcs2 Hi) as (e' & He' & Hce').
    apply (f_equal keyID) in Heq. rewrite (change_keyID _ _ _ Hce'), (change_keyID _ _ _ Hc) in Heq.
    rewrite <- Heq. apply list_elem_of_fmap_2. by eapply list_elem_of_lookup_2.
  - apply Forall_forall. intros c' Hc' Heq.
    apply list_elem_of_lookup in Hc' as [i Hi]. destruct (Forall2_lookup_r _ _ _ _ _ Hdels Hi) as (e' & He' & Hce').
    apply list_elem_of_lookup_2, list_elem_of_filter in He' as [Hstale _]. apply Hstale.
    apply (f_equal keyID) in Heq. rewrite (change_keyID _ _ _ Hce'), (change_keyID _ _ _ Hc) in Heq.
    rewrite Heq. apply list_elem_of_fmap_2, elem_of_app. right. apply list_elem_of_here.
Qed.

Lemma applyChanges_deleted z before dels k :
  Forall (λ c, r53Action c = deleteAction) dels → k ∈ (setKey ∘ r53RecordSet <$> dels) →
  applyChanges z (before ++ dels) !! k = None.
Proof.
  unfold applyChanges. rewrite foldl_app. generalize (foldl applyChange z before) as z'. intros z' Hd Hk.
  induction dels as [|c dels IH] using rev_ind; [by apply not_elem_of_nil in Hk|].
  rewrite foldl_snoc. apply Forall_app in Hd as [Hd Hc]. apply Forall_cons in Hc as [Hc _]. simpl in Hc.
  unfold applyChange at 1. rewrite Hc. rewrite fmap_app, elem_of_app in Hk.
  destruct (decide (setKey (r53RecordSet c) = k)) as [<-|Hne]; [by rewrite lookup_delete_eq|].
  rewrite lookup_delete_ne by done. apply IH; [done|]. destruct Hk as [?|Hk]; [done|].
  by apply list_elem_of_singleton in Hk.
Qed.

Lemma deletions_delete eps dels :
  Forall2 (λ e c, changeForEndpoint e deleteAction = Ok c) eps dels → Forall (λ c, r53Action c = deleteAction) dels.
Proof. induction 1 as [|e c eps dels Hc _ IH]; constructor; [|done]. by apply changeForEndpoint_Ok in Hc as [? _]. Qed.

Lemma recordChanges_stale record changes z e c :
  recordChanges record upsertAction = Ok changes → e ∈ recEndpoints (recStatus record) →
  SetID e ∉ (SetID <$> Endpoints (recSpec record)) → changeForEndpoint e deleteAction = Ok c →
  applyChanges z changes !! setKey (r53RecordSet c) = None.
Proof.
  intros (ups & dels & -> & _ & Hdels)%upsert_changes He Hstale Hc. apply applyChanges_deleted.
  - by eapply deletions_delete.
  - assert (e ∈ filter (λ e, SetID e ∉ (SetID <$> Endpoints (recSpec record))) (recEndpoints (recStatus record)))
      as [i Hi]%list_elem_of_lookup by (by apply list_elem_of_filter).
    destruct (Forall2_lookup_l _ _ _ _ _ Hdels Hi) as (c' & Hc' & Heq). rewrite Hc in Heq. simplify_eq.
    apply (list_elem_of_fmap_2 (setKey ∘ r53RecordSet)). by eapply list_elem_of_lookup_2.
Qed.

(** ** One update of a zone *)

(** The zone [z] serves exactly [eps], each as Route 53 is told, besides what
    [z0] has. *)
Definition inForce (z0 : HostedRecords) (eps : list Endpoint) (z : HostedRecords) : Prop :=
  (∀ e, e ∈ eps → is_Some (setOf e) ∧ z !! keyOf e = setOf e) ∧
  (∀ k, k ∉ (keyOf <$> eps) → z !! k = z0 !! k).

(** The keys of the deletions are those of published endpoints. *)
Lemma deletions_keys eps dels k :
  Forall2 (λ e c, changeForEndpoint e deleteAction = Ok c) eps dels →
  k ∈ (setKey ∘ r53RecordSet <$> dels) ↔ k ∈ (keyOf <$> eps).
Proof.
  induction 1 as [|e c eps dels Hc _ IH]; [done|]. rewrite !fmap_cons, !elem_of_cons, IH. simpl.
  by rewrite (change_key _ _ _ Hc).
Qed.

Lemma upserts_keys eps ups k :
  Forall2 (λ e c, changeForEndpoint e upsertAction = Ok c) eps ups → k ∉ (keyOf <$> eps) →
  Forall (λ c, setKey (r53RecordSet c) ≠ k) ups.
Proof.
  induction 1 as [|e c eps ups Hc _ IH]; [constructor|]. rewrite fmap_cons, not_elem_of_cons. intros [Hne Hk].
  constructor; [|by apply IH]. rewrite (change_key _ _ _ Hc). by apply not_eq_sym.
Qed.

(** One update: the batch of the spec applied to a zone that holds the endpoints
    of the status leaves exactly the spec's. *)
Lemma update_in_force (z0 z : HostedRecords) record changes :
  recordChanges record upsertAction = Ok changes →
  NoDup (SetID <$> Endpoints (recSpec record)) →
  Forall (λ e, z0 !! keyOf e = None) (recEndpoints (recStatus record)) →
  (∀ e e', e ∈ recEndpoints (recStatus record) → e' ∈ Endpoints (recSpec record) → SetID e = SetID e' →
     keyOf e = keyOf e') →
  inForce z0 (recEndpoints (recStatus record)) z →
  inForce z0 (Endpoints (recSpec record)) (applyChanges z changes).
Proof.
  intros Hch Hnd Hfresh Hstable [_ IHout]. split.
  - intros e He. pose proof (recordChanges_in_force record changes z Hnd Hch) as Hforce.
    rewrite Forall_forall in Hforce. destruct (Hforce e He) as (c & Hc & Hin).
    unfold setOf. rewrite Hc. rewrite (change_key _ _ _ Hc) in Hin. split; [by eexists|done].
  - intros k Hk. pose proof (upsert_changes _ _ Hch) as (ups & dels & -> & Hups & Hdels).
    pose proof (deletions_keys _ _ k Hdels) as Hkeys.
    destruct (decide (k ∈ (setKey ∘ r53RecordSet <$> dels))) as [Hd|Hd].
    + rewrite applyChanges_deleted; [|by eapply deletions_delete|done].
      apply Hkeys, list_elem_of_fmap in Hd as (e & -> & [_ He]%list_elem_of_filter).
      rewrite Forall_forall in Hfresh. symmetry. by apply Hfresh.
    + rewrite applyChanges_other, IHout; [done| |].
      * intros (e & -> & He)%list_elem_of_fmap. apply Hd, Hkeys, list_elem_of_fmap_2, list_elem_of_filter. split; [|done].
        intros (e' & Hid & He')%list_elem_of_fmap. apply Hk. rewrite (Hstable e e' He He' Hid). by apply list_elem_of_fmap_2.
      * apply Forall_app. split; [by eapply upserts_keys|].
        apply Forall_forall. intros c Hc Heq. apply Hd. rewrite <- Heq. by apply (list_elem_of_fmap_2 (setKey ∘ r53RecordSet)).
Qed.

(** ** The batch of a listener's endpoints *)

Definition publishable (e : Endpoint) : Prop := ∀ act, ∃ c, changeForEndpoint e act = Ok c.

Lemma publishable_intro e :
  RecordType e = ARecordType ∨ RecordType e = CNAMERecordType → DNSName e ≠ "" → Targets e ≠ [] → publishable e.
Proof.
  intros Hty Hn Ht act. unfold changeForEndpoint.
  rewrite (bool_decide_eq_false_2 (DNSName e = "")), (bool_decide_eq_false_2 (Targets e = [])) by done.
  destruct Hty as [Hty|Hty]; rewrite Hty; eexists; reflexivity.
Qed.

(** A batch is made whenever every endpoint of the record is publishable. *)
Lemma recordChanges_total record :
  Forall publishable (Endpoints (recSpec record)) → Forall publishable (recEndpoints (recStatus record)) →
  ∃ changes, recordChanges record upsertAction = Ok changes.
Proof.
  intros Hspec Hstatus. unfold recordChanges.
  assert (∀ expected changes, ∃ out, specChanges upsertAction (Endpoints (recSpec record)) expected changes = Ok out) as Hs.
  { induction Hspec as [|e eps He _ IH]; intros expected changes; cbn [specChanges]; [by eexists|].
    destruct (He upsertAction) as [c ->]. apply IH. }
  destruct (Hs ∅ []) as [[expected changes] ->]. cbn [rbind]. clear Hs Hspec.
  revert changes. induction Hstatus as [|e eps He _ IH]; intros changes; cbn [staleChanges]; [by eexists|].
  case_decide; [apply IH|]. destruct (He deleteAction) as [c ->]. apply IH.
Qed.

Section flow.

Context `{TargetEnv} `{MapRange} `{SortSlice}.
Implicit Types (mcgTarget : MultiClusterGatewayTarget) (listener : Listener).

Lemma endpoints_publishable mcgTarget existing listener host eps :
  EndpointsPre mcgTarget listener host → host ≠ "" → newEndpoints mcgTarget existing listener = Ok eps →
  Forall publishable eps.
Proof.
  intros Hpre Hhost He. destruct (newEndpoints_perm _ existing _ _ Hpre) as (eps' & He' & Hp & _).
  rewrite He in He'. simplify_eq. apply Forall_forall. intros e Hin. rewrite Hp in Hin.
  apply list_elem_of_fmap in Hin as (r & -> & Hr). destruct (requested_fields existing r) as (Hn & Hts & Hty).
  pose proof (request_named _ _ _ Hhost Hr). apply request_well_typed in Hr.
  apply publishable_intro; rewrite ?Hn, ?Hts, ?Hty; [|done|].
  - destruct Hr as [[? _]|[? _]]; auto.
  - destruct Hr as [(_ & ? & _)|(_ & target & -> & _)]; done.
Qed.

Lemma endpoints_distinct mcgTarget existing listener host eps :
  EndpointsPre mcgTarget listener host → keepsIds existing (endpointRequests mcgTarget host) →
  newEndpoints mcgTarget existing listener = Ok eps → NoDup (SetID <$> eps).
Proof.
  intros Hpre Hk He. destruct (newEndpoints_perm _ existing _ _ Hpre) as (eps' & He' & Hp & _).
  rewrite He in He'. simplify_eq. rewrite Hp, requested_SetIDs by done. apply (pre_ids _ _ _ Hpre).
Qed.

(** *** What the zone serves *)

Context {W : Type} `{Route53API W} (zoneOf : W → string → HostedRecords).

(** A change batch that Route 53 accepts is applied to the zone. *)
Context (Happly : ∀ id changes w w',
  ChangeResourceRecordSets id changes w = (Ok tt, w') → zoneOf w' id = applyChanges (zoneOf w id) changes).

(** A successful [Ensure] of a record with endpoints applies its batch. *)
Lemma aws_Ensure_applies record mz w w' :
  Endpoints (recSpec record) ≠ [] → aws_Ensure record mz w = (Ok tt, w') →
  ∃ changes, recordChanges record upsertAction = Ok changes ∧
    zoneOf w' (zID (zStatus mz)) = applyChanges (zoneOf w (zID (zStatus mz))) changes.
Proof.
  unfold aws_Ensure, aws_change, aws_updateRecord, bind, try, lift, ret, fail.
  destruct (Endpoints (recSpec record)) as [|e eps] eqn:Heps; [done|]. intros _.
  destruct (recordChanges record upsertAction) as [changes| |]; try done.
  destruct changes as [|c changes]; [by intros ?; simplify_eq; eexists|].
  destruct (ChangeResourceRecordSets _ _ w) as [[[]| |] w1] eqn:Ec; intros ?; simplify_eq.
  exists (c :: changes). split; [done|]. by apply Happly.
Qed.

(** *** A zone over many updates *)

(** A batch that is not accepted changes nothing: "either all of the changes are
    made or none of them". *)
Context (Hatomic : ∀ id changes w r w',
  ChangeResourceRecordSets id changes w = (r, w') → r ≠ Ok tt → zoneOf w' id = zoneOf w id).

(** An [Ensure] that fails leaves the zone as it was. *)
Lemma aws_Ensure_fails record mz w r w' :
  aws_Ensure record mz w = (r, w') → r ≠ Ok tt → zoneOf w' (zID (zStatus mz)) = zoneOf w (zID (zStatus mz)).
Proof.
  unfold aws_Ensure. destruct (decide (Endpoints (recSpec record) = [])) as [Hnil|Hne].
  { unfold aws_change. rewrite Hnil. by intros [= _ ->] _. }
  intros Hrun Hr. pose proof (aws_change_run record mz upsertAction w Hne) as Hch. rewrite Hrun in Hch.
  destruct (decide (Forall _ _)); [|by destruct Hch as [err [= _ ->]]].
  destruct Hch as (changes & _ & Hw & Hok). cbn [fst snd] in Hw, Hok.
  destruct (ChangeResourceRecordSets _ changes w) as [r' w1] eqn:Ec. cbn [fst snd] in Hw, Hok. subst w1.
  apply (Hatomic _ _ _ _ _ Ec). intros ->. by apply Hr, Hok.
Qed.

(** The zone of [mz] after its Route 53 was told of a record again and again,
    the endpoints published last being [eps], which the record's status holds.
    Each time the spec may be another one, but never an empty one; a failed
    attempt leaves the status alone; and in between anything may happen that
    leaves the zone alone.  The zone held none of the record's names before,
    and an endpoint keeps its type as long as it keeps its id. *)
Inductive Published (mz : ManagedZone) (w0 : W) : list Endpoint → W → Prop :=
| Published_none : Published mz w0 [] w0
| Published_update eps w record w' :
    Published mz w0 eps w → recEndpoints (recStatus record) = eps →
    Endpoints (recSpec record) ≠ [] → NoDup (SetID <$> Endpoints (recSpec record)) →
    Forall (λ e, zoneOf w0 (zID (zStatus mz)) !! keyOf e = None) (Endpoints (recSpec record)) →
    (∀ e e', e ∈ eps → e' ∈ Endpoints (recSpec record) → SetID e = SetID e' → keyOf e = keyOf e') →
    aws_Ensure record mz w = (Ok tt, w') →
    Published mz w0 (Endpoints (recSpec record)) w'
| Published_failed eps w record r w' :
    Published mz w0 eps w → aws_Ensure record mz w = (r, w') → r ≠ Ok tt → Published mz w0 eps w'
| Published_other eps w w' :
    Published mz w0 eps w → zoneOf w' (zID (zStatus mz)) = zoneOf w (zID (zStatus mz)) → Published mz w0 eps w'.

Lemma published_fresh mz w0 eps w :
  Published mz w0 eps w → Forall (λ e, zoneOf w0 (zID (zStatus mz)) !! keyOf e = None) eps.
Proof. by induction 1. Qed.

(** C14: whatever sequence of runs of [Ensure] a record goes through, as long
    as its spec is never empty, the hosted zone holds exactly the endpoints
    published by the last run that succeeded, each as Route 53 is told to serve
    it, besides what was there before the record: nothing stale is left and
    nothing foreign is touched, also by the runs that fail. *)
Theorem zone_is_last_published mz w0 eps w :
  Published mz w0 eps w →
  let z0 := zoneOf w0 (zID (zStatus mz)) in
  let z := zoneOf w (zID (zStatus mz)) in
  (∀ e, e ∈ eps → is_Some (setOf e) ∧ z !! keyOf e = setOf e) ∧
  (∀ k, k ∉ (keyOf <$> eps) → z !! k = z0 !! k).
Proof using Happly Hatomic.
  intros Hpub z0 z. change (inForce z0 eps z). subst z.
  induction Hpub as [|eps w record w' Hpub IH Hstatus Hne Hnd Hfresh Hstable Hrun|eps w record r w' _ IH Hrun Hr
    |eps w w' _ IH Hsame].
  - split; [|done]. by intros e He%not_elem_of_nil.
  - apply aws_Ensure_applies in Hrun as (changes & Hch & ->); [|done]. subst eps.
    apply update_in_force; [done..| |done|done]. by apply published_fresh in Hpub.
  - by rewrite (aws_Ensure_fails _ _ _ _ _ Hrun Hr).
  - by rewrite Hsame.
Qed.

(** An endpoint in force answers as it points. *)
Lemma in_force_answers z e c :
  changeForEndpoint e upsertAction = Ok c → z !! setKey (r53RecordSet c) = Some (r53RecordSet c) →
  ∀ target, target ∈ Targets e → answers z (DNSName e) target.
Proof.
  intros (_ & Hn & Hr & _)%changeForEndpoint_Ok Hz target Ht. exists (r53RecordSet c). by rewrite Hn, Hr.
Qed.

(** C11: what Route 53 serves.  Take the endpoints built for a listener, stored
    in a record.  A change batch can always be made of them; and once [Ensure]
    succeeds, the hosted zone leads from the listener's host to the load
    balancer name, to the geo name of every cluster and, with the cluster's
    weight, on to each of its addresses; and of the endpoints published before,
    those that left the record are gone. *)
Theorem route53_serves_clusters mcgTarget existing listener host eps record mz t a :
  EndpointsPre mcgTarget listener host → host ≠ "" →
  keepsIds existing (endpointRequests mcgTarget host) →
  Forall (λ t, cgtGeo t = DefaultGeo → cgtGeo t = GetDefaultGeo mcgTarget) (ClusterGatewayTargets mcgTarget) →
  newEndpoints mcgTarget existing listener = Ok eps → Endpoints (recSpec record) = eps →
  Forall publishable (recEndpoints (recStatus record)) →
  t ∈ ClusterGatewayTargets mcgTarget → a ∈ GatewayAddresses (cgtGateway t) →
  (strconv.min_int64 ≤ cgtWeight t ≤ strconv.max_int64)%Z →
  (∃ changes, recordChanges record upsertAction = Ok changes) ∧
  ∀ w w', aws_Ensure record mz w = (Ok tt, w') →
    let z := zoneOf w' (zID (zStatus mz)) in
    let lb := lbNameSpec mcgTarget host in
    let geo := geoLbNameOf lb (cgtGeo t) in
    answers z host lb ∧ answers z lb geo ∧
    (if decide (isIP a)
     then answersWeighted z geo (clusterLbNameOf lb t) (cgtWeight t) ∧ answers z (clusterLbNameOf lb t) (aValue a)
     else answersWeighted z geo (aValue a) (cgtWeight t)) ∧
    ∀ e c, e ∈ recEndpoints (recStatus record) → SetID e ∉ (SetID <$> eps) →
      changeForEndpoint e deleteAction = Ok c → z !! setKey (r53RecordSet c) = None.
Proof.
  intros Hpre Hhost Hkeep Hmix Heps Hrec Hstatus Ht Ha Hweight.
  pose proof (endpoints_publishable _ _ _ _ _ Hpre Hhost Heps) as Hpub.
  pose proof (endpoints_distinct _ _ _ _ _ Hpre Hkeep Heps) as Hnd. split; [by apply recordChanges_total; rewrite ?Hrec|].
  intros w w' Hrun z lb geo.
  pose proof (endpoints_reach_clusters _ _ _ _ _ t a Hpre Hmix Heps Ht Ha) as (Hh & Hl & Hrest).
  assert (eps ≠ []) as Hne by (intros ->; destruct Hh as (e & He & _); by apply not_elem_of_nil in He).
  apply aws_Ensure_applies in Hrun as (changes & Hch & Hz); [|by rewrite Hrec]. fold z in Hz.
  rewrite <- Hrec in Hnd. pose proof (recordChanges_in_force _ _ (zoneOf w (zID (zStatus mz))) Hnd Hch) as Hforce.
  rewrite <- Hz, Hrec, Forall_forall in Hforce.
  assert (∀ name target, pointsTo eps name target → answers z name target) as Hans.
  { intros name target (e & He & <- & Htgt). destruct (Hforce e He) as (c & Hc & Hin). by eapply in_force_answers. }
  assert (∀ name target, pointsToWith eps name target "weight" (strconv.Itoa (cgtWeight t)) →
    answersWeighted z name target (cgtWeight t)) as Hansw.
  { intros name target (e & He & <- & Htgt & Hw). destruct (Hforce e He) as (c & Hc & Hin).
    exists (r53RecordSet c). pose proof (changeForEndpoint_Ok _ _ _ Hc) as (_ & -> & -> & _). split_and!; [done..|].
    by apply (route53_weight _ _ _ _ Hc Hw). }
  split_and!; [by apply Hans..| |].
  - case_decide; [|by apply Hansw]. destruct Hrest as [Hw Hip]. split; [by apply Hansw|by apply Hans].
  - intros e c He Hs Hc. rewrite Hz. by eapply recordChanges_stale; rewrite ?Hrec.
Qed.

End flow.

(** ** Examples and witnesses *)

(** A Route 53 that is one zone and accepts every batch. *)
#[local] Instance zoneClient : Route53API HostedRecords := {|
  GetHostedZone _ := fail (ErrText "unused"); UpdateHostedZoneComment _ _ := ret tt;
  CreateHostedZone _ _ _ := fail (ErrText "unused"); DeleteHostedZone _ := ret tt; ListHostedZones := ret tt;
  ChangeResourceRecordSets _ changes := λ z, (Ok tt, applyChanges z changes);
  GetHealthCheck _ := fail (ErrText "unused"); CreateHealthCheck _ _ := fail (ErrText "unused");
  ChangeTagsForResource _ _ := ret tt; UpdateHealthCheck _ := ret tt; DeleteHealthCheck _ := ret tt;
  nowStamp := ret "20230901120000"
|}.

#[local] Existing Instance exampleEnv.
#[local] Existing Instance range_in_key_order.
#[local] Existing Instance sort_by_merging.

Definition flowZone : ManagedZone :=
  mkManagedZone (newObjectMeta "zone" "infra") (mkManagedZoneSpec "Z1" "example.com" "" None ("infra", "aws"))
    (mkManagedZoneStatus [] 0 "Z1" 0 []).

Definition flowRecord (spec status : list Endpoint) : DNSRecord :=
  mkDNSRecord (newObjectMeta "prod-api" "infra") (mkDNSRecordSpec (Some "zone") spec)
    (mkDNSRecordStatus [] 0 status).

Definition goneEndpoint : Endpoint := mkEndpoint "old00.lb-prod-i.shop.example.com" ["10.9.9.9"] "A" "" 60 ∅ [].
Definition goneSet : R53RecordSet :=
  mkR53 "old00.lb-prod-i.shop.example.com" "A" 60 ["10.9.9.9"] None None None None None None None.

Definition flowServed : HostedRecords :=
  (aws_Ensure (flowRecord exampleResult [goneEndpoint]) flowZone {[setKey goneSet := goneSet]}).2.

Lemma route53_serves_clusters_witness :
  answersWeighted flowServed "us.lb-prod-i.shop.example.com" "elb.example.net" 60 ∧ flowServed !! setKey goneSet = None.
Proof.
  destruct (@route53_serves_clusters _ _ _ HostedRecords zoneClient (λ w _, w)
    (λ id changes w w' Hrun, eq_sym (f_equal snd Hrun))
    exampleTarget exampleExisting exampleListener "shop.example.com" exampleResult
    (flowRecord exampleResult [goneEndpoint]) flowZone (exampleCluster "west" "US" [hostAddress "elb.example.net"] 60)
    (hostAddress "elb.example.net")) as [_ Hserves].
  - exact examplePre.
  - discriminate.
  - apply keepsIds_check. vm_compute. reflexivity.
  - repeat constructor; vm_compute; discriminate.
  - exact exampleEndpoints.
  - reflexivity.
  - constructor; [|constructor]. apply publishable_intro; [by left|discriminate..].
  - apply list_elem_of_further, list_elem_of_here.
  - apply list_elem_of_here.
  - vm_compute. split; discriminate.
  - destruct (Hserves {[setKey goneSet := goneSet]} flowServed) as (_ & _ & Hw & Hgone);
      [vm_cast_no_check (eq_refl (Ok tt, flowServed) : (Ok tt, flowServed) = (Ok tt, flowServed))|].
    split; [exact Hw|]. apply (Hgone goneEndpoint (mkR53Change deleteAction goneSet)).
    + apply list_elem_of_here.
    + apply (bool_decide_unpack _). vm_compute. exact I.
    + reflexivity.
Defined.

(** A record that moves from one cluster to another, beside a foreign set. *)
Definition foreignSet : R53RecordSet := mkR53 "mail.example.com" "A" 60 ["10.1.1.1"] None None None None None None None.
Definition newEndpointSet : Endpoint := mkEndpoint "new00.lb-prod-i.shop.example.com" ["10.0.0.7"] "A" "" 60 ∅ [].
Definition flowBefore : HostedRecords := {[setKey foreignSet := foreignSet]}.
Definition flowFirst : HostedRecords := (aws_Ensure (flowRecord [goneEndpoint] []) flowZone flowBefore).2.
(** An attempt with an endpoint that has no target fails in between. *)
Definition flowBroken : DNSRecord := flowRecord [mkEndpoint "new00.lb-prod-i.shop.example.com" [] "A" "" 60 ∅ []] [goneEndpoint].
Definition flowError : res unit := Err (ErrText "failed to update record in route53 hosted zone Z1: targets is required").
Definition flowSecond : HostedRecords := (aws_Ensure (flowRecord [newEndpointSet] [goneEndpoint]) flowZone flowFirst).2.

Lemma zone_is_last_published_witness :
  flowSecond !! keyOf newEndpointSet = setOf newEndpointSet ∧ flowSecond !! keyOf goneEndpoint = None ∧
  flowSecond !! setKey foreignSet = Some foreignSet.
Proof.
  destruct (@zone_is_last_published HostedRecords zoneClient (λ w _, w)
    (λ id changes w w' Hrun, eq_sym (f_equal snd Hrun))
    (λ id changes w r w' Hrun Hr, False_ind _ (Hr (eq_sym (f_equal fst Hrun))))
    flowZone flowBefore [newEndpointSet] flowSecond) as [Hin Hout].
  - apply (Published_update _ flowZone flowBefore [goneEndpoint] flowFirst (flowRecord [newEndpointSet] [goneEndpoint])).
    + apply (Published_failed _ flowZone flowBefore [goneEndpoint] flowFirst flowBroken flowError);
        [|vm_cast_no_check (eq_refl (flowError, flowFirst))|discriminate].
      apply (Published_update _ flowZone flowBefore [] flowBefore (flowRecord [goneEndpoint] [])).
      * constructor.
      * reflexivity.
      * discriminate.
      * apply NoDup_singleton.
      * constructor; [|constructor]. vm_compute. reflexivity.
      * by intros e e' He%not_elem_of_nil.
      * vm_cast_no_check (eq_refl (Ok tt : res unit, flowFirst)).
    + reflexivity.
    + discriminate.
    + apply NoDup_singleton.
    + constructor; [|constructor]. vm_compute. reflexivity.
    + intros e e' ->%list_elem_of_singleton ->%list_elem_of_singleton. vm_compute. discriminate.
    + vm_cast_no_check (eq_refl (Ok tt : res unit, flowSecond)).
  - split_and!; [apply Hin, list_elem_of_here|rewrite Hout; [vm_compute; reflexivity|]..];
      apply (bool_decide_unpack _); vm_compute; exact I.
Defined.

(** A record that lost all its endpoints: [Ensure] succeeds without a change,
    so the sets published before stay in the zone, and the controller then
    forgets them (the status becomes the empty spec). *)
Example emptied_record_stays_published :
  aws_Ensure (flowRecord [] [goneEndpoint]) flowZone {[setKey goneSet := goneSet]} =
  (Ok tt, {[setKey goneSet := goneSet]}).
Proof. reflexivity. Qed.
