(* ===== verification/PlacementFlow.v ===== *)
(** * A programmed gateway is on its clusters

    The Gateway controller ([GatewayController]) on top of Open Cluster
    Management ([Placement]): the controller's theorems are about any placer,
    the placer's about manifest works; together they say what a Programmed
    condition means for the clusters. *)

From S2P Require Import Prelude GoStrings Kube GatewayApi Target Placer GracePeriod Placement GatewayParams GatewayController MemApi.
Local Open Scope go_scope.

Section flow.

Context {W : Type} `{Client W Gateway} `{Client W GatewayClass} `{Client W ConfigMap} `{Client W Secret}.
Context `{Client W ManifestWork} `{Client W PlacementDecision} `{Client W ManagedCluster}.
Context `{WallClock W} `{Json} `{KeyFunc} `{ParamsJson} `{StringsJson}.
Context `{ConditionOps} `{!ConditionLaws} `{FinalizerOps} `{!FinalizerLaws} `{SetRange}.

(** The gateways of the server; the placement leaves them alone. *)
Abbreviation gateways := (objs (O := Gateway)).
Context `{!ApiStore W Gateway} `{!ApiLaws W Gateway} (Hmeta : ∀ g : Gateway, metaOf g = gwMeta g).
Context (Hstatus : StatusUpdates (W := W) gwStatus).
Context (Hupdate : ∀ (g old g' : Gateway) w w', clUpdate g w = (Ok g', w') → objs w !! oKey g = Some old →
  gwStatus g = gwStatus old → gwStatus g' = gwStatus old).
Context (Hclasses : ∀ k, frames gateways (clGet (O := GatewayClass) k)) (Hmaps : ∀ k, frames gateways (clGet (O := ConfigMap) k)).
Context (Hsecrets : ∀ k, frames gateways (clGet (O := Secret) k)).
Context (Hworks : clientFrames ManifestWork gateways) (Hdecisions : clientFrames PlacementDecision gateways).
Context (Hclusters : clientFrames ManagedCluster gateways) (Htime : frames gateways TimeNow).

(** The works of the server. *)
Context `{!ApiStore W ManifestWork} `{!ApiLaws W ManifestWork} (HmetaW : metaOf (O := ManifestWork) = mwMeta).
Context (Hkeeps : ∀ m m' : ManifestWork, keeps m m' → mwSpec m' = mwSpec m).
Context (Hclock : frames (objs (O := ManifestWork)) TimeNow).
Context (HclustersW : ∀ k, frames (objs (O := ManifestWork)) (clGet (O := ManagedCluster) k)).
Context (HdecisionsW : ∀ opts, frames (objs (O := ManifestWork)) (clList (O := PlacementDecision) opts)).
(** Writing a gateway leaves the works alone, and so do the other reads. *)
Context (HgatewaysW : clientFrames Gateway (objs (O := ManifestWork))).

(** A work of the gateway is on the cluster, not being deleted, and the
    cluster's agent reports it as applied. *)
Definition appliedOn (gateway : Gateway) (cluster : string) (w : W) : Prop :=
  ∃ mw, objs w !! objectKey (mwMeta mw) = Some mw ∧ Namespace (mwMeta mw) = cluster ∧
    Labels (mwMeta mw) !! WorkManifestLabel = Some (gatewayWorkName gateway) ∧
    DeletionTimestamp (mwMeta mw) = None ∧ IsStatusConditionTrue (mwConditions mw) ManifestApplied = true.

Lemma placed_applied gateway w s w' :
  ocmPlacer.GetPlacedClusters gateway w = (Ok s, w') → ∀ c, c ∈ s ↔ appliedOn gateway c w.
Proof.
  unfold ocmPlacer.GetPlacedClusters, bind, ret. destruct (clList _ w) as [[l| |] w1] eqn:El; try done.
  apply api_list in El as [_ Hl]. intros [= <- _] c. rewrite elem_of_list_to_set, list_elem_of_fmap. unfold appliedOn.
  setoid_rewrite list_elem_of_filter. setoid_rewrite Hl. setoid_rewrite elem_of_stored. rewrite HmetaW. split.
  - intros (mw & -> & [Hdel Happ] & [k Hk] & Hm). exists mw. pose proof (api_key _ _ _ Hk) as Hkey.
    unfold oKey in Hkey. rewrite HmetaW in Hkey. rewrite Hkey. unfold matches in Hm. cbn [lo_namespace lo_labels] in Hm.
    rewrite andb_true_iff, !bool_decide_eq_true, map_singleton_subseteq_l in Hm. naive_solver.
  - intros (mw & Hk & <- & Hl' & Hdel & Happ). exists mw. split_and!; [done..|by eauto|]. unfold matches. cbn [lo_namespace lo_labels].
    rewrite andb_true_iff, !bool_decide_eq_true, map_singleton_subseteq_l. auto.
Qed.

Lemma not_deleting (m : ObjectMeta) : DeletionTimestamp m = None → isDeleting m = false.
Proof. unfold isDeleting. by intros ->. Qed.

(** A placement that reached a cluster had a work to place. *)
Lemma placeOnClusters_has_spec name up down objects clusters existing w s w' :
  clusters ≠ [] → ocmPlacer.placeOnClusters name up down objects clusters existing w = (Ok s, w') →
  ∃ spec, ocmPlacer.gatewayWorkSpec up down objects = Ok spec.
Proof.
  destruct clusters as [|c clusters]; [done|]. intros _. cbn [ocmPlacer.placeOnClusters].
  unfold bind at 1. destruct (ocmPlacer.defaultRBAC c w) as [[[]| |] w1]; try done. unfold bind at 1.
  unfold ocmPlacer.createUpdateClusterManifests, bind at 1, lift. destruct (MetaNamespaceKeyFunc _); try done.
  unfold bind at 1. destruct (ocmPlacer.gatewayWorkSpec up down objects); [by eexists|done..].
Qed.

(** The steps of a placement that succeeded. *)
Lemma Place_steps up down children w s w' :
  DeletionTimestamp (gwMeta up) = None → s ≠ ∅ → ocmPlacer.Place up down children w = (Ok s, w') →
  ∃ spec targets w1 existing w2,
    ocmPlacer.gatewayWorkSpec up down (GatewayManifest down :: children) = Ok spec ∧
    ocmPlacer.GetClusters up w = (Ok targets, w1) ∧ ocmPlacer.GetPlacedClusters up w1 = (Ok existing, w2).
Proof.
  intros Hdel Hs. unfold ocmPlacer.Place, bind at 1. destruct (ocmPlacer.GetClusters up w) as [[targets| |] w1] eqn:Et; try done.
  unfold bind at 1. destruct (ocmPlacer.GetPlacedClusters up w1) as [[existing| |] w2] eqn:Ee; try done. rewrite Hdel.
  unfold bind. destruct (ocmPlacer.placeOnClusters _ _ _ _ _ _ w2) as [[mid| |] w3] eqn:Ep; try done. intros Hoff.
  destruct (decide (targets = ∅)) as [->|Hne].
  - exfalso. apply Hs. assert (UnsortedList ∅ = []) as Hnil by (apply Permutation_nil_r; rewrite UnsortedList_perm; by rewrite elements_empty).
    rewrite Hnil in Ep. injection Ep as <- <-.
    pose proof (takeOff_spec (gatewayWorkName up) _ (removeFromCluster_frames HmetaW Hclock HclustersW (gatewayWorkName up))
      (λ c w w', removeFromCluster_spec HmetaW _ c w w' (workName_not_rbac up)) _ _ _ _ _ Hoff) as [-> _].
    rewrite UnsortedList_set. set_solver.
  - assert (UnsortedList targets ≠ []) as Hl.
    { intros Hnil. apply Hne. by rewrite <- (UnsortedList_set targets), Hnil. }
    destruct (placeOnClusters_has_spec _ _ _ _ _ _ _ _ _ Hl Ep) as [spec Hspec]. eauto 10.
Qed.

(** The gateway is where it should be, as of [w']: [targets] are the clusters its
    placement decision names, at least one; on each of them the work holds the
    downstream gateway and its TLS secrets ([holds]: or it was already on its way
    out [before] and is gone) and is applied; it is applied
    nowhere else, and gone or going from the clusters it was on before. *)
Record whereTargeted (gateway : Gateway) (params : Params) (secrets : list Secret) (targets existing : gset string)
    (before w' : W) : Prop := {
  wt_some : targets ≠ ∅;
  wt_spec : let down := reconcileParams (downstreamGateway gateway) params in
    ∃ spec, ocmPlacer.gatewayWorkSpec gateway down (GatewayManifest down :: (SecretManifest <$> secrets)) = Ok spec ∧
      ∀ c, c ∈ targets → holds spec (c, gatewayWorkName gateway) before w';
  wt_applied c : c ∈ targets ↔ appliedOn gateway c w';
  wt_left c : c ∈ existing → c ∉ targets → goneOrDeleting (objs w') (c, gatewayWorkName gateway)
}.

(** It depends on the works only. *)
Lemma whereTargeted_works gateway params secrets targets existing before w w' :
  objs (O := ManifestWork) w' = objs w →
  whereTargeted gateway params secrets targets existing before w →
  whereTargeted gateway params secrets targets existing before w'.
Proof using Type.
  intros Heq [Hsome Hspec Happ Hleft]. split; [done|..].
  - destruct Hspec as (spec & Hs & Hon). exists spec. split; [done|]. intros c Hc. eapply holds_same; [done| |by apply Hon].
    by rewrite Heq.
  - intros c. rewrite Happ. unfold appliedOn. by rewrite Heq.
  - intros c. rewrite Heq. apply Hleft.
Qed.

Lemma works_afterPlacing : afterPlacing (W := W) (objs (O := ManifestWork)).
Proof using ApiLaws1 HgatewaysW.
  split; [done|..].
  - intros g c. unfold GetAddresses, ocmGatewayPlacer, ocmPlacer.GetAddresses. solve_frames.
  - intros g l c. unfold ListenerTotalAttachedRoutes, ocmGatewayPlacer, ocmPlacer.ListenerTotalAttachedRoutes. solve_frames.
Qed.

(** C2: a Programmed gateway is on its clusters.  When a reconciliation leaves a
    gateway Programmed and wrote its status, it read the class parameters and
    the TLS secrets, placed the gateway made from them, and at the end of the
    reconciliation, in the world it leaves behind, the gateway's work is applied
    on exactly the clusters of the placement decision, with the manifests made
    from what was read, and gone or going from the others it was on. *)
Theorem programmed_gateway_applied req previous w w0 result w' stored' :
  clGet req w = (Ok previous, w0) → DeletionTimestamp (gwMeta previous) = None →
  gateway_Reconcile req w = (result, w') → objs w' !! req = Some stored' → programmed (gwStatus stored') →
  gwStatus stored' = gwStatus previous ∨
  ∃ params w1 secrets w2 targets w3 existing w4,
    getParams (GatewayClassName previous) w0 = (Ok params, w1) ∧
    getTLSSecrets previous (downstreamGateway previous) w1 = (Ok (secrets, None), w2) ∧
    ocmPlacer.GetClusters previous w2 = (Ok targets, w3) ∧ ocmPlacer.GetPlacedClusters previous w3 = (Ok existing, w4) ∧
    whereTargeted previous params secrets targets existing w2 w'.
Proof.
  intros Hget Hdel Hrun Hs Hprog.
  assert (gwStatus stored' = gwStatus previous ∨
    ∃ w5, fullyPlaced previous w0 w5 ∧ ∀ (S : Type) (f : W → S), afterPlacing f → f w' = f w5) as [?|(w5 & Hfull & Hend)];
    [|by left|right].
  { eapply gateway_programmed_truthful; try done; first
      [ by apply not_deleting | intros up down ss; by apply ocm_Place_frames | intros g; by apply ocm_GetPlacedClusters_frames
      | intros g c; by apply ocm_GetAddresses_frames | intros g l c; by apply ocm_ListenerTotalAttachedRoutes_frames ]. }
  specialize (Hend _ _ works_afterPlacing).
  destruct Hfull as (params & w1 & secrets & w2 & targets & w3 & Hp & Hsec & Hplace & Hplaced & Hne).
  destruct (Place_steps _ _ _ _ _ _ Hdel Hne Hplace) as (spec & decided & w2' & existing & w2'' & Hspec & Hd & He).
  destruct (place_converges HmetaW Hkeeps Hclock HclustersW HdecisionsW _ _ _ _ _ _ _ _ _ _ _ Hdel Hspec Hd He Hplace)
    as (-> & Hon & Hoff).
  exists params, w1, secrets, w2, decided, w2', existing, w2''. split_and!; [done..|].
  apply (whereTargeted_works _ _ _ _ _ _ w3).
  - rewrite Hend. pose proof (GetPlacedClusters_frames previous w3) as Hf.
    change (ocmPlacer.GetPlacedClusters previous w3 = (Ok decided, w5)) in Hplaced. by rewrite Hplaced in Hf.
  - split; [done|by eauto| |done]. by eapply placed_applied.
Qed.

End flow.

(** ** A witness: the life of a new gateway *)

#[local] Existing Instance glGateways.
#[local] Existing Instance glClasses.
#[local] Existing Instance glMaps.
#[local] Existing Instance glSecrets.
#[local] Existing Instance glStore.
#[local] Existing Instance glLaws.
#[local] Existing Instance glWorks.
#[local] Existing Instance glDecisions.
#[local] Existing Instance glClusters.
#[local] Existing Instance glClock.
#[local] Existing Instance glJson.
#[local] Existing Instance glParams.
#[local] Existing Instance glStrings.
#[local] Existing Instance slashKeys.
#[local] Existing Instance listConditions.
#[local] Existing Instance listConditions_laws.
#[local] Existing Instance listFinalizers.
#[local] Existing Instance listFinalizers_laws.
#[local] Existing Instance list_in_key_order.

#[local] Instance glWorksStore : ApiStore gatewayWorld ManifestWork :=
  mem_store (λ w, (gwlPlacement w).1.1) mwMeta (λ m m', m' = m).
#[local] Instance glWorksLaws : ApiLaws gatewayWorld ManifestWork.
Proof. by apply mem_laws. Qed.

Lemma gl_works_meta : metaOf (W := gatewayWorld) (O := ManifestWork) = mwMeta.
Proof. done. Qed.
Lemma gl_works_clock : frames (objs (O := ManifestWork)) (TimeNow (W := gatewayWorld)).
Proof. done. Qed.
Lemma gl_works_keeps (m m' : ManifestWork) : keeps (W := gatewayWorld) m m' → mwSpec m' = mwSpec m.
Proof. by intros ->. Qed.
Lemma gl_works_clusters k : frames (objs (O := ManifestWork)) (clGet (W := gatewayWorld) (O := ManagedCluster) k).
Proof. intros w. simpl. unfold mem_get. by case_match. Qed.

Lemma gl_works_decisions opts : frames (objs (O := ManifestWork)) (clList (W := gatewayWorld) (O := PlacementDecision) opts).
Proof. done. Qed.
Lemma gl_works_gateways : clientFrames Gateway (objs (W := gatewayWorld) (O := ManifestWork)).
Proof. by apply mem_clientFrames. Qed.

Lemma programmed_gateway_applied_witness :
  ∃ params secrets targets existing before,
    whereTargeted (W := gatewayWorld) (prodIn gatewayBefore) params secrets targets existing before (reconcileProd gatewayBefore).
Proof.
  destruct (programmed_gateway_applied (W := gatewayWorld) gl_meta gl_status gl_update gl_classes gl_maps gl_secrets
    gl_frames_works gl_frames_decisions gl_frames_clusters gl_clock gl_works_meta gl_works_keeps gl_works_clock gl_works_clusters
    gl_works_decisions gl_works_gateways     ("infra", "prod") (prodIn gatewayBefore) gatewayBefore gatewayBefore
    (gateway_Reconcile ("infra", "prod") gatewayBefore).1 (reconcileProd gatewayBefore)
    (prodIn (reconcileProd gatewayBefore))) as [Hsame|Hplaced].
  - vm_cast_no_check (eq_refl (Ok (prodIn gatewayBefore), gatewayBefore)).
  - vm_compute. reflexivity.
  - apply surjective_pairing.
  - vm_cast_no_check (eq_refl (Some (prodIn (reconcileProd gatewayBefore)))).
  - vm_cast_no_check (eq_refl true).
  - apply (f_equal gwAddresses) in Hsame. vm_compute in Hsame. discriminate.
  - destruct Hplaced as (params & w1 & secrets & w2 & targets & w3 & existing & w4 & _ & _ & _ & _ & Hwhere).
    exists params, secrets, targets, existing, w2. exact Hwhere.
Defined.
