(* ===== verification/Startup.v ===== *)
(** * Putting the controllers together

    cmd/controller/main.go, the [SetupWithManager] functions of the
    controllers, cmd/ocm/main.go, pkg/ocm/hub/addon.go,
    pkg/_internal/env/env.go and pkg/_internal/controller/run.go: which events
    lead to which reconciliations, in which order the manager is set up, and
    what the binaries read from their surroundings. *)

From S2P Require Import Prelude GoStrings Slice Kube ApiTypes GatewayApi DnsHelper HealthChecks Placement GatewayParams GatewayController PolicyController TlsPolicy TlsController Events MemApi.
Local Open Scope go_scope.

(** ** pkg/_internal/env *)

(** [strconv.ParseBool] *)
Definition ParseBool (s : string) : option bool :=
  if bool_decide (s ∈ ["1"; "t"; "T"; "true"; "TRUE"; "True"]) then Some true
  else if bool_decide (s ∈ ["0"; "f"; "F"; "false"; "FALSE"; "False"]) then Some false
  else None.

Section env.

(** The environment of the process. *)
Context (LookupEnv : string → option string).

Definition GetEnvString (key fallback : string) : string :=
  match LookupEnv key with
  | None => fallback
  | Some value => value
  end.

Definition GetEnvBool (key : string) (fallback : bool) : bool :=
  match LookupEnv key with
  | None => fallback
  | Some strValue =>
      match ParseBool strValue with
      | None => fallback
      | Some value => value
      end
  end.

Definition GetEnvInt (key : string) (fallback : Z) : Z :=
  match LookupEnv key with
  | None => fallback
  | Some strValue =>
      match strconv.Atoi strValue with
      | None => fallback
      | Some value => value
      end
  end.

(** Every integer of the machine can be set, whatever the fallback. *)
Lemma GetEnvInt_set key fallback z :
  (strconv.min_int64 ≤ z ≤ strconv.max_int64)%Z → LookupEnv key = Some (strconv.Itoa z) → GetEnvInt key fallback = z.
Proof. intros Hz He. unfold GetEnvInt. rewrite He. unfold strconv.Atoi. by rewrite Itoa_ParseInt. Qed.

(** A switch is on or off for every value [strconv.FormatBool] writes. *)
Lemma GetEnvBool_set key fallback (b : bool) :
  LookupEnv key = Some (if b then "true" else "false") → GetEnvBool key fallback = b.
Proof. intros He. unfold GetEnvBool. rewrite He. by destruct b. Qed.

End env.

(** ** pkg/_internal/controller *)

(** What [os.Stat] found out about a path. *)
Inductive statResult := StatFile | StatNotExist | StatError.

Definition IsRunningLocally (Stat : string → statResult) : bool :=
  match Stat "/controller" with
  | StatNotExist => true
  | _ => false
  end.

(** ** pkg/ocm/hub *)

(** workapiv1.FieldValue and FeedbackValue: which pointer is set depends on the
    type of the value. *)
Record FieldValue := mkFieldValue { fvInteger : option Z; fvBoolean : option bool }.
Record AddonFeedback := mkAddonFeedback { fbName : string; fbValue : FieldValue }.

(** The loop over the values. *)
Fixpoint healthCheckValues (ns name : string) (values : list AddonFeedback) : res unit :=
  match values with
  | [] => Err (ErrText "readyReplica is not probed")
  | value :: rest =>
      if bool_decide (fbName value ≠ "healthy") then healthCheckValues ns name rest
      else
        match fvBoolean (fbValue value) with
        | None => Panic
        | Some true => Ok tt
        | Some false =>
            match fvInteger (fbValue value) with
            | None => Panic
            | Some n => Err (ErrText ("readyReplica is " +:+ strconv.Itoa n +:+ " for deployment " +:+ ns +:+ "/" +:+ name))
            end
        end
  end.

Definition addonHealthCheck (ns name : string) (values : list AddonFeedback) : res unit :=
  match values with
  | [] => Err (ErrText ("nothing for health prober for deployment " +:+ ns +:+ "/" +:+ name))
  | _ => healthCheckValues ns name values
  end.

(** The path probed is a boolean, so the value has no integer: an unhealthy
    subscription is not reported, the check dereferences nil. *)
Lemma unhealthy_check_panics ns name before after :
  Forall (λ v, fbName v ≠ "healthy") before →
  addonHealthCheck ns name (before ++ mkAddonFeedback "healthy" (mkFieldValue None (Some false)) :: after) = Panic.
Proof.
  intros Hb. unfold addonHealthCheck. destruct (before ++ _) eqn:E; [by destruct before|]. rewrite <- E. clear E.
  induction Hb as [|v vs Hv _ IH]; [done|]. simpl. by rewrite bool_decide_eq_true_2.
Qed.

Lemma healthy_check ns name before after i :
  Forall (λ v, fbName v ≠ "healthy") before →
  addonHealthCheck ns name (before ++ mkAddonFeedback "healthy" (mkFieldValue i (Some true)) :: after) = Ok tt.
Proof.
  intros Hb. unfold addonHealthCheck. destruct (before ++ _) eqn:E; [by destruct before|]. rewrite <- E. clear E.
  induction Hb as [|v vs Hv _ IH]; [done|]. simpl. by rewrite bool_decide_eq_true_2.
Qed.

(** ** cmd/ocm/main.go *)

Record manifestConfig := mkManifestConfig {
  IstioOperator : string;
  IstioConfigMapName : string;
  IstioOperatorNamespace : string;
  ClusterName : string;
  CatalogSource : string;
  CatalogSourceNS : string
}.

(** [StructToValues] is addonfactory's. *)
Definition GetDefaultValues {V : Type} (StructToValues : manifestConfig → V) (cluster : ObjectMeta) : V :=
  StructToValues (mkManifestConfig "istiocontrolplane" "istio" "istio-system" (Name cluster) "operatorhubio-catalog" "olm").

(** ** Event sources *)

(** The objects of the kinds that are watched. *)
Inductive apiObject :=
| AGateway (g : Gateway)
| AGatewayClass (c : GatewayClass)
| AProbe (p : DNSHealthCheckProbe)
| ADNSPolicy (p : DNSPolicy)
| ATLSPolicy (p : TLSPolicy)
| ADNSRecord (r : DNSRecord)
| AManagedZone (z : ManagedZone)
| AManagedCluster (m : ObjectMeta)
| AManifestWork (m : ObjectMeta)
| APlacementDecision (m : ObjectMeta)
| ASecret (m : ObjectMeta).

Inductive Kind :=
| KGateway | KGatewayClass | KDNSHealthCheckProbe | KDNSPolicy | KTLSPolicy | KDNSRecord | KManagedZone
| KManagedCluster | KManifestWork | KPlacementDecision | KSecret.

#[export] Instance Kind_eq_dec : EqDecision Kind.
Proof. solve_decision. Defined.

Definition kindOf (o : apiObject) : Kind :=
  match o with
  | AGateway _ => KGateway | AGatewayClass _ => KGatewayClass | AProbe _ => KDNSHealthCheckProbe
  | ADNSPolicy _ => KDNSPolicy | ATLSPolicy _ => KTLSPolicy | ADNSRecord _ => KDNSRecord
  | AManagedZone _ => KManagedZone | AManagedCluster _ => KManagedCluster | AManifestWork _ => KManifestWork
  | APlacementDecision _ => KPlacementDecision | ASecret _ => KSecret
  end.

Definition apiMeta (o : apiObject) : ObjectMeta :=
  match o with
  | AGateway g => gwMeta g | AGatewayClass c => gcMeta c | AProbe p => probeMeta p
  | ADNSPolicy p => polMeta p | ATLSPolicy p => tpMeta p | ADNSRecord r => recMeta r
  | AManagedZone z => zMeta z | AManagedCluster m | AManifestWork m | APlacementDecision m | ASecret m => m
  end.

Definition clientObjectOf (o : apiObject) : clientObject :=
  match o with
  | AGateway g => GatewayObject g
  | AProbe p => ProbeObject p
  | _ => OtherObject (apiMeta o)
  end.

(** What a [ctrl.NewControllerManagedBy(mgr)] builder was told: the kind it is
    for, the kinds it owns, the other kinds with the requests they lead to, and
    the event filter.  A panic of a handler or a filter is one of the call. *)
Record Controller (W : Type) := mkController {
  cName : string;
  cFor : Kind;
  cOwns : list Kind;
  cWatches : list (Kind * (apiObject → M W (list ObjectKey)));
  cFilter : apiObject → res bool
}.
Arguments mkController {W}.
Arguments cName {W}.
Arguments cFor {W}.
Arguments cOwns {W}.
Arguments cWatches {W}.
Arguments cFilter {W}.

(** The manager (controller-runtime), and the owner references of an object
    as requests, for the controllers of a kind. *)
Inductive Runnable := HealthMonitorRunnable | RequestQueue (throttle : Z).

Record ManagerOptions := mkManagerOptions {
  MetricsBindAddress : string;
  moPort : Z;
  HealthProbeBindAddress : string;
  LeaderElection : bool;
  LeaderElectionID : string
}.

Class Manager (W : Type) := {
  NewManager : ManagerOptions → M W unit;
  mgrAdd : Runnable → M W unit;
  IndexField : Kind → string → (apiObject → res (list string)) → M W unit;
  Complete : Controller W → M W unit;
  AddHealthzCheck : string → M W unit;
  AddReadyzCheck : string → M W unit;
  mgrStart : M W unit;
  ownerRequests : Kind → apiObject → list ObjectKey
}.

(** ** The SetupWithManager functions *)

Section setup.

Context {W : Type} `{Client W Gateway} `{GatewayWrapper} `{StringsJson} `{KeyFunc} `{Manager W}.

Definition noFilter (_ : apiObject) : res bool := Ok true.

Definition DNSPoliciesBackRefAnnotation : string := "kuadrant.io/dnspolicies".

Definition dnsrecordController : Controller W := mkController "DNSRecord" KDNSRecord [] [] noFilter.

Definition dnspolicyController : Controller W :=
  mkController "DNSPolicy" KDNSPolicy []
    [(KGateway, λ o, ret (GatewayEventMapper.MapToPolicy DNSPoliciesBackRefAnnotation (clientObjectOf o)));
     (KManagedCluster, λ o, ClusterEventMapper.MapToPolicy DNSPoliciesBackRefAnnotation (clientObjectOf o));
     (KDNSHealthCheckProbe, λ o, ret (ProbeEventMapper.MapToPolicy DNSPolicyBackRefAnnotation (clientObjectOf o)))]
    noFilter.

Definition tlspolicyController : Controller W :=
  mkController "TLSPolicy" KTLSPolicy []
    [(KGateway, λ o, ret (GatewayEventMapper.MapToPolicy tlspolicy.PolicyRefsAnnotation (clientObjectOf o)))]
    noFilter.

Definition managedzoneController : Controller W :=
  mkController "ManagedZone" KManagedZone [KDNSRecord; KManagedZone] [] noFilter.

Definition gatewayClassFilter (o : apiObject) : res bool :=
  match o with
  | AGatewayClass gatewayClass => Ok (classEventFilter gatewayClass)
  | _ => Panic
  end.

Definition gatewayclassController : Controller W := mkController "GatewayClass" KGatewayClass [] [] gatewayClassFilter.

Definition gatewayFilter (o : apiObject) : res bool :=
  match o with
  | AGateway gateway => Ok (shouldReconcile gateway)
  | _ => Ok true
  end.

(** cluster_eventhandler.go: the events of secrets. *)
Inductive event := CreateEvent (o : ObjectMeta) | DeleteEvent (o : ObjectMeta) | GenericEvent (o : ObjectMeta)
| UpdateEvent (old new : ObjectMeta).

Definition ClusterEventHandler (e : event) : M W (list ObjectKey) :=
  match e with
  | CreateEvent o | DeleteEvent o | GenericEvent o => enqueueForObject o
  | UpdateEvent _ new => enqueueForObject new
  end.

Definition gatewayController : Controller W :=
  mkController "Gateway" KGateway []
    [(KManifestWork, λ o, ret (manifestWorkRequests (apiMeta o)));
     (KPlacementDecision, λ o, placementDecisionRequests (apiMeta o));
     (KSecret, λ o, ClusterEventHandler (GenericEvent (apiMeta o)))]
    gatewayFilter.

Definition policyTargetIndex (o : apiObject) : res (list string) :=
  match o with
  | ADNSPolicy p => Ok [GetTargetRefValueFromPolicy (TargetRef (polSpec p)) (Namespace (polMeta p))]
  | _ => Panic
  end.

Definition gateway_SetupWithManager : M W unit :=
  do! IndexField KDNSPolicy POLICY_TARGET_REF_KEY policyTargetIndex in
  Complete gatewayController.

Definition probeController : Controller W := mkController "DNSHealthCheckProbe" KDNSHealthCheckProbe [] [] noFilter.

(** controller-runtime: the requests of an event for a controller: those of its
    own kind are for the object itself, owned ones for the owners of the
    controller's kind, watched ones go through the handlers; the filter is on
    all of them.  (An update is filtered by its new object and handled for the
    old and the new one, a secret for the new one only.) *)
Fixpoint watchRequests (watches : list (Kind * (apiObject → M W (list ObjectKey)))) (o : apiObject) : M W (list ObjectKey) :=
  match watches with
  | [] => ret []
  | (k, handler) :: rest =>
      if bool_decide (k = kindOf o) then
        let! requests := handler o in
        let! more := watchRequests rest o in
        ret (requests ++ more)
      else watchRequests rest o
  end.

Definition watched (c : Controller W) (o : apiObject) : bool :=
  bool_decide (kindOf o ∈ cFor c :: cOwns c ++ (cWatches c).*1).

Definition requestsOf (c : Controller W) (o : apiObject) : M W (list ObjectKey) :=
  if watched c o then
    let! pass := lift (cFilter c o) in
    if pass : bool then
      let own := if bool_decide (kindOf o = cFor c) then [objectKey (apiMeta o)] else [] in
      let owners := if bool_decide (kindOf o ∈ cOwns c) then ownerRequests (cFor c) o else [] in
      let! mapped := watchRequests (cWatches c) o in
      ret (own ++ owners ++ mapped)
    else ret []
  else ret [].

(** ** main *)

Record flags := mkFlags { metricsAddr : string; probeAddr : string; enableLeaderElection : bool; certProvider : string }.

Definition defaultFlags : flags := mkFlags ":8080" ":8081" false "glbc-ca".

Inductive exitStatus := Exited (code : Z) | Returned.

Fixpoint runSetup (steps : list (M W unit)) : M W exitStatus :=
  match steps with
  | [] => ret Returned
  | step :: rest =>
      let! r := try step in
      match r with
      | inr _ => ret (Exited 1)
      | inl _ => runSetup rest
      end
  end.

Definition healthCheckThrottle : Z := 5000000000.

(** Every step ends the process with status 1 when it fails. *)
Definition main (f : flags) : M W exitStatus :=
  runSetup
    [NewManager (mkManagerOptions (metricsAddr f) 9443 (probeAddr f) (enableLeaderElection f) "fb80029c-controller.kuadrant.io");
     mgrAdd HealthMonitorRunnable;
     mgrAdd (RequestQueue healthCheckThrottle);
     Complete dnsrecordController;
     Complete dnspolicyController;
     Complete tlspolicyController;
     Complete managedzoneController;
     Complete gatewayclassController;
     gateway_SetupWithManager;
     Complete probeController;
     AddHealthzCheck "healthz";
     AddReadyzCheck "readyz";
     mgrStart].

End setup.

(** ** Properties *)

Section start.

Context {W : Type} `{Client W Gateway} `{GatewayWrapper} `{StringsJson} `{KeyFunc} `{Manager W}.

(** What the manager was given so far. *)
Inductive Registration :=
| RegManager (opts : ManagerOptions)
| RegRunnable (r : Runnable)
| RegIndex (k : Kind) (field : string)
| RegController (c : Controller W)
| RegHealthz (name : string)
| RegReadyz (name : string)
| RegStarted.

(** A call that succeeds registers [regs], one that fails only a part. *)
Definition registers (log : W → list Registration) (step : M W unit) (regs : list Registration) : Prop :=
  ∀ w r w', step w = (r, w') →
    match r with
    | Ok _ => log w' = log w ++ regs
    | Err _ => ∃ done rest, rest ≠ [] ∧ regs = done ++ rest ∧ log w' = log w ++ done
    | Panic => False
    end.

Context (log : W → list Registration).
(** controller-runtime: a call registers what it is given, or fails. *)
Context (Hnew : ∀ opts, registers log (NewManager opts) [RegManager opts]).
Context (Hadd : ∀ r, registers log (mgrAdd r) [RegRunnable r]).
Context (Hindex : ∀ k field f, registers log (IndexField k field f) [RegIndex k field]).
Context (Hcomplete : ∀ c, registers log (Complete c) [RegController c]).
Context (Hhealthz : ∀ name, registers log (AddHealthzCheck name) [RegHealthz name]).
Context (Hreadyz : ∀ name, registers log (AddReadyzCheck name) [RegReadyz name]).
Context (Hstart : registers log mgrStart [RegStarted]).

Lemma registers_bind (m k : M W unit) regs regs' :
  registers log m regs → registers log k regs' → registers log (do! m in k) (regs ++ regs').
Proof.
  intros Hm Hk w r w'. unfold bind. destruct (m w) as [[[]|e|] w1] eqn:E; apply Hm in E; [| |done].
  - intros Ek%Hk. destruct r as [[]|e|]; [|destruct Ek as (d & rest & Hne & -> & Hl)|done].
    + by rewrite Ek, E, <- app_assoc.
    + exists (regs ++ d), rest. rewrite Hl, E. by rewrite <- !app_assoc.
  - intros [= <- <-]. destruct E as (d & rest & Hne & -> & Hl). exists d, (rest ++ regs').
    split_and!; [by destruct rest|by rewrite <- app_assoc|done].
Qed.

(** The set-up as a whole registers everything and goes on, or a part and
    ends the process. *)
Lemma runSetup_registers steps regs w r w' :
  Forall2 (registers log) steps regs → runSetup steps w = (r, w') →
  (r = Ok Returned ∧ log w' = log w ++ concat regs) ∨
  (r = Ok (Exited 1) ∧ ∃ done rest, rest ≠ [] ∧ concat regs = done ++ rest ∧ log w' = log w ++ done).
Proof.
  intros Hall. revert w. induction Hall as [|step reg steps regs Hs _ IH]; intros w; cbn [runSetup].
  { intros [= <- <-]. left. by rewrite app_nil_r. }
  unfold bind, try. destruct (step w) as [[[]|e|] w1] eqn:E; apply Hs in E; [| |done].
  - intros [[-> Hl]|(-> & d & rest & Hne & Hc & Hl)]%IH; [left|right]; (split; [done|]).
    + by rewrite Hl, E, <- app_assoc.
    + exists (reg ++ d), rest. simpl. rewrite Hc, Hl, E. by rewrite <- !app_assoc.
  - intros [= <- <-]. right. split; [done|]. destruct E as (d & rest & Hne & -> & Hl).
    exists d, (rest ++ concat regs). split_and!; [by destruct rest|simpl; by rewrite <- app_assoc|done].
Qed.

(** Everything the program consists of. *)
Definition registrations (f : flags) : list Registration :=
  [RegManager (mkManagerOptions (metricsAddr f) 9443 (probeAddr f) (enableLeaderElection f) "fb80029c-controller.kuadrant.io");
   RegRunnable HealthMonitorRunnable; RegRunnable (RequestQueue healthCheckThrottle);
   RegController dnsrecordController; RegController dnspolicyController; RegController tlspolicyController;
   RegController managedzoneController; RegController gatewayclassController;
   RegIndex KDNSPolicy POLICY_TARGET_REF_KEY; RegController gatewayController; RegController probeController;
   RegHealthz "healthz"; RegReadyz "readyz"].

(** The manager starts only when the program is complete: [main] returns after
    the manager ran with everything registered, once and in order, or it exits
    with status 1, and then the manager was not started successfully. *)
Theorem main_starts_complete f w r w' :
  log w = [] → main f w = (r, w') →
  (r = Ok Returned ∧ log w' = registrations f ++ [RegStarted]) ∨
  (r = Ok (Exited 1) ∧ log w' `prefix_of` registrations f).
Proof.
  intros Hempty. unfold main. intros Hrun.
  eapply (runSetup_registers _ [[RegManager _]; [RegRunnable _]; [RegRunnable _]; [RegController _]; [RegController _];
    [RegController _]; [RegController _]; [RegController _]; [RegIndex _ _; RegController _]; [RegController _];
    [RegHealthz _]; [RegReadyz _]; [RegStarted]]) in Hrun.
  2: { repeat (constructor; [solve [auto] || by apply (registers_bind _ _ [_] [_])|]). constructor. }
  rewrite Hempty in Hrun. simpl in Hrun. destruct Hrun as [[-> Hl]|(-> & d & rest & Hne & Hc & Hl)]; [by left|right].
  split; [done|]. rewrite Hl. destruct (exists_last Hne) as (rest' & x & ->). exists rest'.
  change (registrations f ++ [RegStarted] = d ++ rest' ++ [x]) in Hc. rewrite app_assoc in Hc.
  by apply app_inj_tail in Hc as [? _].
Qed.

End start.

Section routing.

Context {W : Type} `{Client W Gateway} `{!ApiStore W Gateway} `{!ApiLaws W Gateway}.
Context `{GatewayWrapper} `{StringsJson} `{KeyFunc} `{!KeyFuncLaws} `{Manager W}.

(** The result of a probe reaches its policy: a change of a probe that was
    built for a policy leads to a reconciliation of that policy, and of no
    other. *)
Lemma probe_event_requeues_policy gw pol hc i address l host w :
  Name (polMeta pol) ≠ "" → Namespace (polMeta pol) ≠ "" →
  requestsOf (W := W) dnspolicyController (AProbe (expectedProbe gw pol hc i address l host)) w = (Ok [objectKey (polMeta pol)], w).
Proof.
  intros Hn Hns. unfold requestsOf, bind, lift, ret. cbn -[ProbeEventMapper.MapToPolicy].
  by rewrite expectedProbe_policy.
Qed.

(** What a cluster reports about a gateway reaches it: a change of the work
    that was placed for a gateway leads to a reconciliation of the gateway. *)
Lemma work_event_requeues_gateway (gateway : Gateway) (work : ObjectMeta) key w :
  occurs "/"%char (Name (gwMeta gateway)) = false → occurs "/"%char (Namespace (gwMeta gateway)) = false →
  MetaNamespaceKeyFunc (gwMeta gateway) = Ok key → Annotations work = {["kuadrant.io/parent" := key]} →
  requestsOf (W := W) gatewayController (AManifestWork work) w = (Ok [objectKey (gwMeta gateway)], w).
Proof.
  intros Hn Hns Hk Ha. unfold requestsOf, bind, lift, ret. cbn -[manifestWorkRequests]. unfold manifestWorkRequests.
  rewrite Ha, (bool_decide_eq_false_2 ({[_ := _]} = ∅)) by apply map_non_empty_singleton.
  rewrite lookup_singleton_eq. simpl. by rewrite (key_split _ _ Hn Hns Hk).
Qed.

(** A placement decision leads to reconciliations of the gateways in its
    namespace, or of none when they cannot be listed. *)
Lemma decision_event_requeues_gateways decision w requests w' :
  (∀ g : Gateway, metaOf g = gwMeta g) →
  requestsOf (W := W) gatewayController (APlacementDecision decision) w = (Ok requests, w') →
  requests = [] ∨ ∀ key, key ∈ requests ↔
    ∃ g, objs w !! key = Some g ∧ matches (mkListOptions (Namespace decision) ∅) (gwMeta g) = true.
Proof.
  intros Hmeta.
  change (requestsOf gatewayController (APlacementDecision decision) w) with
    ((let! mapped := (let! l := placementDecisionRequests (W := W) decision in ret (l ++ [])) in ret mapped) w).
  unfold placementDecisionRequests, bind, try, ret.
  destruct (clList _ w) as [[l|e|] w1] eqn:El; intros [= <- _]; [right|by left].
  apply api_list in El as [_ Hl]. intros key. rewrite app_nil_r, list_elem_of_fmap. split.
  - intros (g & -> & Hg). rewrite Hl, elem_of_stored in Hg. destruct Hg as [[k Hk] Hm]. exists g. rewrite Hmeta in Hm. split; [|done].
    pose proof (api_key _ _ _ Hk) as Hkey. unfold oKey in Hkey. rewrite Hmeta in Hkey. by subst k.
  - intros (g & Hk & Hm). exists g. pose proof (api_key _ _ _ Hk) as Hkey. unfold oKey in Hkey. rewrite Hmeta in Hkey.
    split; [done|]. rewrite Hl, elem_of_stored, Hmeta. by eauto.
Qed.

(** A gateway of a class of others is not reconciled. *)
Lemma foreign_gateway_ignored g w :
  shouldReconcile g = false → requestsOf (W := W) gatewayController (AGateway g) w = (Ok [], w).
Proof. intros Hf. unfold requestsOf, bind, lift, ret. cbn -[shouldReconcile]. by rewrite Hf. Qed.

(** No event makes a controller panic in its filter: the type assertion of the
    GatewayClass filter only sees gateway classes. *)
Lemma filters_total (c : Controller W) o :
  c ∈ [dnsrecordController; dnspolicyController; tlspolicyController; managedzoneController; gatewayclassController;
       gatewayController; probeController] →
  watched c o = true → cFilter c o ≠ Panic.
Proof.
  intros Hc Hw. repeat (apply elem_of_cons in Hc as [->|Hc]; [by destruct o|]). by apply not_elem_of_nil in Hc.
Qed.

End routing.
