(* ===== verification/Wiring.v ===== *)
(** * Schemes and the addon manager

    The scheme of the controller: the SchemeBuilder of pkg/apis/v1alpha1, its
    registrations in the files of the types, and the init function of
    cmd/controller/main.go.  The addon manager: cmd/ocm/main.go and the health
    prober of pkg/ocm/hub/addon.go.  Other packages' AddToScheme functions and
    the addon framework are arguments. *)

From S2P Require Import Prelude GoStrings Kube ApiTypes GatewayApi Events GatewayParams GatewayController Startup.
Local Open Scope go_scope.

(** ** Schemes *)

(** A group, a version and a kind; a scheme is the set of those it knows. *)
Definition GroupVersionKind : Type := string * string * string.
Definition Scheme : Type := gset GroupVersionKind.

(** pkg/apis/v1alpha1/groupversion_info.go *)
Definition GroupVersion : string * string := ("kuadrant.io", "v1alpha1").

(** The kinds that the init functions of the types register, file by file. *)
Definition DNSHealthCheckProbe_init : list string := ["DNSHealthCheckProbe"; "DNSHealthCheckProbeList"].
Definition DNSPolicy_init : list string := ["DNSPolicy"; "DNSPolicyList"].
Definition DNSRecord_init : list string := ["DNSRecord"; "DNSRecordList"].
Definition ManagedZone_init : list string := ["ManagedZone"; "ManagedZoneList"].
Definition TLSPolicy_init : list string := ["TLSPolicy"; "TLSPolicyList"].

Definition registeredKinds : list string :=
  DNSHealthCheckProbe_init ++ DNSPolicy_init ++ DNSRecord_init ++ ManagedZone_init ++ TLSPolicy_init.

(** [SchemeBuilder.AddToScheme] *)
Definition AddToScheme (s : Scheme) : Scheme :=
  s ∪ list_to_set ((λ kind, (GroupVersion.1, GroupVersion.2, kind)) <$> registeredKinds).

(** The AddToScheme functions of the other packages. *)
Class ExternalSchemes := {
  clientgo_AddToScheme : Scheme → res Scheme;
  certman_AddToScheme : Scheme → res Scheme;
  gatewayapi_AddToScheme : Scheme → res Scheme;
  clusterv1beta1_AddToScheme : Scheme → res Scheme;
  work_AddToScheme : Scheme → res Scheme;
  clusterv1_AddToScheme : Scheme → res Scheme
}.

(** [utilruntime.Must] *)
Definition Must {A} (r : res A) : res A := match r with Err _ => Panic | r => r end.

(** The init function of cmd/controller/main.go on client-go's scheme. *)
Definition initScheme `{ExternalSchemes} (s : Scheme) : res Scheme :=
  let? s := Must (clientgo_AddToScheme s) in
  let? s := Must (Ok (AddToScheme s)) in
  let? s := Must (certman_AddToScheme s) in
  let? s := Must (gatewayapi_AddToScheme s) in
  let? s := Must (clusterv1beta1_AddToScheme s) in
  let? s := Must (work_AddToScheme s) in
  Must (clusterv1_AddToScheme s).

(** The type of the objects of a kind that is watched. *)
Definition gvkOf (k : Kind) : GroupVersionKind :=
  match k with
  | KGateway => ("gateway.networking.k8s.io", "v1beta1", "Gateway")
  | KGatewayClass => ("gateway.networking.k8s.io", "v1beta1", "GatewayClass")
  | KDNSHealthCheckProbe => ("kuadrant.io", "v1alpha1", "DNSHealthCheckProbe")
  | KDNSPolicy => ("kuadrant.io", "v1alpha1", "DNSPolicy")
  | KTLSPolicy => ("kuadrant.io", "v1alpha1", "TLSPolicy")
  | KDNSRecord => ("kuadrant.io", "v1alpha1", "DNSRecord")
  | KManagedZone => ("kuadrant.io", "v1alpha1", "ManagedZone")
  | KManagedCluster => ("cluster.open-cluster-management.io", "v1", "ManagedCluster")
  | KManifestWork => ("work.open-cluster-management.io", "v1", "ManifestWork")
  | KPlacementDecision => ("cluster.open-cluster-management.io", "v1beta1", "PlacementDecision")
  | KSecret => ("", "v1", "Secret")
  end.

(** What an AddToScheme function promises: it fails or adds its kinds. *)
Definition adds (f : Scheme → res Scheme) (kinds : list GroupVersionKind) : Prop :=
  ∀ s, match f s with Ok s' => s ∪ list_to_set kinds ⊆ s' | Err _ => True | Panic => False end.

Section scheme.

Context `{ExternalSchemes}.
Context (Hclientgo : adds clientgo_AddToScheme [gvkOf KSecret]).
Context (Hcertman : adds certman_AddToScheme []).
Context (Hgateway : adds gatewayapi_AddToScheme [gvkOf KGateway; gvkOf KGatewayClass]).
Context (Hdecision : adds clusterv1beta1_AddToScheme [gvkOf KPlacementDecision]).
Context (Hwork : adds work_AddToScheme [gvkOf KManifestWork]).
Context (Hcluster : adds clusterv1_AddToScheme [gvkOf KManagedCluster]).

(** One more AddToScheme: its kinds and all before are known. *)
Lemma Must_adds f kinds s s' known :
  adds f kinds → known ⊆ s → Must (f s) = Ok s' → known ∪ list_to_set kinds ⊆ s'.
Proof. intros Hf Hk. specialize (Hf s). destruct (f s); cbn; [|done..]. intros [= <-]. by etransitivity; [apply union_mono_r|]. Qed.

Lemma rbind_Must (r : res Scheme) (k : Scheme → res Scheme) s : rbind (Must r) k = Ok s → ∃ s1, Must r = Ok s1 ∧ k s1 = Ok s.
Proof. destruct r as [s1| |]; [|done..]. intros E. by exists s1. Qed.

(** The scheme knows every kind of the program's own API group and every kind
    that a controller is for, owns or watches: no watch fails for an unknown
    kind. *)
Theorem kinds_in_scheme s s' :
  initScheme s = Ok s' →
  (∀ kind, kind ∈ registeredKinds → ("kuadrant.io", "v1alpha1", kind) ∈ s') ∧ ∀ k, gvkOf k ∈ s'.
Proof.
  unfold initScheme. intros Hrun.
  apply rbind_Must in Hrun as (s1 & E1 & Hrun). apply (Must_adds _ _ _ _ s Hclientgo) in E1; [|done].
  apply rbind_Must in Hrun as (s2 & [= <-] & Hrun).
  apply rbind_Must in Hrun as (s3 & E3 & Hrun). apply (Must_adds _ _ _ _ (AddToScheme s1) Hcertman) in E3; [|done].
  apply rbind_Must in Hrun as (s4 & E4 & Hrun). apply (Must_adds _ _ _ _ _ Hgateway E3) in E4.
  apply rbind_Must in Hrun as (s5 & E5 & Hrun). apply (Must_adds _ _ _ _ _ Hdecision E4) in E5.
  apply rbind_Must in Hrun as (s6 & E6 & Hrun). apply (Must_adds _ _ _ _ _ Hwork E5) in E6.
  apply (Must_adds _ _ _ _ _ Hcluster E6) in Hrun.
  pose proof (union_subseteq_l s1 _ : s1 ⊆ AddToScheme s1) as Hkept.
  assert (∀ kind, kind ∈ registeredKinds → ("kuadrant.io", "v1alpha1", kind) ∈ AddToScheme s1) as Hown.
  { intros kind Hkind. apply elem_of_union_r, elem_of_list_to_set.
    by apply (list_elem_of_fmap_2 (λ kind, (GroupVersion.1, GroupVersion.2, kind))). }
  revert E1 Hown Hkept Hrun. clear. generalize (AddToScheme s1). intros known E1 Hown Hkept Hrun.
  assert (∀ kind, kind ∈ registeredKinds → ("kuadrant.io", "v1alpha1", kind) ∈ s') as Hown'.
  { intros kind Hkind%Hown. apply Hrun. rewrite !elem_of_union. tauto. }
  assert (gvkOf KSecret ∈ known) as Hsecret.
  { apply Hkept, E1, elem_of_union_r, elem_of_list_to_set, list_elem_of_here. }
  split; [done|].
  assert (∀ k, gvkOf k ∈ known ∨ k ∈ [KGateway; KGatewayClass; KPlacementDecision; KManifestWork; KManagedCluster]) as Hkinds.
  { intros k. destruct (decide (k ∈ [KGateway; KGatewayClass; KPlacementDecision; KManifestWork; KManagedCluster])) as [|Hk]; [by right|].
    left. destruct k; try (destruct Hk; by apply (bool_decide_unpack _)); [apply Hown; by apply (bool_decide_unpack _)..|done]. }
  intros k. apply Hrun. destruct (Hkinds k) as [Hk|Hk]; rewrite !elem_of_union, !elem_of_list_to_set, !elem_of_cons; [tauto|].
  rewrite !elem_of_cons in Hk. destruct Hk as [->|[->|[->|[->|[->|Hk%elem_of_nil]]]]]; tauto.
Qed.

End scheme.

(** Functions that add what they promise exist. *)
Definition addKinds (kinds : list GroupVersionKind) (s : Scheme) : res Scheme := Ok (s ∪ list_to_set kinds).

Definition exampleSchemes : ExternalSchemes := {|
  clientgo_AddToScheme := addKinds [gvkOf KSecret];
  certman_AddToScheme := addKinds [];
  gatewayapi_AddToScheme := addKinds [gvkOf KGateway; gvkOf KGatewayClass];
  clusterv1beta1_AddToScheme := addKinds [gvkOf KPlacementDecision];
  work_AddToScheme := addKinds [gvkOf KManifestWork];
  clusterv1_AddToScheme := addKinds [gvkOf KManagedCluster]
|}.

Lemma addKinds_adds kinds : adds (addKinds kinds) kinds.
Proof. intros s. exact (reflexivity (R := (⊆)) _). Qed.

Lemma kinds_in_scheme_witness :
  ∃ s', initScheme (H := exampleSchemes) ∅ = Ok s' ∧ ∀ k, gvkOf k ∈ s'.
Proof.
  eexists. split; [reflexivity|].
  refine (proj2 (kinds_in_scheme (H := exampleSchemes) _ _ _ _ _ _ ∅ _ eq_refl)); apply addKinds_adds.
Qed.

(** ** The addon manager *)

Record ResourceIdentifier := mkResourceIdentifier { riGroup : string; riResource : string; riName : string; riNamespace : string }.
Record JsonPath := mkJsonPath { jpName : string; jpPath : string; jpVersion : string }.
Record ProbeField := mkProbeField { pfResource : ResourceIdentifier; pfJsonPaths : list JsonPath }.

(** agent.HealthProber, of type Work *)
Record HealthProber := mkHealthProber {
  ProbeFields : list ProbeField;
  hpHealthCheck : ResourceIdentifier → list AddonFeedback → res unit
}.

Definition AddonHealthProber : HealthProber :=
  mkHealthProber
    [mkProbeField (mkResourceIdentifier "operators.coreos.com" "subscriptions" "kuadrant-operator" "operators")
       [mkJsonPath "healthy" ".status.catalogHealth[0].healthy" "v1alpha1"]]
    (λ ri values, addonHealthCheck (riNamespace ri) (riName ri) values).

(** The functions that give the values of the templates; the framework merges
    their results in this order. *)
Inductive ValuesFunc := DefaultValues | ValuesFromAddonAnnotation.

Record AgentAddon := mkAgentAddon {
  aaName : string;
  aaTemplates : string;
  aaProber : HealthProber;
  aaScheme : list string;
  aaValues : list ValuesFunc
}.

(** The addon framework and controller-runtime, as main calls them. *)
Class AddonFramework (W : Type) := {
  addon_AddToScheme : string → M W unit;
  GetConfigOrDie : M W unit;
  addonmanager_New : M W unit;
  BuildTemplateAgentAddon : AgentAddon → M W unit;
  AddAgent : AgentAddon → M W unit;
  addonmanager_Start : M W unit
}.

Definition addonName : string := "kuadrant-addon".

Definition addonSchemes : list string := ["operators/v1alpha1"; "operators/v1"; "kuadrant/v1beta1"].

Definition kuadrantAddon : AgentAddon :=
  mkAgentAddon addonName "addon-manager/manifests" AddonHealthProber addonSchemes [DefaultValues; ValuesFromAddonAnnotation].

(** A call that fails ends the process, by a panic or (GetConfigOrDie) by an
    exit.  When none does, main waits for a context that is never done. *)
Inductive addonOutcome := ProcessEnded | WaitsForEver.

Section addon.

Context {W : Type} `{AddonFramework W}.

Fixpoint orPanic (steps : list (M W unit)) : M W addonOutcome :=
  match steps with
  | [] => ret WaitsForEver
  | step :: rest =>
      let! r := try step in
      match r with
      | inr _ => ret ProcessEnded
      | inl _ => orPanic rest
      end
  end.

Definition addonSteps : list (M W unit) :=
  (addon_AddToScheme <$> addonSchemes) ++
  [GetConfigOrDie; addonmanager_New; BuildTemplateAgentAddon kuadrantAddon; AddAgent kuadrantAddon; addonmanager_Start].

Definition addon_main : M W addonOutcome := orPanic addonSteps.

(** The steps in order, with their errors. *)
Definition inOrder (steps : list (M W unit)) : M W unit := foldr (λ step rest, do! step in rest) (ret tt) steps.

Lemma orPanic_spec steps w :
  orPanic steps w =
  match inOrder steps w with
  | (Ok _, w') => (Ok WaitsForEver, w')
  | (Err _, w') => (Ok ProcessEnded, w')
  | (Panic, w') => (Panic, w')
  end.
Proof.
  revert w. induction steps as [|step steps IH]; intros w; [done|]. cbn [orPanic inOrder foldr].
  unfold bind, try. destruct (step w) as [[[]|e|] w1]; [|done..]. apply IH.
Qed.

(** The addon manager stays up exactly when every call succeeded, the start of
    the manager with the agent being the last. *)
Lemma addon_stays_up w w' :
  addon_main w = (Ok WaitsForEver, w') ↔ inOrder addonSteps w = (Ok tt, w').
Proof.
  unfold addon_main. rewrite orPanic_spec.
  destruct (inOrder addonSteps w) as [[[]|e|] w1]; split; intros; by simplify_eq.
Qed.

End addon.

(** The prober asks for the health of the operator's subscription, and a report
    that its catalog is unhealthy crashes the check instead of failing it. *)
Lemma addon_prober_unhealthy :
  ∃ field, ProbeFields AddonHealthProber = [field] ∧
    hpHealthCheck AddonHealthProber (pfResource field) [mkAddonFeedback "healthy" (mkFieldValue None (Some true))] = Ok tt ∧
    hpHealthCheck AddonHealthProber (pfResource field) [mkAddonFeedback "healthy" (mkFieldValue None (Some false))] = Panic.
Proof. eexists. split_and!; reflexivity. Qed.
