(* ===== verification/DeepCopy.v ===== *)
(** * pkg/apis/v1alpha1/zz_generated.deepcopy.go

    The deep copies of the API types.  The controllers copy an object before
    they change it, to compare it with the original later and because the
    original belongs to the client's cache; so a copy must look the same and
    share nothing that can be written with the original.  Here, unlike in the
    other files, the objects are modelled as they lie in memory: a pointer, a
    slice or a map is a location, or nil, and what it refers to is a cell of
    the heap. *)

From S2P Require Import Prelude.
Local Open Scope go_scope.

(** ** Memory *)

Abbreviation loc := positive (only parsing).

Record Ptr (A : Type) := mkPtr { pRef : option loc }.
(** A slice that shows the whole of its array. *)
Record Slice (A : Type) := mkSlice { sRef : option loc }.
Arguments mkPtr {A}.
Arguments pRef {A}.
Arguments mkSlice {A}.
Arguments sRef {A}.
(** A map from strings to strings. *)
Record Map := mkMap { mRef : option loc }.

Abbreviation StringTable := (gmap string string).

(** The types of other packages that occur in the API types: plain ones
    (assigned), ones with a DeepCopyInto of their own, and the cells that the
    latter keep in memory. *)
Class External := {
  xTypeMeta : Type;
  xObjectReference : Type;
  xCertificatePrivateKey : Type;
  xTime : Type;
  xCondition : Type;
  xObjectMeta : Type;
  xListMeta : Type;
  xLabelSelector : Type;
  xPolicyTargetReference : Type;
  xcell : Type
}.

Section deepcopy.

Context {X : External}.

(** *** The API types in memory (durations and 32-bit integers as [Z]) *)

Record goAdditionalHeader := mkgoAdditionalHeader {
  ahName : string;
  ahValue : string
}.

Record goAdditionalHeadersRef := mkgoAdditionalHeadersRef {
  ahrName : string
}.

Record goManagedZoneReference := mkgoManagedZoneReference {
  mzrName : string
}.

Record goSecretRef := mkgoSecretRef {
  srNamespace : string;
  srName : string
}.

Record goDNSRecordRef := mkgoDNSRecordRef {
  drrName : string;
  drrNamespace : string
}.

Record goLoadBalancingGeo := mkgoLoadBalancingGeo {
  lbgDefaultGeo : string
}.

Record goProviderSpecificProperty := mkgoProviderSpecificProperty {
  pspName : string;
  pspValue : string
}.

Record goTarget := mkgoTarget {
  tgCluster : string;
  tgTargetType : string;
  tgValue : string
}.

Record goCertificateSpec := mkgoCertificateSpec {
  csIssuerRef : xObjectReference;
  csCommonName : string;
  csDuration : Ptr Z;
  csRenewBefore : Ptr Z;
  csUsages : Slice string;
  csRevisionHistoryLimit : Ptr Z;
  csPrivateKey : Ptr xCertificatePrivateKey
}.

Record goCustomWeight := mkgoCustomWeight {
  cwSelector : Ptr xLabelSelector;
  cwWeight : Z
}.

Record goDNSHealthCheckProbeSpec := mkgoDNSHealthCheckProbeSpec {
  psPort : Z;
  psHost : string;
  psAddress : string;
  psPath : string;
  psProtocol : string;
  psInterval : Z;
  psAdditionalHeadersRef : Ptr goAdditionalHeadersRef;
  psFailureThreshold : Ptr Z;
  psExpectedResponses : Slice Z;
  psAllowInsecureCertificate : bool
}.

Record goDNSHealthCheckProbeStatus := mkgoDNSHealthCheckProbeStatus {
  pstLastCheckedAt : xTime;
  pstConsecutiveFailures : Z;
  pstReason : string;
  pstStatus : Z;
  pstHealthy : Ptr bool
}.

Record goDNSHealthCheckProbe := mkgoDNSHealthCheckProbe {
  prTypeMeta : xTypeMeta;
  prObjectMeta : xObjectMeta;
  prSpec : goDNSHealthCheckProbeSpec;
  prStatus : goDNSHealthCheckProbeStatus
}.

Record goDNSHealthCheckProbeList := mkgoDNSHealthCheckProbeList {
  prlTypeMeta : xTypeMeta;
  prlListMeta : xListMeta;
  prlItems : Slice goDNSHealthCheckProbe
}.

Record goHealthCheckSpec := mkgoHealthCheckSpec {
  hcEndpoint : string;
  hcPort : Ptr Z;
  hcProtocol : Ptr string;
  hcFailureThreshold : Ptr Z;
  hcAdditionalHeadersRef : Ptr goAdditionalHeadersRef;
  hcExpectedResponses : Slice Z;
  hcAllowInsecureCertificates : bool;
  hcInterval : Ptr Z
}.

Record goHealthCheckStatus := mkgoHealthCheckStatus {
  hcsConditions : Slice xCondition
}.

Record goLoadBalancingWeighted := mkgoLoadBalancingWeighted {
  lbwDefaultWeight : Z;
  lbwCustom : Slice (Ptr goCustomWeight)
}.

Record goLoadBalancingSpec := mkgoLoadBalancingSpec {
  lbWeighted : Ptr goLoadBalancingWeighted;
  lbGeo : Ptr goLoadBalancingGeo
}.

Record goDNSPolicySpec := mkgoDNSPolicySpec {
  dpsTargetRef : xPolicyTargetReference;
  dpsHealthCheck : Ptr goHealthCheckSpec;
  dpsLoadBalancing : Ptr goLoadBalancingSpec
}.

Record goDNSPolicyStatus := mkgoDNSPolicyStatus {
  dpstConditions : Slice xCondition;
  dpstObservedGeneration : Z;
  dpstHealthCheck : Ptr goHealthCheckStatus
}.

Record goDNSPolicy := mkgoDNSPolicy {
  dpTypeMeta : xTypeMeta;
  dpObjectMeta : xObjectMeta;
  dpSpec : goDNSPolicySpec;
  dpStatus : goDNSPolicyStatus
}.

Record goDNSPolicyList := mkgoDNSPolicyList {
  dplTypeMeta : xTypeMeta;
  dplListMeta : xListMeta;
  dplItems : Slice goDNSPolicy
}.

Record goEndpoint := mkgoEndpoint {
  epDNSName : string;
  epTargets : Slice string;
  epRecordType : string;
  epSetIdentifier : string;
  epRecordTTL : Z;
  epLabels : Map;
  epProviderSpecific : Slice goProviderSpecificProperty
}.

Record goDNSRecordSpec := mkgoDNSRecordSpec {
  drsManagedZoneRef : Ptr goManagedZoneReference;
  drsEndpoints : Slice (Ptr goEndpoint)
}.

Record goDNSRecordStatus := mkgoDNSRecordStatus {
  drstConditions : Slice xCondition;
  drstObservedGeneration : Z;
  drstEndpoints : Slice (Ptr goEndpoint)
}.

Record goDNSRecord := mkgoDNSRecord {
  drTypeMeta : xTypeMeta;
  drObjectMeta : xObjectMeta;
  drSpec : goDNSRecordSpec;
  drStatus : goDNSRecordStatus
}.

Record goDNSRecordList := mkgoDNSRecordList {
  drlTypeMeta : xTypeMeta;
  drlListMeta : xListMeta;
  drlItems : Slice goDNSRecord
}.

Record goManagedZoneSpec := mkgoManagedZoneSpec {
  mzsID : string;
  mzsDomainName : string;
  mzsDescription : string;
  mzsParentManagedZone : Ptr goManagedZoneReference;
  mzsSecretRef : Ptr goSecretRef
}.

Record goManagedZoneStatus := mkgoManagedZoneStatus {
  mzstConditions : Slice xCondition;
  mzstObservedGeneration : Z;
  mzstID : string;
  mzstRecordCount : Z;
  mzstNameServers : Slice (Ptr string)
}.

Record goManagedZone := mkgoManagedZone {
  mzTypeMeta : xTypeMeta;
  mzObjectMeta : xObjectMeta;
  mzSpec : goManagedZoneSpec;
  mzStatus : goManagedZoneStatus
}.

Record goManagedZoneList := mkgoManagedZoneList {
  mzlTypeMeta : xTypeMeta;
  mzlListMeta : xListMeta;
  mzlItems : Slice goManagedZone
}.

Record goManagedHost := mkgoManagedHost {
  mhSubdomain : string;
  mhHost : string;
  mhManagedZone : Ptr goManagedZone;
  mhDnsRecord : Ptr goDNSRecord
}.

Record goTLSPolicySpec := mkgoTLSPolicySpec {
  tpsTargetRef : xPolicyTargetReference;
  tpsCertificateSpec : goCertificateSpec
}.

Record goTLSPolicyStatus := mkgoTLSPolicyStatus {
  tpstConditions : Slice xCondition;
  tpstObservedGeneration : Z
}.

Record goTLSPolicy := mkgoTLSPolicy {
  tpTypeMeta : xTypeMeta;
  tpObjectMeta : xObjectMeta;
  tpSpec : goTLSPolicySpec;
  tpStatus : goTLSPolicyStatus
}.

Record goTLSPolicyList := mkgoTLSPolicyList {
  tplTypeMeta : xTypeMeta;
  tplListMeta : xListMeta;
  tplItems : Slice goTLSPolicy
}.

(** *** Cells and the heap *)

Inductive cell :=
| CZ (v : Z)
| Cbool (v : bool)
| Cstring (v : string)
| CAdditionalHeader (v : goAdditionalHeader)
| CAdditionalHeadersRef (v : goAdditionalHeadersRef)
| CManagedZoneReference (v : goManagedZoneReference)
| CSecretRef (v : goSecretRef)
| CDNSRecordRef (v : goDNSRecordRef)
| CLoadBalancingGeo (v : goLoadBalancingGeo)
| CProviderSpecificProperty (v : goProviderSpecificProperty)
| CTarget (v : goTarget)
| CCertificateSpec (v : goCertificateSpec)
| Astring (v : list string)
| CCertificatePrivateKey (v : xCertificatePrivateKey)
| CCustomWeight (v : goCustomWeight)
| CLabelSelector (v : xLabelSelector)
| CDNSHealthCheckProbeSpec (v : goDNSHealthCheckProbeSpec)
| AZ (v : list Z)
| CDNSHealthCheckProbeStatus (v : goDNSHealthCheckProbeStatus)
| CDNSHealthCheckProbe (v : goDNSHealthCheckProbe)
| CDNSHealthCheckProbeList (v : goDNSHealthCheckProbeList)
| ADNSHealthCheckProbe (v : list goDNSHealthCheckProbe)
| CHealthCheckSpec (v : goHealthCheckSpec)
| CHealthCheckStatus (v : goHealthCheckStatus)
| ACondition (v : list xCondition)
| CLoadBalancingWeighted (v : goLoadBalancingWeighted)
| APtrCustomWeight (v : list (Ptr goCustomWeight))
| CLoadBalancingSpec (v : goLoadBalancingSpec)
| CDNSPolicySpec (v : goDNSPolicySpec)
| CDNSPolicyStatus (v : goDNSPolicyStatus)
| CDNSPolicy (v : goDNSPolicy)
| CDNSPolicyList (v : goDNSPolicyList)
| ADNSPolicy (v : list goDNSPolicy)
| CEndpoint (v : goEndpoint)
| CStringTable (v : StringTable)
| AProviderSpecificProperty (v : list goProviderSpecificProperty)
| CDNSRecordSpec (v : goDNSRecordSpec)
| APtrEndpoint (v : list (Ptr goEndpoint))
| CDNSRecordStatus (v : goDNSRecordStatus)
| CDNSRecord (v : goDNSRecord)
| CDNSRecordList (v : goDNSRecordList)
| ADNSRecord (v : list goDNSRecord)
| CManagedZoneSpec (v : goManagedZoneSpec)
| CManagedZoneStatus (v : goManagedZoneStatus)
| APtrstring (v : list (Ptr string))
| CManagedZone (v : goManagedZone)
| CManagedZoneList (v : goManagedZoneList)
| AManagedZone (v : list goManagedZone)
| CManagedHost (v : goManagedHost)
| CTLSPolicySpec (v : goTLSPolicySpec)
| CTLSPolicyStatus (v : goTLSPolicyStatus)
| CTLSPolicy (v : goTLSPolicy)
| CTLSPolicyList (v : goTLSPolicyList)
| ATLSPolicy (v : list goTLSPolicy)
| AAdditionalHeader (v : list goAdditionalHeader)
| Cexternal (v : xcell).

Abbreviation heap := (gmap loc cell).

(** The values that are kept in cells. *)
Class Storable (A : Type) := storable {
  inCell : A → cell;
  ofCell : cell → option A;
  of_in v : ofCell (inCell v) = Some v
}.

#[local] Arguments storable {A}.

#[export] Instance CZ_storable : Storable (Z) := storable CZ (λ c, match c with CZ v => Some v | _ => None end) (λ v, eq_refl).
#[export] Instance Cbool_storable : Storable (bool) := storable Cbool (λ c, match c with Cbool v => Some v | _ => None end) (λ v, eq_refl).
#[export] Instance Cstring_storable : Storable (string) := storable Cstring (λ c, match c with Cstring v => Some v | _ => None end) (λ v, eq_refl).
#[export] Instance CAdditionalHeader_storable : Storable (goAdditionalHeader) := storable CAdditionalHeader (λ c, match c with CAdditionalHeader v => Some v | _ => None end) (λ v, eq_refl).
#[export] Instance CAdditionalHeadersRef_storable : Storable (goAdditionalHeadersRef) := storable CAdditionalHeadersRef (λ c, match c with CAdditionalHeadersRef v => Some v | _ => None end) (λ v, eq_refl).
#[export] Instance CManagedZoneReference_storable : Storable (goManagedZoneReference) := storable CManagedZoneReference (λ c, match c with CManagedZoneReference v => Some v | _ => None end) (λ v, eq_refl).
#[export] Instance CSecretRef_storable : Storable (goSecretRef) := storable CSecretRef (λ c, match c with CSecretRef v => Some v | _ => None end) (λ v, eq_refl).
#[export] Instance CDNSRecordRef_storable : Storable (goDNSRecordRef) := storable CDNSRecordRef (λ c, match c with CDNSRecordRef v => Some v | _ => None end) (λ v, eq_refl).
#[export] Instance CLoadBalancingGeo_storable : Storable (goLoadBalancingGeo) := storable CLoadBalancingGeo (λ c, match c with CLoadBalancingGeo v => Some v | _ => None end) (λ v, eq_refl).
#[export] Instance CProviderSpecificProperty_storable : Storable (goProviderSpecificProperty) := storable CProviderSpecificProperty (λ c, match c with CProviderSpecificProperty v => Some v | _ => None end) (λ v, eq_refl).
#[export] Instance CTarget_storable : Storable (goTarget) := storable CTarget (λ c, match c with CTarget v => Some v | _ => None end) (λ v, eq_refl).
#[export] Instance CCertificateSpec_storable : Storable (goCertificateSpec) := storable CCertificateSpec (λ c, match c with CCertificateSpec v => Some v | _ => None end) (λ v, eq_refl).
#[export] Instance Astring_storable : Storable (list string) := storable Astring (λ c, match c with Astring v => Some v | _ => None end) (λ v, eq_refl).
#[export] Instance CCertificatePrivateKey_storable : Storable (xCertificatePrivateKey) := storable CCertificatePrivateKey (λ c, match c with CCertificatePrivateKey v => Some v | _ => None end) (λ v, eq_refl).
#[export] Instance CCustomWeight_storable : Storable (goCustomWeight) := storable CCustomWeight (λ c, match c with CCustomWeight v => Some v | _ => None end) (λ v, eq_refl).
#[export] Instance CLabelSelector_storable : Storable (xLabelSelector) := storable CLabelSelector (λ c, match c with CLabelSelector v => Some v | _ => None end) (λ v, eq_refl).
#[export] Instance CDNSHealthCheckProbeSpec_storable : Storable (goDNSHealthCheckProbeSpec) := storable CDNSHealthCheckProbeSpec (λ c, match c with CDNSHealthCheckProbeSpec v => Some v | _ => None end) (λ v, eq_refl).
#[export] Instance AZ_storable : Storable (list Z) := storable AZ (λ c, match c with AZ v => Some v | _ => None end) (λ v, eq_refl).
#[export] Instance CDNSHealthCheckProbeStatus_storable : Storable (goDNSHealthCheckProbeStatus) := storable CDNSHealthCheckProbeStatus (λ c, match c with CDNSHealthCheckProbeStatus v => Some v | _ => None end) (λ v, eq_refl).
#[export] Instance CDNSHealthCheckProbe_storable : Storable (goDNSHealthCheckProbe) := storable CDNSHealthCheckProbe (λ c, match c with CDNSHealthCheckProbe v => Some v | _ => None end) (λ v, eq_refl).
#[export] Instance CDNSHealthCheckProbeList_storable : Storable (goDNSHealthCheckProbeList) := storable CDNSHealthCheckProbeList (λ c, match c with CDNSHealthCheckProbeList v => Some v | _ => None end) (λ v, eq_refl).
#[export] Instance ADNSHealthCheckProbe_storable : Storable (list goDNSHealthCheckProbe) := storable ADNSHealthCheckProbe (λ c, match c with ADNSHealthCheckProbe v => Some v | _ => None end) (λ v, eq_refl).
#[export] Instance CHealthCheckSpec_storable : Storable (goHealthCheckSpec) := storable CHealthCheckSpec (λ c, match c with CHealthCheckSpec v => Some v | _ => None end) (λ v, eq_refl).
#[export] Instance CHealthCheckStatus_storable : Storable (goHealthCheckStatus) := storable CHealthCheckStatus (λ c, match c with CHealthCheckStatus v => Some v | _ => None end) (λ v, eq_refl).
#[export] Instance ACondition_storable : Storable (list xCondition) := storable ACondition (λ c, match c with ACondition v => Some v | _ => None end) (λ v, eq_refl).
#[export] Instance CLoadBalancingWeighted_storable : Storable (goLoadBalancingWeighted) := storable CLoadBalancingWeighted (λ c, match c with CLoadBalancingWeighted v => Some v | _ => None end) (λ v, eq_refl).
#[export] Instance APtrCustomWeight_storable : Storable (list (Ptr goCustomWeight)) := storable APtrCustomWeight (λ c, match c with APtrCustomWeight v => Some v | _ => None end) (λ v, eq_refl).
#[export] Instance CLoadBalancingSpec_storable : Storable (goLoadBalancingSpec) := storable CLoadBalancingSpec (λ c, match c with CLoadBalancingSpec v => Some v | _ => None end) (λ v, eq_refl).
#[export] Instance CDNSPolicySpec_storable : Storable (goDNSPolicySpec) := storable CDNSPolicySpec (λ c, match c with CDNSPolicySpec v => Some v | _ => None end) (λ v, eq_refl).
#[export] Instance CDNSPolicyStatus_storable : Storable (goDNSPolicyStatus) := storable CDNSPolicyStatus (λ c, match c with CDNSPolicyStatus v => Some v | _ => None end) (λ v, eq_refl).
#[export] Instance CDNSPolicy_storable : Storable (goDNSPolicy) := storable CDNSPolicy (λ c, match c with CDNSPolicy v => Some v | _ => None end) (λ v, eq_refl).
#[export] Instance CDNSPolicyList_storable : Storable (goDNSPolicyList) := storable CDNSPolicyList (λ c, match c with CDNSPolicyList v => Some v | _ => None end) (λ v, eq_refl).
#[export] Instance ADNSPolicy_storable : Storable (list goDNSPolicy) := storable ADNSPolicy (λ c, match c with ADNSPolicy v => Some v | _ => None end) (λ v, eq_refl).
#[export] Instance CEndpoint_storable : Storable (goEndpoint) := storable CEndpoint (λ c, match c with CEndpoint v => Some v | _ => None end) (λ v, eq_refl).
#[export] Instance CStringTable_storable : Storable (StringTable) := storable CStringTable (λ c, match c with CStringTable v => Some v | _ => None end) (λ v, eq_refl).
#[export] Instance AProviderSpecificProperty_storable : Storable (list goProviderSpecificProperty) := storable AProviderSpecificProperty (λ c, match c with AProviderSpecificProperty v => Some v | _ => None end) (λ v, eq_refl).
#[export] Instance CDNSRecordSpec_storable : Storable (goDNSRecordSpec) := storable CDNSRecordSpec (λ c, match c with CDNSRecordSpec v => Some v | _ => None end) (λ v, eq_refl).
#[export] Instance APtrEndpoint_storable : Storable (list (Ptr goEndpoint)) := storable APtrEndpoint (λ c, match c with APtrEndpoint v => Some v | _ => None end) (λ v, eq_refl).
#[export] Instance CDNSRecordStatus_storable : Storable (goDNSRecordStatus) := storable CDNSRecordStatus (λ c, match c with CDNSRecordStatus v => Some v | _ => None end) (λ v, eq_refl).
#[export] Instance CDNSRecord_storable : Storable (goDNSRecord) := storable CDNSRecord (λ c, match c with CDNSRecord v => Some v | _ => None end) (λ v, eq_refl).
#[export] Instance CDNSRecordList_storable : Storable (goDNSRecordList) := storable CDNSRecordList (λ c, match c with CDNSRecordList v => Some v | _ => None end) (λ v, eq_refl).
#[export] Instance ADNSRecord_storable : Storable (list goDNSRecord) := storable ADNSRecord (λ c, match c with ADNSRecord v => Some v | _ => None end) (λ v, eq_refl).
#[export] Instance CManagedZoneSpec_storable : Storable (goManagedZoneSpec) := storable CManagedZoneSpec (λ c, match c with CManagedZoneSpec v => Some v | _ => None end) (λ v, eq_refl).
#[export] Instance CManagedZoneStatus_storable : Storable (goManagedZoneStatus) := storable CManagedZoneStatus (λ c, match c with CManagedZoneStatus v => Some v | _ => None end) (λ v, eq_refl).
#[export] Instance APtrstring_storable : Storable (list (Ptr string)) := storable APtrstring (λ c, match c with APtrstring v => Some v | _ => None end) (λ v, eq_refl).
#[export] Instance CManagedZone_storable : Storable (goManagedZone) := storable CManagedZone (λ c, match c with CManagedZone v => Some v | _ => None end) (λ v, eq_refl).
#[export] Instance CManagedZoneList_storable : Storable (goManagedZoneList) := storable CManagedZoneList (λ c, match c with CManagedZoneList v => Some v | _ => None end) (λ v, eq_refl).
#[export] Instance AManagedZone_storable : Storable (list goManagedZone) := storable AManagedZone (λ c, match c with AManagedZone v => Some v | _ => None end) (λ v, eq_refl).
#[export] Instance CManagedHost_storable : Storable (goManagedHost) := storable CManagedHost (λ c, match c with CManagedHost v => Some v | _ => None end) (λ v, eq_refl).
#[export] Instance CTLSPolicySpec_storable : Storable (goTLSPolicySpec) := storable CTLSPolicySpec (λ c, match c with CTLSPolicySpec v => Some v | _ => None end) (λ v, eq_refl).
#[export] Instance CTLSPolicyStatus_storable : Storable (goTLSPolicyStatus) := storable CTLSPolicyStatus (λ c, match c with CTLSPolicyStatus v => Some v | _ => None end) (λ v, eq_refl).
#[export] Instance CTLSPolicy_storable : Storable (goTLSPolicy) := storable CTLSPolicy (λ c, match c with CTLSPolicy v => Some v | _ => None end) (λ v, eq_refl).
#[export] Instance CTLSPolicyList_storable : Storable (goTLSPolicyList) := storable CTLSPolicyList (λ c, match c with CTLSPolicyList v => Some v | _ => None end) (λ v, eq_refl).
#[export] Instance ATLSPolicy_storable : Storable (list goTLSPolicy) := storable ATLSPolicy (λ c, match c with ATLSPolicy v => Some v | _ => None end) (λ v, eq_refl).
#[export] Instance AAdditionalHeader_storable : Storable (list goAdditionalHeader) := storable AAdditionalHeader (λ c, match c with AAdditionalHeader v => Some v | _ => None end) (λ v, eq_refl).

(** Dereferencing; a dangling reference does not occur in Go. *)
Definition load {A} `{Storable A} (l : loc) : M heap A := λ h,
  match h !! l ≫= ofCell with
  | Some v => (Ok v, h)
  | None => (Panic, h)
  end.

Definition alloc {A} `{Storable A} (v : A) : M heap loc := λ h,
  let l := fresh (dom h) in (Ok l, <[l := inCell v]> h).

(** ** What one sees of a value by following its references

    [view h v] is what [v] stands for, and the locations that can be reached
    from it. *)

Class GoData (A : Type) := {
  Val : Type;
  view : heap → A → option (Val * gset loc);
  view_local h h' a x fp : view h a = Some (x, fp) → (∀ l, l ∈ fp → h' !! l = h !! l) → view h' a = Some (x, fp);
  view_dom h a x fp : view h a = Some (x, fp) → fp ⊆ dom h
}.
#[global] Arguments Val A {_}.

(** Values without references. *)
Program Definition flatData (A : Type) : GoData A := {| Val := A; view h a := Some (a, ∅) |}.
Next Obligation. done. Qed.
Next Obligation. intros A h a x fp [= _ <-]. set_solver. Qed.

Definition joinViews {V V'} (x : option (V * gset loc)) (y : option (V' * gset loc)) : option (V * V' * gset loc) :=
  match x, y with
  | Some (x, f), Some (y, g) => Some ((x, y), f ∪ g)
  | _, _ => None
  end.

#[export] Program Instance pair_data {A B} `{GoData A} `{GoData B} : GoData (A * B) :=
  {| Val := Val A * Val B; view h v := joinViews (view h v.1) (view h v.2) |}.
Next Obligation.
  intros A B HA HB h h' [a b] x fp Hv Hl. simpl in *. unfold joinViews in *.
  destruct (view h a) as [[x1 f1]|] eqn:E1; [|done]. destruct (view h b) as [[x2 f2]|] eqn:E2; [|done]. simplify_eq.
  erewrite view_local; [|done|set_solver]. erewrite (view_local (A := B)); [done|done|set_solver].
Qed.
Next Obligation.
  intros A B HA HB h [a b] x fp Hv. simpl in *. unfold joinViews in *.
  destruct (view h a) as [[x1 f1]|] eqn:E1; [|done]. destruct (view h b) as [[x2 f2]|] eqn:E2; [|done]. simplify_eq.
  apply view_dom in E1. apply view_dom in E2. set_solver.
Qed.

(** A struct is what its fields are. *)
Program Definition via {A B} `{GoData B} (fields : A → B) : GoData A :=
  {| Val := Val B; view h a := view h (fields a) |}.
Next Obligation. intros A B HB fields h h' a x fp. apply view_local. Qed.
Next Obligation. intros A B HB fields h a x fp. apply view_dom. Qed.

Definition viewList {A} `{GoData A} (h : heap) : list A → option (list (Val A) * gset loc) :=
  fix go l :=
    match l with
    | [] => Some ([], ∅)
    | a :: l =>
        match joinViews (view h a) (go l) with
        | Some ((x, xs), f) => Some (x :: xs, f)
        | None => None
        end
    end.

Lemma viewList_cons {A} `{GoData A} h (a : A) l x f :
  viewList h (a :: l) = Some (x, f) ↔
  ∃ y g ys gs, view h a = Some (y, g) ∧ viewList h l = Some (ys, gs) ∧ x = y :: ys ∧ f = g ∪ gs.
Proof.
  cbn [viewList]. unfold joinViews. destruct (view h a) as [[y g]|]; [|naive_solver].
  destruct (viewList h l) as [[ys gs]|] eqn:E; cbn [viewList] in E; rewrite ?E; naive_solver.
Qed.

#[export] Program Instance list_data {A} `{GoData A} : GoData (list A) := {| Val := list (Val A); view := viewList |}.
Next Obligation.
  intros A HA h h' l. induction l as [|a l IH]; intros x fp; [by intros [= <- <-]|].
  rewrite !viewList_cons. intros (y & g & ys & gs & Ha & Hl & -> & ->) Hh. exists y, g, ys, gs.
  split_and!; [eapply view_local; [done|set_solver]|apply IH; [done|set_solver]|done..].
Qed.
Next Obligation.
  intros A HA h l. induction l as [|a l IH]; intros x fp; [intros [= _ <-]; set_solver|].
  rewrite viewList_cons. intros (y & g & ys & gs & Ha & Hl & _ & ->). apply view_dom in Ha. apply IH in Hl. set_solver.
Qed.

(** Behind a reference: nil, or the value in the cell. *)
Definition viewRef {A} `{Storable A} `{GoData A} (h : heap) (r : option loc) : option (option (Val A) * gset loc) :=
  match r with
  | None => Some (None, ∅)
  | Some l =>
      match h !! l ≫= ofCell with
      | None => None
      | Some a => match view h a with Some (x, f) => Some (Some x, {[l]} ∪ f) | None => None end
      end
  end.

Lemma viewRef_Some {A} `{Storable A} `{GoData A} h l x f :
  viewRef (A := A) h (Some l) = Some (x, f) ↔
  ∃ a y g, h !! l ≫= ofCell = Some a ∧ view h a = Some (y, g) ∧ x = Some y ∧ f = {[l]} ∪ g.
Proof.
  simpl. destruct (h !! l ≫= ofCell) as [a|]; [|naive_solver]. destruct (view h a) as [[y g]|] eqn:E; naive_solver.
Qed.

Lemma viewRef_local {A} `{Storable A} `{GoData A} h h' r x fp :
  viewRef (A := A) h r = Some (x, fp) → (∀ l, l ∈ fp → h' !! l = h !! l) → viewRef (A := A) h' r = Some (x, fp).
Proof.
  destruct r as [l|]; [|done]. rewrite !viewRef_Some. intros (a & y & g & Ha & Hv & -> & ->) Hh. exists a, y, g.
  split_and!; [rewrite Hh by set_solver; done|eapply view_local; [done|set_solver]|done..].
Qed.

Lemma viewRef_dom {A} `{Storable A} `{GoData A} h r x fp : viewRef (A := A) h r = Some (x, fp) → fp ⊆ dom h.
Proof.
  destruct r as [l|]; [|intros [= _ <-]; set_solver]. rewrite viewRef_Some. intros (a & y & g & Ha & Hv & _ & ->).
  apply view_dom in Hv. apply bind_Some in Ha as (c & Hc & _). apply elem_of_dom_2 in Hc. set_solver.
Qed.

#[export] Instance Ptr_data {A} `{Storable A} `{GoData A} : GoData (Ptr A) :=
  {| Val := option (Val A); view h p := viewRef (A := A) h (pRef p);
     view_local h h' p := viewRef_local h h' (pRef p); view_dom h p := viewRef_dom h (pRef p) |}.
#[export] Instance Slice_data {A} `{Storable (list A)} `{GoData A} : GoData (Slice A) :=
  {| Val := option (list (Val A)); view h s := viewRef (A := list A) h (sRef s);
     view_local h h' s := viewRef_local h h' (sRef s); view_dom h s := viewRef_dom h (sRef s) |}.
#[export] Instance StringTable_data : GoData StringTable := flatData _.
#[export] Instance Map_data : GoData Map :=
  {| Val := option StringTable; view h m := viewRef (A := StringTable) h (mRef m);
     view_local h h' m := viewRef_local h h' (mRef m); view_dom h m := viewRef_dom h (mRef m) |}.

#[export] Instance string_data : GoData string := flatData _.
#[export] Instance Z_data : GoData Z := flatData _.
#[export] Instance bool_data : GoData bool := flatData _.
#[export] Instance xTypeMeta_data : GoData xTypeMeta := flatData _.
#[export] Instance xObjectReference_data : GoData xObjectReference := flatData _.
#[export] Instance xCertificatePrivateKey_data : GoData xCertificatePrivateKey := flatData _.

(** ** Copying *)

(** What [f] returns looks like its argument, lies in memory that was not in
    use, and nothing that was there has changed. *)
Definition Fresh {A} `{GoData A} (h0 h : heap) (a : A) (x : Val A) : Prop :=
  ∃ fp, view h a = Some (x, fp) ∧ fp ## dom h0.

Class Deep {A} `{GoData A} (f : A → M heap A) : Prop := deep :
  ∀ h a x fp, view h a = Some (x, fp) → ∃ a' h', f a h = (Ok a', h') ∧ h ⊆ h' ∧ Fresh h h' a' x.

(** The types of other packages, with their DeepCopyInto. *)
Class DeepCopyable (A : Type) `{GoData A} := { DeepCopyInto : A → M heap A; DeepCopyInto_deep : Deep DeepCopyInto }.

Context `{GoData xTime} `{!DeepCopyable xTime} `{GoData xCondition} `{!DeepCopyable xCondition}.
Context `{GoData xObjectMeta} `{!DeepCopyable xObjectMeta} `{GoData xListMeta} `{!DeepCopyable xListMeta}.
Context `{GoData xLabelSelector} `{!DeepCopyable xLabelSelector}.
Context `{GoData xPolicyTargetReference} `{!DeepCopyable xPolicyTargetReference} `{MapRange}.
#[local] Existing Instance DeepCopyInto_deep.

(** [*out = *in], [**out = **in] and the elements of [copy( *out, *in)] *)
Definition assign {A} (v : A) : M heap A := ret v.

(** [if in.F != nil { *out = new(T); ( *in).DeepCopyInto( *out) }] *)
Definition copyPtr {A} `{Storable A} (into : A → M heap A) (p : Ptr A) : M heap (Ptr A) :=
  match pRef p with
  | None => ret p
  | Some l =>
      let! v := load l in
      let! out := into v in
      let! l' := alloc out in
      ret (mkPtr (Some l'))
  end.

Fixpoint copyElems {A} (into : A → M heap A) (l : list A) : M heap (list A) :=
  match l with
  | [] => ret []
  | v :: rest =>
      let! out := into v in
      let! rest' := copyElems into rest in
      ret (out :: rest')
  end.

(** [*out = make([]T, len( *in))] and the loop over the elements *)
Definition makeSlice {A} `{Storable (list A)} (into : A → M heap A) (elems : list A) : M heap (Slice A) :=
  let! out := copyElems into elems in
  let! l' := alloc out in
  ret (mkSlice (Some l')).

Definition copySlice {A} `{Storable (list A)} (into : A → M heap A) (s : Slice A) : M heap (Slice A) :=
  match sRef s with
  | None => ret s
  | Some l => let! elems := load l in makeSlice into elems
  end.

(** [*out = make(map[string]string, len( *in)); for key, val := range *in { ( *out)[key] = val }] *)
Definition makeMap (table : StringTable) : M heap Map :=
  let! l' := alloc (foldl (λ m '(key, val), <[key := val]> m) (∅ : StringTable) (range_map table)) in
  ret (mkMap (Some l')).

Definition copyMap (m : Map) : M heap Map :=
  match mRef m with
  | None => ret m
  | Some l => let! table := load l in makeMap table
  end.

(** [if c := in.DeepCopy(); c != nil { return c }; return nil]: a nil pointer
    is not put into the interface. *)
Definition copyObject {A} (deepCopy : Ptr A → M heap (Ptr A)) (p : Ptr A) : M heap (option (Ptr A)) :=
  let! c := deepCopy p in
  match pRef c with
  | Some _ => ret (Some c)
  | None => ret None
  end.

#[export] Instance goAdditionalHeader_data : GoData goAdditionalHeader := flatData _.
#[export] Instance goAdditionalHeadersRef_data : GoData goAdditionalHeadersRef := flatData _.
#[export] Instance goManagedZoneReference_data : GoData goManagedZoneReference := flatData _.
#[export] Instance goSecretRef_data : GoData goSecretRef := flatData _.
#[export] Instance goDNSRecordRef_data : GoData goDNSRecordRef := flatData _.
#[export] Instance goLoadBalancingGeo_data : GoData goLoadBalancingGeo := flatData _.
#[export] Instance goProviderSpecificProperty_data : GoData goProviderSpecificProperty := flatData _.
#[export] Instance goTarget_data : GoData goTarget := flatData _.
#[export] Instance goCertificateSpec_data : GoData goCertificateSpec := via (λ v, (csIssuerRef v, (csCommonName v, (csDuration v, (csRenewBefore v, (csUsages v, (csRevisionHistoryLimit v, csPrivateKey v))))))).
#[export] Instance goCustomWeight_data : GoData goCustomWeight := via (λ v, (cwSelector v, cwWeight v)).
#[export] Instance goDNSHealthCheckProbeSpec_data : GoData goDNSHealthCheckProbeSpec := via (λ v, (psPort v, (psHost v, (psAddress v, (psPath v, (psProtocol v, (psInterval v, (psAdditionalHeadersRef v, (psFailureThreshold v, (psExpectedResponses v, psAllowInsecureCertificate v)))))))))).
#[export] Instance goDNSHealthCheckProbeStatus_data : GoData goDNSHealthCheckProbeStatus := via (λ v, (pstLastCheckedAt v, (pstConsecutiveFailures v, (pstReason v, (pstStatus v, pstHealthy v))))).
#[export] Instance goDNSHealthCheckProbe_data : GoData goDNSHealthCheckProbe := via (λ v, (prTypeMeta v, (prObjectMeta v, (prSpec v, prStatus v)))).
#[export] Instance goDNSHealthCheckProbeList_data : GoData goDNSHealthCheckProbeList := via (λ v, (prlTypeMeta v, (prlListMeta v, prlItems v))).
#[export] Instance goHealthCheckSpec_data : GoData goHealthCheckSpec := via (λ v, (hcEndpoint v, (hcPort v, (hcProtocol v, (hcFailureThreshold v, (hcAdditionalHeadersRef v, (hcExpectedResponses v, (hcAllowInsecureCertificates v, hcInterval v)))))))).
#[export] Instance goHealthCheckStatus_data : GoData goHealthCheckStatus := via (λ v, hcsConditions v).
#[export] Instance goLoadBalancingWeighted_data : GoData goLoadBalancingWeighted := via (λ v, (lbwDefaultWeight v, lbwCustom v)).
#[export] Instance goLoadBalancingSpec_data : GoData goLoadBalancingSpec := via (λ v, (lbWeighted v, lbGeo v)).
#[export] Instance goDNSPolicySpec_data : GoData goDNSPolicySpec := via (λ v, (dpsTargetRef v, (dpsHealthCheck v, dpsLoadBalancing v))).
#[export] Instance goDNSPolicyStatus_data : GoData goDNSPolicyStatus := via (λ v, (dpstConditions v, (dpstObservedGeneration v, dpstHealthCheck v))).
#[export] Instance goDNSPolicy_data : GoData goDNSPolicy := via (λ v, (dpTypeMeta v, (dpObjectMeta v, (dpSpec v, dpStatus v)))).
#[export] Instance goDNSPolicyList_data : GoData goDNSPolicyList := via (λ v, (dplTypeMeta v, (dplListMeta v, dplItems v))).
#[export] Instance goEndpoint_data : GoData goEndpoint := via (λ v, (epDNSName v, (epTargets v, (epRecordType v, (epSetIdentifier v, (epRecordTTL v, (epLabels v, epProviderSpecific v))))))).
#[export] Instance goDNSRecordSpec_data : GoData goDNSRecordSpec := via (λ v, (drsManagedZoneRef v, drsEndpoints v)).
#[export] Instance goDNSRecordStatus_data : GoData goDNSRecordStatus := via (λ v, (drstConditions v, (drstObservedGeneration v, drstEndpoints v))).
#[export] Instance goDNSRecord_data : GoData goDNSRecord := via (λ v, (drTypeMeta v, (drObjectMeta v, (drSpec v, drStatus v)))).
#[export] Instance goDNSRecordList_data : GoData goDNSRecordList := via (λ v, (drlTypeMeta v, (drlListMeta v, drlItems v))).
#[export] Instance goManagedZoneSpec_data : GoData goManagedZoneSpec := via (λ v, (mzsID v, (mzsDomainName v, (mzsDescription v, (mzsParentManagedZone v, mzsSecretRef v))))).
#[export] Instance goManagedZoneStatus_data : GoData goManagedZoneStatus := via (λ v, (mzstConditions v, (mzstObservedGeneration v, (mzstID v, (mzstRecordCount v, mzstNameServers v))))).
#[export] Instance goManagedZone_data : GoData goManagedZone := via (λ v, (mzTypeMeta v, (mzObjectMeta v, (mzSpec v, mzStatus v)))).
#[export] Instance goManagedZoneList_data : GoData goManagedZoneList := via (λ v, (mzlTypeMeta v, (mzlListMeta v, mzlItems v))).
#[export] Instance goManagedHost_data : GoData goManagedHost := via (λ v, (mhSubdomain v, (mhHost v, (mhManagedZone v, mhDnsRecord v)))).
#[export] Instance goTLSPolicySpec_data : GoData goTLSPolicySpec := via (λ v, (tpsTargetRef v, tpsCertificateSpec v)).
#[export] Instance goTLSPolicyStatus_data : GoData goTLSPolicyStatus := via (λ v, (tpstConditions v, tpstObservedGeneration v)).
#[export] Instance goTLSPolicy_data : GoData goTLSPolicy := via (λ v, (tpTypeMeta v, (tpObjectMeta v, (tpSpec v, tpStatus v)))).
#[export] Instance goTLSPolicyList_data : GoData goTLSPolicyList := via (λ v, (tplTypeMeta v, (tplListMeta v, tplItems v))).

(** ** The generated functions *)

Definition AdditionalHeader_DeepCopyInto (in_ : goAdditionalHeader) : M heap goAdditionalHeader := assign in_.
Definition AdditionalHeader_DeepCopy : Ptr goAdditionalHeader → M heap (Ptr goAdditionalHeader) := copyPtr AdditionalHeader_DeepCopyInto.

Definition AdditionalHeadersRef_DeepCopyInto (in_ : goAdditionalHeadersRef) : M heap goAdditionalHeadersRef := assign in_.
Definition AdditionalHeadersRef_DeepCopy : Ptr goAdditionalHeadersRef → M heap (Ptr goAdditionalHeadersRef) := copyPtr AdditionalHeadersRef_DeepCopyInto.

Definition ManagedZoneReference_DeepCopyInto (in_ : goManagedZoneReference) : M heap goManagedZoneReference := assign in_.
Definition ManagedZoneReference_DeepCopy : Ptr goManagedZoneReference → M heap (Ptr goManagedZoneReference) := copyPtr ManagedZoneReference_DeepCopyInto.

Definition SecretRef_DeepCopyInto (in_ : goSecretRef) : M heap goSecretRef := assign in_.
Definition SecretRef_DeepCopy : Ptr goSecretRef → M heap (Ptr goSecretRef) := copyPtr SecretRef_DeepCopyInto.

Definition DNSRecordRef_DeepCopyInto (in_ : goDNSRecordRef) : M heap goDNSRecordRef := assign in_.
Definition DNSRecordRef_DeepCopy : Ptr goDNSRecordRef → M heap (Ptr goDNSRecordRef) := copyPtr DNSRecordRef_DeepCopyInto.

Definition LoadBalancingGeo_DeepCopyInto (in_ : goLoadBalancingGeo) : M heap goLoadBalancingGeo := assign in_.
Definition LoadBalancingGeo_DeepCopy : Ptr goLoadBalancingGeo → M heap (Ptr goLoadBalancingGeo) := copyPtr LoadBalancingGeo_DeepCopyInto.

Definition ProviderSpecificProperty_DeepCopyInto (in_ : goProviderSpecificProperty) : M heap goProviderSpecificProperty := assign in_.
Definition ProviderSpecificProperty_DeepCopy : Ptr goProviderSpecificProperty → M heap (Ptr goProviderSpecificProperty) := copyPtr ProviderSpecificProperty_DeepCopyInto.

Definition Target_DeepCopyInto (in_ : goTarget) : M heap goTarget := assign in_.
Definition Target_DeepCopy : Ptr goTarget → M heap (Ptr goTarget) := copyPtr Target_DeepCopyInto.

Definition CertificateSpec_DeepCopyInto (in_ : goCertificateSpec) : M heap goCertificateSpec :=
  let! duration' := copyPtr assign (csDuration in_) in
  let! renewBefore' := copyPtr assign (csRenewBefore in_) in
  let! usages' := copySlice assign (csUsages in_) in
  let! revisionHistoryLimit' := copyPtr assign (csRevisionHistoryLimit in_) in
  let! privateKey' := copyPtr assign (csPrivateKey in_) in
  ret (mkgoCertificateSpec (csIssuerRef in_) (csCommonName in_) duration' renewBefore' usages'
    revisionHistoryLimit' privateKey').
Definition CertificateSpec_DeepCopy : Ptr goCertificateSpec → M heap (Ptr goCertificateSpec) := copyPtr CertificateSpec_DeepCopyInto.

Definition CustomWeight_DeepCopyInto (in_ : goCustomWeight) : M heap goCustomWeight :=
  let! selector' := copyPtr DeepCopyInto (cwSelector in_) in
  ret (mkgoCustomWeight selector' (cwWeight in_)).
Definition CustomWeight_DeepCopy : Ptr goCustomWeight → M heap (Ptr goCustomWeight) := copyPtr CustomWeight_DeepCopyInto.

Definition DNSHealthCheckProbeSpec_DeepCopyInto (in_ : goDNSHealthCheckProbeSpec) : M heap goDNSHealthCheckProbeSpec :=
  let! additionalHeadersRef' := copyPtr assign (psAdditionalHeadersRef in_) in
  let! failureThreshold' := copyPtr assign (psFailureThreshold in_) in
  let! expectedResponses' := copySlice assign (psExpectedResponses in_) in
  ret (mkgoDNSHealthCheckProbeSpec (psPort in_) (psHost in_) (psAddress in_) (psPath in_) (psProtocol in_)
    (psInterval in_) additionalHeadersRef' failureThreshold' expectedResponses' (psAllowInsecureCertificate in_)).
Definition DNSHealthCheckProbeSpec_DeepCopy : Ptr goDNSHealthCheckProbeSpec → M heap (Ptr goDNSHealthCheckProbeSpec) := copyPtr DNSHealthCheckProbeSpec_DeepCopyInto.

Definition DNSHealthCheckProbeStatus_DeepCopyInto (in_ : goDNSHealthCheckProbeStatus) : M heap goDNSHealthCheckProbeStatus :=
  let! lastCheckedAt' := DeepCopyInto (pstLastCheckedAt in_) in
  let! healthy' := copyPtr assign (pstHealthy in_) in
  ret (mkgoDNSHealthCheckProbeStatus lastCheckedAt' (pstConsecutiveFailures in_) (pstReason in_) (pstStatus in_)
    healthy').
Definition DNSHealthCheckProbeStatus_DeepCopy : Ptr goDNSHealthCheckProbeStatus → M heap (Ptr goDNSHealthCheckProbeStatus) := copyPtr DNSHealthCheckProbeStatus_DeepCopyInto.

Definition DNSHealthCheckProbe_DeepCopyInto (in_ : goDNSHealthCheckProbe) : M heap goDNSHealthCheckProbe :=
  let! objectMeta' := DeepCopyInto (prObjectMeta in_) in
  let! spec' := DNSHealthCheckProbeSpec_DeepCopyInto (prSpec in_) in
  let! status' := DNSHealthCheckProbeStatus_DeepCopyInto (prStatus in_) in
  ret (mkgoDNSHealthCheckProbe (prTypeMeta in_) objectMeta' spec' status').
Definition DNSHealthCheckProbe_DeepCopy : Ptr goDNSHealthCheckProbe → M heap (Ptr goDNSHealthCheckProbe) := copyPtr DNSHealthCheckProbe_DeepCopyInto.
Definition DNSHealthCheckProbe_DeepCopyObject : Ptr goDNSHealthCheckProbe → M heap (option (Ptr goDNSHealthCheckProbe)) := copyObject DNSHealthCheckProbe_DeepCopy.

Definition DNSHealthCheckProbeList_DeepCopyInto (in_ : goDNSHealthCheckProbeList) : M heap goDNSHealthCheckProbeList :=
  let! listMeta' := DeepCopyInto (prlListMeta in_) in
  let! items' := copySlice DNSHealthCheckProbe_DeepCopyInto (prlItems in_) in
  ret (mkgoDNSHealthCheckProbeList (prlTypeMeta in_) listMeta' items').
Definition DNSHealthCheckProbeList_DeepCopy : Ptr goDNSHealthCheckProbeList → M heap (Ptr goDNSHealthCheckProbeList) := copyPtr DNSHealthCheckProbeList_DeepCopyInto.
Definition DNSHealthCheckProbeList_DeepCopyObject : Ptr goDNSHealthCheckProbeList → M heap (option (Ptr goDNSHealthCheckProbeList)) := copyObject DNSHealthCheckProbeList_DeepCopy.

Definition HealthCheckSpec_DeepCopyInto (in_ : goHealthCheckSpec) : M heap goHealthCheckSpec :=
  let! port' := copyPtr assign (hcPort in_) in
  let! protocol' := copyPtr assign (hcProtocol in_) in
  let! failureThreshold' := copyPtr assign (hcFailureThreshold in_) in
  let! additionalHeadersRef' := copyPtr assign (hcAdditionalHeadersRef in_) in
  let! expectedResponses' := copySlice assign (hcExpectedResponses in_) in
  let! interval' := copyPtr assign (hcInterval in_) in
  ret (mkgoHealthCheckSpec (hcEndpoint in_) port' protocol' failureThreshold' additionalHeadersRef'
    expectedResponses' (hcAllowInsecureCertificates in_) interval').
Definition HealthCheckSpec_DeepCopy : Ptr goHealthCheckSpec → M heap (Ptr goHealthCheckSpec) := copyPtr HealthCheckSpec_DeepCopyInto.

Definition HealthCheckStatus_DeepCopyInto (in_ : goHealthCheckStatus) : M heap goHealthCheckStatus :=
  let! conditions' := copySlice DeepCopyInto (hcsConditions in_) in
  ret (mkgoHealthCheckStatus conditions').
Definition HealthCheckStatus_DeepCopy : Ptr goHealthCheckStatus → M heap (Ptr goHealthCheckStatus) := copyPtr HealthCheckStatus_DeepCopyInto.

Definition LoadBalancingWeighted_DeepCopyInto (in_ : goLoadBalancingWeighted) : M heap goLoadBalancingWeighted :=
  let! custom' := copySlice (copyPtr CustomWeight_DeepCopyInto) (lbwCustom in_) in
  ret (mkgoLoadBalancingWeighted (lbwDefaultWeight in_) custom').
Definition LoadBalancingWeighted_DeepCopy : Ptr goLoadBalancingWeighted → M heap (Ptr goLoadBalancingWeighted) := copyPtr LoadBalancingWeighted_DeepCopyInto.

Definition LoadBalancingSpec_DeepCopyInto (in_ : goLoadBalancingSpec) : M heap goLoadBalancingSpec :=
  let! weighted' := copyPtr LoadBalancingWeighted_DeepCopyInto (lbWeighted in_) in
  let! geo' := copyPtr assign (lbGeo in_) in
  ret (mkgoLoadBalancingSpec weighted' geo').
Definition LoadBalancingSpec_DeepCopy : Ptr goLoadBalancingSpec → M heap (Ptr goLoadBalancingSpec) := copyPtr LoadBalancingSpec_DeepCopyInto.

Definition DNSPolicySpec_DeepCopyInto (in_ : goDNSPolicySpec) : M heap goDNSPolicySpec :=
  let! targetRef' := DeepCopyInto (dpsTargetRef in_) in
  let! healthCheck' := copyPtr HealthCheckSpec_DeepCopyInto (dpsHealthCheck in_) in
  let! loadBalancing' := copyPtr LoadBalancingSpec_DeepCopyInto (dpsLoadBalancing in_) in
  ret (mkgoDNSPolicySpec targetRef' healthCheck' loadBalancing').
Definition DNSPolicySpec_DeepCopy : Ptr goDNSPolicySpec → M heap (Ptr goDNSPolicySpec) := copyPtr DNSPolicySpec_DeepCopyInto.

Definition DNSPolicyStatus_DeepCopyInto (in_ : goDNSPolicyStatus) : M heap goDNSPolicyStatus :=
  let! conditions' := copySlice DeepCopyInto (dpstConditions in_) in
  let! healthCheck' := copyPtr HealthCheckStatus_DeepCopyInto (dpstHealthCheck in_) in
  ret (mkgoDNSPolicyStatus conditions' (dpstObservedGeneration in_) healthCheck').
Definition DNSPolicyStatus_DeepCopy : Ptr goDNSPolicyStatus → M heap (Ptr goDNSPolicyStatus) := copyPtr DNSPolicyStatus_DeepCopyInto.

Definition DNSPolicy_DeepCopyInto (in_ : goDNSPolicy) : M heap goDNSPolicy :=
  let! objectMeta' := DeepCopyInto (dpObjectMeta in_) in
  let! spec' := DNSPolicySpec_DeepCopyInto (dpSpec in_) in
  let! status' := DNSPolicyStatus_DeepCopyInto (dpStatus in_) in
  ret (mkgoDNSPolicy (dpTypeMeta in_) objectMeta' spec' status').
Definition DNSPolicy_DeepCopy : Ptr goDNSPolicy → M heap (Ptr goDNSPolicy) := copyPtr DNSPolicy_DeepCopyInto.
Definition DNSPolicy_DeepCopyObject : Ptr goDNSPolicy → M heap (option (Ptr goDNSPolicy)) := copyObject DNSPolicy_DeepCopy.

Definition DNSPolicyList_DeepCopyInto (in_ : goDNSPolicyList) : M heap goDNSPolicyList :=
  let! listMeta' := DeepCopyInto (dplListMeta in_) in
  let! items' := copySlice DNSPolicy_DeepCopyInto (dplItems in_) in
  ret (mkgoDNSPolicyList (dplTypeMeta in_) listMeta' items').
Definition DNSPolicyList_DeepCopy : Ptr goDNSPolicyList → M heap (Ptr goDNSPolicyList) := copyPtr DNSPolicyList_DeepCopyInto.
Definition DNSPolicyList_DeepCopyObject : Ptr goDNSPolicyList → M heap (option (Ptr goDNSPolicyList)) := copyObject DNSPolicyList_DeepCopy.

Definition Endpoint_DeepCopyInto (in_ : goEndpoint) : M heap goEndpoint :=
  let! targets' := copySlice assign (epTargets in_) in
  let! labels' := copyMap (epLabels in_) in
  let! providerSpecific' := copySlice assign (epProviderSpecific in_) in
  ret (mkgoEndpoint (epDNSName in_) targets' (epRecordType in_) (epSetIdentifier in_) (epRecordTTL in_) labels'
    providerSpecific').
Definition Endpoint_DeepCopy : Ptr goEndpoint → M heap (Ptr goEndpoint) := copyPtr Endpoint_DeepCopyInto.

Definition DNSRecordSpec_DeepCopyInto (in_ : goDNSRecordSpec) : M heap goDNSRecordSpec :=
  let! managedZoneRef' := copyPtr assign (drsManagedZoneRef in_) in
  let! endpoints' := copySlice (copyPtr Endpoint_DeepCopyInto) (drsEndpoints in_) in
  ret (mkgoDNSRecordSpec managedZoneRef' endpoints').
Definition DNSRecordSpec_DeepCopy : Ptr goDNSRecordSpec → M heap (Ptr goDNSRecordSpec) := copyPtr DNSRecordSpec_DeepCopyInto.

Definition DNSRecordStatus_DeepCopyInto (in_ : goDNSRecordStatus) : M heap goDNSRecordStatus :=
  let! conditions' := copySlice DeepCopyInto (drstConditions in_) in
  let! endpoints' := copySlice (copyPtr Endpoint_DeepCopyInto) (drstEndpoints in_) in
  ret (mkgoDNSRecordStatus conditions' (drstObservedGeneration in_) endpoints').
Definition DNSRecordStatus_DeepCopy : Ptr goDNSRecordStatus → M heap (Ptr goDNSRecordStatus) := copyPtr DNSRecordStatus_DeepCopyInto.

Definition DNSRecord_DeepCopyInto (in_ : goDNSRecord) : M heap goDNSRecord :=
  let! objectMeta' := DeepCopyInto (drObjectMeta in_) in
  let! spec' := DNSRecordSpec_DeepCopyInto (drSpec in_) in
  let! status' := DNSRecordStatus_DeepCopyInto (drStatus in_) in
  ret (mkgoDNSRecord (drTypeMeta in_) objectMeta' spec' status').
Definition DNSRecord_DeepCopy : Ptr goDNSRecord → M heap (Ptr goDNSRecord) := copyPtr DNSRecord_DeepCopyInto.
Definition DNSRecord_DeepCopyObject : Ptr goDNSRecord → M heap (option (Ptr goDNSRecord)) := copyObject DNSRecord_DeepCopy.

Definition DNSRecordList_DeepCopyInto (in_ : goDNSRecordList) : M heap goDNSRecordList :=
  let! listMeta' := DeepCopyInto (drlListMeta in_) in
  let! items' := copySlice DNSRecord_DeepCopyInto (drlItems in_) in
  ret (mkgoDNSRecordList (drlTypeMeta in_) listMeta' items').
Definition DNSRecordList_DeepCopy : Ptr goDNSRecordList → M heap (Ptr goDNSRecordList) := copyPtr DNSRecordList_DeepCopyInto.
Definition DNSRecordList_DeepCopyObject : Ptr goDNSRecordList → M heap (option (Ptr goDNSRecordList)) := copyObject DNSRecordList_DeepCopy.

Definition ManagedZoneSpec_DeepCopyInto (in_ : goManagedZoneSpec) : M heap goManagedZoneSpec :=
  let! parentManagedZone' := copyPtr assign (mzsParentManagedZone in_) in
  let! secretRef' := copyPtr assign (mzsSecretRef in_) in
  ret (mkgoManagedZoneSpec (mzsID in_) (mzsDomainName in_) (mzsDescription in_) parentManagedZone' secretRef').
Definition ManagedZoneSpec_DeepCopy : Ptr goManagedZoneSpec → M heap (Ptr goManagedZoneSpec) := copyPtr ManagedZoneSpec_DeepCopyInto.

Definition ManagedZoneStatus_DeepCopyInto (in_ : goManagedZoneStatus) : M heap goManagedZoneStatus :=
  let! conditions' := copySlice DeepCopyInto (mzstConditions in_) in
  let! nameServers' := copySlice (copyPtr assign) (mzstNameServers in_) in
  ret (mkgoManagedZoneStatus conditions' (mzstObservedGeneration in_) (mzstID in_) (mzstRecordCount in_)
    nameServers').
Definition ManagedZoneStatus_DeepCopy : Ptr goManagedZoneStatus → M heap (Ptr goManagedZoneStatus) := copyPtr ManagedZoneStatus_DeepCopyInto.

Definition ManagedZone_DeepCopyInto (in_ : goManagedZone) : M heap goManagedZone :=
  let! objectMeta' := DeepCopyInto (mzObjectMeta in_) in
  let! spec' := ManagedZoneSpec_DeepCopyInto (mzSpec in_) in
  let! status' := ManagedZoneStatus_DeepCopyInto (mzStatus in_) in
  ret (mkgoManagedZone (mzTypeMeta in_) objectMeta' spec' status').
Definition ManagedZone_DeepCopy : Ptr goManagedZone → M heap (Ptr goManagedZone) := copyPtr ManagedZone_DeepCopyInto.
Definition ManagedZone_DeepCopyObject : Ptr goManagedZone → M heap (option (Ptr goManagedZone)) := copyObject ManagedZone_DeepCopy.

Definition ManagedZoneList_DeepCopyInto (in_ : goManagedZoneList) : M heap goManagedZoneList :=
  let! listMeta' := DeepCopyInto (mzlListMeta in_) in
  let! items' := copySlice ManagedZone_DeepCopyInto (mzlItems in_) in
  ret (mkgoManagedZoneList (mzlTypeMeta in_) listMeta' items').
Definition ManagedZoneList_DeepCopy : Ptr goManagedZoneList → M heap (Ptr goManagedZoneList) := copyPtr ManagedZoneList_DeepCopyInto.
Definition ManagedZoneList_DeepCopyObject : Ptr goManagedZoneList → M heap (option (Ptr goManagedZoneList)) := copyObject ManagedZoneList_DeepCopy.

Definition ManagedHost_DeepCopyInto (in_ : goManagedHost) : M heap goManagedHost :=
  let! managedZone' := copyPtr ManagedZone_DeepCopyInto (mhManagedZone in_) in
  let! dnsRecord' := copyPtr DNSRecord_DeepCopyInto (mhDnsRecord in_) in
  ret (mkgoManagedHost (mhSubdomain in_) (mhHost in_) managedZone' dnsRecord').
Definition ManagedHost_DeepCopy : Ptr goManagedHost → M heap (Ptr goManagedHost) := copyPtr ManagedHost_DeepCopyInto.

Definition TLSPolicySpec_DeepCopyInto (in_ : goTLSPolicySpec) : M heap goTLSPolicySpec :=
  let! targetRef' := DeepCopyInto (tpsTargetRef in_) in
  let! certificateSpec' := CertificateSpec_DeepCopyInto (tpsCertificateSpec in_) in
  ret (mkgoTLSPolicySpec targetRef' certificateSpec').
Definition TLSPolicySpec_DeepCopy : Ptr goTLSPolicySpec → M heap (Ptr goTLSPolicySpec) := copyPtr TLSPolicySpec_DeepCopyInto.

Definition TLSPolicyStatus_DeepCopyInto (in_ : goTLSPolicyStatus) : M heap goTLSPolicyStatus :=
  let! conditions' := copySlice DeepCopyInto (tpstConditions in_) in
  ret (mkgoTLSPolicyStatus conditions' (tpstObservedGeneration in_)).
Definition TLSPolicyStatus_DeepCopy : Ptr goTLSPolicyStatus → M heap (Ptr goTLSPolicyStatus) := copyPtr TLSPolicyStatus_DeepCopyInto.

Definition TLSPolicy_DeepCopyInto (in_ : goTLSPolicy) : M heap goTLSPolicy :=
  let! objectMeta' := DeepCopyInto (tpObjectMeta in_) in
  let! spec' := TLSPolicySpec_DeepCopyInto (tpSpec in_) in
  let! status' := TLSPolicyStatus_DeepCopyInto (tpStatus in_) in
  ret (mkgoTLSPolicy (tpTypeMeta in_) objectMeta' spec' status').
Definition TLSPolicy_DeepCopy : Ptr goTLSPolicy → M heap (Ptr goTLSPolicy) := copyPtr TLSPolicy_DeepCopyInto.
Definition TLSPolicy_DeepCopyObject : Ptr goTLSPolicy → M heap (option (Ptr goTLSPolicy)) := copyObject TLSPolicy_DeepCopy.

Definition TLSPolicyList_DeepCopyInto (in_ : goTLSPolicyList) : M heap goTLSPolicyList :=
  let! listMeta' := DeepCopyInto (tplListMeta in_) in
  let! items' := copySlice TLSPolicy_DeepCopyInto (tplItems in_) in
  ret (mkgoTLSPolicyList (tplTypeMeta in_) listMeta' items').
Definition TLSPolicyList_DeepCopy : Ptr goTLSPolicyList → M heap (Ptr goTLSPolicyList) := copyPtr TLSPolicyList_DeepCopyInto.
Definition TLSPolicyList_DeepCopyObject : Ptr goTLSPolicyList → M heap (option (Ptr goTLSPolicyList)) := copyObject TLSPolicyList_DeepCopy.

(** The named slices and maps: DeepCopyInto has no guard of its own. *)
Definition sliceElems {A} `{Storable (list A)} (s : Slice A) : M heap (list A) :=
  match sRef s with
  | None => ret []
  | Some l => load l
  end.

Definition Targets_DeepCopyInto (in_ : Slice string) : M heap (Slice string) :=
  let! elems := sliceElems in_ in makeSlice assign elems.
Definition ProviderSpecific_DeepCopyInto (in_ : Slice goProviderSpecificProperty) : M heap (Slice goProviderSpecificProperty) :=
  let! elems := sliceElems in_ in makeSlice assign elems.
Definition AdditionalHeaders_DeepCopyInto (in_ : Slice goAdditionalHeader) : M heap (Slice goAdditionalHeader) :=
  let! elems := sliceElems in_ in makeSlice assign elems.
Definition Labels_DeepCopyInto (in_ : Map) : M heap Map :=
  let! table := match mRef in_ with None => ret ∅ | Some l => load l end in makeMap table.

Definition Targets_DeepCopy (in_ : Slice string) : M heap (Slice string) :=
  match sRef in_ with None => ret in_ | Some _ => Targets_DeepCopyInto in_ end.
Definition ProviderSpecific_DeepCopy (in_ : Slice goProviderSpecificProperty) : M heap (Slice goProviderSpecificProperty) :=
  match sRef in_ with None => ret in_ | Some _ => ProviderSpecific_DeepCopyInto in_ end.
Definition AdditionalHeaders_DeepCopy (in_ : Slice goAdditionalHeader) : M heap (Slice goAdditionalHeader) :=
  match sRef in_ with None => ret in_ | Some _ => AdditionalHeaders_DeepCopyInto in_ end.
Definition Labels_DeepCopy (in_ : Map) : M heap Map :=
  match mRef in_ with None => ret in_ | Some _ => Labels_DeepCopyInto in_ end.

(** ** Properties *)

Lemma view_mono {A} `{GoData A} h h' a x fp : view h a = Some (x, fp) → h ⊆ h' → view h' a = Some (x, fp).
Proof.
  intros Hv Hh. eapply view_local; [done|]. intros l Hl. apply view_dom in Hv. apply Hv, elem_of_dom in Hl as [c Hc].
  rewrite Hc. by eapply lookup_weaken.
Qed.

Lemma fresh_mono {A} `{GoData A} h0 h h' a x : Fresh h0 h a x → h ⊆ h' → Fresh h0 h' a x.
Proof. intros (fp & Hv & Hd) Hh. exists fp. split; [by eapply view_mono|done]. Qed.

Lemma fresh_base {A} `{GoData A} h0 h1 h a x : Fresh h1 h a x → h0 ⊆ h1 → Fresh h0 h a x.
Proof. intros (fp & Hv & Hd) Hh. exists fp. split; [done|]. apply subseteq_dom in Hh. set_solver. Qed.

Lemma view_pair {A B} `{GoData A} `{GoData B} h (a : A) (b : B) v fp :
  view h (a, b) = Some (v, fp) →
  ∃ x f y g, view h a = Some (x, f) ∧ view h b = Some (y, g) ∧ v = (x, y).
Proof.
  simpl. unfold joinViews. destruct (view h a) as [[x f]|]; [|done]. destruct (view h b) as [[y g]|]; [|done].
  intros. simplify_eq. by exists x, f, y, g.
Qed.

Lemma fresh_pair {A B} `{GoData A} `{GoData B} h0 h (a : A) (b : B) x y :
  Fresh h0 h a x → Fresh h0 h b y → Fresh h0 h (a, b) (x, y).
Proof.
  intros (f & Ha & Hf) (g & Hb & Hg). exists (f ∪ g). simpl. rewrite Ha, Hb. split; [done|set_solver].
Qed.

(** Values without references are their own copies. *)
Class Flat (A : Type) `{GoData A} : Prop := flat_view : ∀ h h' (a : A) x fp, view h a = Some (x, fp) → view h' a = Some (x, ∅).

Lemma flatData_flat A : @Flat A (flatData A).
Proof. by intros h h' a x fp [= <- _]. Qed.

#[export] Instance string_flat : Flat string := flatData_flat _.
#[export] Instance Z_flat : Flat Z := flatData_flat _.
#[export] Instance bool_flat : Flat bool := flatData_flat _.
#[export] Instance StringTable_flat : Flat StringTable := flatData_flat _.
#[export] Instance xTypeMeta_flat : Flat xTypeMeta := flatData_flat _.
#[export] Instance xObjectReference_flat : Flat xObjectReference := flatData_flat _.
#[export] Instance xCertificatePrivateKey_flat : Flat xCertificatePrivateKey := flatData_flat _.
#[export] Instance goAdditionalHeader_flat : Flat goAdditionalHeader := flatData_flat _.
#[export] Instance goAdditionalHeadersRef_flat : Flat goAdditionalHeadersRef := flatData_flat _.
#[export] Instance goManagedZoneReference_flat : Flat goManagedZoneReference := flatData_flat _.
#[export] Instance goSecretRef_flat : Flat goSecretRef := flatData_flat _.
#[export] Instance goDNSRecordRef_flat : Flat goDNSRecordRef := flatData_flat _.
#[export] Instance goLoadBalancingGeo_flat : Flat goLoadBalancingGeo := flatData_flat _.
#[export] Instance goProviderSpecificProperty_flat : Flat goProviderSpecificProperty := flatData_flat _.
#[export] Instance goTarget_flat : Flat goTarget := flatData_flat _.

Lemma fresh_flat {A} `{GoData A} `{!Flat A} h0 h1 h (a : A) x fp : view h1 a = Some (x, fp) → Fresh h0 h a x.
Proof. intros Hv. exists ∅. split; [by eapply flat_view|set_solver]. Qed.

#[export] Instance deep_assign {A} `{GoData A} `{!Flat A} : Deep (A := A) assign.
Proof. intros h a x fp Hv. exists a, h. split_and!; [done..|]. by eapply fresh_flat. Qed.

(** Storing a fresh value behind a new reference. *)
Lemma alloc_fresh {A} `{Storable A} `{GoData A} h0 h (a : A) x :
  h0 ⊆ h → Fresh h0 h a x →
  ∃ l h', alloc a h = (Ok l, h') ∧ h ⊆ h' ∧ ∃ fp, viewRef (A := A) h' (Some l) = Some (Some x, fp) ∧ fp ## dom h0.
Proof.
  intros Hh (fp & Hv & Hd). unfold alloc. set (l := fresh (dom h)). exists l, (<[l := inCell a]> h).
  assert (l ∉ dom h) as Hl by apply is_fresh. assert (h ⊆ <[l := inCell a]> h) as Hsub by (by apply insert_subseteq, not_elem_of_dom).
  split_and!; [done|done|]. exists ({[l]} ∪ fp). split; [|apply subseteq_dom in Hh; set_solver].
  apply viewRef_Some. exists a, x, fp. rewrite lookup_insert_eq. split_and!; [apply of_in|by eapply view_mono|done..].
Qed.

Lemma load_view {A} `{Storable A} `{GoData A} h l x fp :
  viewRef (A := A) h (Some l) = Some (x, fp) → ∃ a y g, load l h = (Ok a, h) ∧ view h a = Some (y, g) ∧ x = Some y.
Proof. rewrite viewRef_Some. intros (a & y & g & Ha & Hv & -> & _). exists a, y, g. unfold load. by rewrite Ha. Qed.

#[export] Instance deep_Ptr {A} `{Storable A} `{GoData A} (into : A → M heap A) : Deep into → Deep (copyPtr into).
Proof.
  intros Hinto h [[l|]] x fp Hv; unfold copyPtr; cbn [pRef].
  2: { exists (mkPtr None), h. split_and!; [done..|]. simpl in Hv. simplify_eq. exists ∅. split; [done|set_solver]. }
  apply load_view in Hv as (a & y & g & Hl & Ha & ->). unfold bind at 1. rewrite Hl.
  destruct (deep h a y g Ha) as (a' & h1 & E & Hh & Hf). unfold bind at 1. rewrite E.
  destruct (alloc_fresh h h1 a' y Hh Hf) as (l' & h2 & Ea & Hh2 & Hv). unfold bind. rewrite Ea.
  eexists _, h2. split_and!; [done|by etrans|done].
Qed.

#[export] Instance deep_list {A} `{GoData A} (into : A → M heap A) : Deep into → Deep (copyElems into).
Proof.
  intros Hinto h l. revert h. induction l as [|a l IH]; intros h x fp Hv; cbn [copyElems].
  { exists [], h. split_and!; [done..|]. simpl in Hv. simplify_eq. exists ∅. split; [done|set_solver]. }
  apply viewList_cons in Hv as (y & g & ys & gs & Ha & Hl & -> & _).
  destruct (deep h a y g Ha) as (a' & h1 & E & Hh & Hf). unfold bind at 1. rewrite E.
  destruct (IH h1 ys gs) as (l' & h2 & El & Hh2 & Hfl); [by eapply (view_mono (A := list A))|]. unfold bind. rewrite El.
  exists (a' :: l'), h2. split_and!; [done|by etrans|]. destruct (fresh_mono _ _ _ _ _ Hf Hh2) as (f & Hva & Hda).
  destruct (fresh_base _ _ _ _ _ Hfl Hh) as (fs & Hvl & Hdl). exists (f ∪ fs). split; [|set_solver].
  apply viewList_cons. by exists y, f, ys, fs.
Qed.

Lemma makeSlice_deep {A} `{Storable (list A)} `{GoData A} (into : A → M heap A) `{!Deep into} h elems xs g :
  view h elems = Some (xs, g) → ∃ s' h', makeSlice into elems h = (Ok s', h') ∧ h ⊆ h' ∧ Fresh h h' s' (Some xs).
Proof.
  intros Hl. destruct (deep (f := copyElems into) h elems xs g Hl) as (l' & h1 & E & Hh & Hf).
  unfold makeSlice, bind. rewrite E. destruct (alloc_fresh h h1 l' xs Hh Hf) as (r & h2 & Ea & Hh2 & Hv). rewrite Ea.
  eexists _, h2. split_and!; [done|by etrans|done].
Qed.

#[export] Instance deep_Slice {A} `{Storable (list A)} `{GoData A} (into : A → M heap A) : Deep into → Deep (copySlice into).
Proof.
  intros Hinto h [[l|]] x fp Hv; unfold copySlice; cbn [sRef].
  2: { exists (mkSlice None), h. split_and!; [done..|]. simpl in Hv. simplify_eq. exists ∅. split; [done|set_solver]. }
  pose proof (load_view (A := list A) h l) as Hload. destruct (Hload x fp Hv) as (a & y & g & Hl & Ha & ->). unfold bind at 1. rewrite Hl. by eapply makeSlice_deep.
Qed.

Lemma copied_table (m : StringTable) : foldl (λ m '(key, val), <[key := val]> m) (∅ : StringTable) (range_map m) = m.
Proof.
  assert (∀ (l : list (string * string)) (acc : StringTable), NoDup l.*1 →
    foldl (λ m '(key, val), <[key := val]> m) acc l = list_to_map l ∪ acc) as Hf.
  { induction l as [|[k v] l IH]; intros acc Hnd; [simpl; by rewrite (left_id_L ∅ (∪))|].
    apply NoDup_cons in Hnd as [Hk Hnd]. simpl. rewrite IH by done.
    rewrite <- insert_union_r; [by rewrite insert_union_l|]. by apply not_elem_of_list_to_map_1. }
  assert (NoDup (range_map m).*1) as Hnd by (rewrite range_map_perm; apply NoDup_fst_map_to_list).
  rewrite Hf by done. rewrite (right_id_L ∅ (∪)). rewrite <- (list_to_map_to_list m) at 2.
  apply list_to_map_proper; [done|apply range_map_perm].
Qed.

Lemma makeMap_deep h table : ∃ m' h', makeMap table h = (Ok m', h') ∧ h ⊆ h' ∧ Fresh h h' m' (Some table).
Proof.
  unfold makeMap, bind. rewrite copied_table.
  pose proof (alloc_fresh h h table) as Ha. destruct (Ha table) as (l & h' & E & Hh & Hv); [done|by exists ∅; split; [|set_solver]|].
  rewrite E. by eexists _, h'.
Qed.

#[export] Instance deep_Map : Deep copyMap.
Proof.
  intros h [[l|]] x fp Hv; unfold copyMap; cbn [mRef].
  2: { exists (mkMap None), h. split_and!; [done..|]. simpl in Hv. simplify_eq. exists ∅. split; [done|set_solver]. }
  pose proof (load_view (A := StringTable) h l) as Hload. destruct (Hload x fp Hv) as (a & y & g & Hl & Ha & ->). unfold bind at 1. rewrite Hl.
  simpl in Ha. simplify_eq. apply makeMap_deep.
Qed.

(** One statement of a DeepCopyInto, seen from the heap [h0] it started in. *)
Lemma deep_step {A B} `{GoData A} (f : A → M heap A) `{!Deep f} (k : A → M heap B) (Q : B → heap → Prop) h0 h a x fp :
  view h0 a = Some (x, fp) → h0 ⊆ h →
  (∀ a' h', h0 ⊆ h' → h ⊆ h' → Fresh h0 h' a' x → ∃ r h'', k a' h' = (Ok r, h'') ∧ Q r h'') →
  ∃ r h'', bind (f a) k h = (Ok r, h'') ∧ Q r h''.
Proof.
  intros Hv Hh Hk. destruct (deep h a x fp) as (a' & h' & E & Hh' & Hf); [by eapply view_mono|].
  unfold bind. rewrite E. apply Hk; [by etrans|done|by eapply fresh_base].
Qed.

Lemma deep_via {A B} `{GoData B} (fields : A → B) (f : A → M heap A) :
  (∀ h a x fp, view h (fields a) = Some (x, fp) → ∃ a' h', f a h = (Ok a', h') ∧ h ⊆ h' ∧ Fresh h h' (fields a') x) →
  @Deep A (via fields) f.
Proof. intros Hf h a x fp. apply Hf. Qed.

(** The proof for a struct: take what is seen of it apart into its fields, go
    through the statements, put the copies together. *)
Ltac split_views :=
  repeat match goal with
  | H : view ?h (_, _) = Some _ |- _ => apply view_pair in H as (? & ? & ? & ? & ? & ? & ->)
  end.

Ltac copy_field :=
  lazymatch goal with |- ∃ _ _, bind (?f _) _ _ = _ ∧ _ => eapply (deep_step f) end; [eassumption|first [done|assumption]|];
  let Hsub := fresh in
  intros ? ? ? Hsub ?;
  repeat match goal with
  | H : Fresh _ ?h1 _ _ |- _ =>
      match type of Hsub with h1 ⊆ _ => apply (λ Hf, fresh_mono _ _ _ _ _ Hf Hsub) in H end
  end;
  clear Hsub.

Ltac solve_deep :=
  apply deep_via; intros h v x fp Hv; cbv beta in Hv; split_views;
  match goal with |- ∃ _ _, ?f v h = _ ∧ _ => unfold f end;
  repeat copy_field;
  eexists _, _; split; [reflexivity|]; split; [first [done|assumption]|];
  repeat apply fresh_pair; first [eassumption|eapply fresh_flat; eassumption].

#[export] Instance AdditionalHeader_deep : Deep AdditionalHeader_DeepCopyInto.
Proof. apply deep_assign. Qed.
#[export] Instance AdditionalHeadersRef_deep : Deep AdditionalHeadersRef_DeepCopyInto.
Proof. apply deep_assign. Qed.
#[export] Instance ManagedZoneReference_deep : Deep ManagedZoneReference_DeepCopyInto.
Proof. apply deep_assign. Qed.
#[export] Instance SecretRef_deep : Deep SecretRef_DeepCopyInto.
Proof. apply deep_assign. Qed.
#[export] Instance DNSRecordRef_deep : Deep DNSRecordRef_DeepCopyInto.
Proof. apply deep_assign. Qed.
#[export] Instance LoadBalancingGeo_deep : Deep LoadBalancingGeo_DeepCopyInto.
Proof. apply deep_assign. Qed.
#[export] Instance ProviderSpecificProperty_deep : Deep ProviderSpecificProperty_DeepCopyInto.
Proof. apply deep_assign. Qed.
#[export] Instance Target_deep : Deep Target_DeepCopyInto.
Proof. apply deep_assign. Qed.
#[export] Instance CertificateSpec_deep : Deep CertificateSpec_DeepCopyInto.
Proof. solve_deep. Qed.
#[export] Instance CustomWeight_deep : Deep CustomWeight_DeepCopyInto.
Proof. solve_deep. Qed.
#[export] Instance DNSHealthCheckProbeSpec_deep : Deep DNSHealthCheckProbeSpec_DeepCopyInto.
Proof. solve_deep. Qed.
#[export] Instance DNSHealthCheckProbeStatus_deep : Deep DNSHealthCheckProbeStatus_DeepCopyInto.
Proof. solve_deep. Qed.
#[export] Instance DNSHealthCheckProbe_deep : Deep DNSHealthCheckProbe_DeepCopyInto.
Proof. solve_deep. Qed.
#[export] Instance DNSHealthCheckProbeList_deep : Deep DNSHealthCheckProbeList_DeepCopyInto.
Proof. solve_deep. Qed.
#[export] Instance HealthCheckSpec_deep : Deep HealthCheckSpec_DeepCopyInto.
Proof. solve_deep. Qed.
#[export] Instance HealthCheckStatus_deep : Deep HealthCheckStatus_DeepCopyInto.
Proof. solve_deep. Qed.
#[export] Instance LoadBalancingWeighted_deep : Deep LoadBalancingWeighted_DeepCopyInto.
Proof. solve_deep. Qed.
#[export] Instance LoadBalancingSpec_deep : Deep LoadBalancingSpec_DeepCopyInto.
Proof. solve_deep. Qed.
#[export] Instance DNSPolicySpec_deep : Deep DNSPolicySpec_DeepCopyInto.
Proof. solve_deep. Qed.
#[export] Instance DNSPolicyStatus_deep : Deep DNSPolicyStatus_DeepCopyInto.
Proof. solve_deep. Qed.
#[export] Instance DNSPolicy_deep : Deep DNSPolicy_DeepCopyInto.
Proof. solve_deep. Qed.
#[export] Instance DNSPolicyList_deep : Deep DNSPolicyList_DeepCopyInto.
Proof. solve_deep. Qed.
#[export] Instance Endpoint_deep : Deep Endpoint_DeepCopyInto.
Proof. solve_deep. Qed.
#[export] Instance DNSRecordSpec_deep : Deep DNSRecordSpec_DeepCopyInto.
Proof. solve_deep. Qed.
#[export] Instance DNSRecordStatus_deep : Deep DNSRecordStatus_DeepCopyInto.
Proof. solve_deep. Qed.
#[export] Instance DNSRecord_deep : Deep DNSRecord_DeepCopyInto.
Proof. solve_deep. Qed.
#[export] Instance DNSRecordList_deep : Deep DNSRecordList_DeepCopyInto.
Proof. solve_deep. Qed.
#[export] Instance ManagedZoneSpec_deep : Deep ManagedZoneSpec_DeepCopyInto.
Proof. solve_deep. Qed.
#[export] Instance ManagedZoneStatus_deep : Deep ManagedZoneStatus_DeepCopyInto.
Proof. solve_deep. Qed.
#[export] Instance ManagedZone_deep : Deep ManagedZone_DeepCopyInto.
Proof. solve_deep. Qed.
#[export] Instance ManagedZoneList_deep : Deep ManagedZoneList_DeepCopyInto.
Proof. solve_deep. Qed.
#[export] Instance ManagedHost_deep : Deep ManagedHost_DeepCopyInto.
Proof. solve_deep. Qed.
#[export] Instance TLSPolicySpec_deep : Deep TLSPolicySpec_DeepCopyInto.
Proof. solve_deep. Qed.
#[export] Instance TLSPolicyStatus_deep : Deep TLSPolicyStatus_DeepCopyInto.
Proof. solve_deep. Qed.
#[export] Instance TLSPolicy_deep : Deep TLSPolicy_DeepCopyInto.
Proof. solve_deep. Qed.
#[export] Instance TLSPolicyList_deep : Deep TLSPolicyList_DeepCopyInto.
Proof. solve_deep. Qed.


(** The guarded copies of the named slices and maps; without the guard a nil
    slice becomes an empty one. *)
#[export] Instance Targets_deep : Deep Targets_DeepCopy.
Proof.
  intros h a x fp Hv. destruct (deep (f := copySlice assign) h a x fp Hv) as (a' & h' & E & Hrest). exists a', h'.
  split; [|done]. rewrite <- E. unfold Targets_DeepCopy, copySlice, Targets_DeepCopyInto, sliceElems.
  by destruct a as [[l|]].
Qed.
#[export] Instance ProviderSpecific_deep : Deep ProviderSpecific_DeepCopy.
Proof.
  intros h a x fp Hv. destruct (deep (f := copySlice assign) h a x fp Hv) as (a' & h' & E & Hrest). exists a', h'.
  split; [|done]. rewrite <- E. unfold ProviderSpecific_DeepCopy, copySlice, ProviderSpecific_DeepCopyInto, sliceElems.
  by destruct a as [[l|]].
Qed.
#[export] Instance AdditionalHeaders_deep : Deep AdditionalHeaders_DeepCopy.
Proof.
  intros h a x fp Hv. destruct (deep (f := copySlice assign) h a x fp Hv) as (a' & h' & E & Hrest). exists a', h'.
  split; [|done]. rewrite <- E. unfold AdditionalHeaders_DeepCopy, copySlice, AdditionalHeaders_DeepCopyInto, sliceElems.
  by destruct a as [[l|]].
Qed.
#[export] Instance Labels_deep : Deep Labels_DeepCopy.
Proof.
  intros h a x fp Hv. destruct (deep (f := copyMap) h a x fp Hv) as (a' & h' & E & Hrest). exists a', h'.
  split; [|done]. rewrite <- E. unfold Labels_DeepCopy, copyMap, Labels_DeepCopyInto. by destruct a as [[l|]].
Qed.

Lemma nil_Targets_DeepCopyInto h :
  ∃ l h', Targets_DeepCopyInto (mkSlice None) h = (Ok (mkSlice (Some l)), h') ∧ view h' (mkSlice (A := string) (Some l)) = Some (Some [], {[l]}).
Proof.
  exists (fresh (dom h)), (<[fresh (dom h) := inCell ([] : list string)]> h). split; [done|].
  simpl. rewrite lookup_insert_eq. simpl. by rewrite (right_id_L ∅ (∪)).
Qed.

(** *** Copies and their originals *)

(** [h'] holds a copy [a'] of [a]: they look the same, and whatever is written
    to the memory of one of them, the other looks as before. *)
Definition Isolated {A} `{GoData A} (h' : heap) (a a' : A) (x : Val A) : Prop :=
  ∃ fp fp', view h' a = Some (x, fp) ∧ view h' a' = Some (x, fp') ∧
    (∀ h'', (∀ l, l ∉ fp' → h'' !! l = h' !! l) → view h'' a = Some (x, fp)) ∧
    (∀ h'', (∀ l, l ∉ fp → h'' !! l = h' !! l) → view h'' a' = Some (x, fp')).

Lemma fresh_isolated {A} `{GoData A} h h' (a a' : A) x fp :
  view h a = Some (x, fp) → h ⊆ h' → Fresh h h' a' x → Isolated h' a a' x.
Proof.
  intros Hv Hh (fp' & Hv' & Hd). pose proof (view_dom _ _ _ _ Hv) as Hdom. pose proof (view_mono _ _ _ _ _ Hv Hh) as Hv2.
  exists fp, fp'. split_and!; [done|done|..]; intros h'' Hsame.
  - eapply view_local; [done|]. intros l Hl. apply Hsame. set_solver.
  - eapply view_local; [done|]. intros l Hl. apply Hsame. set_solver.
Qed.

(** What DeepCopyObject promises. *)
Definition CopiesObject {A} `{Storable A} `{GoData A} (deepCopyObject : Ptr A → M heap (option (Ptr A))) : Prop :=
  (∀ h, deepCopyObject (mkPtr None) h = (Ok None, h)) ∧
  ∀ h (p : Ptr A) (x : Val A) fp, view h p = Some (Some x, fp) →
    ∃ p' h', deepCopyObject p h = (Ok (Some p'), h') ∧ (∀ l, l ∈ dom h → h' !! l = h !! l) ∧ Isolated h' p p' (Some x).

Lemma deep_object {A} `{Storable A} `{GoData A} (into : A → M heap A) `{!Deep into} : CopiesObject (copyObject (copyPtr into)).
Proof.
  split; [done|]. intros h p x fp Hv. pose proof (deep (f := copyPtr into) h p) as Hdeep.
  destruct (Hdeep (Some x) fp Hv) as (p' & h' & E & Hh & Hf).
  exists p', h'. split_and!.
  - unfold copyObject, bind. rewrite E. destruct p' as [[l|]]; [done|]. by destruct Hf as (? & [=] & _).
  - intros l Hl. apply elem_of_dom in Hl as [c Hc]. rewrite Hc. by eapply lookup_weaken.
  - by eapply fresh_isolated.
Qed.

(** C38: deep copies.  For every kind of API object and of lists of them, the
    generated DeepCopyObject returns nil for nil; and for an object in memory,
    however its pointers, slices and maps are shared, it returns an object that
    looks the same, without changing what was in memory, such that nothing
    written to either of the two afterwards can be seen in the other. *)
Theorem deepcopy_isolates :
  CopiesObject DNSRecord_DeepCopyObject ∧ CopiesObject DNSRecordList_DeepCopyObject ∧
  CopiesObject DNSPolicy_DeepCopyObject ∧ CopiesObject DNSPolicyList_DeepCopyObject ∧
  CopiesObject ManagedZone_DeepCopyObject ∧ CopiesObject ManagedZoneList_DeepCopyObject ∧
  CopiesObject TLSPolicy_DeepCopyObject ∧ CopiesObject TLSPolicyList_DeepCopyObject ∧
  CopiesObject DNSHealthCheckProbe_DeepCopyObject ∧ CopiesObject DNSHealthCheckProbeList_DeepCopyObject.
Proof. split_and!; apply (deep_object _). Qed.

End deepcopy.

(** ** Examples and witnesses *)

(** Object metadata with a map of labels, everything else plain. *)
#[local] Instance exampleExternal : External := {|
  xTypeMeta := string; xObjectReference := string; xCertificatePrivateKey := string; xTime := Z; xCondition := string;
  xObjectMeta := string * Map; xListMeta := string; xLabelSelector := string; xPolicyTargetReference := string; xcell := unit
|}.
Abbreviation heap := (gmap loc cell).
#[local] Existing Instance range_in_key_order.

#[local] Instance xTime_data : GoData xTime := flatData _.
#[local] Instance xCondition_data : GoData xCondition := flatData _.
#[local] Instance xListMeta_data : GoData xListMeta := flatData _.
#[local] Instance xLabelSelector_data : GoData xLabelSelector := flatData _.
#[local] Instance xPolicyTargetReference_data : GoData xPolicyTargetReference := flatData _.
#[local] Instance xObjectMeta_data : GoData xObjectMeta := @pair_data _ string Map (flatData _) _.

Lemma flat_deep (A : Type) : @Deep _ A (flatData A) assign.
Proof. exact (@deep_assign _ A (flatData A) (flatData_flat A)). Qed.

#[local] Instance xTime_copy : DeepCopyable xTime := {| DeepCopyInto_deep := flat_deep Z |}.
#[local] Instance xCondition_copy : DeepCopyable xCondition := {| DeepCopyInto_deep := flat_deep string |}.
#[local] Instance xListMeta_copy : DeepCopyable xListMeta := {| DeepCopyInto_deep := flat_deep string |}.
#[local] Instance xLabelSelector_copy : DeepCopyable xLabelSelector := {| DeepCopyInto_deep := flat_deep string |}.
#[local] Instance xPolicyTargetReference_copy : DeepCopyable xPolicyTargetReference := {| DeepCopyInto_deep := flat_deep string |}.

Definition exampleMetaCopy (m : xObjectMeta) : M heap xObjectMeta :=
  let! labels := copyMap m.2 in ret (m.1, labels).

Lemma exampleMeta_deep : Deep exampleMetaCopy.
Proof.
  intros h [n m] x fp Hv. apply view_pair in Hv as (x1 & f & y & g & Hn & Hm & ->). unfold exampleMetaCopy.
  eapply (deep_step copyMap); [exact Hm|done|]. intros m' h' Hh _ Hf.
  exists (n, m'), h'. split_and!; [done|done|]. apply fresh_pair; [|done].
  exact (@fresh_flat _ string (flatData string) (flatData_flat string) h h h' n x1 f Hn).
Qed.

#[local] Instance xObjectMeta_copy : DeepCopyable xObjectMeta := {| DeepCopyInto_deep := exampleMeta_deep |}.

(** A record with one endpoint, which is in its spec and in its status: spec
    and status share it. *)
Definition memEndpoint : goEndpoint :=
  mkgoEndpoint "api.example.com" (mkSlice (Some 1%positive)) "A" "" 60 (mkMap (Some 2%positive)) (mkSlice None).
Definition memRecord : goDNSRecord :=
  mkgoDNSRecord "DNSRecord" ("record", mkMap (Some 2%positive))
    (mkgoDNSRecordSpec (mkPtr (Some 5%positive)) (mkSlice (Some 4%positive)))
    (mkgoDNSRecordStatus (mkSlice None) 1 (mkSlice (Some 4%positive))).
Definition memHeap : heap :=
  {[ 1%positive := Astring ["10.0.0.1"]; 2%positive := CStringTable {["app" := "api"]};
     3%positive := CEndpoint memEndpoint; 4%positive := APtrEndpoint [mkPtr (Some 3%positive)];
     5%positive := CManagedZoneReference (mkgoManagedZoneReference "zone"); 6%positive := CDNSRecord memRecord ]}.

(** What one sees of a record, and of the targets of an endpoint. *)
Definition seen (h : heap) (p : Ptr goDNSRecord) : option (Val (Ptr goDNSRecord)) := fst <$> view h p.

Definition seenTargets (h : heap) (p : Ptr goEndpoint) : option (list string) :=
  match h !! (default 1%positive (pRef p)) with
  | Some (CEndpoint e) => match h !! (default 1%positive (sRef (epTargets e))) with Some (Astring l) => Some l | _ => None end
  | _ => None
  end.

(** Whatever is then written to the copy, the original looks as before. *)
Lemma deepcopy_isolates_witness :
  ∃ p' h' fp', DNSRecord_DeepCopyObject (mkPtr (Some 6%positive)) memHeap = (Ok (Some p'), h') ∧
    ∀ h'' : heap, (∀ l, l ∉ (fp' : gset loc) → h'' !! l = h' !! l) →
      seen h'' (mkPtr (Some 6%positive)) = seen memHeap (mkPtr (Some 6%positive)).
Proof.
  destruct deepcopy_isolates as [[_ Hcopy] _].
  assert (match view memHeap (mkPtr (A := goDNSRecord) (Some 6%positive)) with Some (Some _, _) => true | _ => false end = true)
    as Hsome by (vm_cast_no_check (eq_refl true)).
  unfold seen. destruct (view memHeap (mkPtr (A := goDNSRecord) (Some 6%positive))) as [[[x|] fp0]|] eqn:Hv; [|discriminate Hsome..].
  destruct (Hcopy memHeap (mkPtr (Some 6%positive)) x fp0 Hv) as (p' & h' & E & _ & fp & fp' & _ & _ & Hsame & _).
  exists p', h', fp'. split; [exact E|]. intros h'' Hh. rewrite (Hsame h'' Hh). reflexivity.
Defined.

(** The endpoint that spec and status share in the original is copied twice. *)
Example copied_endpoints_not_shared :
  match (DNSRecord_DeepCopyObject (mkPtr (Some 6%positive)) memHeap) with
  | (Ok (Some (mkPtr (Some l))), h') =>
      match h' !! l with
      | Some (CDNSRecord r) => bool_decide (sRef (drsEndpoints (drSpec r)) = sRef (drstEndpoints (drStatus r)))
      | _ => true
      end
  | _ => true
  end = false.
Proof. vm_compute. reflexivity. Qed.

(** An assignment alone shares the targets with the original: writing them
    through the copy changes both. *)
Example shallow_copy_shares :
  match copyPtr assign (mkPtr (A := goEndpoint) (Some 3%positive)) memHeap with
  | (Ok (mkPtr (Some l)), h') =>
      match h' !! l with
      | Some (CEndpoint (mkgoEndpoint _ (mkSlice (Some targets)) _ _ _ _ _)) =>
          bool_decide (seenTargets (<[targets := Astring ["192.0.2.1"]]> h') (mkPtr (Some 3%positive)) =
                       seenTargets memHeap (mkPtr (Some 3%positive)))
      | _ => true
      end
  | _ => true
  end = false.
Proof. vm_compute. reflexivity. Qed.
